(* ===== verification/_CoqProject ===== *)
-Q . S2P
Prelude.v
PyText.v
Sha256.v
Sha3.v
Pem.v
Wire.v
Protobuf.v
Descriptors.v
CommonProtos.v
PeerProtos.v
Constants.v
TxData.v
Errors.v
Crypto.v
Suite.v
Grpc.v
Models.v
Transactions.v
Decoded.v
Block.v
Runtime.v
Factories.v
Connect.v
Events.v
Roundtrip.v
Blocks.v
Policies.v
Transact.v
Package.v
Operations.v
GrpcNetwork.v
Safety.v
Gateway.v
Completion.v
Deployment.v
Lifecycle.v
Served.v
Progress.v
Concurrent.v
Tasks.v
Config.v
Toy.v
Loopback.v
Witnesses.v
Fixtures.v
Conformance.v
