(* ===== verification/Prelude.v ===== *)
(** * snakeskin: a verification development

    snakeskin is an asyncio client of Hyperledger Fabric: it asks the peers of
    a network to endorse a chaincode call, hands the endorsed transaction to
    an orderer, and waits until a peer delivers the block that holds it.
    This library models the package under src/snakeskin (version and packaging
    aside) and proves what makes it correct.

    ** The program, and where its parts are

    A call goes down the layers and its answer comes back up:
<<
      Gateway, GatewayTXBuilder        models/gateway.py       Gateway.v
        several tasks on one builder                           Concurrent.v, Tasks.v
        what ends, what succeeds                               Progress.v, Completion.v,
                                                               Deployment.v, Lifecycle.v
        operations                     operations.py           Operations.v, Package.v
          transact                     transact.py             Transact.v
            factories                  factories.py            Factories.v, Policies.v, Pem.v
              cryptography             _hfc/crypto.py, crypto.py   Crypto.v, Suite.v
              protobuf messages        protos/*_pb2.py         Descriptors.v, CommonProtos.v, PeerProtos.v
            stubs and servicers        protos/*_pb2_grpc.py    Grpc.v, GrpcNetwork.v, Served.v
            connect                    connect.py              Connect.v
            events                     events.py               Events.v
              blocks and decoder       models/block.py, _decoded.py   Block.v, Decoded.v, Blocks.v
      data                             models/__init__.py      Models.v
                                       models/transaction.py   TxData.v, Transactions.v
                                       constants.py, errors.py Constants.v, Errors.v
      configuration                    config.py               Config.v
>>
    Below them are the parts of Python's library that the client's logic goes
    through: PyText.v (text and bytes), Sha256.v and Sha3.v (hashlib, hmac),
    Wire.v and Protobuf.v (the proto3 encoding and the reflection interface),
    Runtime.v (the clock, asyncio's [wait_for] and [gather], and
    [handle_conn_errors] of errors.py).  Definitions keep the names of the
    source; a method of a class that shares its name with another carries the
    class as a prefix ([DecodedTX_decode]), a leading underscore is dropped,
    [__post_init__] is [<Class>_post_init], and [__await__] of the builder is
    [await_builder].  Toy.v, Loopback.v and Witnesses.v hold instances of the
    parameters and the theorems applied to them; Conformance.v runs the
    repository's unit tests on the definitions, over the data files of
    Fixtures.v.

    ** How behaviour is modelled

    - Code that computes is a function into [res], a result or one of the
      exceptions of Errors.v, or no result at all ([Hang]).  Code that reads
      the clock, draws randomness, signs or calls out is in the monad [M] of
      Runtime.v, which threads a [World]: the clock and the trace of the
      actions so far.  Exceptions keep the state changes made before them.
    - The builder of models/gateway.py is an object its methods mutate and its
      queued operations close over: Gateway.v threads it beside the world, and
      its life is the step relation [builder_step] with [builder_reachable].
      There an await is one step.  Concurrent.v takes it apart: the builder is
      an object of a store, its queue a list object that tasks share, a task
      runs from one wait for the network to the next, and [handle] is the event
      loop, one step for each [Event] (a call of a method, an await, the start,
      the resumption or the cancellation of a task, anything else the program
      does).  [lives_refine] checks that the two agree where no other task runs.
    - What the client only calls is a parameter: [Network] (gRPC and the
      machines behind it: an answer may depend on everything done so far, be
      late, fail or never come), [Cryptography], [Protobuf], [FileSystem],
      [Packaging] (tar, stat, directory walks), [PySet] (the order in which a
      set is enumerated), and the readers of configuration files.  Laws are
      separate classes ([CryptographyLaws], [ProtobufLaws],
      [PackagingLaws]) and state what the libraries document.  Toy.v has an
      instance of each; [ProtobufLaws] is also proved of the real proto3
      encoding over the descriptors ([wire_protobuf_laws]).  [Network] is what
      the client's theorems are proved against; GrpcNetwork.v implements it by
      the generated stubs over the gRPC library ([GrpcLibrary], with
      [GrpcLaws]), Loopback.v runs that against servicers.
    - Integers are unbounded, as in Python; the protobuf fields are checked
      against their width where a message is built, and out of range is a
      [ValueError].  SHA-2 and SHA-3 wrap at 32 and 64 bits.
    - Time: local computation takes none; an awaited call takes the delay its
      answer carries.  [wait_for] cancels at its deadline and keeps the
      actions done before it; [gather] starts every task in order and fails
      with the earliest failure.  The client starts no background tasks, so a
      coroutine is interleaved only with those its caller starts: that is
      modelled where they share an object, the builder.
    - A response stream is a finite list of delayed messages and an end:
      closed, broken, or silent for ever; the last is how an endless
      subscription with no further blocks looks to a reader.

    ** Bounds and fuel

    [issubclass] climbs the exception hierarchy with fuel 5, the length of its
    longest chain; more fuel changes nothing ([issubclass_step]).  The decoders
    of Wire.v and PyText.v take the length of their input as fuel, and each
    step consumes a byte; [dec_enc_fields] and [utf8_decode_encode] prove it is
    enough.  The decoders of the recursive messages (SignaturePolicy,
    ConfigGroup) bound the nesting by the size of the encoding
    ([SignaturePolicy_dec_fields], [ConfigGroup_dec_fields]).  [chunks] in the
    hashes takes the length too.  No theorem about the client has fuel in it.

    ** What is proved

    - Submission, end to end.  [submitted_tx_decodes]: the bytes an orderer
      receives, read by the client's own decoder, are the transaction that was
      asked for.  [generated_tx_contents], [transient_map_not_submitted],
      [wrapped_envelope_verifies] and [config_update_decodes] are its parts
      for proposals, private data, signatures and channel configurations.
    - Blocks (Blocks.v): [Coded] pairs each decoder of models/_decoded.py with
      an encoding it inverts, up to the block as a peer or an orderer delivers
      it ([delivered_block_decodes]); on any bytes decoding ends, and
      [raw_block_decode_outcome] says with what.
    - Success, end to end (Completion.v): [working] states what the client needs
      of a network, which learns of a transaction only from the envelope that
      was broadcast; there [invoke_succeeds] and [gateway_invoke_succeeds].
      It composes the builders, the fan-out, the failover, the round trip of
      the envelope and the search of the events.
      Deployment.v does the same for the steps that come before an
      invocation: creating and joining a channel, installing and instantiating
      a chaincode.
    - Order (Lifecycle.v): [fabric] is a network that endorses a call only
      after what it depends on, read off the trace of what was put to it; the
      preparation of the end-to-end tests succeeds there, and so does every
      later invocation ([network_brought_up]).  [strict_network] of Toy.v is
      such a network, and refuses the steps out of order.
    - What operations do on every run (Safety.v, Gateway.v): nothing is
      broadcast that not every peer endorsed ([broadcast_only_endorsed]),
      queries never broadcast, an invocation that returns has been delivered
      as VALID ([invoke_returns_committed], [gateway_invoke_returns_committed]),
      no raw gRPC error escapes, guards fire before anything is sent.  The
      builder's attributes agree with what was sent in every reachable state
      ([builder_invariant]).
    - Termination (Progress.v): where peers and orderers answer, invoking,
      querying and every await of a builder end ([invocations_end]); joining a
      channel and raw event streams have no timeout and may wait for ever.
    - Tasks (Concurrent.v, Tasks.v): the same agreement under every
      interleaving, with cancellation ([tasks_invariant]), where a transaction
      that is held, returned or submitted has status 200 from every peer unless
      [propose(raise_errors=False)] was called or its refusal was raised in some
      task; an await that returns empties the queue in place, so that nothing
      is run twice and tasks in the middle of it go no further
      ([returned_await_clears]); where calls are answered no task is stuck
      ([tasks_can_finish]).
    - Stubs (Grpc.v, GrpcNetwork.v): every method of every stub meets the
      handler of its servicer with the same path, arity and message types
      ([stubs_match_servicers]), so a call of the client runs the servicer's
      method ([grpc_network_calls_servicers]); the generated base servicers
      refuse with UNIMPLEMENTED ([unimplemented_endorsers_refuse]), and with
      servicers that endorse and accept, proposing and committing succeed over
      the wire ([endorsed_and_committed_over_grpc], Served.v).
    - The calls (Connect.v, Transact.v, Events.v): the failover between
      orderers, the fan-out to peers, and the search of an event stream, each
      with its outcome on every branch; [check_transaction_sound] ends by its
      deadline whatever the peer does.
    - Endorsement policies (Policies.v): the message built is a refinement of
      [policy_holds], what a policy means; its indexes are in range; building
      succeeds exactly on well-formed policies; the result does not depend on
      the order of sets.
    - Cryptography (Crypto.v, Suite.v): the abstract class [Crypto] is an
      interface with a contract, and [ecies_fulfils] says exactly which suites
      [Ecies] builds keep it: signatures verify and decryption inverts
      encryption; signatures have one form.
    - Tests (Conformance.v): the unit tests, a Module per file, as examples
      that compute; the decoder reads the genesis block and the channel
      transaction that Fabric's tools made ([genesis_block_decoded],
      [channel_tx_decoded]).
    - Data: configuration look-ups and names, initialization, seek requests,
      text, PEM, package bytes.

    Runtime.v carries the proofs: [only P m] (every action of [m] satisfies
    [P]), [raises_only] (every exception of [m] satisfies a predicate) and
    [extends] (a run only adds to the trace) are closed under each combinator,
    and the hint database [snakeskin] applies those lemmas.

    ** What modelling showed

    Where the code and its documentation disagree the model follows the code.
    [ecies_fulfils], [decrypt_rejects_all]: a P-384 suite with the default SHA2
    rejects its own ciphertexts.  [missed_transaction_times_out]: the peer is
    asked for blocks only after the broadcast and from the newest on, so that a
    transaction that is no longer in the newest block is waited for in vain.
    [raw_get_transaction_never_returns]: looking for a transaction on an
    unfiltered hub raises AttributeError.
    [join_channel_needs_all_orderers]: joining fails when any orderer is down.
    [await_twice], [pem_to_der_armor] and [broadcast_to_orderer_outcome] each
    describe a branch that is not what its author meant.
    [two_awaits_submit_twice]: two tasks that await one builder both submit
    the transaction.  [returned_await_clears]: the first of them to return
    clears the list the other iterates over, which then ends without having run
    the rest ([second_task_skips_submit]).  [queued_call_lost] (Witnesses.v): a call queued between
    the ends of two such tasks is dropped, because the second clears the list
    it does not iterate over.  [test_decoded_tx_tx_id_stale]: a unit test
    expects the id of another genesis block than the one in the repository.

    ** Not modelled

    The gRPC library itself and what a cancelled call does on the wire; the
    messages of the protos package that the client never touches (a stub
    carries them by [OtherMessages]); the X.509 library behind
    [ecies_generate_csr]; the tests that only assert calls of mocks, the
    polling of containers in the end-to-end tests, scripts, key material and
    the example chaincode.  The clock of the event loop has no granularity and its queue of ready tasks no order:
    any ready task may be next, and one whose call fails before its first wait
    may let others run first.  [GrpcLaws] takes every call on a connected
    channel to reach the method: the library's limit on the size of a message
    is left out.  [str.lower] and [str.upper] agree with Python's where the
    result is in ASCII, which decides every role name; other letters keep their
    case, which shows in the text of the error for an unknown role.  Protobuf map fields are lists of entries in the order they are
    written, as the encoder sees them; text given to a protobuf string field is
    taken to have no lone surrogates, which the library would reject. *)

From stdpp Require Export base tactics option list list_monad numbers strings gmap sets sorting pretty.
From Stdlib Require Export Strings.Byte ZifyN ZifyNat ZifyBool Lia.

#[global] Set Default Goal Selector "!".

(** ** Bytes, text, and the two literal forms *)

Abbreviation bytes := (list Byte.byte).
(** A Python [str] is the list of its Unicode code points. *)
Abbreviation pystr := (list N).

Definition bs (s : string) : bytes := String.list_byte_of_string s.
Definition u (s : string) : pystr := Byte.to_N <$> String.list_byte_of_string s.

#[global] Instance byte_eq_dec : EqDecision Byte.byte := Byte.byte_eq_dec.
#[global] Program Instance byte_countable : Countable Byte.byte :=
  inj_countable Byte.to_N Byte.of_N _.
Next Obligation. intros b. apply Byte.of_to_N. Qed.

(** ** Outcomes of a Python call *)

(** A call returns a value, raises, or never finishes. *)
Inductive outcome (E A : Type) : Type :=
  | Ok (a : A)
  | Raise (e : E)
  | Hang.
Arguments Ok {E A} a.
Arguments Raise {E A} e.
Arguments Hang {E A}.

#[global] Instance outcome_ret {E} : MRet (outcome E) := λ A a, Ok a.
#[global] Instance outcome_bind {E} : MBind (outcome E) := λ A B k m,
  match m with Ok a => k a | Raise e => Raise e | Hang => Hang end.
#[global] Instance outcome_fmap {E} : FMap (outcome E) := λ A B f m,
  match m with Ok a => Ok (f a) | Raise e => Raise e | Hang => Hang end.

#[global] Instance outcome_eq_dec {E A} `{EqDecision E, EqDecision A} :
  EqDecision (outcome E A).
Proof. solve_decision. Defined.

(** [e if the option is None] *)
Definition or_raise {E A} (e : E) (o : option A) : outcome E A :=
  match o with Some a => Ok a | None => Raise e end.

(** ** Computations that thread a state *)

(** The state survives an exception: what was sent stays sent. *)
Definition SE (E S A : Type) : Type := S → outcome E A * S.

#[global] Instance SE_ret {E S} : MRet (SE E S) := λ A a s, (Ok a, s).
#[global] Instance SE_bind {E S} : MBind (SE E S) := λ A B k m s,
  match m s with
  | (Ok a, s') => k a s'
  | (Raise e, s') => (Raise e, s')
  | (Hang, s') => (Hang, s')
  end.
#[global] Instance SE_fmap {E S} : FMap (SE E S) := λ A B f m s,
  match m s with
  | (Ok a, s') => (Ok (f a), s')
  | (Raise e, s') => (Raise e, s')
  | (Hang, s') => (Hang, s')
  end.

Section SE.
Context {E S : Type}.

Definition lift {A} (o : outcome E A) : SE E S A := λ s, (o, s).
Definition throw {A} (e : E) : SE E S A := λ s, (Raise e, s).
Definition get : SE E S S := λ s, (Ok s, s).
Definition put (s : S) : SE E S unit := λ _, (Ok tt, s).
Definition modify (f : S → S) : SE E S unit := λ s, (Ok tt, f s).

(** [if c: raise e] *)
Definition raise_if (c : bool) (e : E) : SE E S unit :=
  if c then throw e else mret tt.

(** [try: m except: h], where [h] says which exceptions it catches. *)
Definition catch {A} (m : SE E S A) (h : E → option (SE E S A)) : SE E S A := λ s,
  match m s with
  | (Raise e, s') => match h e with Some k => k s' | None => (Raise e, s') end
  | r => r
  end.
End SE.

(** ** Inverting a computation that returned *)

Section inversion.
Context {E S A B : Type}.

Lemma outcome_bind_Ok (m : outcome E A) (k : A → outcome E B) b :
  m ≫= k = Ok b ↔ ∃ a, m = Ok a ∧ k a = Ok b.
Proof. destruct m; cbn; split; [eauto|by intros (?&[= ->]&?)|done|by intros (?&?&?)|done|by intros (?&?&?)]. Qed.

Lemma SE_bind_Ok (m : SE E S A) (k : A → SE E S B) s b s' :
  (m ≫= k) s = (Ok b, s') ↔ ∃ a s1, m s = (Ok a, s1) ∧ k a s1 = (Ok b, s').
Proof.
  unfold mbind, SE_bind. destruct (m s) as [[] ?].
  - split; [eauto | by intros (?&?&[= -> ->]&?)].
  - split; [done | by intros (?&?&?&?)].
  - split; [done | by intros (?&?&?&?)].
Qed.

Lemma SE_bind_run (m : SE E S A) (k : A → SE E S B) s a s1 :
  m s = (Ok a, s1) → (m ≫= k) s = k a s1.
Proof. intros Hm. unfold mbind, SE_bind. by rewrite Hm. Qed.

Lemma SE_bind_raise (m : SE E S A) (k : A → SE E S B) s e s1 :
  m s = (Raise e, s1) → (m ≫= k) s = (Raise e, s1).
Proof. intros Hm. unfold mbind, SE_bind. by rewrite Hm. Qed.

Lemma SE_bind_assoc_run {C} (m : SE E S A) (f : A → SE E S B) (k : B → SE E S C) s a s1 :
  m s = (Ok a, s1) → ((m ≫= f) ≫= k) s = (f a ≫= k) s1.
Proof. intros Hm. unfold mbind at 1, SE_bind at 1. rewrite (SE_bind_run _ _ _ _ _ Hm). done. Qed.

Lemma bind_Ok (a : A) (k : A → outcome E B) : Ok a ≫= k = k a.
Proof. done. Qed.
Lemma bind_Raise (e : E) (k : A → outcome E B) : Raise e ≫= k = Raise e.
Proof. done. Qed.

Lemma raise_if_Ok (c : bool) (e : E) (s s' : S) x :
  raise_if c e s = (Ok x, s') ↔ c = false ∧ s' = s.
Proof. destruct c, x; cbn; split; [done|by intros [? _]|by intros [= ->]|by intros [_ ->]]. Qed.

Lemma or_raise_Ok (e : E) (o : option A) a : or_raise e o = Ok a ↔ o = Some a.
Proof. destruct o; cbn; split; congruence. Qed.
End inversion.

(** Take apart every bind of a hypothesis [m s = (Ok _, _)]. *)
Ltac inv_run H :=
  lazymatch type of H with
  | (_ ≫= _) _ = (Ok _, _) =>
      let a := fresh "x" in let s := fresh "s" in
      let H1 := fresh "Hrun" in let H2 := fresh "Hrun" in
      apply SE_bind_Ok in H as (a & s & H1 & H2); inv_run H1; inv_run H2
  | raise_if _ _ _ = (Ok _, _) =>
      let H1 := fresh "Hguard" in apply raise_if_Ok in H as [H1 ->]
  | _ => idtac
  end.

(** ** Lists *)

Section lists.
Context {A B E : Type}.

Lemma mapM_outcome_Ok (f : A → outcome E B) l k :
  mapM f l = Ok k ↔ Forall2 (λ x y, f x = Ok y) l k.
Proof.
  revert k. induction l as [|x l IH]; intros k; cbn.
  - split; [intros [= <-]; constructor | by inversion 1].
  - rewrite outcome_bind_Ok. setoid_rewrite outcome_bind_Ok. split.
    + intros (y & Hx & ys & Hl & [= <-]). constructor; [done|]. by apply IH.
    + intros (y & ys & Hx & Hl & ->)%Forall2_cons_inv_l. exists y. split; [done|].
      exists ys. split; [by apply IH | done].
Qed.

(** A [mapM] whose steps return exactly on the elements that pass a test
    returns exactly when all pass. *)
Lemma mapM_outcome_forallb (f : A → outcome E B) (ok : A → bool) (bad : E → Prop) l :
  (∀ x, x ∈ l → if ok x then ∃ y, f x = Ok y else ∃ e, f x = Raise e ∧ bad e) →
  if forallb ok l then ∃ ys, mapM f l = Ok ys else ∃ e, mapM f l = Raise e ∧ bad e.
Proof.
  induction l as [|x l IH]; intros Hl; cbn; [by exists []|].
  pose proof (Hl x ltac:(left)) as Hx. destruct (ok x); cbn.
  - destruct Hx as [y ->]. cbn. specialize (IH ltac:(intros; apply Hl; by right)).
    destruct (forallb ok l).
    + destruct IH as [ys ->]. by exists (y :: ys).
    + destruct IH as (e & -> & ?). by exists e.
  - destruct Hx as (e & -> & ?). by exists e.
Qed.

Lemma mapM_outcome_ext (f g : A → outcome E B) l :
  (∀ x, x ∈ l → f x = g x) → mapM f l = mapM g l.
Proof.
  induction l as [|x l IH]; intros Hl; cbn; [done|].
  rewrite (Hl x) by left. destruct (g x); cbn; [|done|done].
  by rewrite IH by (intros; apply Hl; by right).
Qed.

Lemma forallb_True_all (f : A → bool) l : (∀ x, f x = true) → forallb f l = true.
Proof. intros Hf. induction l as [|x l IH]; cbn; [done|]. by rewrite Hf. Qed.

Lemma forallb_ext (f g : A → bool) l : (∀ x, f x = g x) → forallb f l = forallb g l.
Proof. intros Hfg. induction l as [|x l IH]; cbn; [done|]. by rewrite Hfg, IH. Qed.

Lemma mapM_option_fmap (f : B → option A) (g : A → B) l :
  Forall (λ x, f (g x) = Some x) l → mapM f (g <$> l) = Some l.
Proof. induction 1 as [|x l Hx _ IH]; cbn; [done|]. by rewrite Hx; cbn; rewrite IH. Qed.
End lists.

(** Python truthiness of [None] and of sequences. *)
Definition truthy {A} (o : option (list A)) : bool :=
  match o with Some (_ :: _) => true | _ => false end.
Definition is_nonempty {A} (l : list A) : bool :=
  match l with [] => false | _ :: _ => true end.

(** [x or y] *)
Definition py_or {A} (o : option (list A)) (d : list A) : list A :=
  match o with Some (x :: l) => x :: l | _ => d end.

Lemma truthy_Some {A} (l : list A) : truthy (Some l) = is_nonempty l.
Proof. by destruct l. Qed.

Lemma py_or_Some {A} (l : list A) : py_or (Some l) [] = l.
Proof. by destruct l. Qed.

(** ** Automation *)

(** Prove a decidable statement by evaluating its decision procedure. *)
Ltac by_compute :=
  lazymatch goal with |- ?P =>
    apply (@bool_decide_eq_true_1 P _); vm_compute; reflexivity end.

Create HintDb snakeskin discriminated.

(** ** Outcomes that are never [Hang] and raise only certain exceptions *)

Definition settles {E A} (Q : E → Prop) (o : outcome E A) : Prop :=
  match o with Ok _ => True | Raise e => Q e | Hang => False end.

Section settles.
Context {E A B : Type} (Q : E → Prop).

Lemma settles_Ok (a : A) : settles Q (Ok a).
Proof. done. Qed.
Lemma settles_ret (a : A) : settles Q (mret a : outcome E A).
Proof. done. Qed.
Lemma settles_or_raise e (o : option A) : Q e → settles Q (or_raise e o).
Proof. by destruct o. Qed.
Lemma settles_weaken (P : E → Prop) (m : outcome E A) :
  (∀ e, P e → Q e) → settles P m → settles Q m.
Proof. destruct m; cbn; auto. Qed.
Lemma settles_bind (m : outcome E A) (k : A → outcome E B) :
  settles Q m → (∀ a, settles Q (k a)) → settles Q (m ≫= k).
Proof. destruct m; [intros _ Hk; apply Hk|done|done]. Qed.
Lemma settles_fmap (f : A → B) (m : outcome E A) : settles Q m → settles Q (f <$> m).
Proof. by destruct m. Qed.
Lemma settles_if (c : bool) (m1 m2 : outcome E A) :
  settles Q m1 → settles Q m2 → settles Q (if c then m1 else m2).
Proof. by destruct c. Qed.
End settles.

Lemma settles_mapM {E A B} (Q : E → Prop) (f : A → outcome E B) l :
  (∀ a, settles Q (f a)) → settles Q (mapM f l).
Proof.
  intros Hf. induction l as [|a l IH]; [done|]. cbn.
  apply settles_bind; [apply Hf|intros b]. by apply settles_bind.
Qed.


(** Compute a call whose steps are known. *)
Ltac step_outcome :=
  repeat first [rewrite bind_Ok | rewrite bind_Raise | progress cbv beta iota zeta].

