(* ===== verification/PyText.v ===== *)
(** * PyText: the text and byte operations of Python that the client uses

    [str.encode('latin1')], [bytes.decode('utf-8')] and its inverse,
    [hexdigest], [base64.b64decode], [bytes.split]/[join], [str.lower] and
    [str.upper], and decimal formatting.  An operation that can
    raise returns [None]; the caller names the exception. *)
From S2P Require Import Prelude.


(** Decide the comparisons of a goal whose truth arithmetic settles. *)
Ltac simpl_cmp :=
  repeat first
    [ rewrite (proj2 (N.ltb_lt _ _)) by lia | rewrite (proj2 (N.ltb_ge _ _)) by lia
    | rewrite (proj2 (N.leb_le _ _)) by lia | rewrite (proj2 (N.leb_gt _ _)) by lia ];
  cbn [andb].

(** ** Bytes as numbers *)

Definition byte_of_N (n : N) : Byte.byte := default "000"%byte (Byte.of_N n).

Lemma to_of_byte n : (n < 256)%N → Byte.to_N (byte_of_N n) = n.
Proof.
  intros Hn. unfold byte_of_N. destruct (Byte.of_N n) as [b|] eqn:E; cbn.
  - by apply Byte.to_of_N.
  - apply Byte.of_N_None_iff in E. lia.
Qed.

Lemma of_to_byte b : byte_of_N (Byte.to_N b) = b.
Proof. unfold byte_of_N. by rewrite Byte.of_to_N. Qed.

Lemma byte_bound b : (Byte.to_N b < 256)%N.
Proof. pose proof (Byte.to_N_bounded b). lia. Qed.

Lemma bytes_fmap_id (l : bytes) : byte_of_N <$> (Byte.to_N <$> l) = l.
Proof. induction l as [|b l IH]; cbn; [done|]. by rewrite of_to_byte, IH. Qed.

Lemma u_inj s t : u s = u t → s = t.
Proof.
  unfold u. intros H.
  rewrite <-(String.string_of_list_byte_of_string s), <-(String.string_of_list_byte_of_string t).
  f_equal. by rewrite <-(bytes_fmap_id (String.list_byte_of_string s)), H, bytes_fmap_id.
Qed.

(** ** latin1 *)

(** [val.encode('latin1')]: [UnicodeEncodeError] above U+00FF. *)
Definition encode_latin1 (s : pystr) : option bytes :=
  mapM (λ c, if (c <? 256)%N then Some (byte_of_N c) else None) s.

Definition decode_latin1 (l : bytes) : pystr := Byte.to_N <$> l.

Lemma encode_decode_latin1 l : encode_latin1 (decode_latin1 l) = Some l.
Proof.
  unfold encode_latin1, decode_latin1. apply mapM_option_fmap, Forall_forall.
  intros b _. pose proof (byte_bound b) as Hb%N.ltb_lt. by rewrite Hb, of_to_byte.
Qed.

Lemma encode_latin1_spec s l :
  encode_latin1 s = Some l ↔ s = decode_latin1 l.
Proof.
  split; [|intros ->; apply encode_decode_latin1].
  unfold encode_latin1, decode_latin1. intros Hl%mapM_Some.
  induction Hl as [|c b s l Hc _ IH]; cbn; [done|].
  case_match eqn:E; simplify_eq. apply N.ltb_lt in E. by rewrite to_of_byte.
Qed.

Lemma encode_latin1_None s :
  encode_latin1 s = None ↔ Exists (λ c, 256 ≤ c)%N s.
Proof.
  unfold encode_latin1. rewrite mapM_None.
  split; intros H; eapply Exists_impl; try exact H; intros c; cbn;
    destruct (N.ltb_spec c 256); done || lia.
Qed.

(** ** UTF-8 *)

(** A Unicode scalar value: what UTF-8 can encode. *)
Definition is_scalar (c : N) : bool :=
  ((c <? 0xD800) || ((0xE000 <=? c) && (c <? 0x110000)))%N.

Definition utf8_char (c : N) : bytes :=
  byte_of_N <$>
  if (c <? 0x80)%N then [c]
  else if (c <? 0x800)%N then [0xC0 + c / 64; 0x80 + c mod 64]%N
  else if (c <? 0x10000)%N then
    [0xE0 + c / 4096; 0x80 + (c / 64) mod 64; 0x80 + c mod 64]%N
  else [0xF0 + c / 262144; 0x80 + (c / 4096) mod 64;
        0x80 + (c / 64) mod 64; 0x80 + c mod 64]%N.

Definition utf8_encode (s : pystr) : bytes := s ≫= utf8_char.

Definition is_cont (n : N) : bool := ((0x80 <=? n) && (n <? 0xC0))%N.

(** One character off the front, and the rest: the strict decoder rejects
    overlong forms, surrogates and values above U+10FFFF. *)
Definition utf8_step (l : list N) : option (N * list N) :=
  match l with
  | [] => None
  | a :: r =>
    if (a <? 0x80)%N then Some (a, r)
    else if ((0xC2 <=? a) && (a <? 0xE0))%N then
      match r with
      | b :: r => if is_cont b then Some ((a - 0xC0) * 64 + (b - 0x80), r)%N else None
      | _ => None
      end
    else if ((0xE0 <=? a) && (a <? 0xF0))%N then
      match r with
      | b :: c :: r =>
        let v := ((a - 0xE0) * 4096 + (b - 0x80) * 64 + (c - 0x80))%N in
        if is_cont b && is_cont c && (0x800 <=? v)%N && is_scalar v
        then Some (v, r) else None
      | _ => None
      end
    else if ((0xF0 <=? a) && (a <? 0xF5))%N then
      match r with
      | b :: c :: d :: r =>
        let v := ((a - 0xF0) * 262144 + (b - 0x80) * 4096 + (c - 0x80) * 64
                  + (d - 0x80))%N in
        if is_cont b && is_cont c && is_cont d && (0x10000 <=? v)%N && is_scalar v
        then Some (v, r) else None
      | _ => None
      end
    else None
  end.

Fixpoint utf8_decode_fuel (fuel : nat) (l : list N) : option pystr :=
  match fuel with
  | O => None
  | S f =>
    match l with
    | [] => Some []
    | _ => '(c, r) ← utf8_step l; s ← utf8_decode_fuel f r; Some (c :: s)
    end
  end.

(** [b.decode('utf-8')]: each step consumes a byte, so the length is fuel
    enough. *)
Definition utf8_decode (l : bytes) : option pystr :=
  utf8_decode_fuel (S (length l)) (Byte.to_N <$> l).

Definition valid_str (s : pystr) : bool := forallb is_scalar s.
#[global] Arguments valid_str _ : simpl never.

Lemma mod64 c : (c mod 64 < 64)%N.
Proof. by apply N.mod_lt. Qed.

Lemma is_cont_mod c : is_cont (0x80 + c mod 64) = true.
Proof.
  unfold is_cont. pose proof (mod64 c). rewrite andb_true_iff, N.leb_le, N.ltb_lt. lia.
Qed.

Lemma to_of_bytes (l : list N) :
  Forall (λ n, n < 256)%N l → Byte.to_N <$> (byte_of_N <$> l) = l.
Proof. induction 1; cbn; [done|]. rewrite to_of_byte by done. by f_equal. Qed.

Lemma N_split a b : b ≠ 0%N → (b * (a / b) + a mod b = a)%N.
Proof. intros Hb. symmetry. by apply N.div_mod. Qed.

(** Cutting a code point into its base-64 digits and putting it together. *)
Lemma digits2 c : (c / 64 * 64 + c mod 64 = c)%N.
Proof. pose proof (N_split c 64 ltac:(done)). lia. Qed.
Lemma digits3 c : (c / 4096 * 4096 + (c / 64) mod 64 * 64 + c mod 64 = c)%N.
Proof.
  pose proof (N_split c 64 ltac:(done)). pose proof (N_split (c / 64) 64 ltac:(done)).
  assert (c / 64 / 64 = c / 4096)%N by (rewrite N.Div0.div_div; done). lia.
Qed.
Lemma digits4 c :
  (c / 262144 * 262144 + (c / 4096) mod 64 * 4096 + (c / 64) mod 64 * 64 + c mod 64 = c)%N.
Proof.
  pose proof (digits3 c). pose proof (N_split (c / 4096) 64 ltac:(done)).
  assert (c / 4096 / 64 = c / 262144)%N by (rewrite N.Div0.div_div; done). lia.
Qed.

Lemma utf8_step_char c r :
  is_scalar c = true → utf8_step ((Byte.to_N <$> utf8_char c) ++ r) = Some (c, r).
Proof.
  intros Hc. unfold utf8_char.
  assert (c < 0x110000)%N by (unfold is_scalar in Hc; lia).
  pose proof (digits2 c) as D2. pose proof (digits3 c) as D3. pose proof (digits4 c) as D4.
  pose proof (mod64 c). pose proof (mod64 (c / 64)). pose proof (mod64 (c / 4096)).
  pose proof (is_cont_mod c) as K1. pose proof (is_cont_mod (c / 64)) as K2.
  pose proof (is_cont_mod (c / 4096)) as K3.
  repeat case_match; rewrite to_of_bytes by (repeat constructor; lia);
    cbn -[N.div N.modulo N.mul N.add N.sub N.leb N.ltb is_scalar is_cont];
    simpl_cmp.
  - done.
  - rewrite K1.
    by replace ((0xC0 + c / 64 - 0xC0) * 64 + (0x80 + c mod 64 - 0x80))%N with c by lia.
  - rewrite K1, K2. cbn [andb].
    replace ((0xE0 + c / 4096 - 0xE0) * 4096 + (0x80 + (c / 64) mod 64 - 0x80) * 64
             + (0x80 + c mod 64 - 0x80))%N with c by lia.
    by rewrite Hc.
  - rewrite K1, K2, K3. cbn [andb].
    replace ((0xF0 + c / 262144 - 0xF0) * 262144 + (0x80 + (c / 4096) mod 64 - 0x80) * 4096
             + (0x80 + (c / 64) mod 64 - 0x80) * 64 + (0x80 + c mod 64 - 0x80))%N
      with c by lia.
    by rewrite Hc.
Qed.

Lemma utf8_encode_cons c s : utf8_encode (c :: s) = utf8_char c ++ utf8_encode s.
Proof. done. Qed.

Lemma utf8_char_nonempty c : utf8_char c ≠ [].
Proof. unfold utf8_char. by repeat case_match. Qed.

Lemma utf8_decode_fuel_S f l :
  l ≠ [] → utf8_decode_fuel (S f) l =
    '(c, r) ← utf8_step l; s ← utf8_decode_fuel f r; Some (c :: s).
Proof. by destruct l. Qed.

Lemma utf8_decode_fuel_encode s fuel :
  valid_str s = true → length s < fuel →
  utf8_decode_fuel fuel (Byte.to_N <$> utf8_encode s) = Some s.
Proof.
  revert fuel. induction s as [|c s IH]; intros [|fuel]; try (cbn; lia); [done|].
  intros [Hc Hs]%andb_true_iff Hf. rewrite utf8_encode_cons.
  cbn in Hf. rewrite utf8_decode_fuel_S.
  - rewrite fmap_app, utf8_step_char by done. cbn. rewrite IH; [done|done|lia].
  - intros [E _]%fmap_nil_inv%app_eq_nil. by apply utf8_char_nonempty in E.
Qed.

Lemma utf8_encode_length s : length s ≤ length (utf8_encode s).
Proof.
  induction s as [|c s IH]; [cbn; lia|]. rewrite utf8_encode_cons, length_app.
  pose proof (utf8_char_nonempty c). destruct (utf8_char c); cbn; [done|lia].
Qed.

(** Decoding inverts encoding on every text without surrogates. *)
Lemma utf8_decode_encode s : valid_str s = true → utf8_decode (utf8_encode s) = Some s.
Proof.
  intros Hs. apply utf8_decode_fuel_encode; [done|].
  pose proof (utf8_encode_length s). lia.
Qed.

(** ** ASCII text *)

Definition is_ascii (s : pystr) : bool := forallb (λ c, c <? 128)%N s.

Lemma ascii_valid s : is_ascii s = true → valid_str s = true.
Proof.
  unfold is_ascii, valid_str. rewrite !forallb_forall. intros H x Hx%H.
  unfold is_scalar. lia.
Qed.

Lemma utf8_encode_ascii s : is_ascii s = true → utf8_encode s = byte_of_N <$> s.
Proof.
  induction s as [|c s IH]; [done|]. intros [Hc Hs]%andb_true_iff.
  rewrite utf8_encode_cons, IH by done. unfold utf8_char. by rewrite Hc.
Qed.

Lemma encode_latin1_ascii s : is_ascii s = true → encode_latin1 s = Some (byte_of_N <$> s).
Proof.
  unfold is_ascii. rewrite forallb_forall. intros H. apply encode_latin1_spec.
  unfold decode_latin1. symmetry. apply to_of_bytes, Forall_forall.
  intros x Hx%list_elem_of_In%H. lia.
Qed.

(** ** Hexadecimal digests *)

Definition hex_digit (n : N) : N := if (n <? 10)%N then (48 + n)%N else (87 + n)%N.
Definition hexdigest (l : bytes) : pystr :=
  l ≫= λ b, [hex_digit (Byte.to_N b / 16); hex_digit (Byte.to_N b mod 16)].

Definition is_hex (c : N) : bool :=
  (((48 <=? c) && (c <? 58)) || ((97 <=? c) && (c <? 103)))%N.

Lemma hexdigest_length l : length (hexdigest l) = 2 * length l.
Proof. induction l as [|b l IH]; cbn; [done|]. fold (hexdigest l). lia. Qed.

Lemma hex_digit_is_hex n : (n < 16)%N → is_hex (hex_digit n) = true.
Proof. unfold hex_digit, is_hex. intros. case_match; lia. Qed.

Lemma hexdigest_hex l : forallb is_hex (hexdigest l) = true.
Proof.
  induction l as [|b l IH]; [done|]. cbn. pose proof (byte_bound b).
  rewrite !hex_digit_is_hex by lia. done.
Qed.

Lemma hexdigest_ascii l : is_ascii (hexdigest l) = true.
Proof.
  pose proof (hexdigest_hex l) as H. unfold is_ascii. rewrite forallb_forall in H |- *.
  intros c Hc%H. unfold is_hex in Hc. lia.
Qed.

Lemma hex_digit_inj m n :
  (m < 16)%N → (n < 16)%N → hex_digit m = hex_digit n → m = n.
Proof. unfold hex_digit. intros. repeat case_match; lia. Qed.

Lemma hexdigest_inj l k : hexdigest l = hexdigest k → l = k.
Proof.
  revert k. induction l as [|b l IH]; intros [|c k]; cbn; try done.
  intros [= H1 H2 H3%IH]. subst. f_equal. pose proof (byte_bound b). pose proof (byte_bound c).
  apply hex_digit_inj in H1; [|lia..]. apply hex_digit_inj in H2; [|lia..].
  rewrite <-(of_to_byte b), <-(of_to_byte c). f_equal. lia.
Qed.

(** ** Case mapping and decimals *)

(** [str.lower()] and [str.upper()]: the ASCII letters, and the other
    characters whose image is in ASCII (the Kelvin sign; the long s, the
    dotless i, the sharp s and the Latin ligatures).  So the results agree with
    Python's wherever either is in ASCII; other characters are left alone. *)
Definition lower_char (c : N) : N :=
  if ((65 <=? c) && (c <=? 90))%N then (c + 32)%N else if (c =? 0x212a)%N then 107%N else c.
Definition upper_char (c : N) : pystr :=
  if ((97 <=? c) && (c <=? 122))%N then [(c - 32)%N]
  else if (c =? 0xdf)%N then u "SS"
  else if (c =? 0x131)%N then u "I"
  else if (c =? 0x17f)%N then u "S"
  else if (c =? 0xfb00)%N then u "FF"
  else if (c =? 0xfb01)%N then u "FI"
  else if (c =? 0xfb02)%N then u "FL"
  else if (c =? 0xfb03)%N then u "FFI"
  else if (c =? 0xfb04)%N then u "FFL"
  else if ((c =? 0xfb05) || (c =? 0xfb06))%N then u "ST"
  else [c].
Definition py_lower (s : pystr) : pystr := lower_char <$> s.
Definition py_upper (s : pystr) : pystr := s ≫= upper_char.

Lemma py_lower_idemp s : py_lower (py_lower s) = py_lower s.
Proof.
  unfold py_lower. rewrite <-list_fmap_compose. apply list_fmap_ext. intros _ c _. cbn.
  unfold lower_char. repeat case_match; lia.
Qed.

(** [f'{z}'] of an integer. *)
Definition str_of_Z (z : Z) : pystr := u (pretty z).
