(* ===== verification/Sha256.v ===== *)
(** * Sha256: [hashlib.sha256] and [hmac] of the standard library

    FIPS 180-4 on 32-bit words written as [N], with the wrap-around of every
    addition explicit, and RFC 2104 over an arbitrary digest.  The test
    vectors at the end are those of the standards. *)
From S2P Require Import Prelude PyText.

Definition w32 (n : N) : N := (n mod 2 ^ 32)%N.
Definition add32 (a b : N) : N := w32 (a + b).
Definition rotr (k n : N) : N :=
  N.lor (N.shiftr n k) (w32 (N.shiftl n (32 - k))).
Definition not32 (n : N) : N := N.lxor n (2 ^ 32 - 1).

(** The constants of the standard are the first 32 bits of the fractional
    parts of the cube roots and square roots of the first primes. *)
Fixpoint cube_root_bits (n : N) (bits : nat) (r : N) : N :=
  match bits with
  | O => r
  | S b =>
    let r' := (r + 2 ^ N.of_nat b)%N in
    cube_root_bits n b (if (r' ^ 3 <=? n)%N then r' else r)
  end.

Definition primes_below (n : nat) : list N :=
  filter (λ p : N, forallb (λ d : N, negb (p mod d =? 0)%N) (N.of_nat <$> seq 2 (N.to_nat p - 2)))
    (N.of_nat <$> seq 2 (n - 2)).

Definition round_constants : list N :=
  Eval vm_compute in
    (λ p : N, w32 (cube_root_bits (p * 2 ^ 96) 36 0)) <$> primes_below 312.

Definition initial_state : list N :=
  Eval vm_compute in
    (λ p : N, w32 (N.sqrt (p * 2 ^ 64))) <$> take 8 (primes_below 312).

(** Big-endian words. *)
Fixpoint be_word (acc : N) (l : list N) : N :=
  match l with [] => acc | b :: l => be_word (acc * 256 + b) l end.
Fixpoint be_bytes (k : nat) (n : N) : list N :=
  match k with O => [] | S k => be_bytes k (n / 256) ++ [n mod 256]%N end.

Fixpoint chunks {A} (fuel k : nat) (l : list A) : list (list A) :=
  match fuel, l with
  | S f, _ :: _ => take k l :: chunks f k (drop k l)
  | _, _ => []
  end.

(** One 1 bit, zeros up to 56 modulo 64, the bit length on eight bytes. *)
Definition pad (l : list N) : list N :=
  l ++ [0x80%N] ++ repeat 0%N (Z.to_nat ((55 - Z.of_nat (length l)) mod 64))
    ++ be_bytes 8 (8 * N.of_nat (length l)).

Definition small_sigma0 (x : N) := N.lxor (N.lxor (rotr 7 x) (rotr 18 x)) (N.shiftr x 3).
Definition small_sigma1 (x : N) := N.lxor (N.lxor (rotr 17 x) (rotr 19 x)) (N.shiftr x 10).
Definition big_sigma0 (x : N) := N.lxor (N.lxor (rotr 2 x) (rotr 13 x)) (rotr 22 x).
Definition big_sigma1 (x : N) := N.lxor (N.lxor (rotr 6 x) (rotr 11 x)) (rotr 25 x).
Definition choose (x y z : N) := N.lxor (N.land x y) (N.land (not32 x) z).
Definition majority (x y z : N) := N.lxor (N.lxor (N.land x y) (N.land x z)) (N.land y z).

(** The schedule, newest word first. *)
Fixpoint schedule (n : nat) (ws : list N) : list N :=
  match n with
  | O => ws
  | S n =>
    let w i := nth i ws 0%N in
    schedule n (add32 (add32 (small_sigma1 (w 1)) (w 6)) (add32 (small_sigma0 (w 14)) (w 15)) :: ws)
  end.

Definition round (s : list N) (kw : N * N) : list N :=
  match s with
  | [a; b; c; d; e; f; g; h] =>
    let t1 := add32 (add32 h (big_sigma1 e)) (add32 (choose e f g) (add32 kw.1 kw.2)) in
    let t2 := add32 (big_sigma0 a) (majority a b c) in
    [add32 t1 t2; a; b; c; add32 d t1; e; f; g]
  | _ => s
  end.

Definition compress (s : list N) (block : list N) : list N :=
  let ws := rev (schedule 48 (rev (be_word 0 <$> chunks 16 4 block))) in
  zip_with add32 s (fold_left round (zip round_constants ws) s).

Definition sha256_N (l : list N) : list N :=
  let p := pad l in
  fold_left compress (chunks (length p) 64 p) initial_state ≫= be_bytes 4.

Definition sha256 (l : bytes) : bytes := byte_of_N <$> sha256_N (Byte.to_N <$> l).

(** ** HMAC *)

Definition xor_pad (c : N) (key : bytes) : bytes :=
  (λ b, byte_of_N (N.lxor (Byte.to_N b) c)) <$> key.

(** [hmac.new(key, msg, digestmod).digest()], for a digest with blocks of
    [block] bytes. *)
Definition hmac (block : nat) (digest : bytes → bytes) (key msg : bytes) : bytes :=
  let k := if block <? length key then digest key else key in
  let k := k ++ repeat "000"%byte (block - length k) in
  digest (xor_pad 0x5c k ++ digest (xor_pad 0x36 k ++ msg)).

(** ** The digest is 32 bytes *)

Lemma be_bytes_length k n : length (be_bytes k n) = k.
Proof. revert n. induction k as [|k IH]; intros n; cbn; [done|]. rewrite length_app, IH. cbn. lia. Qed.

Lemma round_length s kw : length (round s kw) = length s.
Proof. unfold round. by repeat case_match. Qed.

Lemma compress_length s b : length (compress s b) = length s.
Proof.
  unfold compress. rewrite length_zip_with.
  assert (∀ kws s', length (fold_left round kws s') = length s') as ->; [|lia].
  induction kws as [|kw kws IH]; intros s'; cbn; [done|]. by rewrite IH, round_length.
Qed.

Lemma sha256_length l : length (sha256 l) = 32.
Proof.
  unfold sha256, sha256_N. rewrite length_fmap.
  assert (∀ bl s, length (fold_left compress bl s) = length s) as Hf.
  { induction bl as [|b bl IH]; intros s; cbn; [done|]. by rewrite IH, compress_length. }
  specialize (Hf (chunks (length (pad (Byte.to_N <$> l))) 64 (pad (Byte.to_N <$> l))) initial_state).
  revert Hf. generalize (fold_left compress (chunks (length (pad (Byte.to_N <$> l))) 64
    (pad (Byte.to_N <$> l))) initial_state). intros s Hs. change (length initial_state) with 8 in Hs.
  assert (∀ s, length (s ≫= be_bytes 4) = 4 * length s) as ->; [|lia].
  clear. induction s as [|x s IH]; [done|]. cbn [mbind list_bind]. rewrite length_app, be_bytes_length.
  cbn in *. lia.
Qed.

(** ** Test vectors *)

Example sha256_empty : hexdigest (sha256 []) =
  u "e3b0c44298fc1c149afbf4c8996fb92427ae41e4649b934ca495991b7852b855".
Proof. vm_compute. reflexivity. Qed.

Example sha256_two_blocks :
  hexdigest (sha256 (bs "abcdbcdecdefdefgefghfghighijhijkijkljklmklmnlmnomnopnopq")) =
  u "248d6a61d20638b8e5c026930c3e6039a33ce45964ff2167f6ecedd419db06c1".
Proof. vm_compute. reflexivity. Qed.

Example hmac_sha256_jefe :
  hexdigest (hmac 64 sha256 (bs "Jefe") (bs "what do ya want for nothing?")) =
  u "5bdcc146bf60754e6a042426089575c75a003f089d2739839dec58b964ec3843".
Proof. vm_compute. reflexivity. Qed.
