(* ===== verification/Sha3.v ===== *)
(** * Sha3: [hashlib.sha3_256] and [hashlib.sha3_384] of the standard library

    FIPS 202: the sponge over Keccak-f[1600], a state of 25 lanes of 64 bits
    (lane (x, y) at position x + 5y). *)
From S2P Require Import Prelude PyText Sha256.

Definition w64 (n : N) : N := (n mod 2 ^ 64)%N.
Definition rotl64 (k n : N) : N := N.lor (w64 (N.shiftl n k)) (N.shiftr n (64 - k)).
Definition not64 (n : N) : N := N.lxor n (2 ^ 64 - 1).

Definition rho_offsets : list N := [
   0;  1; 62; 28; 27;
  36; 44;  6; 55; 20;
   3; 10; 43; 25; 39;
  41; 45; 15; 21;  8;
  18;  2; 61; 56; 14]%N.

Definition iota_constants : list N := [
  0x0000000000000001; 0x0000000000008082; 0x800000000000808a; 0x8000000080008000;
  0x000000000000808b; 0x0000000080000001; 0x8000000080008081; 0x8000000000008009;
  0x000000000000008a; 0x0000000000000088; 0x0000000080008009; 0x000000008000000a;
  0x000000008000808b; 0x800000000000008b; 0x8000000000008089; 0x8000000000008003;
  0x8000000000008002; 0x8000000000000080; 0x000000000000800a; 0x800000008000000a;
  0x8000000080008081; 0x8000000000008080; 0x0000000080000001; 0x8000000080008008]%N.

Definition lane (s : list N) (x y : nat) : N := nth (x mod 5 + 5 * (y mod 5)) s 0%N.

(** A state from its lanes. *)
Definition lanes (f : nat → nat → N) : list N := (λ i, f (i mod 5) (i / 5)) <$> seq 0 25.

Definition theta (s : list N) : list N :=
  let c := (λ x, foldr N.lxor 0%N ((λ y, lane s x y) <$> seq 0 5)) <$> seq 0 5 in
  let d := (λ x, N.lxor (nth ((x + 4) mod 5) c 0%N) (rotl64 1 (nth ((x + 1) mod 5) c 0%N)))
             <$> seq 0 5 in
  lanes (λ x y, N.lxor (lane s x y) (nth x d 0%N)).
Definition rho_pi (s : list N) : list N :=
  lanes (λ x y, rotl64 (lane rho_offsets (x + 3 * y) x) (lane s (x + 3 * y) x)).
Definition chi (s : list N) : list N :=
  lanes (λ x y, N.lxor (lane s x y) (N.land (not64 (lane s (x + 1) y)) (lane s (x + 2) y))).
Definition keccak_round (s : list N) (rc : N) : list N :=
  match chi (rho_pi (theta s)) with l :: s => N.lxor l rc :: s | [] => [] end.
Definition keccak_f (s : list N) : list N := fold_left keccak_round iota_constants s.

Fixpoint le_word (l : list N) : N :=
  match l with [] => 0%N | b :: l => (b + 256 * le_word l)%N end.
Fixpoint le_bytes (k : nat) (n : N) : list N :=
  match k with O => [] | S k => (n mod 256)%N :: le_bytes k (n / 256) end.

(** The domain bits 01 and the padding 10*1. *)
Definition sha3_pad (rate : nat) (l : list N) : list N :=
  let q := rate - length l mod rate in
  l ++ (if q =? 1 then [0x86%N] else [0x06%N] ++ repeat 0%N (q - 2) ++ [0x80%N]).

Definition absorb (s block : list N) : list N :=
  let ws := le_word <$> chunks 25 8 block in
  keccak_f (zip_with N.lxor s (ws ++ repeat 0%N (25 - length ws))).

Definition sha3_N (rate out : nat) (l : list N) : list N :=
  let p := sha3_pad rate l in
  take out (fold_left absorb (chunks (length p) rate p) (repeat 0%N 25) ≫= le_bytes 8).

Definition sha3_256 (l : bytes) : bytes := byte_of_N <$> sha3_N 136 32 (Byte.to_N <$> l).
Definition sha3_384 (l : bytes) : bytes := byte_of_N <$> sha3_N 104 48 (Byte.to_N <$> l).

Lemma lanes_length f : length (lanes f) = 25.
Proof. unfold lanes. by rewrite length_fmap, length_seq. Qed.

Lemma keccak_round_length s rc : length (keccak_round s rc) = 25.
Proof.
  unfold keccak_round. pose proof (lanes_length (λ x y, N.lxor (lane (rho_pi (theta s)) x y)
    (N.land (not64 (lane (rho_pi (theta s)) (x + 1) y)) (lane (rho_pi (theta s)) (x + 2) y)))) as H.
  fold (chi (rho_pi (theta s))) in H. destruct (chi _); [done|]. exact H.
Qed.

Lemma keccak_rounds_length rcs s : rcs ≠ [] → length (fold_left keccak_round rcs s) = 25.
Proof.
  intros H. destruct (exists_last H) as (l & x & ->). rewrite fold_left_app.
  apply keccak_round_length.
Qed.

Lemma keccak_f_length s : length (keccak_f s) = 25.
Proof. by apply keccak_rounds_length. Qed.

Lemma sponge_length bl s : length s = 25 → length (fold_left absorb bl s) = 25.
Proof.
  revert s. induction bl as [|b bl IH]; intros s Hs; cbn [fold_left]; [done|].
  apply IH, keccak_f_length.
Qed.

Lemma sha3_N_length rate out l : out ≤ 200 → length (sha3_N rate out l) = out.
Proof.
  intros Hout. unfold sha3_N. rewrite length_take.
  match goal with |- context [fold_left absorb ?bl ?s] =>
    pose proof (sponge_length bl s eq_refl) as Hs; revert Hs; generalize (fold_left absorb bl s) end.
  intros s Hs. assert (∀ s, length (s ≫= le_bytes 8) = 8 * length s) as ->; [|lia].
  clear. induction s as [|x s IH]; [done|].
  change (length (le_bytes 8 x ++ (s ≫= le_bytes 8)) = 8 * S (length s)).
  rewrite length_app, IH. cbn [le_bytes length]. lia.
Qed.

Lemma sha3_256_length l : length (sha3_256 l) = 32.
Proof. unfold sha3_256. rewrite length_fmap. apply sha3_N_length. lia. Qed.
Lemma sha3_384_length l : length (sha3_384 l) = 48.
Proof. unfold sha3_384. rewrite length_fmap. apply sha3_N_length. lia. Qed.

Example sha3_256_empty : hexdigest (sha3_256 []) =
  u "a7ffc6f8bf1ed76651c14756a061d662f580ff4de43b49fa82d80a4b80f8434a".
Proof. vm_compute. reflexivity. Qed.
Example sha3_384_abc : hexdigest (sha3_384 (bs "abc")) =
  u "ec01498288516fc926459f58e2c6ad8df9b473cb0fc08c2596da7cf0e49be4b298d88cea927ac7f539f1edf228376d25".
Proof. vm_compute. reflexivity. Qed.
