(* ===== verification/Pem.v ===== *)
(** * Pem: [pem_to_der] of factories.py, with [bytes.split] and
    [base64.b64decode] as the interpreter defines them. *)
From S2P Require Import Prelude PyText.

(** ** [pem.split(b'\n')] and [b''.join] *)

Fixpoint split_on (sep : Byte.byte) (l : bytes) : list bytes :=
  match l with
  | [] => [[]]
  | b :: l =>
    if decide (b = sep) then [] :: split_on sep l
    else match split_on sep l with
         | x :: r => (b :: x) :: r
         | [] => [[b]]
         end
  end.

(** [sep.join(lines)] *)
Fixpoint join_with (sep : Byte.byte) (ls : list bytes) : bytes :=
  match ls with
  | [] => []
  | [x] => x
  | x :: r => x ++ sep :: join_with sep r
  end.

(** [arr[1:-2]] *)
Definition slice_1_m2 {A} (l : list A) : list A := drop 1 (take (length l - 2) l).

(** ** [binascii.a2b_base64], non-strict *)

Definition b64_value (c : N) : option N :=
  if ((65 <=? c) && (c <=? 90))%N then Some (c - 65)%N
  else if ((97 <=? c) && (c <=? 122))%N then Some (c - 71)%N
  else if ((48 <=? c) && (c <=? 57))%N then Some (c + 4)%N
  else if (c =? 43)%N then Some 62%N
  else if (c =? 47)%N then Some 63%N
  else None.

(** [quad] is the position in the current group of four, [left] the bits not
    yet output, [pads] the padding characters seen in a row.  Characters
    outside the alphabet are skipped; an incomplete group is an error. *)
Fixpoint a2b_base64 (quad left pads : N) (l : list N) : option (list N) :=
  match l with
  | [] => if (quad =? 0)%N then Some [] else None
  | c :: l =>
    if (c =? 61)%N then
      if (2 <=? quad)%N then
        if (4 <=? quad + (pads + 1))%N then Some [] else a2b_base64 quad left (pads + 1) l
      else a2b_base64 quad left pads l
    else match b64_value c with
    | None => a2b_base64 quad left pads l
    | Some v =>
      if (quad =? 0)%N then a2b_base64 1 v 0 l
      else if (quad =? 1)%N then
        cons (left * 4 + v / 16)%N <$> a2b_base64 2 (v mod 16) 0 l
      else if (quad =? 2)%N then
        cons (left * 16 + v / 4)%N <$> a2b_base64 3 (v mod 4) 0 l
      else cons (left * 64 + v)%N <$> a2b_base64 0 0 0 l
    end
  end.

Definition b64decode (l : bytes) : option bytes :=
  fmap (M:=option) (fmap (M:=list) byte_of_N) (a2b_base64 0 0 0 (Byte.to_N <$> l)).

(** [pem_to_der]; [None] is [binascii.Error]. *)
Definition pem_to_der (pem : bytes) : option bytes :=
  let arr := split_on "010"%byte pem in
  let der := concat (slice_1_m2 arr) in
  b64decode der.

(** ** The encoder of RFC 4648, to state what decoding inverts *)

Definition b64_char (v : N) : N :=
  if (v <? 26)%N then (v + 65)%N
  else if (v <? 52)%N then (v + 71)%N
  else if (v <? 62)%N then (v - 4)%N
  else if (v =? 62)%N then 43%N else 47%N.

Fixpoint b64encode_N (l : list N) : list N :=
  match l with
  | [] => []
  | [a] => [b64_char (a / 4); b64_char (a mod 4 * 16); 61; 61]%N
  | [a; b] =>
    [b64_char (a / 4); b64_char (a mod 4 * 16 + b / 16); b64_char (b mod 16 * 4); 61]%N
  | a :: b :: c :: r =>
    [b64_char (a / 4); b64_char (a mod 4 * 16 + b / 16);
     b64_char (b mod 16 * 4 + c / 64); b64_char (c mod 64)]%N ++ b64encode_N r
  end.

Definition b64encode (l : bytes) : bytes := byte_of_N <$> b64encode_N (Byte.to_N <$> l).

(** ** Lemmas *)

Lemma b64_value_char v : (v < 64)%N → b64_value (b64_char v) = Some v.
Proof.
  intros Hv. unfold b64_char, b64_value. repeat case_match; try lia; f_equal; lia.
Qed.

Lemma b64_char_not_pad v : (v < 64)%N → (b64_char v =? 61)%N = false.
Proof. unfold b64_char. intros. repeat case_match; lia. Qed.

Lemma b64_char_bound v : (v < 64)%N → (b64_char v < 256)%N.
Proof. unfold b64_char. intros. repeat case_match; lia. Qed.

(** Induction that consumes a list three elements at a time. *)
Lemma list_ind3 {A} (P : list A → Prop) :
  P [] → (∀ a, P [a]) → (∀ a b, P [a; b]) → (∀ a b c l, P l → P (a :: b :: c :: l)) →
  ∀ l, P l.
Proof. intros H0 H1 H2 H3. fix F 1. intros [|a [|b [|c l]]]; [apply H0|apply H1|apply H2|apply H3, F]. Qed.

Opaque b64_char.

(** One full group of four characters gives its three bytes back. *)
Lemma a2b_group a b c l :
  (a < 256)%N → (b < 256)%N → (c < 256)%N →
  a2b_base64 0 0 0
    ([b64_char (a / 4); b64_char (a mod 4 * 16 + b / 16);
      b64_char (b mod 16 * 4 + c / 64); b64_char (c mod 64)]%N ++ l)
  = (λ r, a :: b :: c :: r) <$> a2b_base64 0 0 0 l.
Proof.
  intros Ha Hb Hc. cbn -[N.div N.modulo N.mul N.add].
  rewrite !b64_char_not_pad, !b64_value_char by lia. cbn -[N.div N.modulo N.mul N.add a2b_base64].
  replace (a / 4 * 4 + (a mod 4 * 16 + b / 16) / 16)%N with a by lia.
  replace ((a mod 4 * 16 + b / 16) mod 16 * 16 + (b mod 16 * 4 + c / 64) / 4)%N with b by lia.
  replace ((b mod 16 * 4 + c / 64) mod 4 * 64 + c mod 64)%N with c by lia.
  by destruct (a2b_base64 0 0 0 l).
Qed.

Lemma a2b_base64_encode l :
  Forall (λ n, n < 256)%N l → a2b_base64 0 0 0 (b64encode_N l) = Some l.
Proof.
  induction l as [|a|a b|a b c l IH] using list_ind3.
  - done.
  - intros [Ha _]%Forall_cons. cbn -[N.div N.modulo N.mul N.add].
    rewrite !b64_char_not_pad, !b64_value_char by lia. cbn -[N.div N.modulo N.mul N.add].
    change (4 <=? 2 + (0 + 1))%N with false. change (4 <=? 2 + (0 + 1 + 1))%N with true.
    cbn -[N.div N.modulo N.mul N.add]. do 2 f_equal. lia.
  - intros [Ha [Hb _]%Forall_cons]%Forall_cons. cbn -[N.div N.modulo N.mul N.add].
    rewrite !b64_char_not_pad, !b64_value_char by lia. cbn -[N.div N.modulo N.mul N.add].
    change (4 <=? 3 + (0 + 1))%N with true. cbn -[N.div N.modulo N.mul N.add].
    do 2 f_equal; [lia|]. f_equal. lia.
  - intros [Ha [Hb [Hc Hl]%Forall_cons]%Forall_cons]%Forall_cons.
    cbn [b64encode_N]. by rewrite a2b_group, IH.
Qed.

Transparent b64_char.

Lemma b64encode_N_bound l :
  Forall (λ n, n < 256)%N l → Forall (λ n, n < 256)%N (b64encode_N l).
Proof.
  induction l as [|a|a b|a b c l IH] using list_ind3; cbn [b64encode_N app].
  - done.
  - intros [Ha _]%Forall_cons. repeat constructor; try apply b64_char_bound; lia.
  - intros [Ha [Hb _]%Forall_cons]%Forall_cons.
    repeat constructor; try apply b64_char_bound; lia.
  - intros [Ha [Hb [Hc Hl]%Forall_cons]%Forall_cons]%Forall_cons.
    repeat (constructor; [apply b64_char_bound; lia|]). by apply IH.
Qed.

Lemma to_N_bounded (l : bytes) : Forall (λ n, n < 256)%N (Byte.to_N <$> l).
Proof. induction l; cbn; constructor; [apply byte_bound | done]. Qed.

Lemma b64decode_encode l : b64decode (b64encode l) = Some l.
Proof.
  unfold b64decode, b64encode.
  rewrite to_of_bytes, a2b_base64_encode by auto using b64encode_N_bound, to_N_bounded.
  cbn. by rewrite bytes_fmap_id.
Qed.

Lemma split_on_app sep x r :
  sep ∉ x → split_on sep (x ++ sep :: r) = x :: split_on sep r.
Proof.
  induction x as [|b x IH]; cbn; intros Hx.
  - by rewrite decide_True.
  - rewrite not_elem_of_cons in Hx. destruct Hx as [Hb Hx].
    rewrite decide_False by done. by rewrite IH.
Qed.

Lemma split_on_single sep x : sep ∉ x → split_on sep x = [x].
Proof.
  induction x as [|b x IH]; cbn; intros Hx; [done|].
  rewrite not_elem_of_cons in Hx. destruct Hx as [Hb Hx].
  rewrite decide_False by done. by rewrite IH.
Qed.

(** [split] inverts [join] on pieces free of the separator. *)
Lemma split_on_join sep ls :
  ls ≠ [] → Forall (λ x, sep ∉ x) ls → split_on sep (join_with sep ls) = ls.
Proof.
  intros Hne Hls. induction Hls as [|x ls Hx Hls IH]; [done|].
  destruct ls as [|y ls]; [by apply split_on_single|].
  change (join_with sep (x :: y :: ls)) with (x ++ sep :: join_with sep (y :: ls)).
  rewrite split_on_app by done. by rewrite IH.
Qed.

Lemma slice_1_m2_frame {A} (h : A) ls f e : slice_1_m2 (h :: ls ++ [f; e]) = ls.
Proof.
  unfold slice_1_m2. cbn [length]. rewrite length_app. cbn [length].
  replace (S (length ls + 2) - 2) with (S (length ls)) by lia. cbn.
  by rewrite take_app_length.
Qed.

(** [pem_to_der] inverts PEM armor that ends in a newline: the base64
    lines between header and footer, however they are broken, give back the
    DER.  Without the newline after the footer the slice drops a line too
    many, and only the lines before the last are decoded. *)
Theorem pem_to_der_armor header lines footer der :
  Forall (λ x, "010"%byte ∉ x) (header :: lines ++ [footer]) →
  concat lines = b64encode der →
  pem_to_der (join_with "010"%byte (header :: lines ++ [footer; []])) = Some der
  ∧ ∀ lines' last, lines = lines' ++ [last] →
      pem_to_der (join_with "010"%byte (header :: lines ++ [footer])) = b64decode (concat lines').
Proof.
  intros [Hh [Hl [Hf _]%Forall_cons]%Forall_app]%Forall_cons Hder. unfold pem_to_der. split.
  - rewrite split_on_join; [|done|].
    + rewrite slice_1_m2_frame, Hder. apply b64decode_encode.
    + constructor; [done|]. apply Forall_app. split; [done|].
      repeat constructor; [done|apply not_elem_of_nil].
  - intros lines' last ->. rewrite split_on_join; [|done|].
    + rewrite <-(assoc_L (++)). cbn [app]. by rewrite slice_1_m2_frame.
    + constructor; [done|]. apply Forall_app. split; [done|by repeat constructor].
Qed.
