(* ===== verification/Wire.v ===== *)
(** * Wire: the proto3 wire format

    The public encoding of a message as tagged fields: a varint or a
    length-delimited string per field.  It is the concrete codec that
    instantiates the protobuf library wherever a theorem takes that library
    as a parameter. *)
From S2P Require Import Prelude PyText.

Inductive wval :=
  | WVarint (n : N)
  | WLen (l : bytes).
Abbreviation wfield := (N * wval)%type.

#[global] Instance wval_eq_dec : EqDecision wval.
Proof. solve_decision. Defined.

(** ** Varints: seven bits a byte, least significant first *)

Fixpoint enc_varint_fuel (fuel : nat) (n : N) : bytes :=
  match fuel with
  | O => [byte_of_N n]
  | S f =>
    if (n <? 128)%N then [byte_of_N n]
    else byte_of_N (128 + n mod 128) :: enc_varint_fuel f (n / 128)
  end.
(** Each step removes seven bits, so the bit size is fuel enough. *)
Definition enc_varint (n : N) : bytes := enc_varint_fuel (N.size_nat n) n.

Fixpoint dec_varint (l : bytes) : option (N * bytes) :=
  match l with
  | [] => None
  | b :: r =>
    let n := Byte.to_N b in
    if (n <? 128)%N then Some (n, r)
    else '(v, r) ← dec_varint r; Some ((n - 128) + 128 * v, r)%N
  end.

Lemma dec_enc_varint_fuel fuel n r :
  (n < 2 ^ N.of_nat fuel)%N ∨ (n < 128)%N →
  dec_varint (enc_varint_fuel fuel n ++ r) = Some (n, r).
Proof.
  revert n. induction fuel as [|f IH]; intros n Hn; cbn [enc_varint_fuel].
  - assert (n < 128)%N by (destruct Hn as [Hn|]; [cbn in Hn; lia|done]).
    cbn. rewrite to_of_byte by lia. by rewrite (proj2 (N.ltb_lt _ _)) by lia.
  - destruct (N.ltb_spec n 128).
    + cbn. rewrite to_of_byte by lia. by rewrite (proj2 (N.ltb_lt _ _)) by lia.
    + cbn -[N.add N.modulo N.div N.mul N.sub]. rewrite to_of_byte by lia.
      rewrite (proj2 (N.ltb_ge _ _)) by lia.
      rewrite IH; [cbn -[N.add N.modulo N.div N.mul N.sub]; do 2 f_equal; lia|].
      left. destruct Hn as [Hn|]; [|lia]. rewrite Nat2N.inj_succ, N.pow_succ_r' in Hn. lia.
Qed.

Lemma dec_enc_varint n r : dec_varint (enc_varint n ++ r) = Some (n, r).
Proof.
  apply dec_enc_varint_fuel. left. unfold enc_varint.
  destruct n as [|p]; [done|]. cbn. pose proof (N.size_gt (Npos p)) as H.
  replace (N.of_nat (Pos.size_nat p)) with (N.size (N.pos p)); [done|].
  cbn. clear H. induction p; cbn [Pos.size Pos.size_nat]; lia.
Qed.

Lemma enc_varint_nonempty n : enc_varint n ≠ [].
Proof. unfold enc_varint. destruct (N.size_nat n); cbn; [done|]. by case_match. Qed.

Lemma enc_varint_length n : 1 ≤ length (enc_varint n).
Proof. pose proof (enc_varint_nonempty n). destruct (enc_varint n); cbn; [done|lia]. Qed.

(** ** Fields *)

Definition enc_field (f : wfield) : bytes :=
  let '(n, v) := f in
  match v with
  | WVarint x => enc_varint (8 * n) ++ enc_varint x
  | WLen l => enc_varint (8 * n + 2) ++ enc_varint (N.of_nat (length l)) ++ l
  end.
Definition enc_fields (fs : list wfield) : bytes := fs ≫= enc_field.

Definition dec_field (l : bytes) : option (wfield * bytes) :=
  '(tag, r) ← dec_varint l;
  if (tag mod 8 =? 0)%N then
    '(x, r) ← dec_varint r; Some ((tag / 8, WVarint x)%N, r)
  else if (tag mod 8 =? 2)%N then
    '(n, r) ← dec_varint r;
    if (N.of_nat (length r) <? n)%N then None
    else Some ((tag / 8, WLen (take (N.to_nat n) r))%N, drop (N.to_nat n) r)
  else None.

Fixpoint dec_fields_fuel (fuel : nat) (l : bytes) : option (list wfield) :=
  match fuel with
  | O => None
  | S f =>
    match l with
    | [] => Some []
    | _ => '(x, r) ← dec_field l; xs ← dec_fields_fuel f r; Some (x :: xs)
    end
  end.
Definition dec_fields (l : bytes) : option (list wfield) := dec_fields_fuel (S (length l)) l.

Lemma dec_enc_field f r : dec_field (enc_field f ++ r) = Some (f, r).
Proof.
  unfold dec_field. destruct f as [n [x|l]]; cbn [enc_field].
  - rewrite <-(assoc_L (++)), dec_enc_varint.
    cbn -[N.mul N.modulo N.div N.eqb].
    rewrite (proj2 (N.eqb_eq _ _)) by lia. rewrite dec_enc_varint.
    cbn -[N.mul N.modulo N.div]. by replace (8 * n / 8)%N with n by lia.
  - rewrite <-!(assoc_L (++)), dec_enc_varint.
    cbn -[N.mul N.modulo N.div N.eqb N.add].
    rewrite (proj2 (N.eqb_neq _ _)), (proj2 (N.eqb_eq _ _)) by lia. rewrite dec_enc_varint.
    cbn -[N.mul N.modulo N.div N.add]. rewrite (proj2 (N.ltb_ge _ _))
      by (rewrite length_app; lia).
    rewrite Nat2N.id, take_app_length, drop_app_length.
    by replace ((8 * n + 2) / 8)%N with n by lia.
Qed.

Lemma enc_field_length f : 1 ≤ length (enc_field f).
Proof.
  destruct f as [n [x|l]]; cbn [enc_field]; rewrite length_app.
  - pose proof (enc_varint_length (8 * n)). lia.
  - pose proof (enc_varint_length (8 * n + 2)). lia.
Qed.

Lemma dec_fields_fuel_S f l :
  l ≠ [] → dec_fields_fuel (S f) l =
    '(x, r) ← dec_field l; xs ← dec_fields_fuel f r; Some (x :: xs).
Proof. by destruct l. Qed.

Lemma enc_fields_cons f fs : enc_fields (f :: fs) = enc_field f ++ enc_fields fs.
Proof. done. Qed.

Lemma dec_fields_fuel_enc fs fuel :
  length (enc_fields fs) < fuel → dec_fields_fuel fuel (enc_fields fs) = Some fs.
Proof.
  revert fuel. induction fs as [|f fs IH]; intros [|fuel] Hl; try lia; [done|].
  pose proof (enc_field_length f). rewrite enc_fields_cons, length_app in *.
  rewrite dec_fields_fuel_S.
  - rewrite dec_enc_field. cbn. by rewrite IH by lia.
  - intros [E _]%app_eq_nil. rewrite E in *. cbn in *. lia.
Qed.

(** Decoding inverts encoding. *)
Lemma dec_enc_fields fs : dec_fields (enc_fields fs) = Some fs.
Proof. apply dec_fields_fuel_enc. lia. Qed.

(** ** Sizes, for the fuel of recursive messages *)

Lemma enc_fields_app fs gs : enc_fields (fs ++ gs) = enc_fields fs ++ enc_fields gs.
Proof. apply bind_app. Qed.

(** A length-delimited field is longer than its contents. *)
Lemma enc_fields_fld_len {A} (f : A → bytes) n l x :
  x ∈ l → length (f x) < length (enc_fields (pair n <$> ((λ y, WLen (f y)) <$> l))).
Proof.
  induction 1 as [x l|x y l Hx IH]; cbn [fmap list_fmap]; rewrite enc_fields_cons, length_app.
  - cbn [enc_field]. rewrite !length_app. pose proof (enc_varint_length (8 * n + 2)). lia.
  - lia.
Qed.

Lemma enc_fields_single_len n l :
  length l < length (enc_fields [(n, WLen l)]).
Proof.
  apply (enc_fields_fld_len (λ x : bytes, x) n [l] l). by constructor.
Qed.
