(* ===== verification/Protobuf.v ===== *)
(** * Protobuf: messages, field codecs and the protobuf library's interface

    [Message] is what the generated classes give the library by reflection: a
    message as its list of tagged fields and back.  [Protobuf] is the library
    itself ([SerializeToString], [FromString]), which the client only calls:
    every theorem about the client takes it as a parameter, with the round
    trip its documentation promises as [ProtobufLaws].  [wire_protobuf] is the
    concrete instance. *)
From S2P Require Import Prelude PyText Wire.

(** ** Descriptors, as [google.protobuf.descriptor] holds them *)

Record FieldDescriptor := mkField {
  fd_name : string;
  fd_index : N;
  fd_number : N;
  fd_type : N;
  fd_cpp_type : N;
  fd_label : N;
  (** The [message_type] or [enum_type] the module assigns. *)
  fd_ref : option string;
  fd_containing_oneof : option string;
}.

Record Descriptor := mkDescriptor {
  d_name : string;
  d_full_name : string;
  d_fields : list FieldDescriptor;
  d_nested_types : list string;
  d_enum_types : list string;
  (** [serialized_options=_b('8\001')] marks the entry type of a map. *)
  d_map_entry : bool;
  d_oneofs : list string;
  d_serialized_start : N;
  d_serialized_end : N;
}.

Record EnumValueDescriptor := mkValue {
  ev_name : string;
  ev_index : N;
  ev_number : Z;
}.

Record EnumDescriptor := mkEnum {
  e_name : string;
  e_full_name : string;
  e_values : list EnumValueDescriptor;
  e_serialized_start : N;
  e_serialized_end : N;
}.

(** [SomeEnum.Value(name)]: [ValueError] for an unknown name. *)
Definition EnumValue (e : EnumDescriptor) (name : pystr) : option Z :=
  ev_number <$> List.find (λ v, bool_decide (u (ev_name v) = name)) (e_values e).

(** [SomeEnum.Name(number)]: [ValueError] for an unknown number. *)
Definition EnumName (e : EnumDescriptor) (number : Z) : option pystr :=
  (λ v, u (ev_name v)) <$> List.find (λ v, bool_decide (ev_number v = number)) (e_values e).

(** ** Field codecs *)

Record FieldCodec (T : Type) := {
  fc_type : N;
  fc_label : N;
  fc_enc : T → list wval;
  fc_dec : list wval → option T;
  (** What a value of the field may hold. *)
  fc_ok : T → bool;
  fc_law v : fc_ok v = true → fc_dec (fc_enc v) = Some v;
}.
Arguments fc_type {T} _.
Arguments fc_label {T} _.
Arguments fc_enc {T} _ _.
Arguments fc_dec {T} _ _.
Arguments fc_ok {T} _ _.
Arguments fc_law {T} _ _ _.

Definition fld (n : N) (vs : list wval) : list wfield := pair n <$> vs.
Definition sel (n : N) (fs : list wfield) : list wval :=
  omap (λ f, if (f.1 =? n)%N then Some f.2 else None) fs.

Lemma sel_app n fs gs : sel n (fs ++ gs) = sel n fs ++ sel n gs.
Proof. apply omap_app. Qed.
Lemma sel_nil n : sel n [] = [].
Proof. done. Qed.
Lemma sel_fld m n vs : sel n (fld m vs) = if (m =? n)%N then vs else [].
Proof.
  unfold sel, fld. induction vs as [|v vs IH]; cbn; [by destruct (m =? n)%N|].
  destruct (m =? n)%N; cbn in *; [by f_equal | done].
Qed.

Class Message (M : Type) := {
  (** (number, type, label) of each field, in the order of the numbers *)
  schema : list (N * N * N);
  ListFields : M → list wfield;
  FromFields : list wfield → option M;
  valid : M → bool;
  FromFields_ListFields m : valid m = true → FromFields (ListFields m) = Some m;
}.
Arguments schema M {_}.

(** The schema a message uses is the one its generated descriptor declares. *)
Class Described (M : Type) `{Message M} := {
  DESCRIPTOR : Descriptor;
  described : schema M = (λ f, (fd_number f, fd_type f, fd_label f)) <$> d_fields DESCRIPTOR;
}.
Arguments DESCRIPTOR M {_ _}.

Section scalars.
Definition last_or {A} (d : A) (f : wval → option A) (l : list wval) : option A :=
  match last l with None => Some d | Some v => f v end.

Definition get_len (v : wval) : option bytes :=
  match v with WLen l => Some l | WVarint _ => None end.
Definition get_varint (v : wval) : option N :=
  match v with WVarint n => Some n | WLen _ => None end.

Definition get_string (v : wval) : option pystr := l ← get_len v; utf8_decode l.

(** Two's complement: [w] bits of a varint as a signed integer. *)
Definition to_signed (w : Z) (n : N) : Z :=
  let m := (Z.of_N n mod 2 ^ w)%Z in
  if (m <? 2 ^ (w - 1))%Z then m else (m - 2 ^ w)%Z.
(** A negative integer is encoded in ten bytes, as its 64-bit pattern. *)
Definition of_signed (z : Z) : N := Z.to_N (z mod 2 ^ 64)%Z.

Definition int_range (lo hi z : Z) : bool := ((lo <=? z) && (z <? hi))%Z.
Definition is_int32 := int_range (- 2 ^ 31) (2 ^ 31).
Definition is_int64 := int_range (- 2 ^ 63) (2 ^ 63).
Definition is_uint64 := int_range 0 (2 ^ 64).

Lemma to_of_signed32 z : is_int32 z = true → to_signed 32 (of_signed z) = z.
Proof.
  unfold is_int32, int_range, to_signed, of_signed. intros H.
  rewrite Z2N.id by (apply Z.mod_pos_bound; lia).
  change (2 ^ 31)%Z with 2147483648%Z in *. change (2 ^ 32)%Z with 4294967296%Z in *.
  change (2 ^ 64)%Z with 18446744073709551616%Z in *.
  change (2 ^ (32 - 1))%Z with 2147483648%Z. case_match; lia.
Qed.
Lemma to_of_signed64 z : is_int64 z = true → to_signed 64 (of_signed z) = z.
Proof.
  unfold is_int64, int_range, to_signed, of_signed. intros H.
  rewrite Z2N.id by (apply Z.mod_pos_bound; lia).
  change (2 ^ 63)%Z with 9223372036854775808%Z in *.
  change (2 ^ 64)%Z with 18446744073709551616%Z in *.
  change (2 ^ (64 - 1))%Z with 9223372036854775808%Z. case_match; lia.
Qed.
Lemma of_unsigned64 z : is_uint64 z = true → Z.of_N (of_signed z) = z.
Proof.
  unfold is_uint64, int_range, of_signed. intros H.
  rewrite Z2N.id by (apply Z.mod_pos_bound; lia). apply Z.mod_small. lia.
Qed.

Definition enc_int (z : Z) : list wval :=
  if (z =? 0)%Z then [] else [WVarint (of_signed z)].

Definition fc_bytes : FieldCodec bytes.
Proof.
  refine {| fc_type := 12; fc_label := 1;
    fc_enc l := if is_nonempty l then [WLen l] else [];
    fc_dec := last_or [] get_len; fc_ok _ := true |}.
  abstract (by intros []).
Defined.

Definition fc_string : FieldCodec pystr.
Proof.
  refine {| fc_type := 9; fc_label := 1;
    fc_enc s := if is_nonempty s then [WLen (utf8_encode s)] else [];
    fc_dec := last_or [] get_string; fc_ok := valid_str |}.
  abstract (intros [|c s] H; [done|]; by apply utf8_decode_encode).
Defined.

Definition fc_signed (ty : N) (w : Z) (ok : Z → bool)
    (H : ∀ z, ok z = true → to_signed w (of_signed z) = z) : FieldCodec Z.
Proof.
  refine {| fc_type := ty; fc_label := 1; fc_enc := enc_int;
    fc_dec := last_or 0%Z (λ v, to_signed w <$> get_varint v); fc_ok := ok |}.
  abstract (intros z Hz; unfold enc_int; destruct (Z.eqb_spec z 0) as [->|];
    cbn; [done|]; by rewrite H).
Defined.
Definition fc_int32 := fc_signed 5 32 is_int32 to_of_signed32.
Definition fc_int64 := fc_signed 3 64 is_int64 to_of_signed64.
(** proto3 enums are open: any int32 is kept. *)
Definition fc_enum := fc_signed 14 32 is_int32 to_of_signed32.

Definition fc_uint64 : FieldCodec Z.
Proof.
  refine {| fc_type := 4; fc_label := 1; fc_enc := enc_int;
    fc_dec := last_or 0%Z (λ v, Z.of_N <$> get_varint v); fc_ok := is_uint64 |}.
  abstract (intros z Hz; unfold enc_int; destruct (Z.eqb_spec z 0) as [->|];
    cbn; [done|]; by rewrite of_unsigned64).
Defined.

(** Members of a [oneof] are written even at their default value. *)
Definition fc_oneof_signed (ty : N) : FieldCodec (option Z).
Proof.
  refine {| fc_type := ty; fc_label := 1;
    fc_enc o := match o with Some z => [WVarint (of_signed z)] | None => [] end;
    fc_dec := last_or None (λ v, (λ n, Some (to_signed 32 n)) <$> get_varint v);
    fc_ok o := match o with Some z => is_int32 z | None => true end |}.
  abstract (intros [z|] H; [|done]; cbn; by rewrite to_of_signed32).
Defined.

Definition fc_rep_bytes : FieldCodec (list bytes).
Proof.
  refine {| fc_type := 12; fc_label := 3; fc_enc := fmap WLen; fc_dec := mapM get_len;
    fc_ok _ := true |}.
  abstract (intros l _; apply mapM_option_fmap; by apply Forall_true).
Defined.
End scalars.
#[global] Arguments is_int32 : simpl never.
#[global] Arguments is_int64 : simpl never.
#[global] Arguments is_uint64 : simpl never.

Section messages.
Context {M : Type} `{!Message M}.

Definition get_message (v : wval) : option M := l ← get_len v; fs ← dec_fields l; FromFields fs.
Definition put_message (m : M) : wval := WLen (enc_fields (ListFields m)).

Lemma get_put_message m : valid m = true → get_message (put_message m) = Some m.
Proof.
  intros Hm. unfold get_message, put_message. cbn [get_len mbind option_bind].
  rewrite dec_enc_fields. by apply FromFields_ListFields.
Qed.

Definition fc_msg : FieldCodec (option M).
Proof.
  refine {| fc_type := 11; fc_label := 1;
    fc_enc o := match o with Some m => [put_message m] | None => [] end;
    fc_dec := last_or None (λ v, Some <$> get_message v);
    fc_ok o := match o with Some m => valid m | None => true end |}.
  abstract (intros [m|] Hm; [|done]; unfold last_or; cbn [last];
    by rewrite get_put_message).
Defined.

Definition fc_rep_msg : FieldCodec (list M).
Proof.
  refine {| fc_type := 11; fc_label := 3; fc_enc := fmap put_message;
    fc_dec := mapM get_message; fc_ok := forallb valid |}.
  abstract (intros l Hl; apply mapM_option_fmap, Forall_forall; intros m Hm;
    apply get_put_message; by eapply forallb_forall, list_elem_of_In).
Defined.
End messages.

(** A message as the value of a map entry: an absent value is the default. *)
Section map_values.
Context {M : Type} `{!Message M} (d : M).

Definition fc_msg_value : FieldCodec M.
Proof.
  refine {| fc_type := 11; fc_label := 1; fc_enc m := [put_message m];
    fc_dec := last_or d get_message; fc_ok := valid |}.
  abstract (intros m Hm; unfold last_or; cbn [last]; by rewrite get_put_message).
Defined.
End map_values.

(** A map field is a repeated entry message with fields [key] and [value]. *)
Section maps.
Context {V : Type} (cv : FieldCodec V).

Definition put_entry (e : pystr * V) : wval :=
  WLen (enc_fields (fld 1 (fc_enc fc_string e.1) ++ fld 2 (fc_enc cv e.2))).
Definition get_entry (v : wval) : option (pystr * V) :=
  l ← get_len v; fs ← dec_fields l;
  k ← fc_dec fc_string (sel 1 fs); x ← fc_dec cv (sel 2 fs); Some (k, x).

Definition fc_map : FieldCodec (list (pystr * V)).
Proof.
  refine {| fc_type := 11; fc_label := 3; fc_enc := fmap put_entry;
    fc_dec := mapM get_entry;
    fc_ok l := forallb (λ e, valid_str e.1 && fc_ok cv e.2) l |}.
  abstract (intros l Hl; apply mapM_option_fmap, Forall_forall; intros [k x] Hm;
    apply list_elem_of_In in Hm; rewrite forallb_forall in Hl;
    apply Hl, andb_true_iff in Hm as [Hk Hx]; unfold get_entry, put_entry;
    cbn [get_len mbind option_bind fst snd] in *;
    rewrite dec_enc_fields; cbn [mbind option_bind];
    rewrite !sel_app, !sel_fld; cbn [N.eqb Pos.eqb app]; rewrite app_nil_r;
    rewrite (fc_law fc_string) by done; cbn [mbind option_bind]; by rewrite fc_law).
Defined.
End maps.

(** ** Messages from their fields *)

Record bfield (M : Type) := BField {
  bf_number : N;
  bf_type : Type;
  bf_codec : FieldCodec bf_type;
  bf_get : M → bf_type;
}.
Arguments BField {M} _ {_} _ _.
Arguments bf_number {M} _.
Arguments bf_type {M} _.
Arguments bf_codec {M} _.
Arguments bf_get {M} _ _.

Section fields.
Context {M : Type}.
Implicit Types bfs : list (bfield M).

Definition bf_schema bfs : list (N * N * N) :=
  (λ f, (bf_number f, fc_type (bf_codec f), fc_label (bf_codec f))) <$> bfs.
Definition bf_list bfs (m : M) : list wfield :=
  bfs ≫= λ f, fld (bf_number f) (fc_enc (bf_codec f) (bf_get f m)).
Definition bf_valid bfs (m : M) : bool :=
  forallb (λ f, fc_ok (bf_codec f) (bf_get f m)) bfs.
End fields.

(** Prove that a message is recovered from its fields: select every number
    and use the law of its codec. *)
Ltac solve_message :=
  let m := fresh "m" in let Hm := fresh "Hm" in
  intros m Hm;
  lazymatch goal with |- context [bf_list ?fs _] => try unfold fs in * | _ => idtac end;
  unfold bf_list, bf_valid in *; cbn [mbind list_bind forallb bf_number bf_codec bf_get] in *;
  rewrite ?app_nil_r;
  repeat match goal with
  | H : _ && _ = true |- _ => apply andb_true_iff in H as [? ?]
  end;
  rewrite ?sel_app, ?sel_fld;
  repeat match goal with |- context [(?a =? ?b)%N] =>
    let v := eval vm_compute in (a =? b)%N in change (a =? b)%N with v end;
  cbn [app]; rewrite ?app_nil_r;
  repeat (rewrite fc_law by done; cbn [mbind option_bind]);
  destruct m; first [done | repeat match goal with o : option _ |- _ => destruct o as [[]|] end; done].

(** ** The protobuf library *)

Class Protobuf := {
  SerializeToString : ∀ {M : Type} `{Message M}, M → bytes;
  (** [None] is [DecodeError]. *)
  FromString : ∀ {M : Type} `{Message M}, bytes → option M;
}.
Arguments FromString {_} M {_} _.

(** Parsing the serialization of a message gives the message back. *)
Class ProtobufLaws `{Protobuf} := {
  FromString_SerializeToString {M : Type} `{Message M} (m : M) :
    valid m = true → FromString M (SerializeToString m) = Some m;
}.
Arguments ProtobufLaws _ : clear implicits.

Definition wire_protobuf : Protobuf := {|
  SerializeToString M _ m := enc_fields (ListFields m);
  FromString M _ l := fs ← dec_fields l; FromFields fs;
|}.

Lemma wire_protobuf_laws : ProtobufLaws wire_protobuf.
Proof.
  constructor. intros M ? m Hm. cbn [SerializeToString FromString wire_protobuf].
  rewrite dec_enc_fields. cbn [mbind option_bind].
  by apply FromFields_ListFields.
Qed.
