(* ===== verification/Descriptors.v ===== *)
(** * Descriptors: the generated protobuf descriptors, as data

    One [Descriptor] per message class and one [EnumDescriptor] per enum that
    the client reads or writes, translated field by field from the generated
    modules under src/snakeskin/protos.  [full_name] of a field is that of its
    message followed by its name, and every default is the proto3 default of
    its type, in all of them; neither is repeated here. *)
From S2P Require Import Prelude PyText Wire Protobuf.

(** ** common/common_pb2.py *)

Definition ENUM_Status : EnumDescriptor := {|
  e_name := "Status";
  e_full_name := "common.Status";
  e_values := [
    mkValue "UNKNOWN" 0 0;
    mkValue "SUCCESS" 1 200;
    mkValue "BAD_REQUEST" 2 400;
    mkValue "FORBIDDEN" 3 403;
    mkValue "NOT_FOUND" 4 404;
    mkValue "REQUEST_ENTITY_TOO_LARGE" 5 413;
    mkValue "INTERNAL_SERVER_ERROR" 6 500;
    mkValue "NOT_IMPLEMENTED" 7 501;
    mkValue "SERVICE_UNAVAILABLE" 8 503];
  e_serialized_start := 910;
  e_serialized_end := 1102;
|}.

Definition ENUM_HeaderType : EnumDescriptor := {|
  e_name := "HeaderType";
  e_full_name := "common.HeaderType";
  e_values := [
    mkValue "MESSAGE" 0 0;
    mkValue "CONFIG" 1 1;
    mkValue "CONFIG_UPDATE" 2 2;
    mkValue "ENDORSER_TRANSACTION" 3 3;
    mkValue "ORDERER_TRANSACTION" 4 4;
    mkValue "DELIVER_SEEK_INFO" 5 5;
    mkValue "CHAINCODE_PACKAGE" 6 6;
    mkValue "PEER_ADMIN_OPERATION" 7 8;
    mkValue "TOKEN_TRANSACTION" 8 9];
  e_serialized_start := 1105;
  e_serialized_end := 1307;
|}.

Definition ENUM_BlockMetadataIndex : EnumDescriptor := {|
  e_name := "BlockMetadataIndex";
  e_full_name := "common.BlockMetadataIndex";
  e_values := [
    mkValue "SIGNATURES" 0 0;
    mkValue "LAST_CONFIG" 1 1;
    mkValue "TRANSACTIONS_FILTER" 2 2;
    mkValue "ORDERER" 3 3];
  e_serialized_start := 1309;
  e_serialized_end := 1400;
|}.

Definition DESCRIPTOR_LastConfig : Descriptor := {|
  d_name := "LastConfig";
  d_full_name := "common.LastConfig";
  d_fields := [
    mkField "index" 0 1 4 4 1 None None];
  d_nested_types := [];
  d_enum_types := [];
  d_map_entry := false;
  d_oneofs := [];
  d_serialized_start := 81;
  d_serialized_end := 108;
|}.

Definition DESCRIPTOR_Metadata : Descriptor := {|
  d_name := "Metadata";
  d_full_name := "common.Metadata";
  d_fields := [
    mkField "value" 0 1 12 9 1 None None;
    mkField "signatures" 1 2 11 10 3 (Some "common.MetadataSignature") None];
  d_nested_types := [];
  d_enum_types := [];
  d_map_entry := false;
  d_oneofs := [];
  d_serialized_start := 110;
  d_serialized_end := 182;
|}.

Definition DESCRIPTOR_MetadataSignature : Descriptor := {|
  d_name := "MetadataSignature";
  d_full_name := "common.MetadataSignature";
  d_fields := [
    mkField "signature_header" 0 1 12 9 1 None None;
    mkField "signature" 1 2 12 9 1 None None];
  d_nested_types := [];
  d_enum_types := [];
  d_map_entry := false;
  d_oneofs := [];
  d_serialized_start := 184;
  d_serialized_end := 248;
|}.

Definition DESCRIPTOR_Header : Descriptor := {|
  d_name := "Header";
  d_full_name := "common.Header";
  d_fields := [
    mkField "channel_header" 0 1 12 9 1 None None;
    mkField "signature_header" 1 2 12 9 1 None None];
  d_nested_types := [];
  d_enum_types := [];
  d_map_entry := false;
  d_oneofs := [];
  d_serialized_start := 250;
  d_serialized_end := 308;
|}.

Definition DESCRIPTOR_ChannelHeader : Descriptor := {|
  d_name := "ChannelHeader";
  d_full_name := "common.ChannelHeader";
  d_fields := [
    mkField "type" 0 1 5 1 1 None None;
    mkField "version" 1 2 5 1 1 None None;
    mkField "timestamp" 2 3 11 10 1 (Some "google.protobuf.Timestamp") None;
    mkField "channel_id" 3 4 9 9 1 None None;
    mkField "tx_id" 4 5 9 9 1 None None;
    mkField "epoch" 5 6 4 4 1 None None;
    mkField "extension" 6 7 12 9 1 None None;
    mkField "tls_cert_hash" 7 8 12 9 1 None None];
  d_nested_types := [];
  d_enum_types := [];
  d_map_entry := false;
  d_oneofs := [];
  d_serialized_start := 311;
  d_serialized_end := 496;
|}.

Definition DESCRIPTOR_SignatureHeader : Descriptor := {|
  d_name := "SignatureHeader";
  d_full_name := "common.SignatureHeader";
  d_fields := [
    mkField "creator" 0 1 12 9 1 None None;
    mkField "nonce" 1 2 12 9 1 None None];
  d_nested_types := [];
  d_enum_types := [];
  d_map_entry := false;
  d_oneofs := [];
  d_serialized_start := 498;
  d_serialized_end := 547;
|}.

Definition DESCRIPTOR_Payload : Descriptor := {|
  d_name := "Payload";
  d_full_name := "common.Payload";
  d_fields := [
    mkField "header" 0 1 11 10 1 (Some "common.Header") None;
    mkField "data" 1 2 12 9 1 None None];
  d_nested_types := [];
  d_enum_types := [];
  d_map_entry := false;
  d_oneofs := [];
  d_serialized_start := 549;
  d_serialized_end := 604;
|}.

Definition DESCRIPTOR_Envelope : Descriptor := {|
  d_name := "Envelope";
  d_full_name := "common.Envelope";
  d_fields := [
    mkField "payload" 0 1 12 9 1 None None;
    mkField "signature" 1 2 12 9 1 None None];
  d_nested_types := [];
  d_enum_types := [];
  d_map_entry := false;
  d_oneofs := [];
  d_serialized_start := 606;
  d_serialized_end := 652;
|}.

Definition DESCRIPTOR_Block : Descriptor := {|
  d_name := "Block";
  d_full_name := "common.Block";
  d_fields := [
    mkField "header" 0 1 11 10 1 (Some "common.BlockHeader") None;
    mkField "data" 1 2 11 10 1 (Some "common.BlockData") None;
    mkField "metadata" 2 3 11 10 1 (Some "common.BlockMetadata") None];
  d_nested_types := [];
  d_enum_types := [];
  d_map_entry := false;
  d_oneofs := [];
  d_serialized_start := 654;
  d_serialized_end := 772;
|}.

Definition DESCRIPTOR_BlockHeader : Descriptor := {|
  d_name := "BlockHeader";
  d_full_name := "common.BlockHeader";
  d_fields := [
    mkField "number" 0 1 4 4 1 None None;
    mkField "previous_hash" 1 2 12 9 1 None None;
    mkField "data_hash" 2 3 12 9 1 None None];
  d_nested_types := [];
  d_enum_types := [];
  d_map_entry := false;
  d_oneofs := [];
  d_serialized_start := 774;
  d_serialized_end := 845;
|}.

Definition DESCRIPTOR_BlockData : Descriptor := {|
  d_name := "BlockData";
  d_full_name := "common.BlockData";
  d_fields := [
    mkField "data" 0 1 12 9 3 None None];
  d_nested_types := [];
  d_enum_types := [];
  d_map_entry := false;
  d_oneofs := [];
  d_serialized_start := 847;
  d_serialized_end := 872;
|}.

Definition DESCRIPTOR_BlockMetadata : Descriptor := {|
  d_name := "BlockMetadata";
  d_full_name := "common.BlockMetadata";
  d_fields := [
    mkField "metadata" 0 1 12 9 3 None None];
  d_nested_types := [];
  d_enum_types := [];
  d_map_entry := false;
  d_oneofs := [];
  d_serialized_start := 874;
  d_serialized_end := 907;
|}.

(** ** common/policies_pb2.py *)

Definition DESCRIPTOR_Policy : Descriptor := {|
  d_name := "Policy";
  d_full_name := "common.Policy";
  d_fields := [
    mkField "type" 0 1 5 1 1 None None;
    mkField "value" 1 2 12 9 1 None None];
  d_nested_types := [];
  d_enum_types := ["common.Policy.PolicyType"];
  d_map_entry := false;
  d_oneofs := [];
  d_serialized_start := 92;
  d_serialized_end := 199;
|}.

Definition DESCRIPTOR_SignaturePolicyEnvelope : Descriptor := {|
  d_name := "SignaturePolicyEnvelope";
  d_full_name := "common.SignaturePolicyEnvelope";
  d_fields := [
    mkField "version" 0 1 5 1 1 None None;
    mkField "rule" 1 2 11 10 1 (Some "common.SignaturePolicy") None;
    mkField "identities" 2 3 11 10 3 (Some "common.MSPPrincipal") None];
  d_nested_types := [];
  d_enum_types := [];
  d_map_entry := false;
  d_oneofs := [];
  d_serialized_start := 201;
  d_serialized_end := 324;
|}.

Definition DESCRIPTOR_SignaturePolicy_NOutOf : Descriptor := {|
  d_name := "NOutOf";
  d_full_name := "common.SignaturePolicy.NOutOf";
  d_fields := [
    mkField "n" 0 1 5 1 1 None None;
    mkField "rules" 1 2 11 10 3 (Some "common.SignaturePolicy") None];
  d_nested_types := [];
  d_enum_types := [];
  d_map_entry := false;
  d_oneofs := [];
  d_serialized_start := 419;
  d_serialized_end := 478;
|}.

Definition DESCRIPTOR_SignaturePolicy : Descriptor := {|
  d_name := "SignaturePolicy";
  d_full_name := "common.SignaturePolicy";
  d_fields := [
    mkField "signed_by" 0 1 5 1 1 None (Some "Type");
    mkField "n_out_of" 1 2 11 10 1 (Some "common.SignaturePolicy.NOutOf") (Some "Type")];
  d_nested_types := ["common.SignaturePolicy.NOutOf"];
  d_enum_types := [];
  d_map_entry := false;
  d_oneofs := ["Type"];
  d_serialized_start := 327;
  d_serialized_end := 486;
|}.

(** ** common/configtx_pb2.py *)

Definition DESCRIPTOR_ConfigEnvelope : Descriptor := {|
  d_name := "ConfigEnvelope";
  d_full_name := "common.ConfigEnvelope";
  d_fields := [
    mkField "config" 0 1 11 10 1 (Some "common.Config") None;
    mkField "last_update" 1 2 11 10 1 (Some "common.Envelope") None];
  d_nested_types := [];
  d_enum_types := [];
  d_map_entry := false;
  d_oneofs := [];
  d_serialized_start := 128;
  d_serialized_end := 215;
|}.

Definition DESCRIPTOR_Config : Descriptor := {|
  d_name := "Config";
  d_full_name := "common.Config";
  d_fields := [
    mkField "sequence" 0 1 4 4 1 None None;
    mkField "channel_group" 1 2 11 10 1 (Some "common.ConfigGroup") None];
  d_nested_types := [];
  d_enum_types := [];
  d_map_entry := false;
  d_oneofs := [];
  d_serialized_start := 676;
  d_serialized_end := 758;
|}.

Definition DESCRIPTOR_ConfigUpdateEnvelope : Descriptor := {|
  d_name := "ConfigUpdateEnvelope";
  d_full_name := "common.ConfigUpdateEnvelope";
  d_fields := [
    mkField "config_update" 0 1 12 9 1 None None;
    mkField "signatures" 1 2 11 10 3 (Some "common.ConfigSignature") None];
  d_nested_types := [];
  d_enum_types := [];
  d_map_entry := false;
  d_oneofs := [];
  d_serialized_start := 760;
  d_serialized_end := 850;
|}.

Definition DESCRIPTOR_ConfigUpdate_IsolatedDataEntry : Descriptor := {|
  d_name := "IsolatedDataEntry";
  d_full_name := "common.ConfigUpdate.IsolatedDataEntry";
  d_fields := [
    mkField "key" 0 1 9 9 1 None None;
    mkField "value" 1 2 12 9 1 None None];
  d_nested_types := [];
  d_enum_types := [];
  d_map_entry := true;
  d_oneofs := [];
  d_serialized_start := 1031;
  d_serialized_end := 1082;
|}.

Definition DESCRIPTOR_ConfigUpdate : Descriptor := {|
  d_name := "ConfigUpdate";
  d_full_name := "common.ConfigUpdate";
  d_fields := [
    mkField "channel_id" 0 1 9 9 1 None None;
    mkField "read_set" 1 2 11 10 1 (Some "common.ConfigGroup") None;
    mkField "write_set" 2 3 11 10 1 (Some "common.ConfigGroup") None;
    mkField "isolated_data" 3 5 11 10 3 (Some "common.ConfigUpdate.IsolatedDataEntry") None];
  d_nested_types := ["common.ConfigUpdate.IsolatedDataEntry"];
  d_enum_types := [];
  d_map_entry := false;
  d_oneofs := [];
  d_serialized_start := 853;
  d_serialized_end := 1094;
|}.

Definition DESCRIPTOR_ConfigGroup_GroupsEntry : Descriptor := {|
  d_name := "GroupsEntry";
  d_full_name := "common.ConfigGroup.GroupsEntry";
  d_fields := [
    mkField "key" 0 1 9 9 1 None None;
    mkField "value" 1 2 11 10 1 (Some "common.ConfigGroup") None];
  d_nested_types := [];
  d_enum_types := [];
  d_map_entry := true;
  d_oneofs := [];
  d_serialized_start := 1300;
  d_serialized_end := 1366;
|}.

Definition DESCRIPTOR_ConfigGroup_ValuesEntry : Descriptor := {|
  d_name := "ValuesEntry";
  d_full_name := "common.ConfigGroup.ValuesEntry";
  d_fields := [
    mkField "key" 0 1 9 9 1 None None;
    mkField "value" 1 2 11 10 1 (Some "common.ConfigValue") None];
  d_nested_types := [];
  d_enum_types := [];
  d_map_entry := true;
  d_oneofs := [];
  d_serialized_start := 1368;
  d_serialized_end := 1434;
|}.

Definition DESCRIPTOR_ConfigGroup_PoliciesEntry : Descriptor := {|
  d_name := "PoliciesEntry";
  d_full_name := "common.ConfigGroup.PoliciesEntry";
  d_fields := [
    mkField "key" 0 1 9 9 1 None None;
    mkField "value" 1 2 11 10 1 (Some "common.ConfigPolicy") None];
  d_nested_types := [];
  d_enum_types := [];
  d_map_entry := true;
  d_oneofs := [];
  d_serialized_start := 1436;
  d_serialized_end := 1505;
|}.

Definition DESCRIPTOR_ConfigGroup : Descriptor := {|
  d_name := "ConfigGroup";
  d_full_name := "common.ConfigGroup";
  d_fields := [
    mkField "version" 0 1 4 4 1 None None;
    mkField "groups" 1 2 11 10 3 (Some "common.ConfigGroup.GroupsEntry") None;
    mkField "values" 2 3 11 10 3 (Some "common.ConfigGroup.ValuesEntry") None;
    mkField "policies" 3 4 11 10 3 (Some "common.ConfigGroup.PoliciesEntry") None;
    mkField "mod_policy" 4 5 9 9 1 None None];
  d_nested_types := ["common.ConfigGroup.GroupsEntry"; "common.ConfigGroup.ValuesEntry"; "common.ConfigGroup.PoliciesEntry"];
  d_enum_types := [];
  d_map_entry := false;
  d_oneofs := [];
  d_serialized_start := 1097;
  d_serialized_end := 1505;
|}.

Definition DESCRIPTOR_ConfigValue : Descriptor := {|
  d_name := "ConfigValue";
  d_full_name := "common.ConfigValue";
  d_fields := [
    mkField "version" 0 1 4 4 1 None None;
    mkField "value" 1 2 12 9 1 None None;
    mkField "mod_policy" 2 3 9 9 1 None None];
  d_nested_types := [];
  d_enum_types := [];
  d_map_entry := false;
  d_oneofs := [];
  d_serialized_start := 1507;
  d_serialized_end := 1572;
|}.

Definition DESCRIPTOR_ConfigPolicy : Descriptor := {|
  d_name := "ConfigPolicy";
  d_full_name := "common.ConfigPolicy";
  d_fields := [
    mkField "version" 0 1 4 4 1 None None;
    mkField "policy" 1 2 11 10 1 (Some "common.Policy") None;
    mkField "mod_policy" 2 3 9 9 1 None None];
  d_nested_types := [];
  d_enum_types := [];
  d_map_entry := false;
  d_oneofs := [];
  d_serialized_start := 1574;
  d_serialized_end := 1657;
|}.

Definition DESCRIPTOR_ConfigSignature : Descriptor := {|
  d_name := "ConfigSignature";
  d_full_name := "common.ConfigSignature";
  d_fields := [
    mkField "signature_header" 0 1 12 9 1 None None;
    mkField "signature" 1 2 12 9 1 None None];
  d_nested_types := [];
  d_enum_types := [];
  d_map_entry := false;
  d_oneofs := [];
  d_serialized_start := 1659;
  d_serialized_end := 1721;
|}.

(** ** msp/identities_pb2.py *)

Definition DESCRIPTOR_SerializedIdentity : Descriptor := {|
  d_name := "SerializedIdentity";
  d_full_name := "msp.SerializedIdentity";
  d_fields := [
    mkField "mspid" 0 1 9 9 1 None None;
    mkField "id_bytes" 1 2 12 9 1 None None];
  d_nested_types := [];
  d_enum_types := [];
  d_map_entry := false;
  d_oneofs := [];
  d_serialized_start := 46;
  d_serialized_end := 99;
|}.

(** ** msp/msp_principal_pb2.py *)

Definition ENUM_MSPPrincipal_Classification : EnumDescriptor := {|
  e_name := "Classification";
  e_full_name := "common.MSPPrincipal.Classification";
  e_values := [
    mkValue "ROLE" 0 0;
    mkValue "ORGANIZATION_UNIT" 1 1;
    mkValue "IDENTITY" 2 2;
    mkValue "ANONYMITY" 3 3;
    mkValue "COMBINED" 4 4];
  e_serialized_start := 159;
  e_serialized_end := 251;
|}.

Definition ENUM_MSPRole_MSPRoleType : EnumDescriptor := {|
  e_name := "MSPRoleType";
  e_full_name := "common.MSPRole.MSPRoleType";
  e_values := [
    mkValue "MEMBER" 0 0;
    mkValue "ADMIN" 1 1;
    mkValue "CLIENT" 2 2;
    mkValue "PEER" 3 3];
  e_serialized_start := 447;
  e_serialized_end := 505;
|}.

Definition DESCRIPTOR_MSPPrincipal : Descriptor := {|
  d_name := "MSPPrincipal";
  d_full_name := "common.MSPPrincipal";
  d_fields := [
    mkField "principal_classification" 0 1 14 8 1 (Some "common.MSPPrincipal.Classification") None;
    mkField "principal" 1 2 12 9 1 None None];
  d_nested_types := [];
  d_enum_types := ["common.MSPPrincipal.Classification"];
  d_map_entry := false;
  d_oneofs := [];
  d_serialized_start := 53;
  d_serialized_end := 251;
|}.

Definition DESCRIPTOR_MSPRole : Descriptor := {|
  d_name := "MSPRole";
  d_full_name := "common.MSPRole";
  d_fields := [
    mkField "msp_identifier" 0 1 9 9 1 None None;
    mkField "role" 1 2 14 8 1 (Some "common.MSPRole.MSPRoleType") None];
  d_nested_types := [];
  d_enum_types := ["common.MSPRole.MSPRoleType"];
  d_map_entry := false;
  d_oneofs := [];
  d_serialized_start := 369;
  d_serialized_end := 505;
|}.

(** ** orderer/ab_pb2.py *)

Definition ENUM_SeekInfo_SeekBehavior : EnumDescriptor := {|
  e_name := "SeekBehavior";
  e_full_name := "orderer.SeekInfo.SeekBehavior";
  e_values := [
    mkValue "BLOCK_UNTIL_READY" 0 0;
    mkValue "FAIL_IF_NOT_READY" 1 1];
  e_serialized_start := 498;
  e_serialized_end := 558;
|}.

Definition DESCRIPTOR_BroadcastResponse : Descriptor := {|
  d_name := "BroadcastResponse";
  d_full_name := "orderer.BroadcastResponse";
  d_fields := [
    mkField "status" 0 1 14 8 1 (Some "common.Status") None;
    mkField "info" 1 2 9 9 1 None None];
  d_nested_types := [];
  d_enum_types := [];
  d_map_entry := false;
  d_oneofs := [];
  d_serialized_start := 84;
  d_serialized_end := 149;
|}.

Definition DESCRIPTOR_SeekNewest : Descriptor := {|
  d_name := "SeekNewest";
  d_full_name := "orderer.SeekNewest";
  d_fields := [];
  d_nested_types := [];
  d_enum_types := [];
  d_map_entry := false;
  d_oneofs := [];
  d_serialized_start := 151;
  d_serialized_end := 163;
|}.

Definition DESCRIPTOR_SeekOldest : Descriptor := {|
  d_name := "SeekOldest";
  d_full_name := "orderer.SeekOldest";
  d_fields := [];
  d_nested_types := [];
  d_enum_types := [];
  d_map_entry := false;
  d_oneofs := [];
  d_serialized_start := 165;
  d_serialized_end := 177;
|}.

Definition DESCRIPTOR_SeekSpecified : Descriptor := {|
  d_name := "SeekSpecified";
  d_full_name := "orderer.SeekSpecified";
  d_fields := [
    mkField "number" 0 1 4 4 1 None None];
  d_nested_types := [];
  d_enum_types := [];
  d_map_entry := false;
  d_oneofs := [];
  d_serialized_start := 179;
  d_serialized_end := 210;
|}.

Definition DESCRIPTOR_SeekPosition : Descriptor := {|
  d_name := "SeekPosition";
  d_full_name := "orderer.SeekPosition";
  d_fields := [
    mkField "newest" 0 1 11 10 1 (Some "orderer.SeekNewest") (Some "Type");
    mkField "oldest" 1 2 11 10 1 (Some "orderer.SeekOldest") (Some "Type");
    mkField "specified" 2 3 11 10 1 (Some "orderer.SeekSpecified") (Some "Type")];
  d_nested_types := [];
  d_enum_types := [];
  d_map_entry := false;
  d_oneofs := ["Type"];
  d_serialized_start := 213;
  d_serialized_end := 358;
|}.

Definition DESCRIPTOR_SeekInfo : Descriptor := {|
  d_name := "SeekInfo";
  d_full_name := "orderer.SeekInfo";
  d_fields := [
    mkField "start" 0 1 11 10 1 (Some "orderer.SeekPosition") None;
    mkField "stop" 1 2 11 10 1 (Some "orderer.SeekPosition") None;
    mkField "behavior" 2 3 14 8 1 (Some "orderer.SeekInfo.SeekBehavior") None];
  d_nested_types := [];
  d_enum_types := ["orderer.SeekInfo.SeekBehavior"];
  d_map_entry := false;
  d_oneofs := [];
  d_serialized_start := 361;
  d_serialized_end := 558;
|}.

Definition DESCRIPTOR_OrdererDeliverResponse : Descriptor := {|
  d_name := "DeliverResponse";
  d_full_name := "orderer.DeliverResponse";
  d_fields := [
    mkField "status" 0 1 14 8 1 (Some "common.Status") (Some "Type");
    mkField "block" 1 2 11 10 1 (Some "common.Block") (Some "Type")];
  d_nested_types := [];
  d_enum_types := [];
  d_map_entry := false;
  d_oneofs := ["Type"];
  d_serialized_start := 560;
  d_serialized_end := 651;
|}.

(** ** peer/chaincode_pb2.py *)

Definition ENUM_ChaincodeSpecProto_Type : EnumDescriptor := {|
  e_name := "Type";
  e_full_name := "protos.ChaincodeSpec.Type";
  e_values := [
    mkValue "UNDEFINED" 0 0;
    mkValue "GOLANG" 1 1;
    mkValue "NODE" 2 2;
    mkValue "CAR" 3 3;
    mkValue "JAVA" 4 4];
  e_serialized_start := 455;
  e_serialized_end := 517;
|}.

Definition ENUM_ChaincodeDeploymentSpec_ExecutionEnvironment : EnumDescriptor := {|
  e_name := "ExecutionEnvironment";
  e_full_name := "protos.ChaincodeDeploymentSpec.ExecutionEnvironment";
  e_values := [
    mkValue "DOCKER" 0 0;
    mkValue "SYSTEM" 1 1];
  e_serialized_start := 688;
  e_serialized_end := 734;
|}.

Definition DESCRIPTOR_ChaincodeID : Descriptor := {|
  d_name := "ChaincodeID";
  d_full_name := "protos.ChaincodeID";
  d_fields := [
    mkField "path" 0 1 9 9 1 None None;
    mkField "name" 1 2 9 9 1 None None;
    mkField "version" 2 3 9 9 1 None None];
  d_nested_types := [];
  d_enum_types := [];
  d_map_entry := false;
  d_oneofs := [];
  d_serialized_start := 89;
  d_serialized_end := 147;
|}.

Definition DESCRIPTOR_ChaincodeInput_DecorationsEntry : Descriptor := {|
  d_name := "DecorationsEntry";
  d_full_name := "protos.ChaincodeInput.DecorationsEntry";
  d_fields := [
    mkField "key" 0 1 9 9 1 None None;
    mkField "value" 1 2 12 9 1 None None];
  d_nested_types := [];
  d_enum_types := [];
  d_map_entry := true;
  d_oneofs := [];
  d_serialized_start := 244;
  d_serialized_end := 294;
|}.

Definition DESCRIPTOR_ChaincodeInput : Descriptor := {|
  d_name := "ChaincodeInput";
  d_full_name := "protos.ChaincodeInput";
  d_fields := [
    mkField "args" 0 1 12 9 3 None None;
    mkField "decorations" 1 2 11 10 3 (Some "protos.ChaincodeInput.DecorationsEntry") None];
  d_nested_types := ["protos.ChaincodeInput.DecorationsEntry"];
  d_enum_types := [];
  d_map_entry := false;
  d_oneofs := [];
  d_serialized_start := 150;
  d_serialized_end := 294;
|}.

Definition DESCRIPTOR_ChaincodeSpecProto : Descriptor := {|
  d_name := "ChaincodeSpec";
  d_full_name := "protos.ChaincodeSpec";
  d_fields := [
    mkField "type" 0 1 14 8 1 (Some "protos.ChaincodeSpec.Type") None;
    mkField "chaincode_id" 1 2 11 10 1 (Some "protos.ChaincodeID") None;
    mkField "input" 2 3 11 10 1 (Some "protos.ChaincodeInput") None;
    mkField "timeout" 3 4 5 1 1 None None];
  d_nested_types := [];
  d_enum_types := ["protos.ChaincodeSpec.Type"];
  d_map_entry := false;
  d_oneofs := [];
  d_serialized_start := 297;
  d_serialized_end := 517;
|}.

Definition DESCRIPTOR_ChaincodeDeploymentSpec : Descriptor := {|
  d_name := "ChaincodeDeploymentSpec";
  d_full_name := "protos.ChaincodeDeploymentSpec";
  d_fields := [
    mkField "chaincode_spec" 0 1 11 10 1 (Some "protos.ChaincodeSpec") None;
    mkField "code_package" 1 3 12 9 1 None None;
    mkField "exec_env" 2 4 14 8 1 (Some "protos.ChaincodeDeploymentSpec.ExecutionEnvironment") None];
  d_nested_types := [];
  d_enum_types := ["protos.ChaincodeDeploymentSpec.ExecutionEnvironment"];
  d_map_entry := false;
  d_oneofs := [];
  d_serialized_start := 520;
  d_serialized_end := 756;
|}.

Definition DESCRIPTOR_ChaincodeInvocationSpec : Descriptor := {|
  d_name := "ChaincodeInvocationSpec";
  d_full_name := "protos.ChaincodeInvocationSpec";
  d_fields := [
    mkField "chaincode_spec" 0 1 11 10 1 (Some "protos.ChaincodeSpec") None];
  d_nested_types := [];
  d_enum_types := [];
  d_map_entry := false;
  d_oneofs := [];
  d_serialized_start := 758;
  d_serialized_end := 855;
|}.

(** ** peer/chaincode_event_pb2.py *)

Definition DESCRIPTOR_ChaincodeEvent : Descriptor := {|
  d_name := "ChaincodeEvent";
  d_full_name := "protos.ChaincodeEvent";
  d_fields := [
    mkField "chaincode_id" 0 1 9 9 1 None None;
    mkField "tx_id" 1 2 9 9 1 None None;
    mkField "event_name" 2 3 9 9 1 None None;
    mkField "payload" 3 4 12 9 1 None None];
  d_nested_types := [];
  d_enum_types := [];
  d_map_entry := false;
  d_oneofs := [];
  d_serialized_start := 55;
  d_serialized_end := 145;
|}.

(** ** peer/proposal_pb2.py *)

Definition DESCRIPTOR_SignedProposal : Descriptor := {|
  d_name := "SignedProposal";
  d_full_name := "protos.SignedProposal";
  d_fields := [
    mkField "proposal_bytes" 0 1 12 9 1 None None;
    mkField "signature" 1 2 12 9 1 None None];
  d_nested_types := [];
  d_enum_types := [];
  d_map_entry := false;
  d_oneofs := [];
  d_serialized_start := 177;
  d_serialized_end := 236;
|}.

Definition DESCRIPTOR_Proposal : Descriptor := {|
  d_name := "Proposal";
  d_full_name := "protos.Proposal";
  d_fields := [
    mkField "header" 0 1 12 9 1 None None;
    mkField "payload" 1 2 12 9 1 None None;
    mkField "extension" 2 3 12 9 1 None None];
  d_nested_types := [];
  d_enum_types := [];
  d_map_entry := false;
  d_oneofs := [];
  d_serialized_start := 238;
  d_serialized_end := 300;
|}.

Definition DESCRIPTOR_ChaincodeHeaderExtension : Descriptor := {|
  d_name := "ChaincodeHeaderExtension";
  d_full_name := "protos.ChaincodeHeaderExtension";
  d_fields := [
    mkField "payload_visibility" 0 1 12 9 1 None None;
    mkField "chaincode_id" 1 2 11 10 1 (Some "protos.ChaincodeID") None];
  d_nested_types := [];
  d_enum_types := [];
  d_map_entry := false;
  d_oneofs := [];
  d_serialized_start := 302;
  d_serialized_end := 399;
|}.

Definition DESCRIPTOR_ChaincodeProposalPayload_TransientMapEntry : Descriptor := {|
  d_name := "TransientMapEntry";
  d_full_name := "protos.ChaincodeProposalPayload.TransientMapEntry";
  d_fields := [
    mkField "key" 0 1 9 9 1 None None;
    mkField "value" 1 2 12 9 1 None None];
  d_nested_types := [];
  d_enum_types := [];
  d_map_entry := true;
  d_oneofs := [];
  d_serialized_start := 519;
  d_serialized_end := 570;
|}.

Definition DESCRIPTOR_ChaincodeProposalPayload : Descriptor := {|
  d_name := "ChaincodeProposalPayload";
  d_full_name := "protos.ChaincodeProposalPayload";
  d_fields := [
    mkField "input" 0 1 12 9 1 None None;
    mkField "TransientMap" 1 2 11 10 3 (Some "protos.ChaincodeProposalPayload.TransientMapEntry") None];
  d_nested_types := ["protos.ChaincodeProposalPayload.TransientMapEntry"];
  d_enum_types := [];
  d_map_entry := false;
  d_oneofs := [];
  d_serialized_start := 402;
  d_serialized_end := 570;
|}.

(** ** peer/proposal_response_pb2.py *)

Definition DESCRIPTOR_ProposalResponse : Descriptor := {|
  d_name := "ProposalResponse";
  d_full_name := "protos.ProposalResponse";
  d_fields := [
    mkField "version" 0 1 5 1 1 None None;
    mkField "timestamp" 1 2 11 10 1 (Some "google.protobuf.Timestamp") None;
    mkField "response" 2 4 11 10 1 (Some "protos.Response") None;
    mkField "payload" 3 5 12 9 1 None None;
    mkField "endorsement" 4 6 11 10 1 (Some "protos.Endorsement") None];
  d_nested_types := [];
  d_enum_types := [];
  d_map_entry := false;
  d_oneofs := [];
  d_serialized_start := 91;
  d_serialized_end := 268;
|}.

Definition DESCRIPTOR_Response : Descriptor := {|
  d_name := "Response";
  d_full_name := "protos.Response";
  d_fields := [
    mkField "status" 0 1 5 1 1 None None;
    mkField "message" 1 2 9 9 1 None None;
    mkField "payload" 2 3 12 9 1 None None];
  d_nested_types := [];
  d_enum_types := [];
  d_map_entry := false;
  d_oneofs := [];
  d_serialized_start := 270;
  d_serialized_end := 330;
|}.

Definition DESCRIPTOR_ProposalResponsePayload : Descriptor := {|
  d_name := "ProposalResponsePayload";
  d_full_name := "protos.ProposalResponsePayload";
  d_fields := [
    mkField "proposal_hash" 0 1 12 9 1 None None;
    mkField "extension" 1 2 12 9 1 None None];
  d_nested_types := [];
  d_enum_types := [];
  d_map_entry := false;
  d_oneofs := [];
  d_serialized_start := 332;
  d_serialized_end := 399;
|}.

Definition DESCRIPTOR_Endorsement : Descriptor := {|
  d_name := "Endorsement";
  d_full_name := "protos.Endorsement";
  d_fields := [
    mkField "endorser" 0 1 12 9 1 None None;
    mkField "signature" 1 2 12 9 1 None None];
  d_nested_types := [];
  d_enum_types := [];
  d_map_entry := false;
  d_oneofs := [];
  d_serialized_start := 401;
  d_serialized_end := 451;
|}.

(** ** peer/transaction_pb2.py *)

Definition ENUM_TxValidationCode : EnumDescriptor := {|
  e_name := "TxValidationCode";
  e_full_name := "protos.TxValidationCode";
  e_values := [
    mkValue "VALID" 0 0;
    mkValue "NIL_ENVELOPE" 1 1;
    mkValue "BAD_PAYLOAD" 2 2;
    mkValue "BAD_COMMON_HEADER" 3 3;
    mkValue "BAD_CREATOR_SIGNATURE" 4 4;
    mkValue "INVALID_ENDORSER_TRANSACTION" 5 5;
    mkValue "INVALID_CONFIG_TRANSACTION" 6 6;
    mkValue "UNSUPPORTED_TX_PAYLOAD" 7 7;
    mkValue "BAD_PROPOSAL_TXID" 8 8;
    mkValue "DUPLICATE_TXID" 9 9;
    mkValue "ENDORSEMENT_POLICY_FAILURE" 10 10;
    mkValue "MVCC_READ_CONFLICT" 11 11;
    mkValue "PHANTOM_READ_CONFLICT" 12 12;
    mkValue "UNKNOWN_TX_TYPE" 13 13;
    mkValue "TARGET_CHAIN_NOT_FOUND" 14 14;
    mkValue "MARSHAL_TX_ERROR" 15 15;
    mkValue "NIL_TXACTION" 16 16;
    mkValue "EXPIRED_CHAINCODE" 17 17;
    mkValue "CHAINCODE_VERSION_CONFLICT" 18 18;
    mkValue "BAD_HEADER_EXTENSION" 19 19;
    mkValue "BAD_CHANNEL_HEADER" 20 20;
    mkValue "BAD_RESPONSE_PAYLOAD" 21 21;
    mkValue "BAD_RWSET" 22 22;
    mkValue "ILLEGAL_WRITESET" 23 23;
    mkValue "INVALID_WRITESET" 24 24;
    mkValue "NOT_VALIDATED" 25 254;
    mkValue "INVALID_OTHER_REASON" 26 255];
  e_serialized_start := 661;
  e_serialized_end := 1321;
|}.

Definition DESCRIPTOR_Transaction : Descriptor := {|
  d_name := "Transaction";
  d_full_name := "protos.Transaction";
  d_fields := [
    mkField "actions" 0 1 11 10 3 (Some "protos.TransactionAction") None];
  d_nested_types := [];
  d_enum_types := [];
  d_map_entry := false;
  d_oneofs := [];
  d_serialized_start := 331;
  d_serialized_end := 388;
|}.

Definition DESCRIPTOR_TransactionAction : Descriptor := {|
  d_name := "TransactionAction";
  d_full_name := "protos.TransactionAction";
  d_fields := [
    mkField "header" 0 1 12 9 1 None None;
    mkField "payload" 1 2 12 9 1 None None];
  d_nested_types := [];
  d_enum_types := [];
  d_map_entry := false;
  d_oneofs := [];
  d_serialized_start := 390;
  d_serialized_end := 442;
|}.

Definition DESCRIPTOR_ChaincodeActionPayload : Descriptor := {|
  d_name := "ChaincodeActionPayload";
  d_full_name := "protos.ChaincodeActionPayload";
  d_fields := [
    mkField "chaincode_proposal_payload" 0 1 12 9 1 None None;
    mkField "action" 1 2 11 10 1 (Some "protos.ChaincodeEndorsedAction") None];
  d_nested_types := [];
  d_enum_types := [];
  d_map_entry := false;
  d_oneofs := [];
  d_serialized_start := 444;
  d_serialized_end := 553;
|}.

Definition DESCRIPTOR_ChaincodeEndorsedAction : Descriptor := {|
  d_name := "ChaincodeEndorsedAction";
  d_full_name := "protos.ChaincodeEndorsedAction";
  d_fields := [
    mkField "proposal_response_payload" 0 1 12 9 1 None None;
    mkField "endorsements" 1 2 11 10 3 (Some "protos.Endorsement") None];
  d_nested_types := [];
  d_enum_types := [];
  d_map_entry := false;
  d_oneofs := [];
  d_serialized_start := 555;
  d_serialized_end := 658;
|}.

(** ** peer/events_pb2.py *)

Definition DESCRIPTOR_FilteredBlockProto : Descriptor := {|
  d_name := "FilteredBlock";
  d_full_name := "protos.FilteredBlock";
  d_fields := [
    mkField "channel_id" 0 1 9 9 1 None None;
    mkField "number" 1 2 4 4 1 None None;
    mkField "filtered_transactions" 2 4 11 10 3 (Some "protos.FilteredTransaction") None];
  d_nested_types := [];
  d_enum_types := [];
  d_map_entry := false;
  d_oneofs := [];
  d_serialized_start := 203;
  d_serialized_end := 314;
|}.

Definition DESCRIPTOR_FilteredTransaction : Descriptor := {|
  d_name := "FilteredTransaction";
  d_full_name := "protos.FilteredTransaction";
  d_fields := [
    mkField "txid" 0 1 9 9 1 None None;
    mkField "type" 1 2 14 8 1 (Some "common.HeaderType") None;
    mkField "tx_validation_code" 2 3 14 8 1 (Some "protos.TxValidationCode") None;
    mkField "transaction_actions" 3 4 11 10 1 (Some "protos.FilteredTransactionActions") (Some "Data")];
  d_nested_types := [];
  d_enum_types := [];
  d_map_entry := false;
  d_oneofs := ["Data"];
  d_serialized_start := 317;
  d_serialized_end := 515;
|}.

Definition DESCRIPTOR_FilteredTransactionActions : Descriptor := {|
  d_name := "FilteredTransactionActions";
  d_full_name := "protos.FilteredTransactionActions";
  d_fields := [
    mkField "chaincode_actions" 0 1 11 10 3 (Some "protos.FilteredChaincodeAction") None];
  d_nested_types := [];
  d_enum_types := [];
  d_map_entry := false;
  d_oneofs := [];
  d_serialized_start := 517;
  d_serialized_end := 605;
|}.

Definition DESCRIPTOR_FilteredChaincodeAction : Descriptor := {|
  d_name := "FilteredChaincodeAction";
  d_full_name := "protos.FilteredChaincodeAction";
  d_fields := [
    mkField "chaincode_event" 0 1 11 10 1 (Some "protos.ChaincodeEvent") None];
  d_nested_types := [];
  d_enum_types := [];
  d_map_entry := false;
  d_oneofs := [];
  d_serialized_start := 607;
  d_serialized_end := 681;
|}.

Definition DESCRIPTOR_DeliverResponse : Descriptor := {|
  d_name := "DeliverResponse";
  d_full_name := "protos.DeliverResponse";
  d_fields := [
    mkField "status" 0 1 14 8 1 (Some "common.Status") (Some "Type");
    mkField "block" 1 2 11 10 1 (Some "common.Block") (Some "Type");
    mkField "filtered_block" 2 3 11 10 1 (Some "protos.FilteredBlock") (Some "Type")];
  d_nested_types := [];
  d_enum_types := [];
  d_map_entry := false;
  d_oneofs := ["Type"];
  d_serialized_start := 684;
  d_serialized_end := 824;
|}.

(** ** peer/query_pb2.py *)

Definition DESCRIPTOR_ChaincodeQueryResponse : Descriptor := {|
  d_name := "ChaincodeQueryResponse";
  d_full_name := "protos.ChaincodeQueryResponse";
  d_fields := [
    mkField "chaincodes" 0 1 11 10 3 (Some "protos.ChaincodeInfo") None];
  d_nested_types := [];
  d_enum_types := [];
  d_map_entry := false;
  d_oneofs := [];
  d_serialized_start := 45;
  d_serialized_end := 112;
|}.

Definition DESCRIPTOR_ChaincodeInfo : Descriptor := {|
  d_name := "ChaincodeInfo";
  d_full_name := "protos.ChaincodeInfo";
  d_fields := [
    mkField "name" 0 1 9 9 1 None None;
    mkField "version" 1 2 9 9 1 None None;
    mkField "path" 2 3 9 9 1 None None;
    mkField "input" 3 4 9 9 1 None None;
    mkField "escc" 4 5 9 9 1 None None;
    mkField "vscc" 5 6 9 9 1 None None;
    mkField "id" 6 7 12 9 1 None None];
  d_nested_types := [];
  d_enum_types := [];
  d_map_entry := false;
  d_oneofs := [];
  d_serialized_start := 114;
  d_serialized_end := 229;
|}.

(** ** All of them *)

Definition all_enums : list EnumDescriptor := [
  ENUM_Status; ENUM_HeaderType; ENUM_BlockMetadataIndex; ENUM_MSPPrincipal_Classification;
  ENUM_MSPRole_MSPRoleType; ENUM_SeekInfo_SeekBehavior; ENUM_ChaincodeSpecProto_Type;
  ENUM_ChaincodeDeploymentSpec_ExecutionEnvironment; ENUM_TxValidationCode].

Definition all_descriptors : list Descriptor := [
  DESCRIPTOR_LastConfig; DESCRIPTOR_Metadata; DESCRIPTOR_MetadataSignature; DESCRIPTOR_Header;
  DESCRIPTOR_ChannelHeader; DESCRIPTOR_SignatureHeader; DESCRIPTOR_Payload;
  DESCRIPTOR_Envelope; DESCRIPTOR_Block; DESCRIPTOR_BlockHeader; DESCRIPTOR_BlockData;
  DESCRIPTOR_BlockMetadata; DESCRIPTOR_Policy; DESCRIPTOR_SignaturePolicyEnvelope;
  DESCRIPTOR_SignaturePolicy_NOutOf; DESCRIPTOR_SignaturePolicy; DESCRIPTOR_ConfigEnvelope;
  DESCRIPTOR_Config; DESCRIPTOR_ConfigUpdateEnvelope;
  DESCRIPTOR_ConfigUpdate_IsolatedDataEntry; DESCRIPTOR_ConfigUpdate;
  DESCRIPTOR_ConfigGroup_GroupsEntry; DESCRIPTOR_ConfigGroup_ValuesEntry;
  DESCRIPTOR_ConfigGroup_PoliciesEntry; DESCRIPTOR_ConfigGroup; DESCRIPTOR_ConfigValue;
  DESCRIPTOR_ConfigPolicy; DESCRIPTOR_ConfigSignature; DESCRIPTOR_SerializedIdentity;
  DESCRIPTOR_MSPPrincipal; DESCRIPTOR_MSPRole; DESCRIPTOR_BroadcastResponse;
  DESCRIPTOR_SeekNewest; DESCRIPTOR_SeekOldest; DESCRIPTOR_SeekSpecified;
  DESCRIPTOR_SeekPosition; DESCRIPTOR_SeekInfo; DESCRIPTOR_OrdererDeliverResponse;
  DESCRIPTOR_ChaincodeID; DESCRIPTOR_ChaincodeInput_DecorationsEntry;
  DESCRIPTOR_ChaincodeInput; DESCRIPTOR_ChaincodeSpecProto;
  DESCRIPTOR_ChaincodeDeploymentSpec; DESCRIPTOR_ChaincodeInvocationSpec;
  DESCRIPTOR_ChaincodeEvent; DESCRIPTOR_SignedProposal; DESCRIPTOR_Proposal;
  DESCRIPTOR_ChaincodeHeaderExtension; DESCRIPTOR_ChaincodeProposalPayload_TransientMapEntry;
  DESCRIPTOR_ChaincodeProposalPayload; DESCRIPTOR_ProposalResponse; DESCRIPTOR_Response;
  DESCRIPTOR_ProposalResponsePayload; DESCRIPTOR_Endorsement; DESCRIPTOR_Transaction;
  DESCRIPTOR_TransactionAction; DESCRIPTOR_ChaincodeActionPayload;
  DESCRIPTOR_ChaincodeEndorsedAction; DESCRIPTOR_FilteredBlockProto;
  DESCRIPTOR_FilteredTransaction; DESCRIPTOR_FilteredTransactionActions;
  DESCRIPTOR_FilteredChaincodeAction; DESCRIPTOR_DeliverResponse;
  DESCRIPTOR_ChaincodeQueryResponse; DESCRIPTOR_ChaincodeInfo].

(** ** What makes a table of descriptors well formed *)

(** The C++ type the library derives from each field type it uses here. *)
Definition cpp_type_of (ty : N) : option N :=
  match ty with
  | 3 => Some 2 | 4 => Some 4 | 5 => Some 1 | 8 => Some 7 | 9 => Some 9
  | 11 => Some 10 | 12 => Some 9 | 13 => Some 3 | 14 => Some 8 | _ => None
  end%N.

Definition message_names : list string :=
  "google.protobuf.Timestamp" :: (d_full_name <$> all_descriptors).
Definition enum_names : list string := e_full_name <$> all_enums.

(** Exactly the message and enum fields refer to a type, and it exists. *)
Definition field_ref_ok (f : FieldDescriptor) : bool :=
  match fd_type f, fd_ref f with
  | 11%N, Some r => bool_decide (r ∈ message_names)
  | 14%N, Some r => bool_decide (r ∈ enum_names)
  | 11%N, None | 14%N, None => false
  | _, Some _ => false
  | _, None => true
  end.

(** Field numbers are those proto3 allows. *)
Definition field_number_ok (n : N) : bool :=
  ((1 <=? n) && (n <=? 536870911) && negb ((19000 <=? n) && (n <=? 19999)))%N.

Definition field_ok (oneofs : list string) (f : FieldDescriptor) : bool :=
  field_number_ok (fd_number f) && field_ref_ok f
  && bool_decide (cpp_type_of (fd_type f) = Some (fd_cpp_type f))
  && bool_decide (fd_label f ∈ [1%N; 3%N])
  && match fd_containing_oneof f with
     | None => true
     | Some o => bool_decide (o ∈ oneofs) && (fd_label f =? 1)%N
     end.

(** The entry of a map is a message with the fields [key] = 1 and [value] = 2. *)
Definition map_entry_ok (d : Descriptor) : bool :=
  negb (d_map_entry d)
  || bool_decide ((λ f, (fd_name f, fd_number f)) <$> d_fields d
                  = [("key", 1%N); ("value", 2%N)]).

Definition find_descriptor (name : string) : option Descriptor :=
  List.find (λ d, bool_decide (d_full_name d = name)) all_descriptors.

(** A nested type lies inside the bytes of the message that contains it. *)
Definition nested_ok (d : Descriptor) : bool :=
  forallb (λ n, match find_descriptor n with
    | Some x => (d_serialized_start d <? d_serialized_start x)%N
                && (d_serialized_end x <=? d_serialized_end d)%N
    | None => false
    end) (d_nested_types d).

Definition descriptor_ok (d : Descriptor) : bool :=
  bool_decide (fd_index <$> d_fields d = N.of_nat <$> seq 0 (length (d_fields d)))
  && bool_decide (NoDup (fd_number <$> d_fields d))
  && bool_decide (NoDup (fd_name <$> d_fields d))
  && forallb (field_ok (d_oneofs d)) (d_fields d)
  && map_entry_ok d && nested_ok d
  && (d_serialized_start d <? d_serialized_end d)%N.

(** proto3: the first value of an enum is its zero. *)
Definition enum_ok (e : EnumDescriptor) : bool :=
  bool_decide (ev_number <$> head (e_values e) = Some 0%Z)
  && bool_decide (ev_index <$> e_values e = N.of_nat <$> seq 0 (length (e_values e)))
  && bool_decide (NoDup (ev_number <$> e_values e))
  && bool_decide (NoDup (ev_name <$> e_values e))
  && (e_serialized_start e <? e_serialized_end e)%N.

(** the generated descriptors are well formed: in every message the
    fields are indexed consecutively, have distinct names and distinct numbers
    proto3 allows, refer to a message or enum of the tables exactly when their
    type says so, and a map entry is a key and a value; every enum starts at
    zero and names each of its numbers once. *)
Theorem descriptors_well_formed :
  NoDup (d_full_name <$> all_descriptors)
  ∧ NoDup (e_full_name <$> all_enums)
  ∧ Forall (λ d, descriptor_ok d = true) all_descriptors
  ∧ Forall (λ e, enum_ok e = true) all_enums.
Proof. split_and!; by_compute. Qed.

(** Naming a number and looking the name up again are inverse, for an enum
    that passes the check. *)
Lemma EnumName_Value e n s :
  enum_ok e = true → EnumName e n = Some s → EnumValue e s = Some n.
Proof.
  unfold enum_ok, EnumName, EnumValue. rewrite !andb_true_iff, !bool_decide_eq_true.
  intros [[[[_ _] _] Hn] _] (v & [Hv Hv']%List.find_some & Hs)%fmap_Some.
  apply bool_decide_eq_true in Hv'. subst.
  destruct (List.find _ _) as [w|] eqn:E.
  - apply List.find_some in E as [Hw Hw']. apply bool_decide_eq_true in Hw'.
    assert (ev_name w = ev_name v) as Hwv by by apply u_inj.
    cbn. f_equal. f_equal.
    apply list_elem_of_In, list_elem_of_lookup in Hv as [i Hi], Hw as [j Hj].
    assert (i = j) as ->; [|congruence].
    eapply NoDup_lookup; [exact Hn|by rewrite list_lookup_fmap, Hi|].
    by rewrite list_lookup_fmap, Hj; cbn; f_equal.
  - eapply List.find_none in E; [|exact Hv]. by rewrite bool_decide_eq_false in E.
Qed.
