(* ===== verification/CommonProtos.v ===== *)
(** * CommonProtos: the messages of the common and msp packages

    One [Record] per generated message class, with its fields in descriptor
    order, the default instance that reading an unset submessage gives, and
    the [Message] instance that ties the record to its descriptor.  A
    submessage field is an [option] (its presence), a [oneof] an [option] of
    a sum, a map the list of its entries. *)
From S2P Require Import Prelude PyText Wire Protobuf Descriptors.

(** [google.protobuf.Timestamp]: seconds and nanoseconds since the epoch. *)
Record Timestamp := mkTimestamp {
  Timestamp_seconds : Z;
  Timestamp_nanos : Z;
}.
Definition Timestamp_fields : list (bfield Timestamp) := [
  BField 1 fc_int64 Timestamp_seconds;
  BField 2 fc_int32 Timestamp_nanos].
#[global] Instance Message_Timestamp : Message Timestamp.
Proof.
  refine {| schema := bf_schema Timestamp_fields; ListFields := bf_list Timestamp_fields;
    FromFields fs :=
     x1 ← fc_dec fc_int64 (sel 1 fs);
     x2 ← fc_dec fc_int32 (sel 2 fs);
     Some (mkTimestamp x1 x2);
    valid := bf_valid Timestamp_fields |}.
  abstract solve_message.
Defined.

(** ** common_pb2.py *)

(** [LastConfig] of common/common_pb2.py *)
Record LastConfig := mkLastConfig {
  LastConfig_index : Z;
}.
Definition LastConfig_default : LastConfig := mkLastConfig 0%Z.
Definition LastConfig_fields : list (bfield LastConfig) := [
  BField 1 fc_uint64 LastConfig_index].
#[global] Instance Message_LastConfig : Message LastConfig.
Proof.
  refine {| schema := bf_schema LastConfig_fields; ListFields := bf_list LastConfig_fields;
    FromFields fs :=
     x1 ← fc_dec fc_uint64 (sel 1 fs);
     Some (mkLastConfig x1);
    valid := bf_valid LastConfig_fields |}.
  abstract solve_message.
Defined.
#[global] Instance Described_LastConfig : Described LastConfig :=
  {| DESCRIPTOR := DESCRIPTOR_LastConfig; described := eq_refl |}.

(** [MetadataSignature] of common/common_pb2.py *)
Record MetadataSignature := mkMetadataSignature {
  MetadataSignature_signature_header : bytes;
  MetadataSignature_signature : bytes;
}.
Definition MetadataSignature_default : MetadataSignature := mkMetadataSignature [] [].
Definition MetadataSignature_fields : list (bfield MetadataSignature) := [
  BField 1 fc_bytes MetadataSignature_signature_header;
  BField 2 fc_bytes MetadataSignature_signature].
#[global] Instance Message_MetadataSignature : Message MetadataSignature.
Proof.
  refine {| schema := bf_schema MetadataSignature_fields; ListFields := bf_list MetadataSignature_fields;
    FromFields fs :=
     x1 ← fc_dec fc_bytes (sel 1 fs);
     x2 ← fc_dec fc_bytes (sel 2 fs);
     Some (mkMetadataSignature x1 x2);
    valid := bf_valid MetadataSignature_fields |}.
  abstract solve_message.
Defined.
#[global] Instance Described_MetadataSignature : Described MetadataSignature :=
  {| DESCRIPTOR := DESCRIPTOR_MetadataSignature; described := eq_refl |}.

(** [Metadata] of common/common_pb2.py *)
Record Metadata := mkMetadata {
  Metadata_value : bytes;
  Metadata_signatures : list MetadataSignature;
}.
Definition Metadata_default : Metadata := mkMetadata [] [].
Definition Metadata_fields : list (bfield Metadata) := [
  BField 1 fc_bytes Metadata_value;
  BField 2 fc_rep_msg Metadata_signatures].
#[global] Instance Message_Metadata : Message Metadata.
Proof.
  refine {| schema := bf_schema Metadata_fields; ListFields := bf_list Metadata_fields;
    FromFields fs :=
     x1 ← fc_dec fc_bytes (sel 1 fs);
     x2 ← fc_dec fc_rep_msg (sel 2 fs);
     Some (mkMetadata x1 x2);
    valid := bf_valid Metadata_fields |}.
  abstract solve_message.
Defined.
#[global] Instance Described_Metadata : Described Metadata :=
  {| DESCRIPTOR := DESCRIPTOR_Metadata; described := eq_refl |}.

(** [Header] of common/common_pb2.py *)
Record Header := mkHeader {
  Header_channel_header : bytes;
  Header_signature_header : bytes;
}.
Definition Header_default : Header := mkHeader [] [].
Definition Header_fields : list (bfield Header) := [
  BField 1 fc_bytes Header_channel_header;
  BField 2 fc_bytes Header_signature_header].
#[global] Instance Message_Header : Message Header.
Proof.
  refine {| schema := bf_schema Header_fields; ListFields := bf_list Header_fields;
    FromFields fs :=
     x1 ← fc_dec fc_bytes (sel 1 fs);
     x2 ← fc_dec fc_bytes (sel 2 fs);
     Some (mkHeader x1 x2);
    valid := bf_valid Header_fields |}.
  abstract solve_message.
Defined.
#[global] Instance Described_Header : Described Header :=
  {| DESCRIPTOR := DESCRIPTOR_Header; described := eq_refl |}.

(** [ChannelHeader] of common/common_pb2.py *)
Record ChannelHeader := mkChannelHeader {
  ChannelHeader_type : Z;
  ChannelHeader_version : Z;
  ChannelHeader_timestamp : option Timestamp;
  ChannelHeader_channel_id : pystr;
  ChannelHeader_tx_id : pystr;
  ChannelHeader_epoch : Z;
  ChannelHeader_extension : bytes;
  ChannelHeader_tls_cert_hash : bytes;
}.
Definition ChannelHeader_default : ChannelHeader := mkChannelHeader 0%Z 0%Z None [] [] 0%Z [] [].
Definition ChannelHeader_fields : list (bfield ChannelHeader) := [
  BField 1 fc_int32 ChannelHeader_type;
  BField 2 fc_int32 ChannelHeader_version;
  BField 3 fc_msg ChannelHeader_timestamp;
  BField 4 fc_string ChannelHeader_channel_id;
  BField 5 fc_string ChannelHeader_tx_id;
  BField 6 fc_uint64 ChannelHeader_epoch;
  BField 7 fc_bytes ChannelHeader_extension;
  BField 8 fc_bytes ChannelHeader_tls_cert_hash].
#[global] Instance Message_ChannelHeader : Message ChannelHeader.
Proof.
  refine {| schema := bf_schema ChannelHeader_fields; ListFields := bf_list ChannelHeader_fields;
    FromFields fs :=
     x1 ← fc_dec fc_int32 (sel 1 fs);
     x2 ← fc_dec fc_int32 (sel 2 fs);
     x3 ← fc_dec fc_msg (sel 3 fs);
     x4 ← fc_dec fc_string (sel 4 fs);
     x5 ← fc_dec fc_string (sel 5 fs);
     x6 ← fc_dec fc_uint64 (sel 6 fs);
     x7 ← fc_dec fc_bytes (sel 7 fs);
     x8 ← fc_dec fc_bytes (sel 8 fs);
     Some (mkChannelHeader x1 x2 x3 x4 x5 x6 x7 x8);
    valid := bf_valid ChannelHeader_fields |}.
  abstract solve_message.
Defined.
#[global] Instance Described_ChannelHeader : Described ChannelHeader :=
  {| DESCRIPTOR := DESCRIPTOR_ChannelHeader; described := eq_refl |}.

(** [SignatureHeader] of common/common_pb2.py *)
Record SignatureHeader := mkSignatureHeader {
  SignatureHeader_creator : bytes;
  SignatureHeader_nonce : bytes;
}.
Definition SignatureHeader_default : SignatureHeader := mkSignatureHeader [] [].
Definition SignatureHeader_fields : list (bfield SignatureHeader) := [
  BField 1 fc_bytes SignatureHeader_creator;
  BField 2 fc_bytes SignatureHeader_nonce].
#[global] Instance Message_SignatureHeader : Message SignatureHeader.
Proof.
  refine {| schema := bf_schema SignatureHeader_fields; ListFields := bf_list SignatureHeader_fields;
    FromFields fs :=
     x1 ← fc_dec fc_bytes (sel 1 fs);
     x2 ← fc_dec fc_bytes (sel 2 fs);
     Some (mkSignatureHeader x1 x2);
    valid := bf_valid SignatureHeader_fields |}.
  abstract solve_message.
Defined.
#[global] Instance Described_SignatureHeader : Described SignatureHeader :=
  {| DESCRIPTOR := DESCRIPTOR_SignatureHeader; described := eq_refl |}.

(** [Payload] of common/common_pb2.py *)
Record Payload := mkPayload {
  Payload_header : option Header;
  Payload_data : bytes;
}.
Definition Payload_default : Payload := mkPayload None [].
Definition Payload_fields : list (bfield Payload) := [
  BField 1 fc_msg Payload_header;
  BField 2 fc_bytes Payload_data].
#[global] Instance Message_Payload : Message Payload.
Proof.
  refine {| schema := bf_schema Payload_fields; ListFields := bf_list Payload_fields;
    FromFields fs :=
     x1 ← fc_dec fc_msg (sel 1 fs);
     x2 ← fc_dec fc_bytes (sel 2 fs);
     Some (mkPayload x1 x2);
    valid := bf_valid Payload_fields |}.
  abstract solve_message.
Defined.
#[global] Instance Described_Payload : Described Payload :=
  {| DESCRIPTOR := DESCRIPTOR_Payload; described := eq_refl |}.

(** [Envelope] of common/common_pb2.py *)
Record Envelope := mkEnvelope {
  Envelope_payload : bytes;
  Envelope_signature : bytes;
}.
Definition Envelope_default : Envelope := mkEnvelope [] [].
Definition Envelope_fields : list (bfield Envelope) := [
  BField 1 fc_bytes Envelope_payload;
  BField 2 fc_bytes Envelope_signature].
#[global] Instance Message_Envelope : Message Envelope.
Proof.
  refine {| schema := bf_schema Envelope_fields; ListFields := bf_list Envelope_fields;
    FromFields fs :=
     x1 ← fc_dec fc_bytes (sel 1 fs);
     x2 ← fc_dec fc_bytes (sel 2 fs);
     Some (mkEnvelope x1 x2);
    valid := bf_valid Envelope_fields |}.
  abstract solve_message.
Defined.
#[global] Instance Described_Envelope : Described Envelope :=
  {| DESCRIPTOR := DESCRIPTOR_Envelope; described := eq_refl |}.

(** [BlockHeader] of common/common_pb2.py *)
Record BlockHeader := mkBlockHeader {
  BlockHeader_number : Z;
  BlockHeader_previous_hash : bytes;
  BlockHeader_data_hash : bytes;
}.
Definition BlockHeader_default : BlockHeader := mkBlockHeader 0%Z [] [].
Definition BlockHeader_fields : list (bfield BlockHeader) := [
  BField 1 fc_uint64 BlockHeader_number;
  BField 2 fc_bytes BlockHeader_previous_hash;
  BField 3 fc_bytes BlockHeader_data_hash].
#[global] Instance Message_BlockHeader : Message BlockHeader.
Proof.
  refine {| schema := bf_schema BlockHeader_fields; ListFields := bf_list BlockHeader_fields;
    FromFields fs :=
     x1 ← fc_dec fc_uint64 (sel 1 fs);
     x2 ← fc_dec fc_bytes (sel 2 fs);
     x3 ← fc_dec fc_bytes (sel 3 fs);
     Some (mkBlockHeader x1 x2 x3);
    valid := bf_valid BlockHeader_fields |}.
  abstract solve_message.
Defined.
#[global] Instance Described_BlockHeader : Described BlockHeader :=
  {| DESCRIPTOR := DESCRIPTOR_BlockHeader; described := eq_refl |}.

(** [BlockData] of common/common_pb2.py *)
Record BlockData := mkBlockData {
  BlockData_data : list bytes;
}.
Definition BlockData_default : BlockData := mkBlockData [].
Definition BlockData_fields : list (bfield BlockData) := [
  BField 1 fc_rep_bytes BlockData_data].
#[global] Instance Message_BlockData : Message BlockData.
Proof.
  refine {| schema := bf_schema BlockData_fields; ListFields := bf_list BlockData_fields;
    FromFields fs :=
     x1 ← fc_dec fc_rep_bytes (sel 1 fs);
     Some (mkBlockData x1);
    valid := bf_valid BlockData_fields |}.
  abstract solve_message.
Defined.
#[global] Instance Described_BlockData : Described BlockData :=
  {| DESCRIPTOR := DESCRIPTOR_BlockData; described := eq_refl |}.

(** [BlockMetadata] of common/common_pb2.py *)
Record BlockMetadata := mkBlockMetadata {
  BlockMetadata_metadata : list bytes;
}.
Definition BlockMetadata_default : BlockMetadata := mkBlockMetadata [].
Definition BlockMetadata_fields : list (bfield BlockMetadata) := [
  BField 1 fc_rep_bytes BlockMetadata_metadata].
#[global] Instance Message_BlockMetadata : Message BlockMetadata.
Proof.
  refine {| schema := bf_schema BlockMetadata_fields; ListFields := bf_list BlockMetadata_fields;
    FromFields fs :=
     x1 ← fc_dec fc_rep_bytes (sel 1 fs);
     Some (mkBlockMetadata x1);
    valid := bf_valid BlockMetadata_fields |}.
  abstract solve_message.
Defined.
#[global] Instance Described_BlockMetadata : Described BlockMetadata :=
  {| DESCRIPTOR := DESCRIPTOR_BlockMetadata; described := eq_refl |}.

(** [Block] of common/common_pb2.py *)
Record Block := mkBlock {
  Block_header : option BlockHeader;
  Block_data : option BlockData;
  Block_metadata : option BlockMetadata;
}.
Definition Block_default : Block := mkBlock None None None.
Definition Block_fields : list (bfield Block) := [
  BField 1 fc_msg Block_header;
  BField 2 fc_msg Block_data;
  BField 3 fc_msg Block_metadata].
#[global] Instance Message_Block : Message Block.
Proof.
  refine {| schema := bf_schema Block_fields; ListFields := bf_list Block_fields;
    FromFields fs :=
     x1 ← fc_dec fc_msg (sel 1 fs);
     x2 ← fc_dec fc_msg (sel 2 fs);
     x3 ← fc_dec fc_msg (sel 3 fs);
     Some (mkBlock x1 x2 x3);
    valid := bf_valid Block_fields |}.
  abstract solve_message.
Defined.
#[global] Instance Described_Block : Described Block :=
  {| DESCRIPTOR := DESCRIPTOR_Block; described := eq_refl |}.

(** ** identities_pb2.py and msp_principal_pb2.py *)

(** [SerializedIdentity] of msp/identities_pb2.py *)
Record SerializedIdentity := mkSerializedIdentity {
  SerializedIdentity_mspid : pystr;
  SerializedIdentity_id_bytes : bytes;
}.
Definition SerializedIdentity_default : SerializedIdentity := mkSerializedIdentity [] [].
Definition SerializedIdentity_fields : list (bfield SerializedIdentity) := [
  BField 1 fc_string SerializedIdentity_mspid;
  BField 2 fc_bytes SerializedIdentity_id_bytes].
#[global] Instance Message_SerializedIdentity : Message SerializedIdentity.
Proof.
  refine {| schema := bf_schema SerializedIdentity_fields; ListFields := bf_list SerializedIdentity_fields;
    FromFields fs :=
     x1 ← fc_dec fc_string (sel 1 fs);
     x2 ← fc_dec fc_bytes (sel 2 fs);
     Some (mkSerializedIdentity x1 x2);
    valid := bf_valid SerializedIdentity_fields |}.
  abstract solve_message.
Defined.
#[global] Instance Described_SerializedIdentity : Described SerializedIdentity :=
  {| DESCRIPTOR := DESCRIPTOR_SerializedIdentity; described := eq_refl |}.

(** [MSPPrincipal] of msp/msp_principal_pb2.py *)
Record MSPPrincipal := mkMSPPrincipal {
  MSPPrincipal_principal_classification : Z;
  MSPPrincipal_principal : bytes;
}.
Definition MSPPrincipal_default : MSPPrincipal := mkMSPPrincipal 0%Z [].
Definition MSPPrincipal_fields : list (bfield MSPPrincipal) := [
  BField 1 fc_enum MSPPrincipal_principal_classification;
  BField 2 fc_bytes MSPPrincipal_principal].
#[global] Instance Message_MSPPrincipal : Message MSPPrincipal.
Proof.
  refine {| schema := bf_schema MSPPrincipal_fields; ListFields := bf_list MSPPrincipal_fields;
    FromFields fs :=
     x1 ← fc_dec fc_enum (sel 1 fs);
     x2 ← fc_dec fc_bytes (sel 2 fs);
     Some (mkMSPPrincipal x1 x2);
    valid := bf_valid MSPPrincipal_fields |}.
  abstract solve_message.
Defined.
#[global] Instance Described_MSPPrincipal : Described MSPPrincipal :=
  {| DESCRIPTOR := DESCRIPTOR_MSPPrincipal; described := eq_refl |}.

(** [MSPRole] of msp/msp_principal_pb2.py *)
Record MSPRole := mkMSPRole {
  MSPRole_msp_identifier : pystr;
  MSPRole_role : Z;
}.
Definition MSPRole_default : MSPRole := mkMSPRole [] 0%Z.
Definition MSPRole_fields : list (bfield MSPRole) := [
  BField 1 fc_string MSPRole_msp_identifier;
  BField 2 fc_enum MSPRole_role].
#[global] Instance Message_MSPRole : Message MSPRole.
Proof.
  refine {| schema := bf_schema MSPRole_fields; ListFields := bf_list MSPRole_fields;
    FromFields fs :=
     x1 ← fc_dec fc_string (sel 1 fs);
     x2 ← fc_dec fc_enum (sel 2 fs);
     Some (mkMSPRole x1 x2);
    valid := bf_valid MSPRole_fields |}.
  abstract solve_message.
Defined.
#[global] Instance Described_MSPRole : Described MSPRole :=
  {| DESCRIPTOR := DESCRIPTOR_MSPRole; described := eq_refl |}.

(** ** policies_pb2.py *)

(** [Policy] of common/policies_pb2.py *)
Record Policy := mkPolicy {
  Policy_type : Z;
  Policy_value : bytes;
}.
Definition Policy_default : Policy := mkPolicy 0%Z [].
Definition Policy_fields : list (bfield Policy) := [
  BField 1 fc_int32 Policy_type;
  BField 2 fc_bytes Policy_value].
#[global] Instance Message_Policy : Message Policy.
Proof.
  refine {| schema := bf_schema Policy_fields; ListFields := bf_list Policy_fields;
    FromFields fs :=
     x1 ← fc_dec fc_int32 (sel 1 fs);
     x2 ← fc_dec fc_bytes (sel 2 fs);
     Some (mkPolicy x1 x2);
    valid := bf_valid Policy_fields |}.
  abstract solve_message.
Defined.
#[global] Instance Described_Policy : Described Policy :=
  {| DESCRIPTOR := DESCRIPTOR_Policy; described := eq_refl |}.

(** [SignaturePolicy] and its nested [NOutOf] of common/policies_pb2.py: the
    [oneof] is unset, a [signed_by] index or an [n_out_of] rule. *)
Inductive SignaturePolicy :=
  | SignaturePolicy_unset
  | SignaturePolicy_signed_by (idx : Z)
  | SignaturePolicy_n_out_of (n : Z) (rules : list SignaturePolicy).
Definition SignaturePolicy_default := SignaturePolicy_unset.

Section SignaturePolicy_ind.
Variable P : SignaturePolicy → Prop.
Hypothesis Hunset : P SignaturePolicy_unset.
Hypothesis Hsigned : ∀ idx, P (SignaturePolicy_signed_by idx).
Hypothesis Hnoutof : ∀ n rules, Forall P rules → P (SignaturePolicy_n_out_of n rules).

Fixpoint SignaturePolicy_strong_ind (p : SignaturePolicy) : P p :=
  match p with
  | SignaturePolicy_unset => Hunset
  | SignaturePolicy_signed_by idx => Hsigned idx
  | SignaturePolicy_n_out_of n rules =>
    Hnoutof n rules ((fix go l : Forall P l :=
      match l with
      | [] => @List.Forall_nil _ P
      | x :: l => @List.Forall_cons _ P x l (SignaturePolicy_strong_ind x) (go l)
      end) rules)
  end.
End SignaturePolicy_ind.

Fixpoint SignaturePolicy_fields (p : SignaturePolicy) : list wfield :=
  match p with
  | SignaturePolicy_unset => []
  | SignaturePolicy_signed_by idx => [(1%N, WVarint (of_signed idx))]
  | SignaturePolicy_n_out_of n rules =>
    [(2%N, WLen (enc_fields (fld 1 (enc_int n)
       ++ fld 2 ((λ r, WLen (enc_fields (SignaturePolicy_fields r))) <$> rules))))]
  end.

Fixpoint SignaturePolicy_valid (p : SignaturePolicy) : bool :=
  match p with
  | SignaturePolicy_unset => true
  | SignaturePolicy_signed_by idx => is_int32 idx
  | SignaturePolicy_n_out_of n rules => is_int32 n && forallb SignaturePolicy_valid rules
  end.

(** The fuel bounds the nesting, which the size of the encoding bounds. *)
Fixpoint SignaturePolicy_dec (fuel : nat) (fs : list wfield) : option SignaturePolicy :=
  match fuel with
  | O => None
  | S f =>
    i ← fc_dec (fc_oneof_signed 5) (sel 1 fs);
    match last (sel 2 fs), i with
    | None, None => Some SignaturePolicy_unset
    | None, Some idx => Some (SignaturePolicy_signed_by idx)
    | Some v, _ =>
      l ← get_len v; gs ← dec_fields l;
      n ← fc_dec fc_int32 (sel 1 gs);
      rules ← mapM (λ v, l ← get_len v; hs ← dec_fields l; SignaturePolicy_dec f hs) (sel 2 gs);
      Some (SignaturePolicy_n_out_of n rules)
    end
  end.

Lemma SignaturePolicy_dec_fields p fuel :
  SignaturePolicy_valid p = true → length (enc_fields (SignaturePolicy_fields p)) < fuel →
  SignaturePolicy_dec fuel (SignaturePolicy_fields p) = Some p.
Proof.
  revert fuel. induction p as [|idx|n rules IH] using SignaturePolicy_strong_ind;
    intros [|fuel] Hv Hf; try lia; [done| |].
  - cbn in *. by rewrite to_of_signed32.
  - cbn [SignaturePolicy_valid] in Hv. apply andb_true_iff in Hv as [Hn Hr].
    cbn [SignaturePolicy_fields] in Hf. match type of Hf with
    | length (enc_fields [(_, WLen ?l)]) < _ => pose proof (enc_fields_single_len 2 l) as HL
    end. rewrite enc_fields_app, length_app in HL.
    cbn [SignaturePolicy_fields SignaturePolicy_dec sel omap list_omap fst snd N.eqb Pos.eqb
      last fc_dec fc_oneof_signed last_or mbind option_bind get_len].
    rewrite dec_enc_fields. cbn [mbind option_bind].
    rewrite !sel_app, !sel_fld. cbn [N.eqb Pos.eqb app]. rewrite app_nil_r.
    change (enc_int n) with (fc_enc fc_int32 n). rewrite fc_law by done. cbn [mbind option_bind].
    rewrite mapM_option_fmap; [done|]. apply Forall_forall. intros r Hin.
    cbn [mbind option_bind get_len]. rewrite dec_enc_fields. cbn [mbind option_bind].
    rewrite Forall_forall in IH. apply IH; [done| |].
    + rewrite forallb_forall in Hr. by apply Hr, list_elem_of_In.
    + pose proof (enc_fields_fld_len (λ r, enc_fields (SignaturePolicy_fields r)) 2 rules r Hin)
        as HL2. rewrite enc_fields_app in Hf.
      unfold fld in HL, Hf. cbn beta in HL2. lia.
Qed.

#[global] Instance Message_SignaturePolicy : Message SignaturePolicy.
Proof.
  refine {| schema := [(1, 5, 1); (2, 11, 1)]%N; ListFields := SignaturePolicy_fields;
    FromFields fs := SignaturePolicy_dec (S (length (enc_fields fs))) fs;
    valid := SignaturePolicy_valid |}.
  abstract (intros m Hm; apply SignaturePolicy_dec_fields; [done|lia]).
Defined.
#[global] Instance Described_SignaturePolicy : Described SignaturePolicy :=
  {| DESCRIPTOR := DESCRIPTOR_SignaturePolicy; described := eq_refl |}.

(** [SignaturePolicyEnvelope] of common/policies_pb2.py *)
Record SignaturePolicyEnvelope := mkSignaturePolicyEnvelope {
  SignaturePolicyEnvelope_version : Z;
  SignaturePolicyEnvelope_rule : option SignaturePolicy;
  SignaturePolicyEnvelope_identities : list MSPPrincipal;
}.
Definition SignaturePolicyEnvelope_default : SignaturePolicyEnvelope := mkSignaturePolicyEnvelope 0%Z None [].
Definition SignaturePolicyEnvelope_fields : list (bfield SignaturePolicyEnvelope) := [
  BField 1 fc_int32 SignaturePolicyEnvelope_version;
  BField 2 fc_msg SignaturePolicyEnvelope_rule;
  BField 3 fc_rep_msg SignaturePolicyEnvelope_identities].
#[global] Instance Message_SignaturePolicyEnvelope : Message SignaturePolicyEnvelope.
Proof.
  refine {| schema := bf_schema SignaturePolicyEnvelope_fields; ListFields := bf_list SignaturePolicyEnvelope_fields;
    FromFields fs :=
     x1 ← fc_dec fc_int32 (sel 1 fs);
     x2 ← fc_dec fc_msg (sel 2 fs);
     x3 ← fc_dec fc_rep_msg (sel 3 fs);
     Some (mkSignaturePolicyEnvelope x1 x2 x3);
    valid := bf_valid SignaturePolicyEnvelope_fields |}.
  abstract solve_message.
Defined.
#[global] Instance Described_SignaturePolicyEnvelope : Described SignaturePolicyEnvelope :=
  {| DESCRIPTOR := DESCRIPTOR_SignaturePolicyEnvelope; described := eq_refl |}.

(** ** configtx_pb2.py *)

(** [ConfigValue] of common/configtx_pb2.py *)
Record ConfigValue := mkConfigValue {
  ConfigValue_version : Z;
  ConfigValue_value : bytes;
  ConfigValue_mod_policy : pystr;
}.
Definition ConfigValue_default : ConfigValue := mkConfigValue 0%Z [] [].
Definition ConfigValue_fields : list (bfield ConfigValue) := [
  BField 1 fc_uint64 ConfigValue_version;
  BField 2 fc_bytes ConfigValue_value;
  BField 3 fc_string ConfigValue_mod_policy].
#[global] Instance Message_ConfigValue : Message ConfigValue.
Proof.
  refine {| schema := bf_schema ConfigValue_fields; ListFields := bf_list ConfigValue_fields;
    FromFields fs :=
     x1 ← fc_dec fc_uint64 (sel 1 fs);
     x2 ← fc_dec fc_bytes (sel 2 fs);
     x3 ← fc_dec fc_string (sel 3 fs);
     Some (mkConfigValue x1 x2 x3);
    valid := bf_valid ConfigValue_fields |}.
  abstract solve_message.
Defined.
#[global] Instance Described_ConfigValue : Described ConfigValue :=
  {| DESCRIPTOR := DESCRIPTOR_ConfigValue; described := eq_refl |}.

(** [ConfigPolicy] of common/configtx_pb2.py *)
Record ConfigPolicy := mkConfigPolicy {
  ConfigPolicy_version : Z;
  ConfigPolicy_policy : option Policy;
  ConfigPolicy_mod_policy : pystr;
}.
Definition ConfigPolicy_default : ConfigPolicy := mkConfigPolicy 0%Z None [].
Definition ConfigPolicy_fields : list (bfield ConfigPolicy) := [
  BField 1 fc_uint64 ConfigPolicy_version;
  BField 2 fc_msg ConfigPolicy_policy;
  BField 3 fc_string ConfigPolicy_mod_policy].
#[global] Instance Message_ConfigPolicy : Message ConfigPolicy.
Proof.
  refine {| schema := bf_schema ConfigPolicy_fields; ListFields := bf_list ConfigPolicy_fields;
    FromFields fs :=
     x1 ← fc_dec fc_uint64 (sel 1 fs);
     x2 ← fc_dec fc_msg (sel 2 fs);
     x3 ← fc_dec fc_string (sel 3 fs);
     Some (mkConfigPolicy x1 x2 x3);
    valid := bf_valid ConfigPolicy_fields |}.
  abstract solve_message.
Defined.
#[global] Instance Described_ConfigPolicy : Described ConfigPolicy :=
  {| DESCRIPTOR := DESCRIPTOR_ConfigPolicy; described := eq_refl |}.

(** [ConfigGroup] of common/configtx_pb2.py: a tree of named groups. *)
Inductive ConfigGroup := mkConfigGroup {
  ConfigGroup_version : Z;
  ConfigGroup_groups : list (pystr * ConfigGroup);
  ConfigGroup_values : list (pystr * ConfigValue);
  ConfigGroup_policies : list (pystr * ConfigPolicy);
  ConfigGroup_mod_policy : pystr;
}.
Definition ConfigGroup_default : ConfigGroup := mkConfigGroup 0 [] [] [] [].

Section ConfigGroup_ind.
Variable P : ConfigGroup → Prop.
Hypothesis Hgroup : ∀ v gs vs ps mp,
  Forall (λ e, P e.2) gs → P (mkConfigGroup v gs vs ps mp).

Fixpoint ConfigGroup_strong_ind (g : ConfigGroup) : P g :=
  match g with
  | mkConfigGroup v gs vs ps mp =>
    Hgroup v gs vs ps mp ((fix go l : Forall (λ e, P e.2) l :=
      match l with
      | [] => @List.Forall_nil _ _
      | x :: l => @List.Forall_cons _ (λ e, P e.2) x l (ConfigGroup_strong_ind x.2) (go l)
      end) gs)
  end.
End ConfigGroup_ind.

(** The fields other than [groups] are plain. *)
Definition ConfigGroup_entry (k : pystr) (g : list wfield) : bytes :=
  enc_fields (fld 1 (fc_enc fc_string k) ++ fld 2 [WLen (enc_fields g)]).
Lemma ConfigGroup_entry_length k g : length (enc_fields g) < length (ConfigGroup_entry k g).
Proof.
  unfold ConfigGroup_entry, fld. rewrite enc_fields_app, length_app. cbn [fmap list_fmap].
  pose proof (enc_fields_single_len 2 (enc_fields g)). lia.
Qed.

Definition fc_ConfigValues : FieldCodec (list (pystr * ConfigValue)) :=
  fc_map (fc_msg_value ConfigValue_default).
Definition fc_ConfigPolicies : FieldCodec (list (pystr * ConfigPolicy)) :=
  fc_map (fc_msg_value ConfigPolicy_default).

Fixpoint ConfigGroup_fields (g : ConfigGroup) : list wfield :=
  match g with
  | mkConfigGroup v gs vs ps mp =>
    fld 1 (fc_enc fc_uint64 v)
    ++ fld 2 ((λ e, WLen (ConfigGroup_entry e.1 (ConfigGroup_fields e.2))) <$> gs)
    ++ fld 3 (fc_enc fc_ConfigValues vs) ++ fld 4 (fc_enc fc_ConfigPolicies ps)
    ++ fld 5 (fc_enc fc_string mp)
  end.

Fixpoint ConfigGroup_valid (g : ConfigGroup) : bool :=
  match g with
  | mkConfigGroup v gs vs ps mp =>
    fc_ok fc_uint64 v && forallb (λ e, valid_str e.1 && ConfigGroup_valid e.2) gs
    && fc_ok fc_ConfigValues vs && fc_ok fc_ConfigPolicies ps && valid_str mp
  end.

Fixpoint ConfigGroup_dec (fuel : nat) (fs : list wfield) : option ConfigGroup :=
  match fuel with
  | O => None
  | S f =>
    v ← fc_dec fc_uint64 (sel 1 fs);
    gs ← mapM (λ w,
      l ← get_len w; es ← dec_fields l;
      k ← fc_dec fc_string (sel 1 es);
      g ← last_or ConfigGroup_default
            (λ w, l ← get_len w; hs ← dec_fields l; ConfigGroup_dec f hs) (sel 2 es);
      Some (k, g)) (sel 2 fs);
    vs ← fc_dec fc_ConfigValues (sel 3 fs);
    ps ← fc_dec fc_ConfigPolicies (sel 4 fs);
    mp ← fc_dec fc_string (sel 5 fs);
    Some (mkConfigGroup v gs vs ps mp)
  end.

Lemma ConfigGroup_dec_fields g fuel :
  ConfigGroup_valid g = true → length (enc_fields (ConfigGroup_fields g)) < fuel →
  ConfigGroup_dec fuel (ConfigGroup_fields g) = Some g.
Proof.
  revert fuel. induction g as [v gs vs ps mp IH] using ConfigGroup_strong_ind.
  intros [|fuel] Hv Hf; [lia|]. cbn [ConfigGroup_valid] in Hv.
  rewrite !andb_true_iff in Hv. destruct Hv as [[[[Hv Hgs] Hvs] Hps] Hmp].
  cbn [ConfigGroup_fields] in Hf. rewrite !enc_fields_app, !length_app in Hf.
  cbn [ConfigGroup_fields ConfigGroup_dec]. rewrite !sel_app, !sel_fld.
  cbn [N.eqb Pos.eqb app]. rewrite ?app_nil_r.
  rewrite (fc_law fc_uint64) by done. cbn [mbind option_bind].
  rewrite mapM_option_fmap.
  - cbn [mbind option_bind]. rewrite (fc_law fc_ConfigValues) by done. cbn [mbind option_bind].
    rewrite (fc_law fc_ConfigPolicies) by done. cbn [mbind option_bind].
    by rewrite (fc_law fc_string).
  - rewrite forallb_forall in Hgs. rewrite Forall_forall in IH |- *. intros [k g] Hin.
    pose proof (Hgs _ (proj1 (list_elem_of_In _ _) Hin)) as [Hk Hg]%andb_true_iff.
    unfold ConfigGroup_entry. cbn [mbind option_bind get_len fst snd] in *.
    rewrite dec_enc_fields. cbn [mbind option_bind]. rewrite !sel_app, !sel_fld.
    cbn [N.eqb Pos.eqb app]. rewrite ?app_nil_r.
    rewrite (fc_law fc_string) by done. cbn [mbind option_bind].
    unfold last_or. cbn [last mbind option_bind get_len].
    rewrite dec_enc_fields. cbn [mbind option_bind].
    rewrite (IH _ Hin); [done|done|]. cbn [snd].
    pose proof (enc_fields_fld_len
      (λ e : pystr * ConfigGroup, ConfigGroup_entry e.1 (ConfigGroup_fields e.2)) 2 gs _ Hin) as HL.
    cbn [fst snd] in HL.
    pose proof (ConfigGroup_entry_length k (ConfigGroup_fields g)).
    unfold fld in Hf. cbn beta in *. lia.
Qed.

#[global] Instance Message_ConfigGroup : Message ConfigGroup.
Proof.
  refine {| schema := [(1, 4, 1); (2, 11, 3); (3, 11, 3); (4, 11, 3); (5, 9, 1)]%N;
    ListFields := ConfigGroup_fields;
    FromFields fs := ConfigGroup_dec (S (length (enc_fields fs))) fs;
    valid := ConfigGroup_valid |}.
  abstract (intros m Hm; apply ConfigGroup_dec_fields; [done|lia]).
Defined.
#[global] Instance Described_ConfigGroup : Described ConfigGroup :=
  {| DESCRIPTOR := DESCRIPTOR_ConfigGroup; described := eq_refl |}.

(** [Config] of common/configtx_pb2.py *)
Record Config := mkConfig {
  Config_sequence : Z;
  Config_channel_group : option ConfigGroup;
}.
Definition Config_default : Config := mkConfig 0%Z None.
Definition Config_fields : list (bfield Config) := [
  BField 1 fc_uint64 Config_sequence;
  BField 2 fc_msg Config_channel_group].
#[global] Instance Message_Config : Message Config.
Proof.
  refine {| schema := bf_schema Config_fields; ListFields := bf_list Config_fields;
    FromFields fs :=
     x1 ← fc_dec fc_uint64 (sel 1 fs);
     x2 ← fc_dec fc_msg (sel 2 fs);
     Some (mkConfig x1 x2);
    valid := bf_valid Config_fields |}.
  abstract solve_message.
Defined.
#[global] Instance Described_Config : Described Config :=
  {| DESCRIPTOR := DESCRIPTOR_Config; described := eq_refl |}.

(** [ConfigSignature] of common/configtx_pb2.py *)
Record ConfigSignature := mkConfigSignature {
  ConfigSignature_signature_header : bytes;
  ConfigSignature_signature : bytes;
}.
Definition ConfigSignature_default : ConfigSignature := mkConfigSignature [] [].
Definition ConfigSignature_fields : list (bfield ConfigSignature) := [
  BField 1 fc_bytes ConfigSignature_signature_header;
  BField 2 fc_bytes ConfigSignature_signature].
#[global] Instance Message_ConfigSignature : Message ConfigSignature.
Proof.
  refine {| schema := bf_schema ConfigSignature_fields; ListFields := bf_list ConfigSignature_fields;
    FromFields fs :=
     x1 ← fc_dec fc_bytes (sel 1 fs);
     x2 ← fc_dec fc_bytes (sel 2 fs);
     Some (mkConfigSignature x1 x2);
    valid := bf_valid ConfigSignature_fields |}.
  abstract solve_message.
Defined.
#[global] Instance Described_ConfigSignature : Described ConfigSignature :=
  {| DESCRIPTOR := DESCRIPTOR_ConfigSignature; described := eq_refl |}.

(** [ConfigUpdate] of common/configtx_pb2.py *)
Record ConfigUpdate := mkConfigUpdate {
  ConfigUpdate_channel_id : pystr;
  ConfigUpdate_read_set : option ConfigGroup;
  ConfigUpdate_write_set : option ConfigGroup;
  ConfigUpdate_isolated_data : list (pystr * bytes);
}.
Definition ConfigUpdate_default : ConfigUpdate := mkConfigUpdate [] None None [].
Definition ConfigUpdate_fields : list (bfield ConfigUpdate) := [
  BField 1 fc_string ConfigUpdate_channel_id;
  BField 2 fc_msg ConfigUpdate_read_set;
  BField 3 fc_msg ConfigUpdate_write_set;
  BField 5 (fc_map fc_bytes) ConfigUpdate_isolated_data].
#[global] Instance Message_ConfigUpdate : Message ConfigUpdate.
Proof.
  refine {| schema := bf_schema ConfigUpdate_fields; ListFields := bf_list ConfigUpdate_fields;
    FromFields fs :=
     x1 ← fc_dec fc_string (sel 1 fs);
     x2 ← fc_dec fc_msg (sel 2 fs);
     x3 ← fc_dec fc_msg (sel 3 fs);
     x4 ← fc_dec (fc_map fc_bytes) (sel 5 fs);
     Some (mkConfigUpdate x1 x2 x3 x4);
    valid := bf_valid ConfigUpdate_fields |}.
  abstract solve_message.
Defined.
#[global] Instance Described_ConfigUpdate : Described ConfigUpdate :=
  {| DESCRIPTOR := DESCRIPTOR_ConfigUpdate; described := eq_refl |}.

(** [ConfigUpdateEnvelope] of common/configtx_pb2.py *)
Record ConfigUpdateEnvelope := mkConfigUpdateEnvelope {
  ConfigUpdateEnvelope_config_update : bytes;
  ConfigUpdateEnvelope_signatures : list ConfigSignature;
}.
Definition ConfigUpdateEnvelope_default : ConfigUpdateEnvelope := mkConfigUpdateEnvelope [] [].
Definition ConfigUpdateEnvelope_fields : list (bfield ConfigUpdateEnvelope) := [
  BField 1 fc_bytes ConfigUpdateEnvelope_config_update;
  BField 2 fc_rep_msg ConfigUpdateEnvelope_signatures].
#[global] Instance Message_ConfigUpdateEnvelope : Message ConfigUpdateEnvelope.
Proof.
  refine {| schema := bf_schema ConfigUpdateEnvelope_fields; ListFields := bf_list ConfigUpdateEnvelope_fields;
    FromFields fs :=
     x1 ← fc_dec fc_bytes (sel 1 fs);
     x2 ← fc_dec fc_rep_msg (sel 2 fs);
     Some (mkConfigUpdateEnvelope x1 x2);
    valid := bf_valid ConfigUpdateEnvelope_fields |}.
  abstract solve_message.
Defined.
#[global] Instance Described_ConfigUpdateEnvelope : Described ConfigUpdateEnvelope :=
  {| DESCRIPTOR := DESCRIPTOR_ConfigUpdateEnvelope; described := eq_refl |}.

(** [ConfigEnvelope] of common/configtx_pb2.py *)
Record ConfigEnvelope := mkConfigEnvelope {
  ConfigEnvelope_config : option Config;
  ConfigEnvelope_last_update : option Envelope;
}.
Definition ConfigEnvelope_default : ConfigEnvelope := mkConfigEnvelope None None.
Definition ConfigEnvelope_fields : list (bfield ConfigEnvelope) := [
  BField 1 fc_msg ConfigEnvelope_config;
  BField 2 fc_msg ConfigEnvelope_last_update].
#[global] Instance Message_ConfigEnvelope : Message ConfigEnvelope.
Proof.
  refine {| schema := bf_schema ConfigEnvelope_fields; ListFields := bf_list ConfigEnvelope_fields;
    FromFields fs :=
     x1 ← fc_dec fc_msg (sel 1 fs);
     x2 ← fc_dec fc_msg (sel 2 fs);
     Some (mkConfigEnvelope x1 x2);
    valid := bf_valid ConfigEnvelope_fields |}.
  abstract solve_message.
Defined.
#[global] Instance Described_ConfigEnvelope : Described ConfigEnvelope :=
  {| DESCRIPTOR := DESCRIPTOR_ConfigEnvelope; described := eq_refl |}.
