(* ===== verification/PeerProtos.v ===== *)
(** * PeerProtos: the messages of the peer and orderer packages

    Laid out as CommonProtos.v.  Three classes are renamed where the client
    has a model of the same name: [ChaincodeSpecProto] (as factories.py
    imports it), [FilteredBlockProto], and [OrdererDeliverResponse] for the
    orderer's [DeliverResponse]. *)
From S2P Require Import Prelude PyText Wire Protobuf Descriptors CommonProtos.

(** ** peer/chaincode_event_pb2.py *)

(** [ChaincodeEvent] of peer/chaincode_event_pb2.py *)
Record ChaincodeEvent := mkChaincodeEvent {
  ChaincodeEvent_chaincode_id : pystr;
  ChaincodeEvent_tx_id : pystr;
  ChaincodeEvent_event_name : pystr;
  ChaincodeEvent_payload : bytes;
}.
Definition ChaincodeEvent_default : ChaincodeEvent := mkChaincodeEvent [] [] [] [].
Definition ChaincodeEvent_fields : list (bfield ChaincodeEvent) := [
  BField 1 fc_string ChaincodeEvent_chaincode_id;
  BField 2 fc_string ChaincodeEvent_tx_id;
  BField 3 fc_string ChaincodeEvent_event_name;
  BField 4 fc_bytes ChaincodeEvent_payload].
#[global] Instance Message_ChaincodeEvent : Message ChaincodeEvent.
Proof.
  refine {| schema := bf_schema ChaincodeEvent_fields; ListFields := bf_list ChaincodeEvent_fields;
    FromFields fs :=
     x1 ← fc_dec fc_string (sel 1 fs);
     x2 ← fc_dec fc_string (sel 2 fs);
     x3 ← fc_dec fc_string (sel 3 fs);
     x4 ← fc_dec fc_bytes (sel 4 fs);
     Some (mkChaincodeEvent x1 x2 x3 x4);
    valid := bf_valid ChaincodeEvent_fields |}.
  abstract solve_message.
Defined.
#[global] Instance Described_ChaincodeEvent : Described ChaincodeEvent :=
  {| DESCRIPTOR := DESCRIPTOR_ChaincodeEvent; described := eq_refl |}.

(** ** peer/chaincode_pb2.py *)

(** [ChaincodeID] of peer/chaincode_pb2.py *)
Record ChaincodeID := mkChaincodeID {
  ChaincodeID_path : pystr;
  ChaincodeID_name : pystr;
  ChaincodeID_version : pystr;
}.
Definition ChaincodeID_default : ChaincodeID := mkChaincodeID [] [] [].
Definition ChaincodeID_fields : list (bfield ChaincodeID) := [
  BField 1 fc_string ChaincodeID_path;
  BField 2 fc_string ChaincodeID_name;
  BField 3 fc_string ChaincodeID_version].
#[global] Instance Message_ChaincodeID : Message ChaincodeID.
Proof.
  refine {| schema := bf_schema ChaincodeID_fields; ListFields := bf_list ChaincodeID_fields;
    FromFields fs :=
     x1 ← fc_dec fc_string (sel 1 fs);
     x2 ← fc_dec fc_string (sel 2 fs);
     x3 ← fc_dec fc_string (sel 3 fs);
     Some (mkChaincodeID x1 x2 x3);
    valid := bf_valid ChaincodeID_fields |}.
  abstract solve_message.
Defined.
#[global] Instance Described_ChaincodeID : Described ChaincodeID :=
  {| DESCRIPTOR := DESCRIPTOR_ChaincodeID; described := eq_refl |}.

(** [ChaincodeInput] of peer/chaincode_pb2.py *)
Record ChaincodeInput := mkChaincodeInput {
  ChaincodeInput_args : list bytes;
  ChaincodeInput_decorations : list (pystr * bytes);
}.
Definition ChaincodeInput_default : ChaincodeInput := mkChaincodeInput [] [].
Definition ChaincodeInput_fields : list (bfield ChaincodeInput) := [
  BField 1 fc_rep_bytes ChaincodeInput_args;
  BField 2 (fc_map fc_bytes) ChaincodeInput_decorations].
#[global] Instance Message_ChaincodeInput : Message ChaincodeInput.
Proof.
  refine {| schema := bf_schema ChaincodeInput_fields; ListFields := bf_list ChaincodeInput_fields;
    FromFields fs :=
     x1 ← fc_dec fc_rep_bytes (sel 1 fs);
     x2 ← fc_dec (fc_map fc_bytes) (sel 2 fs);
     Some (mkChaincodeInput x1 x2);
    valid := bf_valid ChaincodeInput_fields |}.
  abstract solve_message.
Defined.
#[global] Instance Described_ChaincodeInput : Described ChaincodeInput :=
  {| DESCRIPTOR := DESCRIPTOR_ChaincodeInput; described := eq_refl |}.

(** [ChaincodeSpec] of peer/chaincode_pb2.py *)
Record ChaincodeSpecProto := mkChaincodeSpecProto {
  ChaincodeSpecProto_type : Z;
  ChaincodeSpecProto_chaincode_id : option ChaincodeID;
  ChaincodeSpecProto_input : option ChaincodeInput;
  ChaincodeSpecProto_timeout : Z;
}.
Definition ChaincodeSpecProto_default : ChaincodeSpecProto := mkChaincodeSpecProto 0%Z None None 0%Z.
Definition ChaincodeSpecProto_fields : list (bfield ChaincodeSpecProto) := [
  BField 1 fc_enum ChaincodeSpecProto_type;
  BField 2 fc_msg ChaincodeSpecProto_chaincode_id;
  BField 3 fc_msg ChaincodeSpecProto_input;
  BField 4 fc_int32 ChaincodeSpecProto_timeout].
#[global] Instance Message_ChaincodeSpecProto : Message ChaincodeSpecProto.
Proof.
  refine {| schema := bf_schema ChaincodeSpecProto_fields; ListFields := bf_list ChaincodeSpecProto_fields;
    FromFields fs :=
     x1 ← fc_dec fc_enum (sel 1 fs);
     x2 ← fc_dec fc_msg (sel 2 fs);
     x3 ← fc_dec fc_msg (sel 3 fs);
     x4 ← fc_dec fc_int32 (sel 4 fs);
     Some (mkChaincodeSpecProto x1 x2 x3 x4);
    valid := bf_valid ChaincodeSpecProto_fields |}.
  abstract solve_message.
Defined.
#[global] Instance Described_ChaincodeSpecProto : Described ChaincodeSpecProto :=
  {| DESCRIPTOR := DESCRIPTOR_ChaincodeSpecProto; described := eq_refl |}.

(** [ChaincodeDeploymentSpec] of peer/chaincode_pb2.py *)
Record ChaincodeDeploymentSpec := mkChaincodeDeploymentSpec {
  ChaincodeDeploymentSpec_chaincode_spec : option ChaincodeSpecProto;
  ChaincodeDeploymentSpec_code_package : bytes;
  ChaincodeDeploymentSpec_exec_env : Z;
}.
Definition ChaincodeDeploymentSpec_default : ChaincodeDeploymentSpec := mkChaincodeDeploymentSpec None [] 0%Z.
Definition ChaincodeDeploymentSpec_fields : list (bfield ChaincodeDeploymentSpec) := [
  BField 1 fc_msg ChaincodeDeploymentSpec_chaincode_spec;
  BField 3 fc_bytes ChaincodeDeploymentSpec_code_package;
  BField 4 fc_enum ChaincodeDeploymentSpec_exec_env].
#[global] Instance Message_ChaincodeDeploymentSpec : Message ChaincodeDeploymentSpec.
Proof.
  refine {| schema := bf_schema ChaincodeDeploymentSpec_fields; ListFields := bf_list ChaincodeDeploymentSpec_fields;
    FromFields fs :=
     x1 ← fc_dec fc_msg (sel 1 fs);
     x2 ← fc_dec fc_bytes (sel 3 fs);
     x3 ← fc_dec fc_enum (sel 4 fs);
     Some (mkChaincodeDeploymentSpec x1 x2 x3);
    valid := bf_valid ChaincodeDeploymentSpec_fields |}.
  abstract solve_message.
Defined.
#[global] Instance Described_ChaincodeDeploymentSpec : Described ChaincodeDeploymentSpec :=
  {| DESCRIPTOR := DESCRIPTOR_ChaincodeDeploymentSpec; described := eq_refl |}.

(** [ChaincodeInvocationSpec] of peer/chaincode_pb2.py *)
Record ChaincodeInvocationSpec := mkChaincodeInvocationSpec {
  ChaincodeInvocationSpec_chaincode_spec : option ChaincodeSpecProto;
}.
Definition ChaincodeInvocationSpec_default : ChaincodeInvocationSpec := mkChaincodeInvocationSpec None.
Definition ChaincodeInvocationSpec_fields : list (bfield ChaincodeInvocationSpec) := [
  BField 1 fc_msg ChaincodeInvocationSpec_chaincode_spec].
#[global] Instance Message_ChaincodeInvocationSpec : Message ChaincodeInvocationSpec.
Proof.
  refine {| schema := bf_schema ChaincodeInvocationSpec_fields; ListFields := bf_list ChaincodeInvocationSpec_fields;
    FromFields fs :=
     x1 ← fc_dec fc_msg (sel 1 fs);
     Some (mkChaincodeInvocationSpec x1);
    valid := bf_valid ChaincodeInvocationSpec_fields |}.
  abstract solve_message.
Defined.
#[global] Instance Described_ChaincodeInvocationSpec : Described ChaincodeInvocationSpec :=
  {| DESCRIPTOR := DESCRIPTOR_ChaincodeInvocationSpec; described := eq_refl |}.

(** ** peer/proposal_pb2.py *)

(** [SignedProposal] of peer/proposal_pb2.py *)
Record SignedProposal := mkSignedProposal {
  SignedProposal_proposal_bytes : bytes;
  SignedProposal_signature : bytes;
}.
Definition SignedProposal_default : SignedProposal := mkSignedProposal [] [].
Definition SignedProposal_fields : list (bfield SignedProposal) := [
  BField 1 fc_bytes SignedProposal_proposal_bytes;
  BField 2 fc_bytes SignedProposal_signature].
#[global] Instance Message_SignedProposal : Message SignedProposal.
Proof.
  refine {| schema := bf_schema SignedProposal_fields; ListFields := bf_list SignedProposal_fields;
    FromFields fs :=
     x1 ← fc_dec fc_bytes (sel 1 fs);
     x2 ← fc_dec fc_bytes (sel 2 fs);
     Some (mkSignedProposal x1 x2);
    valid := bf_valid SignedProposal_fields |}.
  abstract solve_message.
Defined.
#[global] Instance Described_SignedProposal : Described SignedProposal :=
  {| DESCRIPTOR := DESCRIPTOR_SignedProposal; described := eq_refl |}.

(** [Proposal] of peer/proposal_pb2.py *)
Record Proposal := mkProposal {
  Proposal_header : bytes;
  Proposal_payload : bytes;
  Proposal_extension : bytes;
}.
Definition Proposal_default : Proposal := mkProposal [] [] [].
Definition Proposal_fields : list (bfield Proposal) := [
  BField 1 fc_bytes Proposal_header;
  BField 2 fc_bytes Proposal_payload;
  BField 3 fc_bytes Proposal_extension].
#[global] Instance Message_Proposal : Message Proposal.
Proof.
  refine {| schema := bf_schema Proposal_fields; ListFields := bf_list Proposal_fields;
    FromFields fs :=
     x1 ← fc_dec fc_bytes (sel 1 fs);
     x2 ← fc_dec fc_bytes (sel 2 fs);
     x3 ← fc_dec fc_bytes (sel 3 fs);
     Some (mkProposal x1 x2 x3);
    valid := bf_valid Proposal_fields |}.
  abstract solve_message.
Defined.
#[global] Instance Described_Proposal : Described Proposal :=
  {| DESCRIPTOR := DESCRIPTOR_Proposal; described := eq_refl |}.

(** [ChaincodeHeaderExtension] of peer/proposal_pb2.py *)
Record ChaincodeHeaderExtension := mkChaincodeHeaderExtension {
  ChaincodeHeaderExtension_payload_visibility : bytes;
  ChaincodeHeaderExtension_chaincode_id : option ChaincodeID;
}.
Definition ChaincodeHeaderExtension_default : ChaincodeHeaderExtension := mkChaincodeHeaderExtension [] None.
Definition ChaincodeHeaderExtension_fields : list (bfield ChaincodeHeaderExtension) := [
  BField 1 fc_bytes ChaincodeHeaderExtension_payload_visibility;
  BField 2 fc_msg ChaincodeHeaderExtension_chaincode_id].
#[global] Instance Message_ChaincodeHeaderExtension : Message ChaincodeHeaderExtension.
Proof.
  refine {| schema := bf_schema ChaincodeHeaderExtension_fields; ListFields := bf_list ChaincodeHeaderExtension_fields;
    FromFields fs :=
     x1 ← fc_dec fc_bytes (sel 1 fs);
     x2 ← fc_dec fc_msg (sel 2 fs);
     Some (mkChaincodeHeaderExtension x1 x2);
    valid := bf_valid ChaincodeHeaderExtension_fields |}.
  abstract solve_message.
Defined.
#[global] Instance Described_ChaincodeHeaderExtension : Described ChaincodeHeaderExtension :=
  {| DESCRIPTOR := DESCRIPTOR_ChaincodeHeaderExtension; described := eq_refl |}.

(** [ChaincodeProposalPayload] of peer/proposal_pb2.py *)
Record ChaincodeProposalPayload := mkChaincodeProposalPayload {
  ChaincodeProposalPayload_input : bytes;
  ChaincodeProposalPayload_TransientMap : list (pystr * bytes);
}.
Definition ChaincodeProposalPayload_default : ChaincodeProposalPayload := mkChaincodeProposalPayload [] [].
Definition ChaincodeProposalPayload_fields : list (bfield ChaincodeProposalPayload) := [
  BField 1 fc_bytes ChaincodeProposalPayload_input;
  BField 2 (fc_map fc_bytes) ChaincodeProposalPayload_TransientMap].
#[global] Instance Message_ChaincodeProposalPayload : Message ChaincodeProposalPayload.
Proof.
  refine {| schema := bf_schema ChaincodeProposalPayload_fields; ListFields := bf_list ChaincodeProposalPayload_fields;
    FromFields fs :=
     x1 ← fc_dec fc_bytes (sel 1 fs);
     x2 ← fc_dec (fc_map fc_bytes) (sel 2 fs);
     Some (mkChaincodeProposalPayload x1 x2);
    valid := bf_valid ChaincodeProposalPayload_fields |}.
  abstract solve_message.
Defined.
#[global] Instance Described_ChaincodeProposalPayload : Described ChaincodeProposalPayload :=
  {| DESCRIPTOR := DESCRIPTOR_ChaincodeProposalPayload; described := eq_refl |}.

(** ** peer/proposal_response_pb2.py *)

(** [Response] of peer/proposal_response_pb2.py *)
Record Response := mkResponse {
  Response_status : Z;
  Response_message : pystr;
  Response_payload : bytes;
}.
Definition Response_default : Response := mkResponse 0%Z [] [].
Definition Response_fields : list (bfield Response) := [
  BField 1 fc_int32 Response_status;
  BField 2 fc_string Response_message;
  BField 3 fc_bytes Response_payload].
#[global] Instance Message_Response : Message Response.
Proof.
  refine {| schema := bf_schema Response_fields; ListFields := bf_list Response_fields;
    FromFields fs :=
     x1 ← fc_dec fc_int32 (sel 1 fs);
     x2 ← fc_dec fc_string (sel 2 fs);
     x3 ← fc_dec fc_bytes (sel 3 fs);
     Some (mkResponse x1 x2 x3);
    valid := bf_valid Response_fields |}.
  abstract solve_message.
Defined.
#[global] Instance Described_Response : Described Response :=
  {| DESCRIPTOR := DESCRIPTOR_Response; described := eq_refl |}.

(** [Endorsement] of peer/proposal_response_pb2.py *)
Record Endorsement := mkEndorsement {
  Endorsement_endorser : bytes;
  Endorsement_signature : bytes;
}.
Definition Endorsement_default : Endorsement := mkEndorsement [] [].
Definition Endorsement_fields : list (bfield Endorsement) := [
  BField 1 fc_bytes Endorsement_endorser;
  BField 2 fc_bytes Endorsement_signature].
#[global] Instance Message_Endorsement : Message Endorsement.
Proof.
  refine {| schema := bf_schema Endorsement_fields; ListFields := bf_list Endorsement_fields;
    FromFields fs :=
     x1 ← fc_dec fc_bytes (sel 1 fs);
     x2 ← fc_dec fc_bytes (sel 2 fs);
     Some (mkEndorsement x1 x2);
    valid := bf_valid Endorsement_fields |}.
  abstract solve_message.
Defined.
#[global] Instance Described_Endorsement : Described Endorsement :=
  {| DESCRIPTOR := DESCRIPTOR_Endorsement; described := eq_refl |}.

(** [ProposalResponse] of peer/proposal_response_pb2.py *)
Record ProposalResponse := mkProposalResponse {
  ProposalResponse_version : Z;
  ProposalResponse_timestamp : option Timestamp;
  ProposalResponse_response : option Response;
  ProposalResponse_payload : bytes;
  ProposalResponse_endorsement : option Endorsement;
}.
Definition ProposalResponse_default : ProposalResponse := mkProposalResponse 0%Z None None [] None.
Definition ProposalResponse_fields : list (bfield ProposalResponse) := [
  BField 1 fc_int32 ProposalResponse_version;
  BField 2 fc_msg ProposalResponse_timestamp;
  BField 4 fc_msg ProposalResponse_response;
  BField 5 fc_bytes ProposalResponse_payload;
  BField 6 fc_msg ProposalResponse_endorsement].
#[global] Instance Message_ProposalResponse : Message ProposalResponse.
Proof.
  refine {| schema := bf_schema ProposalResponse_fields; ListFields := bf_list ProposalResponse_fields;
    FromFields fs :=
     x1 ← fc_dec fc_int32 (sel 1 fs);
     x2 ← fc_dec fc_msg (sel 2 fs);
     x3 ← fc_dec fc_msg (sel 4 fs);
     x4 ← fc_dec fc_bytes (sel 5 fs);
     x5 ← fc_dec fc_msg (sel 6 fs);
     Some (mkProposalResponse x1 x2 x3 x4 x5);
    valid := bf_valid ProposalResponse_fields |}.
  abstract solve_message.
Defined.
#[global] Instance Described_ProposalResponse : Described ProposalResponse :=
  {| DESCRIPTOR := DESCRIPTOR_ProposalResponse; described := eq_refl |}.

(** [ProposalResponsePayload] of peer/proposal_response_pb2.py *)
Record ProposalResponsePayload := mkProposalResponsePayload {
  ProposalResponsePayload_proposal_hash : bytes;
  ProposalResponsePayload_extension : bytes;
}.
Definition ProposalResponsePayload_default : ProposalResponsePayload := mkProposalResponsePayload [] [].
Definition ProposalResponsePayload_fields : list (bfield ProposalResponsePayload) := [
  BField 1 fc_bytes ProposalResponsePayload_proposal_hash;
  BField 2 fc_bytes ProposalResponsePayload_extension].
#[global] Instance Message_ProposalResponsePayload : Message ProposalResponsePayload.
Proof.
  refine {| schema := bf_schema ProposalResponsePayload_fields; ListFields := bf_list ProposalResponsePayload_fields;
    FromFields fs :=
     x1 ← fc_dec fc_bytes (sel 1 fs);
     x2 ← fc_dec fc_bytes (sel 2 fs);
     Some (mkProposalResponsePayload x1 x2);
    valid := bf_valid ProposalResponsePayload_fields |}.
  abstract solve_message.
Defined.
#[global] Instance Described_ProposalResponsePayload : Described ProposalResponsePayload :=
  {| DESCRIPTOR := DESCRIPTOR_ProposalResponsePayload; described := eq_refl |}.

(** ** peer/transaction_pb2.py *)

(** [TransactionAction] of peer/transaction_pb2.py *)
Record TransactionAction := mkTransactionAction {
  TransactionAction_header : bytes;
  TransactionAction_payload : bytes;
}.
Definition TransactionAction_default : TransactionAction := mkTransactionAction [] [].
Definition TransactionAction_fields : list (bfield TransactionAction) := [
  BField 1 fc_bytes TransactionAction_header;
  BField 2 fc_bytes TransactionAction_payload].
#[global] Instance Message_TransactionAction : Message TransactionAction.
Proof.
  refine {| schema := bf_schema TransactionAction_fields; ListFields := bf_list TransactionAction_fields;
    FromFields fs :=
     x1 ← fc_dec fc_bytes (sel 1 fs);
     x2 ← fc_dec fc_bytes (sel 2 fs);
     Some (mkTransactionAction x1 x2);
    valid := bf_valid TransactionAction_fields |}.
  abstract solve_message.
Defined.
#[global] Instance Described_TransactionAction : Described TransactionAction :=
  {| DESCRIPTOR := DESCRIPTOR_TransactionAction; described := eq_refl |}.

(** [Transaction] of peer/transaction_pb2.py *)
Record Transaction := mkTransaction {
  Transaction_actions : list TransactionAction;
}.
Definition Transaction_default : Transaction := mkTransaction [].
Definition Transaction_fields : list (bfield Transaction) := [
  BField 1 fc_rep_msg Transaction_actions].
#[global] Instance Message_Transaction : Message Transaction.
Proof.
  refine {| schema := bf_schema Transaction_fields; ListFields := bf_list Transaction_fields;
    FromFields fs :=
     x1 ← fc_dec fc_rep_msg (sel 1 fs);
     Some (mkTransaction x1);
    valid := bf_valid Transaction_fields |}.
  abstract solve_message.
Defined.
#[global] Instance Described_Transaction : Described Transaction :=
  {| DESCRIPTOR := DESCRIPTOR_Transaction; described := eq_refl |}.

(** [ChaincodeEndorsedAction] of peer/transaction_pb2.py *)
Record ChaincodeEndorsedAction := mkChaincodeEndorsedAction {
  ChaincodeEndorsedAction_proposal_response_payload : bytes;
  ChaincodeEndorsedAction_endorsements : list Endorsement;
}.
Definition ChaincodeEndorsedAction_default : ChaincodeEndorsedAction := mkChaincodeEndorsedAction [] [].
Definition ChaincodeEndorsedAction_fields : list (bfield ChaincodeEndorsedAction) := [
  BField 1 fc_bytes ChaincodeEndorsedAction_proposal_response_payload;
  BField 2 fc_rep_msg ChaincodeEndorsedAction_endorsements].
#[global] Instance Message_ChaincodeEndorsedAction : Message ChaincodeEndorsedAction.
Proof.
  refine {| schema := bf_schema ChaincodeEndorsedAction_fields; ListFields := bf_list ChaincodeEndorsedAction_fields;
    FromFields fs :=
     x1 ← fc_dec fc_bytes (sel 1 fs);
     x2 ← fc_dec fc_rep_msg (sel 2 fs);
     Some (mkChaincodeEndorsedAction x1 x2);
    valid := bf_valid ChaincodeEndorsedAction_fields |}.
  abstract solve_message.
Defined.
#[global] Instance Described_ChaincodeEndorsedAction : Described ChaincodeEndorsedAction :=
  {| DESCRIPTOR := DESCRIPTOR_ChaincodeEndorsedAction; described := eq_refl |}.

(** [ChaincodeActionPayload] of peer/transaction_pb2.py *)
Record ChaincodeActionPayload := mkChaincodeActionPayload {
  ChaincodeActionPayload_chaincode_proposal_payload : bytes;
  ChaincodeActionPayload_action : option ChaincodeEndorsedAction;
}.
Definition ChaincodeActionPayload_default : ChaincodeActionPayload := mkChaincodeActionPayload [] None.
Definition ChaincodeActionPayload_fields : list (bfield ChaincodeActionPayload) := [
  BField 1 fc_bytes ChaincodeActionPayload_chaincode_proposal_payload;
  BField 2 fc_msg ChaincodeActionPayload_action].
#[global] Instance Message_ChaincodeActionPayload : Message ChaincodeActionPayload.
Proof.
  refine {| schema := bf_schema ChaincodeActionPayload_fields; ListFields := bf_list ChaincodeActionPayload_fields;
    FromFields fs :=
     x1 ← fc_dec fc_bytes (sel 1 fs);
     x2 ← fc_dec fc_msg (sel 2 fs);
     Some (mkChaincodeActionPayload x1 x2);
    valid := bf_valid ChaincodeActionPayload_fields |}.
  abstract solve_message.
Defined.
#[global] Instance Described_ChaincodeActionPayload : Described ChaincodeActionPayload :=
  {| DESCRIPTOR := DESCRIPTOR_ChaincodeActionPayload; described := eq_refl |}.

(** ** peer/events_pb2.py *)

(** [FilteredChaincodeAction] of peer/events_pb2.py *)
Record FilteredChaincodeAction := mkFilteredChaincodeAction {
  FilteredChaincodeAction_chaincode_event : option ChaincodeEvent;
}.
Definition FilteredChaincodeAction_default : FilteredChaincodeAction := mkFilteredChaincodeAction None.
Definition FilteredChaincodeAction_fields : list (bfield FilteredChaincodeAction) := [
  BField 1 fc_msg FilteredChaincodeAction_chaincode_event].
#[global] Instance Message_FilteredChaincodeAction : Message FilteredChaincodeAction.
Proof.
  refine {| schema := bf_schema FilteredChaincodeAction_fields; ListFields := bf_list FilteredChaincodeAction_fields;
    FromFields fs :=
     x1 ← fc_dec fc_msg (sel 1 fs);
     Some (mkFilteredChaincodeAction x1);
    valid := bf_valid FilteredChaincodeAction_fields |}.
  abstract solve_message.
Defined.
#[global] Instance Described_FilteredChaincodeAction : Described FilteredChaincodeAction :=
  {| DESCRIPTOR := DESCRIPTOR_FilteredChaincodeAction; described := eq_refl |}.

(** [FilteredTransactionActions] of peer/events_pb2.py *)
Record FilteredTransactionActions := mkFilteredTransactionActions {
  FilteredTransactionActions_chaincode_actions : list FilteredChaincodeAction;
}.
Definition FilteredTransactionActions_default : FilteredTransactionActions := mkFilteredTransactionActions [].
Definition FilteredTransactionActions_fields : list (bfield FilteredTransactionActions) := [
  BField 1 fc_rep_msg FilteredTransactionActions_chaincode_actions].
#[global] Instance Message_FilteredTransactionActions : Message FilteredTransactionActions.
Proof.
  refine {| schema := bf_schema FilteredTransactionActions_fields; ListFields := bf_list FilteredTransactionActions_fields;
    FromFields fs :=
     x1 ← fc_dec fc_rep_msg (sel 1 fs);
     Some (mkFilteredTransactionActions x1);
    valid := bf_valid FilteredTransactionActions_fields |}.
  abstract solve_message.
Defined.
#[global] Instance Described_FilteredTransactionActions : Described FilteredTransactionActions :=
  {| DESCRIPTOR := DESCRIPTOR_FilteredTransactionActions; described := eq_refl |}.

(** [FilteredTransaction] of peer/events_pb2.py *)
Inductive FilteredTransaction_oneof :=
  | FilteredTransaction_is_transaction_actions (x : FilteredTransactionActions).

Record FilteredTransaction := mkFilteredTransaction {
  FilteredTransaction_txid : pystr;
  FilteredTransaction_type : Z;
  FilteredTransaction_tx_validation_code : Z;
  FilteredTransaction_Data : option FilteredTransaction_oneof;
}.
Definition FilteredTransaction_default : FilteredTransaction := mkFilteredTransaction [] 0%Z 0%Z None.
Definition FilteredTransaction_transaction_actions (m : FilteredTransaction) : option FilteredTransactionActions :=
  match FilteredTransaction_Data m with Some (FilteredTransaction_is_transaction_actions x) => Some x | _ => None end.
Definition FilteredTransaction_fields : list (bfield FilteredTransaction) := [
  BField 1 fc_string FilteredTransaction_txid;
  BField 2 fc_enum FilteredTransaction_type;
  BField 3 fc_enum FilteredTransaction_tx_validation_code;
  BField 4 fc_msg FilteredTransaction_transaction_actions].
#[global] Instance Message_FilteredTransaction : Message FilteredTransaction.
Proof.
  refine {| schema := bf_schema FilteredTransaction_fields; ListFields := bf_list FilteredTransaction_fields;
    FromFields fs :=
     x1 ← fc_dec fc_string (sel 1 fs);
     x2 ← fc_dec fc_enum (sel 2 fs);
     x3 ← fc_dec fc_enum (sel 3 fs);
     x4 ← fc_dec fc_msg (sel 4 fs);
     Some (mkFilteredTransaction x1 x2 x3 (match x4 with Some x => Some (FilteredTransaction_is_transaction_actions x) | None => None end));
    valid := bf_valid FilteredTransaction_fields |}.
  abstract solve_message.
Defined.
#[global] Instance Described_FilteredTransaction : Described FilteredTransaction :=
  {| DESCRIPTOR := DESCRIPTOR_FilteredTransaction; described := eq_refl |}.

(** [FilteredBlock] of peer/events_pb2.py *)
Record FilteredBlockProto := mkFilteredBlockProto {
  FilteredBlockProto_channel_id : pystr;
  FilteredBlockProto_number : Z;
  FilteredBlockProto_filtered_transactions : list FilteredTransaction;
}.
Definition FilteredBlockProto_default : FilteredBlockProto := mkFilteredBlockProto [] 0%Z [].
Definition FilteredBlockProto_fields : list (bfield FilteredBlockProto) := [
  BField 1 fc_string FilteredBlockProto_channel_id;
  BField 2 fc_uint64 FilteredBlockProto_number;
  BField 4 fc_rep_msg FilteredBlockProto_filtered_transactions].
#[global] Instance Message_FilteredBlockProto : Message FilteredBlockProto.
Proof.
  refine {| schema := bf_schema FilteredBlockProto_fields; ListFields := bf_list FilteredBlockProto_fields;
    FromFields fs :=
     x1 ← fc_dec fc_string (sel 1 fs);
     x2 ← fc_dec fc_uint64 (sel 2 fs);
     x3 ← fc_dec fc_rep_msg (sel 4 fs);
     Some (mkFilteredBlockProto x1 x2 x3);
    valid := bf_valid FilteredBlockProto_fields |}.
  abstract solve_message.
Defined.
#[global] Instance Described_FilteredBlockProto : Described FilteredBlockProto :=
  {| DESCRIPTOR := DESCRIPTOR_FilteredBlockProto; described := eq_refl |}.

(** [DeliverResponse] of peer/events_pb2.py *)
Inductive DeliverResponse_oneof :=
  | DeliverResponse_is_status (x : Z)
  | DeliverResponse_is_block (x : Block)
  | DeliverResponse_is_filtered_block (x : FilteredBlockProto).

Record DeliverResponse := mkDeliverResponse {
  DeliverResponse_Type : option DeliverResponse_oneof;
}.
Definition DeliverResponse_default : DeliverResponse := mkDeliverResponse None.
Definition DeliverResponse_status (m : DeliverResponse) : option Z :=
  match DeliverResponse_Type m with Some (DeliverResponse_is_status x) => Some x | _ => None end.
Definition DeliverResponse_block (m : DeliverResponse) : option Block :=
  match DeliverResponse_Type m with Some (DeliverResponse_is_block x) => Some x | _ => None end.
Definition DeliverResponse_filtered_block (m : DeliverResponse) : option FilteredBlockProto :=
  match DeliverResponse_Type m with Some (DeliverResponse_is_filtered_block x) => Some x | _ => None end.
Definition DeliverResponse_fields : list (bfield DeliverResponse) := [
  BField 1 (fc_oneof_signed 14) DeliverResponse_status;
  BField 2 fc_msg DeliverResponse_block;
  BField 3 fc_msg DeliverResponse_filtered_block].
#[global] Instance Message_DeliverResponse : Message DeliverResponse.
Proof.
  refine {| schema := bf_schema DeliverResponse_fields; ListFields := bf_list DeliverResponse_fields;
    FromFields fs :=
     x1 ← fc_dec (fc_oneof_signed 14) (sel 1 fs);
     x2 ← fc_dec fc_msg (sel 2 fs);
     x3 ← fc_dec fc_msg (sel 3 fs);
     Some (mkDeliverResponse (match x1 with Some x => Some (DeliverResponse_is_status x) | None => match x2 with Some x => Some (DeliverResponse_is_block x) | None => match x3 with Some x => Some (DeliverResponse_is_filtered_block x) | None => None end end end));
    valid := bf_valid DeliverResponse_fields |}.
  abstract solve_message.
Defined.
#[global] Instance Described_DeliverResponse : Described DeliverResponse :=
  {| DESCRIPTOR := DESCRIPTOR_DeliverResponse; described := eq_refl |}.

(** ** peer/query_pb2.py *)

(** [ChaincodeInfo] of peer/query_pb2.py *)
Record ChaincodeInfo := mkChaincodeInfo {
  ChaincodeInfo_name : pystr;
  ChaincodeInfo_version : pystr;
  ChaincodeInfo_path : pystr;
  ChaincodeInfo_input : pystr;
  ChaincodeInfo_escc : pystr;
  ChaincodeInfo_vscc : pystr;
  ChaincodeInfo_id : bytes;
}.
Definition ChaincodeInfo_default : ChaincodeInfo := mkChaincodeInfo [] [] [] [] [] [] [].
Definition ChaincodeInfo_fields : list (bfield ChaincodeInfo) := [
  BField 1 fc_string ChaincodeInfo_name;
  BField 2 fc_string ChaincodeInfo_version;
  BField 3 fc_string ChaincodeInfo_path;
  BField 4 fc_string ChaincodeInfo_input;
  BField 5 fc_string ChaincodeInfo_escc;
  BField 6 fc_string ChaincodeInfo_vscc;
  BField 7 fc_bytes ChaincodeInfo_id].
#[global] Instance Message_ChaincodeInfo : Message ChaincodeInfo.
Proof.
  refine {| schema := bf_schema ChaincodeInfo_fields; ListFields := bf_list ChaincodeInfo_fields;
    FromFields fs :=
     x1 ← fc_dec fc_string (sel 1 fs);
     x2 ← fc_dec fc_string (sel 2 fs);
     x3 ← fc_dec fc_string (sel 3 fs);
     x4 ← fc_dec fc_string (sel 4 fs);
     x5 ← fc_dec fc_string (sel 5 fs);
     x6 ← fc_dec fc_string (sel 6 fs);
     x7 ← fc_dec fc_bytes (sel 7 fs);
     Some (mkChaincodeInfo x1 x2 x3 x4 x5 x6 x7);
    valid := bf_valid ChaincodeInfo_fields |}.
  abstract solve_message.
Defined.
#[global] Instance Described_ChaincodeInfo : Described ChaincodeInfo :=
  {| DESCRIPTOR := DESCRIPTOR_ChaincodeInfo; described := eq_refl |}.

(** [ChaincodeQueryResponse] of peer/query_pb2.py *)
Record ChaincodeQueryResponse := mkChaincodeQueryResponse {
  ChaincodeQueryResponse_chaincodes : list ChaincodeInfo;
}.
Definition ChaincodeQueryResponse_default : ChaincodeQueryResponse := mkChaincodeQueryResponse [].
Definition ChaincodeQueryResponse_fields : list (bfield ChaincodeQueryResponse) := [
  BField 1 fc_rep_msg ChaincodeQueryResponse_chaincodes].
#[global] Instance Message_ChaincodeQueryResponse : Message ChaincodeQueryResponse.
Proof.
  refine {| schema := bf_schema ChaincodeQueryResponse_fields; ListFields := bf_list ChaincodeQueryResponse_fields;
    FromFields fs :=
     x1 ← fc_dec fc_rep_msg (sel 1 fs);
     Some (mkChaincodeQueryResponse x1);
    valid := bf_valid ChaincodeQueryResponse_fields |}.
  abstract solve_message.
Defined.
#[global] Instance Described_ChaincodeQueryResponse : Described ChaincodeQueryResponse :=
  {| DESCRIPTOR := DESCRIPTOR_ChaincodeQueryResponse; described := eq_refl |}.

(** ** orderer/ab_pb2.py *)

(** [BroadcastResponse] of orderer/ab_pb2.py *)
Record BroadcastResponse := mkBroadcastResponse {
  BroadcastResponse_status : Z;
  BroadcastResponse_info : pystr;
}.
Definition BroadcastResponse_default : BroadcastResponse := mkBroadcastResponse 0%Z [].
Definition BroadcastResponse_fields : list (bfield BroadcastResponse) := [
  BField 1 fc_enum BroadcastResponse_status;
  BField 2 fc_string BroadcastResponse_info].
#[global] Instance Message_BroadcastResponse : Message BroadcastResponse.
Proof.
  refine {| schema := bf_schema BroadcastResponse_fields; ListFields := bf_list BroadcastResponse_fields;
    FromFields fs :=
     x1 ← fc_dec fc_enum (sel 1 fs);
     x2 ← fc_dec fc_string (sel 2 fs);
     Some (mkBroadcastResponse x1 x2);
    valid := bf_valid BroadcastResponse_fields |}.
  abstract solve_message.
Defined.
#[global] Instance Described_BroadcastResponse : Described BroadcastResponse :=
  {| DESCRIPTOR := DESCRIPTOR_BroadcastResponse; described := eq_refl |}.

(** [SeekNewest] of orderer/ab_pb2.py *)
Inductive SeekNewest := mkSeekNewest.
Definition SeekNewest_default : SeekNewest := mkSeekNewest.
Definition SeekNewest_fields : list (bfield SeekNewest) := [].
#[global] Instance Message_SeekNewest : Message SeekNewest.
Proof.
  refine {| schema := bf_schema SeekNewest_fields; ListFields := bf_list SeekNewest_fields;
    FromFields fs :=
     Some (mkSeekNewest);
    valid := bf_valid SeekNewest_fields |}.
  abstract solve_message.
Defined.
#[global] Instance Described_SeekNewest : Described SeekNewest :=
  {| DESCRIPTOR := DESCRIPTOR_SeekNewest; described := eq_refl |}.

(** [SeekOldest] of orderer/ab_pb2.py *)
Inductive SeekOldest := mkSeekOldest.
Definition SeekOldest_default : SeekOldest := mkSeekOldest.
Definition SeekOldest_fields : list (bfield SeekOldest) := [].
#[global] Instance Message_SeekOldest : Message SeekOldest.
Proof.
  refine {| schema := bf_schema SeekOldest_fields; ListFields := bf_list SeekOldest_fields;
    FromFields fs :=
     Some (mkSeekOldest);
    valid := bf_valid SeekOldest_fields |}.
  abstract solve_message.
Defined.
#[global] Instance Described_SeekOldest : Described SeekOldest :=
  {| DESCRIPTOR := DESCRIPTOR_SeekOldest; described := eq_refl |}.

(** [SeekSpecified] of orderer/ab_pb2.py *)
Record SeekSpecified := mkSeekSpecified {
  SeekSpecified_number : Z;
}.
Definition SeekSpecified_default : SeekSpecified := mkSeekSpecified 0%Z.
Definition SeekSpecified_fields : list (bfield SeekSpecified) := [
  BField 1 fc_uint64 SeekSpecified_number].
#[global] Instance Message_SeekSpecified : Message SeekSpecified.
Proof.
  refine {| schema := bf_schema SeekSpecified_fields; ListFields := bf_list SeekSpecified_fields;
    FromFields fs :=
     x1 ← fc_dec fc_uint64 (sel 1 fs);
     Some (mkSeekSpecified x1);
    valid := bf_valid SeekSpecified_fields |}.
  abstract solve_message.
Defined.
#[global] Instance Described_SeekSpecified : Described SeekSpecified :=
  {| DESCRIPTOR := DESCRIPTOR_SeekSpecified; described := eq_refl |}.

(** [SeekPosition] of orderer/ab_pb2.py *)
Inductive SeekPosition_oneof :=
  | SeekPosition_is_newest (x : SeekNewest)
  | SeekPosition_is_oldest (x : SeekOldest)
  | SeekPosition_is_specified (x : SeekSpecified).

Record SeekPosition := mkSeekPosition {
  SeekPosition_Type : option SeekPosition_oneof;
}.
Definition SeekPosition_default : SeekPosition := mkSeekPosition None.
Definition SeekPosition_newest (m : SeekPosition) : option SeekNewest :=
  match SeekPosition_Type m with Some (SeekPosition_is_newest x) => Some x | _ => None end.
Definition SeekPosition_oldest (m : SeekPosition) : option SeekOldest :=
  match SeekPosition_Type m with Some (SeekPosition_is_oldest x) => Some x | _ => None end.
Definition SeekPosition_specified (m : SeekPosition) : option SeekSpecified :=
  match SeekPosition_Type m with Some (SeekPosition_is_specified x) => Some x | _ => None end.
Definition SeekPosition_fields : list (bfield SeekPosition) := [
  BField 1 fc_msg SeekPosition_newest;
  BField 2 fc_msg SeekPosition_oldest;
  BField 3 fc_msg SeekPosition_specified].
#[global] Instance Message_SeekPosition : Message SeekPosition.
Proof.
  refine {| schema := bf_schema SeekPosition_fields; ListFields := bf_list SeekPosition_fields;
    FromFields fs :=
     x1 ← fc_dec fc_msg (sel 1 fs);
     x2 ← fc_dec fc_msg (sel 2 fs);
     x3 ← fc_dec fc_msg (sel 3 fs);
     Some (mkSeekPosition (match x1 with Some x => Some (SeekPosition_is_newest x) | None => match x2 with Some x => Some (SeekPosition_is_oldest x) | None => match x3 with Some x => Some (SeekPosition_is_specified x) | None => None end end end));
    valid := bf_valid SeekPosition_fields |}.
  abstract solve_message.
Defined.
#[global] Instance Described_SeekPosition : Described SeekPosition :=
  {| DESCRIPTOR := DESCRIPTOR_SeekPosition; described := eq_refl |}.

(** [SeekInfo] of orderer/ab_pb2.py *)
Record SeekInfo := mkSeekInfo {
  SeekInfo_start : option SeekPosition;
  SeekInfo_stop : option SeekPosition;
  SeekInfo_behavior : Z;
}.
Definition SeekInfo_default : SeekInfo := mkSeekInfo None None 0%Z.
Definition SeekInfo_fields : list (bfield SeekInfo) := [
  BField 1 fc_msg SeekInfo_start;
  BField 2 fc_msg SeekInfo_stop;
  BField 3 fc_enum SeekInfo_behavior].
#[global] Instance Message_SeekInfo : Message SeekInfo.
Proof.
  refine {| schema := bf_schema SeekInfo_fields; ListFields := bf_list SeekInfo_fields;
    FromFields fs :=
     x1 ← fc_dec fc_msg (sel 1 fs);
     x2 ← fc_dec fc_msg (sel 2 fs);
     x3 ← fc_dec fc_enum (sel 3 fs);
     Some (mkSeekInfo x1 x2 x3);
    valid := bf_valid SeekInfo_fields |}.
  abstract solve_message.
Defined.
#[global] Instance Described_SeekInfo : Described SeekInfo :=
  {| DESCRIPTOR := DESCRIPTOR_SeekInfo; described := eq_refl |}.

(** [DeliverResponse] of orderer/ab_pb2.py *)
Inductive OrdererDeliverResponse_oneof :=
  | OrdererDeliverResponse_is_status (x : Z)
  | OrdererDeliverResponse_is_block (x : Block).

Record OrdererDeliverResponse := mkOrdererDeliverResponse {
  OrdererDeliverResponse_Type : option OrdererDeliverResponse_oneof;
}.
Definition OrdererDeliverResponse_default : OrdererDeliverResponse := mkOrdererDeliverResponse None.
Definition OrdererDeliverResponse_status (m : OrdererDeliverResponse) : option Z :=
  match OrdererDeliverResponse_Type m with Some (OrdererDeliverResponse_is_status x) => Some x | _ => None end.
Definition OrdererDeliverResponse_block (m : OrdererDeliverResponse) : option Block :=
  match OrdererDeliverResponse_Type m with Some (OrdererDeliverResponse_is_block x) => Some x | _ => None end.
Definition OrdererDeliverResponse_fields : list (bfield OrdererDeliverResponse) := [
  BField 1 (fc_oneof_signed 14) OrdererDeliverResponse_status;
  BField 2 fc_msg OrdererDeliverResponse_block].
#[global] Instance Message_OrdererDeliverResponse : Message OrdererDeliverResponse.
Proof.
  refine {| schema := bf_schema OrdererDeliverResponse_fields; ListFields := bf_list OrdererDeliverResponse_fields;
    FromFields fs :=
     x1 ← fc_dec (fc_oneof_signed 14) (sel 1 fs);
     x2 ← fc_dec fc_msg (sel 2 fs);
     Some (mkOrdererDeliverResponse (match x1 with Some x => Some (OrdererDeliverResponse_is_status x) | None => match x2 with Some x => Some (OrdererDeliverResponse_is_block x) | None => None end end));
    valid := bf_valid OrdererDeliverResponse_fields |}.
  abstract solve_message.
Defined.
#[global] Instance Described_OrdererDeliverResponse : Described OrdererDeliverResponse :=
  {| DESCRIPTOR := DESCRIPTOR_OrdererDeliverResponse; described := eq_refl |}.
