(* ===== verification/Constants.v ===== *)
(** * Constants: constants.py

    Each Python [Enum] is an inductive type with its [value]; where the code
    looks a member up by value ([TransactionType(n)]) there is the inverse. *)
From S2P Require Import Prelude PyText.

Inductive ChaincodeLanguage := GOLANG | JAVA | NODE.
Definition ChaincodeLanguage_value (l : ChaincodeLanguage) : pystr :=
  match l with GOLANG => u "GOLANG" | JAVA => u "JAVA" | NODE => u "NODE" end.

Inductive PolicyExpression := PolicyAnd | PolicyOr | PolicyOutOf.
Definition PolicyExpression_value (e : PolicyExpression) : pystr :=
  match e with PolicyAnd => u "AND" | PolicyOr => u "OR" | PolicyOutOf => u "NOf" end.

Inductive PolicyRole := RolePeer | RoleMember | RoleAdmin | RoleClient.
Definition PolicyRole_value (r : PolicyRole) : pystr :=
  match r with
  | RolePeer => u "PEER" | RoleMember => u "MEMBER"
  | RoleAdmin => u "ADMIN" | RoleClient => u "CLIENT"
  end.

Inductive ChaincodeProposalType :=
  ProposalInstall | ProposalInstantiate | ProposalInvoke | ProposalUpgrade | ProposalQuery.
Definition ChaincodeProposalType_value (t : ChaincodeProposalType) : pystr :=
  match t with
  | ProposalInstall => u "install" | ProposalInstantiate => u "deploy"
  | ProposalInvoke => u "invoke" | ProposalUpgrade => u "upgrade"
  | ProposalQuery => u "query"
  end.

Inductive TransactionType :=
  | TxMessage | TxConfig | TxConfigUpdate | TxEndorserTransaction | TxOrdererTransaction
  | TxDeliverSeekInfo | TxChaincodePackage | TxPeerAdminOperation | TxTokenTransaction.

Definition TransactionType_value (t : TransactionType) : Z :=
  match t with
  | TxMessage => 0 | TxConfig => 1 | TxConfigUpdate => 2 | TxEndorserTransaction => 3
  | TxOrdererTransaction => 4 | TxDeliverSeekInfo => 5 | TxChaincodePackage => 6
  | TxPeerAdminOperation => 8 | TxTokenTransaction => 9
  end.

Definition all_TransactionType : list TransactionType :=
  [TxMessage; TxConfig; TxConfigUpdate; TxEndorserTransaction; TxOrdererTransaction;
   TxDeliverSeekInfo; TxChaincodePackage; TxPeerAdminOperation; TxTokenTransaction].

(** [TransactionType(n)]: [ValueError] when no member has the value. *)
Definition TransactionType_of (n : Z) : option TransactionType :=
  List.find (λ t, (TransactionType_value t =? n)%Z) all_TransactionType.

Inductive SeekBehavior := BlockUntilReady | FailIfNotReady.
Definition SeekBehavior_value (s : SeekBehavior) : pystr :=
  match s with
  | BlockUntilReady => u "BLOCK_UNTIL_READY" | FailIfNotReady => u "FAIL_IF_NOT_READY"
  end.

Inductive DeliveredBlockType := BlockOriginal | BlockDecoded | BlockFiltered.
Definition DeliveredBlockType_value (b : DeliveredBlockType) : pystr :=
  match b with
  | BlockOriginal => u "ORIGINAL" | BlockDecoded => u "DECODED" | BlockFiltered => u "FILTERED"
  end.

(** [sys.maxsize] of a 64-bit interpreter. *)
Definition INDEFINITE_STOP_POSITION : Z := (2 ^ 63 - 1)%Z.

#[global] Instance ChaincodeLanguage_eq_dec : EqDecision ChaincodeLanguage.
Proof. solve_decision. Defined.
#[global] Instance PolicyExpression_eq_dec : EqDecision PolicyExpression.
Proof. solve_decision. Defined.
#[global] Instance TransactionType_eq_dec : EqDecision TransactionType.
Proof. solve_decision. Defined.

Lemma TransactionType_of_value t : TransactionType_of (TransactionType_value t) = Some t.
Proof. by destruct t. Qed.

Lemma TransactionType_of_Some n t :
  TransactionType_of n = Some t ↔ n = TransactionType_value t.
Proof.
  split; [|intros ->; apply TransactionType_of_value].
  intros [_ ->%Z.eqb_eq]%List.find_some. done.
Qed.
