(* ===== verification/TxData.v ===== *)
(** * TxData: the dataclasses of models/transaction.py

    The transaction at the points of its life: its context, generated,
    endorsed.  Their properties that can raise are in Transactions.v, after
    the exceptions, which themselves carry an [EndorsedTX]. *)
From S2P Require Import Prelude PyText Wire Protobuf CommonProtos PeerProtos.

Record TXContext := mkTXContext {
  tc_identity : SerializedIdentity;
  tc_nonce : bytes;
  tc_tx_id : pystr;
  tc_epoch : Z;
}.

Record EndorsedTX := mkEndorsedTX {
  et_peer_responses : list ProposalResponse;
  et_proposal : Proposal;
  et_header : Header;
  et_tx_context : TXContext;
}.

Record GeneratedTX := mkGeneratedTX {
  gt_tx_context : TXContext;
  gt_proposal : Proposal;
  gt_signed_proposal : SignedProposal;
  gt_header : Header;
}.

Definition EndorsedTX_tx_id (tx : EndorsedTX) : pystr := tc_tx_id (et_tx_context tx).
Definition GeneratedTX_tx_id (tx : GeneratedTX) : pystr := tc_tx_id (gt_tx_context tx).

(** [r.response.status]: an unset submessage reads as its default. *)
Definition response_of (r : ProposalResponse) : Response :=
  default Response_default (ProposalResponse_response r).
Definition response_status (r : ProposalResponse) : Z := Response_status (response_of r).

Definition error_responses (tx : EndorsedTX) : list ProposalResponse :=
  List.filter (λ r, negb (response_status r =? 200)%Z) (et_peer_responses tx).
Definition success_responses (tx : EndorsedTX) : list ProposalResponse :=
  List.filter (λ r, response_status r =? 200)%Z (et_peer_responses tx).
Definition fully_endorsed (tx : EndorsedTX) : bool :=
  forallb (λ r, response_status r =? 200)%Z (et_peer_responses tx).

Lemma fully_endorsed_spec tx :
  fully_endorsed tx = true ↔ Forall (λ r, response_status r = 200%Z) (et_peer_responses tx).
Proof.
  unfold fully_endorsed. rewrite forallb_forall, Forall_forall. split.
  - intros H r Hr%list_elem_of_In%H. lia.
  - intros H r Hr%list_elem_of_In%H. lia.
Qed.

Lemma fully_endorsed_error_responses tx :
  fully_endorsed tx = true ↔ error_responses tx = [].
Proof.
  unfold fully_endorsed, error_responses.
  induction (et_peer_responses tx) as [|r rs IH]; cbn; [done|].
  destruct (response_status r =? 200)%Z; cbn; [done|]. done.
Qed.
