(* ===== verification/Errors.v ===== *)
(** * Errors: errors.py, with the exceptions of Python and of the libraries

    [exn] is the sum of the exceptions the client raises or lets through,
    [bases] their class hierarchy, [isinstance] the test an [except] clause
    makes.  The messages are built as the constructors build them. *)
From S2P Require Import Prelude PyText Wire Protobuf Descriptors CommonProtos PeerProtos TxData.

Inductive exn :=
  | ValueError (msg : pystr)
  | KeyError (msg : pystr)
  | IndexError (msg : pystr)
  | TypeError (msg : pystr)
  | AttributeError (msg : pystr)
  | RuntimeError (msg : pystr)
  | NotImplementedError (msg : pystr)
  (** A local variable read before it is bound. *)
  | UnboundLocalError (name : pystr)
  | FileNotFoundError (path : pystr)
  | UnicodeEncodeError
  | UnicodeDecodeError
  (** [binascii.Error] *)
  | BinasciiError
  (** [google.protobuf.message.DecodeError] *)
  | DecodeError
  (** [asyncio.TimeoutError] *)
  | TimeoutError
  (** [grpc.RpcError] with its [code()] and [details()] *)
  | RpcError (code details : pystr)
  | BlockchainError (msg : pystr)
  | TrasactionCommitError (msg : pystr) (response : BroadcastResponse)
  | TransactionProposalError (msg : pystr) (transaction : EndorsedTX)
  | BlockRetrievalError (msg : pystr) (status : option Z)
  | BlockchainConnectionError (msg : pystr) (code details : pystr)
  | TransactionValidationError (msg : pystr) (code : Z).

Abbreviation res := (outcome exn).

(** ** The class hierarchy *)

Inductive pyclass :=
  | CException | CLookupError | CValueError | CKeyError | CIndexError | CTypeError
  | CAttributeError | CRuntimeError | CNotImplementedError | CNameError | CUnboundLocalError | COSError | CFileNotFoundError
  | CConnectionError | CUnicodeError | CUnicodeEncodeError | CUnicodeDecodeError
  | CBinasciiError | CDecodeError | CTimeoutError | CRpcError
  | CBlockchainError | CTransactionError | CTrasactionCommitError | CTransactionProposalError
  | CBlockRetrievalError | CBlockchainConnectionError | CTransactionValidationError.

#[global] Instance pyclass_eq_dec : EqDecision pyclass.
Proof. solve_decision. Defined.

Definition bases (c : pyclass) : list pyclass :=
  match c with
  | CException => []
  | CKeyError | CIndexError => [CLookupError]
  | CNotImplementedError => [CRuntimeError]
  | CUnboundLocalError => [CNameError]
  | CFileNotFoundError | CConnectionError => [COSError]
  | CUnicodeError => [CValueError]
  | CUnicodeEncodeError | CUnicodeDecodeError => [CUnicodeError]
  | CBinasciiError => [CValueError]
  | CTransactionError | CBlockRetrievalError | CTransactionValidationError => [CBlockchainError]
  | CTrasactionCommitError | CTransactionProposalError => [CTransactionError]
  | CBlockchainConnectionError => [CBlockchainError; CConnectionError]
  | _ => [CException]
  end.

(** The longest chain of the hierarchy has five classes. *)
Fixpoint issubclass_fuel (fuel : nat) (c d : pyclass) : bool :=
  bool_decide (c = d)
  || match fuel with
     | O => false
     | S f => existsb (λ b, issubclass_fuel f b d) (bases c)
     end.
Definition issubclass : pyclass → pyclass → bool := issubclass_fuel 5.

Definition class_of (e : exn) : pyclass :=
  match e with
  | ValueError _ => CValueError
  | KeyError _ => CKeyError
  | IndexError _ => CIndexError
  | TypeError _ => CTypeError
  | AttributeError _ => CAttributeError
  | RuntimeError _ => CRuntimeError
  | NotImplementedError _ => CNotImplementedError
  | UnboundLocalError _ => CUnboundLocalError
  | FileNotFoundError _ => CFileNotFoundError
  | UnicodeEncodeError => CUnicodeEncodeError
  | UnicodeDecodeError => CUnicodeDecodeError
  | BinasciiError => CBinasciiError
  | DecodeError => CDecodeError
  | TimeoutError => CTimeoutError
  | RpcError _ _ => CRpcError
  | BlockchainError _ => CBlockchainError
  | TrasactionCommitError _ _ => CTrasactionCommitError
  | TransactionProposalError _ _ => CTransactionProposalError
  | BlockRetrievalError _ _ => CBlockRetrievalError
  | BlockchainConnectionError _ _ _ => CBlockchainConnectionError
  | TransactionValidationError _ _ => CTransactionValidationError
  end.

Definition isinstance (e : exn) (c : pyclass) : bool := issubclass (class_of e) c.
#[global] Arguments isinstance : simpl never.
#[global] Arguments issubclass : simpl never.

(** ** Constructors *)

(** [TransactionError.__init__]: the message of both its subclasses. *)
Definition transaction_error_message (msg tx_id : pystr) (status : Z) (response_message : pystr) : pystr :=
  msg ++ u " for tx " ++ tx_id ++ u " (status: " ++ str_of_Z status ++ u "): "
  ++ response_message.

(** What the constructor of [TransactionError] reads of its object, and the
    constructor; the class itself leaves both properties open. *)
Record TransactionError := mkTransactionError {
  te_status : res Z;
  te_response_message : res pystr;
}.
Definition TransactionError_init (self : TransactionError) (msg tx_id : pystr) : res pystr :=
  status ← te_status self;
  response_message ← te_response_message self;
  mret (transaction_error_message msg tx_id status response_message).
Definition TransactionError_base : TransactionError :=
  mkTransactionError (Raise (NotImplementedError [])) (Raise (NotImplementedError [])).

Definition new_TrasactionCommitError (msg tx_id : pystr) (r : BroadcastResponse) : exn :=
  TrasactionCommitError
    (transaction_error_message msg tx_id (BroadcastResponse_status r) (BroadcastResponse_info r)) r.

(** The first error response that has a message. *)
Definition proposal_error_response_message (tx : EndorsedTX) : pystr :=
  match List.find (λ r, is_nonempty (Response_message (response_of r))) (error_responses tx) with
  | Some r => Response_message (response_of r)
  | None => u "<no error message>"
  end.

(** The status of the first error response. *)
Definition proposal_error_status (tx : EndorsedTX) : Z :=
  match error_responses tx with
  | r :: _ => response_status r
  | [] => 0
  end.

Definition new_TransactionProposalError (msg : pystr) (tx : EndorsedTX) : exn :=
  TransactionProposalError
    (transaction_error_message msg (EndorsedTX_tx_id tx) (proposal_error_status tx)
       (proposal_error_response_message tx)) tx.

Definition new_BlockRetrievalError (msg : pystr) (status : option Z) : exn :=
  BlockRetrievalError
    (match status with
     | Some s => if (s =? 0)%Z then msg else msg ++ u ": status (" ++ str_of_Z s ++ u ")"
     | None => msg
     end) status.

Definition new_BlockchainConnectionError (code details : pystr) : exn :=
  BlockchainConnectionError
    (u "Blockchain communication failure (" ++ code ++ u "): " ++ details) code details.

(** [code_name] raises [ValueError] for a code the generated enum does not
    name, so the constructor raises instead of returning. *)
Definition new_TransactionValidationError (code : Z) : exn :=
  match EnumName ENUM_TxValidationCode code with
  | Some name =>
    TransactionValidationError
      (u "Transaction failed validations, with the following code: " ++ name) code
  | None =>
    ValueError (u "Enum TxValidationCode has no name defined for value " ++ str_of_Z code)
  end.

(** [handle_conn_errors], on the exception that leaves its body. *)
Definition convert_conn_error (e : exn) : exn :=
  match e with
  | RpcError code details => new_BlockchainConnectionError code details
  | _ => e
  end.

(** ** Lemmas *)

(** The subclasses define both properties, so only the base class raises. *)
Definition commit_error_properties (r : BroadcastResponse) : TransactionError :=
  mkTransactionError (Ok (BroadcastResponse_status r)) (Ok (BroadcastResponse_info r)).
Definition proposal_error_properties (tx : EndorsedTX) : TransactionError :=
  mkTransactionError (Ok (proposal_error_status tx)) (Ok (proposal_error_response_message tx)).

Lemma commit_error_init msg tx_id r :
  (λ m, TrasactionCommitError m r) <$> TransactionError_init (commit_error_properties r) msg tx_id
  = Ok (new_TrasactionCommitError msg tx_id r).
Proof. done. Qed.
Lemma proposal_error_init msg tx :
  (λ m, TransactionProposalError m tx)
    <$> TransactionError_init (proposal_error_properties tx) msg (EndorsedTX_tx_id tx)
  = Ok (new_TransactionProposalError msg tx).
Proof. done. Qed.

(** Five steps up reach every ancestor: one more changes nothing. *)
Lemma issubclass_step c d :
  issubclass_fuel 6 c d = issubclass_fuel 5 c d.
Proof. destruct c, d; reflexivity. Qed.

Lemma issubclass_refl c : issubclass c c = true.
Proof. by destruct c. Qed.

Lemma isinstance_exception e : isinstance e CException = true.
Proof. by destruct e. Qed.
