(* ===== verification/Crypto.v ===== *)
(** * Crypto: _hfc/crypto.py and crypto.py

    [Cryptography] is what the client takes from the packages cryptography,
    pycryptodomex and hkdf and from the operating system's randomness: a
    parameter of every theorem, with [CryptographyLaws] for what their
    documentation promises.  A [PrivateKey] is one of an elliptic curve.  [Ecies] and its operations are the code's. *)
From S2P Require Import Prelude PyText Sha256 Sha3 Wire Protobuf CommonProtos PeerProtos TxData Errors.

(** ** Hash functions of hashlib *)

Inductive hash_function := HSha256 | HSha3_256 | HSha3_384.

#[global] Instance hash_function_eq_dec : EqDecision hash_function.
Proof. solve_decision. Defined.

Definition digest (h : hash_function) : bytes → bytes :=
  match h with HSha256 => sha256 | HSha3_256 => sha3_256 | HSha3_384 => sha3_384 end.
Definition digest_size (h : hash_function) : nat :=
  match h with HSha256 => 32 | HSha3_256 => 32 | HSha3_384 => 48 end.
Definition block_size (h : hash_function) : nat :=
  match h with HSha256 => 64 | HSha3_256 => 136 | HSha3_384 => 104 end.
Definition hmac_digest (h : hash_function) : bytes → bytes → bytes :=
  hmac (block_size h) (digest h).

Lemma digest_length h l : length (digest h l) = digest_size h.
Proof. destruct h; [apply sha256_length|apply sha3_256_length|apply sha3_384_length]. Qed.
Lemma hmac_digest_length h k m : length (hmac_digest h k m) = digest_size h.
Proof. apply digest_length. Qed.

(** ** The libraries *)

Inductive Curve := SECP256R1 | SECP384R1.
#[global] Instance Curve_eq_dec : EqDecision Curve.
Proof. solve_decision. Defined.

Definition curve_key_size (c : Curve) : Z :=
  match c with SECP256R1 => 256 | SECP384R1 => 384 end.

(** [hashes.SHA256()] and [hashes.SHA384()], as arguments of ECDSA. *)
Inductive SignHash := SignSHA256 | SignSHA384.

Inductive verify_result := Verified | InvalidSignature | VerifyRaised (e : exn).

(** A [draw] numbers the reads of the system's randomness. *)
Class Cryptography := {
  PrivateKey : Type;
  PublicKey : Type;
  load_pem_private_key : bytes → res PrivateKey;
  generate_private_key : Curve → nat → PrivateKey;
  public_key : PrivateKey → PublicKey;
  (** [private_key.curve.key_size] *)
  key_size : PrivateKey → Z;
  ec_sign : PrivateKey → bytes → SignHash → nat → bytes;
  ec_verify : PublicKey → bytes → bytes → SignHash → verify_result;
  decode_dss_signature : bytes → option (Z * Z);
  encode_dss_signature : Z → Z → bytes;
  encode_point : PublicKey → bytes;
  from_encoded_point : Curve → bytes → option PublicKey;
  (** [None] is the [ValueError] of two keys on different curves. *)
  exchange : PrivateKey → PublicKey → option bytes;
  hkdf_expand : hash_function → bytes → nat → bytes;
  aes_cfb_encrypt : bytes → bytes → bytes → bytes;
  aes_cfb_decrypt : bytes → bytes → bytes → bytes;
  random_bytes : nat → nat → bytes;
}.

(** ** Ecies *)

Definition CURVE_P_256_Size : Z := 256.
Definition CURVE_P_384_Size : Z := 384.
Definition SHA2 : pystr := u "SHA2".
Definition SHA3 : pystr := u "SHA3".
Definition DEFAULT_NONCE_SIZE : nat := 24.
Definition AES_KEY_LENGTH : nat := 32.
Definition HMAC_KEY_LENGTH : nat := 32.
Definition IV_LENGTH : nat := 16.

Record Ecies := mkEcies {
  ecies_order : Z;
  ecies_half_order : Z;
  ecies_curve : Curve;
  ecies_sign_hash_algorithm : SignHash;
  ecies_hash : hash_function;
}.

Definition P256_order : Z :=
  115792089210356248762697446949407573529996955224135760342422259061068512044369.
Definition P384_order : Z :=
  39402006196394479212279040100143613805079739270465446667946905279627659399113263569398956308152294913554433653942643.

(** [Ecies.__init__]; [ecies] is the same with its defaults. *)
Definition new_Ecies (security_level : Z) (hash_algorithm : pystr) : Ecies :=
  let '(order, curve, sign_hash) :=
    if (security_level =? CURVE_P_256_Size)%Z then (P256_order, SECP256R1, SignSHA256)
    else (P384_order, SECP384R1, SignSHA384) in
  let hash :=
    if decide (hash_algorithm = SHA2) then HSha256
    else if bool_decide (hash_algorithm = SHA3) && (security_level =? CURVE_P_256_Size)%Z
         then HSha3_256
    else HSha3_384 in
  mkEcies order (Z.shiftr order 1) curve sign_hash hash.

Definition ecies : Ecies := new_Ecies CURVE_P_256_Size SHA2.

Section Ecies.
Context `{Cryptography}.

Definition generate_nonce (draw : nat) (size : nat) : bytes := random_bytes draw size.
(** The function of that name outside of the class. *)
Definition module_generate_nonce (draw : nat) (size : nat) : bytes := random_bytes draw size.

Definition decode_dss (sig : bytes) : res (Z * Z) :=
  or_raise (ValueError (u "error parsing asn1 value")) (decode_dss_signature sig).

Definition prevent_malleability (self : Ecies) (sig : bytes) : res bytes :=
  '(r, s) ← decode_dss sig;
  let s := if (s >? ecies_half_order self)%Z then (ecies_order self - s)%Z else s in
  mret (encode_dss_signature r s).

Definition check_malleability (self : Ecies) (sig : bytes) : res bool :=
  '(r, s) ← decode_dss sig;
  if (s >? ecies_half_order self)%Z then mret false else mret true.

Definition ecies_sign (self : Ecies) (draw : nat) (private_key : PrivateKey)
    (message : bytes) : res bytes :=
  let signer := ec_sign private_key message (ecies_sign_hash_algorithm self) draw in
  prevent_malleability self signer.

Definition ecies_verify (self : Ecies) (pk : PublicKey) (message signature : bytes) : res bool :=
  ok ← check_malleability self signature;
  if negb ok then mret false
  else match ec_verify pk signature message (ecies_sign_hash_algorithm self) with
       | InvalidSignature => mret false
       | VerifyRaised e => Raise e
       | Verified => mret true
       end.

Definition ecies_generate_private_key (self : Ecies) (draw : nat) : PrivateKey :=
  generate_private_key (ecies_curve self) draw.

(** [encrypt] draws the ephemeral key, then the initialization vector. *)
Definition ecies_encrypt (self : Ecies) (draw : nat) (pk : PublicKey) (plain_text : bytes) : res bytes :=
  let ephemeral_private_key := ecies_generate_private_key self draw in
  let rb := encode_point (public_key ephemeral_private_key) in
  z ← or_raise (ValueError (u "public_key and private_key are not on the same curve"))
        (exchange ephemeral_private_key pk);
  let hkdf_output := hkdf_expand (ecies_hash self) z (AES_KEY_LENGTH + HMAC_KEY_LENGTH) in
  let aes_key := take AES_KEY_LENGTH hkdf_output in
  let hmac_key := take HMAC_KEY_LENGTH (drop AES_KEY_LENGTH hkdf_output) in
  let iv := random_bytes (S draw) IV_LENGTH in
  let em := iv ++ aes_cfb_encrypt aes_key iv plain_text in
  let d := hmac_digest (ecies_hash self) hmac_key em in
  mret (rb ++ em ++ d).

Definition invalid_key_message (key_len own : Z) : pystr :=
  u "Invalid key. Input security level " ++ str_of_Z key_len ++ u " does not "
  ++ u "match the current security level " ++ str_of_Z own.
Definition illegal_length_message (ct_len min : Z) : pystr :=
  u "Illegal cipherText length: cipher text length " ++ str_of_Z ct_len
  ++ u " must be > rb length plus d_len " ++ str_of_Z min.

Definition ecies_decrypt (self : Ecies) (private_key : PrivateKey) (cipher_text : bytes) : res bytes :=
  let key_len := key_size private_key in
  if negb (key_len =? curve_key_size (ecies_curve self))%Z then
    Raise (ValueError (invalid_key_message key_len (curve_key_size (ecies_curve self))))
  else
  let d_len := Z.shiftr key_len 3 in
  let rb_len := ((key_len + 7) / 8 * 2 + 1)%Z in
  let ct_len := Z.of_nat (length cipher_text) in
  if (ct_len <=? rb_len + d_len)%Z then
    Raise (ValueError (illegal_length_message ct_len (rb_len + d_len)))
  else
  let rb := take (Z.to_nat rb_len) cipher_text in
  let em := drop (Z.to_nat rb_len) (take (Z.to_nat (ct_len - d_len)) cipher_text) in
  let d := drop (Z.to_nat (ct_len - d_len)) cipher_text in
  ephemeral_public_key ← or_raise (ValueError (u "Unsupported elliptic curve point type"))
                           (from_encoded_point (ecies_curve self) rb);
  z ← or_raise (ValueError (u "public_key and private_key are not on the same curve"))
        (exchange private_key ephemeral_public_key);
  let hkdf_output := hkdf_expand (ecies_hash self) z (AES_KEY_LENGTH + HMAC_KEY_LENGTH) in
  let aes_key := take AES_KEY_LENGTH hkdf_output in
  let hmac_key := take HMAC_KEY_LENGTH (drop AES_KEY_LENGTH hkdf_output) in
  let recovered_d := hmac_digest (ecies_hash self) hmac_key em in
  if bool_decide (recovered_d = d) then
    let iv := take IV_LENGTH em in
    mret (aes_cfb_decrypt aes_key iv (drop IV_LENGTH em))
  else Raise (ValueError (u "Hmac verify failed.")).

(** The certificate requests of the package cryptography: a parameter, like
    the rest of it. *)
Class X509 := {
  X509Name : Type;
  X509Extension : Type;
  CertificateSigningRequest : Type;
  CertificateSigningRequestBuilder : Type;
  csr_builder : X509Name → list X509Extension → CertificateSigningRequestBuilder;
  csr_sign : CertificateSigningRequestBuilder → PrivateKey → SignHash → nat →
    res CertificateSigningRequest;
}.

Definition ecies_generate_csr `{X509} (self : Ecies) (draw : nat) (private_key : PrivateKey)
    (subject_name : X509Name) (extensions : option (list X509Extension)) :
    res CertificateSigningRequest :=
  let builder := csr_builder subject_name (default [] extensions) in
  csr_sign builder private_key (ecies_sign_hash_algorithm self) draw.
End Ecies.

(** ** [CryptoSuite]: the default is read when a class using it is defined *)

Record CryptoSuite := mkCryptoSuite { suite_default : Ecies }.
Definition initial_CryptoSuite : CryptoSuite := mkCryptoSuite ecies.
Definition set_default (new : Ecies) (c : CryptoSuite) : CryptoSuite :=
  mkCryptoSuite new.

(** ** What the libraries promise *)

Definition curve_order (c : Curve) : Z :=
  match c with SECP256R1 => P256_order | SECP384R1 => P384_order end.

Class CryptographyLaws `{Cryptography} (key_curve : PrivateKey → Curve) := {
  key_size_curve k : key_size k = curve_key_size (key_curve k);
  generated_curve c n : key_curve (generate_private_key c n) = c;
  (** DER carries any two non-negative integers. *)
  decode_encode_dss r s :
    (0 ≤ r)%Z → (0 ≤ s)%Z → decode_dss_signature (encode_dss_signature r s) = Some (r, s);
  (** A signature is a pair of scalars of the key's curve, verifies, and so
      does its mirror image in the second scalar. *)
  ec_sign_scalars k m h n :
    ∃ r s, ec_sign k m h n = encode_dss_signature r s
           ∧ (0 < r < curve_order (key_curve k))%Z ∧ (0 < s < curve_order (key_curve k))%Z;
  ec_sign_verifies k m h n : ec_verify (public_key k) (ec_sign k m h n) m h = Verified;
  ec_verify_mirror k m h r s :
    (0 < r < curve_order (key_curve k))%Z → (0 < s < curve_order (key_curve k))%Z →
    ec_verify (public_key k) (encode_dss_signature r s) m h = Verified →
    ec_verify (public_key k) (encode_dss_signature r (curve_order (key_curve k) - s)) m h
      = Verified;
  (** An uncompressed point: a tag and two coordinates. *)
  encode_point_length k :
    Z.of_nat (length (encode_point (public_key k)))
      = ((curve_key_size (key_curve k) + 7) / 8 * 2 + 1)%Z;
  decode_encode_point k :
    from_encoded_point (key_curve k) (encode_point (public_key k)) = Some (public_key k);
  exchange_comm a b :
    key_curve a = key_curve b →
    exchange a (public_key b) = exchange b (public_key a) ∧ is_Some (exchange a (public_key b));
  aes_decrypt_encrypt key iv m :
    length iv = IV_LENGTH → aes_cfb_decrypt key iv (aes_cfb_encrypt key iv m) = m;
  aes_encrypt_length key iv m : length (aes_cfb_encrypt key iv m) = length m;
  random_bytes_length n size : length (random_bytes n size) = size;
}.

(** ** Lemmas *)

(** The code halves an odd order by a shift. *)
Definition order_ok (self : Ecies) : Prop :=
  ecies_order self = (2 * ecies_half_order self + 1)%Z ∧ (0 < ecies_half_order self)%Z.

Lemma new_Ecies_order_ok level h : order_ok (new_Ecies level h).
Proof. unfold order_ok, new_Ecies. destruct (level =? CURVE_P_256_Size)%Z; by vm_compute. Qed.

Lemma new_Ecies_order level h :
  ecies_order (new_Ecies level h) = curve_order (ecies_curve (new_Ecies level h)).
Proof. unfold new_Ecies. by destruct (level =? CURVE_P_256_Size)%Z. Qed.

Section lemmas.
Context `{CryptographyLaws}.
Implicit Types self : Ecies.

Lemma decode_dss_encode r s :
  (0 ≤ r)%Z → (0 ≤ s)%Z → decode_dss (encode_dss_signature r s) = Ok (r, s).
Proof. intros. unfold decode_dss. by rewrite decode_encode_dss. Qed.

(** The low one of [s] and [order - s]. *)
Definition low_s self (s : Z) : Z :=
  if (s >? ecies_half_order self)%Z then (ecies_order self - s)%Z else s.

Lemma low_s_bound self s :
  order_ok self → (0 < s < ecies_order self)%Z →
  (0 < low_s self s ≤ ecies_half_order self)%Z.
Proof. unfold order_ok, low_s. intros. case_match; lia. Qed.

Lemma low_s_mirror self s :
  order_ok self → (0 < s < ecies_order self)%Z →
  low_s self (ecies_order self - s) = low_s self s.
Proof. unfold order_ok, low_s. intros. repeat case_match; lia. Qed.

Lemma prevent_malleability_encode self r s :
  (0 ≤ r)%Z → (0 ≤ s)%Z →
  prevent_malleability self (encode_dss_signature r s)
    = Ok (encode_dss_signature r (low_s self s)).
Proof. intros. unfold prevent_malleability. by rewrite decode_dss_encode. Qed.

Lemma check_malleability_low self r s :
  (0 ≤ r)%Z → (0 ≤ s ≤ ecies_half_order self)%Z →
  check_malleability self (encode_dss_signature r s) = Ok true.
Proof.
  intros. unfold check_malleability. rewrite decode_dss_encode by lia. cbn.
  destruct (Z.gtb_spec s (ecies_half_order self)); [lia|done].
Qed.
End lemmas.

Section theorems.
Context `{CryptographyLaws}.
Implicit Types self : Ecies.

Lemma ecies_sign_spec self n k m :
  order_ok self → ecies_order self = curve_order (key_curve k) →
  ∃ r s, ec_sign k m (ecies_sign_hash_algorithm self) n = encode_dss_signature r s
    ∧ (0 < r < curve_order (key_curve k))%Z ∧ (0 < s < curve_order (key_curve k))%Z
    ∧ ecies_sign self n k m = Ok (encode_dss_signature r (low_s self s)).
Proof.
  intros Hok Ho. destruct (ec_sign_scalars k m (ecies_sign_hash_algorithm self) n)
    as (r & s & E & Hr & Hs). exists r, s. split_and!; try done; try lia.
  unfold ecies_sign. rewrite E. apply prevent_malleability_encode; lia.
Qed.

Lemma ec_verify_low self k m h r s :
  ecies_order self = curve_order (key_curve k) →
  (0 < r < curve_order (key_curve k))%Z → (0 < s < curve_order (key_curve k))%Z →
  ec_verify (public_key k) (encode_dss_signature r s) m h = Verified →
  ec_verify (public_key k) (encode_dss_signature r (low_s self s)) m h = Verified.
Proof.
  intros Ho Hr Hs Hv. unfold low_s. case_match; [|done]. rewrite Ho.
  by apply ec_verify_mirror.
Qed.

Lemma ecies_verify_low level alg n k m r s :
  let self := new_Ecies level alg in
  ecies_order self = curve_order (key_curve k) →
  ec_sign k m (ecies_sign_hash_algorithm self) n = encode_dss_signature r s →
  (0 < r < curve_order (key_curve k))%Z → (0 < s < curve_order (key_curve k))%Z →
  ecies_verify self (public_key k) m (encode_dss_signature r (low_s self s)) = Ok true.
Proof.
  intros self Ho E Hr Hs.
  pose proof (low_s_bound self s (new_Ecies_order_ok level alg) ltac:(lia)) as Hl.
  unfold ecies_verify. rewrite check_malleability_low by lia. step_outcome. cbn [negb].
  rewrite (ec_verify_low self k m _ r s Ho Hr Hs); [done|].
  rewrite <-E. apply ec_sign_verifies.
Qed.

(** a signature the suite makes is accepted by the suite: [sign]
    returns, the second scalar is in the lower half (so
    [_check_malleability] passes), and [verify] with the public key answers
    [True]. *)
Theorem sign_then_verify level alg k n m :
  key_curve k = ecies_curve (new_Ecies level alg) →
  ∃ sig, ecies_sign (new_Ecies level alg) n k m = Ok sig
    ∧ check_malleability (new_Ecies level alg) sig = Ok true
    ∧ ecies_verify (new_Ecies level alg) (public_key k) m sig = Ok true.
Proof.
  intros Hk. set (self := new_Ecies level alg) in *.
  assert (ecies_order self = curve_order (key_curve k)) as Ho
    by (rewrite Hk; apply new_Ecies_order).
  pose proof (new_Ecies_order_ok level alg) as Hok.
  destruct (ecies_sign_spec self n k m) as (r & s & E & Hr & Hs & Hsig); try done.
  pose proof (low_s_bound self s Hok ltac:(lia)) as Hl.
  exists (encode_dss_signature r (low_s self s)). split; [done|].
  split; [apply check_malleability_low; lia|]. by apply (ecies_verify_low level alg n).
Qed.

(** C37: of the two signatures (r, s) and (r, order - s) that ECDSA accepts,
    the suite produces the same one and accepts only that one. *)
Theorem signature_not_malleable level alg r s :
  let self := new_Ecies level alg in
  (0 ≤ r)%Z → (0 < s < ecies_order self)%Z →
  prevent_malleability self (encode_dss_signature r s)
    = prevent_malleability self (encode_dss_signature r (ecies_order self - s))
  ∧ ∃ b, check_malleability self (encode_dss_signature r s) = Ok b
       ∧ check_malleability self (encode_dss_signature r (ecies_order self - s))
           = Ok (negb b).
Proof.
  intros self Hr Hs. pose proof (new_Ecies_order_ok level alg) as Hok. fold self in Hok.
  split.
  - rewrite !prevent_malleability_encode by lia. by rewrite low_s_mirror.
  - exists (negb (s >? ecies_half_order self)%Z). unfold check_malleability.
    rewrite !decode_dss_encode by lia. cbn. unfold order_ok in Hok.
    destruct (Z.gtb_spec s (ecies_half_order self)),
      (Z.gtb_spec (ecies_order self - s) (ecies_half_order self)); try lia; done.
Qed.

(** ** Encryption *)

Lemma d_len_bytes c :
  (8 * Z.shiftr (curve_key_size c) 3 = curve_key_size c ∧ 0 < curve_key_size c)%Z.
Proof. by destruct c. Qed.

Lemma decrypt_split (rb em d : bytes) (rl dl : Z) :
  Z.of_nat (length rb) = rl → Z.of_nat (length d) = dl →
  let ct := rb ++ em ++ d in
  let ct_len := Z.of_nat (length ct) in
  take (Z.to_nat rl) ct = rb
  ∧ drop (Z.to_nat rl) (take (Z.to_nat (ct_len - dl)) ct) = em
  ∧ drop (Z.to_nat (ct_len - dl)) ct = d.
Proof.
  intros <- <- ct ct_len.
  replace (Z.to_nat (ct_len - Z.of_nat (length d))) with (length (rb ++ em))
    by (unfold ct_len, ct; rewrite !length_app; lia).
  rewrite !Nat2Z.id. unfold ct. split_and!.
  - by rewrite take_app_length.
  - rewrite (assoc_L (++)), take_app_length. by rewrite drop_app_length.
  - by rewrite (assoc_L (++)), drop_app_length.
Qed.

Lemma key_size_of_suite self k :
  key_curve k = ecies_curve self → key_size k = curve_key_size (ecies_curve self).
Proof. intros <-. apply key_size_curve. Qed.

(** [decrypt] inverts [encrypt] when the digest of the suite's hash is
    as long as a coordinate of its curve. *)
Theorem decrypt_encrypt self k n m :
  key_curve k = ecies_curve self →
  (8 * Z.of_nat (digest_size (ecies_hash self)) = curve_key_size (ecies_curve self))%Z →
  ∃ ct, ecies_encrypt self n (public_key k) m = Ok ct ∧ ecies_decrypt self k ct = Ok m.
Proof.
  intros Hk Hd. unfold ecies_encrypt, ecies_generate_private_key.
  set (ks := curve_key_size (ecies_curve self)) in *.
  set (e := generate_private_key (ecies_curve self) n).
  assert (key_curve e = ecies_curve self) as He by apply generated_curve.
  destruct (exchange_comm e k) as [Hex [z Hz]]; [congruence|]. rewrite Hz. cbn [or_raise].
  rewrite bind_Ok. set (hk := hkdf_expand (ecies_hash self) z _).
  set (iv := random_bytes (S n) IV_LENGTH).
  set (em := iv ++ _). set (dg := hmac_digest _ _ _). set (rb := encode_point _).
  eexists. split; [reflexivity|].
  unfold ecies_decrypt. rewrite (key_size_of_suite self k) by done.
  rewrite Z.eqb_refl. cbn [negb]. fold ks.
  assert (Z.of_nat (length rb) = (ks + 7) / 8 * 2 + 1)%Z as Hrb
    by (unfold rb, ks; rewrite <-He; apply encode_point_length).
  assert (length iv = IV_LENGTH) as Hiv by apply random_bytes_length.
  assert (Z.of_nat (length dg) = Z.shiftr ks 3) as Hdg
    by (unfold dg; rewrite hmac_digest_length;
      pose proof (d_len_bytes (ecies_curve self)) as D; fold ks in D; lia).
  destruct (decrypt_split rb em dg _ _ Hrb Hdg) as (-> & -> & ->).
  assert (length em = IV_LENGTH + length m) as Hem
    by (unfold em; by rewrite length_app, aes_encrypt_length, Hiv).
  destruct (Z.leb_spec (Z.of_nat (length (rb ++ em ++ dg)))
    ((ks + 7) / 8 * 2 + 1 + Z.shiftr ks 3)) as [Hle|_].
  { rewrite !length_app, Hem in Hle. unfold IV_LENGTH in *. lia. }
  unfold rb. rewrite <-He, decode_encode_point. cbn [or_raise]. rewrite bind_Ok.
  rewrite <-Hex, Hz. cbn [or_raise]. rewrite bind_Ok. fold hk. fold dg.
  rewrite bool_decide_true by done. cbv beta iota zeta.
  unfold em. rewrite <-Hiv, take_app_length, drop_app_length.
  by rewrite aes_decrypt_encrypt.
Qed.

(** a suite whose digest is not as long as a coordinate of its curve
    rejects every ciphertext it is given, its own included: [decrypt] always
    raises [ValueError].  [Ecies(CURVE_P_384_Size)], which hashes with
    SHA-256 by default, is such a suite. *)
Theorem decrypt_rejects_all self k ct :
  key_curve k = ecies_curve self →
  (8 * Z.of_nat (digest_size (ecies_hash self)) ≠ curve_key_size (ecies_curve self))%Z →
  ∃ msg, ecies_decrypt self k ct = Raise (ValueError msg).
Proof.
  intros Hk Hd. unfold ecies_decrypt. rewrite (key_size_of_suite self k) by done.
  rewrite Z.eqb_refl. cbn [negb]. case_match eqn:E; [by eexists|]. apply Z.leb_gt in E.
  destruct (from_encoded_point _ _) as [epk|]; cbn [or_raise mbind outcome_bind]; [|by eexists].
  destruct (exchange k epk); cbn [or_raise mbind outcome_bind]; [|by eexists].
  case_bool_decide as Heq; [|by eexists]. exfalso.
  apply (f_equal length) in Heq. rewrite hmac_digest_length, length_drop in Heq.
  pose proof (d_len_bytes (ecies_curve self)). lia.
Qed.

(** which suites can decrypt what they encrypt: P-256 with SHA2 or SHA3,
    and every other level with anything but SHA2. *)
Theorem suite_consistent level alg :
  (8 * Z.of_nat (digest_size (ecies_hash (new_Ecies level alg)))
     = curve_key_size (ecies_curve (new_Ecies level alg)))%Z
  ↔ (level = CURVE_P_256_Size ∧ (alg = SHA2 ∨ alg = SHA3))
    ∨ (level ≠ CURVE_P_256_Size ∧ alg ≠ SHA2).
Proof.
  assert (SHA2 ≠ SHA3) by done. unfold new_Ecies.
  destruct (Z.eqb_spec level CURVE_P_256_Size); rewrite ?andb_true_r, ?andb_false_r;
    destruct (decide (alg = SHA2)); try case_bool_decide; cbn; naive_solver.
Qed.
End theorems.
