(* ===== verification/Suite.v ===== *)
(** * Suite: the interface [Crypto] of _hfc/crypto.py and its implementation

    [Crypto] is the abstract class a user's [crypto_suite] implements, as a
    type class whose instance is [Ecies].  [fulfils] is what its documentation
    promises: [sign] is what [verify] accepts, [decrypt] undoes [encrypt]. *)
From S2P Require Import Prelude PyText Sha256 Sha3 Errors Crypto.

(** The classes [Key] and [AsymmetricKey], which nothing in the repository
    implements. *)
Class Key (K : Type) := {
  is_symmetric : K → bool;
  get_SKI : K → pystr;
}.
Class AsymmetricKey (K : Type) `{Key K} := {
  is_private : K → bool;
  get_public_key : K → K;
}.

(** The class [Crypto]: its abstract methods.  The numbers say which reads of
    the system's randomness a method makes. *)
Class Crypto (Suite Private Public : Type) := {
  crypto_generate_private_key : Suite → nat → Private;
  crypto_encrypt : Suite → nat → Public → bytes → res bytes;
  crypto_decrypt : Suite → Private → bytes → res bytes;
  crypto_sign : Suite → nat → Private → bytes → res bytes;
  crypto_verify : Suite → Public → bytes → bytes → res bool;
}.

(** [class Ecies(Crypto)] *)
Definition ecies_crypto `{Cryptography} : Crypto Ecies PrivateKey PublicKey := {|
  crypto_generate_private_key := ecies_generate_private_key;
  crypto_encrypt := ecies_encrypt;
  crypto_decrypt := ecies_decrypt;
  crypto_sign := ecies_sign;
  crypto_verify := ecies_verify;
|}.
#[export] Existing Instance ecies_crypto.

(** The contract, for the keys that suit the suite: those it generates are
    among them. *)
Record fulfils `{Crypto Suite Private Public} (public : Private → Public)
    (suits : Suite → Private → Prop) (suite : Suite) : Prop := {
  generates_suitable n : suits suite (crypto_generate_private_key suite n);
  verifies_signed k n m : suits suite k →
    ∃ sig, crypto_sign suite n k m = Ok sig
      ∧ crypto_verify suite (public k) m sig = Ok true;
  decrypts_encrypted k n m : suits suite k →
    ∃ ct, crypto_encrypt suite n (public k) m = Ok ct ∧ crypto_decrypt suite k ct = Ok m;
}.

Section ecies.
Context `{CryptographyLaws}.

(** A key on the curve of the suite. *)
Definition on_curve (self : Ecies) (k : PrivateKey) : Prop := key_curve k = ecies_curve self.

(** C36: which suites keep the contract of [Crypto]: exactly those of level
    P-256 with SHA2 or SHA3 and those of any other level with anything but
    SHA2.  For these [sign] returns a signature that [verify] accepts and
    [decrypt] gives back what was encrypted, for every key on the curve,
    those the suite generates included.  The others break it, and among them
    is [Ecies(CURVE_P_384_Size)], with the default hash. *)
Theorem ecies_fulfils level alg :
  fulfils public_key on_curve (new_Ecies level alg)
  ↔ (level = CURVE_P_256_Size ∧ (alg = SHA2 ∨ alg = SHA3))
    ∨ (level ≠ CURVE_P_256_Size ∧ alg ≠ SHA2).
Proof.
  rewrite <-suite_consistent. set (self := new_Ecies level alg). split.
  - intros [Hgen _ Hdec]. set (k := ecies_generate_private_key self 0).
    destruct (decide (8 * Z.of_nat (digest_size (ecies_hash self))
      = curve_key_size (ecies_curve self))%Z) as [|Hd]; [done|exfalso].
    destruct (Hdec k 0 [] (Hgen 0)) as (ct & _ & Hct). cbn in Hct.
    destruct (decrypt_rejects_all self k ct (Hgen 0) Hd) as [msg E].
    by rewrite E in Hct.
  - intros Hd. split; cbn.
    + intros n. apply generated_curve.
    + intros k n m Hk. destruct (sign_then_verify level alg k n m Hk) as (sig & Hs & _ & Hv).
      by exists sig.
    + intros k n m Hk. by apply decrypt_encrypt.
Qed.
End ecies.
