(* ===== verification/Grpc.v ===== *)
(** * Grpc: the generated service modules, protos/*/*_pb2_grpc.py

    A stub is the table of attributes its constructor sets, each a callable
    with the channel, path and message classes it was made with.  A servicer
    is the record of its methods, whose defaults the generated base class
    gives; registering it on a server adds a handler for each.  The message
    classes of services the client never calls are names, with a codec that is
    a parameter. *)
From S2P Require Import Prelude PyText Wire Protobuf Descriptors CommonProtos PeerProtos TxData Errors.

(** ** Channels *)

Record ChannelCredentials := mkCredentials {
  cred_root_certificates : bytes;
  cred_private_key : option bytes;
  cred_certificate_chain : option bytes;
}.

Inductive GrpcChannel :=
  | secure_channel (endpoint : pystr) (creds : ChannelCredentials) (opts : list (pystr * pystr))
  | insecure_channel (endpoint : pystr) (opts : list (pystr * pystr)).

(** ** Message classes and their codecs *)

Inductive MessageClass :=
  (** common/common_pb2.py *)
  | c_Envelope
  (** peer/proposal_pb2.py and peer/proposal_response_pb2.py *)
  | c_SignedProposal | c_ProposalResponse
  (** peer/events_pb2.py *)
  | c_DeliverResponse
  (** orderer/ab_pb2.py *)
  | c_BroadcastResponse | c_OrdererDeliverResponse
  (** peer/admin_pb2.py and google/protobuf/empty_pb2.py *)
  | c_ServerStatus | c_LogLevelResponse | c_LogSpecResponse | c_Empty
  (** peer/chaincode_shim_pb2.py *)
  | c_ChaincodeMessage
  (** discovery/protocol_pb2.py *)
  | c_SignedRequest | c_DiscoveryResponse
  (** token/prover_pb2.py *)
  | c_SignedCommand | c_SignedCommandResponse
  (** gossip/message_pb2.py *)
  | c_GossipEnvelope | c_GossipEmpty
  (** orderer/cluster_pb2.py *)
  | c_SubmitRequest | c_SubmitResponse | c_StepRequest | c_StepResponse.

#[global] Instance MessageClass_eq_dec : EqDecision MessageClass.
Proof. solve_decision. Defined.

(** The two functions a class gives to the stubs and the handlers. *)
Record Codec := mkCodec {
  codec_type : Type;
  Serialize : codec_type → bytes;
  Deserialize : bytes → option codec_type;
}.

Definition message_codec `{Protobuf} (T : Type) `{Message T} : Codec :=
  mkCodec T SerializeToString (FromString T).

Class OtherMessages := { other_codec : MessageClass → Codec }.

Definition codec `{Protobuf, OtherMessages} (c : MessageClass) : Codec :=
  match c with
  | c_Envelope => message_codec Envelope
  | c_SignedProposal => message_codec SignedProposal
  | c_ProposalResponse => message_codec ProposalResponse
  | c_DeliverResponse => message_codec DeliverResponse
  | c_BroadcastResponse => message_codec BroadcastResponse
  | c_OrdererDeliverResponse => message_codec OrdererDeliverResponse
  | c => other_codec c
  end.

(** ** Stubs *)

Inductive Arity := UnaryUnary | StreamStream.

#[global] Instance Arity_eq_dec : EqDecision Arity.
Proof. solve_decision. Defined.

(** What [channel.unary_unary] and [channel.stream_stream] return. *)
Record MultiCallable := mkMultiCallable {
  mc_channel : GrpcChannel;
  mc_arity : Arity;
  mc_path : pystr;
  mc_request : MessageClass;
  mc_response : MessageClass;
}.

Definition unary_unary (channel : GrpcChannel) (path : string) (req resp : MessageClass) :
    MultiCallable := mkMultiCallable channel UnaryUnary (u path) req resp.
Definition stream_stream (channel : GrpcChannel) (path : string) (req resp : MessageClass) :
    MultiCallable := mkMultiCallable channel StreamStream (u path) req resp.

(** The attributes of a stub, in the order they are set. *)
Abbreviation Stub := (list (pystr * MultiCallable)).

Definition stub_attribute (stub : Stub) (name : string) : option MultiCallable :=
  snd <$> List.find (λ e : pystr * MultiCallable, bool_decide (e.1 = u name)) stub.

Definition EndorserStub (channel : GrpcChannel) : Stub := [
  (u "ProcessProposal",
   unary_unary channel "/protos.Endorser/ProcessProposal" c_SignedProposal c_ProposalResponse)].

Definition DeliverStub (channel : GrpcChannel) : Stub := [
  (u "Deliver",
   stream_stream channel "/protos.Deliver/Deliver" c_Envelope c_DeliverResponse);
  (u "DeliverFiltered",
   stream_stream channel "/protos.Deliver/DeliverFiltered" c_Envelope c_DeliverResponse)].

Definition AtomicBroadcastStub (channel : GrpcChannel) : Stub := [
  (u "Broadcast",
   stream_stream channel "/orderer.AtomicBroadcast/Broadcast" c_Envelope c_BroadcastResponse);
  (u "Deliver",
   stream_stream channel "/orderer.AtomicBroadcast/Deliver" c_Envelope c_OrdererDeliverResponse)].

Definition AdminStub (channel : GrpcChannel) : Stub := [
  (u "GetStatus", unary_unary channel "/protos.Admin/GetStatus" c_Envelope c_ServerStatus);
  (u "StartServer", unary_unary channel "/protos.Admin/StartServer" c_Envelope c_ServerStatus);
  (u "GetModuleLogLevel",
   unary_unary channel "/protos.Admin/GetModuleLogLevel" c_Envelope c_LogLevelResponse);
  (u "SetModuleLogLevel",
   unary_unary channel "/protos.Admin/SetModuleLogLevel" c_Envelope c_LogLevelResponse);
  (u "RevertLogLevels", unary_unary channel "/protos.Admin/RevertLogLevels" c_Envelope c_Empty);
  (u "GetLogSpec", unary_unary channel "/protos.Admin/GetLogSpec" c_Envelope c_LogSpecResponse);
  (u "SetLogSpec", unary_unary channel "/protos.Admin/SetLogSpec" c_Envelope c_LogSpecResponse)].

Definition ChaincodeSupportStub (channel : GrpcChannel) : Stub := [
  (u "Register",
   stream_stream channel "/protos.ChaincodeSupport/Register" c_ChaincodeMessage c_ChaincodeMessage)].

Definition DiscoveryStub (channel : GrpcChannel) : Stub := [
  (u "Discover",
   unary_unary channel "/discovery.Discovery/Discover" c_SignedRequest c_DiscoveryResponse)].

Definition ProverStub (channel : GrpcChannel) : Stub := [
  (u "ProcessCommand",
   unary_unary channel "/token.Prover/ProcessCommand" c_SignedCommand c_SignedCommandResponse)].

Definition GossipStub (channel : GrpcChannel) : Stub := [
  (u "GossipStream",
   stream_stream channel "/gossip.Gossip/GossipStream" c_GossipEnvelope c_GossipEnvelope);
  (u "Ping", unary_unary channel "/gossip.Gossip/Ping" c_GossipEmpty c_GossipEmpty)].

Definition ClusterStub (channel : GrpcChannel) : Stub := [
  (u "Submit", stream_stream channel "/orderer.Cluster/Submit" c_SubmitRequest c_SubmitResponse);
  (u "Step", unary_unary channel "/orderer.Cluster/Step" c_StepRequest c_StepResponse)].

(** ** Servicers *)

(** What a method may set on its context. *)
Record ServicerContext := mkContext {
  ctx_code : option pystr;
  ctx_details : option pystr;
}.

Definition set_code (code : pystr) : SE exn ServicerContext unit :=
  modify (λ c, mkContext (Some code) (ctx_details c)).
Definition set_details (details : pystr) : SE exn ServicerContext unit :=
  modify (λ c, mkContext (ctx_code c) (Some details)).

(** The body every generated method has. *)
Definition unimplemented {A B} (request : A) : SE exn ServicerContext B :=
  set_code (u "StatusCode.UNIMPLEMENTED");;
  set_details (u "Method not implemented!");;
  throw (NotImplementedError (u "Method not implemented!")).

Section servicers.
Context `{Protobuf, OtherMessages}.

(** A method answers a request with a message, or a request stream with a
    response stream. *)
Abbreviation unary_method req resp :=
  (codec_type (codec req) → SE exn ServicerContext (codec_type (codec resp))).
Abbreviation stream_method req resp :=
  (list (codec_type (codec req)) → SE exn ServicerContext (list (codec_type (codec resp)))).

Record EndorserServicer := mkEndorserServicer {
  EndorserServicer_ProcessProposal : unary_method c_SignedProposal c_ProposalResponse;
}.
Definition EndorserServicer_base : EndorserServicer := mkEndorserServicer unimplemented.

Record DeliverServicer := mkDeliverServicer {
  DeliverServicer_Deliver : stream_method c_Envelope c_DeliverResponse;
  DeliverServicer_DeliverFiltered : stream_method c_Envelope c_DeliverResponse;
}.
Definition DeliverServicer_base : DeliverServicer := mkDeliverServicer unimplemented unimplemented.

Record AtomicBroadcastServicer := mkAtomicBroadcastServicer {
  AtomicBroadcastServicer_Broadcast : stream_method c_Envelope c_BroadcastResponse;
  AtomicBroadcastServicer_Deliver : stream_method c_Envelope c_OrdererDeliverResponse;
}.
Definition AtomicBroadcastServicer_base : AtomicBroadcastServicer := mkAtomicBroadcastServicer unimplemented unimplemented.

Record AdminServicer := mkAdminServicer {
  AdminServicer_GetStatus : unary_method c_Envelope c_ServerStatus;
  AdminServicer_StartServer : unary_method c_Envelope c_ServerStatus;
  AdminServicer_GetModuleLogLevel : unary_method c_Envelope c_LogLevelResponse;
  AdminServicer_SetModuleLogLevel : unary_method c_Envelope c_LogLevelResponse;
  AdminServicer_RevertLogLevels : unary_method c_Envelope c_Empty;
  AdminServicer_GetLogSpec : unary_method c_Envelope c_LogSpecResponse;
  AdminServicer_SetLogSpec : unary_method c_Envelope c_LogSpecResponse;
}.
Definition AdminServicer_base : AdminServicer := mkAdminServicer unimplemented unimplemented unimplemented unimplemented unimplemented unimplemented unimplemented.

Record ChaincodeSupportServicer := mkChaincodeSupportServicer {
  ChaincodeSupportServicer_Register : stream_method c_ChaincodeMessage c_ChaincodeMessage;
}.
Definition ChaincodeSupportServicer_base : ChaincodeSupportServicer := mkChaincodeSupportServicer unimplemented.

Record DiscoveryServicer := mkDiscoveryServicer {
  DiscoveryServicer_Discover : unary_method c_SignedRequest c_DiscoveryResponse;
}.
Definition DiscoveryServicer_base : DiscoveryServicer := mkDiscoveryServicer unimplemented.

Record ProverServicer := mkProverServicer {
  ProverServicer_ProcessCommand : unary_method c_SignedCommand c_SignedCommandResponse;
}.
Definition ProverServicer_base : ProverServicer := mkProverServicer unimplemented.

Record GossipServicer := mkGossipServicer {
  GossipServicer_GossipStream : stream_method c_GossipEnvelope c_GossipEnvelope;
  GossipServicer_Ping : unary_method c_GossipEmpty c_GossipEmpty;
}.
Definition GossipServicer_base : GossipServicer := mkGossipServicer unimplemented unimplemented.

Record ClusterServicer := mkClusterServicer {
  ClusterServicer_Submit : stream_method c_SubmitRequest c_SubmitResponse;
  ClusterServicer_Step : unary_method c_StepRequest c_StepResponse;
}.
Definition ClusterServicer_base : ClusterServicer := mkClusterServicer unimplemented unimplemented.

(** ** Registering a servicer *)

Inductive MethodBehavior (req resp : MessageClass) :=
  | Unary (f : unary_method req resp)
  | Streaming (f : stream_method req resp).
Arguments Unary {req resp} f.
Arguments Streaming {req resp} f.

(** [grpc.unary_unary_rpc_method_handler] and its stream counterpart. *)
Record RpcMethodHandler := mkHandler {
  h_request : MessageClass;
  h_response : MessageClass;
  h_method : MethodBehavior h_request h_response;
}.

Definition h_arity (h : RpcMethodHandler) : Arity :=
  match h_method h with Unary _ => UnaryUnary | Streaming _ => StreamStream end.

Definition unary_handler {req resp} (f : unary_method req resp) : RpcMethodHandler :=
  mkHandler req resp (Unary f).
Definition stream_handler {req resp} (f : stream_method req resp) : RpcMethodHandler :=
  mkHandler req resp (Streaming f).

(** [grpc.method_handlers_generic_handler]: a service and its handlers. *)
Record GenericHandler := mkGenericHandler {
  gh_service : pystr;
  gh_methods : list (pystr * RpcMethodHandler);
}.

(** The handlers a server has, in the order they were added. *)
Abbreviation Server := (list GenericHandler).

Definition add_generic_rpc_handlers (server : Server) (handlers : list GenericHandler) : Server :=
  server ++ handlers.

Definition add_EndorserServicer_to_server (servicer : EndorserServicer) (server : Server) : Server :=
  let rpc_method_handlers := [
    (u "ProcessProposal", unary_handler (req := c_SignedProposal) (resp := c_ProposalResponse)
      (EndorserServicer_ProcessProposal servicer))] in
  add_generic_rpc_handlers server [mkGenericHandler (u "protos.Endorser") rpc_method_handlers].

Definition add_DeliverServicer_to_server (servicer : DeliverServicer) (server : Server) : Server :=
  let rpc_method_handlers := [
    (u "Deliver", stream_handler (req := c_Envelope) (resp := c_DeliverResponse)
      (DeliverServicer_Deliver servicer));
    (u "DeliverFiltered", stream_handler (req := c_Envelope) (resp := c_DeliverResponse)
      (DeliverServicer_DeliverFiltered servicer))] in
  add_generic_rpc_handlers server [mkGenericHandler (u "protos.Deliver") rpc_method_handlers].

Definition add_AtomicBroadcastServicer_to_server (servicer : AtomicBroadcastServicer) (server : Server) : Server :=
  let rpc_method_handlers := [
    (u "Broadcast", stream_handler (req := c_Envelope) (resp := c_BroadcastResponse)
      (AtomicBroadcastServicer_Broadcast servicer));
    (u "Deliver", stream_handler (req := c_Envelope) (resp := c_OrdererDeliverResponse)
      (AtomicBroadcastServicer_Deliver servicer))] in
  add_generic_rpc_handlers server [mkGenericHandler (u "orderer.AtomicBroadcast") rpc_method_handlers].

Definition add_AdminServicer_to_server (servicer : AdminServicer) (server : Server) : Server :=
  let rpc_method_handlers := [
    (u "GetStatus", unary_handler (req := c_Envelope) (resp := c_ServerStatus)
      (AdminServicer_GetStatus servicer));
    (u "StartServer", unary_handler (req := c_Envelope) (resp := c_ServerStatus)
      (AdminServicer_StartServer servicer));
    (u "GetModuleLogLevel", unary_handler (req := c_Envelope) (resp := c_LogLevelResponse)
      (AdminServicer_GetModuleLogLevel servicer));
    (u "SetModuleLogLevel", unary_handler (req := c_Envelope) (resp := c_LogLevelResponse)
      (AdminServicer_SetModuleLogLevel servicer));
    (u "RevertLogLevels", unary_handler (req := c_Envelope) (resp := c_Empty)
      (AdminServicer_RevertLogLevels servicer));
    (u "GetLogSpec", unary_handler (req := c_Envelope) (resp := c_LogSpecResponse)
      (AdminServicer_GetLogSpec servicer));
    (u "SetLogSpec", unary_handler (req := c_Envelope) (resp := c_LogSpecResponse)
      (AdminServicer_SetLogSpec servicer))] in
  add_generic_rpc_handlers server [mkGenericHandler (u "protos.Admin") rpc_method_handlers].

Definition add_ChaincodeSupportServicer_to_server (servicer : ChaincodeSupportServicer) (server : Server) : Server :=
  let rpc_method_handlers := [
    (u "Register", stream_handler (req := c_ChaincodeMessage) (resp := c_ChaincodeMessage)
      (ChaincodeSupportServicer_Register servicer))] in
  add_generic_rpc_handlers server [mkGenericHandler (u "protos.ChaincodeSupport") rpc_method_handlers].

Definition add_DiscoveryServicer_to_server (servicer : DiscoveryServicer) (server : Server) : Server :=
  let rpc_method_handlers := [
    (u "Discover", unary_handler (req := c_SignedRequest) (resp := c_DiscoveryResponse)
      (DiscoveryServicer_Discover servicer))] in
  add_generic_rpc_handlers server [mkGenericHandler (u "discovery.Discovery") rpc_method_handlers].

Definition add_ProverServicer_to_server (servicer : ProverServicer) (server : Server) : Server :=
  let rpc_method_handlers := [
    (u "ProcessCommand", unary_handler (req := c_SignedCommand) (resp := c_SignedCommandResponse)
      (ProverServicer_ProcessCommand servicer))] in
  add_generic_rpc_handlers server [mkGenericHandler (u "token.Prover") rpc_method_handlers].

Definition add_GossipServicer_to_server (servicer : GossipServicer) (server : Server) : Server :=
  let rpc_method_handlers := [
    (u "GossipStream", stream_handler (req := c_GossipEnvelope) (resp := c_GossipEnvelope)
      (GossipServicer_GossipStream servicer));
    (u "Ping", unary_handler (req := c_GossipEmpty) (resp := c_GossipEmpty)
      (GossipServicer_Ping servicer))] in
  add_generic_rpc_handlers server [mkGenericHandler (u "gossip.Gossip") rpc_method_handlers].

Definition add_ClusterServicer_to_server (servicer : ClusterServicer) (server : Server) : Server :=
  let rpc_method_handlers := [
    (u "Submit", stream_handler (req := c_SubmitRequest) (resp := c_SubmitResponse)
      (ClusterServicer_Submit servicer));
    (u "Step", unary_handler (req := c_StepRequest) (resp := c_StepResponse)
      (ClusterServicer_Step servicer))] in
  add_generic_rpc_handlers server [mkGenericHandler (u "orderer.Cluster") rpc_method_handlers].

(** A call names its handler as /service/method; a server asks its generic
    handlers in order. *)
Definition method_path (service name : pystr) : pystr := u "/" ++ service ++ u "/" ++ name.

Definition find_method (path : pystr) (g : GenericHandler) : option RpcMethodHandler :=
  snd <$> List.find (λ e : pystr * RpcMethodHandler,
    bool_decide (method_path (gh_service g) e.1 = path)) (gh_methods g).

Fixpoint find_handler (server : Server) (path : pystr) : option RpcMethodHandler :=
  match server with
  | [] => None
  | g :: server =>
    match find_method path g with Some h => Some h | None => find_handler server path end
  end.

(** ** All services *)

Inductive Service :=
  | Endorser | DeliverEvents | AtomicBroadcast | Admin | ChaincodeSupport | Discovery | Prover
  | Gossip | Cluster.

#[global] Instance Service_eq_dec : EqDecision Service.
Proof. solve_decision. Defined.

Definition stub_of (s : Service) : GrpcChannel → Stub :=
  match s with
  | Endorser => EndorserStub
  | DeliverEvents => DeliverStub
  | AtomicBroadcast => AtomicBroadcastStub
  | Admin => AdminStub
  | ChaincodeSupport => ChaincodeSupportStub
  | Discovery => DiscoveryStub
  | Prover => ProverStub
  | Gossip => GossipStub
  | Cluster => ClusterStub
  end.

Definition Servicer (s : Service) : Type :=
  match s with
  | Endorser => EndorserServicer
  | DeliverEvents => DeliverServicer
  | AtomicBroadcast => AtomicBroadcastServicer
  | Admin => AdminServicer
  | ChaincodeSupport => ChaincodeSupportServicer
  | Discovery => DiscoveryServicer
  | Prover => ProverServicer
  | Gossip => GossipServicer
  | Cluster => ClusterServicer
  end.

Definition servicer_base (s : Service) : Servicer s :=
  match s with
  | Endorser => EndorserServicer_base
  | DeliverEvents => DeliverServicer_base
  | AtomicBroadcast => AtomicBroadcastServicer_base
  | Admin => AdminServicer_base
  | ChaincodeSupport => ChaincodeSupportServicer_base
  | Discovery => DiscoveryServicer_base
  | Prover => ProverServicer_base
  | Gossip => GossipServicer_base
  | Cluster => ClusterServicer_base
  end.

Definition add_servicer_to_server (s : Service) : Servicer s → Server → Server :=
  match s with
  | Endorser => add_EndorserServicer_to_server
  | DeliverEvents => add_DeliverServicer_to_server
  | AtomicBroadcast => add_AtomicBroadcastServicer_to_server
  | Admin => add_AdminServicer_to_server
  | ChaincodeSupport => add_ChaincodeSupportServicer_to_server
  | Discovery => add_DiscoveryServicer_to_server
  | Prover => add_ProverServicer_to_server
  | Gossip => add_GossipServicer_to_server
  | Cluster => add_ClusterServicer_to_server
  end.

(** A server on which servicers have been registered. *)
Definition server_of (registered : list (sigT Servicer)) : Server :=
  foldl (λ server r, add_servicer_to_server (projT1 r) (projT2 r) server) [] registered.
End servicers.
Arguments Unary {_ _ req resp} f.
Arguments Streaming {_ _ req resp} f.

(** ** Lemmas *)

Section lemmas.
Context `{Protobuf, OtherMessages}.

Lemma find_handler_app server1 server2 path :
  find_handler (server1 ++ server2) path =
  match find_handler server1 path with
  | Some h => Some h
  | None => find_handler server2 path
  end.
Proof. induction server1 as [|g server1 IH]; cbn; [done|]. by destruct (find_method path g). Qed.

(** The handlers one registration adds. *)
Definition handlers_of (r : sigT Servicer) : list GenericHandler :=
  add_servicer_to_server (projT1 r) (projT2 r) [].

Lemma add_servicer_app s v server :
  add_servicer_to_server s v server = server ++ handlers_of (existT s v).
Proof. by destruct s. Qed.

Lemma server_of_concat registered : server_of registered = registered ≫= handlers_of.
Proof.
  unfold server_of. change (registered ≫= handlers_of) with ([] ++ (registered ≫= handlers_of)).
  generalize ([] : list GenericHandler). induction registered as [|[s v] registered IH]; intros server; cbn.
  - by rewrite app_nil_r.
  - by rewrite IH, add_servicer_app, <-(assoc_L (++)).
Qed.

(** No service answers the paths of another. *)
Lemma handlers_disjoint s s' v' channel name mc :
  s' ≠ s → (name, mc) ∈ stub_of s channel → find_handler (handlers_of (existT s' v')) (mc_path mc) = None.
Proof.
  intros Hs Hin. destruct s; cbn [stub_of] in Hin;
    repeat (apply elem_of_cons in Hin as [[= -> ->]|Hin]; [by destruct s'|]);
    by apply not_elem_of_nil in Hin.
Qed.

Lemma find_handler_server_of registered s (v : Servicer s) channel name mc :
  NoDup (projT1 <$> registered) → existT s v ∈ registered → (name, mc) ∈ stub_of s channel →
  find_handler (server_of registered) (mc_path mc) = find_handler (handlers_of (existT s v)) (mc_path mc).
Proof.
  rewrite server_of_concat. intros Hnd Hin Hmc.
  induction registered as [|r registered IH]; [by apply not_elem_of_nil in Hin|].
  change (find_handler (handlers_of r ++ (registered ≫= handlers_of)) (mc_path mc)
    = find_handler (handlers_of (existT s v)) (mc_path mc)).
  apply NoDup_cons in Hnd as [Hr Hnd]. rewrite find_handler_app.
  apply elem_of_cons in Hin as [<-|Hin].
  - destruct (find_handler (handlers_of _) _) as [h|] eqn:E; [done|].
    clear IH Hnd. induction registered as [|[s' v'] registered IH]; [done|].
    change (find_handler (handlers_of (existT s' v') ++ (registered ≫= handlers_of)) (mc_path mc) = None).
    rewrite find_handler_app. apply not_elem_of_cons in Hr as [Hs Hr].
    rewrite (handlers_disjoint s s' v' channel name mc) by done. by apply IH.
  - destruct r as [s' v']. rewrite (handlers_disjoint s s' v' channel name mc); [by apply IH| |done].
    intros ->. apply Hr. apply list_elem_of_fmap. by exists (existT s v).
Qed.

(** A method that only refuses: it sets the code and the details and raises. *)
Definition refuses_request {A B} (f : A → SE exn ServicerContext B) : Prop :=
  ∀ request context, f request context =
    (Raise (NotImplementedError (u "Method not implemented!")),
     mkContext (Some (u "StatusCode.UNIMPLEMENTED")) (Some (u "Method not implemented!"))).

Definition handler_refuses (h : RpcMethodHandler) : Prop :=
  match h_method h with Unary f => refuses_request f | Streaming f => refuses_request f end.

(** C15: the stubs and the servicers of every service agree: on a server where
    each service is registered at most once, in any order, every attribute of
    a service's stub names a path at which the server has the handler of that
    servicer for that method, of the same arity and with the message classes
    the stub serializes and parses, on the stub's own channel; every handler is named by
    the stub; and the generated base servicer refuses every call with
    UNIMPLEMENTED. *)
Theorem stubs_match_servicers registered s (v : Servicer s) channel :
  NoDup (projT1 <$> registered) → existT s v ∈ registered →
  (∀ name mc, (name, mc) ∈ stub_of s channel →
     mc_channel mc = channel
     ∧ ∃ g h, g ∈ add_servicer_to_server s v [] ∧ (name, h) ∈ gh_methods g
       ∧ find_handler (server_of registered) (mc_path mc) = Some h
       ∧ h_arity h = mc_arity mc ∧ h_request h = mc_request mc ∧ h_response h = mc_response mc)
  ∧ (∀ g, g ∈ add_servicer_to_server s v [] → fst <$> gh_methods g = fst <$> stub_of s channel)
  ∧ (∀ g name h, g ∈ add_servicer_to_server s (servicer_base s) [] → (name, h) ∈ gh_methods g →
     handler_refuses h).
Proof.
  intros Hnd Hin. split_and!.
  - intros name mc Hmc. rewrite (find_handler_server_of _ _ _ _ _ _ Hnd Hin Hmc). clear Hnd Hin.
    destruct s; cbn [stub_of] in Hmc;
      repeat (apply elem_of_cons in Hmc as [[= -> ->]|Hmc];
        [split; [done|]; do 2 eexists; split; [by left|]; split; [|by split_and!];
         cbn [gh_methods]; set_solver|]);
      by apply not_elem_of_nil in Hmc.
  - intros g Hg. by destruct s; apply list_elem_of_singleton in Hg as ->.
  - intros g name h Hg Hh.
    destruct s; apply list_elem_of_singleton in Hg as ->; cbn [gh_methods] in Hh;
      repeat (apply elem_of_cons in Hh as [[= -> ->]|Hh]; [by intros ? []|]);
      by apply not_elem_of_nil in Hh.
Qed.
End lemmas.
