(* ===== verification/Models.v ===== *)
(** * Models: models/__init__.py

    The dataclasses of the network: [User], the connected models [Peer] and
    [Orderer], [Channel], [ChaincodeSpec], and [EndorsementPolicy] with its
    roles.  [__post_init__] is a function that returns the initialized object
    or raises; opening a file and reading it is the parameter [read_file]. *)
From S2P Require Import Prelude PyText Wire Protobuf CommonProtos PeerProtos Constants TxData Errors Crypto Grpc.

(** [open(path, 'rb').read()]: the contents, or the [OSError] of the path. *)
Class FileSystem := { read_file : pystr → res bytes }.

(** ** User *)

Record User `{Cryptography} := mkUser {
  user_msp_id : pystr;
  user_name : option pystr;
  user_cert_path : option pystr;
  user_key_path : option pystr;
  user_cert : option bytes;
  user_key : option bytes;
  user_crypto_suite : Ecies;
  user_private_key : option PrivateKey;
}.
Arguments mkUser {_} _ _ _ _ _ _ _ _.
Arguments user_msp_id {_} _.
Arguments user_name {_} _.
Arguments user_cert_path {_} _.
Arguments user_key_path {_} _.
Arguments user_cert {_} _.
Arguments user_key {_} _.
Arguments user_crypto_suite {_} _.
Arguments user_private_key {_} _.

Section User.
Context `{Cryptography, FileSystem}.

(** The value given, or the contents of the file at the path given. *)
Definition given_or_read (value : option bytes) (path : option pystr) (missing : pystr) : res bytes :=
  if truthy value then mret (default [] value)
  else if negb (truthy path) then Raise (ValueError missing)
  else read_file (default [] path).

Definition User_post_init (self : User) : res User :=
  cert ← given_or_read (user_cert self) (user_cert_path self)
           (u "Must provide either cert or cert_path");
  key ← given_or_read (user_key self) (user_key_path self)
          (u "Must provide either key or key_path");
  private_key ← load_pem_private_key key;
  mret (mkUser (user_msp_id self) (user_name self) (user_cert_path self) (user_key_path self)
          (Some cert) (Some key) (user_crypto_suite self) (Some private_key)).

(** [dataclasses.replace(user, name=name)] *)
Definition User_replace_name (self : User) (name : option pystr) : res User :=
  User_post_init (mkUser (user_msp_id self) name (user_cert_path self) (user_key_path self)
    (user_cert self) (user_key self) (user_crypto_suite self) (user_private_key self)).
End User.

(** The default of [User.crypto_suite] is evaluated once, when the class is
    defined: the default suite of that moment. *)
Definition User_class_default (at_class_definition : CryptoSuite) : Ecies :=
  suite_default at_class_definition.

(** ** Connected models *)

Record ConnectedModel := mkConnectedModel {
  cm_endpoint : pystr;
  cm_ssl_target_name : option pystr;
  cm_tls_ca_cert_path : option pystr;
  cm_tls_ca_cert : option bytes;
  cm_client_cert_path : option pystr;
  cm_client_cert : option bytes;
  cm_client_key_path : option pystr;
  cm_client_key : option bytes;
}.

Section ConnectedModel.
Context `{FileSystem}.

(** [if not value and path: value = open(path).read()] *)
Definition read_if_missing (value : option bytes) (path : option pystr) : res (option bytes) :=
  if negb (truthy value) && truthy path
  then Some <$> read_file (default [] path)
  else mret value.

Definition grpc_channel (self : ConnectedModel) : GrpcChannel :=
  let opts :=
    if truthy (cm_ssl_target_name self)
    then [(u "grpc.ssl_target_name_override", default [] (cm_ssl_target_name self))] else [] in
  if truthy (cm_tls_ca_cert self) then
    let root := default [] (cm_tls_ca_cert self) in
    let creds :=
      if truthy (cm_client_cert self) && truthy (cm_client_key self)
      then mkCredentials root (cm_client_key self) (cm_client_cert self)
      else mkCredentials root None None in
    secure_channel (cm_endpoint self) creds opts
  else insecure_channel (cm_endpoint self) opts.

Definition ConnectedModel_post_init (self : ConnectedModel) : res (ConnectedModel * GrpcChannel) :=
  tls_ca_cert ← read_if_missing (cm_tls_ca_cert self) (cm_tls_ca_cert_path self);
  client_cert ← read_if_missing (cm_client_cert self) (cm_client_cert_path self);
  client_key ← read_if_missing (cm_client_key self) (cm_client_key_path self);
  let self := mkConnectedModel (cm_endpoint self) (cm_ssl_target_name self)
    (cm_tls_ca_cert_path self) tls_ca_cert (cm_client_cert_path self) client_cert
    (cm_client_key_path self) client_key in
  mret (self, grpc_channel self).
End ConnectedModel.

Record Peer := mkPeer {
  peer_model : ConnectedModel;
  peer_name : option pystr;
  peer_endorser : option Stub;
  peer_discovery : option Stub;
  peer_deliver : option Stub;
}.

Record Orderer := mkOrderer {
  orderer_model : ConnectedModel;
  orderer_name : option pystr;
  orderer_broadcaster : option Stub;
  orderer_deliver : option Stub;
}.

Section post_init.
Context `{FileSystem}.

Definition Peer_post_init (self : Peer) : res Peer :=
  '(model, channel) ← ConnectedModel_post_init (peer_model self);
  mret (mkPeer model (peer_name self)
    (Some (EndorserStub channel))
    (Some (DiscoveryStub channel))
    (Some (DeliverStub channel))).

Definition Orderer_post_init (self : Orderer) : res Orderer :=
  '(model, channel) ← ConnectedModel_post_init (orderer_model self);
  mret (mkOrderer model (orderer_name self)
    (Some (AtomicBroadcastStub channel))
    (Some (AtomicBroadcastStub channel))).

(** [Peer(...)] and [replace(peer, name=...)] *)
Definition new_Peer (model : ConnectedModel) (name : option pystr) : res Peer :=
  Peer_post_init (mkPeer model name None None None).
Definition Peer_replace_name (self : Peer) (name : option pystr) : res Peer :=
  new_Peer (peer_model self) name.
Definition new_Orderer (model : ConnectedModel) (name : option pystr) : res Orderer :=
  Orderer_post_init (mkOrderer model name None None).
Definition Orderer_replace_name (self : Orderer) (name : option pystr) : res Orderer :=
  new_Orderer (orderer_model self) name.
End post_init.

Definition peer_client_cert (p : Peer) : option bytes := cm_client_cert (peer_model p).
Definition orderer_client_cert (o : Orderer) : option bytes := cm_client_cert (orderer_model o).

(** ** Channel and ChaincodeSpec *)

Record Channel := mkChannel { channel_name : pystr }.

Record ChaincodeSpec := mkChaincodeSpec {
  cc_name : option pystr;
  cc_version : option pystr;
  cc_language : ChaincodeLanguage;
  cc_path : option pystr;
  cc_args : option (list pystr);
}.

(** ** Endorsement policies *)

Record EndorsementPolicyRole := mkRole { role_msp : pystr; role_role : pystr }.

#[global] Instance EndorsementPolicyRole_eq_dec : EqDecision EndorsementPolicyRole.
Proof. solve_decision. Defined.
#[global] Program Instance EndorsementPolicyRole_countable : Countable EndorsementPolicyRole :=
  inj_countable' (λ r, (role_msp r, role_role r)) (λ p, mkRole p.1 p.2) _.
Next Obligation. by intros []. Qed.

(** [EndorsementPolicyRole(msp, role)]: [__post_init__] lowers the role. *)
Definition new_EndorsementPolicyRole (msp role : pystr) : EndorsementPolicyRole :=
  mkRole msp (py_lower role).

Inductive EndorsementPolicy := mkEndorsementPolicy {
  ep_expr : PolicyExpression;
  ep_out_of : option Z;
  ep_roles : list EndorsementPolicyRole;
  ep_sub_policies : list EndorsementPolicy;
}.

Section EndorsementPolicy_ind.
Variable P : EndorsementPolicy → Prop.
Hypothesis Hpolicy : ∀ e o rs subs, Forall P subs → P (mkEndorsementPolicy e o rs subs).

Fixpoint EndorsementPolicy_strong_ind (p : EndorsementPolicy) : P p :=
  match p with
  | mkEndorsementPolicy e o rs subs =>
    Hpolicy e o rs subs ((fix go l : Forall P l :=
      match l with
      | [] => @List.Forall_nil _ P
      | x :: l => @List.Forall_cons _ P x l (EndorsementPolicy_strong_ind x) (go l)
      end) subs)
  end.
End EndorsementPolicy_ind.

(** The order in which the interpreter enumerates a set: some enumeration of
    its elements. *)
Class PySet := {
  set_iter : gset EndorsementPolicyRole → list EndorsementPolicyRole;
  set_iter_elements s : set_iter s ≡ₚ elements s;
}.

(** [f'{r.msp}.{r.role}'] *)
Definition role_key (r : EndorsementPolicyRole) : pystr := role_msp r ++ u "." ++ role_role r.

(** Comparison of [str]: by code point, a prefix first. *)
Fixpoint str_leb (s t : pystr) : bool :=
  match s, t with
  | [], _ => true
  | _ :: _, [] => false
  | a :: s, b :: t => if (a =? b)%N then str_leb s t else (a <? b)%N
  end.

(** [sorted(l, key=role_key)], stable. *)
Fixpoint insert_role (r : EndorsementPolicyRole) (l : list EndorsementPolicyRole) :
    list EndorsementPolicyRole :=
  match l with
  | [] => [r]
  | x :: l => if str_leb (role_key r) (role_key x) then r :: x :: l else x :: insert_role r l
  end.
Definition sorted_roles (l : list EndorsementPolicyRole) : list EndorsementPolicyRole :=
  foldr insert_role [] l.

Section policies.
Context `{PySet}.

Fixpoint all_roles (p : EndorsementPolicy) : list EndorsementPolicyRole :=
  match p with
  | mkEndorsementPolicy _ _ roles subs =>
    sorted_roles (set_iter
      (fold_left (λ s sub, s ∪ list_to_set (all_roles sub)) subs (list_to_set roles)))
  end.

(** [{role: idx for idx, role in enumerate(self.all_roles)}] *)
Definition role_map (p : EndorsementPolicy) : gmap EndorsementPolicyRole Z :=
  fold_left (λ m e, <[e.2 := e.1]> m)
    (zip (Z.of_nat <$> seq 0 (length (all_roles p))) (all_roles p)) ∅.
End policies.

(** ** Properties *)

Section initialization.
Context `{Cryptography, FileSystem}.

Lemma read_if_missing_stable value path v :
  read_if_missing value path = Ok v → read_if_missing v path = Ok v.
Proof.
  unfold read_if_missing. destruct (negb (truthy value) && truthy path) eqn:E.
  - destruct (read_file _) as [l| |] eqn:El; intros [= <-].
    destruct l; [|done]. apply andb_true_iff in E as [_ ->].
    cbn [truthy negb andb]. done.
  - intros [= ->]. by rewrite E.
Qed.

Lemma given_or_read_stable value path msg l :
  given_or_read value path msg = Ok l → given_or_read (Some l) path msg = Ok l.
Proof.
  unfold given_or_read. destruct (truthy value) eqn:E.
  - intros [= <-]. destruct value as [[|b l]|]; done.
  - destruct (truthy path) eqn:Ep; [|done]. cbn [negb]. intros Hl. destruct l; [exact Hl|done].
Qed.

Lemma ConnectedModel_post_init_stable m m' c :
  ConnectedModel_post_init m = Ok (m', c) →
  c = grpc_channel m' ∧ ConnectedModel_post_init m' = Ok (m', c).
Proof.
  unfold ConnectedModel_post_init.
  intros (v1 & H1 & (v2 & H2 & (v3 & H3 & [= <- <-])%outcome_bind_Ok)%outcome_bind_Ok)%outcome_bind_Ok.
  split; [done|]. cbn. apply read_if_missing_stable in H1, H2, H3. rewrite H1. step_outcome.
  rewrite H2. step_outcome. by rewrite H3.
Qed.

(** naming an initialized object changes its name only: [replace] runs
    [__post_init__] again, which on an object it has already initialized
    succeeds and gives the same certificates, keys, private key and
    channel. *)
Theorem reinitialization_stable model name p o user user' name' :
  (new_Peer model name = Ok p →
     Peer_replace_name p name'
     = Ok (mkPeer (peer_model p) name' (peer_endorser p) (peer_discovery p) (peer_deliver p)))
  ∧ (new_Orderer model name = Ok o →
     Orderer_replace_name o name'
     = Ok (mkOrderer (orderer_model o) name' (orderer_broadcaster o) (orderer_deliver o)))
  ∧ (User_post_init user = Ok user' →
     User_replace_name user' name'
     = Ok (mkUser (user_msp_id user') name' (user_cert_path user') (user_key_path user')
             (user_cert user') (user_key user') (user_crypto_suite user') (user_private_key user'))).
Proof.
  split_and!.
  - intros ([m c] & [-> Hm]%ConnectedModel_post_init_stable & [= <-])%outcome_bind_Ok.
    unfold Peer_replace_name, new_Peer, Peer_post_init. cbn. by rewrite Hm.
  - intros ([m c] & [-> Hm]%ConnectedModel_post_init_stable & [= <-])%outcome_bind_Ok.
    unfold Orderer_replace_name, new_Orderer, Orderer_post_init. cbn. by rewrite Hm.
  - intros (cert & Hc & (key & Hk & (pk & Hpk & [= <-])%outcome_bind_Ok)%outcome_bind_Ok)%outcome_bind_Ok.
    unfold User_replace_name, User_post_init.
    cbn [user_cert user_cert_path user_key user_key_path].
    rewrite (given_or_read_stable _ _ _ _ Hc). step_outcome.
    rewrite (given_or_read_stable _ _ _ _ Hk). step_outcome. by rewrite Hpk.
Qed.

(** C38: a connection is secure whenever a CA certificate is known: given, or
    in the file at its path.  It then trusts that certificate and presents
    the client's key and certificate both or not at all; it is insecure only
    without a CA certificate. *)
Theorem connection_secure m m' c :
  ConnectedModel_post_init m = Ok (m', c) →
  let ca := if truthy (cm_tls_ca_cert m) then cm_tls_ca_cert m
            else if truthy (cm_tls_ca_cert_path m)
                 then match read_file (default [] (cm_tls_ca_cert_path m)) with
                      | Ok contents => Some contents
                      | _ => None
                      end
            else cm_tls_ca_cert m in
  match c with
  | secure_channel endpoint creds _ =>
    endpoint = cm_endpoint m ∧ truthy ca = true ∧ ca = Some (cred_root_certificates creds)
    ∧ (is_Some (cred_private_key creds) ↔ is_Some (cred_certificate_chain creds))
    ∧ (is_Some (cred_private_key creds) → truthy (cm_client_cert m') = true
         ∧ truthy (cm_client_key m') = true)
  | insecure_channel endpoint _ => endpoint = cm_endpoint m ∧ truthy ca = false
  end.
Proof.
  intros (v1 & H1 & (v2 & H2 & (v3 & H3 & [= <- <-])%outcome_bind_Ok)%outcome_bind_Ok)%outcome_bind_Ok ca.
  assert (v1 = ca) as ->.
  { revert H1. unfold read_if_missing, ca. destruct (truthy (cm_tls_ca_cert m)); cbn; [by intros [= ->]|].
    destruct (truthy (cm_tls_ca_cert_path m)); [|by intros [= ->]].
    destruct (read_file _); cbn; [by intros [= <-]|done|done]. }
  unfold grpc_channel. cbn [cm_tls_ca_cert cm_client_cert cm_client_key cm_endpoint].
  destruct (truthy ca) eqn:Eca; [|done].
  destruct ca as [l|]; [|done].
  destruct (truthy v2) eqn:E2, (truthy v3) eqn:E3; cbn; split_and!; try done;
    try (split; by intros [? [=]]); try (by intros [? [=]]).
  destruct v2 as [?|], v3 as [?|]; try done.
Qed.
End initialization.
