(* ===== verification/Transactions.v ===== *)
(** * Transactions: models/transaction.py, the operations that can raise

    The dataclasses are in TxData.v; here are [EndorsedTX.response_payload]
    and [FilteredTX]. *)
From S2P Require Import Prelude PyText Wire Protobuf Descriptors CommonProtos PeerProtos Constants TxData Errors.

Definition response_payload (tx : EndorsedTX) : res bytes :=
  match success_responses tx with
  | resp :: _ => mret (Response_payload (response_of resp))
  | [] => Raise (ValueError (u "Could not find a response payload in any of the peer responses"))
  end.

(** [TransactionType(n)] *)
Definition new_TransactionType (n : Z) : res TransactionType :=
  or_raise (ValueError (str_of_Z n ++ u " is not a valid TransactionType")) (TransactionType_of n).

Module FilteredTX.
Record t := mk {
  tx_id : pystr;
  type : TransactionType;
  tx_validation_code : Z;
  actions : FilteredTransactionActions;
}.

Definition from_proto (filtered_tx : FilteredTransaction) : res t :=
  ty ← new_TransactionType (FilteredTransaction_type filtered_tx);
  mret (mk (FilteredTransaction_txid filtered_tx) ty
          (FilteredTransaction_tx_validation_code filtered_tx)
          (default FilteredTransactionActions_default
             (FilteredTransaction_transaction_actions filtered_tx))).
End FilteredTX.

(** the payload of an endorsed transaction is that of the first peer that
    answered 200, and it is found as soon as one did; with none there is a
    [ValueError]. *)
Theorem response_payload_first tx :
  (∀ l r k, et_peer_responses tx = l ++ r :: k →
     response_status r = 200%Z → Forall (λ r, response_status r ≠ 200%Z) l →
     response_payload tx = Ok (Response_payload (response_of r)))
  ∧ (Forall (λ r, response_status r ≠ 200%Z) (et_peer_responses tx) →
     ∃ msg, response_payload tx = Raise (ValueError msg)).
Proof.
  unfold response_payload, success_responses. split.
  - intros l r k -> Hr Hl. induction Hl as [|x l Hx _ IH]; cbn.
    + by rewrite (proj2 (Z.eqb_eq _ _) Hr).
    + by rewrite (proj2 (Z.eqb_neq _ _) Hx).
  - induction 1 as [|x l Hx _ IH]; cbn; [by eexists|].
    by rewrite (proj2 (Z.eqb_neq _ _) Hx).
Qed.
