(* ===== verification/Decoded.v ===== *)
(** * Decoded: models/_decoded.py

    A block with its nested messages decoded.  The classes keep their names
    without the leading underscore; every [FromString] may raise
    [DecodeError]. *)
From S2P Require Import Prelude PyText Wire Protobuf Descriptors CommonProtos PeerProtos Constants TxData Errors Transactions.

Record DecodedSignatureHeader := mkDecodedSignatureHeader {
  dsh_creator : SerializedIdentity;
  dsh_nonce : bytes;
}.

Record DecodedConfigUpdateSignature := mkDecodedConfigUpdateSignature {
  dcus_signature_header : DecodedSignatureHeader;
  dcus_signature : bytes;
}.

Record DecodedConfigUpdateEnvelope := mkDecodedConfigUpdateEnvelope {
  dcue_config_update : ConfigUpdate;
  dcue_signatures : list DecodedConfigUpdateSignature;
}.

Record DecodedHeader := mkDecodedHeader {
  dh_channel_header : ChannelHeader;
  dh_signature_header : DecodedSignatureHeader;
}.

Record DecodedConfigLastUpdate := mkDecodedConfigLastUpdate {
  dclu_header : DecodedHeader;
  dclu_data : DecodedConfigUpdateEnvelope;
}.

Record DecodedConfigLastUpdateEnvelope := mkDecodedConfigLastUpdateEnvelope {
  dclue_payload : DecodedConfigLastUpdate;
  dclue_signature : bytes;
}.

Record DecodedConfig := mkDecodedConfig {
  dc_config : Config;
  dc_last_update : DecodedConfigLastUpdateEnvelope;
}.

Record DecodedEndoresement := mkDecodedEndoresement {
  de_endorser : SerializedIdentity;
  de_signature : bytes;
}.

Record DecodedChaincodeEndorsedAction := mkDecodedChaincodeEndorsedAction {
  dcea_proposal_response_payload : ProposalResponsePayload;
  dcea_endorsements : list DecodedEndoresement;
}.

Record DecodedChaincodeActionPayload := mkDecodedChaincodeActionPayload {
  dcap_action : DecodedChaincodeEndorsedAction;
  dcap_chaincode_proposal_payload : ChaincodeProposalPayload;
}.

Record DecodedTransactionAction := mkDecodedTransactionAction {
  dta_header : DecodedSignatureHeader;
  dta_payload : DecodedChaincodeActionPayload;
}.

Record DecodedTransactionBody := mkDecodedTransactionBody {
  dtb_actions : list DecodedTransactionAction;
}.

(** The union [_DecodedPayloadData]. *)
Inductive DecodedPayloadData :=
  | PayloadConfig (c : DecodedConfig)
  | PayloadConfigUpdate (c : DecodedConfigUpdateEnvelope)
  | PayloadTransaction (t : DecodedTransactionBody)
  | PayloadBytes (b : bytes).

Record DecodedPayload := mkDecodedPayload {
  dp_header : DecodedHeader;
  dp_data : DecodedPayloadData;
}.

Record DecodedTX := mkDecodedTX {
  dtx_signature : bytes;
  dtx_payload : DecodedPayload;
}.

Record DecodedMetadataSignature := mkDecodedMetadataSignature {
  dms_signatures : bytes;
  dms_signature_header : DecodedSignatureHeader;
}.

Record DecodedLastConfigMetadata := mkDecodedLastConfigMetadata {
  dlcm_signatures : list DecodedMetadataSignature;
  dlcm_value : LastConfig;
}.

Record DecodedMetadata := mkDecodedMetadata {
  dm_signatures : list DecodedMetadataSignature;
  dm_value : bytes;
}.

Record DecodedBlockMetadata := mkDecodedBlockMetadata {
  dbm_metadata : DecodedMetadata * DecodedLastConfigMetadata * list N;
}.

Record DecodedBlockData := mkDecodedBlockData { dbd_data : list DecodedTX }.

Record DecodedBlock := mkDecodedBlock {
  db_header : BlockHeader;
  db_data : DecodedBlockData;
  db_metadata : DecodedBlockMetadata;
}.

(** [RawBlock] of models/block.py, the argument of [DecodedBlock.decode]. *)
Record RawBlock := mkRawBlock {
  rb_header : BlockHeader;
  rb_data : BlockData;
  rb_metadata : BlockMetadata;
}.

(** [DecodedTX.tx_id] and [DecodedBlock.transactions] *)
Definition DecodedTX_tx_id (tx : DecodedTX) : pystr :=
  ChannelHeader_tx_id (dh_channel_header (dp_header (dtx_payload tx))).
Definition DecodedBlock_transactions (b : DecodedBlock) : list DecodedTX := dbd_data (db_data b).

(** [SIGNATURES], [LAST_CONFIG] and [TRANSACTIONS_FILTER] of common_pb2.py *)
Definition SIGNATURES : nat := 0.
Definition LAST_CONFIG : nat := 1.
Definition TRANSACTIONS_FILTER : nat := 2.

Section decode.
Context `{Protobuf}.

(** [X.FromString(data)] *)
Definition parse (X : Type) `{Message X} (data : bytes) : res X :=
  or_raise DecodeError (FromString X data).

Definition SignatureHeader_decode (header_bytes : bytes) : res DecodedSignatureHeader :=
  signature_header ← parse SignatureHeader header_bytes;
  creator ← parse SerializedIdentity (SignatureHeader_creator signature_header);
  mret (mkDecodedSignatureHeader creator (SignatureHeader_nonce signature_header)).

Definition ConfigUpdateEnvelope_decode (data : bytes) : res DecodedConfigUpdateEnvelope :=
  envelope ← parse ConfigUpdateEnvelope data;
  config_update ← parse ConfigUpdate (ConfigUpdateEnvelope_config_update envelope);
  signatures ← mapM (λ s,
    signature_header ← SignatureHeader_decode (ConfigSignature_signature_header s);
    mret (mkDecodedConfigUpdateSignature signature_header (ConfigSignature_signature s)))
    (ConfigUpdateEnvelope_signatures envelope);
  mret (mkDecodedConfigUpdateEnvelope config_update signatures).

Definition Header_decode (header : Header) : res DecodedHeader :=
  channel_header ← parse ChannelHeader (Header_channel_header header);
  signature_header ← SignatureHeader_decode (Header_signature_header header);
  mret (mkDecodedHeader channel_header signature_header).

Definition header_of (p : Payload) : Header := default Header_default (Payload_header p).

Definition Config_decode (config_bytes : bytes) : res DecodedConfig :=
  config_env ← parse ConfigEnvelope config_bytes;
  let last_update := default Envelope_default (ConfigEnvelope_last_update config_env) in
  last_update_payload ← parse Payload (Envelope_payload last_update);
  header ← Header_decode (header_of last_update_payload);
  data ← ConfigUpdateEnvelope_decode (Payload_data last_update_payload);
  mret (mkDecodedConfig (default Config_default (ConfigEnvelope_config config_env))
    (mkDecodedConfigLastUpdateEnvelope (mkDecodedConfigLastUpdate header data)
       (Envelope_signature last_update))).

Definition Endorsement_decode (e : Endorsement) : res DecodedEndoresement :=
  endorser ← parse SerializedIdentity (Endorsement_endorser e);
  mret (mkDecodedEndoresement endorser (Endorsement_signature e)).

Definition TransactionAction_decode (action : TransactionAction) : res DecodedTransactionAction :=
  payload ← parse ChaincodeActionPayload (TransactionAction_payload action);
  let endorsed := default ChaincodeEndorsedAction_default (ChaincodeActionPayload_action payload) in
  header ← SignatureHeader_decode (TransactionAction_header action);
  proposal_response_payload ← parse ProposalResponsePayload
    (ChaincodeEndorsedAction_proposal_response_payload endorsed);
  endorsements ← mapM Endorsement_decode (ChaincodeEndorsedAction_endorsements endorsed);
  chaincode_proposal_payload ← parse ChaincodeProposalPayload
    (ChaincodeActionPayload_chaincode_proposal_payload payload);
  mret (mkDecodedTransactionAction header (mkDecodedChaincodeActionPayload
    (mkDecodedChaincodeEndorsedAction proposal_response_payload endorsements)
    chaincode_proposal_payload)).

Definition TransactionBody_decode (tx_bytes : bytes) : res DecodedTransactionBody :=
  transaction ← parse Transaction tx_bytes;
  actions ← mapM TransactionAction_decode (Transaction_actions transaction);
  mret (mkDecodedTransactionBody actions).

Definition PayloadData_decode (ty : TransactionType) (data : bytes) : res DecodedPayloadData :=
  match ty with
  | TxConfig => PayloadConfig <$> Config_decode data
  | TxConfigUpdate => PayloadConfigUpdate <$> ConfigUpdateEnvelope_decode data
  | TxEndorserTransaction => PayloadTransaction <$> TransactionBody_decode data
  | _ => mret (PayloadBytes data)
  end.

Definition DecodedTX_decode (envelope_bytes : bytes) : res DecodedTX :=
  envelope ← parse Envelope envelope_bytes;
  payload ← parse Payload (Envelope_payload envelope);
  header ← Header_decode (header_of payload);
  payload_type ← new_TransactionType (ChannelHeader_type (dh_channel_header header));
  payload_data ← PayloadData_decode payload_type (Payload_data payload);
  mret (mkDecodedTX (Envelope_signature envelope) (mkDecodedPayload header payload_data)).

(** [metadata_list[i]] *)
Definition metadata_at (metadata_list : list bytes) (i : nat) : res bytes :=
  or_raise (IndexError (u "list index out of range")) (metadata_list !! i).

Definition metadata_signatures_decode (metadata : Metadata) : res (list DecodedMetadataSignature) :=
  mapM (λ s,
    signature_header ← SignatureHeader_decode (MetadataSignature_signature_header s);
    mret (mkDecodedMetadataSignature (MetadataSignature_signature s) signature_header))
    (Metadata_signatures metadata).

Definition block_metadata_decode (metadata_list : list bytes) : res DecodedBlockMetadata :=
  last_config_bytes ← metadata_at metadata_list LAST_CONFIG;
  last_config_meta ← parse Metadata last_config_bytes;
  last_config ← parse LastConfig (Metadata_value last_config_meta);
  sig_bytes ← metadata_at metadata_list SIGNATURES;
  sig_metadata ← parse Metadata sig_bytes;
  sigs ← metadata_signatures_decode sig_metadata;
  last_config_sigs ← metadata_signatures_decode last_config_meta;
  filter_bytes ← metadata_at metadata_list TRANSACTIONS_FILTER;
  mret (mkDecodedBlockMetadata
    (mkDecodedMetadata sigs (Metadata_value sig_metadata),
     mkDecodedLastConfigMetadata last_config_sigs last_config,
     Byte.to_N <$> filter_bytes)).

Definition DecodedBlock_decode (raw_block : RawBlock) : res DecodedBlock :=
  data ← mapM DecodedTX_decode (BlockData_data (rb_data raw_block));
  metadata ← block_metadata_decode (BlockMetadata_metadata (rb_metadata raw_block));
  mret (mkDecodedBlock (rb_header raw_block) (mkDecodedBlockData data) metadata).
End decode.
