(* ===== verification/Block.v ===== *)
(** * Block: models/block.py *)
From S2P Require Import Prelude PyText Wire Protobuf Descriptors CommonProtos PeerProtos Constants TxData Errors Transactions Decoded.

Definition RawBlock_from_proto (block : Block) : RawBlock :=
  mkRawBlock (default BlockHeader_default (Block_header block))
    (default BlockData_default (Block_data block))
    (default BlockMetadata_default (Block_metadata block)).

(** The transactions of a raw block are bytes. *)
Definition RawBlock_transactions (b : RawBlock) : list bytes := BlockData_data (rb_data b).

Definition RawBlock_decode `{Protobuf} (b : RawBlock) : res DecodedBlock := DecodedBlock_decode b.

Definition RawBlock_as_proto (b : RawBlock) : Block :=
  mkBlock (Some (rb_header b)) (Some (rb_data b)) (Some (rb_metadata b)).

Record FilteredBlock := mkFilteredBlock {
  fb_channel_id : pystr;
  fb_number : Z;
  fb_transactions : list FilteredTX.t;
}.

Definition FilteredBlock_from_proto (filtered_block : FilteredBlockProto) : res FilteredBlock :=
  transactions ← mapM FilteredTX.from_proto (FilteredBlockProto_filtered_transactions filtered_block);
  mret (mkFilteredBlock (FilteredBlockProto_channel_id filtered_block)
    (FilteredBlockProto_number filtered_block) transactions).

(** ** Lemmas *)

Lemma RawBlock_from_as_proto b : RawBlock_from_proto (RawBlock_as_proto b) = b.
Proof. by destruct b. Qed.

Lemma FilteredTX_from_proto_outcome tx :
  if TransactionType_of (FilteredTransaction_type tx)
  then ∃ t, FilteredTX.from_proto tx = Ok t ∧ FilteredTX.tx_id t = FilteredTransaction_txid tx
  else ∃ msg, FilteredTX.from_proto tx = Raise (ValueError msg).
Proof.
  unfold FilteredTX.from_proto, new_TransactionType.
  destruct (TransactionType_of _); cbn; eauto.
Qed.
