(* ===== verification/Runtime.v ===== *)
(** * Runtime: the world a coroutine of the client runs in

    [M] threads the clock and the trace of what the client did: the draws of
    randomness, the signatures, the calls it sent.  [Network] answers the
    calls and is a parameter of every theorem: an answer may depend on
    everything that happened before it, may be late, may be a gRPC failure, may
    never come.  [wait_for] and [gather] are asyncio's, [handle_conn_errors]
    is errors.py's.  Local computation takes no time. *)
From S2P Require Import Prelude PyText Sha256 Sha3 Wire Protobuf CommonProtos PeerProtos Constants TxData Errors Crypto Grpc Models.

(** ** The world *)

Inductive Action :=
  | ARandom (size : nat)
  | ASign (payload : bytes)
  | AProcessProposal (peer : Peer) (proposal : SignedProposal)
  | ABroadcast (orderer : Orderer) (envelope : Envelope)
  | ADeliver (peer : Peer) (envelope : Envelope)
  | ADeliverFiltered (peer : Peer) (envelope : Envelope)
  | AOrdererDeliver (orderer : Orderer) (envelope : Envelope).

(** Nanoseconds since the epoch, and the actions, oldest first. *)
Record World := mkWorld { w_clock : N; w_trace : list Action }.

Abbreviation M := (SE exn World).

Definition log (a : Action) (w : World) : World := mkWorld (w_clock w) (w_trace w ++ [a]).
Definition advance (d : N) (w : World) : World := mkWorld (w_clock w + d) (w_trace w).
Definition set_clock (t : N) (w : World) : World := mkWorld t (w_trace w).

Definition act (a : Action) : M unit := modify (log a).
Definition sleep (d : N) : M unit := modify (advance d).
Definition hang {A} : M A := lift Hang.

(** Every read of the system's randomness has its own number. *)
Definition draw (a : Action) : M nat := λ w, (Ok (length (w_trace w)), log a w).

(** [Timestamp().GetCurrentTime()] *)
Definition nanos_per_second : N := 1000000000.
Definition get_current_time : M Timestamp := λ w,
  (Ok (mkTimestamp (Z.of_N (w_clock w / nanos_per_second))
         (Z.of_N (w_clock w mod nanos_per_second))), w).

(** ** The network *)

Inductive rpc (A : Type) :=
  | Reply (delay : N) (a : A)
  | Fail (delay : N) (code details : pystr)
  | NoReply.
Arguments Reply {A} delay a.
Arguments Fail {A} delay code details.
Arguments NoReply {A}.

Inductive stream_end :=
  | EndOfStream (delay : N)
  | Broken (delay : N) (code details : pystr)
  | Silent.

(** The messages of a response stream, each with its delay, and its end. *)
Record stream (A : Type) := mkStream {
  st_items : list (N * A);
  st_end : stream_end;
}.
Arguments mkStream {A} _ _.
Arguments st_items {A} _.
Arguments st_end {A} _.

Class Network := {
  ProcessProposal : World → Peer → SignedProposal → rpc ProposalResponse;
  Broadcast : World → Orderer → Envelope → stream BroadcastResponse;
  Deliver : World → Peer → Envelope → stream DeliverResponse;
  DeliverFiltered : World → Peer → Envelope → stream DeliverResponse;
  OrdererDeliver : World → Orderer → Envelope → stream OrdererDeliverResponse;
}.

(** Calling a streaming method sends the request and returns the stream. *)
Definition call {A} (a : Action) (answer : World → A) : M A := λ w,
  (Ok (answer (log a w)), log a w).

(** [async for x in stream: body], where [body] says [Some r] to leave the
    loop with [r]. *)
Fixpoint for_items {A R} (items : list (N * A)) (en : stream_end) (body : A → M (option R)) :
    M (option R) :=
  match items with
  | [] =>
    match en with
    | EndOfStream d => sleep d;; mret None
    | Broken d code details => sleep d;; throw (RpcError code details)
    | Silent => hang
    end
  | (d, a) :: items =>
    sleep d;;
    r ← body a;
    match r with Some r => mret (Some r) | None => for_items items en body end
  end.
Definition for_each {A R} (s : stream A) (body : A → M (option R)) : M (option R) :=
  for_items (st_items s) (st_end s) body.

(** [with handle_conn_errors(): m] *)
Definition handle_conn_errors {A} (m : M A) : M A :=
  catch m (λ e, Some (throw (convert_conn_error e))).

(** ** asyncio *)

(** [asyncio.wait_for(m, timeout)]: [m] must finish before the deadline; a
    timeout that is not positive cancels it before it starts.  The only
    coroutine the client passes acts before its first wait, so the actions of
    a cancelled one have all been done. *)
Definition wait_for {A} (timeout : Z) (m : M A) : M A := λ w,
  if (timeout <=? 0)%Z then (Raise TimeoutError, w)
  else
    let deadline := (w_clock w + Z.to_N timeout * nanos_per_second)%N in
    match m w with
    | (Hang, w') => (Raise TimeoutError, set_clock deadline w')
    | (r, w') =>
      if (w_clock w' <? deadline)%N then (r, w')
      else (Raise TimeoutError, set_clock deadline w')
    end.

(** A task runs to its first wait when it is started, and then finishes after
    a delay or never. *)
Inductive task_result (A : Type) :=
  | Finishes (delay : N) (r : res A)
  | Never.
Arguments Finishes {A} delay r.
Arguments Never {A}.

Definition Task (A : Type) : Type := World → task_result A * World.

Fixpoint start_all {A} (ts : list (Task A)) (w : World) : list (task_result A) * World :=
  match ts with
  | [] => ([], w)
  | t :: ts =>
    let '(r, w) := t w in
    let '(rs, w) := start_all ts w in
    (r :: rs, w)
  end.

(** The failure that comes first; of two at once, that of the first task. *)
Fixpoint first_failure {A} (rs : list (task_result A)) : option (N * exn) :=
  match rs with
  | [] => None
  | Finishes d (Raise e) :: rs =>
    match first_failure rs with
    | Some (d', e') => if (d' <? d)%N then Some (d', e') else Some (d, e)
    | None => Some (d, e)
    end
  | _ :: rs => first_failure rs
  end.

(** All values with the time the last one takes. *)
Fixpoint all_values {A} (rs : list (task_result A)) : option (N * list A) :=
  match rs with
  | [] => Some (0%N, [])
  | Finishes d (Ok a) :: rs =>
    match all_values rs with
    | Some (d', l) => Some (N.max d d', a :: l)
    | None => None
    end
  | _ :: _ => None
  end.

(** [asyncio.gather]: start every task, then raise the first failure, or
    return all values in the order of the tasks. *)
Definition gather {A} (ts : list (Task A)) : M (list A) := λ w,
  let '(rs, w) := start_all ts w in
  match first_failure rs with
  | Some (d, e) => (Raise e, advance d w)
  | None =>
    match all_values rs with
    | Some (d, l) => (Ok l, advance d w)
    | None => (Hang, w)
    end
  end.

(** ** Reading a run *)

(** The actions a run added. *)
Definition extends (w w' : World) (new : list Action) : Prop := w_trace w' = w_trace w ++ new.

Lemma extends_refl w : extends w w [].
Proof. unfold extends. by rewrite app_nil_r. Qed.
Lemma extends_trans w1 w2 w3 l k : extends w1 w2 l → extends w2 w3 k → extends w1 w3 (l ++ k).
Proof. unfold extends. intros H1 H2. by rewrite H2, H1, (assoc_L (++)). Qed.
Lemma extends_log a w : extends w (log a w) [a].
Proof. done. Qed.
Lemma extends_advance d w : extends w (advance d w) [].
Proof. unfold extends. cbn. by rewrite app_nil_r. Qed.

(** Every run of [m], whatever it ends with, is a step of [R]. *)
Definition steps {S A} (R : S → S → Prop) (m : SE exn S A) : Prop :=
  ∀ w r w', m w = (r, w') → R w w'.

(** The world went on by actions that satisfy [P]; its clock did not go back. *)
Definition adds (P : Action → Prop) (w w' : World) : Prop :=
  ∃ new, extends w w' new ∧ Forall P new.
Definition later (w w' : World) : Prop := (w_clock w <= w_clock w')%N.

#[export] Instance adds_preorder P : PreOrder (adds P).
Proof.
  split.
  - intros w. exists []. split; [apply extends_refl|done].
  - intros w1 w2 w3 (l1 & H1 & F1) (l2 & H2 & F2). exists (l1 ++ l2).
    split; [by eapply extends_trans|by apply Forall_app].
Qed.
#[export] Instance later_preorder : PreOrder later.
Proof. split; unfold later; [intros w; lia|intros w1 w2 w3; lia]. Qed.

Lemma adds_one (P : Action → Prop) a w : P a → adds P w (log a w).
Proof. intros Ha. exists [a]. split; [apply extends_log|by repeat constructor]. Qed.
Lemma adds_advance P d w : adds P w (advance d w).
Proof. exists []. split; [apply extends_advance|done]. Qed.
Lemma later_log a w : later w (log a w).
Proof. unfold later. cbn. lia. Qed.
Lemma later_advance d w : later w (advance d w).
Proof. unfold later. cbn. lia. Qed.

(** [m] adds only actions that satisfy [P]. *)
Abbreviation only P m := (steps (adds P) m).
(** Running [m] takes no negative time. *)
Abbreviation forward m := (steps later m).

(** [m] raises only errors that satisfy [Q]. *)
Definition raises_only {A} (Q : exn → Prop) (m : M A) : Prop :=
  ∀ w e w', m w = (Raise e, w') → Q e.

(** What holds of the parts of a computation holds of the whole, whatever the
    state it threads. *)
Section state_steps.
Context {S : Type} (R : S → S → Prop) `{!PreOrder R}.

Lemma steps_lift {A} (o : res A) : steps R (lift o).
Proof. by intros w r w' [= _ <-]. Qed.
Lemma steps_ret {A} (a : A) : steps R (mret a).
Proof. apply (steps_lift (Ok a)). Qed.
Lemma steps_throw {A} e : steps R (throw e : SE exn S A).
Proof. apply (steps_lift (Raise e)). Qed.

Lemma steps_bind {A B} (m : SE exn S A) (k : A → SE exn S B) :
  steps R m → (∀ a, steps R (k a)) → steps R (m ≫= k).
Proof.
  intros Hm Hk w r w'. unfold mbind, SE_bind.
  destruct (m w) as [[a|e|] w1] eqn:E; pose proof (Hm _ _ _ E); [|by intros [= _ <-]..].
  intros Hr. etrans; [done|]. by eapply Hk.
Qed.

Lemma steps_fmap {A B} (f : A → B) (m : SE exn S A) : steps R m → steps R (f <$> m).
Proof.
  intros Hm w r w'. unfold fmap, SE_fmap.
  destruct (m w) as [[a|e|] w1] eqn:E; intros [= _ <-]; by eapply Hm.
Qed.

Lemma steps_catch {A} (m : SE exn S A) h :
  steps R m → (∀ e k, h e = Some k → steps R k) → steps R (catch m h).
Proof.
  intros Hm Hh w r w'. unfold catch.
  destruct (m w) as [[a|e|] w1] eqn:E; pose proof (Hm _ _ _ E); [by intros [= _ <-]| |by intros [= _ <-]].
  destruct (h e) as [k|] eqn:Ek; [|by intros [= _ <-]]. intros Hr. etrans; [done|]. by eapply Hh.
Qed.

End state_steps.

Section steps.
Context (R : World → World → Prop) `{!PreOrder R}.

Lemma steps_raise_if c e : steps R (raise_if c e : M unit).
Proof. destruct c; [apply (steps_throw R)|apply (steps_ret R)]. Qed.
Lemma steps_time : steps R get_current_time.
Proof. by intros w r w' [= _ <-]. Qed.
Lemma steps_sleep d : (∀ w, R w (advance d w)) → steps R (sleep d).
Proof. intros Hd w r w' [= _ <-]. apply Hd. Qed.
Lemma steps_act a : (∀ w, R w (log a w)) → steps R (act a).
Proof. intros Ha w r w' [= _ <-]. apply Ha. Qed.
Lemma steps_draw a : (∀ w, R w (log a w)) → steps R (draw a).
Proof. intros Ha w r w' [= _ <-]. apply Ha. Qed.
Lemma steps_call {A} a (k : World → A) : (∀ w, R w (log a w)) → steps R (call a k).
Proof. intros Ha w r w' [= _ <-]. apply Ha. Qed.

Lemma steps_handle {A} (m : M A) : steps R m → steps R (handle_conn_errors m).
Proof. intros Hm. apply (steps_catch R); [done|]. intros e k [= <-]. apply (steps_throw R). Qed.

Lemma steps_for_items {A B} items en (body : A → M (option B)) :
  (∀ d w, R w (advance d w)) → (∀ a, steps R (body a)) → steps R (for_items items en body).
Proof.
  intros Hd Hb. induction items as [|[d a] items IH]; cbn.
  - destruct en; [|apply (steps_bind R); [by apply steps_sleep|intros; apply (steps_throw R)]|apply (steps_lift R)].
    apply (steps_bind R); [by apply steps_sleep|intros; apply (steps_ret R)].
  - apply (steps_bind R); [by apply steps_sleep|intros []]. apply (steps_bind R); [apply Hb|].
    intros [r|]; [apply (steps_ret R)|apply IH].
Qed.

Lemma steps_wait_for {A} t (m : M A) :
  (∀ d w w', (w_clock w <= d)%N → R w w' → R w (set_clock d w')) → steps R m → steps R (wait_for t m).
Proof.
  intros Hset Hm w r w'. unfold wait_for. case_match; [by intros [= _ <-]|].
  set (deadline := (w_clock w + _)%N). assert (w_clock w <= deadline)%N by (unfold deadline; lia).
  destruct (m w) as [[a|e|] w1] eqn:E; pose proof (Hm _ _ _ E);
    repeat case_match; intros [= _ <-]; auto.
Qed.
End steps.

(** The same of [only], with its relation filled in. *)
Abbreviation only_ret := (steps_ret (adds _)).
Abbreviation only_throw := (steps_throw (adds _)).
Abbreviation only_lift := (steps_lift (adds _)).
Abbreviation only_raise_if := (steps_raise_if (adds _)).
Abbreviation only_time := (steps_time (adds _)).
Abbreviation only_bind := (steps_bind (adds _)).
Abbreviation only_fmap := (steps_fmap (adds _)).
Abbreviation only_catch := (steps_catch (adds _)).
Abbreviation only_handle := (steps_handle (adds _)).

Section only.
Context (P : Action → Prop).

Lemma only_sleep d : only P (sleep d).
Proof. apply steps_sleep, adds_advance. Qed.
Lemma only_act a : P a → only P (act a).
Proof. intros Ha. apply steps_act. intros w. by apply adds_one. Qed.
Lemma only_draw a : P a → only P (draw a).
Proof. intros Ha. apply steps_draw. intros w. by apply adds_one. Qed.
Lemma only_call {A} a (k : World → A) : P a → only P (call a k).
Proof. intros Ha. apply steps_call. intros w. by apply adds_one. Qed.
Lemma only_for_items {A B} items en (body : A → M (option B)) :
  (∀ a, only P (body a)) → only P (for_items items en body).
Proof. intros Hb. apply (steps_for_items (adds P)); [intros; apply adds_advance|done]. Qed.
Lemma only_wait_for {A} t (m : M A) : only P m → only P (wait_for t m).
Proof.
  intros Hm. apply (steps_wait_for (adds P)); [|done]. intros d w w' _ (new & He & Hn). by exists new.
Qed.

Lemma forward_sleep d : forward (sleep d).
Proof. apply steps_sleep, later_advance. Qed.
Lemma forward_call {A} a (k : World → A) : forward (call a k).
Proof. apply steps_call, later_log. Qed.
Lemma forward_draw a : forward (draw a).
Proof. apply steps_draw, later_log. Qed.
Lemma forward_for_items {A B} items en (body : A → M (option B)) :
  (∀ a, forward (body a)) → forward (for_items items en body).
Proof. intros Hb. apply (steps_for_items later); [intros; apply later_advance|done]. Qed.
Lemma forward_wait_for {A} t (m : M A) : forward m → forward (wait_for t m).
Proof. intros Hm. apply (steps_wait_for later); [by intros d w w' Hd _|done]. Qed.
End only.

Lemma only_weaken {A} (P Q : Action → Prop) (m : M A) : (∀ a, P a → Q a) → only P m → only Q m.
Proof.
  intros HPQ Hm w r w' E. destruct (Hm _ _ _ E) as (l & ? & Hl). exists l. split; [done|].
  by eapply Forall_impl.
Qed.

Section steps_gather.
Context {A : Type} (R : World → World → Prop) `{!PreOrder R}.

(** Starting a task is a step of [R]. *)
Definition task_steps (t : Task A) : Prop := ∀ w r w', t w = (r, w') → R w w'.

Lemma steps_start_all ts w rs w' :
  Forall task_steps ts → start_all ts w = (rs, w') → R w w'.
Proof.
  intros Hts. revert w rs. induction Hts as [|t ts Ht _ IH]; intros w rs; cbn; [by intros [= _ <-]|].
  destruct (t w) as [r w1] eqn:E1, (start_all ts w1) as [rs2 w2] eqn:E2.
  intros [= _ <-]. etrans; [by eapply Ht|by eapply IH].
Qed.

Lemma steps_gather ts : (∀ d w, R w (advance d w)) → Forall task_steps ts → steps R (gather ts).
Proof.
  intros Hd Hts w r w'. unfold gather. destruct (start_all ts w) as [rs w1] eqn:E.
  apply steps_start_all in E; [|done].
  repeat case_match; intros [= _ <-]; [by etrans|by etrans|done].
Qed.
End steps_gather.

#[export] Hint Resolve steps_ret steps_throw steps_lift steps_raise_if steps_time only_sleep
  forward_sleep forward_call forward_draw : snakeskin.
#[export] Hint Extern 1 (PreOrder _) => apply _ : snakeskin.

(** Walk through a computation whose calls are covered by hints. *)
Ltac solve_steps R :=
  repeat first
    [ solve [eauto with snakeskin]
    | apply (steps_handle R) | apply only_wait_for | apply forward_wait_for
    | apply (steps_fmap R)
    | apply only_draw | apply only_call | apply only_act
    | apply (steps_bind R); [|intros ?]
    | apply (steps_catch R); [|intros ? ? ?]
    | case_match ].
Ltac solve_only := solve_steps uconstr:(adds _).
Ltac solve_forward := solve_steps uconstr:(later).

(** ** What a run added *)

Definition added (w w' : World) (a : Action) : Prop := ∃ new, extends w w' new ∧ a ∈ new.

Lemma extends_unique w w' l k : extends w w' l → extends w w' k → l = k.
Proof. unfold extends. intros -> ?. by eapply app_inv_head. Qed.

Lemma added_only {A} (P : Action → Prop) (m : M A) w r w' a :
  only P m → m w = (r, w') → added w w' a → P a.
Proof.
  intros Hm E (new & He & Ha). destruct (Hm _ _ _ E) as (l & Hl & F).
  rewrite (extends_unique _ _ _ _ He Hl) in Ha. by eapply Forall_forall in F.
Qed.

(** An action that the first part of a run cannot have done was done by the
    rest, so the first part returned. *)
Lemma added_bind {A B} (P Q : Action → Prop) (m : M A) (k : A → M B) w r w' a :
  only P m → (∀ x, only Q (k x)) → ¬ P a →
  (m ≫= k) w = (r, w') → added w w' a →
  ∃ x w1, m w = (Ok x, w1) ∧ k x w1 = (r, w') ∧ added w1 w' a.
Proof.
  intros Hm Hk HP Hr Ha. revert Hr. unfold mbind, SE_bind.
  destruct (m w) as [[x|e|] w1] eqn:E.
  - intros Hr. exists x, w1. split; [done|]. split; [done|].
    destruct (Hm _ _ _ E) as (l1 & H1 & F1), (Hk x _ _ _ Hr) as (l2 & H2 & _).
    destruct Ha as (new & He & Ha). exists l2. split; [done|].
    rewrite (extends_unique _ _ _ _ He (extends_trans _ _ _ _ _ H1 H2)) in Ha.
    apply elem_of_app in Ha as [Ha|]; [|done]. by eapply Forall_forall in F1.
  - intros [= <- <-]. destruct HP. by eapply added_only.
  - intros [= <- <-]. destruct HP. by eapply added_only.
Qed.

(** ** Which errors escape *)

Definition res_raises_only {A} (Q : exn → Prop) (o : res A) : Prop := ∀ e, o = Raise e → Q e.

Section raises.
Context (Q : exn → Prop).

Lemma rr_ok {A} (a : A) : res_raises_only Q (Ok a).
Proof. by intros e [=]. Qed.
Lemma rr_ret {A} (a : A) : res_raises_only Q (mret a : res A).
Proof. by intros e [=]. Qed.
Lemma rr_raise {A} e : Q e → res_raises_only Q (Raise e : res A).
Proof. by intros ? e' [= <-]. Qed.
Lemma rr_or_raise {A} e (o : option A) : Q e → res_raises_only Q (or_raise e o).
Proof. intros ? e'. destruct o; [done|]. by intros [= <-]. Qed.
Lemma rr_bind {A B} (m : res A) (k : A → res B) :
  res_raises_only Q m → (∀ a, res_raises_only Q (k a)) → res_raises_only Q (m ≫= k).
Proof. intros Hm Hk e. destruct m as [a|e'|]; cbn; [apply Hk|intros [= <-]; by apply Hm|done]. Qed.
Lemma rr_fmap {A B} (f : A → B) (m : res A) : res_raises_only Q m → res_raises_only Q (f <$> m).
Proof. intros Hm e. destruct m as [a|e'|]; cbn; [done|intros [= <-]; by apply Hm|done]. Qed.
Lemma rr_mapM {A B} (f : A → res B) l :
  (∀ a, res_raises_only Q (f a)) → res_raises_only Q (mapM f l).
Proof.
  intros Hf. induction l as [|a l IH]; [apply rr_ret|]. cbn.
  apply rr_bind; [done|]. intros b. apply rr_bind; [done|]. intros. apply rr_ret.
Qed.

Lemma ro_ret {A} (a : A) : raises_only Q (mret a : M A).
Proof. by intros w e w' [=]. Qed.
Lemma ro_throw {A} e : Q e → raises_only Q (throw e : M A).
Proof. by intros ? w e' w' [= <- _]. Qed.
Lemma ro_lift {A} (o : res A) : res_raises_only Q o → raises_only Q (lift o).
Proof. intros Ho w e w' [= Hr _]. by apply Ho. Qed.
Lemma ro_raise_if c e : Q e → raises_only Q (raise_if c e : M unit).
Proof. intros. destruct c; [by apply ro_throw|apply ro_ret]. Qed.
Lemma ro_draw a : raises_only Q (draw a).
Proof. by intros w e w' [=]. Qed.
Lemma ro_call {A} a (k : World → A) : raises_only Q (call a k).
Proof. by intros w e w' [=]. Qed.
Lemma ro_time : raises_only Q get_current_time.
Proof. by intros w e w' [=]. Qed.
Lemma ro_bind {A B} (m : M A) (k : A → M B) :
  raises_only Q m → (∀ a, raises_only Q (k a)) → raises_only Q (m ≫= k).
Proof.
  intros Hm Hk w e w'. unfold mbind, SE_bind. destruct (m w) as [[a|e'|] w1] eqn:E.
  - apply Hk.
  - intros [= <- <-]. by eapply Hm.
  - done.
Qed.
Lemma ro_fmap {A B} (f : A → B) (m : M A) : raises_only Q m → raises_only Q (f <$> m).
Proof.
  intros Hm w e w'. unfold fmap, SE_fmap. destruct (m w) as [[a|e'|] w1] eqn:E.
  - done.
  - intros [= <- <-]. by eapply Hm.
  - done.
Qed.
Lemma ro_catch {A} (m : M A) h :
  raises_only Q m → (∀ e k, h e = Some k → raises_only Q k) → raises_only Q (catch m h).
Proof.
  intros Hm Hh w e w'. unfold catch. destruct (m w) as [[a|e'|] w1] eqn:E; [done| |done].
  destruct (h e') eqn:Eh; [by eapply Hh|]. intros [= <- <-]. by eapply Hm.
Qed.
Lemma ro_wait_for {A} t (m : M A) : Q TimeoutError → raises_only Q m → raises_only Q (wait_for t m).
Proof.
  intros Ht Hm w e w'. unfold wait_for. case_match; [by intros [= <- _]|].
  destruct (m w) as [[a|e'|] w1] eqn:E; repeat case_match; intros [= <- _]; try done.
  by eapply Hm.
Qed.
(** [handle_conn_errors] needs only that what is not a gRPC error is in [Q]. *)
Lemma ro_handle {A} (m : M A) :
  (∀ c d, Q (new_BlockchainConnectionError c d)) →
  raises_only (λ e, match e with RpcError _ _ => True | _ => Q e end) m →
  raises_only Q (handle_conn_errors m).
Proof.
  intros Hc Hm w e w'. unfold handle_conn_errors, catch.
  destruct (m w) as [[a|e'|] w1] eqn:E; [done| |done].
  intros [= <- _]. pose proof (Hm _ _ _ E) as He. destruct e'; cbn in *; done || apply Hc.
Qed.
End raises.

#[export] Hint Resolve rr_ok rr_ret rr_raise rr_or_raise ro_ret ro_throw ro_raise_if ro_draw ro_call
  ro_time : snakeskin.

(** A value that leaves [wait_for] is that of the coroutine, in time. *)
Lemma wait_for_Ok {A} timeout (m : M A) w a w' :
  wait_for timeout m w = (Ok a, w') →
  m w = (Ok a, w') ∧ (w_clock w' < w_clock w + Z.to_N timeout * nanos_per_second)%N.
Proof.
  unfold wait_for. destruct (_ <=? _)%Z; [done|].
  destruct (m w) as [[x|e|] w1]; [|by destruct (_ <? _)%N|done].
  destruct (N.ltb_spec (w_clock w1) (w_clock w + Z.to_N timeout * nanos_per_second)); [|done].
  by intros [= -> ->].
Qed.

(** ** What [gather] returns *)

Section gather.
Context {A : Type}.
Implicit Types rs : list (task_result A).

Lemma first_failure_None rs : first_failure rs = None ↔ ∀ d e, Finishes d (Raise e) ∉ rs.
Proof.
  induction rs as [|r rs IH]; cbn.
  - split; [intros _ d e; apply not_elem_of_nil|done].
  - setoid_rewrite not_elem_of_cons. destruct r as [d [a|e|]|].
    1,3,4: rewrite IH; split; [intros H d' e'; by split|intros H d' e'; apply H].
    split; [by repeat case_match|]. intros H. by destruct (H d e).
Qed.

Lemma first_failure_Some rs d e :
  first_failure rs = Some (d, e) →
  Finishes d (Raise e) ∈ rs ∧ ∀ d' e', Finishes d' (Raise e') ∈ rs → (d <= d')%N.
Proof.
  revert d e. induction rs as [|r rs IH]; intros d e; [done|]. cbn.
  setoid_rewrite elem_of_cons.
  destruct r as [d0 [a|e0|]|].
  1,3,4: intros (H1 & H2)%IH; split; [by right|]; intros d' e' [[=]|?]; by eapply H2.
  destruct (first_failure rs) as [[d1 e1]|] eqn:E.
  - destruct (IH d1 e1 eq_refl) as [H1 H2].
    destruct (N.ltb_spec d1 d0); intros [= <- <-].
    + split; [by right|]. intros d' e' [[= -> ->]|?]; [lia|by eapply H2].
    + split; [by left|]. intros d' e' [[= -> ->]|Hin]; [lia|]. pose proof (H2 _ _ Hin). lia.
  - intros [= <- <-]. split; [by left|]. intros d' e' [[= -> ->]|Hin]; [lia|].
    by destruct (proj1 (first_failure_None rs) E d' e').
Qed.

Lemma all_values_Some rs m l :
  all_values rs = Some (m, l) →
  Forall2 (λ r a, ∃ d, r = Finishes d (Ok a) ∧ (d <= m)%N) rs l.
Proof.
  revert m l. induction rs as [|r rs IH]; intros m l; cbn.
  - intros [= _ <-]. constructor.
  - destruct r as [d [a|e|]|]; try done.
    destruct (all_values rs) as [[m' l']|]; [|done]. intros [= <- <-].
    constructor; [exists d; split; [done|lia]|].
    eapply Forall2_impl; [by apply IH|]. intros r' a' (d' & -> & ?). exists d'. split; [done|lia].
Qed.

Lemma all_values_None rs :
  all_values rs = None →
  ∃ r, r ∈ rs ∧ match r with Finishes _ (Ok _) => False | _ => True end.
Proof.
  induction rs as [|r rs IH]; [done|]. cbn.
  destruct r as [d [a|e|]|]; [|by eexists; split; [left|]..].
  destruct (all_values rs) as [[m l]|]; [done|]. intros _.
  destruct (IH eq_refl) as (r & ? & ?). exists r. split; [by right|done].
Qed.
End gather.
