(* ===== verification/Factories.v ===== *)
(** * Factories: factories.py, the builders of the client's messages

    (The policy builders are in Policies.v.)  A builder that reads the clock,
    draws randomness or signs runs in [M]; the others return a [res]. *)
From S2P Require Import Prelude PyText Sha256 Sha3 Pem Wire Protobuf Descriptors CommonProtos PeerProtos Constants TxData Errors Crypto Grpc Models Runtime.

(** ** Text *)

Definition encode_proto_bytes (val : pystr) : res bytes :=
  or_raise UnicodeEncodeError (encode_latin1 val).

Definition encode_proto_str (val : pystr) : res pystr :=
  l ← encode_proto_bytes val;
  or_raise UnicodeDecodeError (utf8_decode l).

Definition pem_to_der_res (pem : bytes) : res bytes := or_raise BinasciiError (pem_to_der pem).

(** ** Seeking blocks *)

(** Assigning to a uint64 field: [ValueError] out of range. *)
Definition uint64_field (z : Z) : res Z :=
  if is_uint64 z then mret z else Raise (ValueError (u "Value out of range: " ++ str_of_Z z)).

Definition seek_position (pos : option Z) : res SeekPosition :=
  match pos with
  | None => mret (mkSeekPosition (Some (SeekPosition_is_newest mkSeekNewest)))
  | Some n =>
    n ← uint64_field n;
    mret (mkSeekPosition (Some (SeekPosition_is_specified (mkSeekSpecified n))))
  end.

Definition build_seek_info (start stop : option Z) (behavior : SeekBehavior) : res SeekInfo :=
  seek_start ← seek_position start;
  seek_stop ← seek_position stop;
  b ← or_raise (ValueError (u "Enum SeekBehavior has no value defined for name "
                            ++ SeekBehavior_value behavior))
        (EnumValue ENUM_SeekInfo_SeekBehavior (SeekBehavior_value behavior));
  mret (mkSeekInfo (Some seek_start) (Some seek_stop) b).

(** ** Chaincode deployment *)

Definition language_type (l : ChaincodeLanguage) : res Z :=
  or_raise (ValueError (u "Enum Type has no value defined for name " ++ ChaincodeLanguage_value l))
    (EnumValue ENUM_ChaincodeSpecProto_Type (ChaincodeLanguage_value l)).

Definition build_cc_deployment_spec (name : pystr) (language : ChaincodeLanguage)
    (fcn version path : option pystr) (code_package : option bytes) (args : option (list pystr)) :
    res ChaincodeDeploymentSpec :=
  fcn_args ← (if truthy fcn then x ← encode_proto_bytes (default [] fcn); mret [x] else mret []);
  more_args ← (if truthy args then mapM encode_proto_bytes (default [] args) else mret []);
  let input_args := fcn_args ++ more_args in
  let cc_id := mkChaincodeID (py_or path []) name (py_or version []) in
  ty ← language_type language;
  let input := if is_nonempty input_args then Some (mkChaincodeInput input_args []) else None in
  let cc_spec := mkChaincodeSpecProto ty (Some cc_id) input 0 in
  mret (mkChaincodeDeploymentSpec (Some cc_spec) (py_or code_package []) 0).

(** What the generator yields: the one envelope. *)
Definition build_envelope_stream (envelope : Envelope) : list Envelope := [envelope].

Section factories.
Context `{Cryptography, Protobuf}.

(** ** Signing *)

Definition sign (user : User) (payload : bytes) : M bytes :=
  key ← lift (or_raise (AttributeError (u "'NoneType' object has no attribute 'sign'"))
                (user_private_key user));
  n ← draw (ASign payload);
  lift (ecies_sign (user_crypto_suite user) n key payload).

Definition wrap_transaction (user : User) (payload : Payload) : M Envelope :=
  let payload_bytes := SerializeToString payload in
  signature ← sign user payload_bytes;
  mret (mkEnvelope payload_bytes signature).

(** ** The context of a transaction *)

Definition user_identity (user : User) : SerializedIdentity :=
  mkSerializedIdentity (user_msp_id user) (default [] (user_cert user)).

Definition compute_tx_id (suite : Ecies) (nonce : bytes) (identity : SerializedIdentity) : pystr :=
  hexdigest (digest (ecies_hash suite) (nonce ++ SerializeToString identity)).

Definition tx_context_from_user (user : User) : M TXContext :=
  n ← draw (ARandom DEFAULT_NONCE_SIZE);
  let nonce := generate_nonce n DEFAULT_NONCE_SIZE in
  let identity := user_identity user in
  mret (mkTXContext identity nonce (compute_tx_id (user_crypto_suite user) nonce identity) 0).

(** ** Headers and envelopes *)

Definition build_header (tx_context : TXContext) (channel : option Channel)
    (extension : option bytes) (tx_type : TransactionType) (tls_cert : option bytes) : M Header :=
  timestamp ← get_current_time;
  channel_id ← lift (encode_proto_str (match channel with Some c => channel_name c | None => [] end));
  tls_cert_hash ← (if truthy tls_cert
                   then sha256 <$> lift (pem_to_der_res (default [] tls_cert))
                   else mret []);
  let channel_header := mkChannelHeader (TransactionType_value tx_type) 1 (Some timestamp)
    channel_id (tc_tx_id tx_context) (tc_epoch tx_context) (py_or extension []) tls_cert_hash in
  let signature_header := mkSignatureHeader (SerializeToString (tc_identity tx_context))
    (tc_nonce tx_context) in
  mret (mkHeader (SerializeToString channel_header) (SerializeToString signature_header)).

Definition build_envelope (requestor : User) (tx_context : TXContext) (data : bytes)
    (channel : option Channel) (tls_cert : option bytes) (extension : option bytes)
    (tx_type : TransactionType) : M Envelope :=
  header ← build_header tx_context channel extension tx_type tls_cert;
  wrap_transaction requestor (mkPayload (Some header) data).

Definition build_endorsed_tx_envelope (endorsed_tx : EndorsedTX) (requestor : User) : M Envelope :=
  match et_peer_responses endorsed_tx with
  | [] => throw (IndexError (u "list index out of range"))
  | response :: _ =>
    let action_payload := SerializeToString (mkChaincodeActionPayload
      (Proposal_payload (et_proposal endorsed_tx))
      (Some (mkChaincodeEndorsedAction (ProposalResponse_payload response)
        ((λ r, default Endorsement_default (ProposalResponse_endorsement r))
           <$> et_peer_responses endorsed_tx)))) in
    let transaction := mkTransaction [mkTransactionAction
      (Header_signature_header (et_header endorsed_tx)) action_payload] in
    wrap_transaction requestor
      (mkPayload (Some (et_header endorsed_tx)) (SerializeToString transaction))
  end.

Definition build_config_update_envelope (channel : Channel) (tx_context : TXContext)
    (requestor : User) (config_update : bytes) : M Envelope :=
  let header_bytes := SerializeToString (mkSignatureHeader
    (SerializeToString (tc_identity tx_context)) (tc_nonce tx_context)) in
  signature ← sign requestor (header_bytes ++ config_update);
  let config_update_envelope := mkConfigUpdateEnvelope config_update
    [mkConfigSignature header_bytes signature] in
  build_envelope requestor tx_context (SerializeToString config_update_envelope)
    (Some channel) None None TxConfigUpdate.

(** ** Proposals *)

(** The dictionary's entries in order; an empty one counts as none. *)
Definition build_generated_tx (requestor : User) (cc_name : pystr) (args : list bytes)
    (channel : option Channel) (transient_map : option (list (pystr * bytes))) : M GeneratedTX :=
  let chaincode_id := mkChaincodeID [] cc_name [] in
  tx_context ← tx_context_from_user requestor;
  let extension := mkChaincodeHeaderExtension [] (Some chaincode_id) in
  header ← build_header tx_context channel (Some (SerializeToString extension))
             TxEndorserTransaction None;
  let header_bytes := SerializeToString header in
  ty ← lift (language_type GOLANG);
  let cc_spec := mkChaincodeSpecProto ty (Some chaincode_id) (Some (mkChaincodeInput args [])) 0 in
  let cc_invoke_spec := SerializeToString (mkChaincodeInvocationSpec (Some cc_spec)) in
  let cc_payload := mkChaincodeProposalPayload cc_invoke_spec [] in
  let proposal := mkProposal header_bytes (SerializeToString cc_payload) [] in
  let transient_proposal :=
    if truthy transient_map
    then mkProposal header_bytes
           (SerializeToString (mkChaincodeProposalPayload cc_invoke_spec (default [] transient_map))) []
    else proposal in
  let transient_proposal_bytes := SerializeToString transient_proposal in
  signature ← sign requestor transient_proposal_bytes;
  mret (mkGeneratedTX tx_context proposal (mkSignedProposal transient_proposal_bytes signature) header).
End factories.

(** ** What the builders return *)

Definition endorse (g : GeneratedTX) (rs : list ProposalResponse) : EndorsedTX :=
  mkEndorsedTX rs (gt_proposal g) (gt_header g) (gt_tx_context g).

Lemma language_type_golang : language_type GOLANG = Ok 1%Z.
Proof. reflexivity. Qed.

Lemma encode_proto_str_ascii s : is_ascii s = true → encode_proto_str s = Ok s.
Proof.
  intros Hs. unfold encode_proto_str, encode_proto_bytes.
  rewrite (encode_latin1_ascii s Hs). cbn [or_raise]. rewrite bind_Ok.
  rewrite <-(utf8_encode_ascii s Hs), utf8_decode_encode by by apply ascii_valid. done.
Qed.

Section specs.
Context `{Cryptography, Protobuf}.

Lemma sign_Ok user payload w sig w' :
  sign user payload w = (Ok sig, w') ↔
  ∃ key, user_private_key user = Some key
    ∧ ecies_sign (user_crypto_suite user) (length (w_trace w)) key payload = Ok sig
    ∧ w' = log (ASign payload) w.
Proof.
  unfold sign. rewrite SE_bind_Ok. setoid_rewrite SE_bind_Ok. split.
  - intros (k & w1 & [= Hk <-] & n & w2 & [= <- <-] & [= Hs <-]).
    apply or_raise_Ok in Hk. eauto.
  - intros (k & Hk & Hs & ->). exists k, w. unfold lift. rewrite Hk. split; [done|].
    eexists _, _. split; [done|]. by rewrite Hs.
Qed.

Lemma wrap_transaction_Ok user payload w env w' :
  wrap_transaction user payload w = (Ok env, w') ↔
  Envelope_payload env = SerializeToString payload
  ∧ sign user (SerializeToString payload) w = (Ok (Envelope_signature env), w').
Proof.
  unfold wrap_transaction. rewrite SE_bind_Ok. split.
  - intros (sig & w1 & Hs & [= <- <-]). done.
  - intros [Hp Hs]. exists (Envelope_signature env), w'. split; [done|].
    destruct env; cbn in *. by subst.
Qed.

Lemma tx_context_from_user_run user w :
  tx_context_from_user user w =
  (let nonce := random_bytes (length (w_trace w)) DEFAULT_NONCE_SIZE in
   Ok (mkTXContext (user_identity user) nonce
         (compute_tx_id (user_crypto_suite user) nonce (user_identity user)) 0),
   log (ARandom DEFAULT_NONCE_SIZE) w).
Proof. done. Qed.

(** The header that [build_header] serializes. *)
Definition now (w : World) : Timestamp :=
  mkTimestamp (Z.of_N (w_clock w / nanos_per_second)) (Z.of_N (w_clock w mod nanos_per_second)).

Definition channel_header_of (w : World) (ctx : TXContext) (channel_id : pystr)
    (extension : option bytes) (tx_type : TransactionType) (tls_cert_hash : bytes) : ChannelHeader :=
  mkChannelHeader (TransactionType_value tx_type) 1 (Some (now w)) channel_id (tc_tx_id ctx)
    (tc_epoch ctx) (py_or extension []) tls_cert_hash.
Definition signature_header_of (ctx : TXContext) : SignatureHeader :=
  mkSignatureHeader (SerializeToString (tc_identity ctx)) (tc_nonce ctx).

Definition channel_name_of (channel : option Channel) : pystr :=
  match channel with Some c => channel_name c | None => [] end.

Lemma build_header_Ok ctx channel extension ty tls_cert w header w' :
  build_header ctx channel extension ty tls_cert w = (Ok header, w') →
  w' = w ∧
  ∃ channel_id tls_hash, encode_proto_str (channel_name_of channel) = Ok channel_id
    ∧ (if truthy tls_cert
       then ∃ der, pem_to_der (default [] tls_cert) = Some der ∧ tls_hash = sha256 der
       else tls_hash = [])
    ∧ header = mkHeader (SerializeToString (channel_header_of w ctx channel_id extension ty tls_hash))
                        (SerializeToString (signature_header_of ctx)).
Proof.
  unfold build_header.
  intros (ts & w1 & [= <- <-] & (id & w2 & [= Hid <-] & (th & w3 & Ht & [= <- <-])%SE_bind_Ok)
    %SE_bind_Ok)%SE_bind_Ok.
  destruct (truthy tls_cert).
  - unfold fmap, SE_fmap, lift, pem_to_der_res in Ht. destruct (pem_to_der _) as [der|] eqn:E; [|done].
    cbn in Ht. injection Ht as <- <-. split; [done|]. eexists _, _.
    split; [done|]. split; [|done]. by exists der.
  - injection Ht as <- <-. split; [done|]. by eexists _, [].
Qed.
End specs.

(** ** Text and positions *)

(** channel names in ASCII are sent unchanged.  In general the function
      expects a string that holds UTF-8 bytes one per character: it gives back
      the text those bytes encode, and a string with a character past U+00FF
      raises [UnicodeEncodeError]. *)
Theorem encode_proto_str_text s :
  (is_ascii s = true → encode_proto_str s = Ok s)
  ∧ (valid_str s = true → encode_proto_str (decode_latin1 (utf8_encode s)) = Ok s)
  ∧ ((∃ c, c ∈ s ∧ (256 <= c)%N) → encode_proto_str s = Raise UnicodeEncodeError).
Proof.
  split_and!.
  - apply encode_proto_str_ascii.
  - intros Hs. unfold encode_proto_str, encode_proto_bytes. rewrite encode_decode_latin1.
    cbn [or_raise]. step_outcome. by rewrite utf8_decode_encode.
  - intros Hc%Exists_exists. unfold encode_proto_str, encode_proto_bytes.
    by rewrite (proj2 (encode_latin1_None s) Hc).
Qed.

Section seeking.
Context `{ProtobufLaws}.

Definition position_ok (o : option Z) : bool :=
  match o with Some n => is_uint64 n | None => true end.
Definition position_means (o : option Z) (p : SeekPosition) : Prop :=
  match o with
  | None => SeekPosition_newest p = Some mkSeekNewest
  | Some n => SeekPosition_specified p = Some (mkSeekSpecified n)
  end.

Lemma seek_position_outcome o :
  if position_ok o then ∃ p, seek_position o = Ok p ∧ position_means o p ∧ valid p = true
  else ∃ msg, seek_position o = Raise (ValueError msg).
Proof.
  destruct o as [n|]; cbn; [|by eexists]. unfold uint64_field.
  destruct (is_uint64 n) eqn:E; cbn; [|by eexists]. eexists. split; [done|]. split; [done|].
  cbn. by rewrite E.
Qed.

(** C40: a request for blocks says what was asked: numbers that fit 64 bits
    are sent as given, no number is the newest block, and the server that
    parses the message reads the same range and behavior; any other number
    is a [ValueError]. *)
Theorem seek_info_outcome start stop behavior :
  if position_ok start && position_ok stop
  then ∃ s e code, build_seek_info start stop behavior = Ok (mkSeekInfo (Some s) (Some e) code)
    ∧ position_means start s ∧ position_means stop e
    ∧ EnumName ENUM_SeekInfo_SeekBehavior code = Some (SeekBehavior_value behavior)
    ∧ FromString SeekInfo (SerializeToString (mkSeekInfo (Some s) (Some e) code))
      = Some (mkSeekInfo (Some s) (Some e) code)
  else ∃ msg, build_seek_info start stop behavior = Raise (ValueError msg).
Proof.
  pose proof (seek_position_outcome start) as Hs. pose proof (seek_position_outcome stop) as He.
  unfold build_seek_info. destruct (position_ok start); cbn [andb].
  2: destruct Hs as [msg ->]; by exists msg.
  destruct Hs as (s & -> & Hs & Hvs). step_outcome. destruct (position_ok stop).
  2: destruct He as [msg ->]; by exists msg.
  destruct He as (e & -> & He & Hve). step_outcome.
  destruct behavior; eexists s, e, _; (split; [reflexivity|]);
    (split; [done|]); (split; [done|]); (split; [reflexivity|]);
    apply FromString_SerializeToString; cbn in *; by rewrite Hvs, Hve.
Qed.
End seeking.
