(* ===== verification/Connect.v ===== *)
(** * Connect: connect.py, the calls to orderers and peers *)
From S2P Require Import Prelude PyText Wire Protobuf Descriptors CommonProtos PeerProtos Constants TxData Errors Crypto Grpc Models Runtime.

(** ** The operations *)

Section connect.
Context `{Network}.

(** [None] when the orderer ends the stream without a response. *)
Definition broadcast_to_orderer (envelope : Envelope) (orderer : Orderer) (tx_id : pystr) :
    M (option BroadcastResponse) :=
  handle_conn_errors (
    stream ← call (ABroadcast orderer envelope) (λ w, Broadcast w orderer envelope);
    for_each stream (λ resp,
      raise_if (negb (BroadcastResponse_status resp =? 200)%Z)
        (new_TrasactionCommitError (u "Failed to commit transaction") tx_id resp);;
      mret (Some resp))).

(** The loop, with the variable [error]. *)
Fixpoint try_orderers (envelope : Envelope) (orderers : list Orderer) (tx_id : pystr)
    (error : option exn) : M (option BroadcastResponse) :=
  match orderers with
  | [] => throw (default (UnboundLocalError (u "error")) error)
  | orderer :: orderers =>
    catch (broadcast_to_orderer envelope orderer tx_id) (λ err,
      if isinstance err CBlockchainConnectionError
      then Some (try_orderers envelope orderers tx_id (Some err)) else None)
  end.

Definition broadcast_to_orderers (envelope : Envelope) (orderers : list Orderer) (tx_id : pystr) :
    M (option BroadcastResponse) :=
  match orderers with
  | [] => throw (ValueError (u "Must provide at least one orderer"))
  | _ => try_orderers envelope orderers tx_id None
  end.

Definition process_proposal_on_peer (proposal : SignedProposal) (peer : Peer) : Task ProposalResponse :=
  λ w, let w := log (AProcessProposal peer proposal) w in
  match ProcessProposal w peer proposal with
  | Reply d a => (Finishes d (Ok a), w)
  | Fail d code details => (Finishes d (Raise (convert_conn_error (RpcError code details))), w)
  | NoReply => (Never, w)
  end.
End connect.

(** ** Properties *)

Definition is_conn_error (e : exn) : bool := isinstance e CBlockchainConnectionError.

Section lemmas.
Context `{Network}.

Lemma broadcast_to_orderer_run envelope orderer tx_id w :
  broadcast_to_orderer envelope orderer tx_id w =
  let w1 := log (ABroadcast orderer envelope) w in
  match st_items (Broadcast w1 orderer envelope), st_end (Broadcast w1 orderer envelope) with
  | (d, resp) :: _, _ =>
    (r ← (raise_if (negb (BroadcastResponse_status resp =? 200)%Z)
            (new_TrasactionCommitError (u "Failed to commit transaction") tx_id resp);;
          mret (Some resp)); mret r) (advance d w1)
  | [], EndOfStream d => (Ok None, advance d w1)
  | [], Broken d code details => (Raise (new_BlockchainConnectionError code details), advance d w1)
  | [], Silent => (Hang, w1)
  end.
Proof.
  unfold broadcast_to_orderer, handle_conn_errors, catch, call, for_each.
  unfold mbind, SE_bind. cbn zeta. set (w1 := log _ w).
  destruct (Broadcast w1 orderer envelope) as [[|[d resp] items] [d'|d' c dt|]]; try done;
    cbn; destruct (BroadcastResponse_status resp =? 200)%Z; done.
Qed.

(** what the client makes of an orderer's answer: its first response
    alone decides, 200 is returned, any other status is a
    [TrasactionCommitError] that names the transaction, a broken stream is a
    [BlockchainConnectionError], and a stream that ends empty returns
    nothing.  One request is sent. *)
Theorem broadcast_to_orderer_outcome envelope orderer tx_id w :
  let w1 := log (ABroadcast orderer envelope) w in
  broadcast_to_orderer envelope orderer tx_id w =
  match Broadcast w1 orderer envelope with
  | mkStream ((d, resp) :: _) _ =>
    if (BroadcastResponse_status resp =? 200)%Z then (Ok (Some resp), advance d w1)
    else (Raise (new_TrasactionCommitError (u "Failed to commit transaction") tx_id resp),
          advance d w1)
  | mkStream [] (EndOfStream d) => (Ok None, advance d w1)
  | mkStream [] (Broken d code details) =>
    (Raise (new_BlockchainConnectionError code details), advance d w1)
  | mkStream [] Silent => (Hang, w1)
  end.
Proof.
  intros w1. rewrite broadcast_to_orderer_run. cbv zeta. fold w1.
  destruct (Broadcast w1 orderer envelope) as [[|[d resp] items] en]; cbn;
    [by destruct en|]. by destruct (BroadcastResponse_status resp =? 200)%Z.
Qed.

(** Every broadcast sends exactly one envelope. *)
Lemma broadcast_to_orderer_trace envelope orderer tx_id w r w' :
  broadcast_to_orderer envelope orderer tx_id w = (r, w') →
  extends w w' [ABroadcast orderer envelope].
Proof.
  rewrite broadcast_to_orderer_run. cbn zeta.
  destruct (st_items _) as [|[d resp] items]; [destruct (st_end _); by intros [= _ <-]|].
  cbn; destruct (BroadcastResponse_status resp =? 200)%Z; by intros [= _ <-].
Qed.

Lemma try_orderers_spec envelope o orderers tx_id error w r w' :
  try_orderers envelope (o :: orderers) tx_id error w = (r, w') →
  ∃ failed x rest wx,
    o :: orderers = failed ++ x :: rest
    ∧ extends w wx ((λ o, ABroadcast o envelope) <$> failed)
    ∧ extends wx w' [ABroadcast x envelope]
    ∧ broadcast_to_orderer envelope x tx_id wx = (r, w')
    ∧ (∀ e, r = Raise e → is_conn_error e = true → rest = [])
    ∧ Forall (λ y, ∃ wy e wy', broadcast_to_orderer envelope y tx_id wy = (Raise e, wy')
                               ∧ is_conn_error e = true) failed.
Proof.
  revert o error w. induction orderers as [|o' orderers IH]; intros o error w Hr.
  - exists [], o, [], w. split; [done|]. split; [apply extends_refl|].
    enough (broadcast_to_orderer envelope o tx_id w = (r, w')) as E
      by (split_and!; [by eapply broadcast_to_orderer_trace|done|done|constructor]).
    revert Hr. cbn. unfold catch.
    destruct (broadcast_to_orderer envelope o tx_id w) as [[a|e|] w1]; [done| |done].
    destruct (isinstance e CBlockchainConnectionError); by intros [= <- <-].
  - change (try_orderers envelope (o :: o' :: orderers) tx_id error)
      with (catch (broadcast_to_orderer envelope o tx_id) (λ err,
              if isinstance err CBlockchainConnectionError
              then Some (try_orderers envelope (o' :: orderers) tx_id (Some err)) else None)) in Hr.
    unfold catch in Hr.
    destruct (broadcast_to_orderer envelope o tx_id w) as [q w1] eqn:E.
    pose proof (broadcast_to_orderer_trace _ _ _ _ _ _ E) as Ht.
    destruct (match q with Raise e => is_conn_error e | _ => false end) eqn:Hq.
    + destruct q as [|e|]; try done. unfold is_conn_error in Hq. rewrite Hq in Hr.
      apply IH in Hr as (failed & x & rest & wx & -> & H1 & H2 & H3 & H4 & H5).
      exists (o :: failed), x, rest, wx. split; [done|]. split.
      { by apply (extends_trans w w1 wx [_]). }
      split_and!; [done|done|done|]. constructor; [by exists w, e, w1|done].
    + assert (q = r ∧ w1 = w') as [-> ->].
      { destruct q as [|e|]; [by simplify_eq| |by simplify_eq].
        unfold is_conn_error in Hq. rewrite Hq in Hr. by simplify_eq. }
      exists [], o, (o' :: orderers), w. split; [done|]. split; [apply extends_refl|].
      split_and!; [done|done| |constructor]. intros e ->. by rewrite Hq.
Qed.

(** C18: the orderers are tried in order, each with the same envelope, until
    one answers: every orderer before it failed by its connection, none
    after it is contacted, and the result is its answer, a rejection
    included; when all connections fail the last failure is raised. *)
Theorem broadcast_to_orderers_spec envelope orderers tx_id w r w' :
  orderers ≠ [] →
  broadcast_to_orderers envelope orderers tx_id w = (r, w') →
  ∃ failed x rest wx,
    orderers = failed ++ x :: rest
    ∧ extends w w' ((λ o, ABroadcast o envelope) <$> failed ++ [x])
    ∧ broadcast_to_orderer envelope x tx_id wx = (r, w')
    ∧ (∀ e, r = Raise e → is_conn_error e = true → rest = [])
    ∧ Forall (λ y, ∃ wy e wy', broadcast_to_orderer envelope y tx_id wy = (Raise e, wy')
                               ∧ is_conn_error e = true) failed.
Proof.
  intros Hne Hr. destruct orderers as [|o orderers]; [done|].
  destruct (try_orderers_spec _ _ _ _ None _ _ _ Hr)
    as (failed & x & rest & wx & -> & H1 & H2 & H3 & H4 & H5).
  exists failed, x, rest, wx. split; [done|].
  split; [|done]. rewrite fmap_app. by eapply extends_trans.
Qed.
End lemmas.

(** ** Proposing to several peers *)

Section proposing.
Context `{Network}.

(** The world in which peer number [i] is asked: the requests to it and to
    the peers before it have been sent. *)
Definition asked (sp : SignedProposal) (peers : list Peer) (w : World) (i : nat) : World :=
  mkWorld (w_clock w) (w_trace w ++ ((λ p, AProcessProposal p sp) <$> take (S i) peers)).

Definition answer (sp : SignedProposal) (peers : list Peer) (w : World) (i : nat) (p : Peer) :
    rpc ProposalResponse :=
  ProcessProposal (asked sp peers w i) p sp.

Definition task_answer (r : rpc ProposalResponse) : task_result ProposalResponse :=
  match r with
  | Reply d a => Finishes d (Ok a)
  | Fail d code details => Finishes d (Raise (new_BlockchainConnectionError code details))
  | NoReply => Never
  end.

Lemma process_proposal_on_peer_run sp p w :
  process_proposal_on_peer sp p w
  = (task_answer (ProcessProposal (log (AProcessProposal p sp) w) p sp),
     log (AProcessProposal p sp) w).
Proof. unfold process_proposal_on_peer. by destruct (ProcessProposal _ p sp). Qed.

Lemma start_all_proposals sp peers w :
  start_all (process_proposal_on_peer sp <$> peers) w
  = (imap (λ i p, task_answer (answer sp peers w i p)) peers,
     mkWorld (w_clock w) (w_trace w ++ ((λ p, AProcessProposal p sp) <$> peers))).
Proof.
  revert w. induction peers as [|p peers IH]; intros w.
  - cbn. rewrite app_nil_r. by destruct w.
  - cbn [fmap list_fmap start_all]. rewrite process_proposal_on_peer_run, IH, imap_cons.
    f_equal; [|unfold log; cbn; by rewrite <-(assoc_L (++))].
    assert (∀ (x y : task_result ProposalResponse) l k, x = y → l = k → x :: l = y :: k)
      as Hcons by congruence.
    apply Hcons; [done|]. apply imap_ext. intros i q _.
    unfold answer, asked, log. cbn. by rewrite <-(assoc_L (++)).
Qed.
End proposing.
