(* ===== verification/Events.v ===== *)
(** * Events: events.py, the event hubs

    [_EventHub] is a record of what its subclasses define: how to open the
    stream, how to read a response; [PeerEvents], [PeerFilteredEvents] and
    [OrdererEvents] are its instances.  The generator [stream_blocks] is given
    the body of the loop that consumes it. *)
From S2P Require Import Prelude PyText Sha256 Sha3 Pem Wire Protobuf Descriptors CommonProtos PeerProtos Constants TxData Errors Crypto Grpc Models Transactions Decoded Block Runtime Factories.

Definition TxValidationCode_VALID : Z := 0.

Section events.
Context `{Cryptography, Protobuf, Network}.

Record EventHub (Resp BlockType TXType : Type) := mkEventHub {
  hub_requestor : User;
  hub_channel : Channel;
  hub_client_cert : res (option bytes);
  hub_build_stream : Envelope → M (stream Resp);
  (** [resp.status]: zero unless it is the member of the oneof. *)
  hub_status : Resp → Z;
  hub_pull_block_from_response : Resp → res BlockType;
  (** [block.transactions] and [transaction.tx_id] *)
  hub_transactions : BlockType → list TXType;
  hub_tx_id : TXType → res pystr;
}.
Arguments mkEventHub {_ _ _}.
Arguments hub_requestor {_ _ _} _.
Arguments hub_channel {_ _ _} _.
Arguments hub_client_cert {_ _ _} _.
Arguments hub_build_stream {_ _ _} _ _.
Arguments hub_status {_ _ _} _ _.
Arguments hub_pull_block_from_response {_ _ _} _ _.
Arguments hub_transactions {_ _ _} _ _.
Arguments hub_tx_id {_ _ _} _ _.

Section hub.
Context {Resp BlockType TXType : Type} (self : EventHub Resp BlockType TXType).

Definition get_connection_envelope (start stop : option Z) (behavior : SeekBehavior) : M Envelope :=
  seek_info ← lift (build_seek_info start stop behavior);
  tx_context ← tx_context_from_user (hub_requestor self);
  client_cert ← lift (hub_client_cert self);
  build_envelope (hub_requestor self) tx_context (SerializeToString seek_info)
    (Some (hub_channel self)) client_cert None TxEndorserTransaction.

(** One response, up to the [yield]. *)
Definition next_block (resp : Resp) : res BlockType :=
  if negb (hub_status self resp =? 0)%Z
  then Raise (new_BlockRetrievalError (u "Failed to retrieve block") (Some (hub_status self resp)))
  else hub_pull_block_from_response self resp.

(** The loop of the generator; the consumer's body runs outside
    [handle_conn_errors]. *)
Fixpoint for_blocks {R} (items : list (N * Resp)) (en : stream_end)
    (body : BlockType → M (option R)) : M (option R) :=
  match items with
  | [] => handle_conn_errors (for_items [] en (λ _ : Resp, mret None))
  | (d, resp) :: items =>
    sleep d;;
    block ← handle_conn_errors (lift (next_block resp));
    r ← body block;
    match r with Some r => mret (Some r) | None => for_blocks items en body end
  end.

(** [async for block in self.stream_blocks(start, stop, behavior): body] *)
Definition stream_blocks {R} (start stop : option Z) (behavior : SeekBehavior)
    (body : BlockType → M (option R)) : M (option R) :=
  envelope ← get_connection_envelope start stop behavior;
  stream ← hub_build_stream self envelope;
  for_blocks (st_items stream) (st_end stream) body.

(** [for transaction in block.transactions: if transaction.tx_id == tx_id] *)
Fixpoint find_transaction (tx_id : pystr) (transactions : list TXType) : res (option TXType) :=
  match transactions with
  | [] => mret None
  | transaction :: transactions =>
    id ← hub_tx_id self transaction;
    if decide (id = tx_id) then mret (Some transaction)
    else find_transaction tx_id transactions
  end.

Definition get_transaction (tx_id : pystr) (start : option Z) (behavior : SeekBehavior) : M TXType :=
  r ← stream_blocks start (Some INDEFINITE_STOP_POSITION) behavior
        (λ block, lift (find_transaction tx_id (hub_transactions self block)));
  match r with
  | Some transaction => mret transaction
  | None => throw (RuntimeError (u "Could not get transaction"))
  end.
End hub.

(** ** The hubs *)

(** The methods [_EventHub] leaves to its subclasses; how to read the
    responses and their transactions is not the hub's. *)
Definition EventHub_base {Resp BlockType TXType} (requestor : User) (channel : Channel)
    (status : Resp → Z) (transactions : BlockType → list TXType) (tx_id : TXType → res pystr) :
    EventHub Resp BlockType TXType := {|
  hub_requestor := requestor;
  hub_channel := channel;
  hub_client_cert := Raise (NotImplementedError []);
  hub_build_stream e := throw (NotImplementedError []);
  hub_status := status;
  hub_pull_block_from_response r := Raise (NotImplementedError []);
  hub_transactions := transactions;
  hub_tx_id := tx_id;
|}.

(** Reading [tx_id] of the bytes a [RawBlock] lists. *)
Definition bytes_tx_id (transaction : bytes) : res pystr :=
  Raise (AttributeError (u "'bytes' object has no attribute 'tx_id'")).

Definition PeerEvents (requestor : User) (channel : Channel) (peer : Peer) :
    EventHub DeliverResponse RawBlock bytes := {|
  hub_requestor := requestor;
  hub_channel := channel;
  hub_client_cert := mret (peer_client_cert peer);
  hub_build_stream e := call (ADeliver peer e) (λ w, Deliver w peer e);
  hub_status r := default 0%Z (DeliverResponse_status r);
  hub_pull_block_from_response r :=
    mret (RawBlock_from_proto (default Block_default (DeliverResponse_block r)));
  hub_transactions := RawBlock_transactions;
  hub_tx_id := bytes_tx_id;
|}.

Definition PeerFilteredEvents (requestor : User) (channel : Channel) (peer : Peer) :
    EventHub DeliverResponse FilteredBlock FilteredTX.t := {|
  hub_requestor := requestor;
  hub_channel := channel;
  hub_client_cert := mret (peer_client_cert peer);
  hub_build_stream e := call (ADeliverFiltered peer e) (λ w, DeliverFiltered w peer e);
  hub_status r := default 0%Z (DeliverResponse_status r);
  hub_pull_block_from_response r :=
    FilteredBlock_from_proto (default FilteredBlockProto_default (DeliverResponse_filtered_block r));
  hub_transactions := fb_transactions;
  hub_tx_id t := mret (FilteredTX.tx_id t);
|}.

Definition OrdererEvents (requestor : User) (channel : Channel) (orderer : Orderer) :
    EventHub OrdererDeliverResponse RawBlock bytes := {|
  hub_requestor := requestor;
  hub_channel := channel;
  hub_client_cert := mret (orderer_client_cert orderer);
  hub_build_stream e := call (AOrdererDeliver orderer e) (λ w, OrdererDeliver w orderer e);
  hub_status r := default 0%Z (OrdererDeliverResponse_status r);
  hub_pull_block_from_response r :=
    mret (RawBlock_from_proto (default Block_default (OrdererDeliverResponse_block r)));
  hub_transactions := RawBlock_transactions;
  hub_tx_id := bytes_tx_id;
|}.

Definition check_transaction (self : EventHub DeliverResponse FilteredBlock FilteredTX.t)
    (tx_id : pystr) (timeout : Z) (start : option Z) (behavior : SeekBehavior) : M FilteredTX.t :=
  transaction ← wait_for timeout (get_transaction self tx_id start behavior);
  raise_if (negb (FilteredTX.tx_validation_code transaction =? TxValidationCode_VALID)%Z)
    (new_TransactionValidationError (FilteredTX.tx_validation_code transaction));;
  mret transaction.
End events.
#[global] Arguments mkEventHub {_ _ _ _}.
#[global] Arguments hub_requestor {_ _ _ _} _.
#[global] Arguments hub_channel {_ _ _ _} _.
#[global] Arguments hub_client_cert {_ _ _ _} _.
#[global] Arguments hub_build_stream {_ _ _ _} _ _.
#[global] Arguments hub_status {_ _ _ _} _ _.
#[global] Arguments hub_pull_block_from_response {_ _ _ _} _ _.
#[global] Arguments hub_transactions {_ _ _ _} _ _.
#[global] Arguments hub_tx_id {_ _ _ _} _ _.

(** ** Properties *)

(** The time a run of responses takes. *)
Definition total_delay {A} (items : list (N * A)) : N := foldr (λ x t, x.1 + t)%N 0%N items.

Lemma advance_advance d e w : advance d (advance e w) = advance (e + d) w.
Proof. unfold advance. cbn. by rewrite N.add_assoc. Qed.

Section lemmas.
Context `{Cryptography, Protobuf, Network}.

Section hub.
Context {Resp BlockType TXType : Type} (self : EventHub Resp BlockType TXType).

(** A response whose block is read and does not hold the transaction. *)
Definition skips (tx_id : pystr) (resp : Resp) : Prop :=
  ∃ block, next_block self resp = Ok block
    ∧ find_transaction self tx_id (hub_transactions self block) = Ok None.

Definition search_body (tx_id : pystr) (block : BlockType) : M (option TXType) :=
  lift (find_transaction self tx_id (hub_transactions self block)).

Lemma for_blocks_cons {R} d resp items en (body : BlockType → M (option R)) w :
  for_blocks self ((d, resp) :: items) en body w =
  match next_block self resp with
  | Ok block =>
    (r ← body block;
     match r with Some r => mret (Some r) | None => for_blocks self items en body end)
      (advance d w)
  | Raise e => (Raise (convert_conn_error e), advance d w)
  | Hang => (Hang, advance d w)
  end.
Proof.
  cbn. unfold handle_conn_errors, catch, lift. unfold mbind at 1, SE_bind at 1. cbn.
  unfold mbind at 1, SE_bind at 1. by destruct (next_block self resp).
Qed.

Lemma for_blocks_skip tx_id pre items en w :
  Forall (λ x, skips tx_id x.2) pre →
  for_blocks self (pre ++ items) en (search_body tx_id) w
    = for_blocks self items en (search_body tx_id) (advance (total_delay pre) w).
Proof.
  intros Hpre. revert w. induction Hpre as [|[d resp] pre (block & Hb & Hf) _ IH]; intros w.
  - unfold advance. cbn. rewrite N.add_0_r. by destruct w.
  - cbn [snd] in Hb. cbn [app]. rewrite for_blocks_cons, Hb. rewrite (SE_bind_run _ _ _ None (advance d w)).
    2: { unfold search_body, lift. by rewrite Hf. }
    rewrite IH, advance_advance. done.
Qed.

(** The transaction found is in a delivered block and has the id. *)
Lemma for_blocks_sound tx_id items en w t w' :
  for_blocks self items en (search_body tx_id) w = (Ok (Some t), w') →
  ∃ d resp block, (d, resp) ∈ items ∧ next_block self resp = Ok block
    ∧ t ∈ hub_transactions self block ∧ hub_tx_id self t = Ok tx_id.
Proof.
  revert w. induction items as [|[d resp] items IH]; intros w.
  - destruct en; by intros [=].
  - rewrite for_blocks_cons. destruct (next_block self resp) as [block| |] eqn:Hb; [|done|done].
    intros (q & w1 & Hq & Hr)%SE_bind_Ok. unfold search_body, lift in Hq.
    injection Hq as Hq <-. destruct q as [t'|].
    + injection Hr as -> <-. exists d, resp, block. split; [left|]. split; [done|].
      clear -Hq. induction (hub_transactions self block) as [|x l IHl]; [done|].
      cbn in Hq. apply outcome_bind_Ok in Hq as (id & Hid & Hq).
      destruct (decide (id = tx_id)) as [->|].
      * injection Hq as <-. split; [left|done].
      * destruct (IHl Hq) as [? ?]. split; [by right|done].
    + apply IH in Hr as (d' & resp' & block' & Hin & ?). exists d', resp', block'.
      split; [by right|done].
Qed.

Lemma find_transaction_first tx_id l t k :
  (∀ x, x ∈ l → ∃ id, hub_tx_id self x = Ok id ∧ id ≠ tx_id) → hub_tx_id self t = Ok tx_id →
  find_transaction self tx_id (l ++ t :: k) = Ok (Some t).
Proof.
  intros Hl Ht. induction l as [|x l IH]; cbn.
  - rewrite Ht. step_outcome. by rewrite decide_True.
  - destruct (Hl x ltac:(left)) as (id & -> & Hne). step_outcome. rewrite decide_False by done.
    apply IH. intros y Hy. apply Hl. by right.
Qed.

Lemma get_transaction_sound tx_id start behavior w t w' :
  get_transaction self tx_id start behavior w = (Ok t, w') →
  ∃ envelope w1 s w2 d resp block,
    get_connection_envelope self start (Some INDEFINITE_STOP_POSITION) behavior w
      = (Ok envelope, w1)
    ∧ hub_build_stream self envelope w1 = (Ok s, w2)
    ∧ (d, resp) ∈ st_items s ∧ next_block self resp = Ok block
    ∧ t ∈ hub_transactions self block ∧ hub_tx_id self t = Ok tx_id.
Proof.
  intros (q & w3 & (env & w1 & Henv & (s & w2 & Hs & Hb)%SE_bind_Ok)%SE_bind_Ok & Hr)%SE_bind_Ok.
  destruct q as [t'|]; [|done]. injection Hr as -> <-.
  destruct (for_blocks_sound _ _ _ _ _ _ Hb) as (d & resp & block & ?).
  by exists env, w1, s, w2, d, resp, block.
Qed.
End hub.

(** The first transaction with the id in a stream of responses is [t], and it
    has been read after [delay]. *)
Definition streams_transaction (hub : EventHub DeliverResponse FilteredBlock FilteredTX.t)
    (tx_id : pystr) (items : list (N * DeliverResponse)) (t : FilteredTX.t) (delay : N) : Prop :=
  ∃ pre d resp post block l k,
    items = pre ++ (d, resp) :: post
    ∧ Forall (λ x, skips hub tx_id x.2) pre
    ∧ next_block hub resp = Ok block ∧ fb_transactions block = l ++ t :: k
    ∧ FilteredTX.tx_id t = tx_id ∧ Forall (λ x, FilteredTX.tx_id x ≠ tx_id) l
    ∧ delay = (total_delay pre + d)%N.

(** A run of [get_transaction] on the filtered events that finds the
    transaction, and when. *)
Definition delivered (requestor : User) (channel : Channel) (peer : Peer) (tx_id : pystr)
    (start : option Z) (behavior : SeekBehavior) (w : World) (t : FilteredTX.t) (w' : World) : Prop :=
  let hub := PeerFilteredEvents requestor channel peer in
  ∃ envelope w1 delay,
    get_connection_envelope hub start (Some INDEFINITE_STOP_POSITION) behavior w = (Ok envelope, w1)
    ∧ streams_transaction hub tx_id
        (st_items (DeliverFiltered (log (ADeliverFiltered peer envelope) w1) peer envelope)) t delay
    ∧ w' = advance delay (log (ADeliverFiltered peer envelope) w1).

Lemma get_transaction_run requestor channel peer tx_id start behavior w t w' :
  delivered requestor channel peer tx_id start behavior w t w' →
  get_transaction (PeerFilteredEvents requestor channel peer) tx_id start behavior w = (Ok t, w').
Proof.
  intros (env & w1 & delay & Henv & (pre & d & resp & post & block & l & k & Hst & Hpre & Hb & Htx
    & Hid & Hl & ->) & ->).
  set (hub := PeerFilteredEvents requestor channel peer) in *.
  unfold get_transaction, stream_blocks.
  rewrite (SE_bind_run _ _ _ (Some t)
    (advance (total_delay pre + d) (log (ADeliverFiltered peer env) w1))); [done|].
  rewrite (SE_bind_run _ _ _ _ _ Henv).
  erewrite SE_bind_run; [|reflexivity]. rewrite Hst.
  change (λ block, lift (find_transaction hub tx_id (hub_transactions hub block)))
    with (search_body hub tx_id).
  rewrite for_blocks_skip by done. rewrite for_blocks_cons, Hb.
  unfold search_body, mbind, SE_bind, lift. cbn [hub_transactions PeerFilteredEvents hub].
  rewrite Htx, find_transaction_first.
  - by rewrite advance_advance.
  - intros x Hx. eexists. split; [done|]. by eapply Forall_forall in Hl.
  - by rewrite <-Hid.
Qed.

(** [get_transaction] returns the first transaction with the id that the
    peer delivers, as soon as its block arrives: after the blocks before it,
    whatever the peer delivers or does not deliver after it. *)
Theorem get_transaction_finds requestor channel peer tx_id start behavior w t w' :
  delivered requestor channel peer tx_id start behavior w t w' →
  get_transaction (PeerFilteredEvents requestor channel peer) tx_id start behavior w = (Ok t, w').
Proof. apply get_transaction_run. Qed.

Lemma check_transaction_run requestor channel peer tx_id timeout start behavior w t w' :
  let hub := PeerFilteredEvents requestor channel peer in
  get_transaction hub tx_id start behavior w = (Ok t, w') →
  (0 < timeout)%Z → (w_clock w' < w_clock w + Z.to_N timeout * nanos_per_second)%N →
  check_transaction hub tx_id timeout start behavior w
  = (if (FilteredTX.tx_validation_code t =? TxValidationCode_VALID)%Z then Ok t
     else Raise (new_TransactionValidationError (FilteredTX.tx_validation_code t)), w').
Proof.
  intros hub Hg Ht Hlt. unfold check_transaction.
  assert (wait_for timeout (get_transaction hub tx_id start behavior) w = (Ok t, w')) as E.
  { unfold wait_for. rewrite (proj2 (Z.leb_gt _ _) Ht), Hg. by rewrite (proj2 (N.ltb_lt _ _) Hlt). }
  rewrite (SE_bind_run _ _ _ _ _ E). by destruct (_ =? _)%Z.
Qed.

(** checking a transaction is decided by its validation code: if the
    peer delivers it before the timeout, the result is the transaction when
    the code is VALID and the error built from the code when it is not. *)
Theorem check_transaction_decides requestor channel peer tx_id timeout start behavior w t w' :
  delivered requestor channel peer tx_id start behavior w t w' →
  (0 < timeout)%Z → (w_clock w' < w_clock w + Z.to_N timeout * nanos_per_second)%N →
  check_transaction (PeerFilteredEvents requestor channel peer) tx_id timeout start behavior w
  = (if (FilteredTX.tx_validation_code t =? TxValidationCode_VALID)%Z then Ok t
     else Raise (new_TransactionValidationError (FilteredTX.tx_validation_code t)), w').
Proof. intros Hd%get_transaction_run Ht Hlt. by apply check_transaction_run. Qed.

Lemma check_transaction_Ok requestor channel peer tx_id timeout start behavior w t w' :
  check_transaction (PeerFilteredEvents requestor channel peer) tx_id timeout start behavior w
    = (Ok t, w') →
  FilteredTX.tx_id t = tx_id ∧ FilteredTX.tx_validation_code t = TxValidationCode_VALID
  ∧ ∃ envelope w1 d resp block,
      (d, resp) ∈ st_items (DeliverFiltered w1 peer envelope)
      ∧ next_block (PeerFilteredEvents requestor channel peer) resp = Ok block
      ∧ t ∈ fb_transactions block.
Proof.
  intros (t' & w1 & Hwait & (x & w2 & [Hc ->]%raise_if_Ok & [= -> ->])%SE_bind_Ok)%SE_bind_Ok.
  apply wait_for_Ok in Hwait as [E _].
  apply get_transaction_sound in E
    as (env & w3 & s & w4 & d & resp & block & _ & [= <- _] & Hin & Hb & Ht & [= Hid]).
  split; [done|]. split; [|by eexists env, _, d, resp, block].
  apply negb_false_iff, Z.eqb_eq in Hc. done.
Qed.

(** C21: checking a transaction always ends, by the deadline at the latest,
    and success is real: the transaction returned has the id asked for and
    the code VALID, and the peer delivered it in a block. *)
Theorem check_transaction_sound requestor channel peer tx_id timeout start behavior w r w' :
  check_transaction (PeerFilteredEvents requestor channel peer) tx_id timeout start behavior w
    = (r, w') →
  r ≠ Hang
  ∧ (w_clock w' <= w_clock w + Z.to_N timeout * nanos_per_second)%N
  ∧ ∀ t, r = Ok t →
      FilteredTX.tx_id t = tx_id ∧ FilteredTX.tx_validation_code t = TxValidationCode_VALID
      ∧ ∃ envelope w1 d resp block,
          (d, resp) ∈ st_items (DeliverFiltered w1 peer envelope)
          ∧ next_block (PeerFilteredEvents requestor channel peer) resp = Ok block
          ∧ t ∈ fb_transactions block.
Proof.
  intros Hr. split; [|split].
  3: intros t ->; by eapply check_transaction_Ok.
  all: revert Hr; unfold check_transaction, mbind, SE_bind, wait_for;
    destruct (Z.leb_spec timeout 0); [intros [= <- <-]; done || lia|];
    set (deadline := (w_clock w + Z.to_N timeout * nanos_per_second)%N);
    destruct (get_transaction _ tx_id start behavior w) as [[t|e|] w1];
    [destruct (N.ltb_spec (w_clock w1) deadline); unfold raise_if; [destruct (negb _)|]
    |destruct (N.ltb_spec (w_clock w1) deadline)|]; intros [= <- <-]; done || (cbn; lia).
Qed.

(** A transaction that the peer does not deliver is not found by other means:
    if every block of the stream lacks it and the peer then stays silent, the
    check waits for the timeout, committed or not. *)
Theorem missed_transaction_times_out requestor channel peer tx_id timeout start behavior w envelope w1 :
  let hub := PeerFilteredEvents requestor channel peer in
  let w2 := log (ADeliverFiltered peer envelope) w1 in
  get_connection_envelope hub start (Some INDEFINITE_STOP_POSITION) behavior w = (Ok envelope, w1) →
  Forall (λ x, skips hub tx_id x.2) (st_items (DeliverFiltered w2 peer envelope)) →
  st_end (DeliverFiltered w2 peer envelope) = Silent →
  ∃ w', check_transaction hub tx_id timeout start behavior w = (Raise TimeoutError, w')
    ∧ ((0 < timeout)%Z → w_clock w' = (w_clock w + Z.to_N timeout * nanos_per_second)%N).
Proof.
  intros hub w2 Hreq Hskip Hend. unfold check_transaction, mbind, SE_bind, wait_for.
  destruct (Z.leb_spec timeout 0) as [Ht|Ht]; [exists w; split; [done|lia]|].
  assert (∃ w3, get_transaction hub tx_id start behavior w = (Hang, w3)) as [w3 ->]; [|by eexists].
  assert (∃ w3, stream_blocks hub start (Some INDEFINITE_STOP_POSITION) behavior
    (search_body hub tx_id) w = (Hang, w3)) as [w3 Hs].
  { unfold stream_blocks. rewrite (SE_bind_run _ _ _ _ _ Hreq).
    erewrite SE_bind_run; [|reflexivity]. fold w2. rewrite <-(app_nil_r (st_items _)), for_blocks_skip by done.
    rewrite Hend. by eexists. }
  exists w3. unfold get_transaction, mbind, SE_bind. unfold search_body in Hs. by rewrite Hs.
Qed.

(** A hub that is no subclass raises [NotImplementedError] before it signs or
    sends anything: when it looks for the client's certificate. *)
Theorem base_hub_not_implemented {Resp BlockType TXType R} requestor channel status
    (transactions : BlockType → list TXType) tx_id start stop behavior seek_info
    (body : BlockType → M (option R)) w :
  build_seek_info start stop behavior = Ok seek_info →
  stream_blocks (EventHub_base (Resp := Resp) requestor channel status transactions tx_id)
    start stop behavior body w
  = (Raise (NotImplementedError []), log (ARandom DEFAULT_NONCE_SIZE) w).
Proof.
  intros Hs. unfold stream_blocks, get_connection_envelope, mbind, SE_bind, lift. by rewrite Hs.
Qed.

(** [get_transaction] never returns on the unfiltered hubs, whose blocks
    list raw bytes: [PeerEvents] and [OrdererEvents] can stream blocks but
    cannot find a transaction in them. *)
Theorem raw_get_transaction_never_returns requestor channel peer orderer tx_id start behavior w :
  (∀ t w', get_transaction (PeerEvents requestor channel peer) tx_id start behavior w ≠ (Ok t, w'))
  ∧ ∀ t w', get_transaction (OrdererEvents requestor channel orderer) tx_id start behavior w
            ≠ (Ok t, w').
Proof.
  split; intros t w' E; apply get_transaction_sound in E
    as (env & w2 & s & w3 & d & resp & block & _ & _ & _ & _ & _ & [=]).
Qed.
End lemmas.
