(* ===== verification/Roundtrip.v ===== *)
(** * Roundtrip: what a submitted transaction says

    The builders of Factories.v against the decoder of Decoded.v: what the
    generated messages contain, that transient data stays out of what is
    committed, and that decoding a submitted envelope gives back what was
    submitted. *)
From S2P Require Import Prelude PyText Sha256 Sha3 Pem Wire Protobuf Descriptors CommonProtos PeerProtos Constants TxData Errors Crypto Grpc Models Transactions Decoded Block Runtime Factories.

(** ** The messages of a generated transaction *)

Section messages.
Context `{Cryptography, Protobuf}.

Definition generated_context (user : User) (w : World) : TXContext :=
  let nonce := random_bytes (length (w_trace w)) DEFAULT_NONCE_SIZE in
  mkTXContext (user_identity user) nonce
    (compute_tx_id (user_crypto_suite user) nonce (user_identity user)) 0.

Definition cc_id (cc_name : pystr) : ChaincodeID := mkChaincodeID [] cc_name [].

Definition generated_channel_header (user : User) (cc_name channel_id : pystr) (w : World) :
    ChannelHeader :=
  channel_header_of w (generated_context user w) channel_id
    (Some (SerializeToString (mkChaincodeHeaderExtension [] (Some (cc_id cc_name)))))
    TxEndorserTransaction [].

Definition generated_header (user : User) (cc_name channel_id : pystr) (w : World) : Header :=
  mkHeader (SerializeToString (generated_channel_header user cc_name channel_id w))
    (SerializeToString (signature_header_of (generated_context user w))).

Definition invocation (cc_name : pystr) (args : list bytes) : ChaincodeInvocationSpec :=
  mkChaincodeInvocationSpec (Some (mkChaincodeSpecProto 1 (Some (cc_id cc_name))
    (Some (mkChaincodeInput args [])) 0)).

Definition proposal_payload (cc_name : pystr) (args : list bytes)
    (transient_map : list (pystr * bytes)) : ChaincodeProposalPayload :=
  mkChaincodeProposalPayload (SerializeToString (invocation cc_name args)) transient_map.

Definition proposal_of (header : Header) (payload : ChaincodeProposalPayload) : Proposal :=
  mkProposal (SerializeToString header) (SerializeToString payload) [].

Lemma build_generated_tx_Ok user cc_name args channel tm w g w' :
  build_generated_tx user cc_name args channel tm w = (Ok g, w') →
  ∃ channel_id, encode_proto_str (channel_name_of channel) = Ok channel_id
    ∧ gt_tx_context g = generated_context user w
    ∧ gt_header g = generated_header user cc_name channel_id w
    ∧ gt_proposal g = proposal_of (gt_header g) (proposal_payload cc_name args [])
    ∧ SignedProposal_proposal_bytes (gt_signed_proposal g)
      = SerializeToString (proposal_of (gt_header g) (proposal_payload cc_name args (py_or tm [])))
    ∧ sign user (SignedProposal_proposal_bytes (gt_signed_proposal g))
        (log (ARandom DEFAULT_NONCE_SIZE) w)
      = (Ok (SignedProposal_signature (gt_signed_proposal g)), w').
Proof.
  unfold build_generated_tx.
  intros (ctx & w1 & Hctx & (hdr & w2 & (-> & channel_id & th & Hid & Hth & ->)%build_header_Ok
    & (ty & w3 & Hty & (sig & w4 & Hsig & [= <- <-])%SE_bind_Ok)%SE_bind_Ok)
    %SE_bind_Ok)%SE_bind_Ok.
  rewrite tx_context_from_user_run in Hctx. injection Hctx as <- <-.
  unfold lift in Hty. rewrite language_type_golang in Hty. injection Hty as <- <-. cbn in Hth. subst th.
  exists channel_id. split; [done|]. split; [done|]. split; [done|]. split; [done|].
  cbn [gt_signed_proposal SignedProposal_proposal_bytes SignedProposal_signature].
  split; [|done]. by destruct tm as [[|e tm]|].
Qed.
End messages.

(** ** Transient data *)

Section privacy.
Context `{Cryptography, Protobuf}.

(** C16: transient data reaches the endorsing peers and nothing else.  Two
    proposals that differ only in their transient maps have the same
    context, header and recorded proposal, and whatever the peers answer,
    the envelopes built for the orderer are the same. *)
Theorem transient_map_not_submitted user cc_name args channel tm1 tm2 w g1 g2 w1 w2 :
  build_generated_tx user cc_name args channel tm1 w = (Ok g1, w1) →
  build_generated_tx user cc_name args channel tm2 w = (Ok g2, w2) →
  gt_tx_context g1 = gt_tx_context g2 ∧ gt_header g1 = gt_header g2
  ∧ gt_proposal g1 = gt_proposal g2
  ∧ ∀ responses requestor v,
      build_endorsed_tx_envelope (endorse g1 responses) requestor v
      = build_endorsed_tx_envelope (endorse g2 responses) requestor v.
Proof.
  intros (id1 & Hid1 & Hc1 & Hh1 & Hp1 & _)%build_generated_tx_Ok
    (id2 & Hid2 & Hc2 & Hh2 & Hp2 & _)%build_generated_tx_Ok.
  assert (id1 = id2) as -> by congruence.
  assert (gt_header g1 = gt_header g2) as Hh by congruence.
  assert (gt_proposal g1 = gt_proposal g2) as Hp by congruence.
  split; [congruence|]. split; [done|]. split; [done|].
  intros. unfold endorse. by rewrite Hh, Hp, Hc1, Hc2.
Qed.
End privacy.

(** ** Validity of the messages *)

(** What the client is given is text protobuf can carry, and the clock is in
    the range of a Timestamp. *)
Definition user_text_ok `{Cryptography} (user : User) : Prop := valid_str (user_msp_id user) = true.
Definition clock_ok (w : World) : Prop :=
  is_int64 (Z.of_N (w_clock w / nanos_per_second)) = true.

Lemma nanos_int32 w : is_int32 (Z.of_N (w_clock w mod nanos_per_second)) = true.
Proof.
  pose proof (N.mod_lt (w_clock w) nanos_per_second ltac:(done)) as Hlt.
  unfold is_int32, int_range. change (- 2 ^ 31)%Z with (-2147483648)%Z.
  change (2 ^ 31)%Z with 2147483648%Z. unfold nanos_per_second in *. lia.
Qed.

(** Decide the validity of a message from that of its fields. *)
Ltac solve_valid :=
  cbn; repeat match goal with
  | H : ?b = true |- context [?b] => rewrite H
  | |- context [valid_str (hexdigest ?l)] => rewrite (ascii_valid _ (hexdigest_ascii l))
  | |- context [is_int32 (Z.of_N (w_clock ?w mod nanos_per_second))] => rewrite (nanos_int32 w)
  end; try reflexivity.

Section valid.
Context `{Cryptography, ProtobufLaws}.

Lemma identity_valid user : user_text_ok user → valid (user_identity user) = true.
Proof. unfold user_text_ok. intros. by solve_valid. Qed.

Lemma channel_header_valid v w user channel_id ext ty th :
  clock_ok v → valid_str channel_id = true →
  valid (channel_header_of v (generated_context user w) channel_id ext ty th) = true.
Proof.
  unfold clock_ok. intros. unfold channel_header_of, now, generated_context, compute_tx_id.
  destruct ty; by solve_valid.
Qed.

Lemma invocation_valid cc_name args : valid_str cc_name = true → valid (invocation cc_name args) = true.
Proof. intros. by solve_valid. Qed.

Lemma parse_serialized {X} `{Message X} (x : X) :
  valid x = true → parse X (SerializeToString x) = Ok x.
Proof. intros. unfold parse. by rewrite FromString_SerializeToString. Qed.
End valid.

(** ** What is signed *)

Section signed.
Context `{CryptographyLaws, Protobuf}.

(** The user's key belongs to the user's suite. *)
Definition user_suite_ok (user : User) (level : Z) (alg : pystr) (key : PrivateKey) : Prop :=
  user_crypto_suite user = new_Ecies level alg
  ∧ user_private_key user = Some key
  ∧ key_curve key = ecies_curve (new_Ecies level alg).

Lemma sign_verifies user level alg key payload w :
  user_suite_ok user level alg key →
  ∃ sig, sign user payload w = (Ok sig, log (ASign payload) w)
    ∧ ecies_verify (user_crypto_suite user) (public_key key) payload sig = Ok true.
Proof.
  intros (Hs & Hk & Hc).
  assert (ecies_order (new_Ecies level alg) = curve_order (key_curve key)) as Ho
    by (rewrite Hc; apply new_Ecies_order).
  destruct (ecies_sign_spec (new_Ecies level alg) (length (w_trace w)) key payload
    (new_Ecies_order_ok level alg) Ho) as (r & s & E & Hr & Hlt & Hsig).
  eexists. split.
  - apply sign_Ok. exists key. rewrite Hs. split; [done|]. split; [exact Hsig|done].
  - rewrite Hs. by eapply ecies_verify_low.
Qed.

(** C23: whatever the client puts in an envelope it signs so that it verifies:
    with a key of the suite's curve [wrap_transaction] returns an envelope
    that carries the payload's bytes and a signature of exactly those bytes
    that the suite accepts for the user's public key. *)
Theorem wrapped_envelope_verifies user level alg key payload w :
  user_suite_ok user level alg key →
  ∃ env, wrap_transaction user payload w
           = (Ok env, log (ASign (SerializeToString payload)) w)
    ∧ Envelope_payload env = SerializeToString payload
    ∧ ecies_verify (user_crypto_suite user) (public_key key)
        (Envelope_payload env) (Envelope_signature env) = Ok true.
Proof.
  intros Hu. destruct (sign_verifies user level alg key (SerializeToString payload) w Hu)
    as (sig & Hs & Hv).
  exists (mkEnvelope (SerializeToString payload) sig). split; [|done].
  by apply wrap_transaction_Ok.
Qed.
End signed.

(** ** What a generated transaction says *)

Section contents.
Context `{Cryptography, ProtobufLaws}.

(** The proposal a peer is sent: the header of the transaction, the arguments
    and the transient data. *)
Lemma signed_proposal_read user cc_name args channel tm w g w' :
  build_generated_tx user cc_name args channel tm w = (Ok g, w') →
  forallb (λ e, valid_str e.1) (py_or tm []) = true →
  ∃ p, parse Proposal (SignedProposal_proposal_bytes (gt_signed_proposal g)) = Ok p
    ∧ parse Header (Proposal_header p) = Ok (gt_header g)
    ∧ parse ChaincodeProposalPayload (Proposal_payload p)
      = Ok (proposal_payload cc_name args (py_or tm [])).
Proof.
  intros (channel_id & _ & _ & _ & _ & Hsp & _)%build_generated_tx_Ok Htm.
  rewrite Hsp. eexists. split; [by apply parse_serialized|].
  cbn [proposal_of Proposal_header Proposal_payload].
  split; [by apply parse_serialized|]. apply parse_serialized.
  unfold proposal_payload. cbn. rewrite andb_true_r.
  erewrite forallb_ext; [exact Htm|]. intros e. by rewrite andb_true_r.
Qed.

(** C17: a generated transaction is the one asked for.  Its id is the hash of
    a fresh nonce and the user's identity and is the id in its channel
    header, which also names the channel and the chaincode; the proposal
    that is recorded carries the arguments and no transient data; the
    proposal that is signed and sent has the same header and arguments and
    carries the transient data. *)
Theorem generated_tx_contents user cc_name args channel tm w g w' :
  build_generated_tx user cc_name args channel tm w = (Ok g, w') →
  clock_ok w → valid_str cc_name = true → is_ascii (channel_name_of channel) = true →
  forallb (λ e, valid_str e.1) (py_or tm []) = true →
  let nonce := random_bytes (length (w_trace w)) DEFAULT_NONCE_SIZE in
  let tx_id := compute_tx_id (user_crypto_suite user) nonce (user_identity user) in
  GeneratedTX_tx_id g = tx_id
  ∧ (∃ h ext, parse ChannelHeader (Header_channel_header (gt_header g)) = Ok h
       ∧ ChannelHeader_tx_id h = tx_id ∧ ChannelHeader_channel_id h = channel_name_of channel
       ∧ ChannelHeader_type h = TransactionType_value TxEndorserTransaction
       ∧ parse ChaincodeHeaderExtension (ChannelHeader_extension h) = Ok ext
       ∧ ChaincodeHeaderExtension_chaincode_id ext = Some (cc_id cc_name))
  ∧ (∃ inp, parse ChaincodeProposalPayload (Proposal_payload (gt_proposal g))
            = Ok (mkChaincodeProposalPayload inp [])
       ∧ parse ChaincodeInvocationSpec inp = Ok (invocation cc_name args))
  ∧ (∃ p, parse Proposal (SignedProposal_proposal_bytes (gt_signed_proposal g)) = Ok p
       ∧ parse Header (Proposal_header p) = Ok (gt_header g)
       ∧ parse ChaincodeProposalPayload (Proposal_payload p)
         = Ok (proposal_payload cc_name args (py_or tm []))).
Proof.
  intros Hg Hck Hcc Hch Htm nonce tx_id.
  pose proof (signed_proposal_read _ _ _ _ _ _ _ _ Hg Htm) as Hread.
  apply build_generated_tx_Ok in Hg as (channel_id & Hid & Hctx & Hhdr & Hp & _).
  rewrite (encode_proto_str_ascii _ Hch) in Hid. injection Hid as <-.
  split; [unfold GeneratedTX_tx_id; by rewrite Hctx|]. split; [|split].
  - rewrite Hhdr. eexists _, (mkChaincodeHeaderExtension [] (Some (cc_id cc_name))).
    unfold generated_header. cbn [Header_channel_header].
    split; [apply parse_serialized, channel_header_valid; [done|by apply ascii_valid]|].
    cbn [channel_header_of ChannelHeader_tx_id ChannelHeader_channel_id ChannelHeader_type
      generated_context tc_tx_id generated_channel_header]. split_and!; try done.
    unfold generated_channel_header, channel_header_of. cbn [ChannelHeader_extension].
    rewrite py_or_Some. apply parse_serialized. by solve_valid.
  - rewrite Hp. exists (SerializeToString (invocation cc_name args)). cbn [proposal_of Proposal_payload].
    split; [by apply parse_serialized|]. by apply parse_serialized, invocation_valid.
  - exact Hread.
Qed.
End contents.

(** ** Decoding what was submitted *)

Definition endorsement_of (r : ProposalResponse) : Endorsement :=
  default Endorsement_default (ProposalResponse_endorsement r).

Section decoding.
Context `{Cryptography, ProtobufLaws}.

(** The signature header of a context, decoded. *)
Definition decoded_creator (user : User) (w : World) : DecodedSignatureHeader :=
  mkDecodedSignatureHeader (user_identity user)
    (random_bytes (length (w_trace w)) DEFAULT_NONCE_SIZE).

Lemma SignatureHeader_decode_context user w :
  user_text_ok user →
  SignatureHeader_decode (SerializeToString (signature_header_of (generated_context user w)))
    = Ok (decoded_creator user w).
Proof.
  intros Hu. unfold SignatureHeader_decode. rewrite parse_serialized by done. step_outcome.
  cbn [signature_header_of SignatureHeader_creator generated_context tc_identity].
  by rewrite parse_serialized by by apply identity_valid.
Qed.

Lemma Header_decode_context user w ch :
  user_text_ok user → valid ch = true →
  Header_decode (mkHeader (SerializeToString ch)
                   (SerializeToString (signature_header_of (generated_context user w))))
    = Ok (mkDecodedHeader ch (decoded_creator user w)).
Proof.
  intros Hu Hch. unfold Header_decode. cbn [Header_channel_header Header_signature_header].
  rewrite parse_serialized by done. step_outcome. by rewrite SignatureHeader_decode_context.
Qed.

Lemma header_of_some h data : header_of (mkPayload (Some h) data) = h.
Proof. done. Qed.

(** A wrapped payload is decoded by the type its channel header names. *)
Lemma DecodedTX_decode_wrapped user w ch ty data env :
  user_text_ok user → valid ch = true → ChannelHeader_type ch = TransactionType_value ty →
  Envelope_payload env = SerializeToString (mkPayload (Some (mkHeader (SerializeToString ch)
    (SerializeToString (signature_header_of (generated_context user w))))) data) →
  DecodedTX_decode (SerializeToString env)
    = (payload_data ← PayloadData_decode ty data;
       mret (mkDecodedTX (Envelope_signature env)
               (mkDecodedPayload (mkDecodedHeader ch (decoded_creator user w)) payload_data))).
Proof.
  intros Hu Hch Hty Hp. unfold DecodedTX_decode. rewrite parse_serialized by done. step_outcome.
  rewrite Hp, parse_serialized by done. step_outcome.
  rewrite header_of_some. cbn [Payload_data]. rewrite (Header_decode_context user w ch Hu Hch). step_outcome.
  cbn [dh_channel_header]. unfold new_TransactionType.
  by rewrite Hty, TransactionType_of_value.
Qed.

Lemma Endorsement_decode_Ok e id :
  parse SerializedIdentity (Endorsement_endorser e) = Ok id →
  Endorsement_decode e = Ok (mkDecodedEndoresement id (Endorsement_signature e)).
Proof. intros He. unfold Endorsement_decode. by rewrite He. Qed.

Lemma build_endorsed_tx_envelope_Ok g r rs requestor w env w' :
  build_endorsed_tx_envelope (endorse g (r :: rs)) requestor w = (Ok env, w') →
  Envelope_payload env = SerializeToString (mkPayload (Some (gt_header g))
    (SerializeToString (mkTransaction [mkTransactionAction
      (Header_signature_header (gt_header g))
      (SerializeToString (mkChaincodeActionPayload (Proposal_payload (gt_proposal g))
        (Some (mkChaincodeEndorsedAction (ProposalResponse_payload r)
           (endorsement_of <$> r :: rs)))))]))).
Proof.
  unfold build_endorsed_tx_envelope, endorse. cbn [et_peer_responses et_header et_proposal].
  by intros [Hp _]%wrap_transaction_Ok.
Qed.

(** An envelope of endorsed answers, decoded. *)
Lemma endorsed_envelope_decode user cc_name args channel_id w r rs ids prp env :
  let ch := generated_channel_header user cc_name channel_id w in
  let header := generated_header user cc_name channel_id w in
  user_text_ok user → valid ch = true →
  Envelope_payload env = SerializeToString (mkPayload (Some header)
    (SerializeToString (mkTransaction [mkTransactionAction (Header_signature_header header)
      (SerializeToString (mkChaincodeActionPayload
        (SerializeToString (proposal_payload cc_name args []))
        (Some (mkChaincodeEndorsedAction (ProposalResponse_payload r)
           (endorsement_of <$> r :: rs)))))]))) →
  parse ProposalResponsePayload (ProposalResponse_payload r) = Ok prp →
  Forall2 (λ r id, parse SerializedIdentity (Endorsement_endorser (endorsement_of r)) = Ok id)
    (r :: rs) ids →
  DecodedTX_decode (SerializeToString env)
  = Ok (mkDecodedTX (Envelope_signature env) (mkDecodedPayload
          (mkDecodedHeader ch (decoded_creator user w))
          (PayloadTransaction (mkDecodedTransactionBody [mkDecodedTransactionAction
            (decoded_creator user w)
            (mkDecodedChaincodeActionPayload
               (mkDecodedChaincodeEndorsedAction prp
                  (zip_with (λ r id, mkDecodedEndoresement id
                               (Endorsement_signature (endorsement_of r))) (r :: rs) ids))
               (proposal_payload cc_name args []))])))).
Proof.
  intros ch header Hu Hvch Henv Hprp Hids.
  assert (mapM Endorsement_decode (endorsement_of <$> r :: rs)
    = Ok (zip_with (λ r id, mkDecodedEndoresement id
            (Endorsement_signature (endorsement_of r))) (r :: rs) ids)) as Hends.
  { apply mapM_outcome_Ok. clear -Hids. induction Hids as [|x id l k Hx _ IH]; cbn; [constructor|].
    constructor; [by apply Endorsement_decode_Ok|done]. }
  rewrite (DecodedTX_decode_wrapped user w ch TxEndorserTransaction _ env Hu Hvch)
    by done || exact Henv.
  cbn [PayloadData_decode]. unfold TransactionBody_decode.
  rewrite parse_serialized by done. step_outcome. cbn [Transaction_actions].
  cbn [mapM]. unfold TransactionAction_decode at 1.
  cbn [TransactionAction_payload TransactionAction_header].
  rewrite parse_serialized by (cbn; by rewrite forallb_True_all).
  step_outcome. unfold header. cbn [Header_signature_header generated_header].
  rewrite SignatureHeader_decode_context by done. step_outcome.
  cbn [ChaincodeActionPayload_action from_option id ChaincodeEndorsedAction_endorsements
    ChaincodeEndorsedAction_proposal_response_payload ChaincodeActionPayload_chaincode_proposal_payload].
  rewrite Hprp. step_outcome. rewrite Hends. step_outcome. by rewrite parse_serialized.
Qed.

(** C1: decoding a submitted transaction gives back what was submitted: the
    envelope the client sends to the orderer, read by the client's own
    decoder as it reads blocks, yields the generated id, channel, creator
    and nonce, the chaincode invocation with its name and arguments and no
    transient data, the first peer's response payload and the endorsements
    of all peers in order. *)
Theorem submitted_tx_decodes user cc_name args channel tm w g w1 r rs ids prp requestor v env v' :
  build_generated_tx user cc_name args channel tm w = (Ok g, w1) →
  build_endorsed_tx_envelope (endorse g (r :: rs)) requestor v = (Ok env, v') →
  user_text_ok user → clock_ok w → valid_str cc_name = true →
  is_ascii (channel_name_of channel) = true →
  parse ProposalResponsePayload (ProposalResponse_payload r) = Ok prp →
  Forall2 (λ r id, parse SerializedIdentity (Endorsement_endorser (endorsement_of r)) = Ok id)
    (r :: rs) ids →
  ∃ d ch, DecodedTX_decode (SerializeToString env) = Ok d
    ∧ DecodedTX_tx_id d = GeneratedTX_tx_id g
    ∧ d = mkDecodedTX (Envelope_signature env) (mkDecodedPayload
            (mkDecodedHeader ch (decoded_creator user w))
            (PayloadTransaction (mkDecodedTransactionBody [mkDecodedTransactionAction
              (decoded_creator user w)
              (mkDecodedChaincodeActionPayload
                 (mkDecodedChaincodeEndorsedAction prp
                    (zip_with (λ r id, mkDecodedEndoresement id
                                 (Endorsement_signature (endorsement_of r))) (r :: rs) ids))
                 (proposal_payload cc_name args []))])))
    ∧ ChannelHeader_channel_id ch = channel_name_of channel
    ∧ ChannelHeader_type ch = TransactionType_value TxEndorserTransaction.
Proof.
  intros (channel_id & Hid & Hctx & Hhdr & Hp & _)%build_generated_tx_Ok
    Henv%build_endorsed_tx_envelope_Ok Hu Hck Hcc Hch Hprp Hids.
  rewrite (encode_proto_str_ascii _ Hch) in Hid. injection Hid as <-.
  set (ch := generated_channel_header user cc_name (channel_name_of channel) w).
  assert (valid ch = true) as Hvch by (apply channel_header_valid; [done|by apply ascii_valid]).
  rewrite Hp, Hhdr in Henv. eexists _, ch.
  split; [apply (endorsed_envelope_decode user cc_name args (channel_name_of channel) w r rs ids prp env); done|]. split; [|done].
  unfold GeneratedTX_tx_id. by rewrite Hctx.
Qed.

Lemma build_envelope_Ok requestor ctx data channel tls_cert ext ty w env w' :
  build_envelope requestor ctx data channel tls_cert ext ty w = (Ok env, w') →
  ∃ channel_id tls_hash, encode_proto_str (channel_name_of channel) = Ok channel_id
    ∧ (truthy tls_cert = false → tls_hash = [])
    ∧ Envelope_payload env = SerializeToString (mkPayload (Some (mkHeader
        (SerializeToString (channel_header_of w ctx channel_id ext ty tls_hash))
        (SerializeToString (signature_header_of ctx)))) data).
Proof.
  intros (hdr & w1 & (-> & channel_id & th & Hid & Hth & ->)%build_header_Ok
    & [Hp _]%wrap_transaction_Ok)%SE_bind_Ok.
  exists channel_id, th. split; [done|]. split; [|done]. intros E. by rewrite E in Hth.
Qed.

(** C29: decoding a submitted channel configuration gives back the update and
    one signature: the client's own, over its signature header followed by
    the update, under the id of the given context and the channel's name. *)
Theorem config_update_decodes user channel config_update cu w v env v' :
  build_config_update_envelope channel (generated_context user w) user config_update v
    = (Ok env, v') →
  user_text_ok user → clock_ok v → is_ascii (channel_name channel) = true →
  parse ConfigUpdate config_update = Ok cu →
  ∃ ch sig v1,
    sign user (SerializeToString (signature_header_of (generated_context user w)) ++ config_update) v
      = (Ok sig, v1)
    ∧ DecodedTX_decode (SerializeToString env) = Ok (mkDecodedTX (Envelope_signature env)
        (mkDecodedPayload (mkDecodedHeader ch (decoded_creator user w))
           (PayloadConfigUpdate (mkDecodedConfigUpdateEnvelope cu
              [mkDecodedConfigUpdateSignature (decoded_creator user w) sig]))))
    ∧ ChannelHeader_channel_id ch = channel_name channel
    ∧ ChannelHeader_tx_id ch = tc_tx_id (generated_context user w)
    ∧ ChannelHeader_type ch = TransactionType_value TxConfigUpdate.
Proof.
  intros (sig & v1 & Hsig & (channel_id & th & Hid & Hth & Hp)%build_envelope_Ok)%SE_bind_Ok
    Hu Hck Hch Hcu.
  cbn [channel_name_of] in Hid; rewrite (encode_proto_str_ascii _ Hch) in Hid. injection Hid as <-.
  specialize (Hth eq_refl). subst th.
  set (ch := channel_header_of v1 _ _ _ _ _) in Hp. exists ch, sig, v1.
  split; [exact Hsig|]. split; [|done].
  assert (v1 = log (ASign (SerializeToString (signature_header_of (generated_context user w))
    ++ config_update)) v) as Hv1 by by apply sign_Ok in Hsig as (? & _ & _ & ?).
  assert (valid ch = true) as Hvch
    by (apply channel_header_valid; [by rewrite Hv1|by apply ascii_valid]).
  rewrite (DecodedTX_decode_wrapped user w ch TxConfigUpdate _ env Hu Hvch)
    by done || exact Hp.
  cbn [PayloadData_decode]. unfold ConfigUpdateEnvelope_decode.
  rewrite parse_serialized by done. step_outcome. cbn [ConfigUpdateEnvelope_config_update].
  rewrite Hcu. step_outcome. cbn [ConfigUpdateEnvelope_signatures mapM].
  cbn [ConfigSignature_signature_header ConfigSignature_signature].
  fold (signature_header_of (generated_context user w)).
  by rewrite SignatureHeader_decode_context by done.
Qed.
End decoding.
