(* ===== verification/Blocks.v ===== *)
(** * Blocks: what the block decoder reads

    A reference encoding for every class of models/_decoded.py.  [Coded] pairs
    the decoder of a class with its encoding and the law that decoding inverts
    it; the instances follow the nesting of the classes, from the signature
    header up to the block.  The decoder's errors are at the end. *)
From S2P Require Import Prelude PyText Sha256 Sha3 Pem Wire Protobuf Descriptors CommonProtos PeerProtos Constants TxData Errors Crypto Grpc Models Transactions Decoded Block Runtime Factories Connect Events Roundtrip.

(** ** The interface *)

(** [encodable]: what the message of a [D] can carry. *)
Class Coded (Raw D : Type) := {
  decode : Raw → res D;
  encode : D → Raw;
  encodable : D → bool;
  decode_encode d : encodable d = true → decode (encode d) = Ok d;
}.

(** Lists of coded things decode element by element. *)
Lemma mapM_decode_encode `{Coded Raw D} l :
  forallb encodable l = true → mapM decode (encode <$> l) = Ok l.
Proof.
  intros Hl. apply mapM_outcome_Ok, Forall2_fmap_l, Forall_Forall2_diag, Forall_forall.
  intros d Hd. apply decode_encode. by eapply forallb_forall, list_elem_of_In.
Qed.

(** The same for a decoder written out in the source. *)
Lemma mapM_read `{Coded Raw D} (read : Raw → res D) l :
  read = decode → forallb encodable l = true → mapM read (encode <$> l) = Ok l.
Proof. intros ->. apply mapM_decode_encode. Qed.

#[local] Arguments encode : simpl never.
#[local] Arguments encodable : simpl never.
#[local] Arguments valid : simpl never.
#[local] Arguments parse : simpl never.
#[local] Arguments TransactionType_of : simpl never.
#[local] Arguments SignatureHeader_decode : simpl never.
#[local] Arguments Header_decode : simpl never.
#[local] Arguments Endorsement_decode : simpl never.
#[local] Arguments ConfigUpdateEnvelope_decode : simpl never.

Create HintDb reads discriminated.

(** Read back the message a step has parsed, or the part of it that has a
    [Coded] of its own. *)
Ltac solve_message_ok :=
  repeat first
    [ done
    | match goal with H : ?b = true |- context [?b] => rewrite H end
    | rewrite forallb_True_all by done
    | progress cbn
    | unfold valid at 1 ].
Ltac read_back :=
  repeat (first
    [ rewrite parse_serialized by first [done | solve_message_ok]
    | rewrite mapM_read by done
    | progress autorewrite with reads ]; step_outcome; cbn).
Ltac split_ok :=
  repeat match goal with H : _ && _ = true |- _ => apply andb_true_iff in H as [? ?] end.

Section instances.
Context `{ProtobufLaws}.

#[export] Program Instance SignatureHeader_coded : Coded bytes DecodedSignatureHeader := {|
  decode := SignatureHeader_decode;
  encode d := SerializeToString (mkSignatureHeader (SerializeToString (dsh_creator d)) (dsh_nonce d));
  encodable d := valid (dsh_creator d);
|}.
Next Obligation. intros [creator nonce] Hok. unfold SignatureHeader_decode. cbn in *. by read_back. Qed.

Lemma SignatureHeader_read d : encodable d = true → SignatureHeader_decode (encode d) = Ok d.
Proof. exact (decode_encode (Raw := bytes) (D := DecodedSignatureHeader) d). Qed.
#[local] Hint Rewrite SignatureHeader_read using done : reads.

#[export] Program Instance ConfigSignature_coded : Coded ConfigSignature DecodedConfigUpdateSignature := {|
  decode s :=
    signature_header ← SignatureHeader_decode (ConfigSignature_signature_header s);
    mret (mkDecodedConfigUpdateSignature signature_header (ConfigSignature_signature s));
  encode d := mkConfigSignature (encode (dcus_signature_header d)) (dcus_signature d);
  encodable d := encodable (dcus_signature_header d);
|}.
Next Obligation. intros [h s] Hok. cbn in *. by read_back. Qed.

#[export] Program Instance MetadataSignature_coded : Coded MetadataSignature DecodedMetadataSignature := {|
  decode s :=
    signature_header ← SignatureHeader_decode (MetadataSignature_signature_header s);
    mret (mkDecodedMetadataSignature (MetadataSignature_signature s) signature_header);
  encode d := mkMetadataSignature (encode (dms_signature_header d)) (dms_signatures d);
  encodable d := encodable (dms_signature_header d);
|}.
Next Obligation. intros [s h] Hok. cbn in *. by read_back. Qed.

#[export] Program Instance Endorsement_coded : Coded Endorsement DecodedEndoresement := {|
  decode := Endorsement_decode;
  encode d := mkEndorsement (SerializeToString (de_endorser d)) (de_signature d);
  encodable d := valid (de_endorser d);
|}.
Next Obligation. intros [e s] Hok. unfold Endorsement_decode. cbn in *. by read_back. Qed.

#[export] Program Instance Header_coded : Coded Header DecodedHeader := {|
  decode := Header_decode;
  encode d := mkHeader (SerializeToString (dh_channel_header d)) (encode (dh_signature_header d));
  encodable d := valid (dh_channel_header d) && encodable (dh_signature_header d);
|}.
Next Obligation. intros [c s] Hok. cbn in *. split_ok. unfold Header_decode. cbn. by read_back. Qed.

Lemma Header_read d : encodable d = true → Header_decode (encode d) = Ok d.
Proof. exact (decode_encode (Raw := Header) (D := DecodedHeader) d). Qed.
#[local] Hint Rewrite Header_read using done : reads.

#[export] Program Instance ConfigUpdateEnvelope_coded :
    Coded bytes DecodedConfigUpdateEnvelope := {|
  decode := ConfigUpdateEnvelope_decode;
  encode d := SerializeToString (mkConfigUpdateEnvelope
    (SerializeToString (dcue_config_update d)) (encode <$> dcue_signatures d));
  encodable d := valid (dcue_config_update d) && forallb encodable (dcue_signatures d);
|}.
Next Obligation.
  intros [cu sigs] Hok. cbn in *. split_ok. unfold ConfigUpdateEnvelope_decode. by read_back.
Qed.

Lemma ConfigUpdateEnvelope_read d :
  encodable d = true → ConfigUpdateEnvelope_decode (encode d) = Ok d.
Proof. exact (decode_encode (Raw := bytes) (D := DecodedConfigUpdateEnvelope) d). Qed.
#[local] Hint Rewrite ConfigUpdateEnvelope_read using done : reads.

#[export] Program Instance Config_coded : Coded bytes DecodedConfig := {|
  decode := Config_decode;
  encode d :=
    let last := dclue_payload (dc_last_update d) in
    SerializeToString (mkConfigEnvelope (Some (dc_config d)) (Some (mkEnvelope
      (SerializeToString (mkPayload (Some (encode (dclu_header last))) (encode (dclu_data last))))
      (dclue_signature (dc_last_update d)))));
  encodable d :=
    let last := dclue_payload (dc_last_update d) in
    valid (dc_config d) && encodable (dclu_header last) && encodable (dclu_data last);
|}.
Next Obligation.
  intros [config [[header data] signature]] Hok. cbn in *. split_ok. unfold Config_decode. by read_back.
Qed.

#[export] Program Instance TransactionAction_coded :
    Coded TransactionAction DecodedTransactionAction := {|
  decode := TransactionAction_decode;
  encode d :=
    let action := dcap_action (dta_payload d) in
    mkTransactionAction (encode (dta_header d)) (SerializeToString (mkChaincodeActionPayload
      (SerializeToString (dcap_chaincode_proposal_payload (dta_payload d)))
      (Some (mkChaincodeEndorsedAction
        (SerializeToString (dcea_proposal_response_payload action))
        (encode <$> dcea_endorsements action)))));
  encodable d :=
    let action := dcap_action (dta_payload d) in
    encodable (dta_header d) && valid (dcap_chaincode_proposal_payload (dta_payload d))
    && valid (dcea_proposal_response_payload action)
    && forallb encodable (dcea_endorsements action);
|}.
Next Obligation.
  intros [header [[prp ends] cpp]] Hok. cbn in *. split_ok. unfold TransactionAction_decode. cbn. by read_back.
Qed.

#[export] Program Instance TransactionBody_coded : Coded bytes DecodedTransactionBody := {|
  decode := TransactionBody_decode;
  encode d := SerializeToString (mkTransaction (encode <$> dtb_actions d));
  encodable d := forallb encodable (dtb_actions d);
|}.
Next Obligation. intros [actions] Hok. cbn in *. unfold TransactionBody_decode. by read_back. Qed.

(** The payload's data is read as the type of its channel header says. *)
Definition payload_data_bytes (d : DecodedPayloadData) : bytes :=
  match d with
  | PayloadConfig c => encode c
  | PayloadConfigUpdate c => encode c
  | PayloadTransaction t => encode t
  | PayloadBytes b => b
  end.

Definition payload_data_fits (ty : TransactionType) (d : DecodedPayloadData) : bool :=
  match ty, d with
  | TxConfig, PayloadConfig c => encodable c
  | TxConfigUpdate, PayloadConfigUpdate c => encodable c
  | TxEndorserTransaction, PayloadTransaction t => encodable t
  | TxConfig, _ | TxConfigUpdate, _ | TxEndorserTransaction, _ => false
  | _, PayloadBytes _ => true
  | _, _ => false
  end.

Lemma PayloadData_read ty d :
  payload_data_fits ty d = true → PayloadData_decode ty (payload_data_bytes d) = Ok d.
Proof.
  destruct ty, d; intros Hok; try done; cbn in *.
  - exact (f_equal (fmap PayloadConfig) (decode_encode (Raw := bytes) (D := DecodedConfig) c Hok)).
  - exact (f_equal (fmap PayloadConfigUpdate) (decode_encode (Raw := bytes) (D := DecodedConfigUpdateEnvelope) c Hok)).
  - exact (f_equal (fmap PayloadTransaction) (decode_encode (Raw := bytes) (D := DecodedTransactionBody) t Hok)).
Qed.
#[local] Hint Rewrite PayloadData_read using done : reads.
#[local] Arguments payload_data_fits : simpl never.
#[local] Arguments PayloadData_decode : simpl never.

#[export] Program Instance TX_coded : Coded bytes DecodedTX := {|
  decode := DecodedTX_decode;
  encode d := SerializeToString (mkEnvelope (SerializeToString (mkPayload
    (Some (encode (dp_header (dtx_payload d))))
    (payload_data_bytes (dp_data (dtx_payload d))))) (dtx_signature d));
  encodable d :=
    let header := dp_header (dtx_payload d) in
    encodable header
    && match TransactionType_of (ChannelHeader_type (dh_channel_header header)) with
       | Some ty => payload_data_fits ty (dp_data (dtx_payload d))
       | None => false
       end;
|}.
Next Obligation.
  intros [signature [header data]] Hok. cbn in *. split_ok.
  destruct (TransactionType_of _) as [ty|] eqn:Hty; [|done].
  unfold DecodedTX_decode. read_back. unfold new_TransactionType. rewrite Hty.
  unfold or_raise. step_outcome. autorewrite with reads. by step_outcome.
Qed.

(** A filter byte holds a validation code. *)
Definition code_byte (code : N) : byte := default x00 (Byte.of_N code).

Lemma code_byte_to_N code : (code <? 256)%N = true → Byte.to_N (code_byte code) = code.
Proof.
  unfold code_byte. intros Hc. destruct (Byte.of_N code) as [b|] eqn:E.
  - by apply Byte.to_of_N.
  - apply Byte.of_N_None_iff in E. lia.
Qed.

Lemma code_bytes_to_N codes :
  forallb (λ c, c <? 256)%N codes = true → Byte.to_N <$> (code_byte <$> codes) = codes.
Proof.
  induction codes as [|c codes IH]; [done|]. intros [Hc Hcs]%andb_true_iff. cbn.
  rewrite code_byte_to_N by done. f_equal. by apply IH.
Qed.

#[export] Program Instance BlockMetadata_coded : Coded (list bytes) DecodedBlockMetadata := {|
  decode := block_metadata_decode;
  encode d :=
    let '(sigs, last_config, filter) := dbm_metadata d in
    [SerializeToString (mkMetadata (dm_value sigs) (encode <$> dm_signatures sigs));
     SerializeToString (mkMetadata (SerializeToString (dlcm_value last_config))
       (encode <$> dlcm_signatures last_config));
     code_byte <$> filter];
  encodable d :=
    let '(sigs, last_config, filter) := dbm_metadata d in
    forallb encodable (dm_signatures sigs) && valid (dlcm_value last_config)
    && forallb encodable (dlcm_signatures last_config) && forallb (λ c, c <? 256)%N filter;
|}.
Next Obligation.
  intros [[[[sigs value] [lsigs last]] codes]] Hok. cbn in *. split_ok.
  unfold block_metadata_decode, metadata_signatures_decode. cbn. read_back.
  by rewrite code_bytes_to_N.
Qed.

Lemma BlockMetadata_read d : encodable d = true → block_metadata_decode (encode d) = Ok d.
Proof. exact (decode_encode (Raw := list bytes) (D := DecodedBlockMetadata) d). Qed.
#[local] Hint Rewrite BlockMetadata_read using done : reads.

#[export] Program Instance Block_coded : Coded RawBlock DecodedBlock := {|
  decode := RawBlock_decode;
  encode d := mkRawBlock (db_header d) (mkBlockData (encode <$> dbd_data (db_data d)))
    (mkBlockMetadata (encode (db_metadata d)));
  encodable d :=
    valid (db_header d) && forallb encodable (dbd_data (db_data d)) && encodable (db_metadata d);
|}.
Next Obligation.
  intros [header [txs] metadata] Hok. cbn in *. split_ok.
  unfold RawBlock_decode, DecodedBlock_decode. cbn. by read_back.
Qed.

Lemma delivered_block_valid (d : DecodedBlock) :
  encodable d = true → valid (RawBlock_as_proto (encode d)) = true.
Proof. destruct d as [header [txs] metadata]. unfold encodable, encode. cbn. intros. split_ok. solve_message_ok. Qed.
End instances.

(** ** Blocks as the peers and the orderers deliver them *)

Section delivery.
Context `{Cryptography, ProtobufLaws, !Network}.

(** C12: a block the client decodes is the block that was delivered: for every
    decoded block whose texts and numbers fit their fields, the response that
    carries its encoding, serialized by the peer (or the orderer) and parsed
    by the client, is read by the hub and decoded to that block, header,
    transactions of every type, signatures and validation codes included. *)
Theorem delivered_block_decodes requestor channel peer orderer (d : DecodedBlock) :
  encodable d = true →
  (resp ← parse DeliverResponse (SerializeToString (mkDeliverResponse
             (Some (DeliverResponse_is_block (RawBlock_as_proto (encode d))))));
   raw ← next_block (PeerEvents requestor channel peer) resp;
   RawBlock_decode raw) = Ok d
  ∧ (resp ← parse OrdererDeliverResponse (SerializeToString (mkOrdererDeliverResponse
             (Some (OrdererDeliverResponse_is_block (RawBlock_as_proto (encode d))))));
     raw ← next_block (OrdererEvents requestor channel orderer) resp;
     RawBlock_decode raw) = Ok d.
Proof.
  intros Hd. pose proof (delivered_block_valid d Hd) as Hv.
  pose proof (decode_encode (Raw := RawBlock) d Hd : RawBlock_decode (encode d) = Ok d) as Hr.
  rewrite !parse_serialized by solve_message_ok. step_outcome.
  cbn. by rewrite RawBlock_from_as_proto.
Qed.
End delivery.

(** ** What decoding can do *)

Section outcomes.
Context `{Protobuf}.

(** A message that does not parse, or a transaction type of no name. *)
Definition unreadable (e : exn) : Prop :=
  e = DecodeError ∨ ∃ n, e = ValueError (str_of_Z n ++ u " is not a valid TransactionType").

Definition metadata_missing (metadata : list bytes) (e : exn) : Prop :=
  e = IndexError (u "list index out of range") ∧ (length metadata < 3)%nat.

Lemma settles_parse {X} `{Message X} (Q : exn → Prop) data : Q DecodeError → settles Q (parse X data).
Proof. apply settles_or_raise. Qed.

Lemma settles_metadata_at (Q : exn → Prop) metadata i :
  (i < 3)%nat → (∀ e, metadata_missing metadata e → Q e) → settles Q (metadata_at metadata i).
Proof.
  intros Hi HQ. unfold metadata_at. destruct (metadata !! i) eqn:E; [done|].
  apply HQ. split; [done|]. apply lookup_ge_None in E. lia.
Qed.

(** Step through a decoder, whose parses may each raise [DecodeError]. *)
Ltac settle_decoder :=
  repeat first
    [ progress intros | by left
    | apply settles_parse | apply settles_bind | apply settles_mapM | apply settles_fmap
    | apply settles_ret ].

Lemma SignatureHeader_settles data : settles unreadable (SignatureHeader_decode data).
Proof. unfold SignatureHeader_decode. settle_decoder. Qed.

Lemma Header_settles header : settles unreadable (Header_decode header).
Proof. unfold Header_decode, SignatureHeader_decode. settle_decoder. Qed.

Lemma ConfigUpdateEnvelope_settles data : settles unreadable (ConfigUpdateEnvelope_decode data).
Proof. unfold ConfigUpdateEnvelope_decode, SignatureHeader_decode. settle_decoder. Qed.

Lemma PayloadData_settles ty data : settles unreadable (PayloadData_decode ty data).
Proof.
  destruct ty; try done; cbn;
    unfold Config_decode, TransactionBody_decode, TransactionAction_decode, Endorsement_decode,
      SignatureHeader_decode, Header_decode, ConfigUpdateEnvelope_decode, SignatureHeader_decode;
    settle_decoder.
Qed.

Lemma TX_settles data : settles unreadable (DecodedTX_decode data).
Proof.
  unfold DecodedTX_decode.
  settle_decoder; first [apply Header_settles|apply PayloadData_settles|apply settles_or_raise].
  right. by eexists.
Qed.

Lemma block_metadata_settles metadata :
  settles (λ e, unreadable e ∨ metadata_missing metadata e) (block_metadata_decode metadata).
Proof.
  unfold block_metadata_decode, metadata_signatures_decode, SignatureHeader_decode.
  settle_decoder; try (apply settles_metadata_at; [compute; lia|by right]); by left; left.
Qed.

Lemma block_settles raw :
  settles (λ e, unreadable e ∨ metadata_missing (BlockMetadata_metadata (rb_metadata raw)) e)
    (RawBlock_decode raw).
Proof.
  unfold RawBlock_decode, DecodedBlock_decode.
  apply settles_bind; [|intros txs; by apply settles_bind; [apply block_metadata_settles|]].
  apply settles_mapM. intros tx. by apply (settles_weaken _ unreadable); [left|apply TX_settles].
Qed.

Lemma metadata_at_Ok metadata i l : metadata_at metadata i = Ok l → metadata !! i = Some l.
Proof. unfold metadata_at. by destruct (metadata !! i); intros [=->]. Qed.

Lemma block_metadata_decode_Ok metadata d :
  block_metadata_decode metadata = Ok d →
  ∃ filter, metadata !! TRANSACTIONS_FILTER = Some filter
    ∧ (dbm_metadata d).2 = Byte.to_N <$> filter.
Proof.
  intros Hd. unfold block_metadata_decode in Hd.
  repeat (apply outcome_bind_Ok in Hd as (? & ?Hstep & Hd)).
  injection Hd as <-. eexists. by split; [apply metadata_at_Ok|].
Qed.

(** C32: decoding a raw block, whatever a peer sends: it always ends; a block
    it returns has the raw block's header, its transactions decoded one by
    one in order, and its filter bytes as validation codes; it raises only
    [DecodeError] for a message that does not parse, the [ValueError] of an
    unknown transaction type, or [IndexError] when the metadata has fewer
    than three entries. *)
Theorem raw_block_decode_outcome (raw : RawBlock) :
  match RawBlock_decode raw with
  | Ok d => db_header d = rb_header raw
      ∧ Forall2 (λ l tx, DecodedTX_decode l = Ok tx)
          (RawBlock_transactions raw) (DecodedBlock_transactions d)
      ∧ ∃ filter, BlockMetadata_metadata (rb_metadata raw) !! TRANSACTIONS_FILTER = Some filter
          ∧ (dbm_metadata (db_metadata d)).2 = Byte.to_N <$> filter
  | Raise e => unreadable e ∨ metadata_missing (BlockMetadata_metadata (rb_metadata raw)) e
  | Hang => False
  end.
Proof.
  pose proof (block_settles raw) as Hs.
  destruct (RawBlock_decode raw) as [d| |] eqn:Hd; [|exact Hs|exact Hs].
  apply outcome_bind_Ok in Hd as (txs & Htxs & (md & Hmd & [= <-])%outcome_bind_Ok).
  split; [done|]. split; [by apply mapM_outcome_Ok|]. by apply block_metadata_decode_Ok.
Qed.
End outcomes.
