(* ===== verification/Policies.v ===== *)
(** * Policies: the roles of an endorsement policy and its SignaturePolicy

    [EndorsementPolicy.all_roles] and [role_map] of models/__init__.py, and
    [build_endorsement_policy] and [build_signature_policy_envelope] of
    factories.py.  The abstract specification is [policy_holds], what a policy
    means; the built message is evaluated by [rule_holds], the meaning
    policies.proto gives a SignaturePolicy. *)
From S2P Require Import Prelude PyText Wire Protobuf Descriptors CommonProtos PeerProtos Constants TxData Errors Crypto Grpc Models.

(** ** The builders *)

(** Assigning to an int32 field: [ValueError] out of range. *)
Definition int32_field (z : Z) : res Z :=
  if is_int32 z then mret z else Raise (ValueError (u "Value out of range: " ++ str_of_Z z)).

Section builders.
Context `{PySet}.

(** [role_map or policy.role_map] *)
Definition effective_role_map (role_map' : option (gmap EndorsementPolicyRole Z))
    (p : EndorsementPolicy) : gmap EndorsementPolicyRole Z :=
  match role_map' with
  | Some m => if decide (m = ∅) then role_map p else m
  | None => role_map p
  end.

Definition policy_n_out_of (p : EndorsementPolicy) : res Z :=
  match ep_expr p with
  | PolicyAnd => mret (Z.of_nat (length (ep_roles p) + length (ep_sub_policies p)))
  | PolicyOr => mret 1%Z
  | PolicyOutOf =>
    match ep_out_of p with
    | None | Some 0%Z => Raise (ValueError (u "Must supply out_of"))
    | Some n => mret n
    end
  end.

Definition role_rule (rmap : gmap EndorsementPolicyRole Z) (r : EndorsementPolicyRole) :
    res SignaturePolicy :=
  idx ← or_raise (KeyError (role_key r)) (rmap !! r);
  idx ← int32_field idx;
  mret (SignaturePolicy_signed_by idx).

Fixpoint build_endorsement_policy (p : EndorsementPolicy)
    (role_map' : option (gmap EndorsementPolicyRole Z)) : res SignaturePolicy :=
  let rmap := effective_role_map role_map' p in
  n_out_of ← policy_n_out_of p;
  role_rules ← mapM (role_rule rmap) (ep_roles p);
  sub_rules ← match p with mkEndorsementPolicy _ _ _ subs =>
    mapM (λ sub, build_endorsement_policy sub (Some rmap)) subs end;
  n_out_of ← int32_field n_out_of;
  mret (SignaturePolicy_n_out_of n_out_of (role_rules ++ sub_rules)).

(** [MSPRole.MSPRoleType.Value(role.role.upper())] *)
Definition msp_role_type (r : EndorsementPolicyRole) : res Z :=
  or_raise (ValueError (u "Enum MSPRoleType has no value defined for name "
                        ++ py_upper (role_role r)))
    (EnumValue ENUM_MSPRole_MSPRoleType (py_upper (role_role r))).

Context `{Protobuf}.

Definition role_principal (r : EndorsementPolicyRole) : res MSPPrincipal :=
  ty ← msp_role_type r;
  (* MSPPrincipal.ROLE *)
  mret (mkMSPPrincipal 0 (SerializeToString (mkMSPRole (role_msp r) ty))).

Definition build_signature_policy_envelope (p : EndorsementPolicy) : res SignaturePolicyEnvelope :=
  rule ← build_endorsement_policy p None;
  identities ← mapM role_principal (all_roles p);
  mret (mkSignaturePolicyEnvelope 0 (Some rule) identities).
End builders.

(** ** Specification *)

Definition count_true (l : list bool) : Z := Z.of_nat (length (List.filter id l)).

(** What a policy means, given which roles have signed. *)
Fixpoint policy_holds (signed : EndorsementPolicyRole → bool) (p : EndorsementPolicy) : bool :=
  match p with
  | mkEndorsementPolicy e n roles subs =>
    let parts := (signed <$> roles) ++ (policy_holds signed <$> subs) in
    match e with
    | PolicyAnd => forallb id parts
    | PolicyOr => existsb id parts
    | PolicyOutOf => (default 0 n <=? count_true parts)%Z
    end
  end.

(** policies.proto: [signed_by] holds when that identity signed, [n_out_of]
    when at least n of its rules hold. *)
Fixpoint rule_holds (signed_by : Z → bool) (s : SignaturePolicy) : bool :=
  match s with
  | SignaturePolicy_unset => false
  | SignaturePolicy_signed_by idx => signed_by idx
  | SignaturePolicy_n_out_of n rules => (n <=? count_true (rule_holds signed_by <$> rules))%Z
  end.

(** An envelope evaluates its rule with the identity at each index, read as
    the MSP and role type it encodes. *)
Definition envelope_holds `{Protobuf} (signed : pystr → Z → bool) (env : SignaturePolicyEnvelope) : bool :=
  match SignaturePolicyEnvelope_rule env with
  | None => false
  | Some rule =>
    rule_holds (λ idx,
      match SignaturePolicyEnvelope_identities env !! Z.to_nat idx with
      | Some principal =>
        match FromString MSPRole (MSPPrincipal_principal principal) with
        | Some r => signed (MSPRole_msp_identifier r) (MSPRole_role r)
        | None => false
        end
      | None => false
      end) rule
  end.

(** The indexes a rule refers to. *)
Fixpoint rule_indexes (s : SignaturePolicy) : list Z :=
  match s with
  | SignaturePolicy_unset => []
  | SignaturePolicy_signed_by idx => [idx]
  | SignaturePolicy_n_out_of _ rules => flat_map rule_indexes rules
  end.

(** A role occurs in a policy or in one of its sub-policies. *)
Inductive occurs (r : EndorsementPolicyRole) : EndorsementPolicy → Prop :=
  | occurs_here p : r ∈ ep_roles p → occurs r p
  | occurs_sub p sub : sub ∈ ep_sub_policies p → occurs r sub → occurs r p.

(** Policies the builder accepts: an OutOf node names a count other than zero,
    and no number of it leaves int32. *)
Fixpoint policy_ok (p : EndorsementPolicy) : bool :=
  match p with
  | mkEndorsementPolicy e n roles subs =>
    match e with
    | PolicyAnd => is_int32 (Z.of_nat (length roles + length subs))
    | PolicyOr => true
    | PolicyOutOf => match n with Some n => negb (n =? 0)%Z && is_int32 n | None => false end
    end && forallb policy_ok subs
  end.

(** ** Sorting *)

Lemma str_leb_refl s : str_leb s s = true.
Proof. induction s as [|a s IH]; cbn; [done|]. by rewrite N.eqb_refl. Qed.
Lemma str_leb_total s t : str_leb s t = true ∨ str_leb t s = true.
Proof.
  revert t. induction s as [|a s IH]; intros [|b t]; cbn; eauto.
  rewrite (N.eqb_sym b a). destruct (N.eqb_spec a b); [apply IH|].
  destruct (N.ltb_spec a b); [by left|right]. apply N.ltb_lt. lia.
Qed.
Lemma str_leb_trans s t v : str_leb s t = true → str_leb t v = true → str_leb s v = true.
Proof.
  revert t v. induction s as [|a s IH]; intros [|b t] [|c v]; cbn; try done.
  destruct (N.eqb_spec a b), (N.eqb_spec b c), (N.eqb_spec a c); subst; try done; eauto;
    rewrite ?N.ltb_lt; try lia.
Qed.
Lemma str_leb_antisym s t : str_leb s t = true → str_leb t s = true → s = t.
Proof.
  revert t. induction s as [|a s IH]; intros [|b t]; cbn; try done.
  rewrite (N.eqb_sym b a). destruct (N.eqb_spec a b) as [->|].
  - intros. f_equal. auto.
  - rewrite !N.ltb_lt. lia.
Qed.

Definition role_le (r s : EndorsementPolicyRole) : Prop := str_leb (role_key r) (role_key s) = true.

#[global] Instance role_le_trans : Transitive role_le.
Proof. intros r s t. apply str_leb_trans. Qed.

Lemma insert_role_perm r l : insert_role r l ≡ₚ r :: l.
Proof.
  induction l as [|x l IH]; cbn; [done|]. case_match; [done|].
  rewrite IH. apply Permutation_swap.
Qed.
Lemma sorted_roles_perm l : sorted_roles l ≡ₚ l.
Proof. induction l as [|r l IH]; cbn; [done|]. by rewrite insert_role_perm, IH. Qed.

Lemma insert_role_sorted r l : StronglySorted role_le l → StronglySorted role_le (insert_role r l).
Proof.
  induction 1 as [|x l Hl IH Hx]; cbn; [repeat constructor|]. case_match eqn:E.
  - constructor; [by constructor|]. constructor; [done|].
    eapply Forall_impl; [exact Hx|]. intros y. by apply (role_le_trans r x y).
  - constructor; [done|]. rewrite insert_role_perm. constructor; [|done].
    destruct (str_leb_total (role_key r) (role_key x)); [congruence|done].
Qed.
Lemma sorted_roles_sorted l : StronglySorted role_le (sorted_roles l).
Proof. induction l; cbn; [constructor|]. by apply insert_role_sorted. Qed.

(** ** The roles of a policy *)

Section roles.
Context `{PySet}.

Lemma fold_union_elem (f : EndorsementPolicy → list EndorsementPolicyRole) subs
    (s : gset EndorsementPolicyRole) r :
  r ∈ fold_left (λ s sub, s ∪ list_to_set (f sub)) subs s ↔
  r ∈ s ∨ ∃ sub, sub ∈ subs ∧ r ∈ f sub.
Proof.
  revert s. induction subs as [|x subs IH]; intros s; cbn; [set_solver|].
  rewrite IH, elem_of_union, elem_of_list_to_set. set_solver.
Qed.

Lemma all_roles_perm p :
  all_roles p ≡ₚ elements (fold_left (λ s sub, s ∪ list_to_set (all_roles sub))
    (ep_sub_policies p) (list_to_set (ep_roles p)) : gset EndorsementPolicyRole).
Proof. destruct p; cbn. by rewrite sorted_roles_perm, set_iter_elements. Qed.

Lemma all_roles_NoDup p : NoDup (all_roles p).
Proof. rewrite all_roles_perm. apply NoDup_elements. Qed.

Lemma all_roles_sorted p : StronglySorted role_le (all_roles p).
Proof. destruct p; cbn. apply sorted_roles_sorted. Qed.

Lemma elem_of_all_roles p r :
  r ∈ all_roles p ↔ r ∈ ep_roles p ∨ ∃ sub, sub ∈ ep_sub_policies p ∧ r ∈ all_roles sub.
Proof.
  rewrite all_roles_perm, elem_of_elements, fold_union_elem, elem_of_list_to_set. done.
Qed.

Lemma elem_of_all_roles_occurs p r : r ∈ all_roles p ↔ occurs r p.
Proof.
  induction p as [e o rs subs IH] using EndorsementPolicy_strong_ind.
  rewrite Forall_forall in IH. rewrite elem_of_all_roles. cbn [ep_roles ep_sub_policies]. split.
  - intros [Hr|(sub & Hsub & Hr)]; [by constructor|].
    apply IH in Hr; [|done]. by apply (occurs_sub _ _ sub).
  - inversion 1 as [? Hr|? sub Hsub Hocc]; subst; [by left|right].
    exists sub. split; [done|]. by apply IH.
Qed.
End roles.

(** Two sorted enumerations of the same set agree when the key is injective on
    it. *)
Lemma sorted_unique (l k : list EndorsementPolicyRole) :
  StronglySorted role_le l → StronglySorted role_le k → l ≡ₚ k →
  (∀ r s, r ∈ l → s ∈ l → role_key r = role_key s → r = s) → l = k.
Proof.
  intros Hl. revert k. induction Hl as [|x l Hl IH Hx]; intros k Hk Hp Hinj.
  - by apply Permutation_nil_l in Hp.
  - destruct k as [|y k]; [by apply Permutation_nil_r in Hp|].
    inversion Hk as [|?? Hk' Hy]; subst. rewrite Forall_forall in Hx, Hy.
    assert (x = y) as ->.
    { assert (x ∈ y :: k) as Hxk by (rewrite <-Hp; left).
      assert (y ∈ x :: l) as Hyl by (rewrite Hp; left).
      apply elem_of_cons in Hxk as [|Hxk]; [done|].
      pose proof Hyl as Hyl'. apply elem_of_cons in Hyl' as [|Hyl']; [done|].
      apply Hinj; [left|done|]. apply str_leb_antisym; [by apply Hx|by apply Hy]. }
    f_equal. apply IH; [done|by apply Permutation_cons_inv in Hp|].
    intros r s Hr Hs. apply Hinj; by right.
Qed.

(** ** The index of a role *)

Lemma fold_insert_lookup (l : list (Z * EndorsementPolicyRole))
    (m : gmap EndorsementPolicyRole Z) r i :
  NoDup (l.*2) →
  fold_left (λ m e, <[e.2 := e.1]> m) l m !! r = Some i
  ↔ (i, r) ∈ l ∨ ((r ∉ (l.*2)) ∧ m !! r = Some i).
Proof.
  revert m. induction l as [|[j s] l IH]; intros m Hnd; cbn.
  { split; [intros ?; right; split; [apply not_elem_of_nil|done]|].
    intros [[]%not_elem_of_nil|[_ ?]]; done. }
  inversion Hnd as [|?? Hs Hnd']; subst. rewrite IH by done. rewrite !elem_of_cons.
  destruct (decide (s = r)) as [->|Hne].
  - rewrite lookup_insert_eq. split.
    + intros [?|[? [= ->]]]; auto.
    + intros [[[= ->]|?]|[Hn _]]; [by right|by left|]. exfalso. apply Hn. by left.
  - rewrite lookup_insert_ne by done. split.
    + intros [?|[? ?]]; [auto|right]. split; [|done]. by intros [|].
    + intros [[[= -> ->]|?]|[Hr ?]]; [done|auto|right]. split; [|done].
      intros ?. apply Hr. by right.
Qed.

Section role_map.
Context `{PySet}.

Lemma role_map_lookup p r i :
  role_map p !! r = Some i ↔ ∃ k, i = Z.of_nat k ∧ all_roles p !! k = Some r.
Proof.
  unfold role_map. set (l := all_roles p).
  assert ((zip (Z.of_nat <$> seq 0 (length l)) l).*2 = l) as Hsnd
    by (apply snd_zip; by rewrite length_fmap, length_seq).
  rewrite fold_insert_lookup by (rewrite Hsnd; apply all_roles_NoDup).
  rewrite lookup_empty, list_elem_of_lookup. split.
  - intros [[k (? & ? & Hk & Hf & Hl)%lookup_zip_with_Some]|[_ [=]]].
    apply list_lookup_fmap_Some in Hf as (? & -> & Hs).
    apply lookup_seq in Hs as [-> ?]. exists k. by simplify_eq.
  - intros (k & -> & Hk). left. exists k. apply lookup_zip_with_Some.
    exists (Z.of_nat k), r. split_and!; [done| |done].
    pose proof (lookup_lt_Some _ _ _ Hk).
    rewrite list_lookup_fmap, (lookup_seq_lt 0 (length l) k) by done. done.
Qed.

Lemma role_map_is_Some p r : is_Some (role_map p !! r) ↔ r ∈ all_roles p.
Proof.
  rewrite list_elem_of_lookup. split.
  - intros [i (k & _ & Hk)%role_map_lookup]. eauto.
  - intros [k Hk]. exists (Z.of_nat k). apply role_map_lookup. eauto.
Qed.

Lemma role_map_bound p r i :
  role_map p !! r = Some i → (0 ≤ i < Z.of_nat (length (all_roles p)))%Z.
Proof. intros (k & -> & Hk%lookup_lt_Some)%role_map_lookup. lia. Qed.

Lemma role_map_empty p : role_map p = ∅ ↔ all_roles p = [].
Proof.
  split; intros E.
  - destruct (all_roles p) as [|r l] eqn:El; [done|].
    assert (is_Some (role_map p !! r)) as [i Hi]
      by (apply role_map_is_Some; rewrite El; left).
    by rewrite E, lookup_empty in Hi.
  - apply map_empty. intros r. apply eq_None_not_Some.
    rewrite role_map_is_Some, E. apply not_elem_of_nil.
Qed.

(** The map a node passes down is the one its sub-policies use. *)
Definition covers (rm : gmap EndorsementPolicyRole Z) (p : EndorsementPolicy) : Prop :=
  ∀ r, r ∈ all_roles p → is_Some (rm !! r).

Lemma covers_role_map p : covers (role_map p) p.
Proof. intros r. apply role_map_is_Some. Qed.

Lemma covers_sub rm p sub : covers rm p → sub ∈ ep_sub_policies p → covers rm sub.
Proof. intros Hc Hs r Hr. apply Hc, elem_of_all_roles. eauto. Qed.

Lemma covers_role rm p r : covers rm p → r ∈ ep_roles p → is_Some (rm !! r).
Proof. intros Hc Hr. apply Hc, elem_of_all_roles. eauto. Qed.

Lemma effective_covers rm p : covers rm p → effective_role_map (Some rm) p = rm.
Proof.
  intros Hc. unfold effective_role_map. destruct (decide (rm = ∅)) as [->|]; [|done].
  apply role_map_empty. destruct (all_roles p) as [|r l] eqn:E; [done|].
  destruct (Hc r) as [i Hi]; [rewrite E; left|]. by rewrite lookup_empty in Hi.
Qed.
End role_map.

(** ** Inverting the builder *)

Lemma int32_field_Ok z x : int32_field z = Ok x ↔ is_int32 z = true ∧ x = z.
Proof. unfold int32_field. case_match; cbn; split; [by intros [= <-]|by intros [_ ->]|done|by intros []]. Qed.

Lemma role_rule_Ok rm r x :
  role_rule rm r = Ok x ↔
  ∃ i, rm !! r = Some i ∧ is_int32 i = true ∧ x = SignaturePolicy_signed_by i.
Proof.
  unfold role_rule. rewrite outcome_bind_Ok. setoid_rewrite outcome_bind_Ok.
  setoid_rewrite or_raise_Ok. setoid_rewrite int32_field_Ok. split.
  - intros (i & Hi & j & [? ->] & [= <-]). eauto.
  - intros (i & Hi & ? & ->). exists i. split; [done|]. by exists i.
Qed.

Section build.
Context `{PySet}.

Lemma build_Ok p rm' rule :
  build_endorsement_policy p rm' = Ok rule ↔
  ∃ n role_rules sub_rules,
    policy_n_out_of p = Ok n ∧ is_int32 n = true
    ∧ Forall2 (λ r x, role_rule (effective_role_map rm' p) r = Ok x) (ep_roles p) role_rules
    ∧ Forall2 (λ sub x, build_endorsement_policy sub (Some (effective_role_map rm' p)) = Ok x)
        (ep_sub_policies p) sub_rules
    ∧ rule = SignaturePolicy_n_out_of n (role_rules ++ sub_rules).
Proof.
  destruct p as [e o rs subs]. cbn [build_endorsement_policy ep_roles ep_sub_policies].
  set (rm := effective_role_map _ _). split.
  - intros (n & Hn & (rrs & Hrs & (srs & Hss & (n' & [Hi ->]%int32_field_Ok & [= <-])
      %outcome_bind_Ok)%outcome_bind_Ok)%outcome_bind_Ok)%outcome_bind_Ok.
    exists n, rrs, srs. apply mapM_outcome_Ok in Hrs, Hss. done.
  - intros (n & rrs & srs & -> & Hi & Hrs%mapM_outcome_Ok & Hss%mapM_outcome_Ok & ->). cbn.
    rewrite Hrs. cbn. rewrite Hss. cbn. unfold int32_field. by rewrite Hi.
Qed.

(** *** Meaning *)

Lemma forallb_count l : forallb id l = (Z.of_nat (length l) <=? count_true l)%Z.
Proof.
  unfold count_true. induction l as [|[] l IH]; cbn; [done| |].
  - rewrite IH. lia.
  - symmetry. apply Z.leb_gt. pose proof (filter_length_le id l). lia.
Qed.
Lemma existsb_count l : existsb id l = (1 <=? count_true l)%Z.
Proof. unfold count_true. induction l as [|[] l IH]; cbn; [done|lia|done]. Qed.

Lemma policy_holds_count signed e o rs subs n :
  policy_n_out_of (mkEndorsementPolicy e o rs subs) = Ok n →
  policy_holds signed (mkEndorsementPolicy e o rs subs)
    = (n <=? count_true ((signed <$> rs) ++ (policy_holds signed <$> subs)))%Z.
Proof.
  unfold policy_n_out_of. cbn. destruct e.
  - intros [= <-]. rewrite forallb_count. by rewrite length_app, !length_fmap.
  - intros [= <-]. apply existsb_count.
  - destruct o as [[]|]; intros [= <-]; done.
Qed.

(** What the server's reading of an index must be: whether the role the map
    gives that index has signed. *)
Definition reads (sb : Z → bool) (signed : EndorsementPolicyRole → bool)
    (rm : gmap EndorsementPolicyRole Z) : Prop :=
  ∀ r i, rm !! r = Some i → sb i = signed r.

Lemma build_rule_holds sb signed p rm' rule :
  covers (effective_role_map rm' p) p →
  reads sb signed (effective_role_map rm' p) →
  build_endorsement_policy p rm' = Ok rule →
  rule_holds sb rule = policy_holds signed p.
Proof.
  intros Hc Hr. revert rm' rule Hc Hr.
  induction p as [e o rs subs IH] using EndorsementPolicy_strong_ind.
  intros rm' rule Hc Hr (n & rrs & srs & Hn & _ & Hrs & Hss & ->)%build_Ok.
  rewrite (policy_holds_count signed e o rs subs n Hn). cbn [rule_holds].
  set (rm := effective_role_map _ _) in *. clearbody rm. cbn [ep_roles ep_sub_policies] in *.
  do 2 f_equal. rewrite fmap_app. f_equal.
  - clear -Hrs Hr. induction Hrs as [|r x rs rrs Hx _ IH]; cbn; [done|].
    apply role_rule_Ok in Hx as (i & Hi & _ & ->). cbn. f_equal; [by apply Hr|done].
  - assert (∀ sub, sub ∈ subs → covers rm sub) as Hcs
      by (intros sub Hsub; by apply (covers_sub rm (mkEndorsementPolicy e o rs subs))).
    clear -Hss Hr IH Hcs. induction Hss as [|sub x subs srs Hx _ IHs]; cbn; [done|].
    inversion IH as [|?? IH1 IH2]; subst.
    assert (effective_role_map (Some rm) sub = rm) as E
      by (apply effective_covers, Hcs; left).
    f_equal.
    + apply (IH1 (Some rm)); rewrite ?E; [apply Hcs; left|done|done].
    + apply IHs; [done|]. intros sub' Hsub'. apply Hcs. by right.
Qed.
End build.

(** ** Which policies are accepted, and the errors for the others *)

Definition is_ValueError (e : exn) : Prop := ∃ msg, e = ValueError msg.

Section outcome.
Context `{PySet}.

Lemma policy_n_out_of_ok e o rs subs :
  (if match e with
      | PolicyAnd => is_int32 (Z.of_nat (length rs + length subs))
      | PolicyOr => true
      | PolicyOutOf => match o with Some n => negb (n =? 0)%Z && is_int32 n | None => false end
      end
   then ∃ n, policy_n_out_of (mkEndorsementPolicy e o rs subs) = Ok n ∧ is_int32 n = true
   else (∃ n, policy_n_out_of (mkEndorsementPolicy e o rs subs) = Ok n ∧ is_int32 n = false)
        ∨ ∃ msg, policy_n_out_of (mkEndorsementPolicy e o rs subs) = Raise (ValueError msg)).
Proof.
  unfold policy_n_out_of. cbn [ep_expr ep_roles ep_sub_policies ep_out_of]. destruct e.
  - case_match; eauto.
  - by exists 1%Z.
  - destruct o as [n|]; [|by right; eexists].
    destruct (Z.eqb_spec n 0) as [->|Hn]; cbn [negb andb]; [by right; eexists|].
    destruct n; [done| |]; case_match; eauto.
Qed.

Lemma build_outcome p rm' :
  covers (effective_role_map rm' p) p →
  (∀ r i, effective_role_map rm' p !! r = Some i → is_int32 i = true) →
  if policy_ok p then ∃ rule, build_endorsement_policy p rm' = Ok rule
  else ∃ e, build_endorsement_policy p rm' = Raise e ∧ is_ValueError e.
Proof.
  revert rm'. induction p as [e o rs subs IH] using EndorsementPolicy_strong_ind.
  intros rm' Hc Hi. rewrite Forall_forall in IH.
  pose proof (policy_n_out_of_ok e o rs subs) as Hn.
  cbn [policy_ok build_endorsement_policy ep_roles]. set (rm := effective_role_map _ _) in *.
  destruct (mapM (role_rule rm) rs) as [rrs| |] eqn:Hrs.
  2,3: exfalso; pose proof (mapM_outcome_forallb (role_rule rm) (λ _, true) (λ _, False) rs) as Hm;
    rewrite Hrs in Hm; destruct (forallb _ rs);
    (destruct Hm as [? ?]; [|naive_solver]); intros r Hr;
    destruct (covers_role rm _ r Hc Hr) as [i Hri];
    eexists; apply role_rule_Ok; eauto.
  assert (if forallb policy_ok subs
    then ∃ srs, mapM (λ sub, build_endorsement_policy sub (Some rm)) subs = Ok srs
    else ∃ e, mapM (λ sub, build_endorsement_policy sub (Some rm)) subs = Raise e
              ∧ is_ValueError e) as Hss.
  { apply mapM_outcome_forallb. intros sub Hsub.
    pose proof (covers_sub rm _ sub Hc Hsub) as Hcs.
    apply IH; rewrite ?effective_covers; done. }
  destruct (match e with PolicyAnd => _ | PolicyOr => _ | PolicyOutOf => _ end); cbn [andb].
  - destruct Hn as (n & -> & Hn). step_outcome.
    destruct (forallb policy_ok subs).
    + destruct Hss as [srs ->]. step_outcome. unfold int32_field. rewrite Hn. by eexists.
    + destruct Hss as (ex & -> & ?). by exists ex.
  - destruct Hn as [(n & -> & Hn)|[msg ->]]; step_outcome.
    2: by eexists; split; [|eexists].
    destruct (forallb policy_ok subs).
    + destruct Hss as [srs ->]. step_outcome. unfold int32_field. rewrite Hn.
      by eexists; split; [|eexists].
    + destruct Hss as (ex & -> & ?). by exists ex.
Qed.

(** The roles the generated enum names, whatever their case. *)
Definition role_known (r : EndorsementPolicyRole) : bool :=
  match EnumValue ENUM_MSPRole_MSPRoleType (py_upper (role_role r)) with
  | Some _ => true
  | None => false
  end.
End outcome.

(** ** The envelope *)

Lemma msp_role_type_int32 r ty : msp_role_type r = Ok ty → is_int32 ty = true.
Proof.
  unfold msp_role_type. rewrite or_raise_Ok. unfold EnumValue.
  destruct (List.find _ _) as [v|] eqn:E; [|done]. intros [= <-].
  apply List.find_some in E as [Hv _]. cbn in Hv. by destruct_or?; subst.
Qed.

Section envelope.
Context `{PySet, ProtobufLaws}.

Lemma role_principal_Ok r x :
  role_principal r = Ok x ↔
  ∃ ty, msp_role_type r = Ok ty
    ∧ x = mkMSPPrincipal 0 (SerializeToString (mkMSPRole (role_msp r) ty)).
Proof.
  unfold role_principal. rewrite outcome_bind_Ok. split.
  - intros (ty & Hty & [= <-]). eauto.
  - intros (ty & Hty & ->). eauto.
Qed.

Lemma envelope_Ok p env :
  build_signature_policy_envelope p = Ok env ↔
  ∃ rule identities, build_endorsement_policy p None = Ok rule
    ∧ Forall2 (λ r x, role_principal r = Ok x) (all_roles p) identities
    ∧ env = mkSignaturePolicyEnvelope 0 (Some rule) identities.
Proof.
  unfold build_signature_policy_envelope. split.
  - intros (rule & Hr & (ids & Hi%mapM_outcome_Ok & [= <-])%outcome_bind_Ok)%outcome_bind_Ok. eauto.
  - intros (rule & ids & -> & Hi%mapM_outcome_Ok & ->). step_outcome. by rewrite Hi.
Qed.

(** Whether a role has signed, given who has signed with which role type. *)
Definition role_signed (signed : pystr → Z → bool) (r : EndorsementPolicyRole) : bool :=
  match EnumValue ENUM_MSPRole_MSPRoleType (py_upper (role_role r)) with
  | Some ty => signed (role_msp r) ty
  | None => false
  end.

(** C10: the envelope built from a policy is satisfied by exactly the sets of
    signers that satisfy the policy: all parts of an AND, one of an OR, at
    least [out_of] of an N-out-of, at every depth, each role read as its MSP
    and its role type. *)
Theorem policy_envelope_meaning p env signed :
  build_signature_policy_envelope p = Ok env →
  (∀ r, occurs r p → valid_str (role_msp r) = true) →
  envelope_holds signed env = policy_holds (role_signed signed) p.
Proof.
  intros (rule & ids & Hr & Hi & ->)%envelope_Ok Hv. unfold envelope_holds. cbn.
  apply (build_rule_holds _ _ p None); [by apply covers_role_map| |done].
  intros r i (k & -> & Hk)%role_map_lookup. rewrite Nat2Z.id.
  destruct (Forall2_lookup_l _ _ _ _ _ Hi Hk) as (x & -> & (ty & Hty & ->)%role_principal_Ok).
  cbn [MSPPrincipal_principal]. rewrite FromString_SerializeToString.
  - unfold role_signed. unfold msp_role_type in Hty.
    apply or_raise_Ok in Hty as ->. done.
  - apply msp_role_type_int32 in Hty. cbn.
    rewrite (Hv r); [|by apply elem_of_all_roles_occurs, list_elem_of_lookup; eauto].
    by rewrite Hty.
Qed.

Lemma build_indexes p rm' rule i :
  covers (effective_role_map rm' p) p →
  build_endorsement_policy p rm' = Ok rule →
  i ∈ rule_indexes rule ↔ ∃ r, occurs r p ∧ effective_role_map rm' p !! r = Some i.
Proof.
  revert rm' rule. induction p as [e o rs subs IH] using EndorsementPolicy_strong_ind.
  intros rm' rule Hc (n & rrs & srs & _ & _ & Hrs & Hss & ->)%build_Ok.
  cbn [rule_indexes ep_roles ep_sub_policies] in *. rewrite Forall_forall in IH.
  set (rm := effective_role_map _ _) in *.
  rewrite list_elem_of_In, in_flat_map. setoid_rewrite <-list_elem_of_In.
  setoid_rewrite elem_of_app. split.
  - intros (x & [Hx|Hx] & Hix); apply list_elem_of_lookup in Hx as [k Hx].
    + destruct (Forall2_lookup_r _ _ _ _ _ Hrs Hx) as (r & Hr & (j & Hj & _ & ->)%role_rule_Ok).
      apply list_elem_of_singleton in Hix as ->. exists r. split; [|done].
      apply occurs_here. by eapply list_elem_of_lookup_2.
    + destruct (Forall2_lookup_r _ _ _ _ _ Hss Hx) as (sub & Hsub & Hb).
      apply list_elem_of_lookup_2 in Hsub. pose proof (covers_sub rm _ sub Hc Hsub) as Hcs.
      pose proof (IH sub Hsub (Some rm) x) as Hiff. rewrite effective_covers in Hiff by done.
      destruct (proj1 (Hiff Hcs Hb) Hix) as (r & Hocc & Hr).
      exists r. split; [by eapply occurs_sub|done].
  - intros (r & Hocc & Hr). inversion Hocc as [? Hin|? sub Hsub Hocc']; subst; cbn in *.
    + apply list_elem_of_lookup in Hin as [k Hk].
      destruct (Forall2_lookup_l _ _ _ _ _ Hrs Hk) as (x & Hx & (j & Hj & _ & ->)%role_rule_Ok).
      eexists. split; [left; by eapply list_elem_of_lookup_2|]. cbn.
      apply list_elem_of_singleton. congruence.
    + pose proof Hsub as [k Hk]%list_elem_of_lookup.
      destruct (Forall2_lookup_l _ _ _ _ _ Hss Hk) as (x & Hx & Hb).
      pose proof (covers_sub rm _ sub Hc Hsub) as Hcs.
      exists x. split; [right; by eapply list_elem_of_lookup_2|].
      pose proof (IH sub Hsub (Some rm) x) as Hiff. rewrite effective_covers in Hiff by done.
      apply (Hiff Hcs Hb). eauto.
Qed.

(** C26: every index of the rule is a position of the identity list and every
    position is used; the identities are in the order of [all_roles], one
    per distinct role. *)
Theorem policy_envelope_indexes p env :
  build_signature_policy_envelope p = Ok env →
  ∃ rule, SignaturePolicyEnvelope_rule env = Some rule
    ∧ length (SignaturePolicyEnvelope_identities env) = length (all_roles p)
    ∧ NoDup (all_roles p) ∧ StronglySorted role_le (all_roles p)
    ∧ ∀ i, i ∈ rule_indexes rule
           ↔ (0 ≤ i < Z.of_nat (length (SignaturePolicyEnvelope_identities env)))%Z.
Proof.
  intros (rule & ids & Hr & Hi & ->)%envelope_Ok. cbn. apply Forall2_length in Hi as <-.
  exists rule. split_and!; [done|done|apply all_roles_NoDup|apply all_roles_sorted|].
  intros i. rewrite (build_indexes p None rule i) by (apply covers_role_map || done).
  split.
  - intros (r & _ & Hri). by eapply role_map_bound.
  - intros Hb. destruct (lookup_lt_is_Some_2 (all_roles p) (Z.to_nat i)) as [r Hk]; [lia|].
    exists r. split; [by eapply elem_of_all_roles_occurs, list_elem_of_lookup_2|].
    apply role_map_lookup. exists (Z.to_nat i). split; [lia|done].
Qed.

(** C27: building the envelope always finishes: with an envelope when every
    N-out-of names a non-zero count and every role is one the generated enum
    has, and with [ValueError] in every other case. *)
Theorem policy_envelope_outcome p :
  (Z.of_nat (length (all_roles p)) <= 2 ^ 31)%Z →
  if policy_ok p && forallb role_known (all_roles p)
  then ∃ env, build_signature_policy_envelope p = Ok env
  else ∃ msg, build_signature_policy_envelope p = Raise (ValueError msg).
Proof.
  intros Hlen. unfold build_signature_policy_envelope.
  pose proof (build_outcome p None) as Hb. cbn [effective_role_map] in Hb.
  specialize (Hb (covers_role_map p)).
  assert (∀ r i, role_map p !! r = Some i → is_int32 i = true) as Hi.
  { intros r i Hri%role_map_bound. unfold is_int32, int_range.
    change (- 2 ^ 31)%Z with (- 2147483648)%Z. change (2 ^ 31)%Z with 2147483648%Z in *. lia. }
  specialize (Hb Hi). destruct (policy_ok p); cbn [andb].
  2: by destruct Hb as (e & -> & msg & ->); exists msg.
  destruct Hb as [rule ->]. step_outcome.
  assert (if forallb role_known (all_roles p)
    then ∃ ids, mapM role_principal (all_roles p) = Ok ids
    else ∃ e, mapM role_principal (all_roles p) = Raise e ∧ is_ValueError e) as Hids.
  { apply mapM_outcome_forallb. intros r _. unfold role_known, role_principal, msp_role_type.
    destruct (EnumValue _ _); cbn; eauto. eexists. split; [done|by eexists]. }
  destruct (forallb role_known (all_roles p)).
  - destruct Hids as [ids ->]. by eexists.
  - destruct Hids as (e & -> & msg & ->). by exists msg.
Qed.
End envelope.

(** ** Independence of the enumeration order of sets *)

(** Distinct roles of the policy have distinct sort keys. *)
Definition keys_distinct (p : EndorsementPolicy) : Prop :=
  ∀ r s, occurs r p → occurs s p → role_key r = role_key s → r = s.

Lemma keys_distinct_sub p sub : keys_distinct p → sub ∈ ep_sub_policies p → keys_distinct sub.
Proof. intros Hk Hsub r s Hr Hs. apply Hk; by apply (occurs_sub _ p sub). Qed.

Section canonical.
Context (S1 S2 : PySet).

Lemma all_roles_canonical p : keys_distinct p → all_roles (H := S1) p = all_roles (H := S2) p.
Proof.
  intros Hk. apply sorted_unique; [apply all_roles_sorted|apply all_roles_sorted| |].
  - apply NoDup_Permutation; [apply all_roles_NoDup|apply all_roles_NoDup|].
    intros r. by rewrite !elem_of_all_roles_occurs.
  - intros r s Hr%elem_of_all_roles_occurs Hs%elem_of_all_roles_occurs. by apply Hk.
Qed.

Lemma role_map_canonical p : keys_distinct p → role_map (H := S1) p = role_map (H := S2) p.
Proof. intros Hk. unfold role_map. by rewrite all_roles_canonical. Qed.

Lemma build_canonical p rm' :
  keys_distinct p →
  build_endorsement_policy (H := S1) p rm' = build_endorsement_policy (H := S2) p rm'.
Proof.
  revert rm'. induction p as [e o rs subs IH] using EndorsementPolicy_strong_ind.
  intros rm' Hk. rewrite Forall_forall in IH. cbn [build_endorsement_policy].
  unfold effective_role_map. rewrite role_map_canonical by done.
  set (rm := match rm' with Some _ => _ | None => _ end).
  erewrite (mapM_outcome_ext _ _ subs); [done|]. intros sub Hsub. cbn.
  apply IH; [done|]. by apply (keys_distinct_sub _ sub Hk).
Qed.

(** C28: the envelope does not depend on the order in which the interpreter
    enumerates sets, so every client that builds a policy builds the same
    bytes, provided no two roles share the text [msp.role]. *)
Theorem policy_envelope_canonical `{Protobuf} p :
  keys_distinct p →
  build_signature_policy_envelope (H := S1) p = build_signature_policy_envelope (H := S2) p.
Proof.
  intros Hk. unfold build_signature_policy_envelope.
  by rewrite build_canonical, all_roles_canonical.
Qed.
End canonical.
