(* ===== verification/Transact.v ===== *)
(** * Transact: transact.py, generating, proposing and committing transactions *)
From S2P Require Import Prelude PyText Sha256 Sha3 Pem Wire Protobuf Descriptors CommonProtos PeerProtos Constants TxData Errors Crypto Grpc Models Transactions Decoded Block Runtime Factories Policies Connect Events.

Section transact.
Context `{Cryptography, Protobuf, Network}.

Definition generate_instantiate_cc_tx `{PySet} (requestor : User) (cc_spec : ChaincodeSpec)
    (channel : Channel) (endorsement_policy : option EndorsementPolicy) (upgrade : bool) :
    M GeneratedTX :=
  let proposal_type := if upgrade then ProposalUpgrade else ProposalInstantiate in
  policy ← lift (match endorsement_policy with
                 | Some p => SerializeToString <$> build_signature_policy_envelope p
                 | None => mret []
                 end);
  raise_if (negb (truthy (cc_name cc_spec))) (ValueError (u "Must specify chaincode name"));;
  cc_deploy_spec ← lift (build_cc_deployment_spec (default [] (cc_name cc_spec))
    (cc_language cc_spec) (Some (u "init")) (cc_version cc_spec) None None (cc_args cc_spec));
  a0 ← lift (encode_proto_bytes (ChaincodeProposalType_value proposal_type));
  a1 ← lift (encode_proto_bytes (channel_name channel));
  a4 ← lift (encode_proto_bytes (u "escc"));
  a5 ← lift (encode_proto_bytes (u "vscc"));
  build_generated_tx requestor (u "lscc")
    [a0; a1; SerializeToString cc_deploy_spec; policy; a4; a5] (Some channel) None.

Definition generate_cc_tx (requestor : User) (cc_name : pystr) (channel : Channel) (fcn : pystr)
    (args : option (list pystr)) (transient_map : option (list (pystr * bytes))) : M GeneratedTX :=
  full_args ← lift (mapM encode_proto_bytes (fcn :: py_or args []));
  build_generated_tx requestor cc_name full_args (Some channel) transient_map.

Definition propose_tx (peers : list Peer) (generated_tx : GeneratedTX) : M EndorsedTX :=
  raise_if (negb (is_nonempty peers))
    (ValueError (u "Must provide at least one peer to propose a tx"));;
  peer_responses ← gather (process_proposal_on_peer (gt_signed_proposal generated_tx) <$> peers);
  mret (mkEndorsedTX peer_responses (gt_proposal generated_tx) (gt_header generated_tx)
          (gt_tx_context generated_tx)).

Definition commit_tx (requestor : User) (orderers : list Orderer) (endorsed_tx : EndorsedTX) :
    M (option BroadcastResponse) :=
  envelope ← build_endorsed_tx_envelope endorsed_tx requestor;
  broadcast_to_orderers envelope orderers (EndorsedTX_tx_id endorsed_tx).

Definition raise_tx_proposal_error (endorsed_tx : EndorsedTX) (msg : pystr) : M unit :=
  raise_if (negb (fully_endorsed endorsed_tx)) (new_TransactionProposalError msg endorsed_tx).

Definition commit_tx_and_wait (requestor : User) (channel : Channel) (peers : list Peer)
    (orderers : list Orderer) (endorsed_tx : EndorsedTX) (timeout : Z) : M unit :=
  commit_tx requestor orderers endorsed_tx;;
  peer ← lift (or_raise (IndexError (u "list index out of range")) (head peers));
  let event_hub := PeerFilteredEvents requestor channel peer in
  check_transaction event_hub (tc_tx_id (et_tx_context endorsed_tx)) timeout None BlockUntilReady;;
  mret tt.
End transact.

(** ** Proposing *)

Section proposing.
Context `{Network}.

(** The outcome of [gather], by what the peers answer. *)
Definition proposals_outcome (sp : SignedProposal) (peers : list Peer) (w : World)
    (r : res (list ProposalResponse)) (w' : World) : Prop :=
  match r with
  | Ok responses =>
    length responses = length peers
    ∧ ∀ i p, peers !! i = Some p →
        ∃ d resp, responses !! i = Some resp ∧ answer sp peers w i p = Reply d resp
          ∧ (w_clock w + d <= w_clock w')%N
  | Raise e =>
    ∃ i p d code details, peers !! i = Some p ∧ answer sp peers w i p = Fail d code details
      ∧ e = new_BlockchainConnectionError code details ∧ w_clock w' = (w_clock w + d)%N
      ∧ ∀ j q d' c' t', peers !! j = Some q → answer sp peers w j q = Fail d' c' t' → (d <= d')%N
  | Hang =>
    (∃ i p, peers !! i = Some p ∧ answer sp peers w i p = NoReply)
    ∧ ∀ i p d c t, peers !! i = Some p → answer sp peers w i p ≠ Fail d c t
  end.

Lemma answers_elem sp peers w x :
  x ∈ imap (λ i p, task_answer (answer sp peers w i p)) peers ↔
  ∃ i p, peers !! i = Some p ∧ x = task_answer (answer sp peers w i p).
Proof.
  rewrite list_elem_of_lookup. setoid_rewrite list_lookup_imap_Some. split.
  - intros (i & p & Hp & ->). eauto.
  - intros (i & p & Hp & ->). exists i, p. done.
Qed.

Lemma gather_proposals sp peers w r w' :
  gather (process_proposal_on_peer sp <$> peers) w = (r, w') →
  extends w w' ((λ p, AProcessProposal p sp) <$> peers) ∧ proposals_outcome sp peers w r w'.
Proof.
  unfold gather. rewrite start_all_proposals.
  set (rs := imap _ peers). destruct (first_failure rs) as [[d e]|] eqn:Ef.
  - intros [= <- <-]. split; [done|]. apply first_failure_Some in Ef as [Hin Hmin].
    apply answers_elem in Hin as (i & p & Hp & Hr).
    destruct (answer sp peers w i p) as [|d' code details|] eqn:Ea; try discriminate Hr.
    injection Hr as -> ->. exists i, p, d', code, details. split_and!; [done|done|done|done|].
    intros j q dj c' t' Hq Hf. eapply Hmin, answers_elem. exists j, q. by rewrite Hf.
  - destruct (all_values rs) as [[m l]|] eqn:Ev; intros [= <- <-]; (split; [done|]).
    + apply all_values_Some in Ev. split.
      * apply Forall2_length in Ev. unfold rs in Ev. by rewrite length_imap in Ev.
      * intros i p Hp.
        assert (rs !! i = Some (task_answer (answer sp peers w i p))) as Hi
          by (apply list_lookup_imap_Some; eauto).
        destruct (Forall2_lookup_l _ _ _ _ _ Ev Hi) as (a & Ha & d & Hd & ?).
        destruct (answer sp peers w i p) as [d' resp|d' c t|]; try discriminate Hd.
        injection Hd as -> ->. exists d, a. split_and!; [done|done|cbn; lia].
    + split.
      * apply all_values_None in Ev as (x & (i & p & Hp & ->)%answers_elem & Hx).
        destruct (answer sp peers w i p) as [d a|d c t|] eqn:Ea; [done| |by exists i, p].
        exfalso. apply (proj1 (first_failure_None rs) Ef d (new_BlockchainConnectionError c t)).
        apply answers_elem. exists i, p. by rewrite Ea.
      * intros i p d c t Hp Ha.
        apply (proj1 (first_failure_None rs) Ef d (new_BlockchainConnectionError c t)).
        apply answers_elem. exists i, p. by rewrite Ha.
Qed.

(** C19: proposing sends the same signed proposal once to every peer, in
    order and before any answer.  If all peers answer, the result holds all
    answers in the order of the peers with the proposal, header and context
    of the generated transaction; if some call fails, the earliest failure
    is raised as a connection error; otherwise it waits for a peer that
    never answers. *)
Theorem propose_tx_spec peers g w r w' :
  peers ≠ [] → propose_tx peers g w = (r, w') →
  extends w w' ((λ p, AProcessProposal p (gt_signed_proposal g)) <$> peers)
  ∧ ∃ rs, proposals_outcome (gt_signed_proposal g) peers w rs w'
      ∧ r = (λ responses, mkEndorsedTX responses (gt_proposal g) (gt_header g)
                           (gt_tx_context g)) <$> rs.
Proof.
  intros Hne. unfold propose_tx. destruct peers as [|p peers]; [done|]. cbn [is_nonempty negb].
  intros Hr. rewrite (SE_bind_run _ _ _ tt w) in Hr by done. revert Hr.
  unfold mbind at 1, SE_bind at 1.
  destruct (gather (process_proposal_on_peer (gt_signed_proposal g) <$> p :: peers) w)
    as [rs w1] eqn:E. apply gather_proposals in E as [Ht Ho].
  intros Hr. assert (w1 = w') as -> by (by destruct rs; injection Hr).
  split; [done|]. exists rs. split; [done|]. by destruct rs; injection Hr as <-.
Qed.
End proposing.
