(* ===== verification/Package.v ===== *)
(** * Package: [package_chaincode] of operations.py

    Directories, the stat of a file and the tar.gz writer are the interpreter's
    library and the system: [Packaging], with what the gzip format says of the
    writer in [PackagingLaws]. *)
From S2P Require Import Prelude PyText Wire Protobuf Descriptors CommonProtos PeerProtos Constants TxData Errors Crypto Grpc Models Runtime.

Record TarInfo := mkTarInfo {
  ti_name : pystr;
  ti_size : Z;
  ti_type : bytes;
  ti_uname : pystr;
  ti_gname : pystr;
  ti_uid : Z;
  ti_gid : Z;
  ti_mode : Z;
  ti_mtime : Z;
  ti_pax_headers : list (pystr * pystr);
}.

Class Packaging := {
  (** [os.environ.get('GOPATH')] *)
  GOPATH : option pystr;
  (** [os.listdir]: whether it raises. *)
  listdir : pystr → res unit;
  (** [os.walk]: each directory with its file names. *)
  walk : pystr → list (pystr * list pystr);
  gettarinfo : pystr → pystr → TarInfo;
  (** The stream [tarfile.open(mode='w|gz')] writes, at a time in seconds. *)
  tar_gz : N → list (TarInfo * bytes) → bytes;
}.

(** RFC 1952: two bytes of magic, the method, the flags, and then four bytes of
    modification time. *)
Class PackagingLaws `{Packaging} := {
  tar_gz_time t1 t2 entries :
    take 4 (tar_gz t1 entries) = take 4 (tar_gz t2 entries)
    ∧ drop 8 (tar_gz t1 entries) = drop 8 (tar_gz t2 entries)
    ∧ 8 ≤ length (tar_gz t1 entries);
}.

(** [os.path.join(a, b)] *)
Definition path_join (a b : pystr) : pystr :=
  match b with
  | 47%N :: _ => b
  | _ => match last a with
         | None => b
         | Some 47%N => a ++ b
         | Some _ => a ++ [47%N] ++ b
         end
  end.

(** [stream.seek(pos); stream.write(data)] within the stream. *)
Definition write_at (pos : nat) (data l : bytes) : bytes :=
  take pos l ++ data ++ drop (pos + length data) l.

Section package.
Context `{FileSystem, Packaging}.

Definition standardize (t : TarInfo) : TarInfo :=
  mkTarInfo (ti_name t) (ti_size t) (ti_type t) (ti_uname t) (ti_gname t) 500 500 100644 0
    [(u "atime", u "0"); (u "ctime", u "0")].

Definition tar_entry (dir_path filename : pystr) : res (TarInfo * bytes) :=
  let file_path := path_join dir_path filename in
  contents ← read_file file_path;
  let arcname := path_join (u "src") file_path in
  mret (standardize (gettarinfo file_path arcname), contents).

(** Whether [os.listdir(path)] finds a directory. *)
Definition directory_found (path : pystr) : res bool :=
  match listdir path with
  | Ok _ => mret true
  | Raise e => if isinstance e CFileNotFoundError then mret false else Raise e
  | Hang => Hang
  end.

Definition package_chaincode (cc_spec : ChaincodeSpec) : M bytes :=
  if decide (cc_language cc_spec = GOLANG) then
    raise_if (negb (truthy (cc_path cc_spec))) (ValueError (u "Must specify path on chaincode spec"));;
    let path := default [] (cc_path cc_spec) in
    let go_proj_path := path_join (path_join (default (u "/opt/gopath") GOPATH) (u "src")) path in
    in_gopath ← lift (directory_found go_proj_path);
    let proj_path := if (in_gopath : bool) then go_proj_path else path in
    found ← lift (directory_found proj_path);
    raise_if (negb found) (ValueError (u "No directory found at path " ++ proj_path));;
    entries ← lift (mapM (λ e : pystr * pystr, tar_entry e.1 e.2)
      (walk path ≫= λ d, (λ f, (d.1, f)) <$> d.2));
    w ← get;
    let stream := tar_gz (w_clock w / nanos_per_second) entries in
    mret (write_at 4 (replicate 4 "000"%byte) stream)
  else throw (ValueError (u "Currently only support install GOLANG chaincode")).
End package.

(** ** Properties *)

Lemma write_at_ext pos data l k :
  take pos l = take pos k → drop (pos + length data) l = drop (pos + length data) k →
  write_at pos data l = write_at pos data k.
Proof. unfold write_at. by intros -> ->. Qed.

Section properties.
Context `{FileSystem, Packaging}.

(** A run of the packager does nothing but return or raise. *)
Lemma package_chaincode_world cc_spec w r w' : package_chaincode cc_spec w = (r, w') → w' = w.
Proof.
  unfold package_chaincode. destruct (decide _); [|by intros [= _ <-]].
  unfold mbind, SE_bind, raise_if, lift, get, mret, SE_ret, throw.
  destruct (negb _); [by intros [= _ <-]|].
  destruct (directory_found _) as [ip| |]; try (by intros [= _ <-]).
  destruct (directory_found _) as [[]| |]; cbn [negb]; try (by intros [= _ <-]).
  destruct (mapM _ _); by intros [= _ <-].
Qed.

(** C39: the fingerprint of a package does not depend on when it is made:
    packaging the same tree at any two times gives the same bytes or the
    same error. *)
Theorem package_chaincode_reproducible `{!PackagingLaws} cc_spec w1 w2 :
  (package_chaincode cc_spec w1).1 = (package_chaincode cc_spec w2).1.
Proof.
  unfold package_chaincode. destruct (decide _); [|done].
  unfold mbind, SE_bind, raise_if, lift, get, mret, SE_ret, throw.
  destruct (negb _); [done|].
  destruct (directory_found _) as [ip| |]; [|done|done].
  destruct (directory_found _) as [[]| |]; cbn [negb]; [|done|done|done].
  destruct (mapM _ _) as [entries| |]; [|done|done]. cbn. f_equal.
  destruct (tar_gz_time (w_clock w1 / nanos_per_second) (w_clock w2 / nanos_per_second) entries)
    as (H4 & H8 & _). by apply write_at_ext.
Qed.
End properties.
