(* ===== verification/Operations.v ===== *)
(** * Operations: operations.py, the high-level operations *)
From S2P Require Import Prelude PyText Sha256 Sha3 Pem Wire Protobuf Descriptors CommonProtos PeerProtos Constants TxData Errors Crypto Grpc Models Transactions Decoded Block Runtime Factories Policies Connect Events Transact Package.

(** [f'{x}'] of an optional string. *)
Definition str_of_option (x : option pystr) : pystr := default (u "None") x.

Section operations.
Context `{Cryptography, Protobuf, Network}.

(** ** Channels *)

Definition create_channel `{FileSystem} (requestor : User) (orderers : list Orderer)
    (channel : Channel) (tx_file_path : pystr) : M unit :=
  contents ← lift (read_file tx_file_path);
  envelope ← lift (parse Envelope contents);
  payload ← lift (parse Payload (Envelope_payload envelope));
  configtx ← lift (parse ConfigUpdateEnvelope (Payload_data payload));
  let config_update := ConfigUpdateEnvelope_config_update configtx in
  tx_context ← tx_context_from_user requestor;
  envelope ← build_config_update_envelope channel tx_context requestor config_update;
  broadcast_to_orderers envelope orderers (tc_tx_id tx_context);;
  mret tt.

(** The search for the origin block: every orderer is asked, the variables
    [block] and [conn_error] keep the last of each. *)
Fixpoint fetch_origin (requestor : User) (channel : Channel) (orderers : list Orderer)
    (block : option RawBlock) (conn_error : option exn) : M (option RawBlock * option exn) :=
  match orderers with
  | [] => mret (block, conn_error)
  | orderer :: orderers =>
    let events := OrdererEvents requestor channel orderer in
    found ← catch
      (r ← stream_blocks events (Some 0%Z) (Some 0%Z) BlockUntilReady (λ block, mret (Some block));
       mret (match r with Some b => (Some b, conn_error) | None => (block, conn_error) end))
      (λ err, if isinstance err CConnectionError then Some (mret (block, Some err)) else None);
    fetch_origin requestor channel orderers found.1 found.2
  end.

Definition join_channel (requestor : User) (orderers : list Orderer) (channel : Channel)
    (peer : Peer) : M unit :=
  raise_if (negb (is_nonempty orderers)) (ValueError (u "Must provide at least one orderer"));;
  found ← fetch_origin requestor channel orderers None None;
  match found with
  | (_, Some conn_error) => throw conn_error
  | (None, None) =>
    throw (new_BlockRetrievalError
             (u "Could not retrieve channel origin block from orderer") None)
  | (Some block, None) =>
    a0 ← lift (encode_proto_bytes (u "JoinChain"));
    generated_tx ← build_generated_tx requestor (u "cscc")
      [a0; SerializeToString (RawBlock_as_proto block)] None None;
    endorsed_tx ← propose_tx [peer] generated_tx;
    raise_tx_proposal_error endorsed_tx
      (u "Failed to join peer " ++ str_of_option (peer_name peer) ++ u " to channel "
       ++ channel_name channel)
  end.

(** ** Chaincode queries *)

(** [endorsed_tx.peer_responses[0].response.payload], parsed. *)
Definition first_query_response (endorsed_tx : EndorsedTX) : res ChaincodeQueryResponse :=
  resp ← or_raise (IndexError (u "list index out of range")) (head (et_peer_responses endorsed_tx));
  parse ChaincodeQueryResponse (Response_payload (response_of resp)).

Definition query_instantiated_chaincodes (requestor : User) (peers : list Peer)
    (channel : Channel) : M ChaincodeQueryResponse :=
  a0 ← lift (encode_proto_bytes (u "getchaincodes"));
  generated_tx ← build_generated_tx requestor (u "lscc") [a0] (Some channel) None;
  endorsed_tx ← propose_tx peers generated_tx;
  raise_tx_proposal_error endorsed_tx
    (u "Failed query instantiated chaincodes for channel " ++ channel_name channel);;
  lift (first_query_response endorsed_tx).

Definition query_installed_chaincodes (requestor : User) (peer : Peer) : M ChaincodeQueryResponse :=
  a0 ← lift (encode_proto_bytes (u "getinstalledchaincodes"));
  generated_tx ← build_generated_tx requestor (u "lscc") [a0] None None;
  endorsed_tx ← propose_tx [peer] generated_tx;
  raise_tx_proposal_error endorsed_tx (u "Failed query installed chaincodes");;
  lift (first_query_response endorsed_tx).

(** ** Chaincode deployment *)

Definition install_chaincode `{FileSystem, Packaging} (requestor : User) (peers : list Peer)
    (cc_spec : ChaincodeSpec) : M EndorsedTX :=
  raise_if (negb (truthy (cc_name cc_spec))) (ValueError (u "Must provide chaincode name"));;
  cc_pkg ← package_chaincode cc_spec;
  cc_deployment_spec ← lift (build_cc_deployment_spec (default [] (cc_name cc_spec))
    (cc_language cc_spec) None (cc_version cc_spec) (cc_path cc_spec) (Some cc_pkg) None);
  a0 ← lift (encode_proto_bytes (ChaincodeProposalType_value ProposalInstall));
  generated_tx ← build_generated_tx requestor (u "lscc")
    [a0; SerializeToString cc_deployment_spec] None None;
  endorsed_tx ← propose_tx peers generated_tx;
  raise_tx_proposal_error endorsed_tx
    (u "Failed install chaincode " ++ str_of_option (cc_name cc_spec) ++ u " version "
     ++ str_of_option (cc_version cc_spec));;
  mret endorsed_tx.

Definition instantiate_chaincode `{PySet} (requestor : User) (peers : list Peer)
    (orderers : list Orderer) (channel : Channel) (cc_spec : ChaincodeSpec)
    (endorsement_policy : option EndorsementPolicy) (upgrade : bool) (timeout : Z) : M EndorsedTX :=
  generated_tx ← generate_instantiate_cc_tx requestor cc_spec channel endorsement_policy upgrade;
  let method := if upgrade then u "upgrade" else u "instantiate" in
  endorsed_tx ← propose_tx peers generated_tx;
  raise_tx_proposal_error endorsed_tx
    (u "Failed to " ++ method ++ u " chaincode " ++ str_of_option (cc_name cc_spec)
     ++ u " version  " ++ str_of_option (cc_version cc_spec) ++ u " on channel "
     ++ channel_name channel);;
  commit_tx_and_wait requestor channel peers orderers endorsed_tx timeout;;
  mret endorsed_tx.

(** ** Transactions *)

Definition invoke (requestor : User) (peers : list Peer) (orderers : list Orderer)
    (channel : Channel) (cc_name fcn : pystr) (args : option (list pystr)) (timeout : Z)
    (transient_map : option (list (pystr * bytes))) : M EndorsedTX :=
  generated_tx ← generate_cc_tx requestor cc_name channel fcn args transient_map;
  endorsed_tx ← propose_tx peers generated_tx;
  raise_tx_proposal_error endorsed_tx
    (u "Failed to invoke chaincode " ++ cc_name ++ u " with function " ++ fcn);;
  commit_tx_and_wait requestor channel peers orderers endorsed_tx timeout;;
  mret endorsed_tx.

Definition query (requestor : User) (peers : list Peer) (channel : Channel) (cc_name fcn : pystr)
    (args : option (list pystr)) (transient_map : option (list (pystr * bytes))) : M EndorsedTX :=
  generated_tx ← generate_cc_tx requestor cc_name channel fcn args transient_map;
  endorsed_tx ← propose_tx peers generated_tx;
  raise_tx_proposal_error endorsed_tx
    (u "Failed to query chaincode " ++ cc_name ++ u " with function " ++ fcn);;
  mret endorsed_tx.
End operations.
