(* ===== verification/GrpcNetwork.v ===== *)
(** * GrpcNetwork: the network as the stubs reach it

    [Network] instantiated through the stubs that the peers and orderers hold:
    a call of the client is a call of the gRPC library on a stub's attribute.
    [GrpcLibrary] is that library's client half, a parameter; [GrpcLaws] is
    what it documents of a call whose channel leads to a server. *)
From S2P Require Import Prelude PyText Sha256 Sha3 Pem Wire Protobuf Descriptors CommonProtos PeerProtos Constants TxData Errors Crypto Grpc Models Runtime Factories Connect Transact.

(** Calling a [MultiCallable] with a message of class [a], or a stream of
    them, for messages of class [b]. *)
Class GrpcLibrary `{Protobuf, OtherMessages} := {
  call_unary (a b : MessageClass) :
    World → MultiCallable → codec_type (codec a) → rpc (codec_type (codec b));
  call_stream (a b : MessageClass) :
    World → MultiCallable → list (codec_type (codec a)) → stream (codec_type (codec b));
}.

Definition new_context : ServicerContext := mkContext None None.

Section answers.
Context `{Protobuf, OtherMessages}.

(** What reaches the other end of a message that is sent. *)
Definition transmits (c : MessageClass) (m m' : codec_type (codec c)) : Prop :=
  Deserialize (codec c) (Serialize (codec c) m) = Some m'.

(** The code a client sees of a call whose method raised. *)
Definition failure_code (context : ServicerContext) (code : pystr) : Prop :=
  ∀ c, ctx_code context = Some c → code = c.

(** How a method's outcome looks to the client: a response when it returned
    and set no code, a failure when it raised. *)
Definition unary_answers (b : MessageClass)
    (outcome : res (codec_type (codec b)) * ServicerContext) (r : rpc (codec_type (codec b))) : Prop :=
  match outcome with
  | (Ok resp, mkContext None _) =>
    ∀ resp', transmits b resp resp' → ∃ d, r = Reply d resp'
  | (Raise _, context) =>
    ∃ d code details, r = Fail d code details ∧ failure_code context code
  | _ => True
  end.

Definition stream_answers (b : MessageClass)
    (outcome : res (list (codec_type (codec b))) * ServicerContext)
    (s : stream (codec_type (codec b))) : Prop :=
  match outcome with
  | (Ok resps, mkContext None _) =>
    ∀ resps', Forall2 (transmits b) resps resps' →
      snd <$> st_items s = resps' ∧ ∃ d, st_end s = EndOfStream d
  | (Raise _, context) =>
    st_items s = [] ∧ ∃ d code details, st_end s = Broken d code details ∧ failure_code context code
  | _ => True
  end.
End answers.

(** A call on a channel that leads to a server runs the method the server has
    at the path, on the message that was sent. *)
Class GrpcLaws `{GrpcLibrary} (connected : World → GrpcChannel → list GenericHandler → Prop) := {
  unary_call_served w mc server a b (f : codec_type (codec a) → _) req req' :
    connected w (mc_channel mc) server → mc_arity mc = UnaryUnary →
    mc_request mc = a → mc_response mc = b →
    find_handler server (mc_path mc) = Some (unary_handler (req := a) (resp := b) f) →
    transmits a req req' →
    unary_answers b (f req' new_context) (call_unary a b w mc req);
  stream_call_served w mc server a b (f : list (codec_type (codec a)) → _) reqs reqs' :
    connected w (mc_channel mc) server → mc_arity mc = StreamStream →
    mc_request mc = a → mc_response mc = b →
    find_handler server (mc_path mc) = Some (stream_handler (req := a) (resp := b) f) →
    Forall2 (transmits a) reqs reqs' →
    stream_answers b (f reqs' new_context) (call_stream a b w mc reqs);
}.

(** ** The network *)

Section network.
Context `{GrpcLibrary}.

(** [stub.name(request)]; an object that was never initialized has no stub
    and makes no call. *)
Definition unary_on (a b : MessageClass) (stub : option Stub) (name : string) (w : World)
    (request : codec_type (codec a)) : rpc (codec_type (codec b)) :=
  match stub ≫= λ s, stub_attribute s name with
  | Some mc => call_unary a b w mc request
  | None => NoReply
  end.
Definition stream_on (a b : MessageClass) (stub : option Stub) (name : string) (w : World)
    (requests : list (codec_type (codec a))) : stream (codec_type (codec b)) :=
  match stub ≫= λ s, stub_attribute s name with
  | Some mc => call_stream a b w mc requests
  | None => mkStream [] Silent
  end.

Definition grpc_network : Network := {|
  ProcessProposal w peer proposal :=
    unary_on c_SignedProposal c_ProposalResponse (peer_endorser peer) "ProcessProposal" w proposal;
  Broadcast w orderer envelope :=
    stream_on c_Envelope c_BroadcastResponse (orderer_broadcaster orderer) "Broadcast" w
      (build_envelope_stream envelope);
  Deliver w peer envelope :=
    stream_on c_Envelope c_DeliverResponse (peer_deliver peer) "Deliver" w
      (build_envelope_stream envelope);
  DeliverFiltered w peer envelope :=
    stream_on c_Envelope c_DeliverResponse (peer_deliver peer) "DeliverFiltered" w
      (build_envelope_stream envelope);
  OrdererDeliver w orderer envelope :=
    stream_on c_Envelope c_OrdererDeliverResponse (orderer_broadcaster orderer) "Deliver" w
      (build_envelope_stream envelope);
|}.
End network.

(** ** Lemmas *)

Section initialized.
Context `{FileSystem}.

Lemma new_Peer_stubs model name p :
  new_Peer model name = Ok p →
  let channel := grpc_channel (peer_model p) in
  peer_endorser p = Some (EndorserStub channel) ∧ peer_deliver p = Some (DeliverStub channel).
Proof. intros ([m c] & [-> _]%ConnectedModel_post_init_stable & [= <-])%outcome_bind_Ok. done. Qed.

Lemma new_Orderer_stubs model name o :
  new_Orderer model name = Ok o →
  orderer_broadcaster o = Some (AtomicBroadcastStub (grpc_channel (orderer_model o))).
Proof. intros ([m c] & [-> _]%ConnectedModel_post_init_stable & [= <-])%outcome_bind_Ok. done. Qed.
End initialized.

Section served.
Context `{GrpcLaws, !FileSystem, !ProtobufLaws H}.

(** A call of a stub's attribute reaches the servicer's method. *)
Lemma unary_on_served w channel registered s (v : Servicer s) name mc stub a b f req req' :
  connected w channel (server_of registered) → NoDup (projT1 <$> registered) →
  existT s v ∈ registered → stub = Some (stub_of s channel) →
  (u name, mc) ∈ stub_of s channel → stub_attribute (stub_of s channel) name = Some mc →
  mc_arity mc = UnaryUnary → mc_channel mc = channel → mc_request mc = a → mc_response mc = b →
  find_handler (handlers_of (existT s v)) (mc_path mc) = Some (unary_handler (req := a) (resp := b) f) →
  transmits a req req' →
  unary_answers b (f req' new_context) (unary_on a b stub name w req).
Proof.
  intros Hc Hnd Hin -> Hmc Hattr Har Hch Ha Hb Hf Ht. unfold unary_on. cbn [mbind option_bind].
  rewrite Hattr. apply (unary_call_served _ _ (server_of registered) a b f req req'); try done.
  - by rewrite Hch.
  - by rewrite (find_handler_server_of _ _ _ _ _ _ Hnd Hin Hmc).
Qed.

Lemma stream_on_served w channel registered s (v : Servicer s) name mc stub a b f reqs reqs' :
  connected w channel (server_of registered) → NoDup (projT1 <$> registered) →
  existT s v ∈ registered → stub = Some (stub_of s channel) →
  (u name, mc) ∈ stub_of s channel → stub_attribute (stub_of s channel) name = Some mc →
  mc_arity mc = StreamStream → mc_channel mc = channel → mc_request mc = a → mc_response mc = b →
  find_handler (handlers_of (existT s v)) (mc_path mc) = Some (stream_handler (req := a) (resp := b) f) →
  Forall2 (transmits a) reqs reqs' →
  stream_answers b (f reqs' new_context) (stream_on a b stub name w reqs).
Proof.
  intros Hc Hnd Hin -> Hmc Hattr Har Hch Ha Hb Hf Ht. unfold stream_on. cbn [mbind option_bind].
  rewrite Hattr. apply (stream_call_served _ _ (server_of registered) a b f reqs reqs'); try done.
  - by rewrite Hch.
  - by rewrite (find_handler_server_of _ _ _ _ _ _ Hnd Hin Hmc).
Qed.
Lemma envelope_stream_transmits env :
  valid env = true →
  Forall2 (transmits c_Envelope) (build_envelope_stream env) (build_envelope_stream env).
Proof. intros Henv. constructor; [|constructor]. by apply FromString_SerializeToString. Qed.

(** A peer that was initialized on a channel, and the server behind it. *)
Record served_peer (registered : list (sigT Servicer)) (w : World) (p : Peer) : Prop := {
  sp_peer : ∃ model name, new_Peer model name = Ok p;
  sp_connected : connected w (grpc_channel (peer_model p)) (server_of registered);
  sp_registered : NoDup (projT1 <$> registered);
}.

Record served_orderer (registered : list (sigT Servicer)) (w : World) (o : Orderer) : Prop := {
  so_orderer : ∃ model name, new_Orderer model name = Ok o;
  so_connected : connected w (grpc_channel (orderer_model o)) (server_of registered);
  so_registered : NoDup (projT1 <$> registered);
}.

Lemma endorser_served registered w p ev sp :
  served_peer registered w p → existT Endorser ev ∈ registered → valid sp = true →
  unary_answers c_ProposalResponse (EndorserServicer_ProcessProposal ev sp new_context)
    (ProcessProposal (Network := grpc_network) w p sp).
Proof.
  intros [(model & name & [Hs _]%new_Peer_stubs) Hc Hnd] Hin Hsp.
  eapply (unary_on_served w _ registered Endorser ev "ProcessProposal"); try done;
    [by left|by apply FromString_SerializeToString].
Qed.

(** C13: the network the client calls is, through the stubs that initialization
    makes, the servicers behind the channels: for a peer and an orderer that
    were initialized, each connected to a server with any registrations of
    distinct services, what every call of the client gets is what the servicer's method
    of that name answers to the very message or envelope the client passed. *)
Theorem grpc_network_calls_servicers registered_p registered_o w p o ev dv bv sp env :
  served_peer registered_p w p → served_orderer registered_o w o →
  existT Endorser ev ∈ registered_p → existT DeliverEvents dv ∈ registered_p →
  existT AtomicBroadcast bv ∈ registered_o →
  valid sp = true → valid env = true →
  unary_answers c_ProposalResponse (EndorserServicer_ProcessProposal ev sp new_context)
    (ProcessProposal (Network := grpc_network) w p sp)
  ∧ stream_answers c_DeliverResponse (DeliverServicer_Deliver dv [env] new_context)
      (Deliver (Network := grpc_network) w p env)
  ∧ stream_answers c_DeliverResponse (DeliverServicer_DeliverFiltered dv [env] new_context)
      (DeliverFiltered (Network := grpc_network) w p env)
  ∧ stream_answers c_BroadcastResponse (AtomicBroadcastServicer_Broadcast bv [env] new_context)
      (Broadcast (Network := grpc_network) w o env)
  ∧ stream_answers c_OrdererDeliverResponse (AtomicBroadcastServicer_Deliver bv [env] new_context)
      (OrdererDeliver (Network := grpc_network) w o env).
Proof.
  intros Hp [(om & on & Ho%new_Orderer_stubs) Hoc Hond] Hev Hdv Hbv Hsp Henv.
  pose proof (envelope_stream_transmits env Henv) as Ht.
  split; [by apply (endorser_served registered_p)|].
  destruct Hp as [(model & name & [_ Hd]%new_Peer_stubs) Hc Hnd]. split_and!.
  - eapply (stream_on_served w _ registered_p DeliverEvents dv "Deliver"); try done. by left.
  - eapply (stream_on_served w _ registered_p DeliverEvents dv "DeliverFiltered"); try done. right. by left.
  - eapply (stream_on_served w _ registered_o AtomicBroadcast bv "Broadcast"); try done. by left.
  - eapply (stream_on_served w _ registered_o AtomicBroadcast bv "Deliver"); try done. right. by left.
Qed.

Definition unimplemented_code : pystr := u "StatusCode.UNIMPLEMENTED".

Lemma unimplemented_endorser registered w p sp :
  served_peer registered w p → existT Endorser EndorserServicer_base ∈ registered →
  valid sp = true →
  ∃ d details, ProcessProposal (Network := grpc_network) w p sp = Fail d unimplemented_code details.
Proof.
  intros Hp Hin Hsp. destruct (endorser_served registered w p _ sp Hp Hin Hsp)
    as (d & code & details & -> & Hcode).
  exists d, details. by rewrite (Hcode _ eq_refl).
Qed.

(** C33: proposing to peers whose servers have only the generated Endorser
    servicer ends, with a [BlockchainConnectionError] of code UNIMPLEMENTED:
    no answer is ever taken for an endorsement. *)
Theorem unimplemented_endorsers_refuse peers gtx w r w' :
  peers ≠ [] → valid (gt_signed_proposal gtx) = true →
  (∀ p w, p ∈ peers → ∃ registered, served_peer registered w p
     ∧ existT Endorser EndorserServicer_base ∈ registered) →
  propose_tx (H1 := grpc_network) peers gtx w = (r, w') →
  ∃ details, r = Raise (new_BlockchainConnectionError unimplemented_code details).
Proof.
  intros Hne Hv Hall Hr.
  assert (∀ i p, peers !! i = Some p → ∃ d details,
    answer (H := grpc_network) (gt_signed_proposal gtx) peers w i p = Fail d unimplemented_code details) as Hfail.
  { intros i p Hp. destruct (Hall p (asked (gt_signed_proposal gtx) peers w i)) as (rg & ? & ?);
      [by eapply list_elem_of_lookup_2|]. by eapply unimplemented_endorser. }
  destruct peers as [|p peers]; [done|]. unfold propose_tx in Hr. cbn [is_nonempty negb] in Hr.
  rewrite (SE_bind_run _ _ _ tt w) in Hr by done. unfold mbind at 1, SE_bind at 1 in Hr.
  destruct (gather _ w) as [rs w1] eqn:E. apply gather_proposals in E as [_ Ho].
  destruct (Hfail 0 p eq_refl) as (d0 & t0 & Hf0). destruct rs as [l|e|]; unfold proposals_outcome in Ho.
  - destruct Ho as [_ Ho]. destruct (Ho 0 p eq_refl) as (d & resp & _ & Ha & _). by rewrite Hf0 in Ha.
  - destruct Ho as (i & q & d & code & details & Hq & Ha & -> & _).
    destruct (Hfail i q Hq) as (d1 & t1 & Hf1). exists t1.
    rewrite Hf1 in Ha. injection Ha as _ <- <-. by injection Hr.
  - destruct Ho as [_ Ho]. by destruct (Ho 0 p _ _ _ eq_refl Hf0).
Qed.
End served.
