(* ===== verification/Safety.v ===== *)
(** * Safety: which actions the operations take, and which errors leave them

    Statements about every run, whatever the network answers and however the
    run ends. *)
From S2P Require Import Prelude PyText Sha256 Sha3 Pem Wire Protobuf Descriptors CommonProtos PeerProtos Constants TxData Errors Crypto Grpc Models Transactions Decoded Block Runtime Factories Policies Connect Events Transact Package Operations.

(** ** Actions *)

(** What stays on the client's machine. *)
Definition is_local (a : Action) : Prop :=
  match a with ARandom _ | ASign _ => True | _ => False end.

(** Everything but a broadcast to an orderer. *)
Definition no_broadcast (a : Action) : Prop :=
  match a with ABroadcast _ _ => False | _ => True end.

Definition anything (a : Action) : Prop := True.

(** ** The calls, for any relation between the worlds of a run *)

Section calls.
Context `{Cryptography, Protobuf, Network} (R : World → World → Prop) `{!PreOrder R}.
Hypothesis Radvance : ∀ d w, R w (advance d w).

Lemma steps_propose_tx peers g :
  (∀ p sp w, R w (log (AProcessProposal p sp) w)) → steps R (propose_tx peers g).
Proof.
  intros Hp. unfold propose_tx. apply (steps_bind R); [apply (steps_raise_if R)|intros _].
  apply (steps_bind R); [|intros; apply (steps_ret R)].
  apply (steps_gather R); [exact Radvance|]. apply Forall_fmap, Forall_forall.
  intros p _ w r w'. cbn. rewrite process_proposal_on_peer_run. by intros [= _ <-].
Qed.

Lemma steps_broadcast_to_orderer env o tx_id :
  (∀ w, R w (log (ABroadcast o env) w)) → steps R (broadcast_to_orderer env o tx_id).
Proof.
  intros Ho. unfold broadcast_to_orderer, for_each. apply (steps_handle R), (steps_bind R).
  - by apply steps_call.
  - intros s. apply (steps_for_items R); [exact Radvance|]. intros resp. solve_steps R.
Qed.

Lemma steps_try_orderers env orderers tx_id error :
  (∀ o w, o ∈ orderers → R w (log (ABroadcast o env) w)) →
  steps R (try_orderers env orderers tx_id error).
Proof.
  revert error. induction orderers as [|o orderers IH]; intros error Ho; cbn; [apply (steps_throw R)|].
  apply (steps_catch R).
  - apply steps_broadcast_to_orderer. intros w. apply Ho. left.
  - intros e k. destruct (isinstance _ _); [|done]. intros [= <-]. apply IH.
    intros o' w Hin. apply Ho. by right.
Qed.

Lemma steps_broadcast env orderers tx_id :
  (∀ o w, o ∈ orderers → R w (log (ABroadcast o env) w)) →
  steps R (broadcast_to_orderers env orderers tx_id).
Proof.
  intros Ho. unfold broadcast_to_orderers. destruct orderers; [apply (steps_throw R)|].
  by apply steps_try_orderers.
Qed.

Lemma steps_for_blocks {Resp Bk TX A} (hub : EventHub Resp Bk TX) items en (body : Bk → M (option A)) :
  (∀ b, steps R (body b)) → steps R (for_blocks hub items en body).
Proof.
  intros Hb. induction items as [|[d resp] items IH]; cbn [for_blocks].
  - apply (steps_handle R), (steps_for_items R); [exact Radvance|]. intros; apply (steps_ret R).
  - apply (steps_bind R); [by apply steps_sleep|intros _].
    apply (steps_bind R); [apply (steps_handle R), (steps_lift R)|intros b].
    apply (steps_bind R); [apply Hb|]. intros [r|]; [apply (steps_ret R)|exact IH].
Qed.

Lemma steps_stream_blocks {Resp Bk TX A} (hub : EventHub Resp Bk TX) start stop beh
    (body : Bk → M (option A)) :
  steps R (get_connection_envelope hub start stop beh) → (∀ e, steps R (hub_build_stream hub e)) →
  (∀ b, steps R (body b)) → steps R (stream_blocks hub start stop beh body).
Proof.
  intros Henv Hs Hb. unfold stream_blocks. apply (steps_bind R); [exact Henv|intros e].
  apply (steps_bind R); [apply Hs|intros s]. by apply steps_for_blocks.
Qed.

Lemma steps_fetch_origin user ch os b e :
  (∀ o, o ∈ os → steps R (stream_blocks (OrdererEvents user ch o) (Some 0%Z) (Some 0%Z) BlockUntilReady
                            (λ block, mret (Some block)))) →
  steps R (fetch_origin user ch os b e).
Proof.
  revert b e. induction os as [|o os IH]; intros b e Hs; cbn [fetch_origin]; [apply (steps_ret R)|].
  apply (steps_bind R); [|intros; apply IH; intros o' Hin; apply Hs; by right]. apply (steps_catch R).
  - apply (steps_bind R); [apply Hs; left|intros; apply (steps_ret R)].
  - intros e' k. destruct (isinstance _ _); [|done]. intros [= <-]. apply (steps_ret R).
Qed.
End calls.

Section actions.
Context `{Cryptography, Protobuf}.

Lemma only_sign P user payload : (∀ a, is_local a → P a) → only P (sign user payload).
Proof. intros HP. unfold sign. solve_only. by apply HP. Qed.
Lemma only_wrap P user payload : (∀ a, is_local a → P a) → only P (wrap_transaction user payload).
Proof. intros HP. apply only_bind; [by apply only_sign|]. intros. apply only_ret. Qed.
Lemma only_tx_context P user : (∀ a, is_local a → P a) → only P (tx_context_from_user user).
Proof. intros HP. unfold tx_context_from_user. solve_only. by apply HP. Qed.
Lemma only_build_header P ctx ch ext ty tls : only P (build_header ctx ch ext ty tls).
Proof. unfold build_header. solve_only. Qed.
#[local] Hint Resolve only_sign only_wrap only_tx_context only_build_header : snakeskin.

Lemma only_build_envelope P user ctx data ch tls ext ty :
  (∀ a, is_local a → P a) → only P (build_envelope user ctx data ch tls ext ty).
Proof. intros. unfold build_envelope. solve_only. Qed.
Lemma only_build_endorsed P tx user :
  (∀ a, is_local a → P a) → only P (build_endorsed_tx_envelope tx user).
Proof. intros. unfold build_endorsed_tx_envelope. solve_only. Qed.
Lemma only_build_generated P user name args ch tm :
  (∀ a, is_local a → P a) → only P (build_generated_tx user name args ch tm).
Proof. intros. unfold build_generated_tx. solve_only. Qed.
#[local] Hint Resolve only_build_envelope only_build_endorsed only_build_generated : snakeskin.

Lemma only_generate_cc_tx P user name ch fcn args tm :
  (∀ a, is_local a → P a) → only P (generate_cc_tx user name ch fcn args tm).
Proof. intros. unfold generate_cc_tx. solve_only. Qed.

Context `{Network}.

Lemma only_propose_tx (P : Action → Prop) peers g :
  (∀ p sp, P (AProcessProposal p sp)) → only P (propose_tx peers g).
Proof. intros HP. apply steps_propose_tx; [apply _|apply adds_advance|]. intros. by apply adds_one. Qed.

Lemma only_broadcast P env orderers tx_id :
  (∀ o, o ∈ orderers → P (ABroadcast o env)) → only P (broadcast_to_orderers env orderers tx_id).
Proof.
  intros HP. apply steps_broadcast; [apply _|apply adds_advance|]. intros o w Ho. by apply adds_one, HP.
Qed.

Lemma only_connection_envelope {Resp Bk TX} P (hub : EventHub Resp Bk TX) start stop beh :
  (∀ a, is_local a → P a) → only P (get_connection_envelope hub start stop beh).
Proof. intros. unfold get_connection_envelope. solve_only. Qed.

Lemma only_stream_blocks {Resp Bk TX R} P (hub : EventHub Resp Bk TX) start stop beh
    (body : Bk → M (option R)) :
  (∀ a, is_local a → P a) → (∀ e, only P (hub_build_stream hub e)) →
  (∀ b, only P (body b)) → only P (stream_blocks hub start stop beh body).
Proof.
  intros HP Hs Hb. apply steps_stream_blocks; [apply _|apply adds_advance|by apply only_connection_envelope|done..].
Qed.

Lemma only_check_transaction (P : Action → Prop) user ch peer tx_id timeout start beh :
  (∀ a, is_local a → P a) → (∀ e, P (ADeliverFiltered peer e)) →
  only P (check_transaction (PeerFilteredEvents user ch peer) tx_id timeout start beh).
Proof.
  intros HP Hd. unfold check_transaction, get_transaction. apply only_bind; [|intros; solve_only].
  apply only_wait_for. apply only_bind; [|intros; solve_only].
  apply only_stream_blocks; [done|intros; by apply only_call|intros; apply only_lift].
Qed.
End actions.

Lemma local_no_broadcast a : is_local a → no_broadcast a.
Proof. by destruct a. Qed.

#[export] Hint Resolve local_no_broadcast only_generate_cc_tx only_build_generated only_propose_tx
  only_check_transaction only_build_endorsed only_broadcast : snakeskin.
#[export] Hint Extern 1 (no_broadcast _) => exact I : snakeskin.
#[export] Hint Extern 1 (is_local _) => exact I : snakeskin.
#[export] Hint Extern 1 (anything _) => exact I : snakeskin.

Section no_broadcast.
Context `{Cryptography, Protobuf, Network}.

Lemma only_raise_proposal P tx msg : only P (raise_tx_proposal_error tx msg).
Proof. apply only_raise_if. Qed.
#[local] Hint Resolve only_raise_proposal : snakeskin.

Lemma only_package `{FileSystem, Packaging} P cc : only P (package_chaincode cc).
Proof.
  intros w r w' E. apply package_chaincode_world in E as ->.
  exists []. split; [apply extends_refl|done].
Qed.
#[local] Hint Resolve only_package : snakeskin.

(** C25: asking is not committing: no run of [query], of the two chaincode
    queries or of [install_chaincode] broadcasts anything to an orderer,
    whatever the peers answer. *)
Theorem queries_never_broadcast `{FileSystem, Packaging} requestor peers peer channel cc_name fcn
    args transient_map cc_spec :
  only no_broadcast (query requestor peers channel cc_name fcn args transient_map)
  ∧ only no_broadcast (query_instantiated_chaincodes requestor peers channel)
  ∧ only no_broadcast (query_installed_chaincodes requestor peer)
  ∧ only no_broadcast (install_chaincode requestor peers cc_spec).
Proof.
  unfold query, query_instantiated_chaincodes, query_installed_chaincodes, install_chaincode.
  split_and!; solve_only.
Qed.

Lemma only_commit_and_wait user ch peers orderers tx timeout :
  only anything (commit_tx_and_wait user ch peers orderers tx timeout).
Proof. unfold commit_tx_and_wait, commit_tx. solve_only. Qed.

(** Committing broadcasts only the envelope built from the transaction. *)
Lemma commit_and_wait_broadcasts user ch peers orderers tx timeout w r w' o env :
  commit_tx_and_wait user ch peers orderers tx timeout w = (r, w') →
  added w w' (ABroadcast o env) →
  o ∈ orderers ∧ ∃ w1, build_endorsed_tx_envelope tx user w = (Ok env, w1).
Proof.
  intros Hr Ha. unfold commit_tx_and_wait in Hr.
  destruct (build_endorsed_tx_envelope tx user w) as [[e|e|] w1] eqn:E.
  - assert (only (λ a, no_broadcast a ∨ ∃ o, o ∈ orderers ∧ a = ABroadcast o e)
      (broadcast_to_orderers e orderers (EndorsedTX_tx_id tx))) as Hb
      by (apply only_broadcast; eauto).
    assert (only (λ a, no_broadcast a ∨ ∃ o, o ∈ orderers ∧ a = ABroadcast o e)
      (broadcast_to_orderers e orderers (EndorsedTX_tx_id tx);;
       peer ← lift (or_raise (IndexError (u "list index out of range")) (head peers));
       check_transaction (PeerFilteredEvents user ch peer) (tc_tx_id (et_tx_context tx)) timeout
         None BlockUntilReady;;
       mret tt)) as Hall.
    { apply only_bind; [exact Hb|intros _]. apply only_bind; [apply only_lift|intros p].
      apply only_bind; [|intros; apply only_ret]. apply only_check_transaction.
      - intros a Ha'. left. by apply local_no_broadcast.
      - intros. by left. }
    assert (added w1 w' (ABroadcast o env)) as Ha1.
    { destruct (only_build_endorsed is_local tx user (λ a H, H) _ _ _ E) as (l & Hl & F).
      assert (∃ l2, extends w1 w' l2) as [l2 Hl2].
      { unfold commit_tx in Hr. rewrite (SE_bind_assoc_run _ _ _ _ _ _ E) in Hr.
        destruct (Hall _ _ _ Hr) as (l2 & ? & _). eauto. }
      exists l2. split; [done|]. destruct Ha as (new & Hn & Ha).
      rewrite (extends_unique _ _ _ _ Hn (extends_trans _ _ _ _ _ Hl Hl2)) in Ha.
      apply elem_of_app in Ha as [Ha|]; [|done].
      by destruct (proj1 (Forall_forall _ _) F _ Ha). }
    unfold commit_tx in Hr. rewrite (SE_bind_assoc_run _ _ _ _ _ _ E) in Hr.
    destruct (added_only _ _ _ _ _ _ Hall Hr Ha1) as [[]|(o' & Ho & [= -> ->])]. eauto.
  - exfalso. unfold commit_tx, mbind, SE_bind in Hr. rewrite E in Hr. injection Hr as _ <-.
    by destruct (added_only is_local _ _ _ _ _ (only_build_endorsed is_local tx user (λ a H, H)) E Ha).
  - exfalso. unfold commit_tx, mbind, SE_bind in Hr. rewrite E in Hr. injection Hr as _ <-.
    by destruct (added_only is_local _ _ _ _ _ (only_build_endorsed is_local tx user (λ a H, H)) E Ha).
Qed.
End no_broadcast.

(** ** Committing *)

Lemma not_no_broadcast o env : ¬ no_broadcast (ABroadcast o env).
Proof. by intros []. Qed.

Section committing.
Context `{Cryptography, Protobuf, Network}.

(** The steps of a run that got as far as committing: the transaction [g] was
    generated and endorsed as [tx]. *)
Definition endorsed_run (generate : M GeneratedTX) (peers : list Peer) (w : World)
    (tx : EndorsedTX) (w2 : World) : Prop :=
  ∃ g w1, generate w = (Ok g, w1) ∧ propose_tx peers g w1 = (Ok tx, w2)
    ∧ fully_endorsed tx = true.

(** [generate], [propose_tx], [raise_tx_proposal_error], and the rest. *)
Definition endorse_then {A} (generate : M GeneratedTX) (peers : list Peer) (msg : pystr)
    (k : EndorsedTX → M A) : M A :=
  generated_tx ← generate;
  endorsed_tx ← propose_tx peers generated_tx;
  raise_tx_proposal_error endorsed_tx msg;;
  k endorsed_tx.

Lemma endorse_then_Ok {A} generate peers msg (k : EndorsedTX → M A) w x w' :
  endorse_then generate peers msg k w = (Ok x, w') →
  ∃ tx w2, endorsed_run generate peers w tx w2 ∧ k tx w2 = (Ok x, w').
Proof.
  intros (g & w1 & Hg & (tx & w2 & Htx & (u & w3 & [Hf ->]%raise_if_Ok & Hk)%SE_bind_Ok)
    %SE_bind_Ok)%SE_bind_Ok.
  exists tx, w2. split; [|done]. exists g, w1. split_and!; [done|done|]. by apply negb_false_iff.
Qed.

(** A broadcast in such a run comes after a full endorsement. *)
Lemma endorse_then_broadcasts {A} generate peers msg (k : EndorsedTX → M A) w r w' o env :
  only no_broadcast generate → (∀ tx, only anything (k tx)) →
  endorse_then generate peers msg k w = (r, w') →
  added w w' (ABroadcast o env) →
  ∃ tx w2, endorsed_run generate peers w tx w2 ∧ k tx w2 = (r, w')
    ∧ added w2 w' (ABroadcast o env).
Proof.
  intros Hgen Hk Hr Ha. unfold endorse_then in Hr.
  assert (∀ tx, only anything (raise_tx_proposal_error tx msg;; k tx)) as Hk1
    by (intros; apply only_bind; [apply only_raise_if|intros; apply Hk]).
  assert (∀ g, only anything (tx ← propose_tx peers g; raise_tx_proposal_error tx msg;; k tx))
    as Hk2 by (intros; apply only_bind; [by apply only_propose_tx|done]).
  destruct (added_bind no_broadcast anything _ _ _ _ _ _ Hgen Hk2 (not_no_broadcast o env) Hr Ha)
    as (g & w1 & Hg & Hr1 & Ha1).
  destruct (added_bind no_broadcast anything _ _ _ _ _ _
    (only_propose_tx no_broadcast peers g (λ _ _, I)) Hk1 (not_no_broadcast o env) Hr1 Ha1) as (tx & w2 & Htx & Hr2 & Ha2).
  destruct (added_bind no_broadcast anything _ _ _ _ _ _
    (steps_raise_if (adds no_broadcast) _ _) (λ _, Hk tx) (not_no_broadcast o env) Hr2 Ha2) as (u & w3 & Hu & Hr3 & Ha3).
  apply raise_if_Ok in Hu as [Hf ->]. apply negb_false_iff in Hf.
  exists tx, w2. split; [by exists g, w1|done].
Qed.

Lemma only_generate_instantiate `{PySet} P user spec ch policy upgrade :
  (∀ a, is_local a → P a) → only P (generate_instantiate_cc_tx user spec ch policy upgrade).
Proof. intros. unfold generate_instantiate_cc_tx. solve_only. Qed.

(** C2: nothing is broadcast unless every peer endorsed: if a run of
    [invoke] or of [instantiate_chaincode], however it ends, sends an
    envelope to an orderer, then the transaction it generated was answered
    with status 200 by each of the peers, the orderer is one of those given,
    and the envelope is the one built from those answers. *)
Theorem broadcast_only_endorsed `{PySet} requestor peers orderers channel cc_name fcn args timeout tm
    cc_spec policy upgrade w r w' o env :
  (invoke requestor peers orderers channel cc_name fcn args timeout tm w = (r, w') →
   added w w' (ABroadcast o env) →
   ∃ tx w2 w3,
     endorsed_run (generate_cc_tx requestor cc_name channel fcn args tm) peers w tx w2
     ∧ o ∈ orderers ∧ build_endorsed_tx_envelope tx requestor w2 = (Ok env, w3))
  ∧ (instantiate_chaincode requestor peers orderers channel cc_spec policy upgrade timeout w
       = (r, w') →
     added w w' (ABroadcast o env) →
     ∃ tx w2 w3,
       endorsed_run (generate_instantiate_cc_tx requestor cc_spec channel policy upgrade) peers w
         tx w2
       ∧ o ∈ orderers ∧ build_endorsed_tx_envelope tx requestor w2 = (Ok env, w3)).
Proof.
  assert (∀ tx, only anything
    (commit_tx_and_wait requestor channel peers orderers tx timeout;; mret tx)) as Hk
    by (intros; apply only_bind; [apply only_commit_and_wait|intros; apply only_ret]).
  assert (∀ tx w2, (commit_tx_and_wait requestor channel peers orderers tx timeout;; mret tx) w2
    = (r, w') → added w2 w' (ABroadcast o env) →
    o ∈ orderers ∧ ∃ w3, build_endorsed_tx_envelope tx requestor w2 = (Ok env, w3)) as Hc.
  { intros tx w2 Hr Ha. unfold mbind, SE_bind in Hr.
    destruct (commit_tx_and_wait requestor channel peers orderers tx timeout w2) as [q w3] eqn:E.
    assert (w3 = w') as -> by (by destruct q; injection Hr).
    by eapply commit_and_wait_broadcasts. }
  split; intros Hr Ha.
  - destruct (endorse_then_broadcasts _ _ _ _ _ _ _ _ _
      (only_generate_cc_tx no_broadcast requestor cc_name channel fcn args tm local_no_broadcast)
      Hk Hr Ha) as (tx & w2 & Hrun & Hr2 & Ha2).
    destruct (Hc _ _ Hr2 Ha2) as (Ho & w3 & Hb). by exists tx, w2, w3.
  - destruct (endorse_then_broadcasts _ _ _ _ _ _ _ _ _
      (only_generate_instantiate no_broadcast requestor cc_spec channel policy upgrade
         local_no_broadcast) Hk Hr Ha) as (tx & w2 & Hrun & Hr2 & Ha2).
    destruct (Hc _ _ Hr2 Ha2) as (Ho & w3 & Hb). by exists tx, w2, w3.
Qed.

(** C5: when [invoke] returns, the transaction it returns was endorsed by all
    peers and is committed: the first peer delivered, in a block, a
    transaction with its id and the validation code VALID. *)
Theorem invoke_returns_committed requestor peers orderers channel cc_name fcn args timeout tm w tx w' :
  invoke requestor peers orderers channel cc_name fcn args timeout tm w = (Ok tx, w') →
  (∃ w2, endorsed_run (generate_cc_tx requestor cc_name channel fcn args tm) peers w tx w2)
  ∧ ∃ peer rest t envelope w1 d resp block,
      peers = peer :: rest
      ∧ (d, resp) ∈ st_items (DeliverFiltered w1 peer envelope)
      ∧ next_block (PeerFilteredEvents requestor channel peer) resp = Ok block
      ∧ t ∈ fb_transactions block
      ∧ FilteredTX.tx_id t = EndorsedTX_tx_id tx
      ∧ FilteredTX.tx_validation_code t = TxValidationCode_VALID.
Proof.
  intros (tx' & w2 & Hrun & (x & w3 & Hc & [= -> ->])%SE_bind_Ok)%endorse_then_Ok.
  split; [by exists w2|].
  apply SE_bind_Ok in Hc as (b & w4 & _ & (peer & w5 & [= Hp <-] & (t & w6 & Ht & _)%SE_bind_Ok)
    %SE_bind_Ok).
  apply or_raise_Ok in Hp. destruct peers as [|p rest]; [done|]. injection Hp as ->.
  apply check_transaction_Ok in Ht as (Hid & Hcode & env & w7 & d & resp & block & ?).
  exists peer, rest, t, env, w7, d, resp, block. naive_solver.
Qed.
End committing.

(** ** Errors *)

(** Anything but a raw gRPC error. *)
Definition not_rpc (e : exn) : Prop := match e with RpcError _ _ => False | _ => True end.

Lemma conn_error_not_rpc c d : not_rpc (new_BlockchainConnectionError c d).
Proof. exact I. Qed.
Lemma validation_error_not_rpc code : not_rpc (new_TransactionValidationError code).
Proof. unfold new_TransactionValidationError. by case_match. Qed.

#[export] Hint Resolve conn_error_not_rpc validation_error_not_rpc : snakeskin.
#[export] Hint Extern 1 (not_rpc _) => exact I : snakeskin.

(** Walk through a computation whose errors are literal or covered by hints. *)
Ltac solve_raises :=
  repeat first
    [ solve [eauto with snakeskin]
    | exact I
    | apply rr_or_raise | apply rr_raise | apply ro_throw | apply ro_raise_if
    | apply ro_lift | apply rr_fmap | apply rr_mapM; intros ?
    | apply ro_wait_for | apply ro_fmap
    | apply ro_bind; [|intros ?]
    | apply rr_bind; [|intros ?]
    | case_match ].

Section errors.
Context `{Cryptography, Protobuf}.

Lemma rr_encode s : res_raises_only not_rpc (encode_proto_bytes s).
Proof. unfold encode_proto_bytes. solve_raises. Qed.
Lemma rr_encode_str s : res_raises_only not_rpc (encode_proto_str s).
Proof. unfold encode_proto_str, encode_proto_bytes. solve_raises. Qed.
Lemma rr_parse {X} `{Message X} l : res_raises_only not_rpc (parse X l).
Proof. unfold parse. solve_raises. Qed.
Lemma rr_ecies_sign self n k m : res_raises_only not_rpc (ecies_sign self n k m).
Proof. unfold ecies_sign, prevent_malleability, decode_dss. solve_raises. Qed.
Lemma rr_seek start stop b : res_raises_only not_rpc (build_seek_info start stop b).
Proof. unfold build_seek_info, seek_position, uint64_field. solve_raises. Qed.
#[local] Hint Resolve rr_encode rr_encode_str rr_parse rr_ecies_sign rr_seek : snakeskin.

Lemma ro_sign user payload : raises_only not_rpc (sign user payload).
Proof. unfold sign. solve_raises. Qed.
#[local] Hint Resolve ro_sign : snakeskin.
Lemma ro_build_header ctx ch ext ty tls : raises_only not_rpc (build_header ctx ch ext ty tls).
Proof. unfold build_header, pem_to_der_res. solve_raises. Qed.
#[local] Hint Resolve ro_build_header : snakeskin.
Lemma ro_tx_context user : raises_only not_rpc (tx_context_from_user user).
Proof. unfold tx_context_from_user. solve_raises. Qed.
#[local] Hint Resolve ro_tx_context : snakeskin.
Lemma ro_build_generated user name args ch tm :
  raises_only not_rpc (build_generated_tx user name args ch tm).
Proof. unfold build_generated_tx, language_type. solve_raises. Qed.
Lemma ro_build_endorsed tx user : raises_only not_rpc (build_endorsed_tx_envelope tx user).
Proof. unfold build_endorsed_tx_envelope, wrap_transaction. solve_raises. Qed.
#[local] Hint Resolve ro_build_generated ro_build_endorsed : snakeskin.
Lemma ro_generate_cc_tx user name ch fcn args tm :
  raises_only not_rpc (generate_cc_tx user name ch fcn args tm).
Proof. unfold generate_cc_tx. solve_raises. Qed.
#[local] Hint Resolve ro_generate_cc_tx : snakeskin.

Context `{Network}.

Lemma ro_propose_tx peers g : raises_only not_rpc (propose_tx peers g).
Proof.
  unfold propose_tx. apply ro_bind; [solve_raises|intros _].
  apply ro_bind; [|intros; apply ro_ret]. intros w e w' Hr.
  apply gather_proposals in Hr as (_ & i & p & d & c & t & _ & _ & -> & _). exact I.
Qed.

Lemma ro_broadcast env orderers tx_id : raises_only not_rpc (broadcast_to_orderers env orderers tx_id).
Proof.
  intros w e w'. destruct orderers as [|o orderers]; [by intros [= <- _]|]. unfold broadcast_to_orderers.
  intros (failed & x & rest & wx & _ & _ & _ & Hx & _)%try_orderers_spec. revert Hx.
  unfold broadcast_to_orderer. apply ro_handle; [exact conn_error_not_rpc|]. clear.
  intros w0 e0 w1 _. by destruct e0.
Qed.

Lemma ro_check_transaction user ch peer tx_id timeout start beh :
  raises_only not_rpc (check_transaction (PeerFilteredEvents user ch peer) tx_id timeout start beh).
Proof.
  assert (∀ block, raises_only not_rpc
    (search_body (PeerFilteredEvents user ch peer) tx_id block)) as Hsearch.
  { intros block. apply ro_lift. induction (hub_transactions _ block) as [|t l IH]; cbn; solve_raises. }
  unfold check_transaction, get_transaction, stream_blocks, get_connection_envelope, build_envelope,
    wrap_transaction. solve_raises.
  { intros e. by cbn. }
  { apply ro_call. }
  match goal with |- raises_only _ (for_blocks ?hub ?items ?en _) =>
    generalize items, en end. clear -Hsearch.
  intros items en. induction items as [|[d resp] items IH].
  - cbn. apply ro_handle; [exact conn_error_not_rpc|]. intros w e w' _. by destruct e.
  - cbn [for_blocks]. apply ro_bind; [by intros w e w' [=]|intros _].
    apply ro_bind; [|intros block].
    + apply ro_handle; [exact conn_error_not_rpc|]. intros w e w' _. by destruct e.
    + apply ro_bind; [apply Hsearch|]. intros []; [apply ro_ret|exact IH].
Qed.
#[local] Hint Resolve ro_propose_tx ro_broadcast ro_check_transaction : snakeskin.

(** C31: no raw gRPC error leaves the transaction operations: whatever call
    the network breaks, the error of [invoke] or [query] is never an
    [RpcError]; those become [BlockchainConnectionError]. *)
Theorem no_rpc_error_escapes requestor peers orderers channel cc_name fcn args timeout tm :
  raises_only not_rpc (invoke requestor peers orderers channel cc_name fcn args timeout tm)
  ∧ raises_only not_rpc (query requestor peers channel cc_name fcn args tm).
Proof.
  unfold invoke, query, raise_tx_proposal_error, commit_tx_and_wait, commit_tx.
  split; solve_raises.
Qed.
End errors.

(** ** Joining a channel *)

Section joining.
Context `{Cryptography, Protobuf, Network}.

Definition JoinChain : bytes := bs "JoinChain".

(** A run of one orderer's event stream, up to the first block. *)
Definition origin_from (requestor : User) (channel : Channel) (o : Orderer)
    (r : option RawBlock) : Prop :=
  ∃ v v', stream_blocks (OrdererEvents requestor channel o) (Some 0%Z) (Some 0%Z) BlockUntilReady
            (λ block, mret (Some block)) v = (Ok r, v').

Lemma fetch_origin_conn_error requestor channel orderers b e w x w' :
  fetch_origin requestor channel orderers b (Some e) w = (Ok x, w') → is_Some x.2.
Proof.
  revert b e w. induction orderers as [|o orderers IH]; intros b e w; cbn.
  - intros [= <- _]. eauto.
  - intros (found & w1 & Hf & Hr)%SE_bind_Ok. revert Hf. unfold catch.
    match goal with |- context [match ?m w with _ => _ end] =>
      destruct (m w) as [[y|e'|] w2] eqn:E end; [| |done].
    + intros [= <- <-]. apply SE_bind_Ok in E as (r & w3 & _ & [= <- _]).
      destruct r; by eapply IH.
    + destruct (isinstance e' CConnectionError); [|done]. intros [= <- <-]. by eapply IH.
Qed.

Lemma fetch_origin_Ok requestor channel orderers b w b' w' :
  fetch_origin requestor channel orderers b None w = (Ok (b', None), w') →
  Forall (λ o, ∃ r, origin_from requestor channel o r) orderers
  ∧ (b' = b ∨ ∃ o block, o ∈ orderers ∧ b' = Some block ∧ origin_from requestor channel o (Some block)).
Proof.
  revert b w. induction orderers as [|o orderers IH]; intros b w; cbn.
  - intros [= <- _]. split; [constructor|by left].
  - intros (found & w1 & Hf & Hr)%SE_bind_Ok. revert Hf. unfold catch.
    match goal with |- context [match ?m w with _ => _ end] =>
      destruct (m w) as [[y|e'|] w2] eqn:E end; [| |done].
    + intros [= <- <-]. apply SE_bind_Ok in E as (r & w3 & Hs & [= <- _]).
      assert (origin_from requestor channel o r) as Ho by (by exists w, w3).
      destruct r as [block|]; apply IH in Hr as [Hall Hb]; (split; [constructor; eauto|]).
      * right. destruct Hb as [->|(o' & bl & Hin & -> & ?)].
        -- exists o, block. split; [left|done].
        -- exists o', bl. split; [by right|done].
      * destruct Hb as [->|(o' & bl & Hin & -> & ?)]; [by left|right].
        exists o', bl. split; [by right|done].
    + destruct (isinstance e' CConnectionError); [|done]. intros [= <- <-].
      by apply fetch_origin_conn_error in Hr as [? [=]].
Qed.

(** C30: joining succeeds only if every orderer is reachable: although the
    origin block of one is enough, a run of [join_channel] that returns has
    streamed from each of the orderers without a connection error; the peer
    was sent the origin block of one of them and answered 200. *)
Theorem join_channel_needs_all_orderers requestor orderers channel peer w w' :
  join_channel requestor orderers channel peer w = (Ok tt, w') →
  orderers ≠ []
  ∧ Forall (λ o, ∃ r, origin_from requestor channel o r) orderers
  ∧ ∃ o block w1, o ∈ orderers ∧ origin_from requestor channel o (Some block)
      ∧ ∃ tx, endorsed_run
          (build_generated_tx requestor (u "cscc")
             [JoinChain; SerializeToString (RawBlock_as_proto block)] None None)
          [peer] w1 tx w'.
Proof.
  intros (x & w1 & [Hne ->]%raise_if_Ok & (found & w2 & Hf & Hr)%SE_bind_Ok)%SE_bind_Ok.
  split; [by destruct orderers|].
  destruct found as [[block|] [ce|]]; [done| |done|done].
  apply fetch_origin_Ok in Hf as [Hall Hb]. split; [done|].
  destruct Hb as [?|(o & bl & Ho & [= <-] & Hor)]; [done|].
  exists o, block, w2. split; [done|]. split; [done|].
  apply SE_bind_Ok in Hr as (a0 & w3 & [= <- <-] & (g & w4 & Hg & (tx & w5 & Htx & [Hf ->]%raise_if_Ok)
    %SE_bind_Ok)%SE_bind_Ok).
  exists tx, g, w4. split; [exact Hg|]. split; [done|]. by apply negb_false_iff.
Qed.
End joining.
