(* ===== verification/Gateway.v ===== *)
(** * Gateway: models/gateway.py

    [Gateway] and [GatewayTXBuilder].  The builder is a mutable object: its
    methods run in [B], which threads the builder beside the world.  An
    operation it queues is a closure over the builder and the arguments of the
    method that queued it: [Operation] names the closure. *)
From S2P Require Import Prelude PyText Sha256 Sha3 Pem Wire Protobuf Descriptors CommonProtos PeerProtos Constants TxData Errors Crypto Grpc Models Transactions Decoded Block Runtime Factories Policies Connect Events Transact Package Operations Safety.

Record Gateway `{Cryptography} := mkGateway {
  gw_endorsing_peers : list Peer;
  gw_orderers : list Orderer;
  gw_channel : option Channel;
  gw_requestor : option User;
  gw_chaincode : option ChaincodeSpec;
}.
Arguments mkGateway {_} _ _ _ _ _.
Arguments gw_endorsing_peers {_} _.
Arguments gw_orderers {_} _.
Arguments gw_channel {_} _.
Arguments gw_requestor {_} _.
Arguments gw_chaincode {_} _.

Inductive Operation :=
  | OpPropose (raise_errors : bool)
  | OpSubmit
  | OpWaitForCommit (raise_errors : bool) (timeout : Z).

Record GatewayTXBuilder `{Cryptography} := mkBuilder {
  b_transaction : GeneratedTX;
  b_gateway : Gateway;
  b_endorsed_tx : option EndorsedTX;
  b_filtered_tx : option FilteredTX.t;
  b_committed : bool;
  b_operations : option (list Operation);
}.
Arguments mkBuilder {_} _ _ _ _ _ _.
Arguments b_transaction {_} _.
Arguments b_gateway {_} _.
Arguments b_endorsed_tx {_} _.
Arguments b_filtered_tx {_} _.
Arguments b_committed {_} _.
Arguments b_operations {_} _.

Section gateway.
Context `{Cryptography, Protobuf, Network}.

Definition new_GatewayTXBuilder (gateway : Gateway) (generated_tx : GeneratedTX) :
    GatewayTXBuilder :=
  mkBuilder generated_tx gateway None None false None.

(** ** The builder *)

Definition B := SE exn (GatewayTXBuilder * World).

Definition world {A} (m : M A) : B A := λ s, let '(r, w) := m s.2 in (r, (s.1, w)).
Definition self : B GatewayTXBuilder := λ s, (Ok s.1, s).
Definition update (f : GatewayTXBuilder → GatewayTXBuilder) : B unit := λ s, (Ok tt, (f s.1, s.2)).

Definition set_endorsed_tx (tx : EndorsedTX) (b : GatewayTXBuilder) : GatewayTXBuilder :=
  mkBuilder (b_transaction b) (b_gateway b) (Some tx) (b_filtered_tx b) (b_committed b)
    (b_operations b).
Definition set_filtered_tx (tx : FilteredTX.t) (b : GatewayTXBuilder) : GatewayTXBuilder :=
  mkBuilder (b_transaction b) (b_gateway b) (b_endorsed_tx b) (Some tx) (b_committed b)
    (b_operations b).
Definition set_committed (b : GatewayTXBuilder) : GatewayTXBuilder :=
  mkBuilder (b_transaction b) (b_gateway b) (b_endorsed_tx b) (b_filtered_tx b) true
    (b_operations b).
Definition set_operations (ops : list Operation) (b : GatewayTXBuilder) : GatewayTXBuilder :=
  mkBuilder (b_transaction b) (b_gateway b) (b_endorsed_tx b) (b_filtered_tx b) (b_committed b)
    (Some ops).

(** An attribute of an optional object. *)
Definition attribute_of {A} (name : string) (x : option A) : res A :=
  or_raise (AttributeError (u "'NoneType' object has no attribute '" ++ u name ++ u "'")) x.

Definition operate_propose (raise_errors : bool) : B unit :=
  b ← self;
  tx ← world (propose_tx (gw_endorsing_peers (b_gateway b)) (b_transaction b));
  update (set_endorsed_tx tx);;
  if raise_errors
  then world (raise_tx_proposal_error tx (u "A peer failed to endorse the transaction"))
  else mret tt.

Definition requestor_of (g : Gateway) : res User := attribute_of "crypto_suite" (gw_requestor g).

Definition operate_submit : B unit :=
  b ← self;
  match b_endorsed_tx b with
  | None => throw (ValueError (u "Must propose transaction before committing it"))
  | Some tx =>
    requestor ← lift (requestor_of (b_gateway b));
    world (commit_tx requestor (gw_orderers (b_gateway b)) tx);;
    update set_committed
  end.

(** Waiting on one peer.  The requestor is first read inside [wait_for]. *)
Definition await_transaction (raise_errors : bool) (requestor : option User) (channel : Channel)
    (peer : Peer) (tx_id : pystr) (timeout : Z) : M FilteredTX.t :=
  match requestor with
  | None =>
    wait_for timeout (throw (AttributeError (u "'NoneType' object has no attribute 'crypto_suite'")))
  | Some requestor =>
    let event_hub := PeerFilteredEvents requestor channel peer in
    if raise_errors then check_transaction event_hub tx_id timeout None BlockUntilReady
    else wait_for timeout (get_transaction event_hub tx_id None BlockUntilReady)
  end.

(** One round of the loop.  A missing channel is sent as the empty name, as
    [build_header] reads it. *)
Definition wait_on_peer (raise_errors : bool) (timeout : Z) (peer : Peer) : B unit :=
  b ← self;
  tx ← lift (attribute_of "tx_id" (b_endorsed_tx b));
  filtered_tx ← world (await_transaction raise_errors (gw_requestor (b_gateway b))
    (default (mkChannel []) (gw_channel (b_gateway b))) peer (EndorsedTX_tx_id tx) timeout);
  update (set_filtered_tx filtered_tx).

(** The loop over the peers, with the variable [error]. *)
Fixpoint wait_on_peers (raise_errors : bool) (timeout : Z) (peers : list Peer) (error : exn) :
    B unit :=
  match peers with
  | [] => throw error
  | peer :: peers =>
    catch (wait_on_peer raise_errors timeout peer) (λ err,
      if isinstance err CConnectionError || isinstance err CBlockRetrievalError
      then Some (wait_on_peers raise_errors timeout peers err) else None)
  end.

Definition operate_wait_for_commit (raise_errors : bool) (timeout : Z) : B unit :=
  b ← self;
  if negb (b_committed b)
  then throw (ValueError (u "Must commit transaction before waiting"))
  else wait_on_peers raise_errors timeout (gw_endorsing_peers (b_gateway b))
         (BlockchainError (u "Failed waiting for committed transaction")).

Definition operate (op : Operation) : B unit :=
  match op with
  | OpPropose raise_errors => operate_propose raise_errors
  | OpSubmit => operate_submit
  | OpWaitForCommit raise_errors timeout => operate_wait_for_commit raise_errors timeout
  end.

Definition add_operation (operation : Operation) (b : GatewayTXBuilder) : GatewayTXBuilder :=
  match b_operations b with
  | Some (x :: ops) => set_operations ((x :: ops) ++ [operation]) b
  | _ => set_operations [operation] b
  end.

Definition propose (raise_errors : bool) : GatewayTXBuilder → GatewayTXBuilder :=
  add_operation (OpPropose raise_errors).
Definition submit : GatewayTXBuilder → GatewayTXBuilder := add_operation OpSubmit.
Definition wait_for_commit (raise_errors : bool) (timeout : Z) :
    GatewayTXBuilder → GatewayTXBuilder :=
  add_operation (OpWaitForCommit raise_errors timeout).

Fixpoint run_all (ops : list Operation) : B unit :=
  match ops with
  | [] => mret tt
  | op :: ops => operate op;; run_all ops
  end.

(** [await builder] *)
Definition run_operations : B EndorsedTX :=
  b ← self;
  match b_operations b with
  | Some (op :: ops) =>
    run_all (op :: ops);;
    update (set_operations []);;
    b ← self;
    match b_endorsed_tx b with
    | Some tx => mret tx
    | None => throw (BlockchainError (u "Transaction never proposed"))
    end
  | _ => throw (BlockchainError (u "Transaction never proposed"))
  end.

(** [await b], for a builder that is used for nothing else. *)
Definition await_builder (b : GatewayTXBuilder) : M EndorsedTX := λ w,
  let '(r, s) := run_operations (b, w) in (r, s.2).

(** ** Gateway *)

(** [if not x: raise ValueError(msg)] for a list and for an object. *)
Definition require_nonempty {A} (l : list A) (msg : string) : M unit :=
  raise_if (negb (is_nonempty l)) (ValueError (u msg)).
Definition require_some {A} (x : option A) (msg : string) : M A :=
  lift (or_raise (ValueError (u msg)) x).

Definition transact (g : Gateway) (fcn : pystr) (args : option (list pystr))
    (transient_map : option (list (pystr * bytes))) : M GatewayTXBuilder :=
  require_nonempty (gw_endorsing_peers g) "Must provided at least one endorsing peer";;
  channel ← require_some (gw_channel g) "Must specify a channel";
  requestor ← require_some (gw_requestor g) "Must specify a requestor";
  let name := gw_chaincode g ≫= cc_name in
  raise_if (negb (truthy name)) (ValueError (u "Must specify a chaincode name"));;
  generated_tx ← generate_cc_tx requestor (default [] name) channel fcn args transient_map;
  mret (new_GatewayTXBuilder g generated_tx).

Definition Gateway_invoke (g : Gateway) (fcn : pystr) (args : option (list pystr))
    (transient_map : option (list (pystr * bytes))) (timeout : Z) : M EndorsedTX :=
  b ← transact g fcn args transient_map;
  await_builder (wait_for_commit true timeout (submit (propose true b))).

Definition Gateway_query (g : Gateway) (fcn : pystr) (args : option (list pystr))
    (transient_map : option (list (pystr * bytes))) : M EndorsedTX :=
  b ← transact g fcn args transient_map;
  await_builder (propose true b).

Definition Gateway_create_channel `{FileSystem} (g : Gateway) (tx_file_path : pystr) : M unit :=
  require_nonempty (gw_orderers g) "Must provided at least one orderer";;
  channel ← require_some (gw_channel g) "Must specify a channel";
  requestor ← require_some (gw_requestor g) "Must specify a requestor";
  create_channel requestor (gw_orderers g) channel tx_file_path.

(** [for peer in peers: await join_channel(...)] *)
Fixpoint join_all (requestor : User) (orderers : list Orderer) (channel : Channel)
    (peers : list Peer) : M unit :=
  match peers with
  | [] => mret tt
  | peer :: peers =>
    join_channel requestor orderers channel peer;;
    join_all requestor orderers channel peers
  end.

Definition Gateway_join_channel (g : Gateway) (peers : option (list Peer)) : M unit :=
  let peers := py_or peers (gw_endorsing_peers g) in
  channel ← require_some (gw_channel g) "Must specify a channel";
  requestor ← require_some (gw_requestor g) "Must specify a requestor";
  join_all requestor (gw_orderers g) channel peers.

Definition Gateway_query_instantiated_chaincodes (g : Gateway) : M ChaincodeQueryResponse :=
  channel ← require_some (gw_channel g) "Must specify a channel";
  requestor ← require_some (gw_requestor g) "Must specify a requestor";
  require_nonempty (gw_endorsing_peers g) "Must specify at least one endorsing peer";;
  query_instantiated_chaincodes requestor (gw_endorsing_peers g) channel.

Definition Gateway_install_chaincode `{FileSystem, Packaging} (g : Gateway)
    (peers : option (list Peer)) : M EndorsedTX :=
  let peers := py_or peers (gw_endorsing_peers g) in
  requestor ← require_some (gw_requestor g) "Must specify a requestor";
  require_nonempty peers "Must specify at least one peer";;
  chaincode ← require_some (gw_chaincode g) "Must specify chaincode";
  install_chaincode requestor peers chaincode.

Definition Gateway_instantiate_chaincode `{PySet} (g : Gateway)
    (endorsement_policy : option EndorsementPolicy) (upgrade : bool) (timeout : Z) : M EndorsedTX :=
  requestor ← require_some (gw_requestor g) "Must specify a requestor";
  channel ← require_some (gw_channel g) "Must specify a channel";
  require_nonempty (gw_endorsing_peers g) "Must specify at least one endorsing peer";;
  require_nonempty (gw_orderers g) "Must specify at least one orderer";;
  chaincode ← require_some (gw_chaincode g) "Must specify chaincode";
  instantiate_chaincode requestor (gw_endorsing_peers g) (gw_orderers g) channel chaincode
    endorsement_policy upgrade timeout.

(** [replace(None, ...)] is a [TypeError]. *)
Definition update_chaincode_version (g : Gateway) (version : option pystr) : res Gateway :=
  cc ← or_raise (TypeError (u "replace() should be called on dataclass instances")) (gw_chaincode g);
  mret (mkGateway (gw_endorsing_peers g) (gw_orderers g) (gw_channel g) (gw_requestor g)
    (Some (mkChaincodeSpec (cc_name cc) version (cc_language cc) (cc_path cc) (cc_args cc)))).
End gateway.

(** ** Runs of the builder *)

Section runs.
Context `{Cryptography, Protobuf, Network}.

Lemma world_run {A} (m : M A) b w r w' : m w = (r, w') → world m (b, w) = (r, (b, w')).
Proof. unfold world. cbn. by intros ->. Qed.

Lemma run_operations_single op b w r s :
  b_operations b = Some [op] → operate op (b, w) = (r, s) →
  run_operations (b, w) =
  match r with
  | Ok _ => match b_endorsed_tx s.1 with
            | Some tx => (Ok tx, (set_operations [] s.1, s.2))
            | None => (Raise (BlockchainError (u "Transaction never proposed")),
                       (set_operations [] s.1, s.2))
            end
  | Raise e => (Raise e, s)
  | Hang => (Hang, s)
  end.
Proof.
  intros Hops Hop. unfold run_operations, self, mbind, SE_bind. cbn [fst]. rewrite Hops.
  cbn [run_all]. unfold mbind, SE_bind. rewrite Hop. destruct r as [[]|e|]; [|done|done].
  cbn. by destruct (b_endorsed_tx s.1).
Qed.

(** a builder is awaited once: after a successful await its operations
    are gone, and awaiting it again does nothing and raises 'Transaction
    never proposed', although the transaction has been proposed and the
    builder still holds it. *)
Theorem await_twice s tx s' :
  run_operations s = (Ok tx, s') →
  b_endorsed_tx s'.1 = Some tx ∧ b_operations s'.1 = Some []
  ∧ run_operations s' = (Raise (BlockchainError (u "Transaction never proposed")), s').
Proof.
  intros (b & s1 & [= <- <-] & Hr)%SE_bind_Ok.
  destruct (b_operations s.1) as [[|op ops]|]; [done| |done].
  apply SE_bind_Ok in Hr as (u1 & s2 & _ & (u2 & s3 & [= _ <-] & (b & s4 & [= <- <-] & Hr)%SE_bind_Ok)
    %SE_bind_Ok).
  cbn in Hr. destruct (b_endorsed_tx s2.1) as [tx'|] eqn:E; [|done]. injection Hr as <- <-. done.
Qed.
End runs.

(** ** The gateway's guards *)

Section guards.
Context `{Cryptography, Protobuf, Network}.

Definition transact_ready (g : Gateway) : bool :=
  is_nonempty (gw_endorsing_peers g) && bool_decide (is_Some (gw_channel g))
  && bool_decide (is_Some (gw_requestor g)) && truthy (gw_chaincode g ≫= cc_name).
Definition channel_ready (g : Gateway) : bool :=
  bool_decide (is_Some (gw_channel g)) && bool_decide (is_Some (gw_requestor g)).

(** A computation that only raises [ValueError]. *)
Definition refuses {A} (m : M A) : Prop := ∀ w, ∃ msg, m w = (Raise (ValueError msg), w).

Lemma refuses_bind {A B} (m : M A) (k : A → M B) : refuses m → refuses (m ≫= k).
Proof. intros Hm w. destruct (Hm w) as [msg E]. exists msg. by apply SE_bind_raise. Qed.
Lemma refuses_require_nonempty {A B} (l : list A) msg (k : unit → M B) :
  (is_nonempty l = true → refuses (k tt)) → refuses (require_nonempty l msg ≫= k).
Proof. intros Hk w. destruct l; [by eexists|]. apply (Hk eq_refl). Qed.
Lemma refuses_require_some {A B} (x : option A) msg (k : A → M B) :
  (∀ a, x = Some a → refuses (k a)) → refuses (require_some x msg ≫= k).
Proof. intros Hk w. destruct x as [a|]; [|by eexists]. by apply (Hk a). Qed.

Ltac solve_refuses :=
  repeat match goal with
  | |- refuses (require_nonempty _ _ ≫= _) => apply refuses_require_nonempty; intros ?
  | |- refuses (require_some _ _ ≫= _) => apply refuses_require_some; intros ? ?
  end.

Lemma refuses_transact g fcn args tm : transact_ready g = false → refuses (transact g fcn args tm).
Proof.
  intros Hg. unfold transact. solve_refuses. unfold transact_ready in Hg.
  rewrite !bool_decide_true in Hg by (rewrite ?H3, ?H4; eauto). rewrite H2 in Hg. cbn in Hg.
  rewrite Hg. intros w. by eexists.
Qed.

End guards.

(** ** Querying through the gateway *)

Section querying.
Context `{Cryptography, Protobuf, Network}.

(** The same result, up to the text of a proposal error. *)
Definition same_result {A} (r1 r2 : res A) : Prop :=
  r1 = r2 ∨ ∃ m1 m2 tx, r1 = Raise (TransactionProposalError m1 tx)
                        ∧ r2 = Raise (TransactionProposalError m2 tx).

Lemma transact_ready_run g fcn args tm w :
  transact_ready g = true →
  ∃ channel requestor name, gw_channel g = Some channel ∧ gw_requestor g = Some requestor
    ∧ gw_chaincode g ≫= cc_name = Some name
    ∧ transact g fcn args tm w
      = (new_GatewayTXBuilder g <$> generate_cc_tx requestor name channel fcn args tm) w.
Proof.
  unfold transact_ready, transact. intros Hg.
  destruct (gw_endorsing_peers g) as [|p ps] eqn:Ep; [done|]. cbn [is_nonempty andb] in Hg.
  destruct (gw_channel g) as [channel|]; [|done].
  destruct (gw_requestor g) as [requestor|].
  2: by rewrite (bool_decide_false (is_Some (@None User))), andb_false_r in Hg by by intros [].
  rewrite !bool_decide_true in Hg by eauto. cbn [andb] in Hg.
  destruct (gw_chaincode g ≫= cc_name) as [name|]; [|done].
  exists channel, requestor, name. split_and!; [done|done|done|].
  rewrite (SE_bind_run _ _ _ tt w) by done. rewrite (SE_bind_run _ _ _ channel w) by done.
  rewrite (SE_bind_run _ _ _ requestor w) by done.
  rewrite (SE_bind_run _ _ _ tt w) by (by rewrite Hg). cbn [from_option id].
  unfold mbind, SE_bind, fmap, SE_fmap.
  by destruct (generate_cc_tx requestor name channel fcn args tm w) as [[] ?].
Qed.

Lemma operate_propose_run re b w :
  operate_propose re (b, w) =
  match propose_tx (gw_endorsing_peers (b_gateway b)) (b_transaction b) w with
  | (Ok tx, w') =>
    (if re && negb (fully_endorsed tx)
     then Raise (new_TransactionProposalError (u "A peer failed to endorse the transaction") tx)
     else Ok tt, (set_endorsed_tx tx b, w'))
  | (Raise e, w') => (Raise e, (b, w'))
  | (Hang, w') => (Hang, (b, w'))
  end.
Proof.
  unfold operate_propose, self, mbind, SE_bind, world. cbn [fst snd].
  destruct (propose_tx _ _ w) as [[tx|e|] w']; [|done|done]. cbn.
  destruct re; [|done]. cbn. unfold raise_tx_proposal_error, raise_if.
  by destruct (negb (fully_endorsed tx)).
Qed.

(** C24: querying through a gateway is the operation [query] with the
    gateway's peers, channel, requestor and chaincode: the same actions and
    time, the same transaction, the same error but for the wording of a
    proposal error. *)
Theorem gateway_query_is_query g fcn args tm w :
  transact_ready g = true →
  ∃ channel requestor name, gw_channel g = Some channel ∧ gw_requestor g = Some requestor
    ∧ gw_chaincode g ≫= cc_name = Some name
    ∧ let q1 := Gateway_query g fcn args tm w in
      let q2 := query requestor (gw_endorsing_peers g) channel name fcn args tm w in
      q1.2 = q2.2 ∧ same_result q1.1 q2.1.
Proof.
  intros Hg. destruct (transact_ready_run g fcn args tm w Hg)
    as (channel & requestor & name & Hc & Hr & Hn & Hrun).
  exists channel, requestor, name. split_and!; [done|done|done|]. cbn zeta.
  unfold Gateway_query, query, mbind, SE_bind. rewrite Hrun. unfold fmap, SE_fmap.
  destruct (generate_cc_tx requestor name channel fcn args tm w) as [[gtx|e|] w1];
    [|by split; [|left]..].
  unfold await_builder. set (b := propose true (new_GatewayTXBuilder g gtx)).
  rewrite (run_operations_single (OpPropose true) b w1 _ _ eq_refl (surjective_pairing _)).
  cbn [operate]. rewrite operate_propose_run. change (b_gateway b) with g.
  change (b_transaction b) with gtx.
  destruct (propose_tx (gw_endorsing_peers g) gtx w1) as [[tx|e|] w2]; [|by split; [|left]..].
  unfold raise_tx_proposal_error, raise_if, throw. cbn [andb].
  destruct (negb (fully_endorsed tx)); cbn; (split; [done|]); [right|by left].
  by eexists _, _, tx.
Qed.
End querying.

(** ** The life of a builder *)

Section life.
Context `{Cryptography, Protobuf, Network}.
Context (g : Gateway) (gtx : GeneratedTX).

(** What a program can do with a builder: call its methods and await it, in
    any order and any number of times; the rest of the program acts in
    between. *)
Inductive builder_step : GatewayTXBuilder * World → GatewayTXBuilder * World → Prop :=
  | step_propose re b w : builder_step (b, w) (propose re b, w)
  | step_submit b w : builder_step (b, w) (submit b, w)
  | step_wait re timeout b w : builder_step (b, w) (wait_for_commit re timeout b, w)
  | step_await r s s' : run_operations s = (r, s') → builder_step s s'
  | step_world b w w' new : extends w w' new → builder_step (b, w) (b, w').

Definition builder_reachable (w0 : World) : GatewayTXBuilder * World → Prop :=
  rtc builder_step (new_GatewayTXBuilder g gtx, w0).

(** Some orderer was sent the envelope of answers of all the peers. *)
Definition broadcast_of (w : World) : Prop :=
  ∃ o env responses requestor v v',
    ABroadcast o env ∈ w_trace w
    ∧ length responses = length (gw_endorsing_peers g)
    ∧ build_endorsed_tx_envelope (endorse gtx responses) requestor v = (Ok env, v').

Record builder_ok (s : GatewayTXBuilder * World) : Prop := {
  ok_gateway : b_gateway s.1 = g;
  ok_transaction : b_transaction s.1 = gtx;
  ok_endorsed tx : b_endorsed_tx s.1 = Some tx →
    tx = endorse gtx (et_peer_responses tx)
    ∧ length (et_peer_responses tx) = length (gw_endorsing_peers g);
  ok_committed : b_committed s.1 = true → is_Some (b_endorsed_tx s.1) ∧ broadcast_of s.2;
  ok_filtered t : b_filtered_tx s.1 = Some t →
    b_committed s.1 = true ∧ FilteredTX.tx_id t = GeneratedTX_tx_id gtx;
}.

Lemma builder_ok_new w : builder_ok (new_GatewayTXBuilder g gtx, w).
Proof. by split. Qed.

Lemma builder_ok_operations b w ops : builder_ok (b, w) → builder_ok (set_operations ops b, w).
Proof. by intros []; split. Qed.

Lemma builder_ok_add op b w : builder_ok (b, w) → builder_ok (add_operation op b, w).
Proof. intros Hok. unfold add_operation. repeat case_match; by apply builder_ok_operations. Qed.

Lemma builder_ok_world b w w' new : extends w w' new → builder_ok (b, w) → builder_ok (b, w').
Proof.
  intros He [H1' H2' H3' H4' H5']. split; try done. intros Hc. destruct (H4' Hc) as [Hs Hb].
  split; [done|]. destruct Hb as (o & env & rs & rq & v & v' & Hin & ?).
  exists o, env, rs, rq, v, v'. split; [|done]. cbn. rewrite He. apply elem_of_app. by left.
Qed.

(** A computation of the builder that keeps the invariant however it ends. *)
Definition keeps {A} (m : B A) : Prop := ∀ s r s', builder_ok s → m s = (r, s') → builder_ok s'.

Lemma propose_tx_Ok peers w tx w' :
  propose_tx peers gtx w = (Ok tx, w') →
  tx = endorse gtx (et_peer_responses tx) ∧ length (et_peer_responses tx) = length peers.
Proof.
  intros (x & w1 & [_ ->]%raise_if_Ok & (rs & w2 & [_ [Hlen _]]%gather_proposals & [= <- _])%SE_bind_Ok)
    %SE_bind_Ok. done.
Qed.

Lemma keeps_propose re : keeps (operate_propose re).
Proof.
  intros [b w] r s' Hok. pose proof Hok as [Hg Ht He Hc Hf]. cbn in Hg, Ht.
  rewrite operate_propose_run, Hg, Ht.
  destruct (propose_tx (gw_endorsing_peers g) gtx w) as [q w'] eqn:E.
  destruct (only_propose_tx anything _ _ (λ _ _, I) _ _ _ E) as (new & Hnew & _).
  pose proof (builder_ok_world b w w' new Hnew Hok) as [_ _ _ Hc' Hf'].
  destruct q as [tx|e|]; intros [= _ <-]; [|by eapply builder_ok_world..].
  apply propose_tx_Ok in E. split; [done|done| | |done].
  - intros ? [= <-]. done.
  - intros Hcm. destruct (Hc' Hcm) as [_ Hb]. split; [by eexists|done].
Qed.

Lemma commit_tx_broadcasts requestor orderers tx w x w' :
  commit_tx requestor orderers tx w = (Ok x, w') →
  ∃ o env v, ABroadcast o env ∈ w_trace w' ∧ build_endorsed_tx_envelope tx requestor w = (Ok env, v).
Proof.
  intros (env & v & Hb & Hr)%SE_bind_Ok. destruct orderers as [|o orderers]; [done|].
  destruct (try_orderers_spec _ _ _ _ None _ _ _ Hr) as (failed & y & rest & wx & _ & _ & Hy & _).
  exists y, env, v. split; [|done]. rewrite Hy. apply elem_of_app. right. left.
Qed.

Lemma only_commit requestor orderers tx : only anything (commit_tx requestor orderers tx).
Proof. unfold commit_tx. solve_only. Qed.

Lemma keeps_submit : keeps operate_submit.
Proof.
  intros [b w] r s' Hok. pose proof Hok as [Hg Ht He Hc Hf]. cbn [fst snd] in *.
  unfold operate_submit, self, mbind, SE_bind. cbn [fst].
  destruct (b_endorsed_tx b) as [tx|] eqn:Etx; [|by intros [= _ <-]]. unfold lift.
  destruct (requestor_of (b_gateway b)) as [rq|e|]; [|by intros [= _ <-]..].
  unfold world. cbn [fst snd]. rewrite Hg.
  destruct (commit_tx rq (gw_orderers g) tx w) as [q w'] eqn:E.
  destruct (only_commit _ _ _ _ _ _ E) as (new & Hnew & _).
  pose proof (builder_ok_world b w w' new Hnew Hok) as [_ _ _ Hc' Hf'].
  destruct q as [x|e|]; intros [= _ <-]; [|by eapply builder_ok_world..].
  destruct (He tx eq_refl) as [Htx Hlen]. apply commit_tx_broadcasts in E as (o & env & v & Hin & Hb).
  split; cbn [fst snd set_committed b_gateway b_transaction b_endorsed_tx b_committed b_filtered_tx].
  - done.
  - done.
  - by rewrite Etx.
  - intros _. split; [by rewrite Etx|]. rewrite Htx in Hb.
    exists o, env, (et_peer_responses tx), rq, w, v. done.
  - intros t Hft. split; [done|]. by apply Hf'.
Qed.

(** Both ways of waiting return a transaction with the id. *)
Lemma await_transaction_Ok re requestor channel peer tx_id timeout w t w' :
  await_transaction re requestor channel peer tx_id timeout w = (Ok t, w') →
  FilteredTX.tx_id t = tx_id.
Proof.
  unfold await_transaction. destruct requestor as [rq|]; [|by intros [[=] _]%wait_for_Ok].
  destruct re.
  - by intros [? _]%check_transaction_Ok.
  - intros [E _]%wait_for_Ok.
    apply get_transaction_sound in E as (? & ? & ? & ? & ? & ? & ? & _ & _ & _ & _ & _ & [= ?]). done.
Qed.

Lemma only_await_transaction re requestor channel peer tx_id timeout :
  only anything (await_transaction re requestor channel peer tx_id timeout).
Proof.
  unfold await_transaction. destruct requestor as [rq|]; [|by apply only_wait_for, only_throw].
  destruct re; [by apply only_check_transaction|]. apply only_wait_for, only_bind; [|intros; solve_only].
  apply only_stream_blocks; [done|intros; by apply only_call|intros; apply only_lift].
Qed.

Lemma keeps_wait_on_peer re timeout peer s r s' :
  builder_ok s → b_committed s.1 = true → wait_on_peer re timeout peer s = (r, s') →
  builder_ok s' ∧ b_committed s'.1 = true.
Proof.
  destruct s as [b w]. intros Hok Hcm. pose proof Hok as [Hg Ht He Hc Hf]. cbn [fst snd] in *.
  unfold wait_on_peer, self, mbind, SE_bind. cbn [fst]. unfold lift.
  destruct (attribute_of "tx_id" (b_endorsed_tx b)) as [tx|e|] eqn:Etx; [|by intros [= _ <-]..].
  apply or_raise_Ok in Etx. unfold world. cbn [fst snd].
  destruct (await_transaction _ _ _ _ _ _ w) as [q w1] eqn:E.
  destruct (only_await_transaction _ _ _ _ _ _ _ _ _ E) as (new & Hnew & _).
  pose proof (builder_ok_world b w w1 new Hnew Hok) as Hok1.
  destruct q as [t|e|]; intros [= _ <-]; [|by split..].
  split; [|done]. apply await_transaction_Ok in E. destruct Hok1 as [_ _ He1 Hc1 _].
  split; cbn [fst snd set_filtered_tx b_gateway b_transaction b_endorsed_tx b_committed b_filtered_tx];
    [done|done|done|done|].
  intros ? [= <-]. split; [done|]. rewrite E. destruct (He tx Etx) as [-> _]. done.
Qed.

Lemma keeps_wait re timeout peers error s r s' :
  builder_ok s → b_committed s.1 = true →
  wait_on_peers re timeout peers error s = (r, s') → builder_ok s'.
Proof.
  revert error s. induction peers as [|peer peers IH]; intros error s Hok Hcm.
  - by intros [= _ <-].
  - cbn [wait_on_peers]. unfold catch. destruct (wait_on_peer re timeout peer s) as [q s1] eqn:E.
    destruct (keeps_wait_on_peer _ _ _ _ _ _ Hok Hcm E) as [Hok1 Hcm1].
    destruct q as [[]|e|]; [by intros [= _ <-]| |by intros [= _ <-]].
    destruct (_ || _); [by apply IH|by intros [= _ <-]].
Qed.

Lemma keeps_operate op : keeps (operate op).
Proof.
  destruct op as [re| |re timeout]; cbn [operate].
  - apply keeps_propose.
  - apply keeps_submit.
  - intros s r s' Hok. unfold operate_wait_for_commit, self, mbind, SE_bind.
    destruct (b_committed s.1) eqn:Hcm; cbn [negb]; [by apply keeps_wait|by intros [= _ <-]].
Qed.

Lemma keeps_run_all ops : keeps (run_all ops).
Proof.
  induction ops as [|op ops IH]; intros s r s' Hok; [by intros [= _ <-]|].
  cbn [run_all]. unfold mbind, SE_bind. destruct (operate op s) as [q s1] eqn:E.
  apply keeps_operate in E; [|done]. destruct q as [[]|e|]; [by apply IH|by intros [= _ <-]..].
Qed.

Lemma keeps_run_operations : keeps run_operations.
Proof.
  intros [b w] r s' Hok. unfold run_operations, self, mbind, SE_bind. cbn [fst].
  destruct (b_operations b) as [[|op ops]|]; [by intros [= _ <-]| |by intros [= _ <-]].
  destruct (run_all (op :: ops) (b, w)) as [q [b1 w1]] eqn:E.
  apply keeps_run_all in E; [|done]. destruct q as [[]|e|]; [|by intros [= _ <-]..].
  cbn. destruct (b_endorsed_tx b1); intros [= _ <-]; by apply builder_ok_operations.
Qed.

(** C3: in every state a builder can reach, whatever sequence of calls and
    awaits led there and however the awaits ended: it still has its gateway
    and generated transaction; a transaction it holds as endorsed is that
    one with one answer for every endorsing peer; if it counts as committed
    then it is endorsed and an orderer was sent an envelope built from the
    answers of all endorsing peers; and a filtered transaction it holds has
    its id and came after the commit. *)
Theorem builder_invariant w0 s : builder_reachable w0 s → builder_ok s.
Proof.
  intros Hr. apply (rtc_ind_r _ _ (builder_ok_new w0)) in Hr; [done|].
  intros s1 s2 _ Hstep Hok. destruct Hstep as [re b w|b w|re t b w|r s1 s2 Hrun|b w w' new He].
  - by apply builder_ok_add.
  - by apply builder_ok_add.
  - by apply builder_ok_add.
  - by eapply keeps_run_operations.
  - by eapply builder_ok_world.
Qed.
End life.

(** ** Invoking through the gateway *)

Section invoking.
Context `{Cryptography, Protobuf, Network}.

(** The peer whose events confirmed the transaction. *)
Definition confirmed_by (peers : list Peer) (tx_id : pystr) : Prop :=
  ∃ peer t requestor channel envelope w1 d resp block,
    peer ∈ peers ∧ (d, resp) ∈ st_items (DeliverFiltered w1 peer envelope)
    ∧ next_block (PeerFilteredEvents requestor channel peer) resp = Ok block
    ∧ t ∈ fb_transactions block ∧ FilteredTX.tx_id t = tx_id
    ∧ FilteredTX.tx_validation_code t = TxValidationCode_VALID.

Lemma confirmed_by_cons peer peers tx_id : confirmed_by peers tx_id → confirmed_by (peer :: peers) tx_id.
Proof.
  intros (p & t & rq & ch & env & w1 & d & resp & block & Hp & ?).
  exists p, t, rq, ch, env, w1, d, resp, block. split; [by right|done].
Qed.

Lemma wait_on_peer_outcome timeout peer b w r s' :
  wait_on_peer true timeout peer (b, w) = (r, s') →
  b_endorsed_tx s'.1 = b_endorsed_tx b
  ∧ match r with
    | Ok _ => ∃ tx, b_endorsed_tx b = Some tx ∧ confirmed_by [peer] (EndorsedTX_tx_id tx)
    | _ => True
    end.
Proof.
  unfold wait_on_peer, self, mbind, SE_bind. cbn [fst]. unfold lift.
  destruct (attribute_of "tx_id" (b_endorsed_tx b)) as [tx|e|] eqn:Etx; [|by intros [= <- <-]..].
  apply or_raise_Ok in Etx. unfold world. cbn [fst snd].
  destruct (await_transaction _ _ _ _ _ _ w) as [[t|e|] w1] eqn:E; [|by intros [= <- <-]..].
  intros [= <- <-]. split; [done|]. exists tx. split; [done|]. revert E. unfold await_transaction.
  destruct (gw_requestor (b_gateway b)) as [rq|]; [|by intros [[=] _]%wait_for_Ok].
  intros (Hid & Hcode & env & w2 & d & resp & block & ?)%check_transaction_Ok.
  exists peer, t, rq, (default (mkChannel []) (gw_channel (b_gateway b))), env, w2, d, resp, block.
  split; [left|]. naive_solver.
Qed.

Lemma wait_on_peers_Ok timeout peers error b w s' :
  wait_on_peers true timeout peers error (b, w) = (Ok tt, s') →
  b_endorsed_tx s'.1 = b_endorsed_tx b
  ∧ ∃ tx, b_endorsed_tx b = Some tx ∧ confirmed_by peers (EndorsedTX_tx_id tx).
Proof.
  revert error b w. induction peers as [|peer peers IH]; intros error b w; [done|].
  cbn [wait_on_peers]. unfold catch. destruct (wait_on_peer true timeout peer (b, w)) as [q [b1 w1]] eqn:E.
  apply wait_on_peer_outcome in E as [Hb Hq]. cbn [fst] in Hb. destruct q as [[]|e|]; [| |done].
  - intros [= <-]. split; [done|]. destruct Hq as (tx & Htx & Hc). exists tx. split; [done|].
    destruct Hc as (p & t & rq & ch & env & w2 & d & resp & block & ->%list_elem_of_singleton & ?).
    exists peer, t, rq, ch, env, w2, d, resp, block. split; [left|done].
  - destruct (_ || _); [|done]. intros (-> & tx & Htx & Hc)%IH. rewrite Hb. split; [done|].
    exists tx. split; [congruence|]. by apply confirmed_by_cons.
Qed.

(** C6: when a gateway's [invoke] returns, the transaction it returns was
    generated from the arguments, endorsed by all endorsing peers, and is
    committed: one of the peers delivered, in a block, a transaction with
    its id and the validation code VALID. *)
Theorem gateway_invoke_returns_committed g fcn args tm timeout w tx w' :
  Gateway_invoke g fcn args tm timeout w = (Ok tx, w') →
  ∃ channel requestor name w2, gw_channel g = Some channel ∧ gw_requestor g = Some requestor
    ∧ gw_chaincode g ≫= cc_name = Some name
    ∧ endorsed_run (generate_cc_tx requestor name channel fcn args tm) (gw_endorsing_peers g) w tx w2
    ∧ confirmed_by (gw_endorsing_peers g) (EndorsedTX_tx_id tx).
Proof.
  intros (b0 & w1 & Hb0 & Hrun)%SE_bind_Ok.
  destruct (transact_ready g) eqn:Hg.
  2: by destruct (refuses_transact g fcn args tm Hg w) as [msg E]; rewrite E in Hb0.
  destruct (transact_ready_run g fcn args tm w Hg) as (channel & rq & name & Hc & Hr & Hn & E).
  rewrite E in Hb0. unfold fmap, SE_fmap in Hb0.
  destruct (generate_cc_tx rq name channel fcn args tm w) as [[gtx|e|] w1'] eqn:Egen;
    [|done|done]. injection Hb0 as <- <-.
  set (b := wait_for_commit true timeout (submit (propose true (new_GatewayTXBuilder g gtx)))) in Hrun.
  unfold await_builder in Hrun. destruct (run_operations (b, w1')) as [q [b9 w9]] eqn:Eops.
  injection Hrun as -> _.
  apply SE_bind_Ok in Eops as (b' & s & [= <- <-] & (u0 & s1 & Hall & (u1 & s2 & [= _ <-] & (b'' & s3 & [= <- <-] & Hend)%SE_bind_Ok)
    %SE_bind_Ok)%SE_bind_Ok).
  cbn in Hend. destruct (b_endorsed_tx s1.1) as [tx'|] eqn:Etx; [|done]. injection Hend as -> _ _.
  change (run_all [OpPropose true; OpSubmit; OpWaitForCommit true timeout] (b, w1') = (Ok u0, s1)) in Hall.
  apply SE_bind_Ok in Hall as (u2 & s4 & Hop1 & (u3 & s5 & Hop2 & (u4 & s6 & Hop3 & [= _ <-])%SE_bind_Ok)
    %SE_bind_Ok).
  cbn [operate] in Hop1. rewrite operate_propose_run in Hop1.
  change (b_gateway b) with g in Hop1. change (b_transaction b) with gtx in Hop1.
  destruct (propose_tx (gw_endorsing_peers g) gtx w1') as [[tx1|e|] w2] eqn:Eprop; [|done|done].
  destruct (fully_endorsed tx1) eqn:Hfull; [|done]. cbn [andb negb] in Hop1. injection Hop1 as _ <-.
  unfold operate, operate_submit, self, mbind, SE_bind in Hop2. cbn [fst set_endorsed_tx b_endorsed_tx] in Hop2.
  unfold lift in Hop2. destruct (requestor_of _) as [rq'|e|]; [|done|done].
  unfold world in Hop2. cbn [fst snd] in Hop2.
  destruct (commit_tx _ _ tx1 w2) as [[x|e|] w3]; [|done|done]. injection Hop2 as _ <-.
  unfold operate, operate_wait_for_commit, self, mbind, SE_bind in Hop3.
  cbn [fst set_committed b_committed negb set_endorsed_tx b_gateway] in Hop3. destruct u4.
  apply wait_on_peers_Ok in Hop3 as (Hsame & tx2 & Htx2 & Hconf).
  cbn [set_committed b_endorsed_tx set_endorsed_tx] in Hsame, Htx2.
  assert (tx1 = tx) as -> by congruence. injection Htx2 as <-.
  exists channel, rq, name, w2. split_and!; try done. by exists gtx, w1'.
Qed.
End invoking.
