(* ===== verification/Completion.v ===== *)
(** * Completion: invocations that succeed

    The converse of the safety theorems, end to end: with a client that is
    given text it can send and a network in working order, [invoke] of
    operations.py and of the gateway return.  [working] is what the client
    needs of the network; it is told the envelope that was broadcast and
    nothing else, so that what ties the transaction it delivers to the one
    the client waits for is the round trip of Roundtrip.v. *)
From S2P Require Import Prelude PyText Sha256 Sha3 Pem Wire Protobuf Descriptors CommonProtos PeerProtos Constants TxData Errors Crypto Grpc Models Transactions Decoded Block Runtime Factories Connect Events Roundtrip Transact Package Operations Safety Gateway.

(** ** What was broadcast *)

Definition broadcasts (w : World) : list Envelope :=
  omap (λ a, match a with ABroadcast _ env => Some env | _ => None end) (w_trace w).

(** No time passed and nothing was broadcast. *)
Definition quiet (w w' : World) : Prop :=
  w_clock w' = w_clock w ∧ broadcasts w' = broadcasts w.

#[export] Instance quiet_preorder : PreOrder quiet.
Proof. split; [done|]. intros w1 w2 w3 [H1 H2] [H3 H4]. split; congruence. Qed.

Lemma broadcasts_log a w :
  broadcasts (log a w) = broadcasts w ++ match a with ABroadcast _ env => [env] | _ => [] end.
Proof. unfold broadcasts, log. cbn [w_trace]. rewrite omap_app. by destruct a. Qed.

Lemma quiet_log a w :
  match a with ABroadcast _ _ => False | _ => True end → quiet w (log a w).
Proof. intros Ha. split; [done|]. rewrite broadcasts_log. destruct a; by rewrite ?app_nil_r. Qed.

(** ** The client's part *)

(** One byte per character, as the client encodes arguments. *)
Definition latin1 (s : pystr) : Prop := Forall (λ c, c < 256)%N s.

Lemma encode_proto_bytes_latin1 s : latin1 s → ∃ l, encode_proto_bytes s = Ok l.
Proof.
  unfold latin1. intros Hs. unfold encode_proto_bytes. destruct (encode_latin1 s) as [l|] eqn:E; [by exists l|].
  apply encode_latin1_None, Exists_exists in E as (c & Hc & Hlt).
  rewrite Forall_forall in Hs. specialize (Hs c Hc). lia.
Qed.

Section client.
Context `{CryptographyLaws, ProtobufLaws, !Network}.

(** A requestor that can sign, on a channel it can name, while the clock is in
    range. *)
Record sender_ok (requestor : User) (channel : Channel) (w : World) : Prop := {
  so_key : is_Some (user_private_key requestor);
  so_msp : user_text_ok requestor;
  so_clock : clock_ok w;
  so_channel : is_ascii (channel_name channel) = true;
}.

(** With a chaincode and arguments that can be sent. *)
Record client_ok (requestor : User) (channel : Channel) (cc_name fcn : pystr)
    (args : option (list pystr)) (w : World) : Prop := {
  co_sender : sender_ok requestor channel w;
  co_name : valid_str cc_name = true;
  co_args : Forall latin1 (fcn :: py_or args []);
}.

(** Where [gen] generates a call of a chaincode on the channel. *)
Definition generates (gen : M GeneratedTX) (requestor : User) (channel : Channel) (name : pystr)
    (full_args : list bytes) (tm : option (list (pystr * bytes))) (w : World) : Prop :=
  ∃ g w', gen w = (Ok g, w')
    ∧ build_generated_tx requestor name full_args (Some channel) tm w = (Ok g, w').

(** A certificate that is given is in PEM. *)
Definition tls_ok (cert : option bytes) : Prop :=
  truthy cert = true → is_Some (pem_to_der (default [] cert)).

Lemma ecies_sign_total self n k m : ∃ sig, ecies_sign self n k m = Ok sig.
Proof.
  destruct (ec_sign_scalars k m (ecies_sign_hash_algorithm self) n) as (r & s & E & Hr & Hs).
  unfold ecies_sign. rewrite E, prevent_malleability_encode by lia. by eexists.
Qed.

Lemma sign_run user payload w :
  is_Some (user_private_key user) →
  ∃ sig, sign user payload w = (Ok sig, log (ASign payload) w).
Proof.
  intros [key Hk].
  destruct (ecies_sign_total (user_crypto_suite user) (length (w_trace w)) key payload) as [sig Hs].
  exists sig. apply sign_Ok. by exists key.
Qed.

Lemma wrap_run user payload w :
  is_Some (user_private_key user) →
  ∃ env w', wrap_transaction user payload w = (Ok env, w') ∧ quiet w w'.
Proof.
  intros Hk. destruct (sign_run user (SerializeToString payload) w Hk) as [sig Hs].
  exists (mkEnvelope (SerializeToString payload) sig), (log (ASign (SerializeToString payload)) w).
  split; [by apply wrap_transaction_Ok|by apply quiet_log].
Qed.

Lemma header_run ctx channel ext ty tls w :
  is_ascii (channel_name_of channel) = true → tls_ok tls →
  ∃ header, build_header ctx channel ext ty tls w = (Ok header, w).
Proof.
  intros Hc Ht. unfold build_header, channel_name_of in *.
  erewrite SE_bind_run; [|done].
  rewrite (SE_bind_run _ _ _ (channel_name_of channel) w)
    by (unfold lift; by rewrite (encode_proto_str_ascii _ Hc)).
  unfold tls_ok in Ht. destruct (truthy tls); [|by eexists].
  destruct (Ht eq_refl) as [der Hder].
  rewrite (SE_bind_run _ _ _ (sha256 der) w); [by eexists|].
  unfold fmap, SE_fmap, lift, pem_to_der_res. by rewrite Hder.
Qed.

Lemma envelope_run user ctx data channel tls ext ty w :
  is_Some (user_private_key user) → is_ascii (channel_name_of channel) = true → tls_ok tls →
  ∃ env w', build_envelope user ctx data channel tls ext ty w = (Ok env, w') ∧ quiet w w'.
Proof.
  intros Hk Hc Ht. destruct (header_run ctx channel ext ty tls w Hc Ht) as [header Hh].
  unfold build_envelope. rewrite (SE_bind_run _ _ _ _ _ Hh). by apply wrap_run.
Qed.

Lemma endorsed_envelope_run tx user w :
  is_Some (user_private_key user) → et_peer_responses tx ≠ [] →
  ∃ env w', build_endorsed_tx_envelope tx user w = (Ok env, w') ∧ quiet w w'.
Proof.
  intros Hk Hr. unfold build_endorsed_tx_envelope.
  destruct (et_peer_responses tx); [done|]. by apply wrap_run.
Qed.

Lemma build_generated_run requestor cc_name full_args channel tm w :
  is_Some (user_private_key requestor) → is_ascii (channel_name_of channel) = true →
  ∃ g w', build_generated_tx requestor cc_name full_args channel tm w = (Ok g, w') ∧ quiet w w'.
Proof.
  intros Hk Hc. unfold build_generated_tx.
  rewrite (SE_bind_run _ _ _ _ _ (tx_context_from_user_run requestor w)).
  cbn zeta. set (w1 := log _ w). set (ctx := mkTXContext _ _ _ _).
  destruct (header_run ctx channel
    (Some (SerializeToString (mkChaincodeHeaderExtension [] (Some (mkChaincodeID [] cc_name [])))))
    TxEndorserTransaction None w1 Hc ltac:(done)) as [header Hh].
  rewrite (SE_bind_run _ _ _ _ _ Hh), (SE_bind_run _ _ _ 1%Z w1) by done.
  set (payload := SerializeToString (if truthy tm then _ else _)).
  destruct (sign_run requestor payload w1 Hk) as [sig Hs].
  rewrite (SE_bind_run _ _ _ _ _ Hs). eexists _, _. split; [done|].
  by etrans; apply quiet_log.
Qed.

Lemma encode_args l : Forall latin1 l → ∃ k, mapM encode_proto_bytes l = Ok k.
Proof.
  induction 1 as [|s l Hs _ [k IH]]; [by exists []|].
  destruct (encode_proto_bytes_latin1 s Hs) as [b Hb]. exists (b :: k).
  cbn. rewrite Hb. step_outcome. by rewrite IH.
Qed.

Lemma generate_run requestor channel cc_name fcn args tm w :
  client_ok requestor channel cc_name fcn args w →
  ∃ full_args, generates (generate_cc_tx requestor cc_name channel fcn args tm) requestor channel
                 cc_name full_args tm w.
Proof.
  intros [[Hk _ _ Hc] _ Ha]. destruct (encode_args _ Ha) as [full_args Hl].
  destruct (build_generated_run requestor cc_name full_args (Some channel) tm w Hk Hc)
    as (g & w' & Hg & _).
  exists full_args, g, w'. split; [|done]. unfold generate_cc_tx.
  by rewrite (SE_bind_run _ _ _ full_args w) by (unfold lift; by rewrite Hl).
Qed.

Lemma seek_info_run start stop behavior :
  position_ok start = true → position_ok stop = true →
  ∃ seek_info, build_seek_info start stop behavior = Ok seek_info.
Proof.
  intros Hs He. pose proof (seek_position_outcome start) as Ps. pose proof (seek_position_outcome stop) as Pe.
  rewrite Hs in Ps. rewrite He in Pe. destruct Ps as (s & Es & _), Pe as (e & Ee & _).
  unfold build_seek_info. rewrite Es, Ee. step_outcome. destruct behavior; by eexists.
Qed.

Lemma connection_envelope_run {Resp BlockType TXType} (hub : EventHub Resp BlockType TXType)
    cert start stop behavior w :
  hub_client_cert hub = Ok cert → tls_ok cert → is_Some (user_private_key (hub_requestor hub)) →
  is_ascii (channel_name (hub_channel hub)) = true →
  position_ok start = true → position_ok stop = true →
  ∃ env w', get_connection_envelope hub start stop behavior w = (Ok env, w') ∧ quiet w w'.
Proof.
  intros Hcert Ht Hk Hc Hs He. destruct (seek_info_run start stop behavior Hs He) as [seek_info Hseek].
  unfold get_connection_envelope.
  rewrite (SE_bind_run _ _ _ seek_info w) by (unfold lift; by rewrite Hseek).
  rewrite (SE_bind_run _ _ _ _ _ (tx_context_from_user_run (hub_requestor hub) w)). cbn zeta.
  set (w1 := log _ w). assert (quiet w w1) as Hq1 by by apply quiet_log.
  rewrite (SE_bind_run _ _ _ cert w1) by (unfold lift; by rewrite Hcert).
  set (ctx := mkTXContext _ _ _ _). set (data := SerializeToString _).
  destruct (envelope_run _ ctx data (Some (hub_channel hub)) cert None TxEndorserTransaction w1 Hk Hc Ht)
    as (env & w' & Henv & Hq).
  exists env, w'. split; [exact Henv|]. by etrans.
Qed.
End client.

(** ** The network's part *)

Section network.
Context `{Cryptography, Protobuf} {N : Network}.

(** An orderer whose connection fails, and one that accepts what it is sent. *)
Definition down (o : Orderer) : Prop :=
  ∀ w env, ∃ d code details, Broadcast w o env = mkStream [] (Broken d code details).
Definition accepting (o : Orderer) : Prop :=
  ∀ w env, ∃ d resp items en,
    Broadcast w o env = mkStream ((d, resp) :: items) en ∧ BroadcastResponse_status resp = 200%Z.

(** A reply that endorses, with a payload and an endorser that can be read. *)
Definition endorses (r : ProposalResponse) : Prop :=
  response_status r = 200%Z
  ∧ (∃ prp, parse ProposalResponsePayload (ProposalResponse_payload r) = Ok prp)
  ∧ ∃ id, parse SerializedIdentity (Endorsement_endorser (endorsement_of r)) = Ok id.

(** The peer [p], asked in the world [w], endorses the proposal. *)
Definition agrees (w : World) (p : Peer) (sp : SignedProposal) : Prop :=
  ∃ d r, ProcessProposal w p sp = Reply d r ∧ endorses r.

(** The peers endorse the proposal from [w] on. *)
Definition willing (peers : list Peer) (sp : SignedProposal) (w : World) : Prop :=
  ∀ v p, adds anything w v → p ∈ peers → agrees v p sp.

(** A network that commits: an orderer accepts (those before it may be down),
    and the first peer, asked for filtered blocks after an envelope was
    broadcast, delivers a valid transaction with the id it reads in the
    envelope before [timeout] seconds have passed. *)
Record serving (requestor : User) (channel : Channel) (peers : list Peer)
    (orderers : list Orderer) (timeout : Z) : Prop := {
  sv_orderers : ∃ failed o rest, orderers = failed ++ o :: rest ∧ Forall down failed ∧ accepting o;
  sv_delivers : ∃ peer rest, peers = peer :: rest ∧ tls_ok (peer_client_cert peer)
    ∧ ∀ w env d req,
        last (broadcasts w) = Some env → DecodedTX_decode (SerializeToString env) = Ok d →
        ∃ t delay, streams_transaction (PeerFilteredEvents requestor channel peer)
            (DecodedTX_tx_id d) (st_items (DeliverFiltered w peer req)) t delay
          ∧ FilteredTX.tx_validation_code t = TxValidationCode_VALID
          ∧ (delay < Z.to_N timeout * nanos_per_second)%N;
}.

(** A network in working order: moreover every peer endorses. *)
Record working (requestor : User) (channel : Channel) (peers : list Peer)
    (orderers : list Orderer) (timeout : Z) : Prop := {
  wk_endorses w p sp : p ∈ peers → agrees w p sp;
  wk_serving : serving requestor channel peers orderers timeout;
}.

Lemma working_willing requestor channel peers orderers timeout sp w :
  working requestor channel peers orderers timeout → willing peers sp w.
Proof. intros [Hp _] v p _. apply Hp. Qed.

Lemma propose_run peers g w :
  peers ≠ [] → willing peers (gt_signed_proposal g) w →
  ∃ rs w', propose_tx peers g w = (Ok (endorse g rs), w')
    ∧ length rs = length peers ∧ Forall endorses rs ∧ broadcasts w' = broadcasts w
    ∧ w_trace w' = w_trace w ++ ((λ p, AProcessProposal p (gt_signed_proposal g)) <$> peers).
Proof.
  intros Hne Hp. unfold propose_tx.
  rewrite (SE_bind_run _ _ _ tt w) by by destruct peers.
  destruct (gather (process_proposal_on_peer (gt_signed_proposal g) <$> peers) w) as [r w'] eqn:E.
  pose proof (gather_proposals _ _ _ _ _ E) as [Ht Ho].
  assert (∀ i p, peers !! i = Some p → ∃ d r,
    answer (gt_signed_proposal g) peers w i p = Reply d r ∧ endorses r) as Ha
    by (intros i p Hi; apply Hp; [by eexists; split; [|apply Forall_true]|by eapply list_elem_of_lookup_2]).
  destruct r as [rs|e|]; cbn in Ho.
  - destruct Ho as [Hl Ho]. exists rs, w'. rewrite (SE_bind_run _ _ _ _ _ E).
    split; [done|]. split; [done|]. split.
    + apply Forall_lookup. intros i r Hr.
      destruct (lookup_lt_is_Some_2 peers i) as [p Hi]; [rewrite <-Hl; by eapply lookup_lt_Some|].
      destruct (Ha i p Hi) as (d & r' & Ea & He), (Ho i p Hi) as (d' & r'' & Hr'' & Ea' & _).
      congruence.
    + split; [|exact Ht]. unfold extends in Ht. unfold broadcasts. rewrite Ht, omap_app.
      rewrite <-(app_nil_r (omap _ (w_trace w))) at 2. f_equal. clear. by induction peers.
  - destruct Ho as (i & p & d & c & t & Hi & Ea & _).
    destruct (Ha i p Hi) as (? & ? & Ea' & _). congruence.
  - destruct Ho as [(i & p & Hi & Ea) _]. destruct (Ha i p Hi) as (? & ? & Ea' & _). congruence.
Qed.

Lemma try_orderers_run env failed o rest tx_id error w :
  Forall down failed → accepting o →
  ∃ resp w', try_orderers env (failed ++ o :: rest) tx_id error w = (Ok (Some resp), w')
    ∧ BroadcastResponse_status resp = 200%Z ∧ last (broadcasts w') = Some env.
Proof.
  intros Hf Ho. revert error w. induction Hf as [|x failed Hx _ IH]; intros error w.
  - destruct (Ho (log (ABroadcast o env) w) env) as (d & resp & items & en & E & Hs).
    exists resp, (advance d (log (ABroadcast o env) w)). split.
    + cbn. unfold catch. rewrite broadcast_to_orderer_run. cbv zeta. rewrite E. cbn. by rewrite Hs.
    + split; [done|]. change (last (broadcasts (log (ABroadcast o env) w)) = Some env).
      by rewrite broadcasts_log, last_snoc.
  - destruct (Hx (log (ABroadcast x env) w) env) as (d & code & details & E). cbn.
    unfold catch. rewrite broadcast_to_orderer_run. cbv zeta. rewrite E. cbn. apply IH.
Qed.

Lemma commit_run requestor failed o rest tx env w w1 :
  build_endorsed_tx_envelope tx requestor w = (Ok env, w1) →
  Forall down failed → accepting o →
  ∃ resp w', commit_tx requestor (failed ++ o :: rest) tx w = (Ok (Some resp), w')
    ∧ BroadcastResponse_status resp = 200%Z ∧ last (broadcasts w') = Some env.
Proof.
  intros He Hf Ho. unfold commit_tx. rewrite (SE_bind_run _ _ _ _ _ He).
  destruct (try_orderers_run env failed o rest (EndorsedTX_tx_id tx) None w1 Hf Ho)
    as (resp & w' & Hr & Hl).
  exists resp, w'. split; [|done]. unfold broadcast_to_orderers.
  destruct (failed ++ o :: rest) eqn:E; [by destruct failed|]. by rewrite <-E in *.
Qed.
End network.

(** ** What a transaction calls *)

(** The chaincode and the arguments of an invocation. *)
Definition spec_call (cis : ChaincodeInvocationSpec) : option (pystr * list bytes) :=
  spec ← ChaincodeInvocationSpec_chaincode_spec cis;
  id ← ChaincodeSpecProto_chaincode_id spec;
  input ← ChaincodeSpecProto_input spec;
  Some (ChaincodeID_name id, ChaincodeInput_args input).

Section calls.
Context `{Protobuf}.

Definition payload_call (payload : ChaincodeProposalPayload) : option (pystr * list bytes) :=
  match parse ChaincodeInvocationSpec (ChaincodeProposalPayload_input payload) with
  | Ok cis => spec_call cis
  | _ => None
  end.

(** The call a proposal asks for. *)
Definition proposal_call (sp : SignedProposal) : option (pystr * list bytes) :=
  match (proposal ← parse Proposal (SignedProposal_proposal_bytes sp);
         parse ChaincodeProposalPayload (Proposal_payload proposal)) with
  | Ok payload => payload_call payload
  | _ => None
  end.

(** The call a decoded transaction records. *)
Definition transaction_call (tx : DecodedTX) : option (pystr * list bytes) :=
  match dp_data (dtx_payload tx) with
  | PayloadTransaction (mkDecodedTransactionBody [action]) =>
    payload_call (dcap_chaincode_proposal_payload (dta_payload action))
  | _ => None
  end.

(** An envelope that records the call. *)
Definition records (name : pystr) (full_args : list bytes) (env : Envelope) : Prop :=
  ∃ d, DecodedTX_decode (SerializeToString env) = Ok d ∧ transaction_call d = Some (name, full_args).

Lemma payload_call_payload `{!ProtobufLaws _} name full_args tm :
  valid_str name = true → payload_call (proposal_payload name full_args tm) = Some (name, full_args).
Proof.
  intros Hn. unfold payload_call. cbn [proposal_payload ChaincodeProposalPayload_input].
  by rewrite parse_serialized by by apply invocation_valid.
Qed.
End calls.

Section asking.
Context `{Cryptography, ProtobufLaws, !Network}.

(** From [w] on the peers endorse proposals of the call. *)
Definition agree_to (peers : list Peer) (name : pystr) (full_args : list bytes) (w : World) : Prop :=
  ∀ v p sp, adds anything w v → p ∈ peers → proposal_call sp = Some (name, full_args) → agrees v p sp.

(** The peer has been asked for the call. *)
Definition asked_for (name : pystr) (full_args : list bytes) (p : Peer) (w : World) : Prop :=
  ∃ sp, AProcessProposal p sp ∈ w_trace w ∧ proposal_call sp = Some (name, full_args).

(** A generated transaction asks for the call it was generated from. *)
Lemma generated_call user name full_args channel tm w g w' :
  build_generated_tx user name full_args channel tm w = (Ok g, w') →
  valid_str name = true → forallb (λ e, valid_str e.1) (py_or tm []) = true →
  proposal_call (gt_signed_proposal g) = Some (name, full_args).
Proof.
  intros Hg Hn Htm. destruct (signed_proposal_read _ _ _ _ _ _ _ _ Hg Htm) as (p & Hp & _ & Hpay).
  unfold proposal_call. rewrite Hp, bind_Ok, Hpay. by apply payload_call_payload.
Qed.

Lemma working_agree_to requestor channel peers orderers timeout name full_args w :
  working requestor channel peers orderers timeout → agree_to peers name full_args w.
Proof. intros [Hp _] v p sp _ Hin _. by apply Hp. Qed.

Lemma agree_to_after peers name full_args w v :
  adds anything w v → agree_to peers name full_args w → agree_to peers name full_args v.
Proof. intros Hv Ha v' p sp Hv'. apply Ha. by etrans. Qed.

(** Proposing a generated call to peers that agree to it. *)
Lemma propose_call_run peers user name full_args channel tm w g w1 :
  build_generated_tx user name full_args channel tm w = (Ok g, w1) →
  valid_str name = true → forallb (λ e, valid_str e.1) (py_or tm []) = true →
  peers ≠ [] → agree_to peers name full_args w →
  ∃ rs w', propose_tx peers g w1 = (Ok (endorse g rs), w') ∧ length rs = length peers
    ∧ fully_endorsed (endorse g rs) = true ∧ Forall (λ p, asked_for name full_args p w') peers.
Proof.
  intros Hg Hn Htm Hne Ha. pose proof (generated_call _ _ _ _ _ _ _ _ Hg Hn Htm) as Hcall.
  assert (adds anything w w1) as Hw1 by (eapply only_build_generated; [|exact Hg]; done).
  destruct (propose_run peers g w1 Hne) as (rs & w' & Hp & Hl & He & _ & Ht).
  { intros v p Hv Hin. apply Ha; [by etrans|done..]. }
  exists rs, w'. split; [done|]. split; [done|]. split.
  - apply fully_endorsed_spec. eapply Forall_impl; [exact He|]. by intros r (? & _).
  - apply Forall_forall. intros p Hin. exists (gt_signed_proposal g). split; [|done].
    rewrite Ht. apply elem_of_app. right. apply list_elem_of_fmap. by exists p.
Qed.
End asking.

(** ** Together *)

Section completing.
Context `{CryptographyLaws, ProtobufLaws, !Network}.
Context (requestor : User) (channel : Channel) (peers : list Peer) (orderers : list Orderer)
  (timeout : Z).

(** The transaction [tx], endorsed and committed by the run up to [w']: the
    last envelope broadcast is read back as the transaction's. *)
Definition endorsed_and_broadcast (tx : EndorsedTX) (w' : World) : Prop :=
  fully_endorsed tx = true ∧ length (et_peer_responses tx) = length peers
  ∧ ∃ env d, last (broadcasts w') = Some env ∧ DecodedTX_decode (SerializeToString env) = Ok d
      ∧ DecodedTX_tx_id d = EndorsedTX_tx_id tx.

Lemma endorsed_envelope_read name full_args tm g rs ids w w1 env v v' :
  build_generated_tx requestor name full_args (Some channel) tm w = (Ok g, w1) →
  build_endorsed_tx_envelope (endorse g rs) requestor v = (Ok env, v') →
  user_text_ok requestor → clock_ok w → is_ascii (channel_name channel) = true →
  valid_str name = true → rs ≠ [] → Forall endorses rs →
  Forall2 (λ r id, parse SerializedIdentity (Endorsement_endorser (endorsement_of r)) = Ok id) rs ids →
  ∃ d, DecodedTX_decode (SerializeToString env) = Ok d
    ∧ DecodedTX_tx_id d = EndorsedTX_tx_id (endorse g rs)
    ∧ transaction_call d = Some (name, full_args).
Proof.
  intros (channel_id & Hid & Hctx & Hhdr & Hp & _)%build_generated_tx_Ok Henv Hu Hck Hc Hn Hne He Hids.
  cbn [channel_name_of] in Hid. rewrite (encode_proto_str_ascii _ Hc) in Hid. injection Hid as <-.
  destruct rs as [|r rs]; [done|]. apply build_endorsed_tx_envelope_Ok in Henv.
  rewrite Hp, Hhdr in Henv. apply Forall_cons_1 in He as [(_ & [prp Hprp] & _) _].
  eexists. split.
  - apply (endorsed_envelope_decode requestor name full_args (channel_name channel) w r rs ids prp env);
      [done| |done..]. apply channel_header_valid; [done|by apply ascii_valid].
  - split; [unfold EndorsedTX_tx_id; cbn [endorse et_tx_context]; by rewrite Hctx|].
    by apply payload_call_payload.
Qed.

Lemma check_run peer tx_id env d w :
  is_Some (user_private_key requestor) → is_ascii (channel_name channel) = true →
  tls_ok (peer_client_cert peer) →
  last (broadcasts w) = Some env → DecodedTX_decode (SerializeToString env) = Ok d →
  DecodedTX_tx_id d = tx_id →
  (∀ w env d req,
     last (broadcasts w) = Some env → DecodedTX_decode (SerializeToString env) = Ok d →
     ∃ t delay, streams_transaction (PeerFilteredEvents requestor channel peer)
         (DecodedTX_tx_id d) (st_items (DeliverFiltered w peer req)) t delay
       ∧ FilteredTX.tx_validation_code t = TxValidationCode_VALID
       ∧ (delay < Z.to_N timeout * nanos_per_second)%N) →
  ∃ t w', check_transaction (PeerFilteredEvents requestor channel peer) tx_id timeout None
            BlockUntilReady w = (Ok t, w') ∧ broadcasts w' = broadcasts w.
Proof.
  intros Hk Hc Ht Hl Hd <- Hdel.
  destruct (connection_envelope_run (PeerFilteredEvents requestor channel peer)
    (peer_client_cert peer) None (Some INDEFINITE_STOP_POSITION) BlockUntilReady w)
    as (req & w1 & Hreq & Hclk & Hb); [done..|].
  set (w2 := log (ADeliverFiltered peer req) w1).
  assert (broadcasts w2 = broadcasts w) as Hb2
    by (unfold w2; rewrite broadcasts_log, app_nil_r; done).
  destruct (Hdel w2 env d req ltac:(by rewrite Hb2) Hd) as (t & delay & Hs & Hv & Hlt).
  exists t, (advance delay w2). split; [|done].
  rewrite (check_transaction_run requestor channel peer _ timeout None BlockUntilReady w t (advance delay w2)).
  - by rewrite Hv.
  - apply get_transaction_run. by exists req, w1, delay.
  - lia.
  - cbn. lia.
Qed.

(** What every operation runs that generates a transaction and commits it. *)
Lemma runs_to_commit gen name full_args tm w :
  sender_ok requestor channel w → generates gen requestor channel name full_args tm w →
  valid_str name = true →
  (∀ g w1, gen w = (Ok g, w1) → willing peers (gt_signed_proposal g) w1) →
  serving requestor channel peers orderers timeout →
  ∃ g w1 tx w2 x w3 peer rest t w4,
    gen w = (Ok g, w1)
    ∧ propose_tx peers g w1 = (Ok tx, w2)
    ∧ commit_tx requestor orderers tx w2 = (Ok x, w3)
    ∧ peers = peer :: rest
    ∧ check_transaction (PeerFilteredEvents requestor channel peer) (EndorsedTX_tx_id tx) timeout
        None BlockUntilReady w3 = (Ok t, w4)
    ∧ endorsed_and_broadcast tx w4
    ∧ ∃ env, last (broadcasts w4) = Some env ∧ records name full_args env.
Proof.
  intros [Hk Hu Hck Hc] (g & w1 & Hg & Hb) Hn Hp [Ho (peer & rest & Hpeers & Htls & Hdel)].
  destruct (propose_run peers g w1) as (rs & w2 & Hprop & Hlen & He & Hb2 & _);
    [by rewrite Hpeers|by apply Hp|].
  assert (rs ≠ []) as Hne by (intros ->; by rewrite Hpeers in Hlen).
  assert (∃ ids, Forall2 (λ r id, parse SerializedIdentity
    (Endorsement_endorser (endorsement_of r)) = Ok id) rs ids) as [ids Hids].
  { apply Forall_exists_Forall2_l. eapply Forall_impl; [exact He|]. by intros r (_ & _ & Hid). }
  destruct (endorsed_envelope_run (endorse g rs) requestor w2 Hk Hne) as (env & w2' & Henv & _).
  destruct Ho as (failed & o & others & Horderers & Hf & Ho).
  destruct (commit_run requestor failed o others (endorse g rs) env w2 w2' Henv Hf Ho)
    as (resp & w3 & Hcom & _ & Hl). rewrite <-Horderers in Hcom.
  destruct (endorsed_envelope_read name full_args tm g rs ids w w1 env w2 w2' Hb Henv Hu Hck Hc Hn
    Hne He Hids) as (d & Hd & Hid & Hcall).
  destruct (check_run peer _ env d w3 Hk Hc Htls Hl Hd Hid Hdel) as (t & w4 & Hcheck & Hb4).
  exists g, w1, (endorse g rs), w2, (Some resp), w3, peer, rest, t, w4.
  do 5 (split; [done|]). split; [split; [|split; [done|]]|].
  - apply fully_endorsed_spec. eapply Forall_impl; [exact He|]. by intros r (? & _).
  - exists env, d. by rewrite Hb4.
  - exists env. rewrite Hb4. split; [done|]. by exists d.
Qed.

Lemma endorse_commit_run gen name full_args tm msg w :
  sender_ok requestor channel w → generates gen requestor channel name full_args tm w →
  valid_str name = true →
  (∀ g w1, gen w = (Ok g, w1) → willing peers (gt_signed_proposal g) w1) →
  serving requestor channel peers orderers timeout →
  ∃ tx w', endorse_then gen peers msg (λ tx,
      commit_tx_and_wait requestor channel peers orderers tx timeout;; mret tx) w = (Ok tx, w')
    ∧ endorsed_and_broadcast tx w'
    ∧ ∃ env, last (broadcasts w') = Some env ∧ records name full_args env.
Proof.
  intros Hs Hgen Hn Hp Hw. destruct (runs_to_commit gen name full_args tm w Hs Hgen Hn Hp Hw)
    as (g & w1 & tx & w2 & x & w3 & peer & rest & t & w4 & Hg & Hprop & Hc & Hpeers & Hcheck & Hend).
  exists tx, w4. split; [|done]. unfold endorse_then.
  rewrite (SE_bind_run _ _ _ _ _ Hg), (SE_bind_run _ _ _ _ _ Hprop).
  rewrite (SE_bind_run _ _ _ tt w2)
    by (unfold raise_tx_proposal_error; by rewrite (proj1 (proj1 Hend))).
  rewrite (SE_bind_run _ _ _ tt w4); [done|]. unfold commit_tx_and_wait.
  rewrite (SE_bind_run _ _ _ _ _ Hc), (SE_bind_run _ _ _ peer w3) by by rewrite Hpeers.
  by rewrite (SE_bind_run _ _ _ _ _ Hcheck).
Qed.

(** C7: invoking succeeds: a client whose requestor has a key, whose texts can
    be sent and whose clock is in range, on a network in working order, gets
    its transaction: [invoke] returns it, endorsed with status 200 by every
    peer, and the last envelope broadcast is the one that says so; orderers
    that are down before a working one do not matter. *)
Theorem invoke_succeeds cc_name fcn args tm w :
  client_ok requestor channel cc_name fcn args w → working requestor channel peers orderers timeout →
  ∃ tx w', invoke requestor peers orderers channel cc_name fcn args timeout tm w = (Ok tx, w')
    ∧ endorsed_and_broadcast tx w'.
Proof.
  intros Hok Hw. destruct (generate_run _ _ _ _ _ tm _ Hok) as [full_args Hgen].
  destruct (endorse_commit_run _ _ _ _
    (u "Failed to invoke chaincode " ++ cc_name ++ u " with function " ++ fcn) w
    (co_sender _ _ _ _ _ _ Hok) Hgen (co_name _ _ _ _ _ _ Hok)
    (λ g w1 _, working_willing _ _ _ _ _ _ w1 Hw) (wk_serving _ _ _ _ _ Hw))
    as (tx & w' & Hrun & Hend & _).
  by exists tx, w'.
Qed.

(** Waiting through the gateway ends with the first peer that confirms. *)
Lemma wait_on_peers_run g peer rest tx t error b w w' :
  b_gateway b = g → gw_requestor g = Some requestor → gw_channel g = Some channel →
  b_endorsed_tx b = Some tx →
  check_transaction (PeerFilteredEvents requestor channel peer) (EndorsedTX_tx_id tx) timeout
    None BlockUntilReady w = (Ok t, w') →
  wait_on_peers true timeout (peer :: rest) error (b, w) = (Ok tt, (set_filtered_tx t b, w')).
Proof.
  intros Hg Hr Hc Htx Hcheck. cbn [wait_on_peers].
  enough (wait_on_peer true timeout peer (b, w) = (Ok tt, (set_filtered_tx t b, w'))) as E
    by (unfold catch; by rewrite E).
  unfold wait_on_peer, self, mbind, SE_bind, lift. cbn [fst]. rewrite Htx. cbn [attribute_of or_raise].
  rewrite Hg, Hr, Hc. cbn [from_option id await_transaction].
  by rewrite (world_run _ _ _ _ _ Hcheck).
Qed.

Lemma operate_submit_run g tx x b w w' :
  b_gateway b = g → gw_requestor g = Some requestor → gw_orderers g = orderers →
  b_endorsed_tx b = Some tx → commit_tx requestor orderers tx w = (Ok x, w') →
  operate_submit (b, w) = (Ok tt, (set_committed b, w')).
Proof.
  intros Hg Hr Ho Htx Hc. unfold operate_submit, self, mbind, SE_bind, lift. cbn [fst].
  rewrite Htx. unfold requestor_of. rewrite Hg, Hr. cbn [attribute_of or_raise].
  by rewrite Ho, (world_run _ _ _ _ _ Hc).
Qed.

Lemma operate_wait_run re b w r :
  b_committed b = true →
  wait_on_peers re timeout (gw_endorsing_peers (b_gateway b))
    (BlockchainError (u "Failed waiting for committed transaction")) (b, w) = r →
  operate_wait_for_commit re timeout (b, w) = r.
Proof.
  intros Hc Hr. unfold operate_wait_for_commit, self, mbind, SE_bind. cbn [fst]. by rewrite Hc.
Qed.

(** The gateway runs the same steps as its three queued operations. *)
Lemma gateway_invoke_completes chaincode cc_name fcn args tm full_args w :
  let g := mkGateway peers orderers (Some channel) (Some requestor) (Some chaincode) in
  let gen := generate_cc_tx requestor cc_name channel fcn args tm in
  transact_ready g = true → Models.cc_name chaincode = Some cc_name →
  sender_ok requestor channel w → generates gen requestor channel cc_name full_args tm w →
  valid_str cc_name = true →
  (∀ g w1, gen w = (Ok g, w1) → willing peers (gt_signed_proposal g) w1) →
  serving requestor channel peers orderers timeout →
  ∃ tx w', Gateway_invoke g fcn args tm timeout w = (Ok tx, w') ∧ endorsed_and_broadcast tx w'.
Proof.
  intros g gen Hready Hname Hs Hgen Hv Hp Hw.
  destruct (runs_to_commit gen cc_name full_args tm w Hs Hgen Hv Hp Hw)
    as (gtx & w1 & tx & w2 & x & w3 & peer & rest & t & w4 & Hg & Hprop & Hc & Hpeers & Hcheck & Hend & _).
  exists tx, w4. split; [|done].
  destruct (transact_ready_run g fcn args tm w Hready) as (? & ? & ? & [= <-] & [= <-] & Hn & Hrun).
  cbn in Hn. rewrite Hname in Hn. injection Hn as <-. fold gen in Hrun.
  unfold Gateway_invoke. rewrite (SE_bind_run _ _ _ (new_GatewayTXBuilder g gtx) w1)
    by (rewrite Hrun; unfold fmap, SE_fmap; by rewrite Hg).
  set (b := new_GatewayTXBuilder g gtx). unfold await_builder.
  set (b1 := wait_for_commit true timeout (submit (propose true b))).
  set (b2 := set_endorsed_tx tx b1).
  assert (operate_propose true (b1, w1) = (Ok tt, (b2, w2))) as Hop1.
  { rewrite operate_propose_run. change (b_gateway b1) with g. change (b_transaction b1) with gtx.
    change (gw_endorsing_peers g) with peers. by rewrite Hprop, (proj1 Hend). }
  pose proof (operate_submit_run g tx x b2 w2 w3 eq_refl eq_refl eq_refl eq_refl Hc) as Hop2.
  assert (operate_wait_for_commit true timeout (set_committed b2, w3)
    = (Ok tt, (set_filtered_tx t (set_committed b2), w4))) as Hop3.
  { apply operate_wait_run; [done|]. change (gw_endorsing_peers _) with peers. rewrite Hpeers.
    by apply (wait_on_peers_run g peer rest tx). }
  assert (run_all [OpPropose true; OpSubmit; OpWaitForCommit true timeout] (b1, w1)
    = (Ok tt, (set_filtered_tx t (set_committed b2), w4))) as Hall.
  { cbn [run_all operate].
    by rewrite (SE_bind_run _ _ _ _ _ Hop1), (SE_bind_run _ _ _ _ _ Hop2), (SE_bind_run _ _ _ _ _ Hop3). }
  unfold run_operations, self, mbind, SE_bind. cbn [fst].
  change (b_operations b1) with (Some [OpPropose true; OpSubmit; OpWaitForCommit true timeout]).
  cbv iota beta. by rewrite Hall.
Qed.

(** C8: the same through a gateway configured with these peers, orderers,
    channel, requestor and chaincode: its [invoke] queues the three operations,
    awaits them, and returns the endorsed transaction. *)
Theorem gateway_invoke_succeeds chaincode cc_name fcn args tm w :
  let g := mkGateway peers orderers (Some channel) (Some requestor) (Some chaincode) in
  transact_ready g = true → Models.cc_name chaincode = Some cc_name →
  client_ok requestor channel cc_name fcn args w → working requestor channel peers orderers timeout →
  ∃ tx w', Gateway_invoke g fcn args tm timeout w = (Ok tx, w') ∧ endorsed_and_broadcast tx w'.
Proof.
  intros g Hready Hname Hok Hw.
  destruct (generate_run _ _ _ _ _ tm _ Hok) as [full_args Hgen].
  apply (gateway_invoke_completes chaincode cc_name fcn args tm full_args w); try done; [apply Hok..| |apply Hw].
  intros gtx w1 _. by eapply working_willing.
Qed.
End completing.
