(* ===== verification/Deployment.v ===== *)
(** * Deployment: channels and chaincodes on a network in working order

    What Completion.v proves of invocations, for the operations that come
    before them: creating a channel, joining it, installing a chaincode and
    instantiating it. *)
From S2P Require Import Prelude PyText Sha256 Sha3 Pem Wire Protobuf Descriptors CommonProtos PeerProtos Constants TxData Errors Crypto Grpc Models Transactions Decoded Block Runtime Factories Policies Connect Events Roundtrip Transact Package Operations Safety Gateway Completion.

(** ** Building *)

Lemma language_type_Ok l : ∃ ty, language_type l = Ok ty.
Proof. destruct l; eexists; reflexivity. Qed.

Lemma encode_optional_args args :
  Forall latin1 (py_or args []) →
  ∃ k, (if truthy args then mapM encode_proto_bytes (default [] args) else mret []) = Ok k.
Proof. destruct args as [[|a l]|]; intros Hl; [by eexists|by apply encode_args|by eexists]. Qed.

Lemma deployment_spec_run name language fcn version path pkg args :
  latin1 (py_or fcn []) → Forall latin1 (py_or args []) →
  ∃ spec, build_cc_deployment_spec name language fcn version path pkg args = Ok spec.
Proof.
  intros Hf Ha. unfold build_cc_deployment_spec.
  assert (∃ k, (if truthy fcn then x ← encode_proto_bytes (default [] fcn); mret [x] else mret [])
    = (Ok k : res (list bytes))) as [k ->].
  { destruct fcn as [[|c f]|]; [by eexists| |by eexists].
    destruct (encode_proto_bytes_latin1 _ Hf) as [x Hx]. exists [x].
    change ((x ← encode_proto_bytes (c :: f); mret [x]) = (Ok [x] : res (list bytes))).
    change (encode_proto_bytes (c :: f) = Ok x) in Hx. by rewrite Hx. }
  destruct (encode_optional_args args Ha) as [k' ->]. destruct (language_type_Ok language) as [ty ->].
  step_outcome. by eexists.
Qed.

Section deploying.
Context `{CryptographyLaws, ProtobufLaws, !Network}.
Context (requestor : User) (channel : Channel) (peers : list Peer) (orderers : list Orderer)
  (timeout : Z).

(** ** Channels *)

Lemma config_envelope_run ctx config_update w :
  is_Some (user_private_key requestor) → is_ascii (channel_name channel) = true →
  ∃ env w', build_config_update_envelope channel ctx requestor config_update w = (Ok env, w')
    ∧ quiet w w'.
Proof.
  intros Hk Hc. unfold build_config_update_envelope.
  set (header := SerializeToString (mkSignatureHeader _ _)).
  destruct (sign_run requestor (header ++ config_update) w Hk) as [sig Hs].
  rewrite (SE_bind_run _ _ _ _ _ Hs). cbv zeta. set (data := SerializeToString _).
  set (w1 := log _ w). assert (quiet w w1) as Hq1 by by apply quiet_log.
  destruct (envelope_run requestor ctx data (Some channel) None None TxConfigUpdate w1 Hk Hc ltac:(done))
    as (env & w' & He & Hq).
  exists env, w'. split; [exact He|by etrans].
Qed.

(** The update of a channel transaction file. *)
Definition update_of_file `{FileSystem} (path : pystr) : res bytes :=
  contents ← read_file path;
  envelope ← parse Envelope contents;
  payload ← parse Payload (Envelope_payload envelope);
  configtx ← parse ConfigUpdateEnvelope (Payload_data payload);
  mret (ConfigUpdateEnvelope_config_update configtx).

Lemma create_channel_run `{FileSystem} path config_update failed o rest w :
  is_Some (user_private_key requestor) → is_ascii (channel_name channel) = true →
  update_of_file path = Ok config_update → Forall down failed → accepting o →
  ∃ env v' w', create_channel requestor (failed ++ o :: rest) channel path w = (Ok tt, w')
    ∧ build_config_update_envelope channel (generated_context requestor w) requestor config_update
        (log (ARandom DEFAULT_NONCE_SIZE) w) = (Ok env, v')
    ∧ last (broadcasts w') = Some env.
Proof.
  intros Hk Hc Hfile Hf Ho.
  apply outcome_bind_Ok in Hfile as (contents & Hr & Hfile).
  apply outcome_bind_Ok in Hfile as (e & He & Hfile).
  apply outcome_bind_Ok in Hfile as (p & Hp & Hfile).
  apply outcome_bind_Ok in Hfile as (cu & Hcu & [= <-]).
  pose proof (tx_context_from_user_run requestor w) as Hctx. cbn zeta in Hctx.
  change (mkTXContext _ _ _ _) with (generated_context requestor w) in Hctx.
  set (ctx := generated_context requestor w) in *. set (v := log _ w) in *.
  destruct (config_envelope_run ctx (ConfigUpdateEnvelope_config_update cu) v Hk Hc)
    as (env & v' & Henv & _).
  destruct (try_orderers_run env failed o rest (tc_tx_id ctx) None v' Hf Ho) as (resp & w' & Hb & _ & Hl).
  exists env, v', w'. split; [|done]. unfold create_channel.
  rewrite (SE_bind_run _ _ _ contents w) by (unfold lift; by rewrite Hr).
  rewrite (SE_bind_run _ _ _ e w) by (unfold lift; by rewrite He).
  rewrite (SE_bind_run _ _ _ p w) by (unfold lift; by rewrite Hp).
  rewrite (SE_bind_run _ _ _ cu w) by (unfold lift; by rewrite Hcu). cbv zeta.
  rewrite (SE_bind_run _ _ _ _ _ Hctx), (SE_bind_run _ _ _ _ _ Henv).
  rewrite (SE_bind_run _ _ _ (Some resp) w'); [done|]. unfold broadcast_to_orderers.
  destruct (failed ++ o :: rest) eqn:E; [by destruct failed|exact Hb].
Qed.

(** An orderer that, asked in [w], serves the first block of the channel; one
    that always does. *)
Definition delivers_origin (o : Orderer) (w : World) : Prop :=
  ∀ req, ∃ d resp items en block,
    OrdererDeliver w o req = mkStream ((d, resp) :: items) en
    ∧ next_block (OrdererEvents requestor channel o) resp = Ok block.
Definition serves_origin (o : Orderer) : Prop :=
  tls_ok (orderer_client_cert o) ∧ ∀ w, delivers_origin o w.

(** One that does from [w] on. *)
Definition serves_origin_from (w : World) (o : Orderer) : Prop :=
  tls_ok (orderer_client_cert o) ∧ ∀ v, adds anything w v → delivers_origin o v.

Lemma origin_run o w :
  is_Some (user_private_key requestor) → is_ascii (channel_name channel) = true →
  serves_origin_from w o →
  ∃ block w', stream_blocks (OrdererEvents requestor channel o) (Some 0%Z) (Some 0%Z) BlockUntilReady
                (λ block, mret (Some block)) w = (Ok (Some block), w').
Proof.
  intros Hk Hc [Ht Ho].
  destruct (connection_envelope_run (OrdererEvents requestor channel o) (orderer_client_cert o)
    (Some 0%Z) (Some 0%Z) BlockUntilReady w) as (req & w1 & Hreq & _); [done..|].
  assert (adds anything w (log (AOrdererDeliver o req) w1)) as Hw1.
  { etrans; [|by apply adds_one]. eapply only_connection_envelope; [|exact Hreq]. done. }
  destruct (Ho _ Hw1 req) as (d & resp & items & en & block & E & Hb).
  exists block. eexists. unfold stream_blocks. rewrite (SE_bind_run _ _ _ _ _ Hreq).
  erewrite SE_bind_run; [|reflexivity]. rewrite E. cbn [st_items st_end]. rewrite for_blocks_cons, Hb.
  reflexivity.
Qed.

Lemma fetch_origin_run b w os :
  is_Some (user_private_key requestor) → is_ascii (channel_name channel) = true →
  Forall (serves_origin_from w) os → os ≠ [] ∨ is_Some b →
  ∃ block w', fetch_origin requestor channel os b None w = (Ok (Some block, None), w').
Proof.
  intros Hk Hc. revert b w. induction os as [|o os IH]; intros b w Hos Hb.
  - destruct Hb as [|[block ->]]; [done|]. by exists block, w.
  - apply Forall_cons in Hos as [Ho Hos]. destruct (origin_run o w Hk Hc Ho) as (block & w1 & E).
    assert (adds anything w w1) as Hw1
      by (eapply only_stream_blocks; [..|exact E]; intros; [done|by apply only_call|apply only_ret]).
    destruct (IH (Some block) w1) as (block' & w' & E'); [|by right; eexists|].
    { eapply Forall_impl; [exact Hos|]. intros q [Hq Hd]. split; [done|].
      intros v Hv. apply Hd. by etrans. }
    exists block', w'.
    cbn [fetch_origin]. rewrite (SE_bind_run _ _ _ (Some block, None) w1); [exact E'|].
    unfold catch. by rewrite (SE_bind_run _ _ _ _ _ E).
Qed.

(** ** Proposals that are not committed *)

Lemma fetch_origin_adds os b e w r w' :
  fetch_origin requestor channel os b e w = (r, w') → adds anything w w'.
Proof.
  apply (steps_fetch_origin (adds anything)); intros.
  apply only_stream_blocks; [done|intros; by apply only_call|intros; apply only_ret].
Qed.

Lemma join_channel_run peer w :
  is_Some (user_private_key requestor) → is_ascii (channel_name channel) = true →
  orderers ≠ [] → Forall (serves_origin_from w) orderers →
  (∀ block, agree_to [peer] (u "cscc") [JoinChain; block] w) →
  ∃ block w', join_channel requestor orderers channel peer w = (Ok tt, w')
    ∧ asked_for (u "cscc") [JoinChain; block] peer w'.
Proof.
  intros Hk Hc Hne Hos Hp.
  destruct (fetch_origin_run None w orderers Hk Hc Hos) as (block & w1 & Hf); [by left|].
  destruct (build_generated_run requestor (u "cscc")
    [JoinChain; SerializeToString (RawBlock_as_proto block)] None None w1 Hk ltac:(done))
    as (g & w2 & Hg & _).
  destruct (propose_call_run [peer] _ _ _ _ _ _ _ _ Hg) as (rs & w3 & Hprop & _ & He & Hasked);
    [done..| |].
  { eapply agree_to_after; [by eapply fetch_origin_adds|apply Hp]. }
  exists (SerializeToString (RawBlock_as_proto block)), w3. split; [|by apply Forall_cons in Hasked as [? _]].
  unfold join_channel. rewrite (SE_bind_run _ _ _ tt w) by by destruct orderers.
  rewrite (SE_bind_run _ _ _ _ _ Hf).
  rewrite (SE_bind_run _ _ _ JoinChain w1) by reflexivity.
  rewrite (SE_bind_run _ _ _ _ _ Hg), (SE_bind_run _ _ _ _ _ Hprop).
  unfold raise_tx_proposal_error. by rewrite He.
Qed.

Definition Install : bytes := bs "install".

(** The specification [install_chaincode] sends. *)
Definition install_spec (cc_spec : ChaincodeSpec) (pkg : bytes) : res ChaincodeDeploymentSpec :=
  build_cc_deployment_spec (default [] (cc_name cc_spec)) (cc_language cc_spec) None
    (cc_version cc_spec) (cc_path cc_spec) (Some pkg) None.

Lemma install_run `{FileSystem, Packaging} cc_spec pkg spec w :
  is_Some (user_private_key requestor) → truthy (cc_name cc_spec) = true →
  package_chaincode cc_spec w = (Ok pkg, w) → install_spec cc_spec pkg = Ok spec → peers ≠ [] →
  agree_to peers (u "lscc") [Install; SerializeToString spec] w →
  ∃ tx w', install_chaincode requestor peers cc_spec w = (Ok tx, w') ∧ fully_endorsed tx = true
    ∧ length (et_peer_responses tx) = length peers
    ∧ Forall (λ p, asked_for (u "lscc") [Install; SerializeToString spec] p w') peers.
Proof.
  intros Hk Hn Hpkg Hspec Hne Hp.
  destruct (build_generated_run requestor (u "lscc") [Install; SerializeToString spec] None None w Hk
    ltac:(done)) as (g & w1 & Hg & _).
  destruct (propose_call_run peers _ _ _ _ _ _ _ _ Hg) as (rs & w' & Hprop & Hl & He & Hasked);
    [done..|].
  exists (endorse g rs), w'. split; [|done]. unfold install_chaincode.
  rewrite (SE_bind_run _ _ _ tt w) by by rewrite Hn.
  rewrite (SE_bind_run _ _ _ _ _ Hpkg).
  rewrite (SE_bind_run _ _ _ spec w) by (unfold lift; by rewrite <-Hspec).
  rewrite (SE_bind_run _ _ _ Install w) by reflexivity.
  rewrite (SE_bind_run _ _ _ _ _ Hg), (SE_bind_run _ _ _ _ _ Hprop).
  unfold raise_tx_proposal_error. by rewrite He.
Qed.

(** ** Instantiating *)

Lemma ascii_latin1 s : is_ascii s = true → latin1 s.
Proof.
  unfold is_ascii, latin1. rewrite forallb_forall, Forall_forall. intros Hs c Hc%list_elem_of_In%Hs. lia.
Qed.

(** What [instantiate_chaincode] is given can be sent. *)
Record instantiable `{PySet} (cc_spec : ChaincodeSpec) (policy : option EndorsementPolicy) : Prop := {
  in_name : truthy (cc_name cc_spec) = true;
  in_args : Forall latin1 (py_or (cc_args cc_spec) []);
  in_policy : match policy with
              | Some p => ∃ env, build_signature_policy_envelope p = Ok env
              | None => True
              end;
}.

Definition Deploy (upgrade : bool) : bytes := bs (if upgrade then "upgrade" else "deploy").

(** The specification [instantiate_chaincode] sends. *)
Definition instantiate_spec (cc_spec : ChaincodeSpec) : res ChaincodeDeploymentSpec :=
  build_cc_deployment_spec (default [] (cc_name cc_spec)) (cc_language cc_spec) (Some (u "init"))
    (cc_version cc_spec) None None (cc_args cc_spec).

Lemma instantiate_spec_run `{PySet} cc_spec policy :
  instantiable cc_spec policy → ∃ spec, instantiate_spec cc_spec = Ok spec.
Proof. intros [_ Ha _]. apply deployment_spec_run; [repeat constructor|done]. Qed.

Lemma generate_instantiate_run `{PySet} cc_spec policy upgrade spec w :
  sender_ok requestor channel w → instantiable cc_spec policy → instantiate_spec cc_spec = Ok spec →
  ∃ a1 rest, generates (generate_instantiate_cc_tx requestor cc_spec channel policy upgrade) requestor
    channel (u "lscc") (Deploy upgrade :: a1 :: SerializeToString spec :: rest) None w.
Proof.
  intros [Hk _ _ Hc] [Hn Ha Hpol] Hspec.
  assert (∃ l, match policy with
    | Some p => SerializeToString <$> build_signature_policy_envelope p
    | None => mret []
    end = (Ok l : res bytes)) as [pol Epol].
  { destruct policy as [p|]; [|by eexists]. destruct Hpol as [env ->]. by eexists. }
  set (ty := if upgrade then ProposalUpgrade else ProposalInstantiate).
  assert (encode_proto_bytes (ChaincodeProposalType_value ty) = Ok (Deploy upgrade)) as E0
    by by destruct upgrade.
  destruct (encode_proto_bytes_latin1 (channel_name channel)) as [a1 E1]; [by apply ascii_latin1|].
  destruct (encode_proto_bytes_latin1 (u "escc")) as [a4 E4]; [repeat constructor|].
  destruct (encode_proto_bytes_latin1 (u "vscc")) as [a5 E5]; [repeat constructor|].
  exists a1, [pol; a4; a5].
  destruct (build_generated_run requestor (u "lscc")
    [Deploy upgrade; a1; SerializeToString spec; pol; a4; a5] (Some channel) None w Hk Hc)
    as (g & w' & Hg & _).
  exists g, w'. split; [|done].
  unfold generate_instantiate_cc_tx. fold ty.
  rewrite (SE_bind_run _ _ _ pol w) by (unfold lift; by rewrite Epol).
  rewrite (SE_bind_run _ _ _ tt w) by by rewrite Hn.
  rewrite (SE_bind_run _ _ _ spec w) by (unfold lift; by rewrite <-Hspec).
  rewrite (SE_bind_run _ _ _ (Deploy upgrade) w) by (unfold lift; by rewrite E0).
  rewrite (SE_bind_run _ _ _ a1 w) by (unfold lift; by rewrite E1).
  rewrite (SE_bind_run _ _ _ a4 w) by (unfold lift; by rewrite E4).
  by rewrite (SE_bind_run _ _ _ a5 w) by (unfold lift; by rewrite E5).
Qed.

(** deploying succeeds: on a network in working order whose orderers all
    serve the first block, with a requestor that can sign, a channel
    transaction file that can be read, a chaincode that can be packaged and a
    policy that can be built, [create_channel] sends the update of the file to
    an orderer, [join_channel] joins every peer, [install_chaincode] is
    endorsed by all peers, and [instantiate_chaincode], upgrading or not,
    returns a transaction that all peers endorsed and the network committed. *)
Theorem deployment_succeeds `{FileSystem, Packaging, PySet} path config_update cc_spec pkg policy
    upgrade w :
  sender_ok requestor channel w → working requestor channel peers orderers timeout →
  Forall serves_origin orderers → update_of_file path = Ok config_update →
  package_chaincode cc_spec w = (Ok pkg, w) → instantiable cc_spec policy →
  (∃ env ctx v v' w', create_channel requestor orderers channel path w = (Ok tt, w')
     ∧ build_config_update_envelope channel ctx requestor config_update v = (Ok env, v')
     ∧ last (broadcasts w') = Some env)
  ∧ (∀ peer, peer ∈ peers → ∃ w', join_channel requestor orderers channel peer w = (Ok tt, w'))
  ∧ (∃ tx w', install_chaincode requestor peers cc_spec w = (Ok tx, w') ∧ fully_endorsed tx = true
       ∧ length (et_peer_responses tx) = length peers)
  ∧ ∃ tx w', instantiate_chaincode requestor peers orderers channel cc_spec policy upgrade timeout w
      = (Ok tx, w') ∧ endorsed_and_broadcast peers tx w'.
Proof.
  intros Hs Hw Hos Hfile Hpkg Hin. pose proof Hs as [Hk _ _ Hc].
  pose proof (wk_serving _ _ _ _ _ Hw)
    as [(failed & o & rest & Horderers & Hf & Ho) (peer & others & Hpeers & _)].
  assert (peers ≠ []) as Hne by by rewrite Hpeers.
  split_and!.
  - rewrite Horderers. destruct (create_channel_run path config_update failed o rest w)
      as (env & v' & w' & ?); [done..|]. by eexists env, _, _, v', w'.
  - intros q Hq. destruct (join_channel_run q w Hk Hc) as (block & w' & ? & _).
    + rewrite Horderers. by destruct failed.
    + eapply Forall_impl; [exact Hos|]. intros x [? Hd]. split; [done|]. intros v _. apply Hd.
    + intros block v p sp _ ->%list_elem_of_singleton _. by eapply wk_endorses.
    + by exists w'.
  - destruct (deployment_spec_run (default [] (cc_name cc_spec)) (cc_language cc_spec) None
      (cc_version cc_spec) (cc_path cc_spec) (Some pkg) None) as [spec Hspec]; [constructor..|].
    destruct (install_run cc_spec pkg spec w) as (tx & w' & ? & ? & ? & _);
      [done|apply Hin|done..|by eapply working_agree_to|]. by exists tx, w'.
  - destruct (instantiate_spec_run _ _ Hin) as [spec Hspec].
    destruct (generate_instantiate_run _ _ upgrade spec w Hs Hin Hspec) as (a1 & l & Hgen).
    edestruct (endorse_commit_run requestor channel peers orderers timeout) as (tx & w' & Hrun & Hend & _);
      [exact Hs|exact Hgen|done| |by apply Hw|].
    { intros g w1 _. by eapply working_willing. }
    exists tx, w'. split; [exact Hrun|done].
Qed.
End deploying.
