(* ===== verification/Lifecycle.v ===== *)
(** * Lifecycle: bringing up a network that insists on the order of the steps

    Completion.v and Deployment.v take every peer to endorse whatever it is
    sent.  Here peers and orderers are as those of Fabric: no channel is served
    or joined before it is created, no chaincode is deployed on a peer that has
    not joined the channel and installed that version, and none answers calls
    before it is deployed.  [fabric] states what such a network does answer,
    as a function of the calls that were put to it before; [bring_up] is the
    preparation of the end-to-end tests, and it puts them in an order that such
    a network accepts. *)
From S2P Require Import Prelude PyText Sha256 Sha3 Pem Wire Protobuf Descriptors CommonProtos PeerProtos Constants TxData Errors Crypto Grpc Models Transactions Decoded Block Runtime Factories Policies Connect Events Roundtrip Transact Package Operations Safety Gateway Completion Deployment.

(** ** Later worlds *)

(** Actions were added and the clock did not go back. *)
Definition after (w w' : World) : Prop := adds anything w w' ∧ later w w'.

#[export] Instance after_preorder : PreOrder after.
Proof. split; [done|]. intros w1 w2 w3 [? ?] [? ?]. by split; etrans. Qed.

Lemma after_log a w : after w (log a w).
Proof. split; [by apply adds_one|apply later_log]. Qed.
Lemma after_advance d w : after w (advance d w).
Proof. split; [apply adds_advance|apply later_advance]. Qed.
Lemma after_set_clock d w w' : (w_clock w <= d)%N → after w w' → after w (set_clock d w').
Proof. intros Hd [(new & He & Hn) _]. split; [by exists new|done]. Qed.

Lemma after_sleep d : steps after (sleep d).
Proof. apply steps_sleep, after_advance. Qed.
Lemma after_draw a : steps after (draw a).
Proof. apply steps_draw, after_log. Qed.
Lemma after_call {A} a (k : World → A) : steps after (call a k).
Proof. apply steps_call, after_log. Qed.
Lemma after_wait_for {A} t (m : M A) : steps after m → steps after (wait_for t m).
Proof. apply (steps_wait_for after), after_set_clock. Qed.

#[export] Hint Resolve after_sleep after_draw after_call after_wait_for : snakeskin.

(** Walk through a computation whose loops are covered by hints. *)
Ltac solve_after :=
  intros; repeat first [progress solve_steps uconstr:(after) | apply after_wait_for].

Lemma clock_ok_before w w' : later w w' → clock_ok w' → clock_ok w.
Proof.
  unfold later, clock_ok, is_int64, int_range. intros Hl.
  assert (w_clock w / nanos_per_second <= w_clock w' / nanos_per_second)%N
    by (by apply N.Div0.div_le_mono). lia.
Qed.

(** Every run of the operations goes on to a later world. *)
Section going_on.
Context `{Cryptography, Protobuf, Network}.

Lemma after_wrap user payload : steps after (wrap_transaction user payload).
Proof. unfold wrap_transaction, sign. solve_after. Qed.
Lemma after_envelope user ctx data ch tls ext ty : steps after (build_envelope user ctx data ch tls ext ty).
Proof. unfold build_envelope, build_header. solve_after. Qed.
Lemma after_context user : steps after (tx_context_from_user user).
Proof. unfold tx_context_from_user. solve_after. Qed.
#[local] Hint Resolve after_wrap after_envelope after_context : snakeskin.

Lemma after_generated user name args ch tm : steps after (build_generated_tx user name args ch tm).
Proof. unfold build_generated_tx, build_header, sign. solve_after. Qed.

Lemma after_propose_tx peers g : steps after (propose_tx peers g).
Proof. apply steps_propose_tx; [apply _|apply after_advance|]. intros. apply after_log. Qed.

Lemma after_broadcast envelope orderers tx_id : steps after (broadcast_to_orderers envelope orderers tx_id).
Proof. apply steps_broadcast; [apply _|apply after_advance|]. intros. apply after_log. Qed.

Lemma after_stream {Resp Bk TX R} (hub : EventHub Resp Bk TX) start stop beh (body : Bk → M (option R)) :
  (∀ e, steps after (hub_build_stream hub e)) → (∀ b, steps after (body b)) →
  steps after (stream_blocks hub start stop beh body).
Proof.
  intros Hs Hb. apply steps_stream_blocks; [apply _|apply after_advance| |done..].
  unfold get_connection_envelope. solve_after.
Qed.
#[local] Hint Resolve after_generated after_propose_tx after_broadcast : snakeskin.

Lemma after_fetch_origin user ch os b e : steps after (fetch_origin user ch os b e).
Proof.
  apply (steps_fetch_origin after). intros o _.
  apply after_stream; [intros; apply after_call|intros; apply (steps_ret after)].
Qed.

Lemma after_check_transaction user ch peer tx_id timeout start beh :
  steps after (check_transaction (PeerFilteredEvents user ch peer) tx_id timeout start beh).
Proof.
  unfold check_transaction, get_transaction. apply (steps_bind after); [|solve_after].
  apply after_wait_for. apply (steps_bind after); [|solve_after].
  apply after_stream; [intros; apply after_call|intros; apply (steps_lift after)].
Qed.
#[local] Hint Resolve after_fetch_origin after_check_transaction : snakeskin.

Lemma after_create_channel `{FileSystem} user os ch path : steps after (create_channel user os ch path).
Proof. unfold create_channel, build_config_update_envelope, sign. solve_after. Qed.
Lemma after_join_channel user os ch peer : steps after (join_channel user os ch peer).
Proof. unfold join_channel, raise_tx_proposal_error. solve_after. Qed.
Lemma after_join_all user os ch peers : steps after (join_all user os ch peers).
Proof.
  induction peers as [|p peers IH]; cbn [join_all]; [apply (steps_ret after)|].
  apply (steps_bind after); [apply after_join_channel|done].
Qed.
Lemma after_install `{FileSystem, Packaging} user peers cc : steps after (install_chaincode user peers cc).
Proof.
  unfold install_chaincode, raise_tx_proposal_error. solve_after.
  intros w r w' ->%package_chaincode_world. done.
Qed.
Lemma after_instantiate `{PySet} user peers os ch cc policy upgrade timeout :
  steps after (instantiate_chaincode user peers os ch cc policy upgrade timeout).
Proof.
  unfold instantiate_chaincode, generate_instantiate_cc_tx, raise_tx_proposal_error,
    commit_tx_and_wait, commit_tx, build_endorsed_tx_envelope. solve_after.
Qed.
End going_on.

(** ** The calls a network distinguishes *)

(** A chaincode by its name and version. *)
Definition ChaincodeVersion : Type := pystr * pystr.

Inductive Call :=
  | CallJoin
  | CallInstall (cc : ChaincodeVersion)
  | CallDeploy (cc : ChaincodeVersion)
  | CallChaincode (name : pystr).

#[export] Instance Call_eq_dec : EqDecision Call.
Proof. solve_decision. Defined.

Section calls.
Context `{Protobuf}.

(** The chaincode a deployment specification is about. *)
Definition deployed_id (spec : bytes) : option ChaincodeVersion :=
  match parse ChaincodeDeploymentSpec spec with
  | Ok s => cs ← ChaincodeDeploymentSpec_chaincode_spec s;
            id ← ChaincodeSpecProto_chaincode_id cs;
            Some (ChaincodeID_name id, ChaincodeID_version id)
  | _ => None
  end.

(** The configuration and the lifecycle system chaincode, and the others. *)
Definition call_of (call : pystr * list bytes) : option Call :=
  let '(name, args) := call in
  if decide (name = u "cscc") then
    a0 ← head args; if decide (a0 = JoinChain) then Some CallJoin else None
  else if decide (name = u "lscc") then
    a0 ← head args;
    if decide (a0 = Install) then CallInstall <$> (args !! 1 ≫= deployed_id)
    else if decide (a0 = Deploy false ∨ a0 = Deploy true) then CallDeploy <$> (args !! 2 ≫= deployed_id)
    else None
  else Some (CallChaincode name).

(** ** What was done so far *)

(** The channel header of an envelope. *)
Definition envelope_header (env : Envelope) : res ChannelHeader :=
  payload ← parse Payload (Envelope_payload env);
  parse ChannelHeader (Header_channel_header (header_of payload)).

(** An orderer was sent a configuration of the channel. *)
Definition created (channel : Channel) (w : World) : Prop :=
  ∃ o env h, ABroadcast o env ∈ w_trace w ∧ envelope_header env = Ok h
    ∧ ChannelHeader_type h = TransactionType_value TxConfigUpdate
    ∧ ChannelHeader_channel_id h = channel_name channel.

(** The peer was asked for the call. *)
Definition asked_call (c : Call) (p : Peer) (w : World) : Prop :=
  ∃ sp, AProcessProposal p sp ∈ w_trace w ∧ proposal_call sp ≫= call_of = Some c.

(** An orderer was sent a transaction of the call. *)
Definition submitted (c : Call) (w : World) : Prop :=
  ∃ o env d, ABroadcast o env ∈ w_trace w ∧ DecodedTX_decode (SerializeToString env) = Ok d
    ∧ transaction_call d ≫= call_of = Some c.

(** What has to come before the call on this peer. *)
Definition ready (channel : Channel) (c : Call) (p : Peer) (w : World) : Prop :=
  match c with
  | CallJoin => created channel w
  | CallInstall _ => True
  | CallDeploy cc => asked_call CallJoin p w ∧ asked_call (CallInstall cc) p w
  | CallChaincode name =>
    asked_call CallJoin p w
    ∧ ∃ version, asked_call (CallInstall (name, version)) p w ∧ submitted (CallDeploy (name, version)) w
  end.

Lemma done_after (a : Action) w w' : adds anything w w' → a ∈ w_trace w → a ∈ w_trace w'.
Proof. intros (new & -> & _) Ha. apply elem_of_app. by left. Qed.

Lemma created_after channel w w' : adds anything w w' → created channel w → created channel w'.
Proof. intros Hw (o & env & h & Ha & ?). exists o, env, h. split; [by eapply done_after|done]. Qed.
Lemma asked_call_after c p w w' : adds anything w w' → asked_call c p w → asked_call c p w'.
Proof. intros Hw (sp & Ha & ?). exists sp. split; [by eapply done_after|done]. Qed.
Lemma submitted_after c w w' : adds anything w w' → submitted c w → submitted c w'.
Proof. intros Hw (o & env & d & Ha & ?). exists o, env, d. split; [by eapply done_after|done]. Qed.
#[local] Hint Resolve created_after asked_call_after submitted_after : core.

Lemma ready_after channel c p w w' : adds anything w w' → ready channel c p w → ready channel c p w'.
Proof. destruct c; cbn; naive_solver eauto. Qed.

Lemma asked_for_call name full_args c p w :
  call_of (name, full_args) = Some c → asked_for name full_args p w → asked_call c p w.
Proof. intros Hc (sp & Ha & E). exists sp. split; [done|]. by rewrite E. Qed.

Lemma deployment_spec_id `{!ProtobufLaws _} name language fcn version path pkg args spec :
  build_cc_deployment_spec name language fcn version path pkg args = Ok spec →
  valid_str name = true → valid_str (py_or version []) = true → valid_str (py_or path []) = true →
  deployed_id (SerializeToString spec) = Some (name, py_or version []).
Proof.
  intros (k1 & _ & (k2 & _ & (ty & Hty & [= <-])%outcome_bind_Ok)%outcome_bind_Ok)%outcome_bind_Ok
    Hn Hv Hp.
  unfold deployed_id. rewrite parse_serialized; [done|].
  assert (is_int32 ty = true) as Ht by (destruct language; by injection Hty as <-).
  destruct (k1 ++ k2) as [|a l]; by solve_valid.
Qed.
End calls.

#[export] Hint Resolve created_after asked_call_after submitted_after ready_after : snakeskin.

(** ** Bringing up the network *)

Section bringing_up.
Context `{CryptographyLaws, ProtobufLaws, !Network}.
Context `{FileSystem, Packaging, PySet}.

(** [prepare_network] of e2e/conftest.py, without the waits for containers:
    one gateway creates the channel and instantiates; each organization's
    gateway has its own peers join and install. *)
Fixpoint join_each (members : list (Gateway * list Peer)) : M unit :=
  match members with
  | [] => mret tt
  | (g, ps) :: members => Gateway_join_channel g (Some ps);; join_each members
  end.
Fixpoint install_each (members : list (Gateway * list Peer)) : M unit :=
  match members with
  | [] => mret tt
  | (g, ps) :: members => Gateway_install_chaincode g (Some ps);; install_each members
  end.
Definition bring_up (g : Gateway) (members : list (Gateway * list Peer)) (tx_file_path : pystr)
    (policy : option EndorsementPolicy) (timeout : Z) : M EndorsedTX :=
  Gateway_create_channel g tx_file_path;;
  join_each members;;
  install_each members;;
  Gateway_instantiate_chaincode g policy false timeout.

Context (requestor : User) (channel : Channel) (peers : list Peer) (orderers : list Orderer)
  (timeout : Z).

(** A network that may insist on the order: its peers endorse the calls that
    are ready, its orderers serve the first block of a channel that was
    created, and what is submitted is committed. *)
Record fabric : Prop := {
  fb_endorses w p sp c : p ∈ peers → proposal_call sp ≫= call_of = Some c → ready channel c p w →
    agrees w p sp;
  fb_origin rq w o : o ∈ orderers → created channel w →
    tls_ok (orderer_client_cert o) ∧ delivers_origin rq channel o w;
  fb_serving : serving requestor channel peers orderers timeout;
}.

Lemma fabric_agree ps name full_args c w :
  fabric → ps ⊆ peers → call_of (name, full_args) = Some c → Forall (λ p, ready channel c p w) ps →
  agree_to ps name full_args w.
Proof.
  intros Hf Hps Hc Hr v p sp Hv Hp Hcall. eapply fb_endorses; [done|by apply Hps|by rewrite Hcall|].
  eapply ready_after; [done|]. by eapply Forall_forall in Hr.
Qed.

(** Creating the channel *)

Lemma config_update_header w config_update v env v' :
  build_config_update_envelope channel (generated_context requestor w) requestor config_update v
    = (Ok env, v') →
  clock_ok v → is_ascii (channel_name channel) = true →
  ∃ h, envelope_header env = Ok h ∧ ChannelHeader_type h = TransactionType_value TxConfigUpdate
    ∧ ChannelHeader_channel_id h = channel_name channel.
Proof.
  intros (sig & v1 & Hsig & (id & th & Hid & Hth & Hp)%build_envelope_Ok)%SE_bind_Ok Hck Hc.
  cbn [channel_name_of] in Hid. rewrite (encode_proto_str_ascii _ Hc) in Hid. injection Hid as <-.
  rewrite (Hth eq_refl) in Hp. apply sign_Ok in Hsig as (? & _ & _ & ->).
  eexists. unfold envelope_header. rewrite Hp, parse_serialized by done. rewrite bind_Ok, header_of_some.
  cbn [Header_channel_header]. rewrite parse_serialized; [done|].
  apply channel_header_valid; [done|by apply ascii_valid].
Qed.

Lemma last_broadcast w env : last (broadcasts w) = Some env → ∃ o, ABroadcast o env ∈ w_trace w.
Proof.
  intros (a & Ha & Hb)%last_Some_elem_of%list_elem_of_omap. destruct a; try done.
  injection Hb as ->. by exists orderer.
Qed.

Lemma create_run path config_update w :
  is_Some (user_private_key requestor) → is_ascii (channel_name channel) = true → clock_ok w →
  fabric → update_of_file path = Ok config_update →
  ∃ w', create_channel requestor orderers channel path w = (Ok tt, w') ∧ created channel w'.
Proof.
  intros Hk Hc Hck Hf Hfile. destruct (fb_serving Hf) as [(failed & o & rest & -> & Hd & Ho) _].
  destruct (create_channel_run requestor channel path config_update failed o rest w)
    as (env & v' & w' & Hrun & Henv & Hl); [done..|].
  exists w'. split; [done|]. destruct (last_broadcast w' env Hl) as [o' Ho'].
  destruct (config_update_header _ _ _ _ _ Henv Hck Hc) as (h & Hh). by exists o', env, h.
Qed.

(** Joining it *)

Lemma join_run rq p w :
  is_Some (user_private_key rq) → is_ascii (channel_name channel) = true →
  fabric → created channel w → p ∈ peers →
  ∃ w', join_channel rq orderers channel p w = (Ok tt, w') ∧ asked_call CallJoin p w'.
Proof.
  intros Hk Hc Hf Hcr Hp. destruct (join_channel_run rq channel orderers p w Hk Hc)
    as (block & w' & Hrun & Ha).
  - destruct (fb_serving Hf) as [(failed & o & rest & -> & _) _]. by destruct failed.
  - apply Forall_forall. intros o Ho. split; [by eapply fb_origin|].
    intros v Hv. eapply fb_origin; [done..|]. by eapply created_after.
  - intros block. eapply fabric_agree; [done| |done|by repeat constructor].
    by intros q ->%list_elem_of_singleton.
  - exists w'. split; [done|]. by eapply asked_for_call; [|exact Ha].
Qed.

Lemma join_all_run rq ps w :
  is_Some (user_private_key rq) → is_ascii (channel_name channel) = true →
  fabric → created channel w → ps ⊆ peers →
  ∃ w', join_all rq orderers channel ps w = (Ok tt, w')
    ∧ Forall (λ p, asked_call CallJoin p w') ps.
Proof.
  intros Hk Hc Hf. revert w. induction ps as [|p ps IH]; intros w Hcr Hps; [by exists w|].
  assert (p ∈ peers) as Hp by (apply Hps; left). assert (ps ⊆ peers) by (intros q Hq; apply Hps; by right).
  destruct (join_run rq p w) as (w1 & Hrun & Ha); [done..|].
  pose proof (after_join_channel rq orderers channel p _ _ _ Hrun) as [Hw1 _].
  destruct (IH w1) as (w' & Hrun' & Has); [by eapply created_after|done|].
  pose proof (after_join_all rq orderers channel ps _ _ _ Hrun') as [Hw' _].
  exists w'. split; [cbn [join_all]; by rewrite (SE_bind_run _ _ _ _ _ Hrun)|].
  constructor; [by eapply asked_call_after|done].
Qed.

(** Installing and instantiating *)

(** What the gateway is given can be sent and packaged, and names no system
    chaincode. *)
Record deployable (cc_spec : ChaincodeSpec) (name : pystr) (policy : option EndorsementPolicy) : Prop := {
  dp_name : cc_name cc_spec = Some name;
  dp_name_ok : valid_str name = true ∧ name ≠ [] ∧ name ≠ u "cscc" ∧ name ≠ u "lscc";
  dp_version : valid_str (py_or (cc_version cc_spec) []) = true;
  dp_path : valid_str (py_or (cc_path cc_spec) []) = true;
  dp_package w : ∃ pkg, package_chaincode cc_spec w = (Ok pkg, w);
  dp_instantiable : instantiable cc_spec policy;
}.

Lemma install_ready_run rq ps cc_spec name policy w :
  is_Some (user_private_key rq) → fabric → ps ≠ [] → ps ⊆ peers → deployable cc_spec name policy →
  ∃ tx w', install_chaincode rq ps cc_spec w = (Ok tx, w')
    ∧ Forall (λ p, asked_call (CallInstall (name, py_or (cc_version cc_spec) [])) p w') ps.
Proof.
  intros Hk Hf Hne Hps [Hname (Hv & _) Hver Hpath Hpkg Hin]. destruct (Hpkg w) as [pkg Hrun].
  destruct (deployment_spec_run (default [] (cc_name cc_spec)) (cc_language cc_spec) None
    (cc_version cc_spec) (cc_path cc_spec) (Some pkg) None) as [spec Hspec]; [constructor..|].
  assert (call_of (u "lscc", [Install; SerializeToString spec])
    = Some (CallInstall (name, py_or (cc_version cc_spec) []))) as Hcall.
  { rewrite Hname in Hspec. cbn. by rewrite (deployment_spec_id _ _ _ _ _ _ _ _ Hspec). }
  destruct (install_run rq ps cc_spec pkg spec w Hk (in_name _ _ Hin) Hrun Hspec Hne)
    as (tx & w' & Hi & _ & _ & Ha).
  - eapply fabric_agree; [done..|]. by apply Forall_forall.
  - exists tx, w'. split; [done|]. eapply Forall_impl; [exact Ha|]. intros p. by apply asked_for_call.
Qed.

(** Where the peers agree to what [gen] generates, they endorse it. *)
Lemma generates_willing gen name full_args tm w :
  generates gen requestor channel name full_args tm w →
  valid_str name = true → forallb (λ e, valid_str e.1) (py_or tm []) = true →
  agree_to peers name full_args w →
  ∀ g w1, gen w = (Ok g, w1) → willing peers (gt_signed_proposal g) w1.
Proof.
  intros (g & w1 & Hg & Hb) Hn Htm Ha g' w1' Hg'. rewrite Hg in Hg'. injection Hg' as <- <-.
  intros v p Hv Hp. apply Ha; [|done|by eapply generated_call].
  etrans; [|exact Hv]. eapply only_build_generated; [|exact Hb]. done.
Qed.

Lemma instantiate_ready_run cc_spec name policy w :
  let cc := (name, py_or (cc_version cc_spec) []) in
  sender_ok requestor channel w → fabric → deployable cc_spec name policy →
  Forall (λ p, ready channel (CallDeploy cc) p w) peers →
  ∃ tx w', instantiate_chaincode requestor peers orderers channel cc_spec policy false timeout w
             = (Ok tx, w')
    ∧ endorsed_and_broadcast peers tx w' ∧ submitted (CallDeploy cc) w'.
Proof.
  intros cc Hs Hf [Hname (Hv & _) Hver Hpath _ Hin] Hr.
  destruct (instantiate_spec_run _ _ Hin) as [spec Hspec].
  destruct (generate_instantiate_run requestor channel cc_spec policy false spec w Hs Hin Hspec)
    as (a1 & l & Hgen).
  assert (call_of (u "lscc", Deploy false :: a1 :: SerializeToString spec :: l)
    = Some (CallDeploy cc)) as Hcall.
  { unfold instantiate_spec in Hspec. rewrite Hname in Hspec. cbn.
    by rewrite (deployment_spec_id _ _ _ _ _ _ _ _ Hspec). }
  edestruct (endorse_commit_run requestor channel peers orderers timeout)
    as (tx & w' & Hrun & Hend & env & Hl & d & Hd & Hrec);
    [exact Hs|exact Hgen|done| |by apply fb_serving|].
  { eapply generates_willing; [exact Hgen|done..|]. by eapply fabric_agree. }
  exists tx, w'. split; [exact Hrun|]. split; [done|].
  destruct (last_broadcast w' env Hl) as [o Ho]. exists o, env, d. split_and!; [done..|]. by rewrite Hrec.
Qed.

(** Calling the chaincode *)

Lemma invoke_ready_run cc_spec name fcn args tm w :
  let g := mkGateway peers orderers (Some channel) (Some requestor) (Some cc_spec) in
  transact_ready g = true → cc_name cc_spec = Some name → name ≠ u "cscc" → name ≠ u "lscc" →
  client_ok requestor channel name fcn args w → forallb (λ e, valid_str e.1) (py_or tm []) = true →
  fabric → Forall (λ p, ready channel (CallChaincode name) p w) peers →
  ∃ tx w', Gateway_invoke g fcn args tm timeout w = (Ok tx, w') ∧ endorsed_and_broadcast peers tx w'.
Proof.
  intros g Hg Hname Hcs Hls Hok Htm Hf Hr. destruct (generate_run _ _ _ _ _ tm _ Hok) as [full_args Hgen].
  apply (gateway_invoke_completes requestor channel peers orderers timeout cc_spec name fcn args tm full_args w);
    [done|done|apply Hok|done|apply Hok| |by apply fb_serving].
  eapply generates_willing; [done|apply Hok|done|]. eapply fabric_agree; [done..| |done].
  cbn. by rewrite !decide_False.
Qed.

(** ** All of it *)

(** A gateway that belongs to the channel, with peers of the network. *)
Record member (cc_spec : ChaincodeSpec) (m : Gateway * list Peer) : Prop := {
  mb_orderers : gw_orderers m.1 = orderers;
  mb_channel : gw_channel m.1 = Some channel;
  mb_chaincode : gw_chaincode m.1 = Some cc_spec;
  mb_requestor : ∃ rq, gw_requestor m.1 = Some rq ∧ is_Some (user_private_key rq);
  mb_peers : m.2 ≠ [] ∧ m.2 ⊆ peers;
}.

Lemma py_or_list {A} (l d : list A) : l ≠ [] → py_or (Some l) d = l.
Proof. by destruct l. Qed.

Lemma after_join_each members : steps after (join_each members).
Proof.
  induction members as [|[g ps] members IH]; cbn [join_each]; [apply (steps_ret after)|].
  apply (steps_bind after); [|done]. unfold Gateway_join_channel, require_some.
  apply (steps_bind after); [apply (steps_lift after)|intros ?].
  apply (steps_bind after); [apply (steps_lift after)|intros ?]. apply after_join_all.
Qed.
Lemma after_install_each members : steps after (install_each members).
Proof.
  induction members as [|[g ps] members IH]; cbn [install_each]; [apply (steps_ret after)|].
  apply (steps_bind after); [|done]. unfold Gateway_install_chaincode, require_some, require_nonempty.
  apply (steps_bind after); [apply (steps_lift after)|intros ?].
  apply (steps_bind after); [apply (steps_raise_if after)|intros ?].
  apply (steps_bind after); [apply (steps_lift after)|intros ?]. apply after_install.
Qed.

Lemma join_each_run cc_spec members w :
  is_ascii (channel_name channel) = true → fabric → created channel w →
  Forall (member cc_spec) members →
  ∃ w', join_each members w = (Ok tt, w')
    ∧ Forall (λ m, Forall (λ p, asked_call CallJoin p w') m.2) members.
Proof.
  intros Hc Hf Hcr Hm. revert w Hcr.
  induction Hm as [|[g ps] members [Ho Hch _ (rq & Hrq & Hk) [Hne Hps]] _ IH]; intros w Hcr; [by exists w|].
  cbn [fst snd] in *. destruct (join_all_run rq ps w) as (w1 & E1 & Hps1); [done..|].
  pose proof (after_join_all _ _ _ _ _ _ _ E1) as [Hw1 _].
  destruct (IH w1) as (w' & E & Hrest); [by eapply created_after|].
  pose proof (after_join_each _ _ _ _ E) as [Hw' _]. exists w'. split.
  - cbn [join_each]. rewrite (SE_bind_run _ _ _ tt w1); [done|].
    unfold Gateway_join_channel. rewrite Ho, Hch, Hrq, py_or_list by done. exact E1.
  - constructor; [|done]. eapply Forall_impl; [exact Hps1|]. intros p. by apply asked_call_after.
Qed.

Lemma install_each_run cc_spec name policy members w :
  fabric → deployable cc_spec name policy → Forall (member cc_spec) members →
  ∃ w', install_each members w = (Ok tt, w')
    ∧ Forall (λ m, Forall (λ p,
        asked_call (CallInstall (name, py_or (cc_version cc_spec) [])) p w') m.2) members.
Proof.
  intros Hf Hd Hm. revert w.
  induction Hm as [|[g ps] members [_ _ Hcc (rq & Hrq & Hk) [Hne Hps]] _ IH]; intros w; [by exists w|].
  cbn [fst snd] in *.
  destruct (install_ready_run rq ps cc_spec name policy w) as (tx & w1 & E1 & Hps1); [done..|].
  destruct (IH w1) as (w' & E & Hrest). pose proof (after_install_each _ _ _ _ E) as [Hw' _].
  exists w'. split.
  - cbn [install_each]. rewrite (SE_bind_run _ _ _ tx w1); [done|].
    unfold Gateway_install_chaincode. rewrite Hcc, Hrq, py_or_list by done. by destruct ps.
  - constructor; [|done]. eapply Forall_impl; [exact Hps1|]. intros p. by apply asked_call_after.
Qed.

(** What each member did for its peers was done for all of them. *)
Lemma members_cover (P : Peer → Prop) (members : list (Gateway * list Peer)) :
  Forall (λ m, Forall P m.2) members → peers ⊆ mjoin (snd <$> members) → Forall P peers.
Proof.
  intros HP Hcover. apply Forall_forall. intros p (ps & Hp & (m & -> & Hm)%list_elem_of_fmap)%Hcover%list_elem_of_join.
  rewrite Forall_forall in HP. specialize (HP m Hm). by eapply Forall_forall in HP.
Qed.

(** A network that is prepared for calls of the chaincode. *)
Definition prepared (cc : ChaincodeVersion) (w : World) : Prop :=
  Forall (λ p, asked_call CallJoin p w ∧ asked_call (CallInstall cc) p w) peers
  ∧ submitted (CallDeploy cc) w.

Lemma prepared_ready name version w v :
  prepared (name, version) w → adds anything w v →
  Forall (λ p, ready channel (CallChaincode name) p v) peers.
Proof.
  intros [Hp Hs] Hv. eapply Forall_impl; [exact Hp|]. intros p [Hj Hi].
  split; [by eapply asked_call_after|]. exists version.
  split; [by eapply asked_call_after|by eapply submitted_after].
Qed.

Lemma bring_up_run cc_spec name members path config_update policy w :
  let steps_from :=
    join_each members;;
    install_each members;;
    instantiate_chaincode requestor peers orderers channel cc_spec policy false timeout in
  let run := create_channel requestor orderers channel path;; steps_from in
  is_Some (user_private_key requestor) → user_text_ok requestor →
  is_ascii (channel_name channel) = true →
  fabric → update_of_file path = Ok config_update → deployable cc_spec name policy →
  Forall (member cc_spec) members → peers ⊆ mjoin (snd <$> members) →
  clock_ok (run w).2 →
  ∃ tx w', run w = (Ok tx, w') ∧ endorsed_and_broadcast peers tx w'
    ∧ prepared (name, py_or (cc_version cc_spec) []) w'.
Proof.
  intros steps_from run Hk Hu Hc Hf Hfile Hd Hm Hcover Hclock.
  assert (steps after run) as Hsteps.
  { apply (steps_bind after); [apply after_create_channel|intros _].
    apply (steps_bind after); [apply after_join_each|intros _].
    apply (steps_bind after); [apply after_install_each|intros _; apply after_instantiate]. }
  pose proof (Hsteps w _ _ (surjective_pairing _)) as [_ Hlater].
  pose proof (clock_ok_before _ _ Hlater Hclock) as Hck. clear Hsteps Hlater.
  destruct (create_run path config_update w Hk Hc Hck Hf Hfile) as (w1 & E1 & Hcr).
  destruct (join_each_run cc_spec members w1 Hc Hf Hcr Hm) as (w2 & E2 & Hj).
  destruct (install_each_run cc_spec name policy members w2 Hf Hd Hm) as (w3 & E3 & Hi).
  pose proof (after_install_each _ _ _ _ E3) as [Hw3 _].
  assert (Forall (λ p, asked_call CallJoin p w3
      ∧ asked_call (CallInstall (name, py_or (cc_version cc_spec) [])) p w3) peers) as Hready.
  { apply Forall_and. split; [|by eapply members_cover].
    eapply Forall_impl; [exact (members_cover _ _ Hj Hcover)|]. intros p. by apply asked_call_after. }
  assert (run w = instantiate_chaincode requestor peers orderers channel cc_spec policy false timeout w3)
    as Erun by (unfold run, steps_from; by rewrite (SE_bind_run _ _ _ _ _ E1), (SE_bind_run _ _ _ _ _ E2),
      (SE_bind_run _ _ _ _ _ E3)).
  rewrite Erun in Hclock |- *.
  pose proof (after_instantiate requestor peers orderers channel cc_spec policy false timeout w3 _ _
    (surjective_pairing _)) as [_ Hlater].
  pose proof (clock_ok_before _ _ Hlater Hclock) as Hck3.
  destruct (instantiate_ready_run cc_spec name policy w3) as (tx & w' & E4 & Hend & Hsub); [done..|].
  pose proof (after_instantiate _ _ _ _ _ _ _ _ _ _ _ E4) as [Hw' _].
  exists tx, w'. split; [done|]. split; [done|]. split; [|done].
  eapply Forall_impl; [exact Hready|]. intros p [? ?]. eauto with snakeskin.
Qed.

(** C9: the client puts the steps in an order that the network accepts: on a
    network whose peers endorse a call only after what it depends on (joining
    after the channel was created; deploying after joining and installing the
    same version; calls after the deployment was submitted), preparing the
    channel through a gateway, with each peer joined and installed through
    the gateway of its organization, returns the committed deployment, unless
    the clock has left the range of a Timestamp by then; and from that world
    on, whatever else is done in between, every invocation through the gateway
    whose texts can be sent returns its transaction, endorsed by every peer
    and broadcast. *)
Theorem network_brought_up cc_spec name members path config_update policy w :
  let g := mkGateway peers orderers (Some channel) (Some requestor) (Some cc_spec) in
  is_Some (user_private_key requestor) → user_text_ok requestor →
  is_ascii (channel_name channel) = true →
  fabric → update_of_file path = Ok config_update → deployable cc_spec name policy →
  Forall (member cc_spec) members → peers ⊆ mjoin (snd <$> members) →
  clock_ok (bring_up g members path policy timeout w).2 →
  ∃ tx w', bring_up g members path policy timeout w = (Ok tx, w')
    ∧ endorsed_and_broadcast peers tx w'
    ∧ ∀ v fcn args tm, adds anything w' v → client_ok requestor channel name fcn args v →
        forallb (λ e, valid_str e.1) (py_or tm []) = true →
        ∃ tx' v', Gateway_invoke g fcn args tm timeout v = (Ok tx', v')
          ∧ endorsed_and_broadcast peers tx' v'.
Proof.
  intros g Hk Hu Hc Hf Hfile Hd Hm Hcover. destruct (fb_serving Hf)
    as [(failed & o & os & Hos & _) (peer & rest & Hps & _)].
  assert (bring_up g members path policy timeout
    = (create_channel requestor orderers channel path;; join_each members;; install_each members;;
       instantiate_chaincode requestor peers orderers channel cc_spec policy false timeout)) as ->
    by (unfold g; rewrite Hos, Hps; by destruct failed).
  intros Hclock.
  destruct (bring_up_run cc_spec name members path config_update policy w)
    as (tx & w' & E & Hend & Hprep); [done..|].
  exists tx, w'. split; [done|]. split; [done|]. intros v fcn args tm Hv Hok Htm.
  destruct Hd as [Hname (_ & Hn & Hcs & Hls) _ _ _ _].
  eapply invoke_ready_run; [|done..|by eapply prepared_ready].
  unfold transact_ready. cbn. rewrite Hname, Hps. by destruct name.
Qed.
End bringing_up.
