(* ===== verification/Served.v ===== *)
(** * Served: endorsing and committing over gRPC

    Completion.v against the network of GrpcNetwork.v: where servicers that
    endorse and accept are registered behind the channels of the peers and an
    orderer, what the client proposes is endorsed and what it commits arrives,
    over the wire and through the generated stubs. *)
From S2P Require Import Prelude PyText Sha256 Sha3 Pem Wire Protobuf Descriptors CommonProtos PeerProtos Constants TxData Errors Crypto Grpc Models Transactions Decoded Block Runtime Factories Connect Events Roundtrip Transact GrpcNetwork Package Operations Gateway Completion.

Section served.
Context `{GrpcLaws, !FileSystem, !ProtobufLaws H, CryptographyLaws}.

(** An Endorser servicer that endorses every proposal. *)
Definition endorsing_servicer (ev : EndorserServicer) : Prop :=
  ∀ sp, ∃ r, EndorserServicer_ProcessProposal ev sp new_context = (Ok r, new_context)
    ∧ valid r = true ∧ endorses r.

(** An AtomicBroadcast servicer that accepts every envelope. *)
Definition accepting_servicer (bv : AtomicBroadcastServicer) : Prop :=
  ∀ env, ∃ r rs, AtomicBroadcastServicer_Broadcast bv [env] new_context = (Ok (r :: rs), new_context)
    ∧ forallb valid (r :: rs) = true ∧ BroadcastResponse_status r = 200%Z.

Lemma transmits_valid rs :
  forallb valid rs = true → Forall2 (transmits c_BroadcastResponse) rs rs.
Proof.
  induction rs as [|r rs IH]; [constructor|]. intros [Hr Hrs]%andb_true_iff.
  constructor; [by apply FromString_SerializeToString|by apply IH].
Qed.

Lemma stream_answers_valid outcome s rs :
  stream_answers c_BroadcastResponse outcome s → outcome = (Ok rs, new_context) →
  forallb valid rs = true → snd <$> st_items s = rs.
Proof. intros Ha -> Hv. by apply (Ha rs), transmits_valid. Qed.

Lemma served_endorses registered w p ev sp :
  served_peer (connected := connected) registered w p → existT Endorser ev ∈ registered → endorsing_servicer ev →
  ∃ d r, ProcessProposal (Network := grpc_network) w p sp = Reply d r ∧ endorses r.
Proof.
  intros Hp Hin Hev. destruct (Hev sp) as (r & Hr & Hv & He).
  pose proof (endorser_served registered w p ev sp Hp Hin ltac:(done)) as Ha.
  rewrite Hr in Ha. destruct (Ha r) as [d Hd]; [by apply FromString_SerializeToString|].
  by exists d, r.
Qed.

Lemma served_accepting registered o bv :
  (∀ w, served_orderer (connected := connected) registered w o) → existT AtomicBroadcast bv ∈ registered →
  accepting_servicer bv → accepting (N := grpc_network) o.
Proof.
  intros Ho Hin Hbv w env. destruct (Hbv env) as (r & rs & Hr & Hv & Hs).
  destruct (Ho w) as [(om & on & Hst%new_Orderer_stubs) Hc Hnd].
  assert (stream_answers c_BroadcastResponse (AtomicBroadcastServicer_Broadcast bv [env] new_context)
    (Broadcast (Network := grpc_network) w o env)) as Ha.
  { eapply (stream_on_served w _ registered AtomicBroadcast bv "Broadcast"); try done; [by left|].
    by apply envelope_stream_transmits. }
  pose proof (stream_answers_valid _ _ _ Ha Hr Hv) as Hitems.
  destruct (Broadcast w o env) as [[|[d0 r0] items] en]; [done|]. injection Hitems as -> Hi.
  by exists d0, r, items, en.
Qed.

(** C14: endorsing and committing reach the servers: with an endorsing servicer
    behind the channel of every peer, and an accepting one behind that of the
    first orderer, the client's proposal comes back endorsed by all peers, and
    committing the transaction sends the envelope built from their answers and
    returns a response with status 200; everything travels through the stubs,
    serialized and parsed. *)
Theorem endorsed_and_committed_over_grpc requestor peers o orderers registered_o bv g w :
  is_Some (user_private_key requestor) → peers ≠ [] →
  (∀ p w, p ∈ peers → ∃ registered ev, served_peer (connected := connected) registered w p
     ∧ existT Endorser ev ∈ registered ∧ endorsing_servicer ev) →
  (∀ w, served_orderer (connected := connected) registered_o w o) →
  existT AtomicBroadcast bv ∈ registered_o → accepting_servicer bv →
  ∃ rs w1 env w2 resp w3,
    propose_tx (H1 := grpc_network) peers g w = (Ok (endorse g rs), w1)
    ∧ length rs = length peers ∧ fully_endorsed (endorse g rs) = true
    ∧ build_endorsed_tx_envelope (endorse g rs) requestor w1 = (Ok env, w2)
    ∧ commit_tx (H1 := grpc_network) requestor (o :: orderers) (endorse g rs) w1 = (Ok (Some resp), w3)
    ∧ BroadcastResponse_status resp = 200%Z ∧ last (broadcasts w3) = Some env.
Proof.
  intros Hk Hne Hpeers Ho Hin Hbv.
  destruct (propose_run (N := grpc_network) peers g w Hne) as (rs & w1 & Hp & Hl & He & _).
  { intros v p sp Hpin. destruct (Hpeers p v Hpin) as (rg & ev & Hs & Hev & Hend).
    by eapply served_endorses. }
  assert (rs ≠ []) as Hrs by (intros ->; by destruct peers).
  destruct (endorsed_envelope_run (endorse g rs) requestor w1 Hk Hrs) as (env & w2 & Henv & _).
  destruct (commit_run (N := grpc_network) requestor [] o orderers (endorse g rs) env w1 w2 Henv)
    as (resp & w3 & Hc & Hs & Hlast); [constructor|by eapply served_accepting|].
  exists rs, w1, env, w2, resp, w3. do 2 (split; [done|]). split; [|done].
  apply fully_endorsed_spec. eapply Forall_impl; [exact He|]. by intros r [? _].
Qed.
End served.
