(* ===== verification/Progress.v ===== *)
(** * Progress: what always ends

    The client waits for answers, and only [wait_for] bounds a wait.  Where
    calls are answered, however late or badly, invoking and querying return or
    raise; [Answering] says what that needs of the network.  [never_hangs] is
    closed under each combinator. *)
From S2P Require Import Prelude PyText Sha256 Sha3 Pem Wire Protobuf Descriptors CommonProtos PeerProtos Constants TxData Errors Crypto Grpc Models Transactions Decoded Block Runtime Factories Policies Connect Events Transact Package Operations Safety Gateway.

(** ** Computations that end *)

Definition never_hangs {S A} (m : SE exn S A) : Prop := ∀ s, (m s).1 ≠ Hang.

(** A local computation always ends. *)
Abbreviation ends o := (settles (λ _, True) o).

Section ends.
Context {S : Type}.

Lemma nh_lift {A} (o : res A) : ends o → never_hangs (lift o : SE exn S A).
Proof. by intros Ho s; destruct o. Qed.
Lemma nh_ret {A} (a : A) : never_hangs (mret a : SE exn S A).
Proof. done. Qed.
Lemma nh_throw {A} e : never_hangs (throw e : SE exn S A).
Proof. done. Qed.
Lemma nh_raise_if c e : never_hangs (raise_if c e : SE exn S unit).
Proof. by destruct c. Qed.
Lemma nh_modify f : never_hangs (modify f : SE exn S unit).
Proof. done. Qed.
Lemma nh_bind {A B} (m : SE exn S A) (k : A → SE exn S B) :
  never_hangs m → (∀ a, never_hangs (k a)) → never_hangs (m ≫= k).
Proof.
  intros Hm Hk s. unfold mbind, SE_bind. specialize (Hm s).
  destruct (m s) as [[a|e|] s']; [apply Hk|done|done].
Qed.
Lemma nh_fmap {A B} (f : A → B) (m : SE exn S A) : never_hangs m → never_hangs (f <$> m).
Proof. intros Hm s. unfold fmap, SE_fmap. specialize (Hm s). by destruct (m s) as [[] ?]. Qed.
Lemma nh_catch {A} (m : SE exn S A) h :
  never_hangs m → (∀ e k, h e = Some k → never_hangs k) → never_hangs (catch m h).
Proof.
  intros Hm Hh s. unfold catch. specialize (Hm s). destruct (m s) as [[a|e|] s']; [done| |done].
  destruct (h e) as [k|] eqn:E; [by apply (Hh e)|done].
Qed.
End ends.

Lemma nh_draw a : never_hangs (draw a).
Proof. done. Qed.
Lemma nh_time : never_hangs get_current_time.
Proof. done. Qed.
Lemma nh_wait_for {A} timeout (m : M A) : never_hangs (wait_for timeout m).
Proof. intros w. unfold wait_for. destruct (m w) as [[] ?]; repeat case_match; cbn; congruence. Qed.

Lemma ends_encode s : ends (encode_proto_bytes s).
Proof. by apply settles_or_raise. Qed.
Lemma ends_encode_str s : ends (encode_proto_str s).
Proof. apply settles_bind; [apply ends_encode|intros l]. by apply settles_or_raise. Qed.
Lemma ends_language l : ends (language_type l).
Proof. by apply settles_or_raise. Qed.
Lemma ends_or_raise {A} e (o : option A) : ends (or_raise e o : res A).
Proof. by apply settles_or_raise. Qed.

#[export] Hint Resolve nh_ret nh_throw nh_raise_if nh_modify nh_draw nh_time nh_wait_for nh_lift
  ends_encode ends_encode_str ends_language ends_or_raise settles_fmap settles_mapM : snakeskin.

Ltac solve_ends :=
  repeat first
    [ solve [eauto with snakeskin]
    | apply nh_bind; [|intros ?]
    | apply nh_catch; [|intros ? ? ?]
    | apply nh_fmap
    | case_match ].

(** ** Building messages *)

Section building.
Context `{Cryptography, Protobuf}.

Lemma nh_sign user payload : never_hangs (sign user payload).
Proof.
  unfold sign. solve_ends. apply nh_lift. unfold ecies_sign, prevent_malleability, decode_dss.
  apply settles_bind; [by apply settles_or_raise|by intros []].
Qed.
#[local] Hint Resolve nh_sign : snakeskin.
Lemma nh_wrap user payload : never_hangs (wrap_transaction user payload).
Proof. unfold wrap_transaction. solve_ends. Qed.
Lemma nh_header ctx ch ext ty tls : never_hangs (build_header ctx ch ext ty tls).
Proof. unfold build_header, pem_to_der_res. solve_ends. Qed.
#[local] Hint Resolve nh_wrap nh_header : snakeskin.
Lemma nh_endorsed_envelope tx user : never_hangs (build_endorsed_tx_envelope tx user).
Proof. unfold build_endorsed_tx_envelope. solve_ends. Qed.
Lemma nh_generate user name ch fcn args tm : never_hangs (generate_cc_tx user name ch fcn args tm).
Proof. unfold generate_cc_tx, build_generated_tx, tx_context_from_user. solve_ends. Qed.
End building.
#[export] Hint Resolve nh_endorsed_envelope nh_generate : snakeskin.

(** ** Calling *)

(** Every call gets an answer; a stream of events may stay silent, which the
    timeout of a wait ends. *)
Class Answering `{Network} : Prop := {
  proposal_answered w p sp : ProcessProposal w p sp ≠ NoReply;
  broadcast_answered w o env :
    st_items (Broadcast w o env) = [] → st_end (Broadcast w o env) ≠ Silent;
}.

Section calling.
Context `{Cryptography, Protobuf, Answering}.

Lemma nh_propose_tx peers gtx : never_hangs (propose_tx peers gtx).
Proof.
  apply nh_bind; [apply nh_raise_if|intros _]. apply nh_bind; [|done]. intros w.
  pose proof (gather_proposals (gt_signed_proposal gtx) peers w) as Hg.
  destruct (gather _ w) as [[rs|e|] w1]; [done|done|].
  destruct (Hg _ _ eq_refl) as [_ [(j & q & _ & Hno) _]]. by apply proposal_answered in Hno.
Qed.

Lemma nh_broadcast_to_orderer envelope orderer tx_id :
  never_hangs (broadcast_to_orderer envelope orderer tx_id).
Proof.
  intros w. rewrite broadcast_to_orderer_run. cbn zeta.
  pose proof (broadcast_answered (log (ABroadcast orderer envelope) w) orderer envelope) as Ha.
  destruct (st_items _) as [|[d resp] items].
  - specialize (Ha eq_refl). by destruct (st_end _).
  - cbn. by destruct (_ =? 200)%Z.
Qed.

Lemma nh_try_orderers envelope orderers tx_id error :
  never_hangs (try_orderers envelope orderers tx_id error).
Proof.
  revert error. induction orderers as [|o orderers IH]; intros error; cbn [try_orderers]; [apply nh_throw|].
  apply nh_catch; [apply nh_broadcast_to_orderer|]. intros e k. destruct (isinstance _ _); [|done].
  intros [= <-]. apply IH.
Qed.

Lemma nh_commit_tx requestor orderers tx : never_hangs (commit_tx requestor orderers tx).
Proof.
  apply nh_bind; [apply nh_endorsed_envelope|intros envelope]. destruct orderers as [|o orderers]; [done|].
  apply nh_try_orderers.
Qed.

Lemma nh_check_transaction hub tx_id timeout start behavior :
  never_hangs (check_transaction hub tx_id timeout start behavior).
Proof. unfold check_transaction. solve_ends. Qed.

Lemma nh_await_transaction re requestor channel peer tx_id timeout :
  never_hangs (await_transaction re requestor channel peer tx_id timeout).
Proof. unfold await_transaction, check_transaction. solve_ends. Qed.

#[local] Hint Resolve nh_propose_tx nh_commit_tx nh_check_transaction nh_await_transaction : snakeskin.

Lemma nh_world {A} (m : M A) : never_hangs m → never_hangs (world m).
Proof. intros Hm s. unfold world. specialize (Hm s.2). by destruct (m s.2). Qed.

Lemma nh_wait_on_peers re timeout peers error : never_hangs (wait_on_peers re timeout peers error).
Proof.
  revert error. induction peers as [|peer peers IH]; intros error; cbn [wait_on_peers]; [apply nh_throw|].
  apply nh_catch.
  - apply nh_bind; [done|intros b]. unfold attribute_of.
    apply nh_bind; [auto with snakeskin|intros tx]. apply nh_bind; [|done].
    apply nh_world, nh_await_transaction.
  - intros e k. destruct (_ || _); [|done]. intros [= <-]. apply IH.
Qed.

Lemma nh_operate op : never_hangs (operate op).
Proof.
  destruct op as [re| |re timeout]; cbn [operate]; (apply nh_bind; [done|intros b]).
  - apply nh_bind; [apply nh_world, nh_propose_tx|intros tx]. apply nh_bind; [done|intros _].
    destruct re; [apply nh_world, nh_raise_if|done].
  - destruct (b_endorsed_tx b) as [tx|]; [|done]. unfold requestor_of, attribute_of.
    apply nh_bind; [auto with snakeskin|intros rq]. apply nh_bind; [apply nh_world, nh_commit_tx|done].
  - destruct (negb _); [done|apply nh_wait_on_peers].
Qed.

Lemma nh_await_builder b : never_hangs (await_builder b).
Proof.
  enough (never_hangs run_operations) as Hr.
  { intros w. unfold await_builder. specialize (Hr (b, w)). by destruct (run_operations (b, w)). }
  assert (∀ ops, never_hangs (run_all ops)) as Hall.
  { induction ops as [|op ops IH]; [done|]. by apply nh_bind; [apply nh_operate|]. }
  apply nh_bind; [done|intros b']. destruct (b_operations b') as [[|op ops]|]; [done| |done].
  apply nh_bind; [apply Hall|intros _]. apply nh_bind; [done|intros _].
  apply nh_bind; [done|intros b2]. by destruct (b_endorsed_tx b2).
Qed.

Lemma nh_transact g fcn args tm : never_hangs (transact g fcn args tm).
Proof. unfold transact, require_nonempty, require_some. solve_ends. Qed.

(** C20: invoking and querying always end: if the peers answer proposals and
    the orderers answer broadcasts, with whatever they like and after whatever
    time, then [invoke], [query], the gateway's two and every await of a
    builder return or raise, even if the peers never deliver a block. *)
Theorem invocations_end requestor peers orderers channel cc_name fcn args timeout tm g b :
  never_hangs (invoke requestor peers orderers channel cc_name fcn args timeout tm)
  ∧ never_hangs (query requestor peers channel cc_name fcn args tm)
  ∧ never_hangs (Gateway_invoke g fcn args tm timeout)
  ∧ never_hangs (Gateway_query g fcn args tm)
  ∧ never_hangs (await_builder b).
Proof.
  unfold invoke, query, raise_tx_proposal_error, commit_tx_and_wait, Gateway_invoke, Gateway_query.
  split_and!; solve_ends; apply nh_transact || apply nh_await_builder.
Qed.
End calling.
