(* ===== verification/Concurrent.v ===== *)
(** * Concurrent: a builder awaited by several tasks (models/gateway.py)

    [GatewayTXBuilder.__await__] makes a coroutine of the event loop, and
    nothing stops a program from awaiting one builder in several tasks, from
    calling its methods while a task runs, or from cancelling a task.  This
    file models the same methods as Gateway.v between two waits: a task runs
    alone until it has to wait for the network, and other tasks run while it
    waits.

    The builder is one object of the store [Shared].  The list [_operations]
    is a mutable object of its own, which the running tasks and the attribute
    may share: [sh_lists] is the store of such lists, [o_operations] the place
    of the one the attribute holds, and a task keeps the place of the list it
    iterates over and its index in it.

    What the network answers is [Network]'s, as everywhere: a call is answered
    in the world it is made in, and the task is resumed when the clock has
    reached the time of the answer.  The steps are [handle], one for each
    [Event]; a program and its scheduler are any sequence of events. *)
From S2P Require Import Prelude PyText Sha256 Sha3 Pem Wire Protobuf Descriptors CommonProtos PeerProtos Constants TxData Errors Crypto Grpc Models Transactions Decoded Block Runtime Factories Policies Connect Events Transact Package Operations Safety Gateway Progress.

(** ** The store *)

Record BuilderObject `{Cryptography} := mkObject {
  o_transaction : GeneratedTX;
  o_gateway : Gateway;
  o_endorsed_tx : option EndorsedTX;
  o_filtered_tx : option FilteredTX.t;
  o_committed : bool;
  o_operations : option nat;
}.
Arguments mkObject {_} _ _ _ _ _ _.
Arguments o_transaction {_} _.
Arguments o_gateway {_} _.
Arguments o_endorsed_tx {_} _.
Arguments o_filtered_tx {_} _.
Arguments o_committed {_} _.
Arguments o_operations {_} _.

Record Shared `{Cryptography} := mkShared {
  sh_self : BuilderObject;
  sh_lists : list (list Operation);
  sh_world : World;
}.
Arguments mkShared {_} _ _ _.
Arguments sh_self {_} _.
Arguments sh_lists {_} _.
Arguments sh_world {_} _.

(** A call that has been sent: what will come of it and when. *)
Record Pending (A : Type) := mkPending { p_result : res A; p_time : N }.
Arguments mkPending {A} _ _.
Arguments p_result {A} _.
Arguments p_time {A} _.

(** The [await] at which an operation is suspended, with the variables that
    are live there. *)
Inductive Activity `{Cryptography} :=
  | Proposing (raise_errors : bool) (p : Pending EndorsedTX)
  | Submitting (envelope : Envelope) (tx_id : pystr) (orderers : list Orderer)
      (p : Pending (option BroadcastResponse))
  | Waiting (raise_errors : bool) (timeout : Z) (peers : list Peer) (p : Pending FilteredTX.t).

Inductive TaskState `{Cryptography} :=
  | TNew
  | TPending (l i : nat) (a : Activity)
  | TDone (r : res EndorsedTX)
  | TCancelled.

Record EventLoop `{Cryptography} := mkLoop { loop_shared : Shared; loop_tasks : list TaskState }.
Arguments mkLoop {_} _ _.
Arguments loop_shared {_} _.
Arguments loop_tasks {_} _.

Inductive Event :=
  | ECall (operation : Operation)
  | EAwait
  | EBegin (i : nat)
  | EResume (i : nat)
  | ECancel (i : nat)
  | EOther (d : N) (new : list Action).

Section concurrent.
Context `{Cryptography, Protobuf, Network}.

(** ** Between two waits *)

Abbreviation T := (SE exn Shared).

Definition set_self (f : BuilderObject → BuilderObject) (s : Shared) : Shared :=
  mkShared (f (sh_self s)) (sh_lists s) (sh_world s).
Definition set_lists (ls : list (list Operation)) (s : Shared) : Shared :=
  mkShared (sh_self s) ls (sh_world s).
Definition set_world (w : World) (s : Shared) : Shared := mkShared (sh_self s) (sh_lists s) w.

Definition with_endorsed_tx (tx : EndorsedTX) (o : BuilderObject) : BuilderObject :=
  mkObject (o_transaction o) (o_gateway o) (Some tx) (o_filtered_tx o) (o_committed o)
    (o_operations o).
Definition with_filtered_tx (tx : FilteredTX.t) (o : BuilderObject) : BuilderObject :=
  mkObject (o_transaction o) (o_gateway o) (o_endorsed_tx o) (Some tx) (o_committed o)
    (o_operations o).
Definition with_committed (o : BuilderObject) : BuilderObject :=
  mkObject (o_transaction o) (o_gateway o) (o_endorsed_tx o) (o_filtered_tx o) true
    (o_operations o).
Definition with_operations (l : nat) (o : BuilderObject) : BuilderObject :=
  mkObject (o_transaction o) (o_gateway o) (o_endorsed_tx o) (o_filtered_tx o) (o_committed o)
    (Some l).

Definition this : T BuilderObject := λ s, (Ok (sh_self s), s).
Definition assign (f : BuilderObject → BuilderObject) : T unit := modify (set_self f).
(** Local computation. *)
Definition at_once {A} (m : M A) : T A := λ s,
  let '(r, w) := m (sh_world s) in (r, set_world w s).
(** Run [m] up to its wait.  The coroutines that are launched act before
    their first wait and only read answers after it, so their actions are all
    done now and only time is left. *)
Definition launch {A} (m : M A) : T (Pending A) := λ s,
  let '(r, w) := m (sh_world s) in
  (Ok (mkPending r (w_clock w)), set_world (mkWorld (w_clock (sh_world s)) (w_trace w)) s).

(** One round of the loop over the orderers in [broadcast_to_orderers]. *)
Definition submit_to (envelope : Envelope) (tx_id : pystr) (orderer : Orderer)
    (orderers : list Orderer) : T Activity :=
  p ← launch (broadcast_to_orderer envelope orderer tx_id);
  mret (Submitting envelope tx_id orderers p).

(** One round of the loop over the peers in [wait_for_commit], with [error]. *)
Definition wait_on (raise_errors : bool) (timeout : Z) (peers : list Peer) (error : exn) :
    T Activity :=
  match peers with
  | [] => throw error
  | peer :: peers =>
    o ← this;
    tx ← lift (attribute_of "tx_id" (o_endorsed_tx o));
    p ← launch (await_transaction raise_errors (gw_requestor (o_gateway o))
      (default (mkChannel []) (gw_channel (o_gateway o))) peer (EndorsedTX_tx_id tx) timeout);
    mret (Waiting raise_errors timeout peers p)
  end.

(** [operation()] up to its first wait. *)
Definition start_operation (op : Operation) : T Activity :=
  o ← this;
  match op with
  | OpPropose raise_errors =>
    p ← launch (propose_tx (gw_endorsing_peers (o_gateway o)) (o_transaction o));
    mret (Proposing raise_errors p)
  | OpSubmit =>
    match o_endorsed_tx o with
    | None => throw (ValueError (u "Must propose transaction before committing it"))
    | Some tx =>
      requestor ← lift (requestor_of (o_gateway o));
      envelope ← at_once (build_endorsed_tx_envelope tx requestor);
      match gw_orderers (o_gateway o) with
      | [] => throw (ValueError (u "Must provide at least one orderer"))
      | orderer :: orderers => submit_to envelope (EndorsedTX_tx_id tx) orderer orderers
      end
    end
  | OpWaitForCommit raise_errors timeout =>
    if negb (o_committed o)
    then throw (ValueError (u "Must commit transaction before waiting"))
    else wait_on raise_errors timeout (gw_endorsing_peers (o_gateway o))
           (BlockchainError (u "Failed waiting for committed transaction"))
  end.

(** The operation from one wait to the next, or to its end. *)
Definition resume_operation (a : Activity) : T (option Activity) :=
  match a with
  | Proposing raise_errors p =>
    tx ← lift (p_result p);
    assign (with_endorsed_tx tx);;
    (if raise_errors
     then at_once (raise_tx_proposal_error tx (u "A peer failed to endorse the transaction"))
     else mret tt);;
    mret None
  | Submitting envelope tx_id orderers p =>
    catch (lift (p_result p);; assign with_committed;; mret None) (λ err,
      match orderers with
      | orderer :: orderers =>
        if isinstance err CBlockchainConnectionError
        then Some (Some <$> submit_to envelope tx_id orderer orderers) else None
      | [] => None
      end)
  | Waiting raise_errors timeout peers p =>
    catch (tx ← lift (p_result p); assign (with_filtered_tx tx);; mret None) (λ err,
      if isinstance err CConnectionError || isinstance err CBlockRetrievalError
      then Some (Some <$> wait_on raise_errors timeout peers err) else None)
  end.

(** ** The coroutine [_run_operations] *)

Definition list_at (l : nat) : T (list Operation) := λ s, (Ok (default [] (sh_lists s !! l)), s).

(** [self._operations.clear()] *)
Definition clear_operations : T unit :=
  o ← this;
  l ← lift (attribute_of "clear" (o_operations o));
  modify (λ s, set_lists (<[l := []]> (sh_lists s)) s).

Definition never_proposed : exn := BlockchainError (u "Transaction never proposed").

(** After the loop. *)
Definition finish_operations : T TaskState :=
  clear_operations;;
  o ← this;
  match o_endorsed_tx o with
  | Some tx => mret (TDone (Ok tx))
  | None => throw never_proposed
  end.

(** The loop over the list at [l], from index [i]. *)
Definition next_operation (l i : nat) : T TaskState :=
  ops ← list_at l;
  match ops !! i with
  | Some op =>
    a ← start_operation op;
    mret (TPending l (S i) a)
  | None => finish_operations
  end.

Definition begin_task : T TaskState :=
  o ← this;
  match o_operations o with
  | Some l =>
    ops ← list_at l;
    if is_nonempty ops then next_operation l 0 else throw never_proposed
  | None => throw never_proposed
  end.

Definition resume_task (l i : nat) (a : Activity) : T TaskState :=
  r ← resume_operation a;
  match r with
  | Some a => mret (TPending l i a)
  | None => next_operation l i
  end.

(** ** The methods of the builder *)

(** [_add_operation]: an empty list is left to the tasks that hold it and the
    attribute gets a list of its own. *)
Definition queue_operation (operation : Operation) (s : Shared) : Shared :=
  match o_operations (sh_self s) with
  | Some l =>
    match sh_lists s !! l with
    | Some (x :: ops) => set_lists (<[l := (x :: ops) ++ [operation]]> (sh_lists s)) s
    | _ => set_self (with_operations (length (sh_lists s))) (set_lists (sh_lists s ++ [[operation]]) s)
    end
  | None => set_self (with_operations (length (sh_lists s))) (set_lists (sh_lists s ++ [[operation]]) s)
  end.

(** ** The event loop *)

Definition activity_pending (a : Activity) : bool * N :=
  let answered {A} (p : Pending A) :=
    (match p_result p with Hang => false | _ => true end, p_time p) in
  match a with
  | Proposing _ p => answered p
  | Submitting _ _ _ p => answered p
  | Waiting _ _ _ p => answered p
  end.

(** The answer has come. *)
Definition ready (a : Activity) (w : World) : bool :=
  (activity_pending a).1 && ((activity_pending a).2 <=? w_clock w)%N.

(** How a task is left by a run. *)
Definition task_of (r : res TaskState) : TaskState :=
  match r with Ok t => t | Raise e => TDone (Raise e) | Hang => TDone Hang end.
Definition run_task (i : nat) (m : T TaskState) (c : EventLoop) : EventLoop :=
  let '(r, s) := m (loop_shared c) in mkLoop s (<[i := task_of r]> (loop_tasks c)).

Definition pass (d : N) (new : list Action) (w : World) : World :=
  mkWorld (w_clock w + d) (w_trace w ++ new).

(** [None]: the event cannot happen here. *)
Definition handle (e : Event) (c : EventLoop) : option EventLoop :=
  match e with
  | ECall op => Some (mkLoop (queue_operation op (loop_shared c)) (loop_tasks c))
  | EAwait => Some (mkLoop (loop_shared c) (loop_tasks c ++ [TNew]))
  | EBegin i =>
    match loop_tasks c !! i with
    | Some TNew => Some (run_task i begin_task c)
    | _ => None
    end
  | EResume i =>
    match loop_tasks c !! i with
    | Some (TPending l k a) =>
      if ready a (sh_world (loop_shared c)) then Some (run_task i (resume_task l k a) c) else None
    | _ => None
    end
  | ECancel i =>
    match loop_tasks c !! i with
    | Some TNew | Some (TPending _ _ _) => Some (mkLoop (loop_shared c) (<[i := TCancelled]> (loop_tasks c)))
    | _ => None
    end
  | EOther d new =>
    Some (mkLoop (set_world (pass d new (sh_world (loop_shared c))) (loop_shared c)) (loop_tasks c))
  end.

Fixpoint handle_all (es : list Event) (c : EventLoop) : option EventLoop :=
  match es with
  | [] => Some c
  | e :: es => handle e c ≫= handle_all es
  end.

Definition loop_step (c c' : EventLoop) : Prop := ∃ e, handle e c = Some c'.

(** A builder as [Gateway.transact] makes it. *)
Definition new_loop (g : Gateway) (gtx : GeneratedTX) (w : World) : EventLoop :=
  mkLoop (mkShared (mkObject gtx g None None false None) [] w) [].

Definition reachable (g : Gateway) (gtx : GeneratedTX) (w : World) : EventLoop → Prop :=
  rtc loop_step (new_loop g gtx w).

(** ** Gateway.v's builder in the store *)

Definition view (s : Shared) : GatewayTXBuilder :=
  let o := sh_self s in
  mkBuilder (o_transaction o) (o_gateway o) (o_endorsed_tx o) (o_filtered_tx o) (o_committed o)
    (l ← o_operations o; sh_lists s !! l).
End concurrent.

Lemma handle_all_steps `{Cryptography, Protobuf, Network} es c c' :
  handle_all es c = Some c' → rtc loop_step c c'.
Proof.
  revert c. induction es as [|e es IH]; intros c; cbn; [by intros [= <-]|].
  intros (c1 & He & Hes)%bind_Some. eapply rtc_l; [by exists e|by apply IH].
Qed.

Lemma handle_all_snoc `{Cryptography, Protobuf, Network} es e c c1 c2 :
  handle_all es c = Some c1 → handle e c1 = Some c2 → handle_all (es ++ [e]) c = Some c2.
Proof.
  intros Hes He. revert c Hes. induction es as [|x es IH]; cbn; intros c.
  - intros [= ->]. by rewrite He.
  - intros (c3 & -> & ?)%bind_Some. by apply IH.
Qed.

Lemma reachable_events `{Cryptography, Protobuf, Network} g gtx w c :
  reachable g gtx w c → ∃ es, handle_all es (new_loop g gtx w) = Some c.
Proof.
  intros Hr. apply (rtc_ind_r (λ c, ∃ es, handle_all es (new_loop g gtx w) = Some c)
    (new_loop g gtx w)) in Hr; [done|by exists []|].
  intros c1 c2 _ [e He] [es Hes]. exists (es ++ [e]). by eapply handle_all_snoc.
Qed.

(** ** Every interleaving *)

Section invariant.
Context `{Cryptography, Protobuf, Network}.
Context (g : Gateway) (gtx : GeneratedTX).

Abbreviation T := (SE exn Shared).

(** What no run takes back. *)
Record grows (s s' : Shared) : Prop := {
  grows_endorsed : is_Some (o_endorsed_tx (sh_self s)) → is_Some (o_endorsed_tx (sh_self s'));
  grows_committed : o_committed (sh_self s) = true → o_committed (sh_self s') = true;
  grows_world : adds anything (sh_world s) (sh_world s');
}.

#[local] Instance grows_preorder : PreOrder grows.
Proof.
  split.
  - intros s. by split.
  - intros s1 s2 s3 [E1 C1 W1] [E2 C2 W2]. split; [auto|auto|by etrans].
Qed.

(** What proposing gave, by actions that are part of this run: the builder's
    transaction with the answer of every endorsing peer. *)
Definition proposed (s : Shared) (tx : EndorsedTX) : Prop :=
  ∃ v v', propose_tx (gw_endorsing_peers g) gtx v = (Ok tx, v') ∧ adds anything v' (sh_world s).

Lemma proposed_endorse s tx :
  proposed s tx →
  tx = endorse gtx (et_peer_responses tx)
  ∧ length (et_peer_responses tx) = length (gw_endorsing_peers g).
Proof. intros (v & v' & E & _). by eapply propose_tx_Ok. Qed.

(** Status 200 from every peer, or a reason why not: [propose] was called with
    [raise_errors=False], or the refusal was raised.  [asked] are the operations
    that were queued, [refused] the transactions raised in a proposal error. *)
Definition vouched (asked : Operation → Prop) (refused : EndorsedTX → Prop) (tx : EndorsedTX) : Prop :=
  fully_endorsed tx = true ∨ asked (OpPropose false) ∨ refused tx.

Section state.
Context (asked : Operation → Prop) (refused : EndorsedTX → Prop).

Definition endorsed (s : Shared) (tx : EndorsedTX) : Prop :=
  proposed s tx ∧ vouched asked refused tx.

(** An envelope built from an endorsed transaction. *)
Definition submitted (s : Shared) (envelope : Envelope) : Prop :=
  ∃ tx requestor v v', endorsed s tx
    ∧ build_endorsed_tx_envelope tx requestor v = (Ok envelope, v').

Record shared_ok (s : Shared) : Prop := {
  ok_builder : builder_ok g gtx (view s, sh_world s);
  ok_held tx : o_endorsed_tx (sh_self s) = Some tx → endorsed s tx;
  ok_queued l ops op : sh_lists s !! l = Some ops → op ∈ ops → asked op;
  ok_place l : o_operations (sh_self s) = Some l → l < length (sh_lists s);
}.

(** What the wait of an operation will give it. *)
Definition activity_ok (s : Shared) (a : Activity) : Prop :=
  match a with
  | Proposing re p => asked (OpPropose re) ∧ ∀ tx, p_result p = Ok tx → proposed s tx
  | Submitting envelope _ _ _ =>
    is_Some (o_endorsed_tx (sh_self s))
    ∧ (∃ o, ABroadcast o envelope ∈ w_trace (sh_world s)) ∧ submitted s envelope
  | Waiting re _ _ p =>
    o_committed (sh_self s) = true ∧ p_result p ≠ Hang
    ∧ ∀ t, p_result p = Ok t → FilteredTX.tx_id t = GeneratedTX_tx_id gtx
        ∧ (re = true → FilteredTX.tx_validation_code t = TxValidationCode_VALID)
  end.

Definition task_ok (s : Shared) (t : TaskState) : Prop :=
  match t with
  | TPending _ _ a => activity_ok s a
  | TDone (Ok tx) => endorsed s tx
  | _ => True
  end.

Lemma submitted_broadcast s envelope :
  (∃ o, ABroadcast o envelope ∈ w_trace (sh_world s)) → submitted s envelope →
  broadcast_of g gtx (sh_world s).
Proof.
  intros [o Ho] (tx & rq & v & v' & [[Htx Hlen]%proposed_endorse _] & Hb). rewrite Htx in Hb.
  by exists o, envelope, (et_peer_responses tx), rq, v, v'.
Qed.

Lemma proposed_grows s s' tx : grows s s' → proposed s tx → proposed s' tx.
Proof. intros [_ _ Hw] (v & v' & E & Hv). exists v, v'. split; [done|by etrans]. Qed.
Lemma endorsed_grows s s' tx : grows s s' → endorsed s tx → endorsed s' tx.
Proof. intros Hg [Hp Hv]. split; [by eapply proposed_grows|done]. Qed.
Lemma trace_grows s s' a : grows s s' → a ∈ w_trace (sh_world s) → a ∈ w_trace (sh_world s').
Proof. intros [_ _ (new & -> & _)] Ha. apply elem_of_app. by left. Qed.
Lemma submitted_grows s s' env : grows s s' → submitted s env → submitted s' env.
Proof. intros Hg (tx & rq & v & v' & He & Hb). exists tx, rq, v, v'. split; [by eapply endorsed_grows|done]. Qed.

Lemma activity_ok_grows s s' a : grows s s' → activity_ok s a → activity_ok s' a.
Proof.
  intros Hg. pose proof Hg as [He Hc Hw]. destruct a; cbn.
  - intros [? Hp]. split; [done|]. intros tx Htx. by eapply proposed_grows, Hp.
  - intros (? & [o Ho] & ?).
    split_and!; [auto|exists o; by eapply trace_grows|by eapply submitted_grows].
  - naive_solver.
Qed.
Lemma task_ok_grows s s' t : grows s s' → task_ok s t → task_ok s' t.
Proof. destruct t as [|l i a|[]|]; try done; [apply activity_ok_grows|apply endorsed_grows]. Qed.
End state.

(** More may be asked, and more be refused. *)
Section more.
Context (A A' : Operation → Prop) (R R' : EndorsedTX → Prop).
Context (HA : ∀ op, A op → A' op) (HR : ∀ tx, R tx → R' tx).

Lemma endorsed_more s tx : endorsed A R s tx → endorsed A' R' s tx.
Proof. intros [Hp Hv]. split; [done|]. destruct Hv as [|[|]]; [by left|right; left; auto|right; right; auto]. Qed.
Lemma shared_ok_more s : shared_ok A R s → shared_ok A' R' s.
Proof. intros [Hb Hh Hq Hp]. split; [done| | |done]; eauto using endorsed_more. Qed.
Lemma task_ok_more s t : task_ok A R s t → task_ok A' R' s t.
Proof.
  destruct t as [|l i [| |]|[]|]; try done; cbn.
  - naive_solver.
  - intros (? & ? & tx & rq & v & v' & He & ?). split_and!; [done|done|].
    exists tx, rq, v, v'. split; [by apply endorsed_more|done].
  - apply endorsed_more.
Qed.
End more.

Section keeping.
Context (asked : Operation → Prop).
Implicit Types (R : EndorsedTX → Prop).

(** The refusal a run ends with. *)
Definition refusal {A} (r : res A) (tx : EndorsedTX) : Prop :=
  ∃ msg, r = Raise (TransactionProposalError msg tx).

(** From a good store with [P], [m] leads to a good store with nothing taken
    back, and to [Q] if it returns; a refusal it leaves in the builder, it
    raises. *)
Definition keeping {A} R (P : Shared → Prop) (m : T A) (Q : A → Shared → Prop) : Prop :=
  ∀ s r s', shared_ok asked R s → P s → m s = (r, s') →
    shared_ok asked (λ tx, R tx ∨ refusal r tx) s' ∧ grows s s' ∧ ∀ a, r = Ok a → Q a s'.

Lemma quiet {A} R (r : res A) s : shared_ok asked R s → shared_ok asked (λ tx, R tx ∨ refusal r tx) s.
Proof. apply shared_ok_more; auto. Qed.
Lemma ok_quiet {A} R (a : A) s : shared_ok asked (λ tx, R tx ∨ refusal (Ok a) tx) s → shared_ok asked R s.
Proof. apply shared_ok_more; [done|]. by intros tx [|[msg [=]]]. Qed.

#[local] Hint Resolve quiet : core.

Section rules.
Context {A B : Type} (R : EndorsedTX → Prop).
Implicit Types (P : Shared → Prop) (m : T A) (k : A → T B).

Lemma keeping_bind P (Q : A → Shared → Prop) (S : B → Shared → Prop) m k :
  keeping R P m Q → (∀ a, keeping R (Q a) (k a) S) → keeping R P (m ≫= k) S.
Proof.
  intros Hm Hk s r s' Hok HP. unfold mbind, SE_bind.
  destruct (m s) as [q s1] eqn:E. destruct (Hm _ _ _ Hok HP E) as (Hok1 & Hg1 & HQ).
  destruct q as [a|e|].
  - intros Hr. destruct (Hk a _ _ _ (ok_quiet _ _ _ Hok1) (HQ a eq_refl) Hr) as (Hok2 & Hg2 & HS).
    split_and!; [done|by etrans|done].
  - intros [= <- <-]. split_and!; [|done|done]. eapply shared_ok_more, Hok1; [done|].
    intros tx [?|[msg [= ->]]]; [by left|right; by exists msg].
  - intros [= <- <-]. split_and!; [|done|done]. eapply shared_ok_more, Hok1; [done|].
    intros tx [?|[msg [=]]]. by left.
Qed.

Lemma keeping_ret P (a : A) (Q : A → Shared → Prop) :
  (∀ s, shared_ok asked R s → P s → Q a s) → keeping R P (mret a : T A) Q.
Proof. intros HQ s r s' Hok HP [= <- <-]. split_and!; [auto|done|]. intros ? [= <-]. auto. Qed.
Lemma keeping_throw P e (Q : A → Shared → Prop) : keeping R P (throw e : T A) Q.
Proof. intros s r s' Hok _ [= <- <-]. split_and!; [auto|done|done]. Qed.
Lemma keeping_lift P (o : res A) : keeping R P (lift o : T A) (λ a s, o = Ok a ∧ P s).
Proof. intros s r s' Hok HP [= <- <-]. split_and!; [auto|done|done]. Qed.
Lemma keeping_this P (k : BuilderObject → T B) (S : B → Shared → Prop) :
  (∀ o, keeping R (λ s, P s ∧ sh_self s = o) (k o) S) → keeping R P (this ≫= k) S.
Proof. intros Hk s r s' Hok HP Hr. by eapply (Hk (sh_self s)); [| |exact Hr]. Qed.
Lemma keeping_weaken P P' (m : T A) (Q Q' : A → Shared → Prop) :
  keeping R P m Q → (∀ s, shared_ok asked R s → P' s → P s) → (∀ a s, Q a s → Q' a s) →
  keeping R P' m Q'.
Proof.
  intros Hm HP HQ s r s' Hok HP' Hr. destruct (Hm _ _ _ Hok (HP _ Hok HP') Hr) as (? & ? & Ha).
  split_and!; [done|done|]. intros a ->. by apply HQ, Ha.
Qed.

Lemma shared_ok_world s w :
  adds anything (sh_world s) w → shared_ok asked R s → shared_ok asked R (set_world w s) ∧ grows s (set_world w s).
Proof.
  intros Ha [Hb Hh Hq Hp]. assert (grows s (set_world w s)) as Hg by by split.
  split; [|done]. destruct Ha as (new & Hnew & _). split; [| |done|done].
  - by eapply builder_ok_world.
  - intros tx Htx. eapply endorsed_grows; [done|by apply Hh].
Qed.

(** What is known after a launch: the run that will be its result. *)
Lemma keeping_launch P (m : M A) :
  only anything m →
  keeping R P (launch m) (λ p s', ∃ s w, P s ∧ shared_ok asked R s ∧ m (sh_world s) = (p_result p, w)
    ∧ s' = set_world (mkWorld (w_clock (sh_world s)) (w_trace w)) s ∧ grows s s').
Proof.
  intros Hm s r s' Hok HP. unfold launch. destruct (m (sh_world s)) as [q w] eqn:E.
  intros [= <- <-]. destruct (Hm _ _ _ E) as (new & Hnew & Hall).
  destruct (shared_ok_world s (mkWorld (w_clock (sh_world s)) (w_trace w))) as [Hok' Hg];
    [by exists new|done|].
  split_and!; [auto|done|]. intros p [= <-]. by exists s, w.
Qed.

Lemma keeping_at_once P (m : M A) :
  only anything m → (∀ s w, P s → adds anything (sh_world s) w → P (set_world w s)) →
  keeping R P (at_once m) (λ a s, P s ∧ ∃ v v', m v = (Ok a, v')).
Proof.
  intros Hm HPw s r s' Hok HP. unfold at_once. destruct (m (sh_world s)) as [q w] eqn:E.
  intros [= <- <-]. destruct (Hm _ _ _ E) as (new & Hnew & Hall).
  assert (adds anything (sh_world s) w) as Ha by by exists new.
  destruct (shared_ok_world s w Ha Hok) as [Hok' Hg].
  split_and!; [auto|done|]. intros a ->. split; [by apply HPw|eauto].
Qed.
End rules.

(** *** The operations *)

Section operations.
Context (R : EndorsedTX → Prop).

Lemma only_broadcast_to_orderer envelope orderer tx_id :
  only anything (broadcast_to_orderer envelope orderer tx_id).
Proof. intros w r w' E%broadcast_to_orderer_trace. eexists. split; [done|by repeat constructor]. Qed.

Lemma keeping_submit_to envelope tx_id orderer orderers :
  keeping R (λ s, is_Some (o_endorsed_tx (sh_self s)) ∧ submitted asked R s envelope)
    (submit_to envelope tx_id orderer orderers) (λ a s, activity_ok asked R s a).
Proof.
  apply (keeping_bind _ _ _ _ _ _ (keeping_launch _ _ _ (only_broadcast_to_orderer _ _ _))).
  intros p. apply keeping_ret. intros s' _ (s & w & [Htx Hsub] & _ & Hrun & -> & Hg).
  apply broadcast_to_orderer_trace in Hrun. split_and!; [done| |by eapply submitted_grows].
  exists orderer. cbn. rewrite Hrun. apply elem_of_app. right. left.
Qed.

Lemma await_transaction_VALID requestor channel peer tx_id timeout w t w' :
  await_transaction true requestor channel peer tx_id timeout w = (Ok t, w') →
  FilteredTX.tx_validation_code t = TxValidationCode_VALID.
Proof.
  unfold await_transaction. destruct requestor as [rq|]; [|by intros [[=] _]%wait_for_Ok].
  by intros (_ & ? & _)%check_transaction_Ok.
Qed.

Lemma keeping_wait_on re timeout peers error :
  keeping R (λ s, o_committed (sh_self s) = true) (wait_on re timeout peers error)
    (λ a s, activity_ok asked R s a).
Proof.
  destruct peers as [|peer peers]; [apply keeping_throw|]. apply keeping_this. intros o.
  eapply keeping_bind; [apply keeping_lift|]. intros tx.
  apply (keeping_bind _ _ _ _ _ _ (keeping_launch _ _ _ (only_await_transaction _ _ _ _ _ _))).
  intros p. apply keeping_ret. intros s' _ (s & w & (Htx & Hc & <-) & Hok & Hrun & -> & _).
  split_and!; [done| |].
  - pose proof (nh_await_transaction re (gw_requestor (o_gateway (sh_self s)))
      (default (mkChannel []) (gw_channel (o_gateway (sh_self s)))) peer (EndorsedTX_tx_id tx)
      timeout (sh_world s)) as Hh. by rewrite Hrun in Hh.
  - intros t Ht. rewrite Ht in Hrun. split; [|intros ->; by eapply await_transaction_VALID].
    apply await_transaction_Ok in Hrun as ->. apply or_raise_Ok in Htx.
    by destruct (proposed_endorse _ _ (proj1 (ok_held _ _ _ Hok tx Htx))) as [-> _].
Qed.

Lemma keeping_start_operation op :
  asked op → keeping R (λ _, True) (start_operation op) (λ a s, activity_ok asked R s a).
Proof.
  intros Hop. apply keeping_this. intros o. destruct op as [re| |re timeout].
  - apply (keeping_bind _ _ _ _ _ _ (keeping_launch _ _ _ (only_propose_tx anything _ _ (λ _ _, I)))).
    intros p. apply keeping_ret. intros s' _ (s & w & (_ & <-) & Hok & Hrun & -> & _).
    split; [done|]. intros tx Htx. rewrite Htx in Hrun. exists (sh_world s), w.
    destruct (ok_builder _ _ _ Hok) as [Hg Ht _ _ _]. cbn in Hg, Ht. rewrite Hg, Ht in Hrun.
    split; [done|]. exists []. split; [|done]. unfold extends. by rewrite app_nil_r.
  - destruct (o_endorsed_tx o) as [tx|] eqn:Etx; [|apply keeping_throw].
    eapply keeping_bind; [apply keeping_lift|]. intros rq.
    eapply keeping_bind; [apply keeping_at_once; [by apply only_build_endorsed|by intros]|].
    intros envelope. destruct (gw_orderers (o_gateway o)) as [|orderer orderers]; [apply keeping_throw|].
    eapply keeping_weaken; [apply keeping_submit_to| |done].
    intros s Hok ((_ & _ & <-) & v & v' & Hb). split; [by rewrite Etx|].
    exists tx, rq, v, v'. split; [by apply (ok_held _ _ _ Hok)|done].
  - destruct (o_committed o) eqn:Hc; cbn [negb]; [|apply keeping_throw].
    eapply keeping_weaken; [apply keeping_wait_on| |done]. by intros s _ [_ ->].
Qed.

Lemma keeping_assign (P : Shared → Prop) f (Q : Shared → Prop) :
  (∀ s, shared_ok asked R s → P s →
     shared_ok asked R (set_self f s) ∧ grows s (set_self f s) ∧ Q (set_self f s)) →
  keeping R P (assign f) (λ _, Q).
Proof. intros Hf s r s' Hok HP [= <- <-]. destruct (Hf s Hok HP) as (? & ? & ?). naive_solver. Qed.

Lemma keeping_catch {A} P (m : T A) h Q :
  keeping R P m Q → (∀ s e s', P s → m s = (Raise e, s') → s' = s) →
  (∀ e k, h e = Some k → keeping R P k Q) → keeping R P (catch m h) Q.
Proof.
  intros Hm Hpure Hh s r s' Hok HP. unfold catch. destruct (m s) as [q s1] eqn:E.
  destruct q as [a|e|]; [intros [= <- <-]; by eapply Hm| |intros [= <- <-]; by eapply Hm].
  pose proof (Hpure _ _ _ HP E) as ->. destruct (h e) as [k|] eqn:Ek; [by apply (Hh _ _ Ek)|].
  intros [= <- <-]. by eapply Hm.
Qed.

Lemma keeping_fmap_Some P (m : T Activity) :
  keeping R P m (λ a s, activity_ok asked R s a) →
  keeping R P (Some <$> m) (λ r s, ∀ a, r = Some a → activity_ok asked R s a).
Proof.
  intros Hm. unfold fmap, SE_fmap. intros s r s' Hok HP. destruct (m s) as [q s1] eqn:E.
  destruct (Hm _ _ _ Hok HP E) as (Hs & ? & HQ).
  destruct q as [a|e|]; intros [= <- <-].
  - split_and!; [eapply quiet, ok_quiet, Hs|done|]. intros ? [= <-] ? [= <-]. by apply HQ.
  - split_and!; [|done|done]. eapply shared_ok_more, Hs; [done|].
    intros tx [?|[msg [= ->]]]; [by left|right; by exists msg].
  - split_and!; [|done|done]. eapply shared_ok_more, Hs; [done|]. intros tx [?|[msg [=]]]. by left.
Qed.

(** A proposal that is answered is kept, and raised if it is refused. *)
Lemma resume_proposing_run re p s :
  resume_operation (Proposing re p) s =
  match p_result p with
  | Ok tx =>
    (if re && negb (fully_endorsed tx)
     then Raise (new_TransactionProposalError (u "A peer failed to endorse the transaction") tx)
     else Ok None, set_self (with_endorsed_tx tx) s)
  | Raise e => (Raise e, s)
  | Hang => (Hang, s)
  end.
Proof.
  unfold resume_operation, mbind, SE_bind, lift, assign, modify, at_once, raise_tx_proposal_error, raise_if.
  destruct (p_result p) as [tx|e|]; [|done|done]. destruct s. by destruct re, (fully_endorsed tx).
Qed.

Lemma keeping_proposing re p :
  keeping R (λ s, activity_ok asked R s (Proposing re p)) (resume_operation (Proposing re p))
    (λ r s, ∀ a, r = Some a → activity_ok asked R s a).
Proof.
  intros s r s' Hok [Hre Hp]. rewrite resume_proposing_run.
  destruct (p_result p) as [tx|e|] eqn:E; [|intros [= <- <-]; split_and!; [auto|done|done]..].
  intros [= Hr <-]. set (s1 := set_self (with_endorsed_tx tx) s).
  assert (proposed s tx) as Htx by by apply Hp. assert (grows s s1) as Hg by by split.
  split_and!; [|done|intros ? -> ? ->; by destruct (re && _)].
  destruct (quiet _ r _ Hok) as [Hb Hh Hq Hl].
  split; [| |done|done].
  - destruct Hb as [? ? _ Hc ?]. split; [done|done| | |done]; cbn.
    + intros ? [= <-]. by eapply proposed_endorse.
    + intros Hcm. destruct (Hc Hcm) as [_ ?]. by split.
  - intros ? [= <-]. split; [by eapply proposed_grows|]. unfold vouched.
    destruct (fully_endorsed tx); [by left|]. destruct re; [|by right; left].
    right. right. right. eexists. by rewrite <-Hr.
Qed.

Lemma keeping_resume_operation a :
  keeping R (λ s, activity_ok asked R s a) (resume_operation a)
    (λ r s, ∀ a', r = Some a' → activity_ok asked R s a').
Proof.
  destruct a as [re p|envelope tx_id orderers p|re timeout peers p]; [apply keeping_proposing|..];
    cbn [resume_operation]; apply keeping_catch.
  - eapply keeping_bind; [apply keeping_lift|]. intros x. eapply (keeping_bind _ _ (λ _ _, True)).
    { apply keeping_assign. intros s [Hb Hh Hq Hl] (_ & Hs & Hbr & Hsub).
      pose proof (submitted_broadcast _ _ _ _ Hbr Hsub) as Hbc.
      split_and!; [|by split|done]. split; [|by intros ? ?%Hh|done|done].
      destruct Hb as [? ? ? _ Hf]. split; [done|done|done|done|]. intros t Hft. split; [done|by apply Hf]. }
    intros _. by apply keeping_ret.
  - intros s e s' _. unfold mbind, SE_bind, lift. destruct (p_result p); by intros [= _ <-].
  - intros e k. destruct orderers as [|orderer orderers]; [done|].
    destruct (isinstance _ _); [|done]. intros [= <-]. apply keeping_fmap_Some.
    eapply keeping_weaken; [apply keeping_submit_to| |done]. by intros s _ (? & _ & ?).
  - eapply keeping_bind; [apply keeping_lift|]. intros t. eapply (keeping_bind _ _ (λ _ _, True)).
    { apply keeping_assign. intros s [Hb Hh Hq Hl] (Hp & Hcm & _ & Hall).
      split_and!; [|by split|done]. split; [|by intros ? ?%Hh|done|done].
      destruct Hb as [? ? ? ? Hf]. split; [done|done|done|done|]. intros ? [= <-].
      split; [done|]. by apply Hall. }
    intros _. by apply keeping_ret.
  - intros s e s' _. unfold mbind, SE_bind, lift. destruct (p_result p); by intros [= _ <-].
  - intros e k. destruct (_ || _); [|done]. intros [= <-]. apply keeping_fmap_Some.
    eapply keeping_weaken; [apply keeping_wait_on| |done]. by intros s _ [? _].
Qed.

(** *** The coroutine *)

Lemma keeping_finish_operations :
  keeping R (λ _, True) finish_operations (λ t s, task_ok asked R s t).
Proof.
  intros s r s' Hok _.
  unfold finish_operations, clear_operations, this, lift, modify, mbind, SE_bind.
  destruct (o_operations (sh_self s)) as [l|] eqn:Hl; cbn.
  2: { intros [= <- <-]. split_and!; [auto|done|done]. }
  set (s1 := set_lists (<[l := []]> (sh_lists s)) s). assert (grows s s1) as Hg by by split.
  assert (shared_ok asked R s1) as Hok1.
  { destruct Hok as [[] Hh Hq Hp]. split; [by split| | |].
    - intros tx Htx. eapply endorsed_grows; [done|by apply Hh].
    - intros l' ops op [(<- & <- & _)|[_ Hl']]%list_lookup_insert_Some Hop; [by apply elem_of_nil in Hop|].
      by eapply Hq.
    - intros l' Hl'. cbn. rewrite length_insert. by apply Hp. }
  destruct (o_endorsed_tx (sh_self s)) as [tx|] eqn:Etx; intros [= <- <-];
    (split_and!; [auto|done|]); [|done].
  intros ? [= <-]. by apply (ok_held _ _ _ Hok1).
Qed.

Lemma keeping_next_operation l i :
  keeping R (λ _, True) (next_operation l i) (λ t s, task_ok asked R s t).
Proof.
  intros s r s' Hok _. unfold next_operation, list_at. unfold mbind at 1, SE_bind at 1.
  destruct (_ !! i) as [op|] eqn:Hop; [|by apply keeping_finish_operations].
  assert (asked op) as Hasked.
  { destruct (sh_lists s !! l) as [ops|] eqn:Hl; [|done]. cbn in Hop.
    eapply (ok_queued _ _ _ Hok l ops); [done|by eapply list_elem_of_lookup_2]. }
  revert s r s' Hok Hop. enough (keeping R (λ _, True) (a ← start_operation op; mret (TPending l (S i) a))
    (λ t s, task_ok asked R s t)) as Hk by (intros s r s' Hok _; by apply Hk).
  eapply keeping_bind; [by apply keeping_start_operation|]. intros a. by apply keeping_ret.
Qed.

Lemma keeping_begin_task : keeping R (λ _, True) begin_task (λ t s, task_ok asked R s t).
Proof.
  apply keeping_this. intros o. destruct (o_operations o) as [l|]; [|apply keeping_throw].
  intros s r s' Hok _. unfold list_at, mbind, SE_bind. destruct (is_nonempty _).
  - by apply keeping_next_operation.
  - intros [= <- <-]. split_and!; [auto|done|done].
Qed.

Lemma keeping_resume_task l i a :
  keeping R (λ s, activity_ok asked R s a) (resume_task l i a) (λ t s, task_ok asked R s t).
Proof.
  eapply keeping_bind; [apply keeping_resume_operation|]. intros [a'|].
  - apply keeping_ret. intros s _ Ha. by apply Ha.
  - eapply keeping_weaken; [apply keeping_next_operation|done|done].
Qed.

(** The queue of a builder that has none, or whose queue was cleared. *)
Lemma new_queue_ok op s :
  asked op → shared_ok asked R s →
  let s' := set_self (with_operations (length (sh_lists s))) (set_lists (sh_lists s ++ [[op]]) s) in
  shared_ok asked R s' ∧ grows s s'.
Proof.
  intros Hop [[] Hh Hq Hp] s'. split; [|by split]. split; [by split|by intros ? ?%Hh| |].
  - intros l ops x [[_ Hl]|[_ <-]]%lookup_snoc_Some; [by eapply Hq|].
    by intros ->%list_elem_of_singleton.
  - intros l [= <-]. cbn. rewrite length_app. cbn. lia.
Qed.

Lemma queue_operation_ok op s :
  asked op → shared_ok asked R s →
  shared_ok asked R (queue_operation op s) ∧ grows s (queue_operation op s).
Proof.
  intros Hop Hok. pose proof (new_queue_ok op s Hop Hok) as Hnew. unfold queue_operation.
  destruct (o_operations (sh_self s)) as [l|]; [|done].
  destruct (sh_lists s !! l) as [[|x ops]|] eqn:Hl; [done| |done].
  destruct Hok as [[] Hh Hq Hp]. split; [|by split]. split; [by split|by intros ? ?%Hh| |].
  - intros l' ops' y [(<- & <- & _)|[_ Hl']]%list_lookup_insert_Some; [|by eapply Hq].
    intros [Hy|Hy%list_elem_of_singleton]%elem_of_app; [by eapply Hq|by subst].
  - intros l' Hl'. cbn. rewrite length_insert. by apply Hp.
Qed.
End operations.
End keeping.

(** *** The loop *)

(** A task of the program ended with the refusal of the transaction. *)
Definition refused_in (ts : list TaskState) (tx : EndorsedTX) : Prop :=
  ∃ i msg, ts !! i = Some (TDone (Raise (TransactionProposalError msg tx))).

(** What holds after the events [es]. *)
Record loop_ok (es : list Event) (c : EventLoop) : Prop := {
  ok_shared : shared_ok (λ op, ECall op ∈ es) (refused_in (loop_tasks c)) (loop_shared c);
  ok_tasks i t : loop_tasks c !! i = Some t →
    task_ok (λ op, ECall op ∈ es) (refused_in (loop_tasks c)) (loop_shared c) t;
}.

(** Finished tasks stay. *)
Lemma refused_in_insert ts i t tx :
  (∀ r, ts !! i ≠ Some (TDone r)) → refused_in ts tx → refused_in (<[i := t]> ts) tx.
Proof.
  intros Hi (j & msg & Hj). exists j, msg. rewrite list_lookup_insert_ne; [done|].
  intros <-. by apply Hi in Hj.
Qed.

(** New events and a new state: the store grows, and each task is either one
    of before or good. *)
Lemma loop_ok_step es e s ts s' ts' :
  loop_ok es (mkLoop s ts) → grows s s' →
  (∀ tx, refused_in ts tx → refused_in ts' tx) →
  shared_ok (λ op, ECall op ∈ es ++ [e]) (refused_in ts') s' →
  (∀ i t, ts' !! i = Some t → ts !! i = Some t
     ∨ task_ok (λ op, ECall op ∈ es ++ [e]) (refused_in ts') s' t) →
  loop_ok (es ++ [e]) (mkLoop s' ts').
Proof.
  intros [_ Ht] Hg HR Hs Hts. split; [done|]. cbn. intros i t [Hi|?]%Hts; [|done].
  eapply task_ok_grows; [done|]. eapply task_ok_more; [|exact HR|by eapply Ht].
  intros op Hop. apply elem_of_app. by left.
Qed.

Lemma shared_ok_snoc es e R R' s :
  (∀ tx, R tx → R' tx) → shared_ok (λ op, ECall op ∈ es) R s → shared_ok (λ op, ECall op ∈ es ++ [e]) R' s.
Proof. intros HR. apply shared_ok_more; [|done]. intros op Hop. apply elem_of_app. by left. Qed.

Lemma loop_ok_run i P m es e c :
  (∀ A R, keeping A R (P A R) m (λ t s, task_ok A R s t)) →
  P (λ op, ECall op ∈ es) (refused_in (loop_tasks c)) (loop_shared c) →
  i < length (loop_tasks c) → (∀ r, loop_tasks c !! i ≠ Some (TDone r)) →
  loop_ok es c → loop_ok (es ++ [e]) (run_task i m c).
Proof.
  intros Hm HP Hi Hold Hok. unfold run_task. destruct c as [s ts]. cbn [loop_shared loop_tasks] in *.
  destruct (m s) as [r s'] eqn:E.
  destruct (Hm _ _ _ _ _ (ok_shared _ _ Hok) HP E) as (Hs & Hg & HQ).
  assert (∀ tx, refused_in ts tx ∨ refusal r tx → refused_in (<[i := task_of r]> ts) tx) as HR.
  { intros tx [?|[msg ->]]; [by apply refused_in_insert|]. exists i, msg. by apply list_lookup_insert_eq. }
  eapply loop_ok_step; [done|done|auto|eapply shared_ok_snoc, Hs; exact HR|].
  intros j t [(<- & <- & _)|[_ Hj]]%list_lookup_insert_Some; [right|by left].
  destruct r as [t|err|]; [|done|done]. eapply task_ok_more; [| |by apply HQ].
  - intros op Hop. apply elem_of_app. by left.
  - auto.
Qed.

Lemma handle_ok es e c c' : loop_ok es c → handle e c = Some c' → loop_ok (es ++ [e]) c'.
Proof.
  intros Hok. pose proof (ok_shared _ _ Hok) as Hs. destruct e as [op| |i|i|i|d new]; cbn.
  - intros [= <-]. destruct c as [s ts]. eapply shared_ok_snoc in Hs; [|done].
    eapply queue_operation_ok in Hs as [Hs Hg]; [|apply elem_of_app; right; left].
    eapply loop_ok_step; [done|exact Hg|done|done|by left].
  - intros [= <-]. destruct c as [s ts]. assert (∀ tx, refused_in ts tx → refused_in (ts ++ [TNew]) tx) as HR.
    { intros tx (i & msg & Hi). exists i, msg. by apply lookup_app_l_Some. }
    eapply loop_ok_step; [done|done|done|by eapply shared_ok_snoc|].
    intros i t [[_ Hi]|[_ <-]]%lookup_snoc_Some; [by left|by right].
  - destruct (loop_tasks c !! i) as [[]|] eqn:Ei; try done. intros [= <-].
    eapply (loop_ok_run i (λ _ _ _, True)); [apply keeping_begin_task|done| |by rewrite Ei|done].
    by eapply lookup_lt_Some.
  - destruct (loop_tasks c !! i) as [[|l k a| |]|] eqn:Ei; try done. destruct (ready _ _); [|done].
    intros [= <-].
    eapply (loop_ok_run i (λ A R s, activity_ok A R s a)); [intros; apply keeping_resume_task| | |by rewrite Ei|done].
    + by apply (ok_tasks _ _ Hok _ _ Ei).
    + by eapply lookup_lt_Some.
  - intros Hc. assert (c' = mkLoop (loop_shared c) (<[i := TCancelled]> (loop_tasks c))
      ∧ ∀ r, loop_tasks c !! i ≠ Some (TDone r)) as [-> Hi]
      by (destruct (loop_tasks _ !! i) as [[]|]; by simplify_eq).
    destruct c as [s ts]. eapply loop_ok_step; [done|done|by intros; apply refused_in_insert| |].
    + eapply shared_ok_snoc, Hs. by intros; apply refused_in_insert.
    + intros j t [(<- & <- & _)|[_ Hj]]%list_lookup_insert_Some; [by right|by left].
  - intros [= <-]. destruct c as [s ts].
    assert (adds anything (sh_world s) (pass d new (sh_world s))) as Ha
      by (exists new; by split; [|apply Forall_forall]).
    eapply shared_ok_snoc in Hs; [|done]. eapply shared_ok_world in Hs as [Hs Hg]; [|exact Ha].
    eapply loop_ok_step; [done|exact Hg|done|exact Hs|by left].
Qed.

Lemma handle_all_ok es0 es c c' :
  loop_ok es0 c → handle_all es c = Some c' → loop_ok (es0 ++ es) c'.
Proof.
  revert es0 c. induction es as [|e es IH]; intros es0 c Hok; cbn.
  - intros [= <-]. by rewrite app_nil_r.
  - intros (c1 & He & Hes)%bind_Some. rewrite cons_middle, app_assoc.
    eapply IH, Hes. by eapply handle_ok.
Qed.

Lemma new_loop_ok w : loop_ok [] (new_loop g gtx w).
Proof. split; [|done]. split; [apply (builder_ok_new g gtx w)|done..]. Qed.

(** The place of the queue is one of the store. *)
Lemma reachable_place w c l :
  reachable g gtx w c → o_operations (sh_self (loop_shared c)) = Some l →
  l < length (sh_lists (loop_shared c)).
Proof.
  intros (es & Hes)%reachable_events. apply (handle_all_ok [] _ _ _ (new_loop_ok w)) in Hes.
  apply (ok_place _ _ _ (ok_shared _ _ Hes)).
Qed.

(** C4: however tasks that await one builder are interleaved, with each other,
    with calls of its methods, with cancellations and with the rest of the
    program, after any sequence of events:
    - the builder keeps its gateway and generated transaction, and what it
      holds as endorsed, committed and delivered agrees with what was sent;
    - the transaction it holds, every transaction a task has returned and every
      transaction an orderer is being sent is one that proposing gave, by
      actions of this run, with the answer of every endorsing peer; the peers
      all answered with status 200, unless [propose(raise_errors=False)] was among the calls or
      some task has ended with the [TransactionProposalError] of that very
      transaction;
    - a task that is submitting waits for an envelope that was sent;
    - a task that waits for a peer's events waits after a commit, its wait
      ends, and with nothing but the builder's transaction, found VALID if it
      waits with [raise_errors]. *)
Theorem tasks_invariant w es c : handle_all es (new_loop g gtx w) = Some c → loop_ok es c.
Proof. apply (handle_all_ok []), new_loop_ok. Qed.
End invariant.
