(* ===== verification/Tasks.v ===== *)
(** * Tasks: how the tasks of Concurrent.v run

    A task that runs alone does what [run_operations] of Gateway.v does in one
    piece; a task that returns empties the queue under the others; two tasks
    that run at once both submit; and where the network answers, no task is
    ever stuck.  [left_by] is the state of the program
    after a run of one task; the lemmas [alone_*] follow that task from wait to
    wait. *)
From S2P Require Import Prelude PyText Sha256 Sha3 Pem Wire Protobuf Descriptors CommonProtos PeerProtos Constants TxData Errors Crypto Grpc Models Transactions Decoded Block Runtime Factories Policies Connect Events Transact Package Operations Safety Gateway Progress Concurrent.

(** ** A task on its own *)

Section time.
Context `{Cryptography, Protobuf, Network}.

Lemma forward_propose_tx peers gtx : forward (propose_tx peers gtx).
Proof. apply steps_propose_tx; [apply _|apply later_advance|]. intros. apply later_log. Qed.

Lemma forward_broadcast_to_orderer envelope orderer tx_id :
  forward (broadcast_to_orderer envelope orderer tx_id).
Proof. apply steps_broadcast_to_orderer; [apply _|apply later_advance|]. intros. apply later_log. Qed.

Lemma forward_get_transaction requestor channel peer tx_id :
  forward (get_transaction (PeerFilteredEvents requestor channel peer) tx_id None BlockUntilReady).
Proof.
  unfold get_transaction. apply (steps_bind later); [|intros; solve_forward].
  apply (steps_stream_blocks later); [apply later_advance| |intros; apply forward_call|solve_forward].
  unfold get_connection_envelope, build_envelope, wrap_transaction, sign, tx_context_from_user,
    build_header. solve_forward.
Qed.

Lemma forward_await_transaction re requestor channel peer tx_id timeout :
  forward (await_transaction re requestor channel peer tx_id timeout).
Proof.
  unfold await_transaction. destruct requestor as [rq|]; [|apply forward_wait_for, (steps_throw later)].
  destruct re; [unfold check_transaction; apply (steps_bind later); [|intros; solve_forward]|];
    apply forward_wait_for, forward_get_transaction.
Qed.
End time.

Section alone.
Context `{Cryptography, Protobuf, Network}.
(** The task is number [i]; the others do not run. *)
Context (i : nat) (ts : list TaskState).

Abbreviation T := (SE exn Shared).

(** Where a run of the task from [s] leaves the program. *)
Definition left_by (m : T TaskState) (s : Shared) : EventLoop :=
  mkLoop (m s).2 (<[i := task_of (m s).1]> ts).

(** The store after the builder and the world have gone on. *)
Definition put_view (b : GatewayTXBuilder) (w : World) (s : Shared) : Shared :=
  mkShared (mkObject (b_transaction b) (b_gateway b) (b_endorsed_tx b) (b_filtered_tx b)
    (b_committed b) (o_operations (sh_self s))) (sh_lists s) w.

Lemma view_put b w s : b_operations b = b_operations (view s) → view (put_view b w s) = b.
Proof. intros Hb. destruct b. cbn in Hb. subst. done. Qed.
Lemma put_put b w b' w' s : put_view b' w' (put_view b w s) = put_view b' w' s.
Proof. done. Qed.
Lemma put_same w s : put_view (view s) w s = set_world w s.
Proof. by destruct s as [[] ? ?]. Qed.

(** What follows an operation. *)
Definition after (l k : nat) (r : res unit) : T TaskState :=
  match r with Ok _ => next_operation l k | Raise e => throw e | Hang => lift Hang end.

Lemma insert_same (t t' : TaskState) : <[i := t']> (<[i := t]> ts) = <[i := t']> ts.
Proof. apply list_insert_insert_eq. Qed.

(** A task that has launched a call is resumed when the call is done. *)
Lemma resumes {A} (c : M A) (act : Pending A → Activity) (m : T TaskState) l k s q w :
  i < length ts → forward c →
  (∀ p, activity_pending (act p) = (match p_result p with Hang => false | _ => true end, p_time p)) →
  c (sh_world s) = (q, w) → q ≠ Hang →
  m s = (Ok (TPending l k (act (mkPending q (w_clock w)))),
         set_world (mkWorld (w_clock (sh_world s)) (w_trace w)) s) →
  rtc loop_step (left_by m s)
    (left_by (resume_task l k (act (mkPending q (w_clock w)))) (set_world w s)).
Proof.
  intros Hi Hc Hact Hrun Hq Hm. pose proof (Hc _ _ _ Hrun) as Hlater. unfold later in Hlater.
  unfold left_by at 1. rewrite Hm. cbn [fst snd task_of].
  eapply rtc_l with (mkLoop (set_world w s) (<[i := TPending l k (act (mkPending q (w_clock w)))]> ts)).
  { exists (EOther (w_clock w - w_clock (sh_world s)) []). cbn. unfold pass, set_world. cbn.
    rewrite app_nil_r, N.add_comm, N.sub_add by done. by destruct w. }
  apply rtc_once. exists (EResume i). cbn. rewrite list_lookup_insert_eq by done.
  unfold ready. rewrite Hact. cbn.
  replace (match q with Hang => false | _ => true end) with true by (by destruct q).
  rewrite N.leb_refl. cbn. unfold run_task, left_by. cbn.
  destruct (resume_task _ _ _ _) as [r s']. cbn. by rewrite insert_same.
Qed.

(** An operation that goes on to its next round. *)
Lemma resume_more l k a (m : T Activity) s :
  resume_operation a s = (Some <$> m) s →
  resume_task l k a s = (a ← m; mret (TPending l k a)) s.
Proof.
  intros Ha. unfold resume_task. unfold mbind, SE_bind. rewrite Ha. unfold fmap, SE_fmap.
  by destruct (m s) as [[] ?].
Qed.

Lemma left_by_eq (m m' : T TaskState) s s' : m s = m' s' → left_by m s = left_by m' s'.
Proof. unfold left_by. by intros ->. Qed.


Context (Hi : i < length ts).

Lemma alone_propose re l k s r b w :
  operate_propose re (view s, sh_world s) = (r, (b, w)) → r ≠ Hang →
  rtc loop_step (left_by (a ← start_operation (OpPropose re); mret (TPending l k a)) s)
    (left_by (after l k r) (put_view b w s)).
Proof.
  rewrite operate_propose_run. intros Hr Hne.
  change (b_gateway (view s)) with (o_gateway (sh_self s)) in Hr.
  change (b_transaction (view s)) with (o_transaction (sh_self s)) in Hr.
  destruct (propose_tx _ _ (sh_world s)) as [q w1] eqn:E.
  assert (q ≠ Hang) as Hq by (destruct q; congruence).
  etrans.
  { eapply (resumes _ (Proposing re) _ l k s q w1); [done|apply forward_propose_tx|done|exact E|done|].
    unfold start_operation, launch, this, mbind, SE_bind. by rewrite E. }
  apply reflexive_eq, left_by_eq. unfold resume_task, resume_operation.
  destruct q as [tx|e|]; [| |done].
  - injection Hr as <- <- <-. destruct s as [o ls w0]. cbn.
    unfold mbind, SE_bind, lift, assign, modify, at_once, raise_tx_proposal_error, raise_if.
    by destruct re, (fully_endorsed tx).
  - injection Hr as <- <- <-. by rewrite put_same.
Qed.

Lemma alone_orderers envelope tx_id l k o orderers error s q w :
  try_orderers envelope (o :: orderers) tx_id error (sh_world s) = (q, w) → q ≠ Hang →
  rtc loop_step
    (left_by (a ← submit_to envelope tx_id o orderers; mret (TPending l k a)) s)
    (left_by (after l k ((λ _, tt) <$> q))
       (match q with Ok _ => set_self with_committed | _ => id end (set_world w s))).
Proof.
  revert o error s. induction orderers as [|o' orderers IH]; intros o error s; cbn [try_orderers];
    unfold catch; destruct (broadcast_to_orderer envelope o tx_id (sh_world s)) as [q1 w1] eqn:E;
    intros Hr Hne; (etrans;
    [eapply (resumes _ (Submitting envelope tx_id _) _ l k s q1 w1);
       [done|apply forward_broadcast_to_orderer|done|exact E|intros ->; by simplify_eq|];
     unfold submit_to, launch, mbind, SE_bind; by rewrite E|]).
  - apply reflexive_eq, left_by_eq. destruct q1 as [x|e|]; [by simplify_eq| |by simplify_eq].
    destruct (isinstance e CBlockchainConnectionError); by injection Hr as <- <-.
  - destruct q1 as [x|e|]; [by simplify_eq| |by simplify_eq].
    destruct (isinstance e CBlockchainConnectionError) eqn:Ec.
    + etrans; [|apply (IH o' (Some e) (set_world w1 s)); done].
      apply reflexive_eq, left_by_eq, resume_more. cbn. unfold catch, mbind, SE_bind, lift.
      by rewrite Ec.
    + simplify_eq. apply reflexive_eq, left_by_eq. unfold resume_task. cbn.
      unfold mbind, SE_bind, catch, lift. by rewrite Ec.
Qed.

(** The first step of an operation, by what it comes to. *)
Lemma starts (m m' : T Activity) l k s s' :
  m s = m' s' →
  left_by (a ← m; mret (TPending l k a)) s = left_by (a ← m'; mret (TPending l k a)) s'.
Proof. intros Hm. apply left_by_eq. unfold mbind, SE_bind. by rewrite Hm. Qed.

Lemma start_submit_run s :
  start_operation OpSubmit s =
  match o_endorsed_tx (sh_self s) with
  | None => throw (ValueError (u "Must propose transaction before committing it")) s
  | Some tx =>
    match requestor_of (o_gateway (sh_self s)) with
    | Ok requestor =>
      match build_endorsed_tx_envelope tx requestor (sh_world s) with
      | (Ok envelope, w) =>
        match gw_orderers (o_gateway (sh_self s)) with
        | [] => throw (ValueError (u "Must provide at least one orderer")) (set_world w s)
        | o :: os => submit_to envelope (EndorsedTX_tx_id tx) o os (set_world w s)
        end
      | (Raise e, w) => throw e (set_world w s)
      | (Hang, w) => lift Hang (set_world w s)
      end
    | Raise e => throw e s
    | Hang => lift Hang s
    end
  end.
Proof.
  unfold start_operation, this, at_once, lift, mbind, SE_bind.
  destruct (o_endorsed_tx _) as [tx|]; [|done]. destruct (requestor_of _) as [rq|e|]; [|done|done].
  destruct (build_endorsed_tx_envelope tx rq (sh_world s)) as [[env|e|] w]; [|done|done].
  by destruct (gw_orderers _).
Qed.

Lemma alone_submit l k s r b w :
  operate_submit (view s, sh_world s) = (r, (b, w)) → r ≠ Hang →
  rtc loop_step (left_by (a ← start_operation OpSubmit; mret (TPending l k a)) s)
    (left_by (after l k r) (put_view b w s)).
Proof.
  intros Hr Hne. pose proof (start_submit_run s) as Hs.
  unfold operate_submit, self, world, commit_tx, mbind, SE_bind, lift in Hr. cbn [fst snd] in Hr.
  change (b_endorsed_tx (view s)) with (o_endorsed_tx (sh_self s)) in Hr.
  change (b_gateway (view s)) with (o_gateway (sh_self s)) in Hr. revert Hs Hr.
  destruct (o_endorsed_tx (sh_self s)) as [tx|].
  2: { intros Hs [= <- <- <-]. rewrite put_same, (starts _ _ _ _ _ _ Hs). by destruct s. }
  destruct (requestor_of (o_gateway (sh_self s))) as [rq|e|]; [| |intros _ ?; by simplify_eq/=].
  2: { intros Hs [= <- <- <-]. rewrite put_same, (starts _ _ _ _ _ _ Hs). by destruct s. }
  cbn [fst snd].
  destruct (build_endorsed_tx_envelope tx rq (sh_world s)) as [[env|e|] w1]; [| |by intros _ [= <- _ _]].
  2: { intros Hs [= <- <- <-]. by rewrite put_same, (starts _ _ _ _ _ _ Hs). }
  destruct (gw_orderers _) as [|o os]; intros Hs.
  { intros [= <- <- <-]. by rewrite put_same, (starts _ _ _ _ _ _ Hs). }
  cbn [broadcast_to_orderers].
  destruct (try_orderers env (o :: os) (EndorsedTX_tx_id tx) None w1) as [q w2] eqn:E.
  intros Hr. rewrite (starts _ _ _ _ _ _ Hs). etrans.
  { apply (alone_orderers _ _ _ _ _ _ None (set_world w1 s) q w2 E). intros ->. by simplify_eq/=. }
  destruct q as [x|e|]; [| |by simplify_eq/=]; injection Hr as <- <- <-; [done|by rewrite put_same].
Qed.

Lemma wait_on_peer_run re timeout peer b w :
  wait_on_peer re timeout peer (b, w) =
  match b_endorsed_tx b with
  | None => throw (AttributeError (u "'NoneType' object has no attribute '" ++ u "tx_id" ++ u "'")) (b, w)
  | Some tx =>
    match await_transaction re (gw_requestor (b_gateway b))
            (default (mkChannel []) (gw_channel (b_gateway b))) peer (EndorsedTX_tx_id tx) timeout w with
    | (Ok t, w') => (Ok tt, (set_filtered_tx t b, w'))
    | (Raise e, w') => (Raise e, (b, w'))
    | (Hang, w') => (Hang, (b, w'))
    end
  end.
Proof.
  unfold wait_on_peer, self, world, lift, mbind, SE_bind. cbn [fst snd].
  destruct (b_endorsed_tx b) as [tx|]; [|done]. cbn [attribute_of or_raise].
  by destruct (await_transaction _ _ _ _ _ _ w) as [[] ?].
Qed.

Lemma alone_peers re timeout l k peers error s r b w :
  wait_on_peers re timeout peers error (view s, sh_world s) = (r, (b, w)) → r ≠ Hang →
  rtc loop_step (left_by (a ← wait_on re timeout peers error; mret (TPending l k a)) s)
    (left_by (after l k r) (put_view b w s)).
Proof.
  revert error s. induction peers as [|peer peers IH]; intros error s; cbn [wait_on_peers].
  { intros [= <- <- <-] _. rewrite put_same. by destruct s. }
  unfold catch. rewrite wait_on_peer_run.
  change (b_endorsed_tx (view s)) with (o_endorsed_tx (sh_self s)).
  change (b_gateway (view s)) with (o_gateway (sh_self s)).
  destruct (o_endorsed_tx (sh_self s)) as [tx|] eqn:Etx; cbn [throw].
  2: { intros [= <- <- <-] _. rewrite put_same. apply reflexive_eq. destruct s. apply left_by_eq.
       unfold wait_on, this, lift, mbind, SE_bind. by rewrite Etx. }
  destruct (await_transaction _ _ _ peer _ timeout (sh_world s)) as [q w1] eqn:E. intros Hr Hne. etrans.
  { eapply (resumes _ (Waiting re timeout peers) _ l k s q w1);
      [done|apply forward_await_transaction|done|exact E| |].
    - intros ->. by simplify_eq/=.
    - unfold wait_on, launch, this, lift, mbind, SE_bind. rewrite Etx. cbn [attribute_of or_raise].
      by rewrite E. }
  destruct q as [t|e|]; [| |by simplify_eq/=].
  - by injection Hr as <- <- <-.
  - destruct (isinstance e CConnectionError || isinstance e CBlockRetrievalError) eqn:Ee.
    + etrans; [|apply (IH e (set_world w1 s)); [exact Hr|done]].
      apply reflexive_eq, left_by_eq, resume_more. cbn [resume_operation p_result].
      unfold catch, mbind, SE_bind, lift. by rewrite Ee.
    + injection Hr as <- <- <-. rewrite put_same. apply reflexive_eq, left_by_eq. unfold resume_task.
      cbn [resume_operation p_result]. unfold mbind, SE_bind, catch, lift. by rewrite Ee.
Qed.

Lemma alone_operate op l k s r b w :
  operate op (view s, sh_world s) = (r, (b, w)) → r ≠ Hang →
  rtc loop_step (left_by (a ← start_operation op; mret (TPending l k a)) s)
    (left_by (after l k r) (put_view b w s)).
Proof.
  destruct op as [re| |re timeout]; cbn [operate]; [apply alone_propose|apply alone_submit|].
  intros Hr Hne. unfold operate_wait_for_commit, self, mbind, SE_bind in Hr. cbn [fst] in Hr.
  change (b_committed (view s)) with (o_committed (sh_self s)) in Hr.
  change (b_gateway (view s)) with (o_gateway (sh_self s)) in Hr.
  assert (start_operation (OpWaitForCommit re timeout) s = (if negb (o_committed (sh_self s))
    then throw (ValueError (u "Must commit transaction before waiting"))
    else wait_on re timeout (gw_endorsing_peers (o_gateway (sh_self s)))
           (BlockchainError (u "Failed waiting for committed transaction"))) s) as Hs by done.
  rewrite (starts _ _ _ _ _ _ Hs). destruct (negb _).
  - injection Hr as <- <- <-. rewrite put_same. by destruct s.
  - by apply (alone_peers _ _ l k) in Hr.
Qed.

(** No operation touches the queue. *)
Lemma operate_operations op b w r b' w' :
  operate op (b, w) = (r, (b', w')) → b_operations b' = b_operations b.
Proof.
  destruct op as [re| |re timeout]; cbn [operate].
  - rewrite operate_propose_run. destruct (propose_tx _ _ w) as [[] ?]; by intros [= _ <- _].
  - unfold operate_submit, self, world, lift, mbind, SE_bind. cbn [fst snd].
    destruct (b_endorsed_tx b) as [tx|]; [|by intros [= _ <- _]].
    destruct (requestor_of _) as [rq|e|]; [|by intros [= _ <- _]..]. cbn [fst snd].
    destruct (commit_tx rq _ tx w) as [[] ?]; by intros [= _ <- _].
  - unfold operate_wait_for_commit, self, mbind, SE_bind. cbn [fst].
    destruct (negb _); [by intros [= _ <- _]|]. generalize (BlockchainError (u "Failed waiting for committed transaction")).
    generalize (gw_endorsing_peers (b_gateway b)) as peers. intros peers error.
    revert b w error. induction peers as [|peer peers IH]; intros b w error; [by intros [= _ <- _]|].
    cbn [wait_on_peers]. unfold catch. rewrite wait_on_peer_run.
    destruct (b_endorsed_tx b) as [tx|]; [|by intros [= _ <- _]].
    destruct (await_transaction _ _ _ _ _ _ w) as [[t|e|] w1]; [by intros [= _ <- _]| |by intros [= _ <- _]].
    destruct (_ || _); [apply IH|by intros [= _ <- _]].
Qed.

Lemma next_operation_run l k all s :
  sh_lists s !! l = Some all →
  next_operation l k s = match all !! k with
    | Some op => (a ← start_operation op; mret (TPending l (S k) a)) s
    | None => finish_operations s
    end.
Proof.
  intros Hl. unfold next_operation, list_at. unfold mbind at 1, SE_bind at 1. rewrite Hl.
  cbn [default from_option id]. by destruct (all !! k).
Qed.

Lemma alone_run_all l all k ops s r b w :
  sh_lists s !! l = Some all → o_operations (sh_self s) = Some l → drop k all = ops →
  run_all ops (view s, sh_world s) = (r, (b, w)) → r ≠ Hang →
  rtc loop_step (left_by (next_operation l k) s) (left_by (after l (length all) r) (put_view b w s))
  ∧ b_operations b = Some all.
Proof.
  intros Hl Hself. revert k s b w Hl Hself. induction ops as [|op ops IH]; intros k s b w Hl Hself Hk; cbn [run_all].
  - intros [= <- <- <-] _. rewrite put_same. split; [|cbn; by rewrite Hself].
    apply reflexive_eq. destruct s as [o ls w0]. apply left_by_eq. cbn [after].
    assert (all !! k = None) as Hnone by by rewrite <-(Nat.add_0_r k), <-lookup_drop, Hk.
    by rewrite !(next_operation_run _ _ _ _ Hl), Hnone, lookup_ge_None_2.
  - assert (all !! k = Some op) as Hop by by rewrite <-(Nat.add_0_r k), <-lookup_drop, Hk.
    assert (drop (S k) all = ops) as Hk' by (by rewrite <-Nat.add_1_r, <-drop_drop, Hk).
    intros Hr Hne. unfold mbind, SE_bind in Hr.
    destruct (operate op (view s, sh_world s)) as [q [b1 w1]] eqn:E.
    pose proof (operate_operations _ _ _ _ _ _ E) as Hb1.
    apply (alone_operate op l (S k)) in E; [|by destruct q; simplify_eq].
    assert (left_by (next_operation l k) s
      = left_by (a ← start_operation op; mret (TPending l (S k) a)) s) as Hstart.
    { apply left_by_eq. by rewrite (next_operation_run _ _ _ _ Hl), Hop. }
    rewrite Hstart. destruct q as [x|e|]; [| |by simplify_eq].
    + destruct (IH (S k) (put_view b1 w1 s) b w) as [Hrest Hb]; [done|done|done| |done|].
      { rewrite view_put by done. exact Hr. }
      split; [|done]. etrans; [exact E|exact Hrest].
    + injection Hr as <- <- <-. split; [exact E|]. rewrite Hb1. cbn. by rewrite Hself.
Qed.
End alone.

Section refinement.
Context `{Cryptography, Protobuf, Network}.

Lemma begin_alone i ts s :
  ts !! i = Some TNew → loop_step (mkLoop s ts) (left_by i ts begin_task s).
Proof.
  intros Hi. exists (EBegin i). cbn. rewrite Hi. unfold run_task, left_by. cbn.
  by destruct (begin_task s).
Qed.

Lemma finish_operations_run s l ops :
  o_operations (sh_self s) = Some l → sh_lists s !! l = Some ops →
  finish_operations s =
  (match b_endorsed_tx (view s) with Some tx => Ok (TDone (Ok tx)) | None => Raise never_proposed end,
   set_lists (<[l := []]> (sh_lists s)) s)
  ∧ view (set_lists (<[l := []]> (sh_lists s)) s) = set_operations [] (view s).
Proof.
  intros Ho Hl. split.
  - unfold finish_operations, clear_operations, this, lift, modify, mbind, SE_bind. rewrite Ho. cbn.
    by destruct (o_endorsed_tx (sh_self s)).
  - unfold view, set_operations. cbn. rewrite Ho. cbn. rewrite list_lookup_insert_eq; [done|].
    by eapply lookup_lt_Some.
Qed.

Lemma view_operations s op ops :
  b_operations (view s) = Some (op :: ops) →
  ∃ l, o_operations (sh_self s) = Some l ∧ sh_lists s !! l = Some (op :: ops).
Proof. cbn. destruct (o_operations (sh_self s)) as [l|]; [|done]. intros Hl. by exists l. Qed.

(** [begin_task] by the queue the builder has. *)
Lemma begin_task_run s :
  begin_task s = match b_operations (view s) with
    | Some (_ :: _) => next_operation (default 0 (o_operations (sh_self s))) 0 s
    | _ => throw never_proposed s
    end.
Proof.
  unfold begin_task, list_at, this, mbind, SE_bind. cbn.
  destruct (o_operations (sh_self s)) as [l|]; [|done]. cbn. by destruct (sh_lists s !! l) as [[]|].
Qed.

(** Awaiting a builder in a task refines awaiting it in one piece: if
    nothing else runs, a task that is begun is resumed, as the clock reaches
    its answers, to an end with the result of [run_operations], and the
    builder and the world are then as [run_operations] leaves them. *)
Lemma lone_task_run i ts s r b w :
  ts !! i = Some TNew →
  run_operations (view s, sh_world s) = (r, (b, w)) → r ≠ Hang →
  ∃ s', rtc loop_step (mkLoop s ts) (mkLoop s' (<[i := TDone r]> ts))
    ∧ view s' = b ∧ sh_world s' = w.
Proof.
  intros Hi Hr Hne. pose proof (lookup_lt_Some _ _ _ Hi) as Hlen.
  pose proof (rtc_once _ _ (begin_alone i ts s Hi)) as Hbegin. revert Hbegin.
  unfold left_by. rewrite begin_task_run. unfold run_operations, self, mbind, SE_bind in Hr.
  cbn [fst] in Hr. destruct (b_operations (view s)) as [[|op ops]|] eqn:Hv.
  1,3: injection Hr as <- <- <-; intros Hbegin; by exists s.
  destruct (view_operations _ _ _ Hv) as (l & Ho & Hall). rewrite Ho. cbn [default from_option id].
  change (rtc loop_step (mkLoop s ts) (left_by i ts (next_operation l 0) s) →
    ∃ s', rtc loop_step (mkLoop s ts) (mkLoop s' (<[i := TDone r]> ts)) ∧ view s' = b ∧ sh_world s' = w).
  intros Hbegin. destruct (run_all (op :: ops) (view s, sh_world s)) as [q [b1 w1]] eqn:E.
  destruct (alone_run_all i ts Hlen l (op :: ops) 0 (op :: ops) s q b1 w1) as [Hrun Hb1];
    [done|done|done|done|by destruct q; simplify_eq|].
  assert (view (put_view b1 w1 s) = b1) as Hput by (apply view_put; congruence).
  destruct q as [x|e|]; [| |by simplify_eq].
  - destruct (finish_operations_run (put_view b1 w1 s) l (op :: ops)) as [Hfin Hview]; [done|done|].
    rewrite Hput in Hfin, Hview. exists (set_lists (<[l := []]> (sh_lists s)) (put_view b1 w1 s)).
    assert (left_by i ts (after l (length (op :: ops)) (Ok x)) (put_view b1 w1 s)
      = mkLoop (set_lists (<[l := []]> (sh_lists s)) (put_view b1 w1 s)) (<[i := TDone r]> ts)) as <-.
    { unfold left_by, after. rewrite (next_operation_run l (length (op :: ops)) (op :: ops)) by done.
      rewrite lookup_ge_None_2, Hfin by done. cbn in Hr.
      by destruct (b_endorsed_tx b1); injection Hr as <- <- <-. }
    split; [by etrans|]. cbn in Hr. by destruct (b_endorsed_tx b1); injection Hr as <- <- <-.
  - injection Hr as <- <- <-. exists (put_view b1 w1 s). split; [by etrans|done].
Qed.

(** [_add_operation] on the object is [add_operation] on what it shows. *)
Lemma view_queue_operation op s : view (queue_operation op s) = add_operation op (view s).
Proof.
  unfold queue_operation, add_operation, view. cbn.
  assert (∀ o ls, mkBuilder (o_transaction o) (o_gateway o) (o_endorsed_tx o) (o_filtered_tx o)
      (o_committed o) ((ls ++ [[op]]) !! length ls)
    = mkBuilder (o_transaction o) (o_gateway o) (o_endorsed_tx o) (o_filtered_tx o)
      (o_committed o) (Some [op])) as Hnew by (intros; by rewrite list_lookup_middle).
  destruct (o_operations (sh_self s)) as [l|] eqn:Ho; cbn; [|apply Hnew].
  destruct (sh_lists s !! l) as [[|x ops]|] eqn:Hl; cbn; [apply Hnew| |apply Hnew].
  rewrite Ho. cbn. by rewrite list_lookup_insert_eq by by eapply lookup_lt_Some.
Qed.

(** A program that uses a builder in one task: it calls the methods and
    awaits, in any order, and keeps what the awaits give; an await that is
    begun ends before the program goes on. *)
Abbreviation Life := ((GatewayTXBuilder * World) * list (res EndorsedTX))%type.

Inductive life_step : Life → Life → Prop :=
  | life_call op b w rs : life_step (b, w, rs) (add_operation op b, w, rs)
  | life_await s r s' rs : run_operations s = (r, s') → r ≠ Hang → life_step (s, rs) (s', rs ++ [r])
  | life_other b w d new rs : life_step (b, w, rs) (b, pass d new w, rs).

(** The state of the event loop that stands for a point of that life: the
    same builder, the same world, and a finished task for every await. *)
Definition stands_for (c : EventLoop) (x : Life) : Prop :=
  view (loop_shared c) = x.1.1 ∧ sh_world (loop_shared c) = x.1.2
  ∧ loop_tasks c = TDone <$> x.2.

Lemma life_step_simulated x y c :
  life_step x y → stands_for c x → ∃ c', rtc loop_step c c' ∧ stands_for c' y.
Proof.
  destruct c as [s ts]. intros Hstep (Hv & Hw & Ht). cbn [loop_shared loop_tasks] in *.
  destruct Hstep as [op b w rs|[b w] r [b' w'] rs Hrun Hne|b w d new rs]; cbn [fst snd] in *.
  - exists (mkLoop (queue_operation op s) ts). split; [apply rtc_once; by exists (ECall op)|].
    split; [cbn; by rewrite view_queue_operation, Hv|]. split; [|done].
    rewrite <-Hw. unfold queue_operation. by repeat case_match.
  - subst b w. destruct (lone_task_run (length ts) (ts ++ [TNew]) s r b' w') as (s' & Hs & Hv' & Hw');
      [by apply list_lookup_middle|done|done|].
    exists (mkLoop s' (ts ++ [TDone r])). split.
    + eapply rtc_l; [by exists EAwait|]. by rewrite insert_app_r_alt, Nat.sub_diag in Hs by lia.
    + split; [done|]. split; [done|]. cbn. by rewrite Ht, fmap_app.
  - exists (mkLoop (set_world (pass d new (sh_world s)) s) ts).
    split; [apply rtc_once; by exists (EOther d new)|]. by rewrite Hw.
Qed.

(** Gateway.v's builder, which awaits in one piece, is what the event loop
    does when a single task uses the builder: every life of the builder there,
    whatever methods it calls and however often it is awaited, is a run of the
    event loop that reaches the same builder and world, in which every await
    is a task that has ended with the same transaction or exception. *)
Theorem lives_refine g gtx w x :
  rtc life_step (new_GatewayTXBuilder g gtx, w, []) x →
  ∃ c, reachable g gtx w c ∧ stands_for c x.
Proof.
  intros Hx. apply (rtc_ind_r (λ x, ∃ c, reachable g gtx w c ∧ stands_for c x)
    (new_GatewayTXBuilder g gtx, w, [])) in Hx;
    [done|exists (new_loop g gtx w); by split; [constructor|]|].
  intros y z _ Hstep (c & Hc & Hy).
  destruct (life_step_simulated y z c Hstep Hy) as (c' & Hcc' & Hz).
  exists c'. split; [|done]. unfold reachable. by etrans.
Qed.
End refinement.

(** ** The queue of a builder *)

Section queue.
Context `{Cryptography, Protobuf, Network}.

Abbreviation T := (SE exn Shared).

(** The operations leave the queues alone. *)
Definition same_queue (s s' : Shared) : Prop :=
  o_operations (sh_self s') = o_operations (sh_self s) ∧ sh_lists s' = sh_lists s.
(** The coroutine may empty them. *)
Definition only_clears (s s' : Shared) : Prop :=
  o_operations (sh_self s') = o_operations (sh_self s)
  ∧ ∀ l, sh_lists s !! l = Some [] → sh_lists s' !! l = Some [].

#[export] Instance same_queue_preorder : PreOrder same_queue.
Proof. split; [done|]. intros s1 s2 s3 [? ?] [? ?]. split; congruence. Qed.
#[export] Instance only_clears_preorder : PreOrder only_clears.
Proof. split; [done|]. intros s1 s2 s3 [? ?] [? ?]. split; [congruence|auto]. Qed.

Lemma same_queue_launch {A} (c : M A) : steps same_queue (launch c).
Proof. intros s r s'. unfold launch. destruct (c (sh_world s)) as [q w]. by intros [= _ <-]. Qed.
Lemma same_queue_at_once {A} (c : M A) : steps same_queue (at_once c).
Proof. intros s r s'. unfold at_once. destruct (c (sh_world s)) as [q w]. by intros [= _ <-]. Qed.
Lemma same_queue_this : steps same_queue this.
Proof. by intros s r s' [= _ <-]. Qed.
Lemma same_queue_assign f : (∀ o, o_operations (f o) = o_operations o) → steps same_queue (assign f).
Proof. intros Hf s r s' [= _ <-]. split; [apply Hf|done]. Qed.

#[local] Hint Resolve same_queue_launch same_queue_at_once same_queue_this : core.

Lemma same_queue_submit_to envelope tx_id o os : steps same_queue (submit_to envelope tx_id o os).
Proof. apply (steps_bind same_queue); [done|]. intros. apply steps_ret, _. Qed.

Lemma same_queue_wait_on re timeout peers error : steps same_queue (wait_on re timeout peers error).
Proof.
  destruct peers as [|peer peers]; [apply steps_throw, _|].
  apply (steps_bind same_queue); [done|]. intros o.
  apply (steps_bind same_queue); [apply steps_lift, _|]. intros tx.
  apply (steps_bind same_queue); [done|]. intros. apply steps_ret, _.
Qed.

Lemma same_queue_start op : steps same_queue (start_operation op).
Proof.
  apply (steps_bind same_queue); [done|]. intros o. destruct op as [re| |re timeout].
  - apply (steps_bind same_queue); [done|]. intros. apply steps_ret, _.
  - destruct (o_endorsed_tx o) as [tx|]; [|apply steps_throw, _].
    apply (steps_bind same_queue); [apply steps_lift, _|]. intros rq.
    apply (steps_bind same_queue); [done|]. intros env.
    destruct (gw_orderers _); [apply steps_throw, _|apply same_queue_submit_to].
  - destruct (negb _); [apply steps_throw, _|apply same_queue_wait_on].
Qed.

Lemma same_queue_resume a : steps same_queue (resume_operation a).
Proof.
  destruct a as [re p|envelope tx_id os p|re timeout peers p].
  - intros s r s'. rewrite resume_proposing_run. destruct (p_result p); by intros [= _ <-].
  - apply (steps_catch same_queue).
    + apply (steps_bind same_queue); [apply steps_lift, _|]. intros x.
      apply (steps_bind same_queue); [by apply same_queue_assign|]. intros. apply steps_ret, _.
    + intros e k. destruct os as [|o os]; [done|]. destruct (isinstance _ _); [|done].
      intros [= <-]. apply (steps_fmap same_queue), same_queue_submit_to.
  - apply (steps_catch same_queue).
    + apply (steps_bind same_queue); [apply steps_lift, _|]. intros x.
      apply (steps_bind same_queue); [by apply same_queue_assign|]. intros. apply steps_ret, _.
    + intros e k. destruct (_ || _); [|done]. intros [= <-].
      apply (steps_fmap same_queue), same_queue_wait_on.
Qed.

Lemma clears_same {A} (m : T A) : steps same_queue m → steps only_clears m.
Proof. intros Hm s r s' E. destruct (Hm _ _ _ E) as [? Hl]. split; [done|]. by rewrite Hl. Qed.

(** The end of a coroutine: the queue the builder has then is emptied. *)
Definition returned (s s' : Shared) (t : TaskState) : Prop :=
  ∃ l tx, t = TDone (Ok tx) ∧ o_operations (sh_self s) = Some l ∧ o_endorsed_tx (sh_self s') = Some tx
    ∧ o_operations (sh_self s') = Some l ∧ sh_lists s' = <[l := []]> (sh_lists s).

Lemma finish_Ok s t s' : finish_operations s = (Ok t, s') → returned s s' t.
Proof.
  unfold finish_operations, clear_operations, this, lift, modify, mbind, SE_bind.
  destruct (o_operations (sh_self s)) as [l|] eqn:Hl; [|done]. cbn.
  destruct (o_endorsed_tx (sh_self s)) as [tx|] eqn:Htx; [|done]. intros [= <- <-]. by exists l, tx.
Qed.

Lemma clears_finish : steps only_clears finish_operations.
Proof.
  intros s r s'. unfold finish_operations, clear_operations, this, lift, modify, mbind, SE_bind.
  destruct (o_operations (sh_self s)) as [l|] eqn:Hl; cbn; [|by intros [= _ <-]].
  assert (only_clears s (set_lists (<[l := []]> (sh_lists s)) s)) as Hc.
  { split; [done|]. intros l' Hl'. cbn. destruct (decide (l = l')) as [<-|Hne].
    - apply list_lookup_insert_eq. by eapply lookup_lt_Some.
    - by rewrite list_lookup_insert_ne. }
  by destruct (o_endorsed_tx (sh_self s)); intros [= _ <-].
Qed.

Lemma clears_list_at l : steps only_clears (list_at l).
Proof. by intros s r s' [= _ <-]. Qed.

Lemma clears_next l k : steps only_clears (next_operation l k).
Proof.
  apply (steps_bind only_clears); [apply clears_list_at|]. intros ops. destruct (ops !! k) as [op|].
  - apply (steps_bind only_clears); [apply clears_same, same_queue_start|]. intros. apply steps_ret, _.
  - apply clears_finish.
Qed.

Lemma clears_begin : steps only_clears begin_task.
Proof.
  apply (steps_bind only_clears); [apply clears_same, same_queue_this|]. intros o.
  destruct (o_operations o) as [l|]; [|apply steps_throw, _].
  apply (steps_bind only_clears); [apply clears_list_at|]. intros ops.
  destruct (is_nonempty ops); [apply clears_next|apply steps_throw, _].
Qed.

Lemma clears_resume l k a : steps only_clears (resume_task l k a).
Proof.
  apply (steps_bind only_clears); [apply clears_same, same_queue_resume|].
  intros [a'|]; [apply steps_ret, _|apply clears_next].
Qed.

(** How far the loop over the list has come. *)
Lemma next_Ok l k s t s' :
  next_operation l k s = (Ok t, s') →
  (∃ a, t = TPending l (S k) a ∧ sh_lists s !! l ≠ Some []) ∨ returned s s' t.
Proof.
  intros (ops & s1 & [= <- <-] & Hr)%SE_bind_Ok. destruct (_ !! k) as [op|] eqn:Hop.
  - left. apply SE_bind_Ok in Hr as (a & s2 & _ & [= <- _]). exists a. split; [done|].
    intros Hl. by rewrite Hl in Hop.
  - right. by apply finish_Ok.
Qed.

Lemma begin_Ok s t s' :
  begin_task s = (Ok t, s') → (∃ l k a, t = TPending l k a) ∨ returned s s' t.
Proof.
  rewrite begin_task_run. destruct (b_operations (view s)) as [[|op ops]|]; [done| |done].
  intros [(a & -> & _)|?]%next_Ok; [left; by eexists _, _, a|by right].
Qed.

Lemma resume_Ok l k a s t s' :
  resume_task l k a s = (Ok t, s') →
  (∃ a, t = TPending l k a) ∨ (∃ a, t = TPending l (S k) a ∧ sh_lists s !! l ≠ Some []) ∨ returned s s' t.
Proof.
  intros ([a'|] & s1 & Ha & Hr)%SE_bind_Ok; [injection Hr as <- _; left; by exists a'|right].
  apply same_queue_resume in Ha as [Ho Hl]. apply next_Ok in Hr. by rewrite Hl in Hr; unfold returned in *; rewrite Ho, Hl in Hr.
Qed.

Lemma run_task_lookup i j m c t :
  loop_tasks (run_task i m c) !! j = Some t →
  (i = j ∧ ∃ r s, m (loop_shared c) = (r, s) ∧ t = task_of r ∧ loop_shared (run_task i m c) = s)
  ∨ (i ≠ j ∧ loop_tasks c !! j = Some t).
Proof.
  unfold run_task. destruct (m (loop_shared c)) as [r s]. cbn.
  intros [(-> & <- & _)|?]%list_lookup_insert_Some; [left; eauto 6|by right].
Qed.

(** Only a run of the task itself makes it return. *)
Lemma handle_returned e c c' i tx :
  handle e c = Some c' → loop_tasks c' !! i = Some (TDone (Ok tx)) →
  loop_tasks c !! i ≠ Some (TDone (Ok tx)) → returned (loop_shared c) (loop_shared c') (TDone (Ok tx)).
Proof.
  intros He Hi' Hi. destruct e as [op| |j|j|j|d new]; cbn in He.
  - by injection He as <-.
  - injection He as <-. by apply lookup_snoc_Some in Hi' as [[_ ?]|[_ [=]]].
  - destruct (loop_tasks c !! j) as [[]|]; try done. injection He as <-.
    apply run_task_lookup in Hi' as [(-> & [t|e|] & s & E & Ht & ->)|[_ ?]]; [| |done|done]; [|done].
    cbn in Ht. subst t. by apply begin_Ok in E as [(? & ? & ? & [=])|?].
  - destruct (loop_tasks c !! j) as [[|l k a| |]|]; try done. destruct (ready _ _); [|done]. injection He as <-.
    apply run_task_lookup in Hi' as [(-> & [t|e|] & s & E & Ht & ->)|[_ ?]]; [| |done|done]; [|done].
    cbn in Ht. subst t. by apply resume_Ok in E as [(? & [=])|[(? & [=] & _)|?]].
  - assert (loop_tasks c' = <[j := TCancelled]> (loop_tasks c)) as Hc
      by (destruct (loop_tasks c !! j) as [[]|]; by simplify_eq/=).
    rewrite Hc in Hi'. by apply list_lookup_insert_Some in Hi' as [(_ & [=] & _)|[_ ?]].
  - by injection He as <-.
Qed.

(** An emptied list stays empty: the next operation gets a list of its own. *)
Lemma handle_cleared e c c' l :
  handle e c = Some c' → sh_lists (loop_shared c) !! l = Some [] → sh_lists (loop_shared c') !! l = Some [].
Proof.
  intros He Hl. destruct e as [op| |j|j|j|d new]; cbn in He.
  - injection He as <-. cbn. unfold queue_operation.
    assert (∀ x, (sh_lists (loop_shared c) ++ x) !! l = Some []) as Hnew by (intros; by apply lookup_app_l_Some).
    destruct (o_operations _) as [l'|]; [|apply Hnew].
    destruct (_ !! l') as [[|x ops]|] eqn:Hl'; [apply Hnew| |apply Hnew].
    cbn. rewrite list_lookup_insert_ne; [done|]. intros ->. by rewrite Hl in Hl'.
  - by injection He as <-.
  - destruct (loop_tasks c !! j) as [[]|]; try done. injection He as <-. unfold run_task.
    destruct (begin_task _) as [r s] eqn:E. apply clears_begin in E as [_ Hc]. by apply Hc.
  - destruct (loop_tasks c !! j) as [[|l' k a| |]|]; try done. destruct (ready _ _); [|done]. injection He as <-.
    unfold run_task. destruct (resume_task _ _ _ _) as [r s] eqn:E. apply clears_resume in E as [_ Hc]. by apply Hc.
  - by destruct (loop_tasks c !! j) as [[]|]; simplify_eq/=.
  - by injection He as <-.
Qed.

(** A task in the middle of an emptied list begins no operation of it. *)
Lemma handle_stays e c c' j l k a l' k' a' :
  handle e c = Some c' → sh_lists (loop_shared c) !! l = Some [] →
  loop_tasks c !! j = Some (TPending l k a) → loop_tasks c' !! j = Some (TPending l' k' a') →
  l' = l ∧ k' = k.
Proof.
  intros He Hl Hj Hj'. assert (loop_tasks c !! j = Some (TPending l' k' a') → l' = l ∧ k' = k) as Hsame
    by (rewrite Hj; by intros [= -> ->]).
  destruct e as [op| |i|i|i|d new]; cbn in He.
  - injection He as <-. by apply Hsame.
  - injection He as <-. apply Hsame. by apply lookup_snoc_Some in Hj' as [[_ ?]|[_ [=]]].
  - destruct (loop_tasks c !! i) as [[]|] eqn:Hi; try done. injection He as <-.
    apply run_task_lookup in Hj' as [[-> _]|[_ ?]]; [congruence|by apply Hsame].
  - destruct (loop_tasks c !! i) as [[|l0 k0 a0| |]|] eqn:Hi; try done. destruct (ready _ _); [|done].
    injection He as <-.
    apply run_task_lookup in Hj' as [(-> & [t|e|] & s & E & Ht & _)|[_ ?]]; [|done|done|by apply Hsame].
    rewrite Hj in Hi. injection Hi as <- <- <-. cbn in Ht. subst t.
    apply resume_Ok in E as [(? & [= -> -> _])|[(? & _ & Hne)|(? & ? & [=] & _)]]; [done|by destruct Hne].
  - assert (loop_tasks c' = <[i := TCancelled]> (loop_tasks c)) as Hc
      by (destruct (loop_tasks c !! i) as [[]|]; by simplify_eq/=).
    rewrite Hc in Hj'. apply list_lookup_insert_Some in Hj' as [(_ & [=] & _)|[_ ?]]. by apply Hsame.
  - injection He as <-. by apply Hsame.
Qed.

(** C11: an await that returns leaves the builder's queue empty, and with it the
    list that other tasks may be in the middle of.  Whenever a step of the
    event loop lets a task return a transaction, that is the one the builder
    holds, and the list of the attribute [_operations] is emptied in place:
    - a task that is begun before another method is called raises
      "Transaction never proposed", and nothing else happens;
    - the method called next starts a queue of its own operation alone, so
      nothing is run twice;
    - for ever after, a task suspended in the emptied list finishes the
      operation it is at and begins no other: what is left of the list is
      dropped. *)
Theorem returned_await_clears g gtx w c e c' i tx :
  reachable g gtx w c → handle e c = Some c' →
  loop_tasks c !! i ≠ Some (TDone (Ok tx)) → loop_tasks c' !! i = Some (TDone (Ok tx)) →
  ∃ l, o_operations (sh_self (loop_shared c)) = Some l
    ∧ o_operations (sh_self (loop_shared c')) = Some l
    ∧ o_endorsed_tx (sh_self (loop_shared c')) = Some tx
    ∧ sh_lists (loop_shared c') !! l = Some []
    ∧ (∀ j, loop_tasks c' !! j = Some TNew →
        handle (EBegin j) c'
        = Some (mkLoop (loop_shared c') (<[j := TDone (Raise never_proposed)]> (loop_tasks c'))))
    ∧ (∀ op, b_operations (view (queue_operation op (loop_shared c'))) = Some [op])
    ∧ ∀ d, rtc loop_step c' d →
        sh_lists (loop_shared d) !! l = Some []
        ∧ ∀ j k a e' d' l' k' a', loop_tasks d !! j = Some (TPending l k a) → handle e' d = Some d' →
            loop_tasks d' !! j = Some (TPending l' k' a') → l' = l ∧ k' = k.
Proof.
  intros Hreach He Hi Hi'. pose proof (handle_returned _ _ _ _ _ He Hi' Hi) as (l & tx' & [= <-] & Ho & Htx & Ho' & Hls).
  pose proof (reachable_place _ _ _ _ l Hreach Ho) as Hlt.
  assert (sh_lists (loop_shared c') !! l = Some []) as Hl by (rewrite Hls; by apply list_lookup_insert_eq).
  assert (b_operations (view (loop_shared c')) = Some []) as Hv by (cbn; by rewrite Ho').
  exists l. split_and!; [done..| | |].
  - intros j Hj. cbn. rewrite Hj. unfold run_task. by rewrite begin_task_run, Hv.
  - intros op. rewrite view_queue_operation. unfold add_operation. by rewrite Hv.
  - intros d Hd. assert (sh_lists (loop_shared d) !! l = Some []) as Hdl.
    { apply (rtc_ind_r (λ d, sh_lists (loop_shared d) !! l = Some []) c') in Hd; [done|done|].
      intros y z _ [e' Hz] Hy. by eapply handle_cleared. }
    split; [done|]. intros j k a e' d' l' k' a' Hj Hz Hj'. by eapply handle_stays.
Qed.
End queue.

(** ** Two tasks *)

Section two_tasks.
Context `{Cryptography, Protobuf, Network}.

(** Beginning a task on a queue that starts with [submit] sends. *)
Lemma begin_submit s l ops tx rq o os envelope w :
  o_operations (sh_self s) = Some l → sh_lists s !! l = Some (OpSubmit :: ops) →
  o_endorsed_tx (sh_self s) = Some tx → gw_requestor (o_gateway (sh_self s)) = Some rq →
  gw_orderers (o_gateway (sh_self s)) = o :: os →
  build_endorsed_tx_envelope tx rq (sh_world s) = (Ok envelope, w) →
  ∃ p, begin_task s = (Ok (TPending l 1 (Submitting envelope (EndorsedTX_tx_id tx) os p)),
    set_world (mkWorld (w_clock w) (w_trace w ++ [ABroadcast o envelope])) s).
Proof.
  intros Ho Hl Htx Hrq Hos Hb.
  unfold begin_task, list_at, this, mbind, SE_bind. rewrite Ho. cbn [fst snd]. rewrite Hl.
  cbn [default from_option id is_nonempty]. rewrite (next_operation_run _ _ _ _ Hl). cbn [lookup list_lookup].
  unfold mbind, SE_bind. rewrite start_submit_run, Htx. unfold requestor_of. rewrite Hrq. cbn [attribute_of or_raise].
  rewrite Hb, Hos. unfold submit_to, launch, mbind, SE_bind. cbn [set_world sh_world].
  destruct (broadcast_to_orderer envelope o (EndorsedTX_tx_id tx) w) as [q w'] eqn:E.
  apply broadcast_to_orderer_trace in E. eexists. cbn. by rewrite E.
Qed.

(** a builder does not guard against being awaited twice at once: if two
    tasks await an endorsed builder whose queue begins with [submit], both
    send the transaction to the orderer before either can know that the other
    has, each in an envelope of its own. *)
Theorem two_awaits_submit_twice s l ops tx rq o os env1 w1 env2 w2 :
  o_operations (sh_self s) = Some l → sh_lists s !! l = Some (OpSubmit :: ops) →
  o_endorsed_tx (sh_self s) = Some tx → gw_requestor (o_gateway (sh_self s)) = Some rq →
  gw_orderers (o_gateway (sh_self s)) = o :: os →
  build_endorsed_tx_envelope tx rq (sh_world s) = (Ok env1, w1) →
  build_endorsed_tx_envelope tx rq (log (ABroadcast o env1) w1) = (Ok env2, w2) →
  ∃ c, handle_all [EAwait; EAwait; EBegin 0; EBegin 1] (mkLoop s []) = Some c
    ∧ w_trace (sh_world (loop_shared c)) = w_trace w2 ++ [ABroadcast o env2]
    ∧ ABroadcast o env1 ∈ w_trace w2.
Proof.
  intros Ho Hl Htx Hrq Hos Hb1 Hb2.
  destruct (begin_submit s l ops tx rq o os env1 w1) as [p1 E1]; [done..|].
  set (s1 := set_world (mkWorld (w_clock w1) (w_trace w1 ++ [ABroadcast o env1])) s) in E1.
  destruct (begin_submit s1 l ops tx rq o os env2 w2) as [p2 E2]; [done..|].
  eexists. split_and!.
  - cbn. unfold run_task. cbn [loop_shared loop_tasks]. rewrite E1. cbn [loop_shared loop_tasks]. by rewrite E2.
  - done.
  - destruct (only_build_endorsed anything tx rq (λ _ _, I) _ _ _ Hb2) as (new & Hnew & _).
    rewrite Hnew. cbn. rewrite !elem_of_app. left. right. left.
Qed.
End two_tasks.

(** ** Progress *)

Definition answered `{Cryptography} (a : Activity) : Prop := (activity_pending a).1 = true.

Section answers.
Context `{Cryptography, Protobuf, Answering}.

Abbreviation T := (SE exn Shared).

Lemma launch_answered {A} (c : M A) s p s' :
  never_hangs c → launch c s = (Ok p, s') → p_result p ≠ Hang.
Proof.
  intros Hc. unfold launch. pose proof (Hc (sh_world s)) as Hs.
  destruct (c (sh_world s)) as [q w]. by intros [= <- _].
Qed.

(** The calls an operation waits for will be answered. *)
Lemma answered_iff {A} (p : Pending A) (act : Pending A → Activity) :
  (activity_pending (act p)).1 = (match p_result p with Hang => false | _ => true end) →
  p_result p ≠ Hang → answered (act p).
Proof. unfold answered. intros ->. by destruct (p_result p). Qed.

Lemma submit_to_answered envelope tx_id o os s a s' :
  submit_to envelope tx_id o os s = (Ok a, s') → answered a.
Proof.
  intros (p & s1 & Hp & [= <- _])%SE_bind_Ok.
  apply launch_answered in Hp; [by apply (answered_iff p)|apply nh_broadcast_to_orderer].
Qed.

Lemma wait_on_answered re timeout peers error s a s' :
  wait_on re timeout peers error s = (Ok a, s') → answered a.
Proof.
  destruct peers as [|peer peers]; [done|].
  intros (o & s1 & _ & (tx & s2 & _ & (p & s3 & Hp & [= <- _])%SE_bind_Ok)%SE_bind_Ok)%SE_bind_Ok.
  apply launch_answered in Hp; [by apply (answered_iff p)|apply nh_await_transaction].
Qed.

Lemma start_operation_answered op s a s' : start_operation op s = (Ok a, s') → answered a.
Proof.
  destruct op as [re| |re timeout].
  - intros (o & s1 & _ & (p & s2 & Hp & [= <- _])%SE_bind_Ok)%SE_bind_Ok.
    apply launch_answered in Hp; [by apply (answered_iff p)|apply nh_propose_tx].
  - rewrite start_submit_run. destruct (o_endorsed_tx _) as [tx|]; [|done].
    destruct (requestor_of _) as [rq|e|]; [|done|done].
    destruct (build_endorsed_tx_envelope tx rq _) as [[env|e|] w]; [|done|done].
    destruct (gw_orderers _) as [|o os]; [done|]. apply submit_to_answered.
  - intros (o & s1 & _ & Hr)%SE_bind_Ok. destruct (negb _); [done|]. by eapply wait_on_answered.
Qed.

(** So will those a running task is left at. *)
Definition task_answered (t : TaskState) : Prop :=
  match t with TPending _ _ a => answered a | _ => True end.

Lemma next_operation_answered l k s t s' : next_operation l k s = (Ok t, s') → task_answered t.
Proof.
  intros (ops & s1 & _ & Hr)%SE_bind_Ok. destruct (ops !! k) as [op|].
  - apply SE_bind_Ok in Hr as (a & s2 & Ha & [= <- _]). by eapply start_operation_answered.
  - apply SE_bind_Ok in Hr as (x & s2 & _ & (o & s3 & _ & Hr)%SE_bind_Ok).
    destruct (o_endorsed_tx o); [by injection Hr as <- _|done].
Qed.

Lemma begin_task_answered s t s' : begin_task s = (Ok t, s') → task_answered t.
Proof.
  intros (o & s1 & _ & Hr)%SE_bind_Ok. destruct (o_operations o) as [l|]; [|done].
  apply SE_bind_Ok in Hr as (ops & s2 & _ & Hr). destruct (is_nonempty ops); [|done].
  by eapply next_operation_answered.
Qed.

Lemma resume_operation_answered a s a' s' :
  resume_operation a s = (Ok (Some a'), s') → answered a'.
Proof.
  destruct a as [re p|envelope tx_id os p|re timeout peers p]; cbn [resume_operation].
  - by intros (? & ? & _ & (? & ? & _ & (? & ? & _ & [=])%SE_bind_Ok)%SE_bind_Ok)%SE_bind_Ok.
  - unfold catch, mbind, SE_bind, lift. destruct (p_result p) as [x|e|]; [done| |done].
    destruct os as [|o os]; [done|]. destruct (isinstance _ _); [|done]. unfold fmap, SE_fmap.
    destruct (submit_to envelope tx_id o os s) as [[a|e'|] s1] eqn:E; [|done|done].
    intros [= <- _]. by eapply submit_to_answered.
  - unfold catch, mbind, SE_bind, lift. destruct (p_result p) as [x|e|]; [done| |done].
    destruct (_ || _); [|done]. unfold fmap, SE_fmap.
    destruct (wait_on re timeout peers e s) as [[a|e'|] s1] eqn:E; [|done|done].
    intros [= <- _]. by eapply wait_on_answered.
Qed.

Lemma resume_task_answered l k a s t s' : resume_task l k a s = (Ok t, s') → task_answered t.
Proof.
  intros ([a'|] & s1 & Ha & Hr)%SE_bind_Ok.
  - injection Hr as <- _. by eapply resume_operation_answered.
  - by eapply next_operation_answered.
Qed.

Definition all_answered (c : EventLoop) : Prop := ∀ i t, loop_tasks c !! i = Some t → task_answered t.

Lemma run_answered i m c j t :
  (∀ s t s', m s = (Ok t, s') → task_answered t) →
  all_answered c → loop_tasks (run_task i m c) !! j = Some t → task_answered t.
Proof.
  intros Hm Hc. unfold run_task. destruct (m (loop_shared c)) as [r s] eqn:E. cbn.
  intros [(<- & <- & _)|[_ Hj]]%list_lookup_insert_Some; [|by eapply Hc].
  destruct r as [t'|e|]; [by eapply Hm|done|done].
Qed.

Lemma handle_answered e c c' :
  all_answered c → handle e c = Some c' → all_answered c'.
Proof.
  intros Hc. destruct e as [op| |i|i|i|d new]; cbn.
  - by intros [= <-].
  - intros [= <-] j t [[_ Hj]|[_ <-]]%lookup_snoc_Some; [by eapply Hc|done].
  - destruct (loop_tasks c !! i) as [[]|]; try done. intros [= <-] j t.
    apply run_answered; [apply begin_task_answered|done].
  - destruct (loop_tasks c !! i) as [[|l k a| |]|]; try done. destruct (ready _ _); [|done].
    intros [= <-] j t. apply run_answered; [apply resume_task_answered|done].
  - intros Hcancel j t. assert (loop_tasks c' = <[i := TCancelled]> (loop_tasks c)) as ->
      by (destruct (loop_tasks c !! i) as [[]|]; by simplify_eq/=).
    intros [(<- & <- & _)|[_ Hj]]%list_lookup_insert_Some; [done|by eapply Hc].
  - by intros [= <-].
Qed.

Lemma reachable_answered g gtx w c : reachable g gtx w c → all_answered c.
Proof.
  intros Hr. apply (rtc_ind_r all_answered (new_loop g gtx w)) in Hr; [done|done|].
  intros c1 c2 _ [e He] Hc. by eapply handle_answered.
Qed.
End answers.

Section finishing.
Context `{Cryptography, Protobuf, Answering}.
Context (i : nat) (ts : list TaskState) (Hi : i < length ts).

Abbreviation T := (SE exn Shared).

(** After the run of [m] the task can be brought to its end. *)
Definition finishes (m : T TaskState) (s : Shared) : Prop :=
  ∃ s' r, rtc loop_step (left_by i ts m s) (mkLoop s' (<[i := TDone r]> ts)) ∧ r ≠ Hang.

Lemma finishes_raise m s e s' : m s = (Raise e, s') → finishes m s.
Proof. intros E. exists s', (Raise e). split; [|done]. unfold left_by. by rewrite E. Qed.
Lemma finishes_done m s tx s' : m s = (Ok (TDone (Ok tx)), s') → finishes m s.
Proof. intros E. exists s', (Ok tx). split; [|done]. unfold left_by. by rewrite E. Qed.
Lemma finishes_eq m m' s s' : m s = m' s' → finishes m' s' → finishes m s.
Proof. unfold finishes. intros E. by rewrite (left_by_eq _ _ _ _ _ _ E). Qed.

(** A wait that is answered is over in time. *)
Lemma finishes_pending m l k a s s1 :
  m s = (Ok (TPending l k a), s1) → answered a →
  (∀ s2, sh_lists s2 = sh_lists s1 → finishes (resume_task l k a) s2) → finishes m s.
Proof.
  intros Hm Ha Hr. set (w := pass ((activity_pending a).2 - w_clock (sh_world s1)) [] (sh_world s1)).
  destruct (Hr (set_world w s1) eq_refl) as (s' & r & Hrun & Hne). exists s', r. split; [|done].
  unfold left_by. rewrite Hm. cbn [fst snd task_of].
  eapply rtc_l with (mkLoop (set_world w s1) (<[i := TPending l k a]> ts)).
  { by exists (EOther ((activity_pending a).2 - w_clock (sh_world s1)) []). }
  eapply rtc_l; [|exact Hrun]. exists (EResume i). cbn. rewrite list_lookup_insert_eq by done.
  unfold ready. rewrite Ha. replace (_ <=? w_clock w)%N with true by (symmetry; apply N.leb_le; cbn; lia).
  cbn. unfold run_task, left_by. cbn. destruct (resume_task _ _ _ _) as [q s2]. cbn. by rewrite insert_same.
Qed.

(** One operation, when what comes after it can be brought to its end. *)
Section operation.
Context (l k : nat) (ls : list (list Operation)).
Context (Hnext : ∀ s, sh_lists s = ls → finishes (next_operation l k) s).

Lemma finishes_goes_on (m : T Activity) s :
  sh_lists s = ls → (m s).1 ≠ Hang →
  (∀ a s1, m s = (Ok a, s1) →
     answered a ∧ sh_lists s1 = ls ∧ ∀ s2, sh_lists s2 = ls → finishes (resume_task l k a) s2) →
  finishes (a ← m; mret (TPending l k a)) s.
Proof.
  intros Hl Hh Hm. destruct (m s) as [[a|e|] s1] eqn:E; [| |done].
  - destruct (Hm a s1 eq_refl) as (Ha & Hl1 & Hr). eapply finishes_pending; [|exact Ha|].
    + unfold mbind, SE_bind. by rewrite E.
    + intros s2 Hs2. apply Hr. congruence.
  - eapply finishes_raise. unfold mbind, SE_bind. by rewrite E.
Qed.

Lemma submit_to_run envelope tx_id o os s :
  ∃ p s1, submit_to envelope tx_id o os s = (Ok (Submitting envelope tx_id os p), s1)
    ∧ sh_lists s1 = sh_lists s.
Proof.
  unfold submit_to, launch, mbind, SE_bind.
  destruct (broadcast_to_orderer envelope o tx_id (sh_world s)) as [q w]. by eexists _, _.
Qed.

Lemma finishes_submitting envelope tx_id os p s :
  answered (Submitting envelope tx_id os p) → sh_lists s = ls →
  finishes (resume_task l k (Submitting envelope tx_id os p)) s.
Proof.
  revert p s. induction os as [|o os IH]; intros [q t] s Ha Hl; destruct q as [x|e|]; try done.
  1,3: by apply (finishes_eq _ (next_operation l k) s (set_self with_committed s)), Hnext.
  { by eapply finishes_raise. }
  destruct (isinstance e CBlockchainConnectionError) eqn:Ec.
  - destruct (submit_to_run envelope tx_id o os s) as (p & s1 & E & Hl1).
    apply (finishes_eq _ (a ← submit_to envelope tx_id o os; mret (TPending l k a)) s s).
    { apply resume_more. cbn. unfold catch, mbind, SE_bind, lift. by rewrite Ec. }
    apply finishes_goes_on; [done|by rewrite E|]. rewrite E. intros ? ? [= <- <-].
    pose proof (submit_to_answered _ _ _ _ _ _ _ E) as Hp. split_and!; [done|congruence|].
    intros s2 Hs2. by apply IH.
  - eapply finishes_raise. unfold resume_task. cbn. unfold mbind, SE_bind, catch, lift. by rewrite Ec.
Qed.

Lemma wait_on_run re timeout peer peers error s :
  (∃ e, wait_on re timeout (peer :: peers) error s = (Raise e, s))
  ∨ ∃ p s1, wait_on re timeout (peer :: peers) error s = (Ok (Waiting re timeout peers p), s1)
      ∧ sh_lists s1 = sh_lists s.
Proof.
  unfold wait_on, launch, this, lift, mbind, SE_bind.
  destruct (o_endorsed_tx (sh_self s)) as [tx|]; cbn [attribute_of or_raise]; [right|left; by eexists].
  destruct (await_transaction _ _ _ _ _ _ _) as [q w]. by eexists _, _.
Qed.

Lemma finishes_waiting re timeout peers p s :
  answered (Waiting re timeout peers p) → sh_lists s = ls →
  finishes (resume_task l k (Waiting re timeout peers p)) s.
Proof.
  revert p s. induction peers as [|peer peers IH]; intros [q t] s Ha Hl; destruct q as [x|e|]; try done.
  1,3: by apply (finishes_eq _ (next_operation l k) s (set_self (with_filtered_tx x) s)), Hnext.
  all: destruct (isinstance e CConnectionError || isinstance e CBlockRetrievalError) eqn:Ee;
    [|eapply finishes_raise; unfold resume_task; cbn; unfold mbind, SE_bind, catch, lift; by rewrite Ee].
  { eapply finishes_raise. unfold resume_task. cbn. unfold mbind, SE_bind, catch, lift. by rewrite Ee. }
  apply (finishes_eq _ (a ← wait_on re timeout (peer :: peers) e; mret (TPending l k a)) s s).
  { apply resume_more. cbn [resume_operation p_result]. unfold catch, mbind, SE_bind, lift. by rewrite Ee. }
  destruct (wait_on_run re timeout peer peers e s) as [[e' E]|(p & s1 & E & Hl1)].
  - eapply finishes_raise. unfold mbind, SE_bind. by rewrite E.
  - apply finishes_goes_on; [done|by rewrite E|]. rewrite E. intros ? ? [= <- <-].
    pose proof (wait_on_answered _ _ _ _ _ _ _ E) as Hp. split_and!; [done|congruence|].
    intros s2 Hs2. by apply IH.
Qed.

Lemma finishes_resume a s : answered a → sh_lists s = ls → finishes (resume_task l k a) s.
Proof.
  destruct a as [re [q t]|envelope tx_id os p|re timeout peers p]; intros Ha Hl;
    [|by apply finishes_submitting|by apply finishes_waiting].
  destruct q as [tx|e|]; [|by eapply finishes_raise|done].
  destruct (re && negb (fully_endorsed tx)) eqn:Ec.
  - apply andb_true_iff in Ec as [-> Hf]. eapply finishes_raise. unfold resume_task. cbn [resume_operation p_result].
    unfold mbind, SE_bind, lift, assign, modify, at_once, raise_tx_proposal_error, raise_if. by rewrite Hf.
  - apply (finishes_eq _ (next_operation l k) s (set_self (with_endorsed_tx tx) s)), Hnext; [|done].
    unfold resume_task. cbn [resume_operation p_result].
    unfold mbind, SE_bind, lift, assign, modify, at_once, raise_tx_proposal_error, raise_if.
    destruct s. by destruct re, (fully_endorsed tx).
Qed.

Lemma start_operation_lists op s a s' : start_operation op s = (Ok a, s') → sh_lists s' = sh_lists s.
Proof. by intros [_ ?]%same_queue_start. Qed.

Lemma start_operation_not_hang op s : (start_operation op s).1 ≠ Hang.
Proof.
  destruct op as [re| |re timeout].
  - unfold start_operation, launch, this, mbind, SE_bind. by destruct (propose_tx _ _ _) as [q w].
  - rewrite start_submit_run. destruct (o_endorsed_tx _) as [tx|]; [|done].
    unfold requestor_of. destruct (gw_requestor _) as [rq|]; [|done]. cbn [attribute_of or_raise].
    pose proof (nh_endorsed_envelope tx rq (sh_world s)) as He.
    destruct (build_endorsed_tx_envelope tx rq _) as [[env|e|] w]; [|done|done].
    destruct (gw_orderers _) as [|o os]; [done|].
    by destruct (submit_to_run env (EndorsedTX_tx_id tx) o os (set_world w s)) as (p & s1 & -> & _).
  - unfold start_operation, this. unfold mbind at 1, SE_bind at 1. destruct (negb _); [done|].
    destruct (gw_endorsing_peers _) as [|peer peers]; [done|].
    destruct (wait_on_run re timeout peer peers
      (BlockchainError (u "Failed waiting for committed transaction")) s) as [[e ->]|(p & s2 & -> & _)]; done.
Qed.

Lemma finishes_start op s :
  sh_lists s = ls → finishes (a ← start_operation op; mret (TPending l k a)) s.
Proof.
  intros Hl. apply finishes_goes_on; [done|apply start_operation_not_hang|]. intros a s1 E.
  pose proof (start_operation_answered _ _ _ _ E) as Ha. apply start_operation_lists in E.
  split_and!; [done|congruence|]. intros s2 Hs2. by apply finishes_resume.
Qed.
End operation.

Lemma finishes_finish_operations s : finishes finish_operations s.
Proof.
  destruct (o_operations (sh_self s)) as [l|] eqn:Ho.
  - destruct (o_endorsed_tx (sh_self s)) as [tx|] eqn:Etx; [eapply finishes_done|eapply finishes_raise];
      unfold finish_operations, clear_operations, this, lift, modify, mbind, SE_bind; rewrite Ho; cbn;
      by rewrite Etx.
  - eapply finishes_raise. unfold finish_operations, clear_operations, this, lift, mbind, SE_bind.
    by rewrite Ho.
Qed.

Lemma finishes_next_bound n l k s :
  length (default [] (sh_lists s !! l)) ≤ k + n → finishes (next_operation l k) s.
Proof.
  revert k s. induction n as [|n IH]; intros k s Hn;
    (assert (next_operation l k s = match default [] (sh_lists s !! l) !! k with
      | Some op => (a ← start_operation op; mret (TPending l (S k) a)) s
      | None => finish_operations s end) as Hs
      by (unfold next_operation, list_at; unfold mbind at 1, SE_bind at 1; by destruct (_ !! k))).
  - rewrite lookup_ge_None_2 in Hs by lia. eapply finishes_eq; [exact Hs|apply finishes_finish_operations].
  - destruct (default [] (sh_lists s !! l) !! k) as [op|].
    + eapply finishes_eq; [exact Hs|]. apply (finishes_start l (S k) (sh_lists s)); [|done].
      intros s' Hl. apply IH. rewrite Hl. lia.
    + eapply finishes_eq; [exact Hs|apply finishes_finish_operations].
Qed.

(** The rest of the list, which nobody else changes. *)
Lemma finishes_next l k s : finishes (next_operation l k) s.
Proof. apply (finishes_next_bound (length (default [] (sh_lists s !! l)))). lia. Qed.

Lemma finishes_begin s : finishes begin_task s.
Proof.
  pose proof (begin_task_run s) as Hs. destruct (b_operations (view s)) as [[|op ops]|];
    [by eapply finishes_raise| |by eapply finishes_raise].
  eapply finishes_eq; [exact Hs|apply finishes_next].
Qed.

Lemma finishes_pending_task l k a s : answered a → finishes (mret (TPending l k a)) s.
Proof.
  intros Ha. eapply finishes_pending; [done|exact Ha|]. intros s2 Hs2.
  apply (finishes_resume l k (sh_lists s2)); [|done|done]. intros s3 _. apply finishes_next.
Qed.
End finishing.

(** C22: no task is stuck: if calls are answered, then in every state the event
    loop can reach, whatever the other tasks have done to the builder, a task
    that is not over can be brought to its end, with a transaction or an
    exception, by letting time pass and resuming it alone. *)
Theorem tasks_can_finish `{Cryptography, Protobuf, Answering} g gtx w c i t :
  reachable g gtx w c → loop_tasks c !! i = Some t →
  (t = TNew ∨ ∃ l k a, t = TPending l k a) →
  ∃ s r, rtc loop_step c (mkLoop s (<[i := TDone r]> (loop_tasks c))) ∧ r ≠ Hang.
Proof.
  intros Hr Hi Ht. destruct c as [s ts]. cbn [loop_tasks] in *.
  pose proof (lookup_lt_Some _ _ _ Hi) as Hlt. destruct Ht as [->|(l & k & a & ->)].
  - destruct (finishes_begin i ts Hlt s) as (s' & r & Hrun & Hne). exists s', r. split; [|done].
    eapply rtc_l; [by apply begin_alone|exact Hrun].
  - pose proof (reachable_answered _ _ _ _ Hr i _ Hi) as Ha.
    destruct (finishes_pending_task i ts Hlt l k a s Ha) as (s' & r & Hrun & Hne). exists s', r.
    split; [|done]. unfold left_by in Hrun. cbn in Hrun. by rewrite list_insert_id in Hrun.
Qed.
