(* ===== verification/Config.v ===== *)
(** * Config: config.py

    The configuration after the libraries that read JSON, YAML and dataclasses
    have built it (parameters of [from_file]): [__post_init__] names what has no
    name, [get_gateway] looks everything up.  A mapping is an association list
    in insertion order. *)
From S2P Require Import Prelude PyText Sha256 Sha3 Pem Wire Protobuf Descriptors CommonProtos PeerProtos Constants TxData Errors Crypto Grpc Models Transactions Decoded Block Runtime Factories Policies Connect Events Transact Package Operations Gateway.

Record GatewayConfig := mkGatewayConfig {
  gc_channel : pystr;
  gc_requestor : pystr;
  gc_endorsing_peers : list pystr;
  gc_orderers : list pystr;
  gc_chaincode : option pystr;
}.

Abbreviation pydict A := (list (pystr * A)).

Record BlockchainConfig `{Cryptography} := mkBlockchainConfig {
  bc_peers : pydict Peer;
  bc_orderers : pydict Orderer;
  bc_users : pydict User;
  bc_chaincodes : pydict ChaincodeSpec;
  bc_gateways : pydict GatewayConfig;
}.
Arguments mkBlockchainConfig {_} _ _ _ _ _.
Arguments bc_peers {_} _.
Arguments bc_orderers {_} _.
Arguments bc_users {_} _.
Arguments bc_chaincodes {_} _.
Arguments bc_gateways {_} _.

(** [d[name]] *)
Fixpoint dict_get {A} (d : pydict A) (name : pystr) : option A :=
  match d with
  | [] => None
  | (k, x) :: d => if decide (k = name) then Some x else dict_get d name
  end.

(** [{name: f(name, x) for name, x in d.items()}] *)
Definition dict_map {A} (f : pystr → A → res A) (d : pydict A) : res (pydict A) :=
  mapM (λ e : pystr * A, x ← f e.1 e.2; mret (e.1, x)) d.

Section config.
Context `{Cryptography, FileSystem}.

Definition name_peer (name : pystr) (peer : Peer) : res Peer :=
  Peer_replace_name peer (Some (py_or (peer_name peer) name)).
Definition name_orderer (name : pystr) (orderer : Orderer) : res Orderer :=
  Orderer_replace_name orderer (Some (py_or (orderer_name orderer) name)).
Definition name_user (name : pystr) (user : User) : res User :=
  User_replace_name user (Some (py_or (user_name user) name)).
Definition name_chaincode (name : pystr) (cc : ChaincodeSpec) : res ChaincodeSpec :=
  mret (mkChaincodeSpec (Some (py_or (cc_name cc) name)) (cc_version cc) (cc_language cc)
          (cc_path cc) (cc_args cc)).

Definition BlockchainConfig_post_init (self : BlockchainConfig) : res BlockchainConfig :=
  peers ← dict_map name_peer (bc_peers self);
  orderers ← dict_map name_orderer (bc_orderers self);
  users ← dict_map name_user (bc_users self);
  chaincodes ← dict_map name_chaincode (bc_chaincodes self);
  mret (mkBlockchainConfig peers orderers users chaincodes (bc_gateways self)).

(** [if name not in d: raise KeyError(...)] *)
Definition get_named {A} (kind : string) (d : pydict A) (name : pystr) : res A :=
  or_raise (KeyError (u "No " ++ u kind ++ u " defined with name " ++ [34%N] ++ name ++ [34%N]))
    (dict_get d name).

Definition get_peer (self : BlockchainConfig) : pystr → res Peer :=
  get_named "peer" (bc_peers self).
Definition get_orderer (self : BlockchainConfig) : pystr → res Orderer :=
  get_named "orderer" (bc_orderers self).
Definition get_user (self : BlockchainConfig) : pystr → res User :=
  get_named "user" (bc_users self).
Definition get_chaincode (self : BlockchainConfig) : pystr → res ChaincodeSpec :=
  get_named "chaincode" (bc_chaincodes self).

Definition get_gateway (self : BlockchainConfig) (name : pystr) : res Gateway :=
  config ← get_named "gateway" (bc_gateways self) name;
  endorsing_peers ← mapM (get_peer self) (gc_endorsing_peers config);
  chaincode ← (if truthy (gc_chaincode config)
               then Some <$> get_chaincode self (default [] (gc_chaincode config))
               else mret None);
  requestor ← get_user self (gc_requestor config);
  orderers ← mapM (get_orderer self) (gc_orderers config);
  mret (mkGateway endorsing_peers orderers (Some (mkChannel (gc_channel config)))
          (Some requestor) chaincode).

(** [os.path.splitext(path)[1]]: from the last dot of the last component,
    leading dots apart. *)
Definition is_dot (c : N) : bool := (c =? 46)%N.
Definition last_component (path : pystr) : pystr :=
  foldl (λ acc c, if (c =? 47)%N then [] else acc ++ [c]) [] path.
Fixpoint skip_dots (l : pystr) : pystr :=
  match l with c :: l' => if is_dot c then skip_dots l' else l | [] => [] end.
Fixpoint from_last_dot (l : pystr) : pystr :=
  match l with
  | [] => []
  | c :: l' =>
    match from_last_dot l' with
    | [] => if is_dot c then c :: l' else []
    | ext => ext
    end
  end.
Definition splitext_ext (path : pystr) : pystr := from_last_dot (skip_dots (last_component path)).

(** The readers of JSON and YAML, and dacite's [from_dict] up to the
    initialization of the result. *)
Context {pyvalue : Type} (json_load yaml_load : bytes → res pyvalue)
  (dacite_from_dict : pyvalue → res BlockchainConfig).

Definition from_dict (value : pyvalue) : res BlockchainConfig :=
  self ← dacite_from_dict value;
  BlockchainConfig_post_init self.

Definition from_file (file_path : pystr) : res BlockchainConfig :=
  let ext := splitext_ext file_path in
  contents ← read_file file_path;
  if decide (ext = u ".json") then json_load contents ≫= from_dict
  else if decide (ext = u ".yaml") then yaml_load contents ≫= from_dict
  else if decide (ext = u ".yml") then yaml_load contents ≫= from_dict
  else Raise (ValueError (u "Unrecognized file extension for file " ++ file_path)).
End config.

(** ** Properties *)

Section dicts.
Context {A : Type}.

Lemma dict_map_get (f : pystr → A → res A) d d' k y :
  dict_map f d = Ok d' → dict_get d' k = Some y ↔ ∃ x, dict_get d k = Some x ∧ f k x = Ok y.
Proof.
  intros Hd%mapM_outcome_Ok. revert y. induction Hd as [|[n x] e d d' He _ IH]; intros y; cbn.
  - split; [done|by intros (? & ? & _)].
  - cbn in He. apply outcome_bind_Ok in He as (x' & Hx & [= <-]). cbn.
    destruct (decide (n = k)) as [->|]; [|apply IH]. split.
    + intros [= <-]. eauto.
    + intros (? & [= <-] & ?). congruence.
Qed.

Lemma dict_map_None (f : pystr → A → res A) d d' k :
  dict_map f d = Ok d' → dict_get d' k = None ↔ dict_get d k = None.
Proof.
  intros Hd%mapM_outcome_Ok. induction Hd as [|[n x] e d d' He _ IH]; [done|].
  cbn in He. apply outcome_bind_Ok in He as (x' & _ & [= <-]). cbn.
  destruct (decide (n = k)); [by split|exact IH].
Qed.
End dicts.

Section properties.
Context `{Cryptography, FileSystem}.

(** after initialization every entity has a name: looking up a key gives
    the entity configured under that key, with the name it was given or else
    the key itself as its name, and a key that was not configured raises
    [KeyError]. *)
Theorem config_names_entities c c' k :
  BlockchainConfig_post_init c = Ok c' →
  (match get_peer c' k with
   | Ok p => ∃ p0, dict_get (bc_peers c) k = Some p0 ∧ peer_name p = Some (py_or (peer_name p0) k)
   | r => dict_get (bc_peers c) k = None ∧ ∃ msg, r = Raise (KeyError msg)
   end)
  ∧ (match get_orderer c' k with
     | Ok o => ∃ o0, dict_get (bc_orderers c) k = Some o0
                 ∧ orderer_name o = Some (py_or (orderer_name o0) k)
     | r => dict_get (bc_orderers c) k = None ∧ ∃ msg, r = Raise (KeyError msg)
     end)
  ∧ (match get_user c' k with
     | Ok x => ∃ x0, dict_get (bc_users c) k = Some x0
                 ∧ user_name x = Some (py_or (user_name x0) k)
                 ∧ user_msp_id x = user_msp_id x0
     | r => dict_get (bc_users c) k = None ∧ ∃ msg, r = Raise (KeyError msg)
     end)
  ∧ (match get_chaincode c' k with
     | Ok x => ∃ x0, dict_get (bc_chaincodes c) k = Some x0
                 ∧ cc_name x = Some (py_or (cc_name x0) k) ∧ cc_version x = cc_version x0
     | r => dict_get (bc_chaincodes c) k = None ∧ ∃ msg, r = Raise (KeyError msg)
     end).
Proof.
  intros (ps & Hp & (os & Ho & (us & Hu & (cs & Hc & [= <-])%outcome_bind_Ok)%outcome_bind_Ok)
    %outcome_bind_Ok)%outcome_bind_Ok.
  unfold get_peer, get_orderer, get_user, get_chaincode, get_named.
  cbn [bc_peers bc_orderers bc_users bc_chaincodes]. split_and!.
  - destruct (dict_get ps k) as [p|] eqn:E; cbn; [|split; [exact (proj1 (dict_map_None _ _ _ _ Hp) E)|by eexists]].
    apply (dict_map_get _ _ _ _ _ Hp) in E as (p0 & Hp0 & ([m ch] & _ & [= <-])%outcome_bind_Ok).
    eauto.
  - destruct (dict_get os k) as [o|] eqn:E; cbn; [|split; [exact (proj1 (dict_map_None _ _ _ _ Ho) E)|by eexists]].
    apply (dict_map_get _ _ _ _ _ Ho) in E as (o0 & Ho0 & ([m ch] & _ & [= <-])%outcome_bind_Ok).
    eauto.
  - destruct (dict_get us k) as [x|] eqn:E; cbn; [|split; [exact (proj1 (dict_map_None _ _ _ _ Hu) E)|by eexists]].
    apply (dict_map_get _ _ _ _ _ Hu) in E as (x0 & Hx0 & (cert & _ & (key & _ & (pk & _ & [= <-])
      %outcome_bind_Ok)%outcome_bind_Ok)%outcome_bind_Ok).
    eauto.
  - destruct (dict_get cs k) as [x|] eqn:E; cbn; [|split; [exact (proj1 (dict_map_None _ _ _ _ Hc) E)|by eexists]].
    apply (dict_map_get _ _ _ _ _ Hc) in E as (x0 & Hx0 & [= <-]). eauto.
Qed.

(** What a gateway's configuration means. *)
Definition gateway_resolved (self : BlockchainConfig) (config : GatewayConfig) (g : Gateway) : Prop :=
  Forall2 (λ n p, dict_get (bc_peers self) n = Some p) (gc_endorsing_peers config)
    (gw_endorsing_peers g)
  ∧ Forall2 (λ n o, dict_get (bc_orderers self) n = Some o) (gc_orderers config) (gw_orderers g)
  ∧ gw_channel g = Some (mkChannel (gc_channel config))
  ∧ (∃ requestor, dict_get (bc_users self) (gc_requestor config) = Some requestor
       ∧ gw_requestor g = Some requestor)
  ∧ match gc_chaincode config with
    | Some ((_ :: _) as name) =>
      ∃ cc, dict_get (bc_chaincodes self) name = Some cc ∧ gw_chaincode g = Some cc
    | _ => gw_chaincode g = None
    end.

Lemma get_named_Ok {A} kind (d : pydict A) n x : get_named kind d n = Ok x ↔ dict_get d n = Some x.
Proof. apply or_raise_Ok. Qed.

Lemma mapM_get_named {A} kind (d : pydict A) ns xs :
  mapM (get_named kind d) ns = Ok xs ↔ Forall2 (λ n x, dict_get d n = Some x) ns xs.
Proof.
  rewrite mapM_outcome_Ok. split; intros Hf; eapply Forall2_impl; try exact Hf;
    intros n x; apply get_named_Ok.
Qed.

(** The exception of a look-up that fails, for a name that is not defined. *)
Definition names_missing (self : BlockchainConfig) (e : exn) : Prop :=
  ∃ kind n, e = KeyError (u "No " ++ u kind ++ u " defined with name " ++ [34%N] ++ n ++ [34%N])
    ∧ match kind with
      | "gateway" => dict_get (bc_gateways self) n = None
      | "peer" => dict_get (bc_peers self) n = None
      | "orderer" => dict_get (bc_orderers self) n = None
      | "user" => dict_get (bc_users self) n = None
      | "chaincode" => dict_get (bc_chaincodes self) n = None
      | _ => False
      end.

Lemma get_named_settles {A} (Q : exn → Prop) kind (d : pydict A) n :
  (dict_get d n = None →
   Q (KeyError (u "No " ++ u kind ++ u " defined with name " ++ [34%N] ++ n ++ [34%N]))) →
  settles Q (get_named kind d n).
Proof. unfold get_named. destruct (dict_get d n); cbn; auto. Qed.

Lemma get_gateway_settles self name : settles (names_missing self) (get_gateway self name).
Proof.
  unfold get_gateway, get_peer, get_orderer, get_user, get_chaincode.
  repeat first [apply settles_bind; [|intros ?] | apply settles_mapM; intros ?
    | apply settles_if | apply settles_fmap | apply settles_ret
    | apply get_named_settles; intros Hnone; by eexists _, _].
Qed.

(** The chaincode of a gateway, when its configuration names one. *)
Lemma gateway_chaincode_Ok self (name : option pystr) cc :
  (if truthy name then Some <$> get_chaincode self (default [] name) else mret None) = Ok cc
  ↔ match name with
    | Some (x :: n) => ∃ c, dict_get (bc_chaincodes self) (x :: n) = Some c ∧ cc = Some c
    | _ => cc = None
    end.
Proof.
  destruct name as [[|x n]|]; cbn; [by split; [intros [= <-]|intros ->]| |by split; [intros [= <-]|intros ->]].
  unfold get_chaincode, get_named. destruct (dict_get _ _) as [c|]; cbn.
  - split; [intros [= <-]; eauto|by intros (c' & [= <-] & ->)].
  - split; [done|by intros (c & ? & _)].
Qed.

Lemma get_gateway_Ok self name g :
  get_gateway self name = Ok g ↔
  ∃ config, dict_get (bc_gateways self) name = Some config ∧ gateway_resolved self config g.
Proof.
  unfold get_gateway, gateway_resolved, get_peer, get_orderer, get_user.
  repeat setoid_rewrite outcome_bind_Ok. setoid_rewrite get_named_Ok.
  setoid_rewrite mapM_get_named. setoid_rewrite gateway_chaincode_Ok. split.
  - intros (config & ? & ps & ? & cc & ? & rq & ? & os & ? & [= <-]).
    exists config. cbn. split_and!; eauto. by destruct (gc_chaincode config) as [[]|].
  - intros (config & ? & ? & ? & Hch & (rq & ? & Hrq) & ?). exists config. split; [done|].
    exists (gw_endorsing_peers g). split; [done|]. exists (gw_chaincode g). split; [by destruct (gc_chaincode config) as [[]|]|].
    exists rq. split; [done|]. exists (gw_orderers g). split; [done|].
    destruct g; cbn in *. by rewrite Hch, Hrq.
Qed.

(** C35: [get_gateway] resolves every name of the gateway's configuration, in
    order, or raises: it returns exactly the gateway whose parts are the
    configured entities, and every failure is a [KeyError] that tells the kind
    and the name of an entity that is not configured. *)
Theorem get_gateway_resolves self name :
  (∀ g, get_gateway self name = Ok g ↔
     ∃ config, dict_get (bc_gateways self) name = Some config ∧ gateway_resolved self config g)
  ∧ settles (names_missing self) (get_gateway self name).
Proof. split; [apply get_gateway_Ok|apply get_gateway_settles]. Qed.
End properties.
