(* ===== verification/Toy.v ===== *)
(** * Toy: concrete libraries, network and entities

    Instances of the parameters of the development, simple enough to compute
    with: a signature scheme and cipher that satisfy [CryptographyLaws], a
    network of one chaincode whose peers endorse everything and deliver the
    last transaction broadcast, another whose peers and orderers insist on the
    order of the steps, a file system of five files.  They show that
    the hypotheses of the theorems can be met. *)
From S2P Require Import Prelude PyText Sha256 Sha3 Pem Wire Protobuf Descriptors CommonProtos PeerProtos Constants TxData Errors Crypto Grpc Models Transactions Decoded Block Runtime Factories Roundtrip Policies Connect Events Transact Package Operations Safety Gateway Completion Deployment Lifecycle Config.

(** ** Cryptography *)

Module ToyCrypto.
Definition key : Type := Curve * Byte.byte.

Definition total (l : bytes) : Z := foldr (λ b n, Z.of_N (Byte.to_N b) + n)%Z 0%Z l.
(** The first scalar of a signature: of the message and the key. *)
Definition scalar (k : key) (m : bytes) : Z :=
  (1 + (Z.of_N (Byte.to_N k.2) + total m) mod 65536)%Z.

Definition encode_dss (r s : Z) : bytes := enc_varint (Z.to_N r) ++ enc_varint (Z.to_N s).
Definition decode_dss (l : bytes) : option (Z * Z) :=
  '(r, l) ← dec_varint l; '(s, l) ← dec_varint l;
  match l with [] => Some (Z.of_N r, Z.of_N s) | _ => None end.

Definition verify (k : key) (sig m : bytes) : verify_result :=
  match decode_dss sig with
  | Some (r, s) =>
    if (r =? scalar k m)%Z && ((s =? 1)%Z || (s =? curve_order k.1 - 1)%Z) then Verified
    else InvalidSignature
  | None => InvalidSignature
  end.

Definition point_length (c : Curve) : nat := match c with SECP256R1 => 65 | SECP384R1 => 97 end.
Definition encode_pt (k : key) : bytes :=
  "004"%byte :: k.2 :: replicate (point_length k.1 - 2) "000"%byte.

Definition crypto : Cryptography := {|
  PrivateKey := key;
  PublicKey := key;
  load_pem_private_key l :=
    match l with b :: _ => Ok (SECP256R1, b) | [] => Raise (ValueError (u "no key")) end;
  generate_private_key c n := (c, byte_of_N (N.of_nat n mod 256));
  public_key k := k;
  key_size k := curve_key_size k.1;
  ec_sign k m h n := encode_dss (scalar k m) 1;
  ec_verify k sig m h := verify k sig m;
  decode_dss_signature := decode_dss;
  encode_dss_signature := encode_dss;
  encode_point := encode_pt;
  from_encoded_point c l := match l with _ :: b :: _ => Some (c, b) | _ => None end;
  exchange a b :=
    if decide (a.1 = b.1) then Some [byte_of_N ((Byte.to_N a.2 + Byte.to_N b.2) mod 256)] else None;
  hkdf_expand h z n := replicate n (hd "000"%byte z);
  aes_cfb_encrypt k iv m := m;
  aes_cfb_decrypt k iv m := m;
  random_bytes n size := replicate size (byte_of_N (N.of_nat n mod 256));
|}.

Lemma decode_encode r s : (0 ≤ r)%Z → (0 ≤ s)%Z → decode_dss (encode_dss r s) = Some (r, s).
Proof.
  intros. unfold decode_dss, encode_dss. rewrite dec_enc_varint. cbn [mbind option_bind].
  rewrite <-(app_nil_r (enc_varint (Z.to_N s))), dec_enc_varint. cbn. by rewrite !Z2N.id by done.
Qed.

Lemma scalar_bound k m : (0 < scalar k m < 65537)%Z.
Proof. unfold scalar. pose proof (Z.mod_pos_bound (Z.of_N (Byte.to_N k.2) + total m) 65536). lia. Qed.

Lemma order_large c : (65537 < curve_order c)%Z.
Proof. by destruct c. Qed.

Lemma laws : @CryptographyLaws crypto fst.
Proof.
  constructor; cbn.
  - done.
  - done.
  - exact decode_encode.
  - intros k m _ _. exists (scalar k m), 1%Z. pose proof (scalar_bound k m).
    pose proof (order_large k.1). split; [done|lia].
  - intros k m _ _. unfold verify. rewrite decode_encode by (pose proof (scalar_bound k m); lia).
    by rewrite Z.eqb_refl.
  - intros k m _ r s Hr Hs. unfold verify. rewrite !decode_encode by lia.
    destruct (r =? scalar k m)%Z; [|done]. cbn [andb].
    destruct (Z.eqb_spec s 1) as [->|]; cbn [orb].
    + intros _. by rewrite Z.eqb_refl, orb_true_r.
    + destruct (Z.eqb_spec s (curve_order k.1 - 1)) as [->|]; [|done]. intros _.
      replace (curve_order k.1 - (curve_order k.1 - 1))%Z with 1%Z by lia. done.
  - by intros [[] b].
  - by intros [[] b].
  - intros [c a] [c' b] ->. cbn. rewrite decide_True by done. rewrite N.add_comm.
    rewrite decide_True by done. split; [done|by eexists].
  - done.
  - done.
  - intros. apply length_replicate.
Qed.
End ToyCrypto.

#[export] Instance toy_crypto : Cryptography := ToyCrypto.crypto.
#[export] Instance toy_protobuf : Protobuf := wire_protobuf.
Definition toy_curve : @PrivateKey toy_crypto → Curve := @fst Curve Byte.byte.
#[export] Instance toy_crypto_laws : @CryptographyLaws toy_crypto toy_curve := ToyCrypto.laws.
#[export] Instance toy_protobuf_laws : ProtobufLaws toy_protobuf := wire_protobuf_laws.

(** ** Sets *)

#[export] Program Instance toy_set : PySet := {| set_iter := elements |}.
Next Obligation. done. Qed.

Definition reversed_set : PySet.
Proof. refine {| set_iter s := reverse (elements s) |}. abstract (intros; apply reverse_Permutation). Defined.

(** ** Files *)

(** A channel transaction file, with the update it holds. *)
Definition channel_update : bytes := bs "update".
Definition channel_tx : bytes :=
  SerializeToString (mkEnvelope (SerializeToString (mkPayload None
    (SerializeToString (mkConfigUpdateEnvelope channel_update [])))) []).

Definition armor (lines : list string) : bytes := join_with "010"%byte (bs <$> lines).

#[export] Instance toy_files : FileSystem := {|
  read_file path :=
    if decide (path = u "ca.pem") then Ok (bs "CA")
    else if decide (path = u "cert.pem") then Ok (bs "CERT")
    else if decide (path = u "key.pem") then Ok (bs "KEY")
    else if decide (path = u "cc/main.go") then Ok (bs "package main")
    else if decide (path = u "channel.tx") then Ok channel_tx
    else Raise (FileNotFoundError path);
|}.

#[export] Instance toy_packaging : Packaging := {|
  GOPATH := None;
  listdir path := if decide (path = u "cc") then Ok tt else Raise (FileNotFoundError path);
  walk path := [(path, [u "main.go"])];
  gettarinfo path name := mkTarInfo name 12 [] (u "me") (u "us") 1 1 33188 1573000000 [];
  tar_gz t entries :=
    replicate 4 "031"%byte ++ (byte_of_N <$> [t mod 256; t / 256 mod 256; t / 65536 mod 256;
                                               t / 16777216 mod 256])%N
    ++ (entries ≫= snd);
|}.

#[export] Instance toy_packaging_laws : PackagingLaws.
Proof. constructor. intros t1 t2 entries. cbn. split_and!; [done|done|lia]. Qed.

(** ** Entities *)

Definition toy_model (endpoint : string) : ConnectedModel :=
  mkConnectedModel (u endpoint) None None None None None None None.
Definition toy_peer (endpoint : string) : Peer := mkPeer (toy_model endpoint) (Some (u endpoint)) None None None.
Definition toy_orderer (endpoint : string) : Orderer :=
  mkOrderer (toy_model endpoint) (Some (u endpoint)) None None.

Definition peer1 : Peer := toy_peer "peer1".
Definition peer2 : Peer := toy_peer "peer2".
Definition orderer_down : Orderer := toy_orderer "down".
Definition orderer1 : Orderer := toy_orderer "orderer1".
Definition mychannel : Channel := mkChannel (u "mychannel").

Definition toy_key : PrivateKey := (SECP256R1, "K"%byte) : ToyCrypto.key.
Definition toy_key384 : PrivateKey := (SECP384R1, "K"%byte) : ToyCrypto.key.

Definition alice : User :=
  mkUser (u "Org1MSP") (Some (u "alice")) None None (Some (bs "CERT")) (Some (bs "KEY")) ecies
    (Some toy_key).

(** ** The network *)

Definition toy_response : ProposalResponse :=
  mkProposalResponse 1 None (Some (mkResponse 200 [] (bs "ok")))
    (SerializeToString (mkProposalResponsePayload (bs "hash") (bs "ext")))
    (Some (mkEndorsement (SerializeToString (mkSerializedIdentity (u "Org1MSP") (bs "PEER"))) (bs "sig"))).

Definition origin_block : Block :=
  mkBlock (Some (mkBlockHeader 0 [] [])) (Some (mkBlockData [])) (Some (mkBlockMetadata [])).

(** The id of the last transaction that was broadcast. *)
Definition last_tx_id (w : World) : option pystr :=
  foldl (λ acc a, match a with
    | ABroadcast _ env =>
      match parse Payload (Envelope_payload env) with
      | Ok p => match parse ChannelHeader (Header_channel_header (header_of p)) with
                | Ok h => Some (ChannelHeader_tx_id h)
                | _ => acc
                end
      | _ => acc
      end
    | _ => acc
    end) None (w_trace w).

Definition filtered_block_of (tx_id : pystr) : DeliverResponse :=
  mkDeliverResponse (Some (DeliverResponse_is_filtered_block
    (mkFilteredBlockProto (u "mychannel") 7 [mkFilteredTransaction tx_id 3 0 None]))).

#[export] Instance toy_network : Network := {|
  ProcessProposal w p sp := Reply 5 toy_response;
  Broadcast w o env :=
    if decide (cm_endpoint (orderer_model o) = u "down")
    then mkStream [] (Broken 3 (u "UNAVAILABLE") (u "connect failed"))
    else mkStream [(2%N, mkBroadcastResponse 200 [])] (EndOfStream 0);
  Deliver w p env := mkStream [] Silent;
  DeliverFiltered w p env :=
    match last_tx_id w with
    | Some id => mkStream [(4%N, filtered_block_of (u "other")); (6%N, filtered_block_of id)] Silent
    | None => mkStream [] Silent
    end;
  OrdererDeliver w o env :=
    mkStream [(1%N, mkOrdererDeliverResponse (Some (OrdererDeliverResponse_is_block origin_block)))]
      (EndOfStream 0);
|}.

Definition w0 : World := mkWorld 1573000000000000000 [].

(** The value and the state of a run. *)
Definition value_of {A S} (d : A) (r : res A * S) : A := match r.1 with Ok a => a | _ => d end.
Definition returned {A S} (r : res A * S) : bool := match r.1 with Ok _ => true | _ => false end.

Lemma returned_run {A S} (d : A) (r : res A * S) :
  returned r = true → r = (Ok (value_of d r), r.2).
Proof. by destruct r as [[] ?]. Qed.

Definition is_ok {A} (r : res A) : bool := match r with Ok _ => true | _ => false end.
Definition ok_or {A} (d : A) (r : res A) : A := match r with Ok a => a | _ => d end.
Lemma is_ok_run {A} (d : A) (r : res A) : is_ok r = true → r = Ok (ok_or d r).
Proof. by destruct r. Qed.

Lemma extends_w0 w : extends w0 w (w_trace w).
Proof. done. Qed.

Definition default_context : TXContext := mkTXContext (mkSerializedIdentity [] []) [] [] 0.
Definition default_gtx : GeneratedTX :=
  mkGeneratedTX default_context Proposal_default SignedProposal_default Header_default.
Definition default_etx : EndorsedTX := mkEndorsedTX [] Proposal_default Header_default default_context.

Definition args1 : option (list pystr) := Some [u "a"; u "b"].
Definition transient1 : option (list (pystr * bytes)) := Some [(u "secret", bs "value")].

Definition gtx1 : GeneratedTX := value_of default_gtx
  (build_generated_tx alice (u "mycc") [bs "fcn"; bs "a"] (Some mychannel) transient1 w0).
Definition world1 : World :=
  (build_generated_tx alice (u "mycc") [bs "fcn"; bs "a"] (Some mychannel) transient1 w0).2.
Lemma generate1_run :
  build_generated_tx alice (u "mycc") [bs "fcn"; bs "a"] (Some mychannel) transient1 w0
  = (Ok gtx1, world1).
Proof. unfold gtx1, world1. apply returned_run. vm_compute. reflexivity. Qed.

Definition chaincode1 : ChaincodeSpec :=
  mkChaincodeSpec (Some (u "mycc")) (Some (u "1.0")) GOLANG (Some (u "cc")) None.
Definition gateway1 : Gateway :=
  mkGateway [peer1; peer2] [orderer_down; orderer1] (Some mychannel) (Some alice) (Some chaincode1).

Definition role_a : EndorsementPolicyRole := new_EndorsementPolicyRole (u "Org1MSP") (u "Member").
Definition role_b : EndorsementPolicyRole := new_EndorsementPolicyRole (u "Org2MSP") (u "Admin").
(** A or two of (A, B, A and B). *)
Definition policy1 : EndorsementPolicy :=
  mkEndorsementPolicy PolicyOr None [role_a]
    [mkEndorsementPolicy PolicyOutOf (Some 2%Z) [role_b; role_a]
       [mkEndorsementPolicy PolicyAnd None [role_a; role_b] []]].

(** The network and the library at work: an invocation through the gateway
    tries the orderer that is down, then the other, waits for the block after
    the one that holds another transaction, and returns. *)
Example invoke_runs :
  returned (Gateway_invoke gateway1 (u "fcn") args1 transient1 30 w0) = true
  ∧ w_clock (Gateway_invoke gateway1 (u "fcn") args1 transient1 30 w0).2 = (w_clock w0 + 5 + 3 + 2 + 10)%N.
Proof. split; vm_compute; reflexivity. Qed.

(** ** A network that insists on the order *)

Definition same_peer (p q : Peer) : bool :=
  bool_decide (cm_endpoint (peer_model p) = cm_endpoint (peer_model q)).

Definition was_asked (c : Call) (p : Peer) (w : World) : bool :=
  existsb (λ a, match a with
    | AProcessProposal q sp => same_peer p q && bool_decide (proposal_call sp ≫= call_of = Some c)
    | _ => false
    end) (w_trace w).

Definition was_created (channel : Channel) (w : World) : bool :=
  existsb (λ a, match a with
    | ABroadcast _ env =>
      match envelope_header env with
      | Ok h => (ChannelHeader_type h =? TransactionType_value TxConfigUpdate)%Z
                && bool_decide (ChannelHeader_channel_id h = channel_name channel)
      | _ => false
      end
    | _ => false
    end) (w_trace w).

Definition was_submitted (c : Call) (w : World) : bool :=
  existsb (λ a, match a with
    | ABroadcast _ env =>
      match DecodedTX_decode (SerializeToString env) with
      | Ok d => bool_decide (transaction_call d ≫= call_of = Some c)
      | _ => false
      end
    | _ => false
    end) (w_trace w).

(** A version of the chaincode that the peer was asked to install and that was
    deployed. *)
Definition was_deployed (name : pystr) (p : Peer) (w : World) : bool :=
  existsb (λ a, match a with
    | AProcessProposal q sp =>
      match proposal_call sp ≫= call_of with
      | Some (CallInstall (n, version)) =>
        same_peer p q && bool_decide (n = name) && was_submitted (CallDeploy (n, version)) w
      | _ => false
      end
    | _ => false
    end) (w_trace w).

Definition is_ready (channel : Channel) (c : Call) (p : Peer) (w : World) : bool :=
  match c with
  | CallJoin => was_created channel w
  | CallInstall _ => true
  | CallDeploy cc => was_asked CallJoin p w && was_asked (CallInstall cc) p w
  | CallChaincode name => was_asked CallJoin p w && was_deployed name p w
  end.

Definition refusal : ProposalResponse :=
  mkProposalResponse 1 None (Some (mkResponse 500 (u "not ready") [])) [] None.

Definition strict_network : Network := {|
  ProcessProposal w p sp :=
    match proposal_call sp ≫= call_of with
    | Some c => Reply 5 (if is_ready mychannel c p w then toy_response else refusal)
    | None => Reply 5 refusal
    end;
  Broadcast := @Broadcast toy_network;
  Deliver := @Deliver toy_network;
  DeliverFiltered := @DeliverFiltered toy_network;
  OrdererDeliver w o env :=
    if was_created mychannel w then @OrdererDeliver toy_network w o env
    else mkStream [] (Broken 1 (u "NOT_FOUND") (u "channel not found"));
|}.

(** Two organizations, each with its peer. *)
Definition bob : User :=
  mkUser (u "Org2MSP") (Some (u "bob")) None None (Some (bs "CERT2")) (Some (bs "KEY2")) ecies
    (Some toy_key).
Definition gateway2 : Gateway :=
  mkGateway [peer1; peer2] [orderer_down; orderer1] (Some mychannel) (Some bob) (Some chaincode1).
Definition members1 : list (Gateway * list Peer) := [(gateway1, [peer1]); (gateway2, [peer2])].

Section strict.
#[local] Existing Instance strict_network.

(** It refuses to join a channel that was not created, a deployment that was
    not installed, and an invocation before all of it. *)
Example strict_network_refuses :
  returned (Gateway_join_channel gateway1 None w0) = false
  ∧ returned (Gateway_instantiate_chaincode gateway1 None false 30 w0) = false
  ∧ returned (Gateway_invoke gateway1 (u "fcn") args1 None 30 w0) = false.
Proof. split_and!; vm_compute; reflexivity. Qed.
End strict.
