(* ===== verification/Loopback.v ===== *)
(** * Loopback: a gRPC library that hands every call to a server in the process

    An instance of [GrpcLibrary] that satisfies [GrpcLaws]: the request is
    serialized, the handler at the path is found and run on what parses, and
    its response is serialized and parsed back. *)
From S2P Require Import Prelude PyText Wire Protobuf Descriptors CommonProtos PeerProtos Constants TxData Errors Crypto Grpc Models Runtime Factories Connect Transact GrpcNetwork Toy.

(** Classes the client never uses carry nothing. *)
#[export] Instance toy_other : OtherMessages := {|
  other_codec _ := mkCodec unit (λ _, []) (λ _, Some tt);
|}.

(** ** Servers *)

Definition toy_endorser : EndorserServicer :=
  mkEndorserServicer (λ request, mret toy_response).
Definition toy_deliver : DeliverServicer :=
  mkDeliverServicer unimplemented (λ requests, mret [filtered_block_of (u "tx")]).
Definition toy_broadcast : AtomicBroadcastServicer :=
  mkAtomicBroadcastServicer (λ requests, mret ((λ _, mkBroadcastResponse 200 []) <$> requests))
    unimplemented.

Definition peer_services : list (sigT Servicer) :=
  [existT DeliverEvents toy_deliver; existT Endorser toy_endorser].
Definition orderer_services : list (sigT Servicer) :=
  [existT AtomicBroadcast toy_broadcast; existT Admin AdminServicer_base].
Definition bare_services : list (sigT Servicer) :=
  [existT Endorser EndorserServicer_base].

Definition endpoint_of (channel : GrpcChannel) : pystr :=
  match channel with secure_channel e _ _ | insecure_channel e _ => e end.

(** The server at an endpoint. *)
Definition toy_server (channel : GrpcChannel) : list GenericHandler :=
  server_of
    (if decide (endpoint_of channel = u "bare") then bare_services
     else if decide (endpoint_of channel = u "orderer1") then orderer_services
     else peer_services).

(** ** The library *)

Definition failure_of {A} (context : ServicerContext) : rpc A :=
  Fail 1 (default (u "StatusCode.UNKNOWN") (ctx_code context)) (default [] (ctx_details context)).

Definition codec_cast {c c' : MessageClass} (m : codec_type (codec c)) : option (codec_type (codec c')) :=
  match decide (c = c') with
  | left e => Some (eq_rect c (λ c, codec_type (codec c)) m c' e)
  | right _ => None
  end.

Lemma codec_cast_refl c (m : codec_type (codec c)) : codec_cast (c' := c) m = Some m.
Proof.
  unfold codec_cast. destruct (decide (c = c)) as [e|]; [|done].
  by rewrite (proof_irrel e eq_refl).
Qed.

(** A message over the wire. *)
Definition send (c : MessageClass) (m : codec_type (codec c)) : option (codec_type (codec c)) :=
  Deserialize (codec c) (Serialize (codec c) m).

Definition loop_unary (a b : MessageClass) (mc : MultiCallable) (req : codec_type (codec a)) :
    rpc (codec_type (codec b)) :=
  match find_handler (toy_server (mc_channel mc)) (mc_path mc) with
  | Some (mkHandler a' b' (Unary f)) =>
    match send a req ≫= codec_cast with
    | Some req =>
      match f req new_context with
      | (Ok resp, mkContext None _) =>
        match send b' resp ≫= codec_cast with Some resp => Reply 1 resp | None => NoReply end
      | (Raise _, context) => failure_of context
      | _ => NoReply
      end
    | None => NoReply
    end
  | _ => NoReply
  end.

Definition loop_stream (a b : MessageClass) (mc : MultiCallable) (reqs : list (codec_type (codec a))) :
    stream (codec_type (codec b)) :=
  match find_handler (toy_server (mc_channel mc)) (mc_path mc) with
  | Some (mkHandler a' b' (Streaming f)) =>
    match mapM (λ req, send a req ≫= codec_cast) reqs with
    | Some reqs =>
      match f reqs new_context with
      | (Ok resps, mkContext None _) =>
        match mapM (λ resp, send b' resp ≫= codec_cast) resps with
        | Some resps => mkStream ((λ r, (1%N, r)) <$> resps) (EndOfStream 1)
        | None => mkStream [] Silent
        end
      | (Raise _, context) =>
        match failure_of (A := unit) context with
        | Fail d code details => mkStream [] (Broken d code details)
        | _ => mkStream [] Silent
        end
      | _ => mkStream [] Silent
      end
    | None => mkStream [] Silent
    end
  | _ => mkStream [] Silent
  end.

#[export] Instance toy_library : GrpcLibrary := {|
  call_unary a b w mc req := loop_unary a b mc req;
  call_stream a b w mc reqs := loop_stream a b mc reqs;
|}.

Definition toy_connected (w : World) (channel : GrpcChannel) (server : list GenericHandler) : Prop :=
  server = toy_server channel.

Lemma mapM_transmits c (ms ms' : list (codec_type (codec c))) :
  Forall2 (transmits c) ms ms' → mapM (λ m, send c m ≫= codec_cast (c' := c)) ms = Some ms'.
Proof.
  intros Hms. apply mapM_Some. eapply Forall2_impl; [exact Hms|]. intros m m' Hm. unfold transmits in Hm.
  unfold send. rewrite Hm. cbn [mbind option_bind]. apply codec_cast_refl.
Qed.

#[export] Instance toy_library_laws : GrpcLaws toy_connected.
Proof.
  split.
  - intros w mc server a b f req req' -> _ _ _ Hf Ht. cbn. unfold loop_unary. rewrite Hf. cbn.
    unfold send, transmits in *. rewrite Ht. cbn [mbind option_bind]. rewrite codec_cast_refl.
    unfold unary_answers.
    destruct (f req' new_context) as [[resp|e|] [[code|] details]]; try done;
      try (do 3 eexists; split; [reflexivity|]; by intros ? [= <-]).
    intros resp' Hresp. unfold transmits in Hresp. rewrite Hresp. cbn [mbind option_bind].
    rewrite codec_cast_refl. by eexists.
  - intros w mc server a b f reqs reqs' -> _ _ _ Hf Ht. cbn. unfold loop_stream. rewrite Hf. cbn.
    rewrite (mapM_transmits a reqs reqs') by done. unfold stream_answers.
    destruct (f reqs' new_context) as [[resps|e|] [[code|] details]]; try done;
      try (split; [done|]; do 3 eexists; split; [reflexivity|]; by intros ? [= <-]).
    intros resps' Hresps. rewrite (mapM_transmits b resps resps') by done. cbn. split; [|by eexists].
    rewrite <-list_fmap_compose. apply list_fmap_id.
Qed.

(** ** Entities *)

Definition initialized_peer (endpoint : string) : Peer :=
  match new_Peer (toy_model endpoint) (Some (u endpoint)) with Ok p => p | _ => toy_peer endpoint end.
Definition initialized_orderer (endpoint : string) : Orderer :=
  match new_Orderer (toy_model endpoint) (Some (u endpoint)) with
  | Ok o => o
  | _ => toy_orderer endpoint
  end.

Lemma peer1_served w : served_peer (connected := toy_connected) peer_services w (initialized_peer "peer1").
Proof.
  split; [by exists (toy_model "peer1"), (Some (u "peer1"))|reflexivity|].
  by_compute.
Qed.
Lemma orderer1_served w : served_orderer (connected := toy_connected) orderer_services w (initialized_orderer "orderer1").
Proof.
  split; [by exists (toy_model "orderer1"), (Some (u "orderer1"))|reflexivity|].
  by_compute.
Qed.
Lemma bare_served w : served_peer (connected := toy_connected) bare_services w (initialized_peer "bare").
Proof.
  split; [by exists (toy_model "bare"), (Some (u "bare"))|reflexivity|].
  by_compute.
Qed.
