(* ===== verification/Witnesses.v ===== *)
(** * Witnesses: the theorems at concrete inputs

    Every theorem with hypotheses is applied to entities of Toy.v, its
    hypotheses discharged by evaluating the definitions. *)
From S2P Require Import Prelude PyText Sha256 Sha3 Pem Wire Protobuf Descriptors CommonProtos PeerProtos Constants TxData Errors Crypto Suite Grpc Models Transactions Decoded Block Runtime Factories Roundtrip Blocks Policies Connect Events Transact Package Operations GrpcNetwork Safety Gateway Completion Deployment Lifecycle Served Progress Concurrent Tasks Config Toy Loopback.

(** ** Runs *)

Definition env1 : Envelope := value_of Envelope_default
  (build_endorsed_tx_envelope (endorse gtx1 [toy_response; toy_response]) alice world1).
Definition world2 : World :=
  (build_endorsed_tx_envelope (endorse gtx1 [toy_response; toy_response]) alice world1).2.
Lemma envelope1_run :
  build_endorsed_tx_envelope (endorse gtx1 [toy_response; toy_response]) alice world1
  = (Ok env1, world2).
Proof. unfold env1, world2. apply returned_run. vm_compute. reflexivity. Qed.

Definition peer_identity : SerializedIdentity := mkSerializedIdentity (u "Org1MSP") (bs "PEER").

Lemma submitted_tx_decodes_witness :
  ∃ d, DecodedTX_decode (SerializeToString env1) = Ok d
    ∧ DecodedTX_tx_id d = GeneratedTX_tx_id gtx1.
Proof.
  destruct (submitted_tx_decodes alice (u "mycc") [bs "fcn"; bs "a"] (Some mychannel) transient1 w0
    gtx1 world1 toy_response [toy_response] [peer_identity; peer_identity]
    (mkProposalResponsePayload (bs "hash") (bs "ext")) alice world1 env1 world2)
    as (d & ch & Hd & Hid & _).
  - exact generate1_run.
  - exact envelope1_run.
  - vm_compute. reflexivity.
  - vm_compute. reflexivity.
  - vm_compute. reflexivity.
  - vm_compute. reflexivity.
  - vm_compute. reflexivity.
  - repeat constructor; vm_compute; reflexivity.
  - exists d. split; [exact Hd|exact Hid].
Defined.

(** A block of four transactions, one of every kind of payload. *)
Definition peer_signer : DecodedSignatureHeader := mkDecodedSignatureHeader peer_identity (bs "n").
Definition header_typed (ty : TransactionType) : DecodedHeader :=
  mkDecodedHeader (mkChannelHeader (TransactionType_value ty) 1 (Some (mkTimestamp 1573000000 5))
    (u "mychannel") (u "tx") 0 [] []) peer_signer.
Definition last_update1 : DecodedConfigUpdateEnvelope := mkDecodedConfigUpdateEnvelope
  (mkConfigUpdate (u "mychannel") None None [(u "k", bs "v")])
  [mkDecodedConfigUpdateSignature peer_signer (bs "s1")].
Definition payload_typed (ty : TransactionType) : DecodedPayloadData :=
  match ty with
  | TxConfig => PayloadConfig (mkDecodedConfig (mkConfig 7 None)
      (mkDecodedConfigLastUpdateEnvelope
        (mkDecodedConfigLastUpdate (header_typed TxConfigUpdate) last_update1) (bs "s2")))
  | TxConfigUpdate => PayloadConfigUpdate last_update1
  | TxEndorserTransaction => PayloadTransaction (mkDecodedTransactionBody
      [mkDecodedTransactionAction peer_signer (mkDecodedChaincodeActionPayload
        (mkDecodedChaincodeEndorsedAction (mkProposalResponsePayload (bs "hash") (bs "ext"))
          [mkDecodedEndoresement peer_identity (bs "e1")])
        (mkChaincodeProposalPayload (bs "input") []))])
  | _ => PayloadBytes (bs "data")
  end.
Definition block1 : DecodedBlock := mkDecodedBlock
  (mkBlockHeader 42 (bs "previous") (bs "hash"))
  (mkDecodedBlockData ((λ ty, mkDecodedTX (bs "sig") (mkDecodedPayload (header_typed ty)
    (payload_typed ty))) <$> [TxConfig; TxConfigUpdate; TxEndorserTransaction; TxMessage]))
  (mkDecodedBlockMetadata (mkDecodedMetadata [mkDecodedMetadataSignature (bs "m") peer_signer] (bs "v"),
    mkDecodedLastConfigMetadata [] (mkLastConfig 3), [0; 11; 254; 255]%N)).

Lemma delivered_block_decodes_witness :
  (raw ← next_block (PeerEvents alice mychannel peer1) (mkDeliverResponse
           (Some (DeliverResponse_is_block (RawBlock_as_proto (encode block1)))));
   RawBlock_decode raw) = Ok block1.
Proof.
  destruct (delivered_block_decodes alice mychannel peer1 orderer1 block1) as [Hd _].
  - vm_compute. reflexivity.
  - rewrite parse_serialized in Hd by (vm_compute; reflexivity). exact Hd.
Defined.

Definition etx1 : EndorsedTX := value_of default_etx
  (invoke alice [peer1; peer2] [orderer_down; orderer1] mychannel (u "mycc") (u "fcn") args1 30
    transient1 w0).
Definition world3 : World :=
  (invoke alice [peer1; peer2] [orderer_down; orderer1] mychannel (u "mycc") (u "fcn") args1 30
    transient1 w0).2.
Lemma invoke1_run :
  invoke alice [peer1; peer2] [orderer_down; orderer1] mychannel (u "mycc") (u "fcn") args1 30
    transient1 w0
  = (Ok etx1, world3).
Proof. unfold etx1, world3. apply returned_run. vm_compute. reflexivity. Qed.

(** The envelope sent to the second orderer. *)
Definition sent_envelope : Envelope :=
  foldl (λ e a, match a with ABroadcast _ e' => e' | _ => e end) Envelope_default
    (w_trace world3).

Lemma broadcast_only_endorsed_witness :
  ∃ tx w2 w3,
    endorsed_run (generate_cc_tx alice (u "mycc") mychannel (u "fcn") args1 transient1)
      [peer1; peer2] w0 tx w2
    ∧ orderer1 ∈ [orderer_down; orderer1]
    ∧ build_endorsed_tx_envelope tx alice w2 = (Ok sent_envelope, w3).
Proof.
  apply (proj1 (broadcast_only_endorsed alice [peer1; peer2] [orderer_down; orderer1] mychannel
    (u "mycc") (u "fcn") args1 30 transient1 chaincode1 None false w0 (Ok etx1) world3
    orderer1 sent_envelope)).
  - exact invoke1_run.
  - exists (w_trace world3). split; [apply extends_w0|].
    eapply (list_elem_of_lookup_2 _ 6). vm_compute. reflexivity.
Defined.

Lemma invoke_returns_committed_witness :
  ∃ w2, endorsed_run (generate_cc_tx alice (u "mycc") mychannel (u "fcn") args1 transient1)
          [peer1; peer2] w0 etx1 w2.
Proof.
  exact (proj1 (invoke_returns_committed alice [peer1; peer2] [orderer_down; orderer1] mychannel
    (u "mycc") (u "fcn") args1 30 transient1 w0 etx1 world3 invoke1_run)).
Defined.

Definition etx2 : EndorsedTX := value_of default_etx (Gateway_invoke gateway1 (u "fcn") args1 transient1 30 w0).
Definition world4 : World := (Gateway_invoke gateway1 (u "fcn") args1 transient1 30 w0).2.
Lemma gateway_invoke_run : Gateway_invoke gateway1 (u "fcn") args1 transient1 30 w0 = (Ok etx2, world4).
Proof. unfold etx2, world4. apply returned_run. vm_compute. reflexivity. Qed.

Lemma gateway_invoke_returns_committed_witness :
  confirmed_by (gw_endorsing_peers gateway1) (EndorsedTX_tx_id etx2).
Proof.
  destruct (gateway_invoke_returns_committed gateway1 (u "fcn") args1 transient1 30 w0 etx2 world4
    gateway_invoke_run) as (ch & rq & name & w2 & _ & _ & _ & _ & Hc).
  exact Hc.
Defined.

(** A builder that has been proposed, submitted and awaited. *)
Definition start1 : GatewayTXBuilder * World :=
  (submit (propose true (new_GatewayTXBuilder gateway1 gtx1)), world1).
Definition builder1 : GatewayTXBuilder * World := (run_operations start1).2.
Definition builder1_tx : EndorsedTX := value_of default_etx (run_operations start1).
Lemma awaited1_run : run_operations start1 = (Ok builder1_tx, builder1).
Proof. unfold builder1_tx, builder1. apply returned_run. vm_compute. reflexivity. Qed.

Lemma builder_invariant_witness : builder_ok gateway1 gtx1 builder1.
Proof.
  apply (builder_invariant gateway1 gtx1 world1 builder1).
  eapply rtc_l; [apply step_propose|]. eapply rtc_l; [apply step_submit|].
  eapply rtc_l; [|apply rtc_refl]. eapply step_await. exact awaited1_run.
Defined.

Lemma await_twice_witness :
  run_operations builder1 = (Raise (BlockchainError (u "Transaction never proposed")), builder1).
Proof. exact (proj2 (proj2 (await_twice start1 builder1_tx builder1 awaited1_run))). Defined.

(** ** Policies *)

Definition policy_envelope1 : SignaturePolicyEnvelope :=
  match build_signature_policy_envelope policy1 with
  | Ok env => env
  | _ => SignaturePolicyEnvelope_default
  end.
Lemma policy_envelope1_run : build_signature_policy_envelope policy1 = Ok policy_envelope1.
Proof. vm_compute. reflexivity. Qed.
Lemma all_roles_policy1 : all_roles policy1 = [role_a; role_b].
Proof. vm_compute. reflexivity. Qed.

(** Only a member of Org1MSP has signed: [A or ...] holds. *)
Definition signed_a (msp : pystr) (ty : Z) : bool := bool_decide (msp = u "Org1MSP") && (ty =? 0)%Z.

Lemma policy_envelope_meaning_witness :
  envelope_holds signed_a policy_envelope1 = policy_holds (role_signed signed_a) policy1
  ∧ policy_holds (role_signed signed_a) policy1 = true.
Proof.
  split; [|vm_compute; reflexivity].
  apply (policy_envelope_meaning policy1 policy_envelope1 signed_a policy_envelope1_run).
  intros r Hr. apply elem_of_all_roles_occurs in Hr. rewrite all_roles_policy1 in Hr.
  apply elem_of_cons in Hr as [->|Hr]; [vm_compute; reflexivity|].
  apply list_elem_of_singleton in Hr as ->. vm_compute. reflexivity.
Defined.

Lemma policy_envelope_indexes_witness :
  ∃ rule, SignaturePolicyEnvelope_rule policy_envelope1 = Some rule
    ∧ length (SignaturePolicyEnvelope_identities policy_envelope1) = length (all_roles policy1).
Proof.
  destruct (policy_envelope_indexes policy1 policy_envelope1 policy_envelope1_run)
    as (rule & Hr & Hl & _).
  exists rule. split; [exact Hr|exact Hl].
Defined.

Lemma policy_envelope_outcome_witness : ∃ env, build_signature_policy_envelope policy1 = Ok env.
Proof. refine (policy_envelope_outcome policy1 _). rewrite all_roles_policy1. vm_compute. congruence. Defined.

Lemma policy_envelope_canonical_witness :
  build_signature_policy_envelope (H := toy_set) policy1
  = build_signature_policy_envelope (H := reversed_set) policy1.
Proof.
  apply (policy_envelope_canonical toy_set reversed_set policy1).
  intros r s Hr Hs. apply (elem_of_all_roles_occurs (H := toy_set)) in Hr, Hs.
  rewrite all_roles_policy1 in Hr, Hs.
  apply elem_of_cons in Hr as [->|Hr], Hs as [->|Hs];
    try (apply list_elem_of_singleton in Hr as ->); try (apply list_elem_of_singleton in Hs as ->);
    vm_compute; congruence.
Defined.

(** ** Building *)

Definition gtx2 : GeneratedTX := value_of default_gtx
  (build_generated_tx alice (u "mycc") [bs "fcn"; bs "a"] (Some mychannel) None w0).
Definition world5 : World :=
  (build_generated_tx alice (u "mycc") [bs "fcn"; bs "a"] (Some mychannel) None w0).2.
Lemma generate2_run :
  build_generated_tx alice (u "mycc") [bs "fcn"; bs "a"] (Some mychannel) None w0 = (Ok gtx2, world5).
Proof. unfold gtx2, world5. apply returned_run. vm_compute. reflexivity. Qed.

Lemma transient_map_not_submitted_witness :
  gt_proposal gtx1 = gt_proposal gtx2 ∧ gt_signed_proposal gtx1 ≠ gt_signed_proposal gtx2.
Proof.
  split.
  - exact (proj1 (proj2 (proj2 (transient_map_not_submitted alice (u "mycc") [bs "fcn"; bs "a"]
      (Some mychannel) transient1 None w0 gtx1 gtx2 world1 world5 generate1_run generate2_run)))).
  - intros E. apply (f_equal (length ∘ SignedProposal_proposal_bytes)) in E. revert E.
    vm_compute. congruence.
Defined.

Lemma generated_tx_contents_witness :
  GeneratedTX_tx_id gtx1
  = compute_tx_id ecies (random_bytes 0 DEFAULT_NONCE_SIZE) (user_identity alice).
Proof.
  refine (proj1 (generated_tx_contents alice (u "mycc") [bs "fcn"; bs "a"] (Some mychannel)
    transient1 w0 gtx1 world1 generate1_run _ _ _ _)); vm_compute; reflexivity.
Defined.

Definition wrapped1 : Payload := mkPayload None (bs "data").
Lemma alice_ok : user_suite_ok (key_curve := toy_curve) alice CURVE_P_256_Size SHA2 toy_key.
Proof. split; [reflexivity|]. split; reflexivity. Qed.

Lemma wrapped_envelope_verifies_witness :
  ∃ env, wrap_transaction alice wrapped1 w0 = (Ok env, log (ASign (SerializeToString wrapped1)) w0).
Proof.
  destruct (wrapped_envelope_verifies alice CURVE_P_256_Size SHA2 toy_key wrapped1 w0 alice_ok)
    as (env & Hw & _).
  exists env. exact Hw.
Defined.

Definition update1 : bytes := SerializeToString (mkConfigUpdate (u "mychannel") None None []).
Definition env3 : Envelope := value_of Envelope_default
  (build_config_update_envelope mychannel (generated_context alice w0) alice update1 w0).
Definition world6 : World :=
  (build_config_update_envelope mychannel (generated_context alice w0) alice update1 w0).2.
Lemma config_update_run :
  build_config_update_envelope mychannel (generated_context alice w0) alice update1 w0
  = (Ok env3, world6).
Proof. unfold env3, world6. apply returned_run. vm_compute. reflexivity. Qed.

Lemma config_update_decodes_witness :
  ∃ d, DecodedTX_decode (SerializeToString env3) = Ok d
    ∧ DecodedTX_tx_id d = tc_tx_id (generated_context alice w0).
Proof.
  destruct (config_update_decodes alice mychannel update1
    (mkConfigUpdate (u "mychannel") None None []) w0 w0 env3 world6 config_update_run)
    as (ch & sig & v1 & _ & Hd & _ & Hid & _);
    [vm_compute; reflexivity..|].
  eexists. split; [exact Hd|exact Hid].
Defined.

Lemma seek_info_outcome_witness :
  ∃ s e code, build_seek_info (Some 0%Z) (Some INDEFINITE_STOP_POSITION) BlockUntilReady
    = Ok (mkSeekInfo (Some s) (Some e) code).
Proof.
  destruct (seek_info_outcome (Some 0%Z) (Some INDEFINITE_STOP_POSITION) BlockUntilReady)
    as (s & e & code & Hb & _).
  exists s, e, code. exact Hb.
Defined.

Lemma encode_proto_str_text_witness : encode_proto_str (u "mychannel") = Ok (u "mychannel").
Proof. apply (proj1 (encode_proto_str_text (u "mychannel"))). vm_compute. reflexivity. Defined.

Lemma pem_to_der_armor_witness :
  pem_to_der (join_with "010"%byte ([bs "-----BEGIN CERTIFICATE-----"; bs "YWJj"; bs "ZGVm"]
    ++ [bs "-----END CERTIFICATE-----"; []])) = Some (bs "abcdef").
Proof.
  apply (pem_to_der_armor (bs "-----BEGIN CERTIFICATE-----") [bs "YWJj"; bs "ZGVm"]
    (bs "-----END CERTIFICATE-----") (bs "abcdef")).
  - by_compute.
  - vm_compute. reflexivity.
Defined.

(** ** Sending *)

Definition broadcast_run : res (option BroadcastResponse) * World :=
  broadcast_to_orderers env1 [orderer_down; orderer1] (u "tx") w0.

Lemma broadcast_to_orderers_spec_witness :
  ∃ failed x rest, [orderer_down; orderer1] = failed ++ x :: rest
    ∧ extends w0 broadcast_run.2 ((λ o, ABroadcast o env1) <$> failed ++ [x]).
Proof.
  destruct (broadcast_to_orderers_spec env1 [orderer_down; orderer1] (u "tx") w0
    broadcast_run.1 broadcast_run.2) as (failed & x & rest & wx & Ho & Ht & _).
  - congruence.
  - apply surjective_pairing.
  - exists failed, x, rest. split; [exact Ho|exact Ht].
Defined.

Definition proposed : res EndorsedTX * World := propose_tx [peer1; peer2] gtx1 world1.

Lemma propose_tx_spec_witness :
  extends world1 proposed.2
    [AProcessProposal peer1 (gt_signed_proposal gtx1); AProcessProposal peer2 (gt_signed_proposal gtx1)].
Proof.
  refine (proj1 (propose_tx_spec [peer1; peer2] gtx1 world1 proposed.1 proposed.2 _ _)).
  - congruence.
  - apply surjective_pairing.
Defined.

Lemma response_payload_first_witness :
  response_payload (endorse gtx1 [ProposalResponse_default; toy_response]) = Ok (bs "ok").
Proof.
  apply (proj1 (response_payload_first (endorse gtx1 [ProposalResponse_default; toy_response]))
    [ProposalResponse_default] toy_response []).
  - reflexivity.
  - reflexivity.
  - repeat constructor. vm_compute. congruence.
Defined.

(** ** Events *)

(** The id of the transaction, and the world after it was broadcast. *)
Definition tx_id1 : pystr := GeneratedTX_tx_id gtx1.
Definition submitted : World := builder1.2.
Definition hub1 : EventHub DeliverResponse FilteredBlock FilteredTX.t :=
  PeerFilteredEvents alice mychannel peer1.
Definition hub_envelope : Envelope := value_of Envelope_default
  (get_connection_envelope hub1 None (Some INDEFINITE_STOP_POSITION) BlockUntilReady submitted).
Definition connected : World :=
  (get_connection_envelope hub1 None (Some INDEFINITE_STOP_POSITION) BlockUntilReady submitted).2.
Definition found_at : World := advance (4 + 0 + 6) (log (ADeliverFiltered peer1 hub_envelope) connected).
Definition found_tx : FilteredTX.t :=
  FilteredTX.mk tx_id1 TxEndorserTransaction 0 FilteredTransactionActions_default.

Lemma connection_run :
  get_connection_envelope (PeerFilteredEvents alice mychannel peer1) None
    (Some INDEFINITE_STOP_POSITION) BlockUntilReady submitted = (Ok hub_envelope, connected).
Proof. unfold hub_envelope, connected, hub1. apply returned_run. vm_compute. reflexivity. Qed.

Lemma delivered1 :
  delivered alice mychannel peer1 tx_id1 None BlockUntilReady submitted found_tx found_at.
Proof.
  exists hub_envelope, connected, 10%N. split; [exact connection_run|]. split; [|reflexivity].
  exists [(4%N, filtered_block_of (u "other"))], 6%N, (filtered_block_of tx_id1), [],
    (mkFilteredBlock (u "mychannel") 7 [found_tx]), [], [].
  split; [vm_compute; reflexivity|]. split.
  - constructor; [|constructor]. eexists. split; [vm_compute; reflexivity|]. vm_compute. reflexivity.
  - split; [vm_compute; reflexivity|]. split; [reflexivity|]. split; [reflexivity|].
    split; [constructor|]. reflexivity.
Qed.

Lemma get_transaction_finds_witness :
  get_transaction (PeerFilteredEvents alice mychannel peer1) tx_id1 None BlockUntilReady submitted
  = (Ok found_tx, found_at).
Proof. exact (get_transaction_finds alice mychannel peer1 tx_id1 None BlockUntilReady submitted _ _ delivered1). Defined.

Lemma check_transaction_decides_witness :
  check_transaction (PeerFilteredEvents alice mychannel peer1) tx_id1 30 None BlockUntilReady submitted
  = (Ok found_tx, found_at).
Proof.
  refine (check_transaction_decides alice mychannel peer1 tx_id1 30 None BlockUntilReady submitted
    found_tx found_at delivered1 _ _); vm_compute; reflexivity.
Defined.

Definition checked : res FilteredTX.t :=
  (check_transaction (PeerFilteredEvents alice mychannel peer1) tx_id1 30 None BlockUntilReady submitted).1.
Definition world8 : World :=
  (check_transaction (PeerFilteredEvents alice mychannel peer1) tx_id1 30 None BlockUntilReady submitted).2.
Lemma checked_run :
  check_transaction (PeerFilteredEvents alice mychannel peer1) tx_id1 30 None BlockUntilReady submitted
  = (checked, world8).
Proof. unfold checked, world8. apply surjective_pairing. Qed.

Lemma check_transaction_sound_witness : checked ≠ Hang.
Proof.
  exact (proj1 (check_transaction_sound alice mychannel peer1 tx_id1 30 None BlockUntilReady
    submitted checked world8 checked_run)).
Defined.

(** ** The gateway and the operations *)

Lemma gateway_query_is_query_witness :
  same_result (Gateway_query gateway1 (u "fcn") args1 transient1 w0).1
    (query alice [peer1; peer2] mychannel (u "mycc") (u "fcn") args1 transient1 w0).1.
Proof.
  destruct (gateway_query_is_query gateway1 (u "fcn") args1 transient1 w0)
    as (ch & rq & name & Hc & Hr & Hn & Hq).
  - vm_compute. reflexivity.
  - injection Hc as <-. injection Hr as <-. injection Hn as <-. exact (proj2 Hq).
Defined.

Definition empty_gateway : Gateway := mkGateway [] [] None None None.


Definition world7 : World := (join_channel alice [orderer1] mychannel peer1 w0).2.
Lemma join1_run : join_channel alice [orderer1] mychannel peer1 w0 = (Ok tt, world7).
Proof.
  assert (returned (join_channel alice [orderer1] mychannel peer1 w0) = true) as Hr
    by (vm_compute; reflexivity).
  etransitivity; [exact (returned_run tt _ Hr)|]. unfold world7.
  by destruct (value_of tt (join_channel alice [orderer1] mychannel peer1 w0)).
Qed.

Lemma join_channel_needs_all_orderers_witness :
  Forall (λ o, ∃ r, origin_from alice mychannel o r) [orderer1].
Proof.
  exact (proj1 (proj2 (join_channel_needs_all_orderers alice [orderer1] mychannel peer1 w0 world7
    join1_run))).
Defined.

Lemma package_chaincode_reproducible_witness :
  (package_chaincode chaincode1 w0).1 = (package_chaincode chaincode1 world1).1
  ∧ returned (package_chaincode chaincode1 w0) = true.
Proof.
  split; [exact (package_chaincode_reproducible chaincode1 w0 world1)|]. vm_compute. reflexivity.
Defined.

(** ** Configuration *)

Definition secured_model : ConnectedModel :=
  mkConnectedModel (u "peer0:7051") None (Some (u "ca.pem")) None None None None None.
Definition secured_peer : Peer :=
  match new_Peer secured_model None with Ok p => p | _ => peer1 end.
Definition config1 : BlockchainConfig :=
  mkBlockchainConfig [(u "peer0", secured_peer)] [(u "orderer", orderer1)] [(u "bob", alice)]
    [(u "mycc", mkChaincodeSpec None None GOLANG None None)]
    [(u "gw", mkGatewayConfig (u "mychannel") (u "bob") [u "peer0"] [u "orderer"] (Some (u "mycc")))].
Definition config2 : BlockchainConfig :=
  ok_or config1 (BlockchainConfig_post_init config1).
Lemma config1_run : BlockchainConfig_post_init config1 = Ok config2.
Proof. unfold config2. apply is_ok_run. vm_compute. reflexivity. Qed.
Lemma no_gateway : is_ok (get_gateway config2 (u "none")) = false.
Proof. vm_compute. reflexivity. Qed.

Lemma config_names_entities_witness :
  match get_peer config2 (u "peer0") with
  | Ok p => ∃ p0, dict_get (bc_peers config1) (u "peer0") = Some p0
              ∧ peer_name p = Some (py_or (peer_name p0) (u "peer0"))
  | r => dict_get (bc_peers config1) (u "peer0") = None ∧ ∃ msg, r = Raise (KeyError msg)
  end.
Proof. exact (proj1 (config_names_entities config1 config2 (u "peer0") config1_run)). Defined.

Lemma get_gateway_resolves_witness :
  ∃ e, get_gateway config2 (u "none") = Raise e ∧ names_missing config2 e.
Proof.
  destruct (get_gateway_resolves config2 (u "none")) as [_ Hm].
  pose proof no_gateway as Hno. revert Hno Hm.
  destruct (get_gateway config2 (u "none")) as [g|e|]; intros Hno Hm; [discriminate Hno| |destruct Hm].
  exists e. split; [reflexivity|exact Hm].
Defined.

Lemma reinitialization_stable_witness :
  Peer_replace_name secured_peer (Some (u "p"))
  = Ok (mkPeer (peer_model secured_peer) (Some (u "p")) (peer_endorser secured_peer)
          (peer_discovery secured_peer) (peer_deliver secured_peer)).
Proof.
  apply (proj1 (reinitialization_stable secured_model None secured_peer orderer1 alice alice (Some (u "p")))).
  vm_compute. reflexivity.
Defined.

Definition secured_result : ConnectedModel * GrpcChannel :=
  match ConnectedModel_post_init secured_model with
  | Ok r => r
  | _ => (secured_model, insecure_channel [] [])
  end.

Lemma connection_secure_witness :
  match secured_result.2 with
  | secure_channel endpoint creds _ => endpoint = u "peer0:7051"
  | insecure_channel _ _ => False
  end.
Proof.
  pose proof (connection_secure secured_model secured_result.1 secured_result.2) as Hs.
  assert (ConnectedModel_post_init secured_model = Ok (secured_result.1, secured_result.2)) as Hrun
    by (vm_compute; reflexivity).
  specialize (Hs Hrun). revert Hs. vm_compute. intros [E ?]. exact E.
Defined.

(** ** Cryptography *)

Lemma sign_then_verify_witness :
  ∃ sig, ecies_sign (new_Ecies 256 SHA2) 0 toy_key (bs "m") = Ok sig
    ∧ check_malleability (new_Ecies 256 SHA2) sig = Ok true
    ∧ ecies_verify (new_Ecies 256 SHA2) (public_key toy_key) (bs "m") sig = Ok true.
Proof. apply (sign_then_verify (key_curve := toy_curve) 256 SHA2 toy_key 0 (bs "m")). reflexivity. Defined.

Lemma ecies_fulfils_witness :
  fulfils public_key (on_curve (key_curve := toy_curve)) (new_Ecies 256 SHA3).
Proof. apply (ecies_fulfils (key_curve := toy_curve) 256 SHA3). left. split; [reflexivity|right; reflexivity]. Defined.

Lemma signature_not_malleable_witness :
  prevent_malleability (new_Ecies 256 SHA2) (encode_dss_signature 5 7)
  = prevent_malleability (new_Ecies 256 SHA2) (encode_dss_signature 5 (P256_order - 7)).
Proof.
  refine (proj1 (signature_not_malleable (key_curve := toy_curve) 256 SHA2 5 7 _ _)); vm_compute;
    repeat split; congruence.
Defined.

Lemma decrypt_encrypt_witness :
  ∃ ct, ecies_encrypt (new_Ecies 256 SHA3) 3 (public_key toy_key) (bs "secret") = Ok ct
    ∧ ecies_decrypt (new_Ecies 256 SHA3) toy_key ct = Ok (bs "secret").
Proof.
  apply (decrypt_encrypt (key_curve := toy_curve) (new_Ecies 256 SHA3) toy_key 3 (bs "secret")); reflexivity.
Defined.

Definition own_ciphertext : bytes :=
  match ecies_encrypt (new_Ecies 384 SHA2) 3 (public_key toy_key384) (bs "secret") with
  | Ok ct => ct
  | _ => []
  end.

Lemma decrypt_rejects_all_witness :
  length own_ciphertext = 151
  ∧ ∃ msg, ecies_decrypt (new_Ecies 384 SHA2) toy_key384 own_ciphertext = Raise (ValueError msg).
Proof.
  split; [vm_compute; reflexivity|].
  refine (decrypt_rejects_all (key_curve := toy_curve) (new_Ecies 384 SHA2) toy_key384 _ _ _);
    [reflexivity|vm_compute; congruence].
Defined.

(** ** Services *)

Lemma stubs_match_servicers_witness :
  ∃ h, find_handler (server_of peer_services) (u "/protos.Endorser/ProcessProposal") = Some h
    ∧ h_arity h = UnaryUnary ∧ h_request h = c_SignedProposal.
Proof.
  destruct (stubs_match_servicers peer_services Endorser toy_endorser (insecure_channel (u "peer1") []))
    as [Hs _]; [by_compute|right; left|].
  destruct (Hs (u "ProcessProposal") _ ltac:(left)) as (_ & g & h & _ & _ & Hh & Ha & Hr & _).
  exists h. split; [exact Hh|]. split; [exact Ha|exact Hr].
Defined.

Definition proposal1 : SignedProposal := gt_signed_proposal gtx1.

Lemma grpc_network_calls_servicers_witness :
  (∃ d, ProcessProposal (Network := grpc_network) w0 (initialized_peer "peer1") proposal1
        = Reply d toy_response)
  ∧ snd <$> st_items (Broadcast (Network := grpc_network) w0 (initialized_orderer "orderer1") env1)
    = [mkBroadcastResponse 200 []].
Proof.
  destruct (grpc_network_calls_servicers (connected := toy_connected) peer_services orderer_services w0
    (initialized_peer "peer1") (initialized_orderer "orderer1") toy_endorser toy_deliver toy_broadcast
    proposal1 env1) as (Hp & _ & _ & Hb & _).
  - apply peer1_served.
  - apply orderer1_served.
  - right; left.
  - left.
  - left.
  - vm_compute. reflexivity.
  - vm_compute. reflexivity.
  - split.
    + apply Hp. vm_compute. reflexivity.
    + destruct (Hb [mkBroadcastResponse 200 []]) as [Hi _]; [|exact Hi].
      repeat constructor; vm_compute; reflexivity.
Defined.

Definition bare_peers : list Peer := [initialized_peer "bare"; initialized_peer "bare"].

Lemma unimplemented_endorsers_refuse_witness :
  ∃ details, (propose_tx (H1 := grpc_network) bare_peers gtx1 world1).1
    = Raise (new_BlockchainConnectionError unimplemented_code details).
Proof.
  apply (unimplemented_endorsers_refuse (connected := toy_connected) bare_peers gtx1 world1 _
    (propose_tx (H1 := grpc_network) bare_peers gtx1 world1).2).
  - discriminate.
  - vm_compute. reflexivity.
  - intros p w Hp. exists bare_services. split; [|left].
    assert (p = initialized_peer "bare") as -> by set_solver. apply bare_served.
  - apply surjective_pairing.
Defined.

(** ** Tasks *)

Definition is_broadcast (a : Action) : bool :=
  match a with ABroadcast _ _ => true | _ => false end.

Definition shared_builder : EventLoop := new_loop gateway1 gtx1 world1.
Definition run_events (es : list Event) : EventLoop := default shared_builder (handle_all es shared_builder).

(** The builder is told to propose and submit and is awaited in two tasks;
    both submissions fail over to the second orderer. *)
Definition both_submit : list Event :=
  [ECall (OpPropose true); ECall OpSubmit; EAwait; EAwait; EBegin 0; EBegin 1; EOther 5 [];
   EResume 0; EResume 1; EOther 3 []; EResume 0; EResume 1; EOther 2 []].

Lemma run_events_reached es :
  bool_decide (is_Some (handle_all es shared_builder)) = true → reachable gateway1 gtx1 world1 (run_events es).
Proof.
  intros [c Hc]%bool_decide_eq_true_1. unfold run_events. rewrite Hc. by apply (handle_all_steps es).
Qed.

Lemma both_submit_two : length (loop_tasks (run_events both_submit)) = 2.
Proof. vm_compute. done. Qed.

(** The answer of [run_events] where the events can happen. *)
Lemma run_events_run es :
  bool_decide (is_Some (handle_all es shared_builder)) = true →
  handle_all es shared_builder = Some (run_events es).
Proof. intros [c Hc]%bool_decide_eq_true_1. unfold run_events. by rewrite Hc. Qed.

Lemma tasks_invariant_witness :
  ∃ t, loop_tasks (run_events both_submit) !! 0 = Some t
    ∧ task_ok gateway1 gtx1 (λ op, ECall op ∈ both_submit)
        (refused_in (loop_tasks (run_events both_submit))) (loop_shared (run_events both_submit)) t.
Proof.
  destruct (tasks_invariant gateway1 gtx1 world1 both_submit (run_events both_submit)) as [_ Ht].
  - apply run_events_run. vm_compute. reflexivity.
  - destruct (lookup_lt_is_Some_2 (loop_tasks (run_events both_submit)) 0) as [t Hi].
    + rewrite both_submit_two. lia.
    + exists t. split; [exact Hi|]. apply (Ht 0 t Hi).
Defined.

#[export] Instance toy_answering : Answering.
Proof.
  split; [done|]. intros w o env. unfold Broadcast, toy_network.
  by destruct (decide (cm_endpoint (orderer_model o) = u "down")).
Qed.

Definition unfinished (t : TaskState) : bool :=
  match t with TNew | TPending _ _ _ => true | _ => false end.
Lemma unfinished_task (ts : list TaskState) (i : nat) :
  unfinished <$> ts !! i = Some true →
  ∃ t, ts !! i = Some t ∧ (t = TNew ∨ ∃ l k a, t = TPending l k a).
Proof.
  destruct (ts !! i) as [t|]; [|done]. intros Ht. exists t. split; [done|].
  destruct t as [|l k a| |]; [by left|right; by exists l, k, a|done|done].
Qed.

(** The second task, suspended at the proposal while the first submits. *)
Lemma tasks_can_finish_witness :
  ∃ s r, rtc loop_step (run_events (take 8 both_submit))
      (mkLoop s (<[1 := TDone r]> (loop_tasks (run_events (take 8 both_submit))))) ∧ r ≠ Hang.
Proof.
  destruct (unfinished_task (loop_tasks (run_events (take 8 both_submit))) 1) as (t & Hi & Ht).
  - vm_compute. reflexivity.
  - apply (tasks_can_finish gateway1 gtx1 world1 (run_events (take 8 both_submit)) 1 t).
    + apply run_events_reached. vm_compute. reflexivity.
    + exact Hi.
    + exact Ht.
Defined.

(** The first task returns while the second is still at the proposal. *)
Definition overtaking : list Event := take 8 both_submit ++ [EOther 3 []; EResume 0; EOther 2 []].
Definition overtaken : EventLoop := run_events (overtaking ++ [EResume 0]).

Definition returned_of (t : option TaskState) : option EndorsedTX :=
  match t with Some (TDone (Ok tx)) => Some tx | _ => None end.
Lemma returned_of_Some t :
  bool_decide (is_Some (returned_of t)) = true →
  t = Some (TDone (Ok (default default_etx (returned_of t)))).
Proof. by intros [tx Ht]%bool_decide_eq_true_1; destruct t as [[| |[]|]|]. Qed.

Lemma unreturned_not t tx :
  bool_decide (is_Some (returned_of t)) = false → t ≠ Some (TDone (Ok tx)).
Proof. intros Ht ->. done. Qed.
Definition place (t : option TaskState) : option (nat * nat) :=
  match t with Some (TPending l k _) => Some (l, k) | _ => None end.
Lemma pending_at t l k : place t = Some (l, k) → ∃ a, t = Some (TPending l k a).
Proof. destruct t as [[|l' k' a| |]|]; try done. intros [= -> ->]. by exists a. Qed.

Lemma overtaking_step : handle (EResume 0) (run_events overtaking) = Some overtaken.
Proof.
  assert (bool_decide (is_Some (handle (EResume 0) (run_events overtaking))) = true) as [c Hc]%bool_decide_eq_true_1
    by (vm_compute; reflexivity).
  rewrite Hc. unfold overtaken, run_events.
  assert (handle_all overtaking shared_builder = Some (run_events overtaking)) as Hr
    by (apply run_events_run; vm_compute; reflexivity).
  by rewrite (handle_all_snoc _ _ _ _ _ Hr Hc).
Qed.

(** The second task, which was told to submit, will not: whatever happens, it
    stays at its first operation until it ends. *)
Lemma returned_await_clears_witness :
  ∃ l, sh_lists (loop_shared overtaken) !! l = Some []
    ∧ (∃ a, loop_tasks overtaken !! 1 = Some (TPending l 1 a))
    ∧ ∀ d, rtc loop_step overtaken d → ∀ k a e' d' l' k' a',
        loop_tasks d !! 1 = Some (TPending l k a) → handle e' d = Some d' →
        loop_tasks d' !! 1 = Some (TPending l' k' a') → l' = l ∧ k' = k.
Proof.
  destruct (returned_await_clears gateway1 gtx1 world1 (run_events overtaking) (EResume 0) overtaken 0
    (default default_etx (returned_of (loop_tasks overtaken !! 0))))
    as (l & Ho & _ & _ & Hl & _ & _ & Hd).
  - apply run_events_reached. vm_compute. reflexivity.
  - exact overtaking_step.
  - apply (unreturned_not _ _). vm_compute. reflexivity.
  - apply returned_of_Some. vm_compute. reflexivity.
  - exists l. split; [exact Hl|]. split.
    + assert (l = 0) as -> by (assert (o_operations (sh_self (loop_shared (run_events overtaking))) = Some 0)
        as H0 by (vm_compute; reflexivity); rewrite H0 in Ho; by injection Ho).
      apply pending_at. vm_compute. reflexivity.
    + intros d Hr k a. destruct (Hd d Hr) as [_ Hs]. apply Hs.
Defined.

Lemma invocations_end_witness :
  (Gateway_invoke gateway1 (u "fcn") args1 transient1 30 w0).1 ≠ Hang.
Proof.
  destruct (invocations_end alice [peer1] [orderer1] mychannel (u "mycc") (u "fcn") args1 30 transient1
    gateway1 (new_GatewayTXBuilder gateway1 gtx1)) as (_ & _ & Hg & _).
  apply Hg.
Defined.

(** A builder that is told everything and awaited, then told to submit once
    more and awaited again. *)
Definition invoking : GatewayTXBuilder := foldr add_operation (new_GatewayTXBuilder gateway1 gtx1)
  [OpWaitForCommit true 30; OpSubmit; OpPropose true].
Definition invoking_run : res EndorsedTX * (GatewayTXBuilder * World) :=
  run_operations (invoking, world1).
Definition again_run : res EndorsedTX * (GatewayTXBuilder * World) :=
  run_operations (add_operation OpSubmit invoking_run.2.1, invoking_run.2.2).

Lemma invoking_returns :
  run_operations (invoking, world1) = (Ok (value_of default_etx invoking_run), invoking_run.2).
Proof. unfold invoking_run. apply returned_run. vm_compute. reflexivity. Qed.
Lemma again_returns :
  run_operations (add_operation OpSubmit invoking_run.2.1, invoking_run.2.2)
  = (Ok (value_of default_etx again_run), again_run.2).
Proof. unfold again_run. apply returned_run. vm_compute. reflexivity. Qed.

Definition life_end : (GatewayTXBuilder * World) * list (res EndorsedTX) :=
  (again_run.2, [Ok (value_of default_etx invoking_run); Ok (value_of default_etx again_run)]).

Lemma life_run : rtc life_step (new_GatewayTXBuilder gateway1 gtx1, world1, []) life_end.
Proof.
  do 3 (eapply rtc_l; [apply life_call|]). eapply rtc_l.
  { eapply life_await; [exact invoking_returns|discriminate]. }
  rewrite (surjective_pairing invoking_run.2).
  eapply rtc_l; [apply life_call|]. apply rtc_once.
  exact (life_await (add_operation OpSubmit invoking_run.2.1, invoking_run.2.2)
    (Ok (value_of default_etx again_run)) again_run.2 [Ok (value_of default_etx invoking_run)]
    again_returns ltac:(discriminate)).
Qed.

Lemma lives_refine_witness : ∃ c, reachable gateway1 gtx1 world1 c ∧ stands_for c life_end.
Proof. exact (lives_refine gateway1 gtx1 world1 life_end life_run). Defined.

(** Endorsed and told to submit. *)
Definition endorsed_run1 : res EndorsedTX * World := propose_tx [peer1; peer2] gtx1 world1.
Definition endorsed_tx1 : EndorsedTX := value_of default_etx endorsed_run1.
Definition endorsed_builder : Shared :=
  mkShared (mkObject gtx1 gateway1 (Some endorsed_tx1) None false (Some 1)) [[]; [OpSubmit]]
    endorsed_run1.2.
Definition envelope_run1 : res Envelope * World :=
  build_endorsed_tx_envelope endorsed_tx1 alice (sh_world endorsed_builder).
Definition envelope_run2 : res Envelope * World :=
  build_endorsed_tx_envelope endorsed_tx1 alice
    (log (ABroadcast orderer_down (value_of Envelope_default envelope_run1)) envelope_run1.2).

Lemma two_awaits_submit_twice_witness :
  ∃ c, handle_all [EAwait; EAwait; EBegin 0; EBegin 1] (mkLoop endorsed_builder []) = Some c
    ∧ length (filter is_broadcast (w_trace (sh_world (loop_shared c)))) = 2.
Proof.
  destruct (two_awaits_submit_twice endorsed_builder 1 [] endorsed_tx1 alice orderer_down [orderer1]
    (value_of Envelope_default envelope_run1) envelope_run1.2
    (value_of Envelope_default envelope_run2) envelope_run2.2) as (c & Hc & Htr & _).
  - reflexivity.
  - reflexivity.
  - reflexivity.
  - reflexivity.
  - reflexivity.
  - unfold envelope_run1.
    apply returned_run. vm_compute. reflexivity.
  - unfold envelope_run2.
    apply returned_run. vm_compute. reflexivity.
  - exists c. split; [exact Hc|]. rewrite Htr. vm_compute. reflexivity.
Defined.

(** A call that is lost.  The first task ends and empties the list; the
    program queues [wait_for_commit], which gets a list of its own; the second
    task reaches the end of the old list and empties the new one.  Nobody has
    waited for the commit, and a third task finds nothing to do. *)
Definition queued_call_is_lost : list Event :=
  both_submit ++ [EResume 0; ECall (OpWaitForCommit true 30); EResume 1; EAwait; EBegin 2].

Definition task_returned (t : TaskState) : option bool :=
  match t with TDone (Ok _) => Some true | TDone (Raise _) => Some false | _ => None end.

Definition is_deliver (a : Action) : bool :=
  match a with ADeliverFiltered _ _ => true | _ => false end.

Example queued_call_lost :
  let c := run_events queued_call_is_lost in
  task_returned <$> loop_tasks c = [Some true; Some true; Some false]
  ∧ o_committed (sh_self (loop_shared c)) = true
  ∧ existsb is_deliver (w_trace (sh_world (loop_shared c))) = false
  ∧ length (filter is_broadcast (w_trace (sh_world (loop_shared c)))) = 4.
Proof. vm_compute. done. Qed.

(** Both tasks return; only the first has submitted, to an orderer that is
    down and then to one that is not. *)
Example second_task_skips_submit :
  let c := run_events (overtaking ++ [EResume 0; EResume 1]) in
  task_returned <$> loop_tasks c = [Some true; Some true]
  ∧ length (filter is_broadcast (w_trace (sh_world (loop_shared c)))) = 2.
Proof. vm_compute. done. Qed.

(** ['adm\u0131n'.upper()] is ['ADMIN']: a role name outside ASCII can be known. *)
Example dotless_role_known :
  role_known (mkRole (u "Org1MSP") [97; 100; 109; 0x131; 110]%N) = true.
Proof. vm_compute. done. Qed.

(** ** A network in working order *)

Definition found (tx_id : pystr) : FilteredTX.t :=
  FilteredTX.mk tx_id TxEndorserTransaction 0 FilteredTransactionActions_default.

Lemma toy_hub_block tx_id :
  next_block hub1 (filtered_block_of tx_id) = Ok (mkFilteredBlock (u "mychannel") 7 [found tx_id]).
Proof. reflexivity. Qed.

(** The toy network reads the id that the client's decoder reads. *)
Lemma last_tx_id_decoded w env d :
  last (broadcasts w) = Some env → DecodedTX_decode (SerializeToString env) = Ok d →
  last_tx_id w = Some (DecodedTX_tx_id d).
Proof.
  intros Hl Hd. unfold DecodedTX_decode in Hd. rewrite parse_serialized in Hd by done.
  rewrite bind_Ok in Hd. apply outcome_bind_Ok in Hd as (p & Hp & Hd).
  apply outcome_bind_Ok in Hd as (h & Hh & Hd). apply outcome_bind_Ok in Hd as (ty & _ & Hd).
  apply outcome_bind_Ok in Hd as (data & _ & [= <-]).
  apply outcome_bind_Ok in Hh as (ch & Hch & (sh & _ & [= <-])%outcome_bind_Ok).
  unfold broadcasts in Hl. unfold last_tx_id. destruct w as [clock trace]. cbn [w_trace] in *.
  revert Hl. induction trace as [|a trace IH] using rev_ind; [done|].
  rewrite omap_app, foldl_app. cbn [foldl].
  destruct a; cbn [omap list_omap]; rewrite ?app_nil_r; try exact IH.
  rewrite last_snoc. intros [= ->]. by rewrite Hp, Hch.
Qed.

Lemma toy_streams tx_id :
  ∃ t delay, streams_transaction hub1 tx_id
      [(4%N, filtered_block_of (u "other")); (6%N, filtered_block_of tx_id)] t delay
    ∧ FilteredTX.tx_validation_code t = TxValidationCode_VALID ∧ (delay < 30 * nanos_per_second)%N.
Proof.
  exists (found tx_id). destruct (decide (tx_id = u "other")) as [->|Hne].
  - exists 4%N. split; [|done]. eexists [], _, _, _, _, [], []. by split_and!.
  - exists 10%N. split; [|done].
    eexists [(4%N, filtered_block_of (u "other"))], _, _, [], _, [], [].
    split_and!; try done. constructor; [|constructor]. eexists. split; [apply toy_hub_block|].
    change ((if decide (u "other" = tx_id) then Ok (Some (found (u "other"))) else Ok None)
      = (Ok None : res (option FilteredTX.t))).
    by rewrite decide_False.
Qed.

Lemma toy_serving : serving alice mychannel [peer1; peer2] [orderer_down; orderer1] 30.
Proof.
  constructor.
  - exists [orderer_down], orderer1, []. split; [done|]. split.
    + constructor; [|constructor]. intros w env. by eexists _, _, _.
    + intros w env. by eexists _, _, _, _.
  - exists peer1, [peer2]. split; [done|]. split; [done|]. intros w env d req Hl Hd.
    cbn [DeliverFiltered toy_network]. rewrite (last_tx_id_decoded w env d Hl Hd). apply toy_streams.
Qed.

Lemma toy_response_endorses : endorses toy_response.
Proof. split; [done|]. split; eexists; vm_compute; reflexivity. Qed.

Lemma toy_working : working alice mychannel [peer1; peer2] [orderer_down; orderer1] 30.
Proof.
  constructor; [|exact toy_serving]. intros w p sp _. exists 5%N, toy_response.
  split; [done|exact toy_response_endorses].
Qed.

Lemma toy_client_ok : client_ok alice mychannel (u "mycc") (u "fcn") args1 w0.
Proof.
  constructor; [constructor; try (vm_compute; reflexivity); by eexists|vm_compute; reflexivity|].
  repeat constructor.
Qed.

Lemma invoke_succeeds_witness :
  ∃ tx w', invoke alice [peer1; peer2] [orderer_down; orderer1] mychannel (u "mycc") (u "fcn")
             args1 30 transient1 w0 = (Ok tx, w')
    ∧ endorsed_and_broadcast [peer1; peer2] tx w'.
Proof.
  exact (invoke_succeeds alice mychannel [peer1; peer2] [orderer_down; orderer1] 30 (u "mycc")
    (u "fcn") args1 transient1 w0 toy_client_ok toy_working).
Defined.

Lemma gateway_invoke_succeeds_witness :
  ∃ tx w', Gateway_invoke gateway1 (u "fcn") args1 transient1 30 w0 = (Ok tx, w')
    ∧ endorsed_and_broadcast [peer1; peer2] tx w'.
Proof.
  refine (gateway_invoke_succeeds alice mychannel [peer1; peer2] [orderer_down; orderer1] 30
    chaincode1 (u "mycc") (u "fcn") args1 transient1 w0 _ _ toy_client_ok toy_working); vm_compute; reflexivity.
Defined.

Definition package1 : bytes := value_of [] (package_chaincode chaincode1 w0).
Lemma package1_run : package_chaincode chaincode1 w0 = (Ok package1, w0).
Proof. vm_compute. reflexivity. Qed.

Lemma toy_serves_origin o :
  tls_ok (orderer_client_cert o) → serves_origin alice mychannel o.
Proof.
  intros Ht. split; [exact Ht|]. intros w req. eexists _, _, _, _, _. split; [reflexivity|]. reflexivity.
Qed.

Lemma deployment_succeeds_witness :
  (∃ w', create_channel alice [orderer_down; orderer1] mychannel (u "channel.tx") w0 = (Ok tt, w'))
  ∧ (∃ w', join_channel alice [orderer_down; orderer1] mychannel peer2 w0 = (Ok tt, w'))
  ∧ ∃ tx w', instantiate_chaincode alice [peer1; peer2] [orderer_down; orderer1] mychannel chaincode1
      (Some policy1) true 30 w0 = (Ok tx, w').
Proof.
  destruct (deployment_succeeds alice mychannel [peer1; peer2] [orderer_down; orderer1] 30
    (u "channel.tx") channel_update chaincode1 package1 (Some policy1) true w0)
    as ((env & ctx & v & v' & w1 & Hcreate & _) & Hjoin & _ & (tx & w2 & Hinst & _)).
  - exact (co_sender _ _ _ _ _ _ toy_client_ok).
  - exact toy_working.
  - constructor; [apply toy_serves_origin; by intros [=]|].
    constructor; [apply toy_serves_origin; by intros [=]|constructor].
  - vm_compute. reflexivity.
  - exact package1_run.
  - split; [reflexivity|constructor|]. eexists. vm_compute. reflexivity.
  - split; [by exists w1|]. split; [|by exists tx, w2]. apply Hjoin. right. left.
Defined.

Lemma toy_endorser_endorses : endorsing_servicer toy_endorser.
Proof.
  intros sp. exists toy_response. split; [reflexivity|]. split; [vm_compute; reflexivity|].
  split; [reflexivity|]. split; eexists; vm_compute; reflexivity.
Qed.

Lemma toy_broadcast_accepts : accepting_servicer toy_broadcast.
Proof. intros env. by exists (mkBroadcastResponse 200 []), []. Qed.

Lemma endorsed_and_committed_over_grpc_witness :
  ∃ rs w1 resp w3,
    propose_tx (H1 := grpc_network) [initialized_peer "peer1"; initialized_peer "peer1"] gtx1 world1
      = (Ok (endorse gtx1 rs), w1)
    ∧ commit_tx (H1 := grpc_network) alice [initialized_orderer "orderer1"; orderer_down]
        (endorse gtx1 rs) w1 = (Ok (Some resp), w3).
Proof.
  destruct (endorsed_and_committed_over_grpc (connected := toy_connected) (key_curve := toy_curve) alice
    [initialized_peer "peer1"; initialized_peer "peer1"] (initialized_orderer "orderer1") [orderer_down]
    orderer_services toy_broadcast gtx1 world1)
    as (rs & w1 & env & w2 & resp & w3 & Hp & _ & _ & _ & Hc & _).
  - by eexists.
  - discriminate.
  - intros p w Hp. exists peer_services, toy_endorser.
    assert (p = initialized_peer "peer1") as ->
      by (apply elem_of_cons in Hp as [->|Hp]; [done|by apply list_elem_of_singleton in Hp]).
    split; [apply peer1_served|]. split; [right; left|exact toy_endorser_endorses].
  - apply orderer1_served.
  - left.
  - exact toy_broadcast_accepts.
  - exists rs, w1, resp, w3. split; [exact Hp|exact Hc].
Defined.

(** ** A network that insists on the order *)

Section strict.
#[local] Existing Instance strict_network.

Lemma existsb_elem {A} (f : A → bool) (l : list A) x : x ∈ l → f x = true → existsb f l = true.
Proof. intros Hx%list_elem_of_In Hf. apply existsb_exists. by exists x. Qed.

Lemma was_asked_ok c p w : asked_call c p w → was_asked c p w = true.
Proof.
  intros (sp & Ha & Hc). eapply existsb_elem; [exact Ha|]. cbv beta iota. unfold same_peer.
  by rewrite !bool_decide_true.
Qed.
Lemma was_created_ok w : created mychannel w → was_created mychannel w = true.
Proof.
  intros (o & env & h & Ha & Hh & Ht & Hc). eapply existsb_elem; [exact Ha|]. cbv beta iota.
  by rewrite Hh, Ht, Hc, Z.eqb_refl, bool_decide_true.
Qed.
Lemma was_submitted_ok c w : Lifecycle.submitted c w → was_submitted c w = true.
Proof.
  intros (o & env & d & Ha & Hd & Hc). eapply existsb_elem; [exact Ha|]. cbv beta iota.
  by rewrite Hd, bool_decide_true.
Qed.
Lemma is_ready_ok c p w : Lifecycle.ready mychannel c p w → is_ready mychannel c p w = true.
Proof.
  destruct c as [|cc|cc|name]; cbn.
  - apply was_created_ok.
  - done.
  - intros [Hj Hi]. by rewrite !was_asked_ok.
  - intros [Hj (version & (sp & Ha & Hc) & Hs)]. rewrite was_asked_ok by done. cbn.
    eapply existsb_elem; [exact Ha|]. cbv beta iota. unfold same_peer. rewrite Hc.
    by rewrite !bool_decide_true, was_submitted_ok.
Qed.

Lemma strict_fabric : fabric alice mychannel [peer1; peer2] [orderer_down; orderer1] 30.
Proof.
  constructor.
  - intros w p sp c _ Hc Hr. exists 5%N, toy_response. split; [|exact toy_response_endorses].
    cbn. by rewrite Hc, is_ready_ok.
  - intros rq w o Ho Hc.
    assert (tls_ok (orderer_client_cert o)) as Ht
      by (repeat (apply elem_of_cons in Ho as [->|Ho]; [by intros [=]|]); by apply elem_of_nil in Ho).
    split; [exact Ht|]. intros req. cbn. rewrite was_created_ok by done.
    eexists _, _, _, _, _. split; reflexivity.
  - destruct toy_serving as [Ho Hd]. constructor; [exact Ho|exact Hd].
Qed.

Lemma strict_deployable : deployable chaincode1 (u "mycc") None.
Proof.
  constructor; try reflexivity.
  - split_and!; [reflexivity|discriminate..].
  - intros w. eexists. vm_compute. reflexivity.
  - split; [reflexivity|constructor|exact I].
Qed.

Lemma strict_members :
  Forall (member mychannel [peer1; peer2] [orderer_down; orderer1] chaincode1) members1.
Proof.
  constructor; [|constructor; [|constructor]]; split; try reflexivity.
  - exists alice. split; [reflexivity|by eexists].
  - split; [discriminate|]. intros p ->%list_elem_of_singleton. left.
  - exists bob. split; [reflexivity|by eexists].
  - split; [discriminate|]. intros p ->%list_elem_of_singleton. right. left.
Qed.

Lemma network_brought_up_witness :
  ∃ tx w' tx' v', bring_up gateway1 members1 (u "channel.tx") None 30 w0 = (Ok tx, w')
    ∧ Gateway_invoke gateway1 (u "fcn") args1 None 30 w' = (Ok tx', v').
Proof.
  assert (clock_ok (bring_up gateway1 members1 (u "channel.tx") None 30 w0).2) as Hclock by (vm_compute; reflexivity).
  destruct (network_brought_up alice mychannel [peer1; peer2] [orderer_down; orderer1] 30 chaincode1
    (u "mycc") members1 (u "channel.tx") channel_update None w0) as (tx & w' & Hrun & _ & Hinvoke).
  - by eexists.
  - vm_compute. reflexivity.
  - vm_compute. reflexivity.
  - exact strict_fabric.
  - vm_compute. reflexivity.
  - exact strict_deployable.
  - exact strict_members.
  - intros p Hp. exact Hp.
  - exact Hclock.
  - destruct (Hinvoke w' (u "fcn") args1 None) as (tx' & v' & Hinv & _).
    + reflexivity.
    + unfold gateway1 in Hclock. rewrite Hrun in Hclock. destruct toy_client_ok as [[Hk Hu _ Hc] Hn Ha].
      split; [split; [exact Hk|exact Hu|exact Hclock|exact Hc]|exact Hn|exact Ha].
    + reflexivity.
    + exists tx, w', tx', v'. split; [exact Hrun|exact Hinv].
Defined.
End strict.
