(* ===== verification/Fixtures.v ===== *)
(** * Fixtures: the data files of the repository's tests

    network-config/genesis.block and network-config/channel.tx, made by the
    scripts of bin/ with the tools of Fabric, in hexadecimal, and the files of
    test/resources; [repository_files] is the file system that holds them. *)
From S2P Require Import Prelude PyText Errors Models.

Definition nibble (c : Ascii.ascii) : N :=
  let n := Ascii.N_of_ascii c in if (n <? 58)%N then n - 48 else n - 87.
Fixpoint unhex_line (s : string) : bytes :=
  match s with
  | String.String a (String.String b s) => byte_of_N (16 * nibble a + nibble b) :: unhex_line s
  | _ => []
  end.
Definition unhex (lines : list string) : bytes := lines ≫= unhex_line.

Definition channel_tx_file : bytes := Eval vm_compute in unhex [
  "0aac020a190a1708021a0608bcf591eb05220b6578616d706c656368616e128e020a8b020a0b6578616d706c6563";
  "68616e123512230a0b4170706c69636174696f6e121412080a044f726732120012080a044f72673112001a0e0a0a";
  "436f6e736f727469756d12001ac401129a010a0b4170706c69636174696f6e128a01080112080a044f7267311200";
  "12080a044f726732120022220a07577269746572731217120d080312090a07577269746572731a0641646d696e73";
  "22220a0641646d696e731218120e0803120a0a0641646d696e7310021a0641646d696e7322220a07526561646572";
  "731217120d080312090a07526561646572731a0641646d696e732a0641646d696e731a250a0a436f6e736f727469";
  "756d121712150a1342434e6574776f726b436f6e736f727469756d"
]%string.

Definition genesis_block_file : bytes := Eval vm_compute in unhex [
  "0a221a20a8d19880941eb231d1c70f67b93fb9a63813644e6bf00050a3ff190a06b870fe12d47c0ad17c0ace7c0a";
  "7d0a5f080110011a0608fbd29ceb05220f67656e657369732d6368616e6e656c2a40376631646361373533636630";
  "38303762336133616539373163316634663634376535653534303031653739333730326333383563613765316334";
  "373963333863121a1218782410e4d96f5cc0b4afe9dd696148c9b0555cb47ba8174712cc7b0ac97b12c67b12b82b";
  "0a0b436f6e736f727469756d7312a82b12dd2a0a1342434e6574776f726b436f6e736f727469756d12c52a12e014";
  "0a044f72673112d7141af9120a034d535012f11212e61212e3120a074f7267314d535012a2062d2d2d2d2d424547";
  "494e2043455254494649434154452d2d2d2d2d0a4d494943496a434341636d6741774942416749514278666b7664";
  "75766d332f42592b5473526a3875467a414b42676771686b6a4f50515144416a426a4d5173770a43515944565151";
  "4745774a56557a45544d4245474131554543424d4b5132467361575a76636d3570595445574d4251474131554542";
  "784d4e5532467549455a790a5957356a61584e6a627a45524d4138474131554543684d4962334a6e4d53356a6232";
  "30784644415342674e5642414d5443324e684c6d39795a7a4575593239740a4d423458445445354d4467794e6a41";
  "794d544d304e6c6f58445449354d4467794d7a41794d544d304e6c6f77597a454c4d416b474131554542684d4356";
  "564d780a457a415242674e5642416754436b4e6862476c6d62334a7561574578466a415542674e56424163544456";
  "4e6862694247636d467559326c7a59323878455441500a42674e5642416f54434739795a7a4575593239744d5251";
  "7745675944565151444577746a59533576636d63784c6d4e766254425a4d424d4742797147534d34390a41674547";
  "43437147534d3439417745484130494142506d576d36664f514255677347794e3061774531745564446e30665970";
  "4f5875485a6e4c416664573858510a683266616b3148546e526c6f6433354f44656751677a5448526c63686c6376";
  "396843674256334d6643446d6a587a42644d41344741315564447745422f7751450a41774942706a415042674e56";
  "485355454344414742675256485355414d41384741315564457745422f7751464d414d42416638774b5159445652";
  "304f424349450a494b326d5a723035426a52562f7a4739644d417035753479453673367457315065373434474f72";
  "624b6347504d416f4743437147534d343942414d43413063410a4d455143494631736b4358782b48745a555a6166";
  "7437317a486c4a322b6d477074776633364947584e4c576770464f39416942366d4a30524b707374424c72320a6b";
  "4a495257564b73656539643345444f5371715a6e494830324f756578513d3d0a2d2d2d2d2d454e44204345525449";
  "4649434154452d2d2d2d2d0a22f5052d2d2d2d2d424547494e2043455254494649434154452d2d2d2d2d0a4d4949";
  "434154434341616967417749424167495241504a4a48716766435a756568306e314f53584c62746b77436759494b";
  "6f5a497a6a304541774977597a454c0a4d416b474131554542684d4356564d78457a415242674e5642416754436b";
  "4e6862476c6d62334a7561574578466a415542674e564241635444564e68626942470a636d467559326c7a593238";
  "784554415042674e5642416f54434739795a7a4575593239744d52517745675944565151444577746a5953357663";
  "6d63784c6d4e760a62544165467730784f5441344d6a59774d6a457a4e446861467730794f5441344d6a4d774d6a";
  "457a4e4468614d464d78437a414a42674e5642415954416c56540a4d524d77455159445651514945777044595778";
  "705a6d3979626d6c684d52597746415944565151484577315459573467526e4a68626d4e7063324e764d5263770a";
  "4651594456515144444135425a473170626b4276636d63784c6d4e766254425a4d424d4742797147534d34394167";
  "454743437147534d343941774548413049410a42466d6474524e366d49764a4165675a534c454c676b4745553778";
  "476f4144754374473937753168646f526150654d522f756f544e4a7268584c362b4a687a450a4443673956697436";
  "47636a6d4b43682b304a7641496b716a5454424c4d41344741315564447745422f775145417749486744414d4267";
  "4e5648524d42416638450a416a41414d437347413155644977516b4d434b41494b326d5a723035426a52562f7a47";
  "39644d417035753479453673367457315065373434474f72624b6347500a4d416f4743437147534d343942414d43";
  "413063414d45514349426c6f626a487742444c695574496947636361722f62743661534a30324b354e31376e376e";
  "73690a764a335641694258305a5164416a354c41467070786479574a70746f39554e4c5976634f3851425041476b";
  "385933496f74513d3d0a2d2d2d2d2d454e442043455254494649434154452d2d2d2d2d0a420e0a04534841321206";
  "5348413235364aaa062d2d2d2d2d424547494e2043455254494649434154452d2d2d2d2d0a4d4949434b6a434341";
  "6443674177494241674952414b627a4773757964357051306f4f446763566653327777436759494b6f5a497a6a30";
  "45417749775a6a454c0a4d416b474131554542684d4356564d78457a415242674e5642416754436b4e6862476c6d";
  "62334a7561574578466a415542674e564241635444564e68626942470a636d467559326c7a593238784554415042";
  "674e5642416f54434739795a7a4575593239744d52637746515944565151444577353062484e6a59533576636d63";
  "780a4c6d4e7662544165467730784f5441344d6a59774d6a457a4e445a61467730794f5441344d6a4d774d6a457a";
  "4e445a614d475978437a414a42674e56424159540a416c56544d524d77455159445651514945777044595778705a";
  "6d3979626d6c684d52597746415944565151484577315459573467526e4a68626d4e7063324e760a4d5245774477";
  "59445651514b45776876636d63784c6d4e76625445584d4255474131554541784d4f6447787a5932457562334a6e";
  "4d53356a62323077575441540a42676371686b6a4f5051494242676771686b6a4f50514d4242774e43414151716e";
  "566d377946434b364f646c5a4b5836536d4348724b71524450496f6c6d2f4a0a4835622b2b4c7648666f6a336477";
  "506d4e345163633979466c6a7a68352f6e4552586f76565164464746345557773561435353446f3138775854414f";
  "42674e560a485138424166384542414d4341615977447759445652306c42416777426759455652306c4144415042";
  "674e5648524d4241663845425441444151482f4d436b470a413155644467516942434230706c2b55344348764c4e";
  "364c376f41366a6c4f35333150354434656c67375273435145794364766c3244414b42676771686b6a4f0a505151";
  "4441674e4941444246416945416e4e6267795549686d4576515861326b324f64385837653632666e5955324c362b";
  "776f3872314453562f5143494869630a567a2f4a78546f5a334a6f50417968546d5363577676544b7471546b3454";
  "78785a674f58673339340a2d2d2d2d2d454e442043455254494649434154452d2d2d2d2d0a1a0641646d696e7322";
  "300a07577269746572731225121b08011217120812060801120208001a0b12090a074f7267314d53501a0641646d";
  "696e7322310a0641646d696e731227121d08011219120812060801120208001a0d120b0a074f7267314d53501001";
  "1a0641646d696e73223a0a0b456e646f7273656d656e74122b12210801121d120812060801120208001a11120f0a";
  "0d4f7264657265724f72674d53501a0641646d696e7322300a07526561646572731225121b080112171208120608";
  "01120208001a0b12090a074f7267314d53501a0641646d696e732a0641646d696e731284150a044f72673212fb14";
  "1a9d130a034d5350129513128a131287130a074f7267324d535012b2062d2d2d2d2d424547494e20434552544946";
  "49434154452d2d2d2d2d0a4d4949434d4443434164656741774942416749514e3946624557307772312f44433854";
  "38753237576244414b42676771686b6a4f50515144416a426a4d5173770a435159445651514745774a56557a4554";
  "4d4245474131554543424d4b5132467361575a76636d3570595445574d4251474131554542784d4e553246754945";
  "5a790a5957356a61584e6a627a45524d4138474131554543684d4962334a6e4d69356a623230784644415342674e";
  "5642414d5443324e684c6d39795a7a4975593239740a4d423458445445354d4467794e7a41784d446b774d466f58";
  "445449354d4467794e4441784d446b774d466f77597a454c4d416b474131554542684d4356564d780a457a415242";
  "674e5642416754436b4e6862476c6d62334a7561574578466a415542674e564241635444564e6862694247636d46";
  "7559326c7a59323878455441500a42674e5642416f54434739795a7a4975593239744d5251774567594456515144";
  "4577746a59533576636d63794c6d4e766254425a4d424d4742797147534d34390a4167454743437147534d343941";
  "774548413049414249787a74323473752f6354316d53555856325a4d51417750516b6f4e5954766f696e6d6b445a";
  "6a342b53430a79514d717051587935625464727170757362475378677730596e5a6a712f7054384f5668706d6668";
  "3977756a625442724d41344741315564447745422f7751450a41774942706a416442674e5648535545466a415542";
  "6767724267454642516344416759494b775942425155484177457744775944565230544151482f424155770a4177";
  "45422f7a417042674e56485134454967516733494a585a50396a42576274374f4f546e4a35473875706f58784b79";
  "4b6269382b6f696f7677676c765438770a436759494b6f5a497a6a304541774944527741775241496742544c5857";
  "58597870582f69716159624431536149657238532b424433634b7066373939596f786d0a4d4149434941584b7338";
  "49634f4642593730434b725649466b3465476276302f664856684475546254794a45687770380a2d2d2d2d2d454e";
  "442043455254494649434154452d2d2d2d2d0a22f5052d2d2d2d2d424547494e2043455254494649434154452d2d";
  "2d2d2d0a4d49494341544343416169674177494241674952414b304c454e35374242327268674e62705533737376";
  "5977436759494b6f5a497a6a304541774977597a454c0a4d416b474131554542684d4356564d78457a415242674e";
  "5642416754436b4e6862476c6d62334a7561574578466a415542674e564241635444564e68626942470a636d4675";
  "59326c7a593238784554415042674e5642416f54434739795a7a4975593239744d52517745675944565151444577";
  "746a59533576636d63794c6d4e760a62544165467730784f5441344d6a63774d5441354d444261467730794f5441";
  "344d6a51774d5441354d4442614d464d78437a414a42674e5642415954416c56540a4d524d774551594456515149";
  "45777044595778705a6d3979626d6c684d52597746415944565151484577315459573467526e4a68626d4e706332";
  "4e764d5263770a4651594456515144444135425a473170626b4276636d63794c6d4e766254425a4d424d47427971";
  "47534d34394167454743437147534d343941774548413049410a424d537565727a514d445746596e762f73527259";
  "776d6e384c356277334f3435356c59364e50565a476e6c57416c545a7859713066304154584b5a7068462f6c0a32";
  "704630633567523045785454533178354850626745476a5454424c4d41344741315564447745422f775145417749";
  "486744414d42674e5648524d42416638450a416a41414d437347413155644977516b4d434b41494e79435632542f";
  "5977566d37657a6a6b35796552764c716146385373696d3476507149714c38494a62302f0a4d416f474343714753";
  "4d343942414d43413063414d4551434947347a36747a73456e664e52346a784c794c32726231334370682f6c7455";
  "5a392b674b667077520a35496162416942376c6870452b33784238493948387741324b6763484c72436f48715157";
  "42544e365941456f5a5377306f773d3d0a2d2d2d2d2d454e442043455254494649434154452d2d2d2d2d0a420e0a";
  "045348413212065348413235364abe062d2d2d2d2d424547494e2043455254494649434154452d2d2d2d2d0a4d49";
  "49434e7a43434164326741774942416749514a72674f2b6a724e30775341736f684a764e526d456a414b42676771";
  "686b6a4f50515144416a426d4d5173770a435159445651514745774a56557a45544d4245474131554543424d4b51";
  "32467361575a76636d3570595445574d4251474131554542784d4e5532467549455a790a5957356a61584e6a627a";
  "45524d4138474131554543684d4962334a6e4d69356a62323078467a415642674e5642414d54446e527363324e68";
  "4c6d39795a7a49750a593239744d423458445445354d4467794e7a41784d446b774d466f58445449354d4467794e";
  "4441784d446b774d466f775a6a454c4d416b474131554542684d430a56564d78457a415242674e5642416754436b";
  "4e6862476c6d62334a7561574578466a415542674e564241635444564e6862694247636d467559326c7a59323878";
  "0a4554415042674e5642416f54434739795a7a4975593239744d52637746515944565151444577353062484e6a59";
  "533576636d63794c6d4e766254425a4d424d470a42797147534d34394167454743437147534d3439417745484130";
  "4941424377437a596845456b4c5551466f5a714f5762384550675164467a534859776279516f0a72757450544d49";
  "374b5841392f753779616763754d37645a474442616a5a5939395a5454452b623337496357484969616b36796a62";
  "5442724d413447413155640a447745422f77514541774942706a416442674e5648535545466a4155426767724267";
  "454642516344416759494b775942425155484177457744775944565230540a4151482f42415577417745422f7a41";
  "7042674e5648513445496751676274764a59367a424755424858587142555a714b5137697662534e586e4d345134";
  "6273640a687741704e776b77436759494b6f5a497a6a3045417749445341417752514968414b2b533038715a5153";
  "78346f505073656c5832624c2b3671584c47317a64370a4849426734556a614d636633416942794f36394e6d6f39";
  "3434485131734175683145774a44686552662f5776675566634f2b6666424a753552773d3d0a2d2d2d2d2d454e44";
  "2043455254494649434154452d2d2d2d2d0a1a0641646d696e7322300a07577269746572731225121b0801121712";
  "0812060801120208001a0b12090a074f7267324d53501a0641646d696e7322310a0641646d696e731227121d0801";
  "1219120812060801120208001a0d120b0a074f7267324d535010011a0641646d696e73223a0a0b456e646f727365";
  "6d656e74122b12210801121d120812060801120208001a11120f0a0d4f7264657265724f72674d53501a0641646d";
  "696e7322300a07526561646572731225121b08011217120812060801120208001a0b12090a074f7267324d53501a";
  "0641646d696e732a0641646d696e731a400a154368616e6e656c4372656174696f6e506f6c6963791227120c0803";
  "12080a0641646d696e731a172f4368616e6e656c2f4f7264657265722f41646d696e732a172f4368616e6e656c2f";
  "4f7264657265722f41646d696e73222d0a0641646d696e731223120808011204120212001a172f4368616e6e656c";
  "2f4f7264657265722f41646d696e732a172f4368616e6e656c2f4f7264657265722f41646d696e7312b5180a074f";
  "72646572657212a91812d8150a0a4f7264657265724f726712c9151ad9130a034d535012d11312c61312c3130a0d";
  "4f7264657265724f72674d535012c2062d2d2d2d2d424547494e2043455254494649434154452d2d2d2d2d0a4d49";
  "49434f6a43434165476741774942416749514e436a6f2b6c744d776833516f49394c46304f2f6a54414b42676771";
  "686b6a4f50515144416a42764d5173770a435159445651514745774a56557a45544d4245474131554543424d4b51";
  "32467361575a76636d3570595445574d4251474131554542784d4e5532467549455a790a5957356a61584e6a627a";
  "45584d4255474131554543684d4f62334a6b5a584a6c636d39795a79356a62323078476a415942674e5642414d54";
  "45574e684c6d39790a5a4756795a584a76636d6375593239744d423458445445354d4467794e6a41794d544d304f";
  "466f58445449354d4467794d7a41794d544d304f466f77627a454c0a4d416b474131554542684d4356564d78457a";
  "415242674e5642416754436b4e6862476c6d62334a7561574578466a415542674e564241635444564e6862694247";
  "0a636d467559326c7a59323878467a415642674e5642416f54446d39795a4756795a584a76636d6375593239744d";
  "526f7747415944565151444578466a595335760a636d526c636d567962334a6e4c6d4e766254425a4d424d474279";
  "7147534d34394167454743437147534d343941774548413049414250375a7856324d316456720a79775932333372";
  "624c43324a724e5453384152464d6e54384d4b2b374b42366852736e4a4850445a7877473542304c32354c4e514f";
  "5551435337706c6f4e6f590a56785974704c554b4b31576a587a42644d41344741315564447745422f7751454177";
  "4942706a415042674e56485355454344414742675256485355414d4138470a41315564457745422f7751464d414d";
  "42416638774b5159445652304f4243494549494b5048483777334c6e4e335a4d4e533549362f4533726c2b52394b";
  "794d410a706866737951356c683853514d416f4743437147534d343942414d43413063414d45514349437a657833";
  "323975664448715177424138354b537a6b71577544540a30527a426a4f76505341474c4745445a41694261374a69";
  "6e4f684a645943794266643753667a387873614d4332523951707550324c6937393550707549513d3d0a2d2d2d2d";
  "2d454e442043455254494649434154452d2d2d2d2d0a228e062d2d2d2d2d424547494e2043455254494649434154";
  "452d2d2d2d2d0a4d494943457a434341626d67417749424167495150534b41676569584e7a345a6c65677a355059";
  "504d54414b42676771686b6a4f50515144416a42764d5173770a435159445651514745774a56557a45544d424547";
  "4131554543424d4b5132467361575a76636d3570595445574d4251474131554542784d4e5532467549455a790a59";
  "57356a61584e6a627a45584d4255474131554543684d4f62334a6b5a584a6c636d39795a79356a62323078476a41";
  "5942674e5642414d5445574e684c6d39790a5a4756795a584a76636d6375593239744d423458445445354d446779";
  "4e6a41794d544d304f566f58445449354d4467794d7a41794d544d304f566f775754454c0a4d416b474131554542";
  "684d4356564d78457a415242674e5642416754436b4e6862476c6d62334a7561574578466a415542674e56424163";
  "5444564e68626942470a636d467559326c7a593238784854416242674e5642414d4d4645466b62576c7551473979";
  "5a4756795a584a76636d6375593239744d466b77457759484b6f5a490a7a6a3043415159494b6f5a497a6a304441";
  "516344516741456d79576b6834544f6f4439657a30736c58796d71724c754635674f617347456c392b746b646538";
  "350a6b6f386d6f6330785243624d467947374730577631444d6d54355951414e7761304c45476f46426d575a7573";
  "2f714e4e4d45737744675944565230504151482f0a42415144416765414d41774741315564457745422f7751434d";
  "4141774b7759445652306a42435177496f4167676f386366764463756333646b77314c6b6a72380a546575583548";
  "30724977436d462b7a4a446d5748784a4177436759494b6f5a497a6a3045417749445341417752514968414b702b";
  "31695179665571516d714c6c0a6d7379634f515154324a43734a7434694c364f6272654452632b632f4169417647";
  "7232752b5a746d70336f2b664e52426a366e543251497068694d45485a72690a5779316d7243347845673d3d0a2d";
  "2d2d2d2d454e442043455254494649434154452d2d2d2d2d0a420e0a045348413212065348413235364acb062d2d";
  "2d2d2d424547494e2043455254494649434154452d2d2d2d2d0a4d49494351544343416565674177494241674951";
  "54516f316f77497251446e784d30545467343664646a414b42676771686b6a4f50515144416a42794d5173770a43";
  "5159445651514745774a56557a45544d4245474131554543424d4b5132467361575a76636d3570595445574d4251";
  "474131554542784d4e5532467549455a790a5957356a61584e6a627a45584d4255474131554543684d4f62334a6b";
  "5a584a6c636d39795a79356a623230784854416242674e5642414d544648527363324e680a4c6d39795a4756795a";
  "584a76636d6375593239744d423458445445354d4467794e6a41794d544d304f466f58445449354d4467794d7a41";
  "794d544d304f466f770a636a454c4d416b474131554542684d4356564d78457a415242674e5642416754436b4e68";
  "62476c6d62334a7561574578466a415542674e564241635444564e680a62694247636d467559326c7a5932387846";
  "7a415642674e5642416f54446d39795a4756795a584a76636d6375593239744d5230774777594456515144457852";
  "300a62484e6a59533576636d526c636d567962334a6e4c6d4e766254425a4d424d4742797147534d343941674547";
  "43437147534d34394177454841304941424234680a50304d636d3578527678757154396c71344e62346432537453";
  "7133384d6f52522b424b7465766d54354c7565503053734a6a456d787464342b2b387a3974446c0a6d4f4c78486a";
  "315348547566597a78383948326a587a42644d41344741315564447745422f77514541774942706a415042674e56";
  "4853554543444147426752560a485355414d41384741315564457745422f7751464d414d42416638774b51594456";
  "52304f424349454950674f6e66502f665964487a4c486e64764e69367754710a577733712b574158547761796b48";
  "4f79302b61684d416f4743437147534d343942414d43413067414d45554349514450314a544a574132324b4f6c6d";
  "613779350a4d6259796c65552f616f7a4976714f2b3869332b3676756364674967592b4f64655a4f713854524364";
  "7835476c57354f796b517877793242614d7972317037350a363176717a34593d0a2d2d2d2d2d454e442043455254";
  "494649434154452d2d2d2d2d0a1a0641646d696e7322360a0752656164657273122b12210801121d120812060801";
  "120208001a11120f0a0d4f7264657265724f72674d53501a0641646d696e7322360a0757726974657273122b1221";
  "0801121d120812060801120208001a11120f0a0d4f7264657265724f72674d53501a0641646d696e7322370a0641";
  "646d696e73122d12230801121f120812060801120208001a1312110a0d4f7264657265724f72674d535010011a06";
  "41646d696e73223a0a0b456e646f7273656d656e74122b12210801121d120812060801120208001a11120f0a0d4f";
  "7264657265724f72674d53501a0641646d696e732a0641646d696e731a210a0d436f6e73656e7375735479706512";
  "1012060a04736f6c6f1a0641646d696e731a220a09426174636853697a651215120b080a108080c031188080201a";
  "0641646d696e731a1e0a0c426174636854696d656f7574120e12040a0232731a0641646d696e731a1f0a13436861";
  "6e6e656c5265737472696374696f6e7312081a0641646d696e731a240a0c4361706162696c69746965731214120a";
  "0a080a0456315f3112001a0641646d696e7322220a07577269746572731217120d080312090a0757726974657273";
  "1a0641646d696e7322220a0641646d696e731218120e0803120a0a0641646d696e7310021a0641646d696e73222a";
  "0a0f426c6f636b56616c69646174696f6e1217120d080312090a07577269746572731a0641646d696e7322220a07";
  "526561646572731217120d080312090a07526561646572731a0641646d696e732a0641646d696e7312c6350a0b41";
  "70706c69636174696f6e12b635128f150a044f7267311286151a2d0a0b416e63686f725065657273121e12140a12";
  "0a0d706565722e6f7267312e636f6d108b371a0641646d696e731af9120a034d535012f11212e61212e3120a074f";
  "7267314d535012a2062d2d2d2d2d424547494e2043455254494649434154452d2d2d2d2d0a4d494943496a434341";
  "636d6741774942416749514278666b766475766d332f42592b5473526a3875467a414b42676771686b6a4f505151";
  "44416a426a4d5173770a435159445651514745774a56557a45544d4245474131554543424d4b5132467361575a76";
  "636d3570595445574d4251474131554542784d4e5532467549455a790a5957356a61584e6a627a45524d41384741";
  "31554543684d4962334a6e4d53356a623230784644415342674e5642414d5443324e684c6d39795a7a4575593239";
  "740a4d423458445445354d4467794e6a41794d544d304e6c6f58445449354d4467794d7a41794d544d304e6c6f77";
  "597a454c4d416b474131554542684d4356564d780a457a415242674e5642416754436b4e6862476c6d62334a7561";
  "574578466a415542674e564241635444564e6862694247636d467559326c7a59323878455441500a42674e564241";
  "6f54434739795a7a4575593239744d52517745675944565151444577746a59533576636d63784c6d4e766254425a";
  "4d424d4742797147534d34390a4167454743437147534d3439417745484130494142506d576d36664f5142556773";
  "47794e3061774531745564446e306659704f5875485a6e4c416664573858510a683266616b3148546e526c6f6433";
  "354f44656751677a5448526c63686c6376396843674256334d6643446d6a587a42644d4134474131556444774542";
  "2f7751450a41774942706a415042674e56485355454344414742675256485355414d41384741315564457745422f";
  "7751464d414d42416638774b5159445652304f424349450a494b326d5a723035426a52562f7a4739644d41703575";
  "3479453673367457315065373434474f72624b6347504d416f4743437147534d343942414d43413063410a4d4551";
  "43494631736b4358782b48745a555a61667437317a486c4a322b6d477074776633364947584e4c576770464f3941";
  "6942366d4a30524b707374424c72320a6b4a495257564b73656539643345444f5371715a6e494830324f75657851";
  "3d3d0a2d2d2d2d2d454e442043455254494649434154452d2d2d2d2d0a22f5052d2d2d2d2d424547494e20434552";
  "54494649434154452d2d2d2d2d0a4d4949434154434341616967417749424167495241504a4a48716766435a7565";
  "68306e314f53584c62746b77436759494b6f5a497a6a304541774977597a454c0a4d416b474131554542684d4356";
  "564d78457a415242674e5642416754436b4e6862476c6d62334a7561574578466a415542674e564241635444564e";
  "68626942470a636d467559326c7a593238784554415042674e5642416f54434739795a7a4575593239744d525177";
  "45675944565151444577746a59533576636d63784c6d4e760a62544165467730784f5441344d6a59774d6a457a4e";
  "446861467730794f5441344d6a4d774d6a457a4e4468614d464d78437a414a42674e5642415954416c56540a4d52";
  "4d77455159445651514945777044595778705a6d3979626d6c684d52597746415944565151484577315459573467";
  "526e4a68626d4e7063324e764d5263770a4651594456515144444135425a473170626b4276636d63784c6d4e7662";
  "54425a4d424d4742797147534d34394167454743437147534d343941774548413049410a42466d6474524e366d49";
  "764a4165675a534c454c676b4745553778476f4144754374473937753168646f526150654d522f756f544e4a7268";
  "584c362b4a687a450a444367395669743647636a6d4b43682b304a7641496b716a5454424c4d4134474131556444";
  "7745422f775145417749486744414d42674e5648524d42416638450a416a41414d437347413155644977516b4d43";
  "4b41494b326d5a723035426a52562f7a4739644d417035753479453673367457315065373434474f72624b634750";
  "0a4d416f4743437147534d343942414d43413063414d45514349426c6f626a487742444c69557449694763636172";
  "2f62743661534a30324b354e31376e376e73690a764a335641694258305a5164416a354c41467070786479574a70";
  "746f39554e4c5976634f3851425041476b385933496f74513d3d0a2d2d2d2d2d454e442043455254494649434154";
  "452d2d2d2d2d0a420e0a045348413212065348413235364aaa062d2d2d2d2d424547494e20434552544946494341";
  "54452d2d2d2d2d0a4d4949434b6a4343416443674177494241674952414b627a4773757964357051306f4f446763";
  "566653327777436759494b6f5a497a6a3045417749775a6a454c0a4d416b474131554542684d4356564d78457a41";
  "5242674e5642416754436b4e6862476c6d62334a7561574578466a415542674e564241635444564e68626942470a";
  "636d467559326c7a593238784554415042674e5642416f54434739795a7a4575593239744d526377465159445651";
  "51444577353062484e6a59533576636d63780a4c6d4e7662544165467730784f5441344d6a59774d6a457a4e445a";
  "61467730794f5441344d6a4d774d6a457a4e445a614d475978437a414a42674e56424159540a416c56544d524d77";
  "455159445651514945777044595778705a6d3979626d6c684d52597746415944565151484577315459573467526e";
  "4a68626d4e7063324e760a4d524577447759445651514b45776876636d63784c6d4e76625445584d425547413155";
  "4541784d4f6447787a5932457562334a6e4d53356a62323077575441540a42676371686b6a4f5051494242676771";
  "686b6a4f50514d4242774e43414151716e566d377946434b364f646c5a4b5836536d4348724b71524450496f6c6d";
  "2f4a0a4835622b2b4c7648666f6a336477506d4e345163633979466c6a7a68352f6e4552586f7656516446474634";
  "5557773561435353446f3138775854414f42674e560a485138424166384542414d4341615977447759445652306c";
  "42416777426759455652306c4144415042674e5648524d4241663845425441444151482f4d436b470a4131556444";
  "67516942434230706c2b55344348764c4e364c376f41366a6c4f35333150354434656c6737527343514579436476";
  "6c3244414b42676771686b6a4f0a5051514441674e4941444246416945416e4e6267795549686d4576515861326b";
  "324f64385837653632666e5955324c362b776f3872314453562f5143494869630a567a2f4a78546f5a334a6f5041";
  "7968546d5363577676544b7471546b345478785a674f58673339340a2d2d2d2d2d454e4420434552544946494341";
  "54452d2d2d2d2d0a1a0641646d696e7322310a0641646d696e731227121d08011219120812060801120208001a0d";
  "120b0a074f7267314d535010011a0641646d696e73223a0a0b456e646f7273656d656e74122b12210801121d1208";
  "12060801120208001a11120f0a0d4f7264657265724f72674d53501a0641646d696e7322300a0752656164657273";
  "1225121b08011217120812060801120208001a0b12090a074f7267314d53501a0641646d696e7322300a07577269";
  "746572731225121b08011217120812060801120208001a0b12090a074f7267314d53501a0641646d696e732a0641";
  "646d696e7312b3150a044f72673212aa151a9d130a034d5350129513128a131287130a074f7267324d535012b206";
  "2d2d2d2d2d424547494e2043455254494649434154452d2d2d2d2d0a4d4949434d44434341646567417749424167";
  "49514e3946624557307772312f4443385438753237576244414b42676771686b6a4f50515144416a426a4d517377";
  "0a435159445651514745774a56557a45544d4245474131554543424d4b5132467361575a76636d3570595445574d";
  "4251474131554542784d4e5532467549455a790a5957356a61584e6a627a45524d4138474131554543684d496233";
  "4a6e4d69356a623230784644415342674e5642414d5443324e684c6d39795a7a4975593239740a4d423458445445";
  "354d4467794e7a41784d446b774d466f58445449354d4467794e4441784d446b774d466f77597a454c4d416b4741";
  "31554542684d4356564d780a457a415242674e5642416754436b4e6862476c6d62334a7561574578466a41554267";
  "4e564241635444564e6862694247636d467559326c7a59323878455441500a42674e5642416f54434739795a7a49";
  "75593239744d52517745675944565151444577746a59533576636d63794c6d4e766254425a4d424d474279714753";
  "4d34390a4167454743437147534d343941774548413049414249787a74323473752f6354316d53555856325a4d51";
  "417750516b6f4e5954766f696e6d6b445a6a342b53430a79514d7170515879356254647271707573624753786777";
  "30596e5a6a712f7054384f5668706d66683977756a625442724d41344741315564447745422f7751450a41774942";
  "706a416442674e5648535545466a4155426767724267454642516344416759494b77594242515548417745774477";
  "5944565230544151482f424155770a417745422f7a417042674e56485134454967516733494a585a50396a425762";
  "74374f4f546e4a35473875706f58784b794b6269382b6f696f7677676c765438770a436759494b6f5a497a6a3045";
  "41774944527741775241496742544c585758597870582f69716159624431536149657238532b424433634b706637";
  "3939596f786d0a4d4149434941584b733849634f4642593730434b725649466b3465476276302f66485668447554";
  "6254794a45687770380a2d2d2d2d2d454e442043455254494649434154452d2d2d2d2d0a22f5052d2d2d2d2d4245";
  "47494e2043455254494649434154452d2d2d2d2d0a4d49494341544343416169674177494241674952414b304c45";
  "4e35374242327268674e627055337373765977436759494b6f5a497a6a304541774977597a454c0a4d416b474131";
  "554542684d4356564d78457a415242674e5642416754436b4e6862476c6d62334a7561574578466a415542674e56";
  "4241635444564e68626942470a636d467559326c7a593238784554415042674e5642416f54434739795a7a497559";
  "3239744d52517745675944565151444577746a59533576636d63794c6d4e760a62544165467730784f5441344d6a";
  "63774d5441354d444261467730794f5441344d6a51774d5441354d4442614d464d78437a414a42674e5642415954";
  "416c56540a4d524d77455159445651514945777044595778705a6d3979626d6c684d525977464159445651514845";
  "77315459573467526e4a68626d4e7063324e764d5263770a4651594456515144444135425a473170626b4276636d";
  "63794c6d4e766254425a4d424d4742797147534d34394167454743437147534d343941774548413049410a424d53";
  "7565727a514d445746596e762f73527259776d6e384c356277334f3435356c59364e50565a476e6c57416c545a78";
  "59713066304154584b5a7068462f6c0a32704630633567523045785454533178354850626745476a5454424c4d41";
  "344741315564447745422f775145417749486744414d42674e5648524d42416638450a416a41414d437347413155";
  "644977516b4d434b41494e79435632542f5977566d37657a6a6b35796552764c716146385373696d347650714971";
  "4c38494a62302f0a4d416f4743437147534d343942414d43413063414d4551434947347a36747a73456e664e5234";
  "6a784c794c32726231334370682f6c74555a392b674b667077520a35496162416942376c6870452b337842384939";
  "48387741324b6763484c72436f4871515742544e365941456f5a5377306f773d3d0a2d2d2d2d2d454e4420434552";
  "54494649434154452d2d2d2d2d0a420e0a045348413212065348413235364abe062d2d2d2d2d424547494e204345";
  "5254494649434154452d2d2d2d2d0a4d4949434e7a43434164326741774942416749514a72674f2b6a724e307753";
  "41736f684a764e526d456a414b42676771686b6a4f50515144416a426d4d5173770a435159445651514745774a56";
  "557a45544d4245474131554543424d4b5132467361575a76636d3570595445574d4251474131554542784d4e5532";
  "467549455a790a5957356a61584e6a627a45524d4138474131554543684d4962334a6e4d69356a62323078467a41";
  "5642674e5642414d54446e527363324e684c6d39795a7a49750a593239744d423458445445354d4467794e7a4178";
  "4d446b774d466f58445449354d4467794e4441784d446b774d466f775a6a454c4d416b474131554542684d430a56";
  "564d78457a415242674e5642416754436b4e6862476c6d62334a7561574578466a415542674e564241635444564e";
  "6862694247636d467559326c7a593238780a4554415042674e5642416f54434739795a7a4975593239744d526377";
  "46515944565151444577353062484e6a59533576636d63794c6d4e766254425a4d424d470a42797147534d343941";
  "67454743437147534d34394177454841304941424377437a596845456b4c5551466f5a714f576238455067516446";
  "7a534859776279516f0a72757450544d49374b5841392f753779616763754d37645a474442616a5a5939395a5454";
  "452b623337496357484969616b36796a625442724d413447413155640a447745422f77514541774942706a416442";
  "674e5648535545466a4155426767724267454642516344416759494b775942425155484177457744775944565230";
  "540a4151482f42415577417745422f7a417042674e5648513445496751676274764a59367a424755424858587142";
  "555a714b5137697662534e586e4d3451346273640a687741704e776b77436759494b6f5a497a6a30454177494453";
  "41417752514968414b2b533038715a515378346f505073656c5832624c2b3671584c47317a64370a484942673455";
  "6a614d636633416942794f36394e6d6f393434485131734175683145774a44686552662f5776675566634f2b6666";
  "424a753552773d3d0a2d2d2d2d2d454e442043455254494649434154452d2d2d2d2d0a1a0641646d696e731a2d0a";
  "0b416e63686f725065657273121e12140a120a0d706565722e6f7267322e636f6d108b371a0641646d696e732230";
  "0a07526561646572731225121b08011217120812060801120208001a0b12090a074f7267324d53501a0641646d69";
  "6e7322300a07577269746572731225121b08011217120812060801120208001a0b12090a074f7267324d53501a06";
  "41646d696e7322310a0641646d696e731227121d08011219120812060801120208001a0d120b0a074f7267324d53";
  "5010011a0641646d696e73223a0a0b456e646f7273656d656e74122b12210801121d120812060801120208001a11";
  "120f0a0d4f7264657265724f72674d53501a0641646d696e732a0641646d696e731af0080a0441434c7312e70812";
  "dc080a390a17717363632f4765745472616e73616374696f6e42794944121e0a1c2f4368616e6e656c2f4170706c";
  "69636174696f6e2f526561646572730a350a13717363632f476574426c6f636b427948617368121e0a1c2f436861";
  "6e6e656c2f4170706c69636174696f6e2f526561646572730a450a235f6c6966656379636c652f51756572794368";
  "61696e636f6465446566696e6974696f6e121e0a1c2f4368616e6e656c2f4170706c69636174696f6e2f52656164";
  "6572730a350a136576656e742f46696c7465726564426c6f636b121e0a1c2f4368616e6e656c2f4170706c696361";
  "74696f6e2f526561646572730a350a13637363632f476574436f6e666967426c6f636b121e0a1c2f4368616e6e65";
  "6c2f4170706c69636174696f6e2f526561646572730a3f0a1d637363632f53696d756c617465436f6e6669675472";
  "6565557064617465121e0a1c2f4368616e6e656c2f4170706c69636174696f6e2f526561646572730a400a1e6c73";
  "63632f476574496e7374616e746961746564436861696e636f646573121e0a1c2f4368616e6e656c2f4170706c69";
  "636174696f6e2f526561646572730a370a156c7363632f476574436861696e636f646544617461121e0a1c2f4368";
  "616e6e656c2f4170706c69636174696f6e2f526561646572730a360a146c7363632f436861696e636f6465457869";
  "737473121e0a1c2f4368616e6e656c2f4170706c69636174696f6e2f526561646572730a330a11717363632f4765";
  "74436861696e496e666f121e0a1c2f4368616e6e656c2f4170706c69636174696f6e2f526561646572730a350a13";
  "717363632f476574426c6f636b427954784944121e0a1c2f4368616e6e656c2f4170706c69636174696f6e2f5265";
  "61646572730a340a12637363632f476574436f6e66696754726565121e0a1c2f4368616e6e656c2f4170706c6963";
  "6174696f6e2f526561646572730a3b0a19706565722f436861696e636f6465546f436861696e636f6465121e0a1c";
  "2f4368616e6e656c2f4170706c69636174696f6e2f526561646572730a380a166c7363632f4765744465706c6f79";
  "6d656e7453706563121e0a1c2f4368616e6e656c2f4170706c69636174696f6e2f526561646572730a2e0a0c7065";
  "65722f50726f706f7365121e0a1c2f4368616e6e656c2f4170706c69636174696f6e2f577269746572730a370a15";
  "717363632f476574426c6f636b42794e756d626572121e0a1c2f4368616e6e656c2f4170706c69636174696f6e2f";
  "526561646572730a460a245f6c6966656379636c652f436f6d6d6974436861696e636f6465446566696e6974696f";
  "6e121e0a1c2f4368616e6e656c2f4170706c69636174696f6e2f577269746572730a460a245f6c6966656379636c";
  "652f51756572794e616d657370616365446566696e6974696f6e73121e0a1c2f4368616e6e656c2f4170706c6963";
  "6174696f6e2f526561646572730a2d0a0b6576656e742f426c6f636b121e0a1c2f4368616e6e656c2f4170706c69";
  "636174696f6e2f526561646572731a0641646d696e731a240a0c4361706162696c69746965731214120a0a080a04";
  "56315f3312001a0641646d696e7322220a07577269746572731217120d080312090a07577269746572731a064164";
  "6d696e7322220a0641646d696e731218120e0803120a0a0641646d696e7310021a0641646d696e7322330a144c69";
  "66656379636c65456e646f7273656d656e74121b12110803120d0a0b456e646f7273656d656e741a0641646d696e";
  "73222a0a0b456e646f7273656d656e74121b12110803120d0a0b456e646f7273656d656e741a0641646d696e7322";
  "220a07526561646572731217120d080312090a07526561646572731a0641646d696e732a0641646d696e731a260a";
  "1048617368696e67416c676f726974686d121212080a065348413235361a0641646d696e731a2d0a19426c6f636b";
  "4461746148617368696e675374727563747572651210120608ffffffff0f1a0641646d696e731a3d0a104f726465";
  "7265724164647265737365731229120e0a0c6f7264657265723a373035301a172f4368616e6e656c2f4f72646572";
  "65722f41646d696e7322220a0641646d696e731218120e0803120a0a0641646d696e7310021a0641646d696e7322";
  "220a07526561646572731217120d080312090a07526561646572731a0641646d696e7322220a0757726974657273";
  "1217120d080312090a07577269746572731a0641646d696e732a0641646d696e731a0a0a000a000a000a000a00"
]%string.

#[export] Instance repository_files : FileSystem := {|
  read_file path :=
    if decide (path = u "network-config/genesis.block") then Ok genesis_block_file
    else if decide (path = u "network-config/channel.tx") then Ok channel_tx_file
    else if decide (path = u "test/resources/certfile") then Ok (bs "notactuallyacert")
    else if decide (path = u "test/resources/keyfile") then Ok (bs "notactuallyakey")
    else if decide (path = u "test/resources/client_certfile") then Ok (bs "notactuallyaclientcert")
    else if decide (path = u "test/resources/client_keyfile") then Ok (bs "notactuallyaclientkey")
    else Raise (FileNotFoundError path);
|}.
