(* ===== verification/Conformance.v ===== *)
(** * Conformance: the repository's own tests, run on the model

    A Module per file of test/, an [Example] per test that does not consist of
    calls of mocks; the assertions are those of the test.  Besides showing that
    the definitions compute what the tests ask of the program, this reads two
    files that the tools of Fabric made ([genesis_block_decoded],
    [channel_tx_decoded]) with the decoder and the proto3 codec of the model. *)
From S2P Require Import Prelude PyText Sha256 Sha3 Pem Wire Protobuf Descriptors CommonProtos PeerProtos Constants TxData Errors Crypto Grpc Models Transactions Decoded Block Runtime Factories Roundtrip Policies Connect Events Transact Package Operations Safety Gateway Completion Deployment Lifecycle Config Toy Fixtures.

(** The files are those of the repository. *)
#[local] Existing Instance repository_files.

(** The message of an exception. *)
Definition message (e : exn) : pystr :=
  match e with
  | ValueError m | KeyError m | BlockchainError m | TrasactionCommitError m _
  | TransactionProposalError m _ | BlockRetrievalError m _ | BlockchainConnectionError m _ _
  | TransactionValidationError m _ => m
  | _ => []
  end.

(** The class of what is raised, if anything is. *)
Definition raised {A} (r : res A) : option pyclass :=
  match r with Raise e => Some (class_of e) | _ => None end.

(** ** conftest.py *)

Definition raw_block : RawBlock :=
  mkRawBlock (mkBlockHeader 5 (bs "12345") (bs "234567")) (mkBlockData [[]]) (mkBlockMetadata [[]]).

Definition genesis_block : res RawBlock :=
  contents ← read_file (u "network-config/genesis.block");
  block ← parse Block contents;
  mret (RawBlock_from_proto block).

Definition decoded_channel_tx : res DecodedTX :=
  contents ← read_file (u "network-config/channel.tx");
  DecodedTX_decode contents.

(** ** errors_test.py *)

Module errors_test.

Example test_tx_error_abstract :
  raised (TransactionError_init TransactionError_base (u "123") (u "456")) = Some CNotImplementedError.
Proof. reflexivity. Qed.

Example test_tx_commit_error_msg :
  message (new_TrasactionCommitError (u "Failed to commit") (u "123")
    (mkBroadcastResponse 403 (u "someinfo")))
  = u "Failed to commit for tx 123 (status: 403): someinfo".
Proof. reflexivity. Qed.

Definition tx_with (responses : list ProposalResponse) : EndorsedTX :=
  mkEndorsedTX responses Proposal_default Header_default
    (mkTXContext SerializedIdentity_default [] (u "123") 0).

Definition response (status : Z) (text : pystr) (payload : bytes) : ProposalResponse :=
  mkProposalResponse 0 None (Some (mkResponse status text payload)) [] None.

Example test_tx_prop_err_msg :
  message (new_TransactionProposalError (u "uh oh") (tx_with [response 500 (u "tx failed") []]))
  = u "uh oh for tx 123 (status: 500): tx failed".
Proof. reflexivity. Qed.

Example test_tx_prop_no_err :
  message (new_TransactionProposalError (u "uh oh") (tx_with []))
  = u "uh oh for tx 123 (status: 0): <no error message>".
Proof. reflexivity. Qed.

Example test_block_retreival_error_msg :
  message (new_BlockRetrievalError (u "123") (Some 403%Z)) = u "123: status (403)".
Proof. reflexivity. Qed.

Example test_bc_conn_err_msg :
  message (new_BlockchainConnectionError (u "E123") (u "Bad conn"))
  = u "Blockchain communication failure (E123): Bad conn".
Proof. reflexivity. Qed.

Example test_tx_validation_err_msg :
  message (new_TransactionValidationError 2)
  = u "Transaction failed validations, with the following code: BAD_PAYLOAD".
Proof. vm_compute. reflexivity. Qed.

Example test_handle_conn_errs :
  raised (handle_conn_errors (throw (RpcError (u "5") (u "some details")) : M unit) w0).1
  = Some CBlockchainConnectionError.
Proof. reflexivity. Qed.
End errors_test.

(** ** models_block_test.py *)

Module models_block_test.

Definition proto_block : Block :=
  mkBlock (Some (mkBlockHeader 5 (bs "12345") (bs "234567"))) (Some (mkBlockData [[]]))
    (Some (mkBlockMetadata [[]])).

Example test_raw_block_from_proto : RawBlock_from_proto proto_block = raw_block.
Proof. reflexivity. Qed.

Example test_raw_block_transactions : RawBlock_transactions raw_block = [[]].
Proof. reflexivity. Qed.

Example test_raw_block_as_proto : RawBlock_as_proto raw_block = proto_block.
Proof. reflexivity. Qed.

(** [test_raw_block_decode] and [test_decode_block_transactions]; the file says
    besides which block it is. *)
Example genesis_block_decoded :
  (raw ← genesis_block;
   block ← RawBlock_decode raw;
   mret (BlockHeader_number (db_header block), length (DecodedBlock_transactions block),
         (λ tx, (DecodedTX_tx_id tx,
                 ChannelHeader_channel_id (dh_channel_header (dp_header (dtx_payload tx))),
                 ChannelHeader_type (dh_channel_header (dp_header (dtx_payload tx)))))
         <$> DecodedBlock_transactions block))
  = Ok (0%Z, 1,
        [(u "7f1dca753cf0807b3a3ae971c1f4f647e5e54001e793702c385ca7e1c479c38c",
          u "genesis-channel", TransactionType_value TxConfig)]).
Proof. vm_compute. reflexivity. Qed.

Definition ftx : FilteredTransaction :=
  mkFilteredTransaction (u "123") (TransactionType_value TxMessage) TxValidationCode_VALID
    (Some (FilteredTransaction_is_transaction_actions (mkFilteredTransactionActions []))).

Example test_filt_block_from_proto :
  FilteredBlock_from_proto (mkFilteredBlockProto (u "somechannel") 10 [ftx])
  = (tx ← FilteredTX.from_proto ftx; mret (mkFilteredBlock (u "somechannel") 10 [tx])).
Proof. reflexivity. Qed.
End models_block_test.

(** ** models_transaction_test.py *)

Module models_transaction_test.

Definition context (tx_id : string) : TXContext := mkTXContext SerializedIdentity_default [] (u tx_id) 0.
Definition response (status : Z) (payload : bytes) : ProposalResponse :=
  mkProposalResponse 0 None (Some (mkResponse status [] payload)) [] None.

Definition generated_tx : GeneratedTX :=
  mkGeneratedTX (context "234567") Proposal_default SignedProposal_default Header_default.
Definition endorsed_tx : EndorsedTX :=
  mkEndorsedTX [response 200 (bs "abc"); response 500 (bs "err")] Proposal_default Header_default
    (context "123456").
Definition with_responses (responses : list ProposalResponse) : EndorsedTX :=
  mkEndorsedTX responses (et_proposal endorsed_tx) (et_header endorsed_tx) (et_tx_context endorsed_tx).

Example test_endtx_resp_payload : response_payload endorsed_tx = Ok (bs "abc").
Proof. reflexivity. Qed.

Example test_endtx_resp_payload_err : raised (response_payload (with_responses [])) = Some CValueError.
Proof. reflexivity. Qed.

Example test_endtx_error_resp : error_responses endorsed_tx = [response 500 (bs "err")].
Proof. reflexivity. Qed.

Example test_endtx_success_resp : success_responses endorsed_tx = [response 200 (bs "abc")].
Proof. reflexivity. Qed.

Example test_endtx_fully_end : fully_endorsed (with_responses (success_responses endorsed_tx)) = true.
Proof. reflexivity. Qed.

Example test_endtx_not_fully_end : fully_endorsed endorsed_tx = false.
Proof. reflexivity. Qed.

Example test_endtx_tx_id : EndorsedTX_tx_id endorsed_tx = u "123456".
Proof. reflexivity. Qed.

Example test_gen_tx_tx_id : GeneratedTX_tx_id generated_tx = u "234567".
Proof. reflexivity. Qed.

Example test_filt_tx_from_proto :
  FilteredTX.from_proto (mkFilteredTransaction (u "09876") (TransactionType_value TxMessage)
    TxValidationCode_VALID
    (Some (FilteredTransaction_is_transaction_actions FilteredTransactionActions_default)))
  = Ok (FilteredTX.mk (u "09876") TxMessage TxValidationCode_VALID FilteredTransactionActions_default).
Proof. reflexivity. Qed.

(** [test_decoded_tx_decode]; the file asks for the channel of
    bin/generate-channel-tx and carries no signature. *)
Example channel_tx_decoded :
  (tx ← decoded_channel_tx;
   let h := dh_channel_header (dp_header (dtx_payload tx)) in
   mret (ChannelHeader_channel_id h, ChannelHeader_type h, dtx_signature tx,
         match dp_data (dtx_payload tx) with
         | PayloadConfigUpdate c => Some (length (dcue_signatures c))
         | _ => None
         end))
  = Ok (u "examplechan", TransactionType_value TxConfigUpdate, [], Some 0).
Proof. vm_compute. reflexivity. Qed.

(** [test_decoded_tx_tx_id] expects the id of another genesis block: the one in
    the repository has the id of [genesis_block_decoded]. *)
Example test_decoded_tx_tx_id_stale :
  (raw ← genesis_block;
   block ← RawBlock_decode raw;
   mret (bool_decide (head (DecodedTX_tx_id <$> DecodedBlock_transactions block)
     = Some (u "f0e9c28f528210b234dd613fa5ed20fa49082df15e96ad35590080ae3d357c5d"))))
  = Ok false.
Proof. vm_compute. reflexivity. Qed.
End models_transaction_test.

(** ** models_test.py *)

Module models_test.

Definition admin (cert_path key_path : option pystr) : User :=
  mkUser (u "MyOrg") (Some (u "AdminUser")) cert_path key_path None None ecies None.

Example test_user_post_init :
  (user ← User_post_init (admin (Some (u "test/resources/certfile")) (Some (u "test/resources/keyfile")));
   key ← load_pem_private_key (bs "notactuallyakey");
   mret (user_key user, user_cert user, bool_decide (user_private_key user = Some key)))
  = Ok (Some (bs "notactuallyakey"), Some (bs "notactuallyacert"), true).
Proof. vm_compute. reflexivity. Qed.

Example test_user_missing_key :
  raised (User_post_init (admin (Some (u "test/resources/certfile")) None)) = Some CValueError.
Proof. vm_compute. reflexivity. Qed.

Example test_user_missing_cert :
  raised (User_post_init (admin None (Some (u "test/resources/keyfile")))) = Some CValueError.
Proof. vm_compute. reflexivity. Qed.

(** The channel a model connects through. *)
Definition channel_of (target ca cert key : option pystr) : res GrpcChannel :=
  snd <$> ConnectedModel_post_init
    (mkConnectedModel (u "notactuallyahost:7050") target ca None cert None key None).

Example test_orderer_no_certs :
  channel_of None None None None = Ok (insecure_channel (u "notactuallyahost:7050") []).
Proof. reflexivity. Qed.

Example test_orderer_ssl_target_name :
  channel_of (Some (u "otherhostname")) None None None
  = Ok (insecure_channel (u "notactuallyahost:7050")
          [(u "grpc.ssl_target_name_override", u "otherhostname")]).
Proof. reflexivity. Qed.

Example test_orderer_tls_cert :
  channel_of None (Some (u "test/resources/certfile")) None None
  = Ok (secure_channel (u "notactuallyahost:7050")
          (mkCredentials (bs "notactuallyacert") None None) []).
Proof. vm_compute. reflexivity. Qed.

Example test_orderer_client_auth :
  channel_of None (Some (u "test/resources/certfile")) (Some (u "test/resources/client_certfile"))
    (Some (u "test/resources/client_keyfile"))
  = Ok (secure_channel (u "notactuallyahost:7050")
          (mkCredentials (bs "notactuallyacert") (Some (bs "notactuallyaclientkey"))
             (Some (bs "notactuallyaclientcert"))) []).
Proof. vm_compute. reflexivity. Qed.

Definition role1 : EndorsementPolicyRole := new_EndorsementPolicyRole (u "MyOrg") (u "member").
Definition role2 : EndorsementPolicyRole := new_EndorsementPolicyRole (u "MyOrg") (u "admin").
Definition policy : EndorsementPolicy :=
  mkEndorsementPolicy PolicyOr None [role2] [mkEndorsementPolicy PolicyAnd None [role1] []].

Example test_end_policy_all_roles : all_roles policy = [role2; role1].
Proof. vm_compute. reflexivity. Qed.

Example test_end_policy_role_map : role_map policy = {[ role2 := 0%Z; role1 := 1%Z ]}.
Proof. vm_compute. reflexivity. Qed.
End models_test.

(** ** config_test.py *)

Module config_test.

Definition org1_user : User :=
  mkUser (u "Org1MSP") None None None (Some (bs "cert")) (Some (bs "key")) ecies None.

Example test_bad_file_ext (loads : bytes → res unit) (build : unit → res BlockchainConfig) :
  raised (from_file loads loads build (u "network-config/genesis.block")) = Some CValueError.
Proof. vm_compute. reflexivity. Qed.

Definition endpoint123 : ConnectedModel := mkConnectedModel (u "123") None None None None None None None.

Example test_no_names :
  (peer ← new_Peer endpoint123 None;
   orderer ← new_Orderer endpoint123 None;
   config ← BlockchainConfig_post_init (mkBlockchainConfig [(u "abc", peer)] [(u "bcd", orderer)]
     [(u "def", org1_user)] [(u "cde", mkChaincodeSpec None None GOLANG None None)] []);
   peer ← get_peer config (u "abc");
   orderer ← get_orderer config (u "bcd");
   chaincode ← get_chaincode config (u "cde");
   user ← get_user config (u "def");
   mret [peer_name peer; orderer_name orderer; cc_name chaincode; user_name user])
  = Ok [Some (u "abc"); Some (u "bcd"); Some (u "cde"); Some (u "def")].
Proof. vm_compute. reflexivity. Qed.

Definition no_config : BlockchainConfig := mkBlockchainConfig [] [] [] [] [].

Example test_no_config_with_name :
  (raised (get_peer no_config (u "abc")), raised (get_orderer no_config (u "abc")),
   raised (get_user no_config (u "abc")), raised (get_chaincode no_config (u "abc")),
   raised (get_gateway no_config (u "abc")))
  = (Some CKeyError, Some CKeyError, Some CKeyError, Some CKeyError, Some CKeyError).
Proof. vm_compute. reflexivity. Qed.

(** What is compared of a user. *)
Definition user_fields (user : User) : pystr * option pystr * option bytes * option bytes :=
  (user_msp_id user, user_name user, user_cert user, user_key user).

Example test_get_gateway :
  (config ← BlockchainConfig_post_init (mkBlockchainConfig [] [] [(u "org1_user", org1_user)] []
     [(u "mygw", mkGatewayConfig (u "123") (u "org1_user") [] [] None)]);
   gateway ← get_gateway config (u "mygw");
   mret (length (gw_endorsing_peers gateway), length (gw_orderers gateway), gw_channel gateway,
         user_fields <$> gw_requestor gateway, cc_name <$> gw_chaincode gateway))
  = Ok (0, 0, Some (mkChannel (u "123")),
        Some (u "Org1MSP", Some (u "org1_user"), Some (bs "cert"), Some (bs "key")), None).
Proof. vm_compute. reflexivity. Qed.
End config_test.

(** ** crypto_test.py *)

Module crypto_test.
Example test_set_default_crypto (csuite : Ecies) :
  suite_default (set_default csuite initial_CryptoSuite) = csuite.
Proof. reflexivity. Qed.
End crypto_test.

(** ** models_gateway_test.py *)

Module models_gateway_test.

Definition CHANNEL : Channel := mkChannel (u "notarealchannel").
Definition cc_spec : ChaincodeSpec := mkChaincodeSpec (Some (u "notarealcc")) None GOLANG None None.
Definition gateway : Gateway :=
  mkGateway [toy_peer "peer.host.com"] [toy_orderer "orderer.host.com"] (Some CHANNEL) (Some alice)
    (Some cc_spec).

(** [_assert_gw_required]: [replace(gateway, field=None)] for each field. *)
Inductive field := endorsing_peers | orderers | channel | requestor | chaincode.
Definition without (f : field) : Gateway :=
  match gateway with
  | mkGateway ps os ch rq cc =>
    mkGateway (if f is endorsing_peers then [] else ps) (if f is orderers then [] else os)
      (if f is channel then None else ch) (if f is requestor then None else rq)
      (if f is chaincode then None else cc)
  end.
Definition required {A} (f : Gateway → M A) (fields : list field) : bool :=
  forallb (λ x, bool_decide (raised (f (without x) w0).1 = Some CValueError)) fields.

Example test_gw_transact_required :
  required (λ gw, transact gw (u "abc") None None) [channel; endorsing_peers; requestor; chaincode] = true.
Proof. vm_compute. reflexivity. Qed.
Example test_gw_create_channel_required :
  required (λ gw, Gateway_create_channel gw (u "mychannel.tx")) [orderers; channel; requestor] = true.
Proof. vm_compute. reflexivity. Qed.
Example test_gw_join_channel_required :
  required (λ gw, Gateway_join_channel gw None) [channel; requestor] = true.
Proof. vm_compute. reflexivity. Qed.
Example test_gw_query_inst_cc_required :
  required Gateway_query_instantiated_chaincodes [channel; requestor; endorsing_peers] = true.
Proof. vm_compute. reflexivity. Qed.
Example test_gw_install_cc_required :
  required (λ gw, Gateway_install_chaincode gw None) [endorsing_peers; requestor] = true.
Proof. vm_compute. reflexivity. Qed.
Example test_gw_inst_cc_required :
  required (λ gw, Gateway_instantiate_chaincode gw None false 30)
    [requestor; chaincode; channel; endorsing_peers; orderers] = true.
Proof. vm_compute. reflexivity. Qed.

(** The builder of a generated transaction, its methods called in turn and
    awaited. *)
Definition tx_builder : GatewayTXBuilder := new_GatewayTXBuilder gateway gtx1.
Definition awaited (b : GatewayTXBuilder) : res EndorsedTX := (await_builder b w0).1.

Example test_txbuild_chain :
  let b := wait_for_commit true 30 (submit (propose true tx_builder)) in
  (EndorsedTX_tx_id <$> awaited b) = Ok (GeneratedTX_tx_id gtx1).
Proof. vm_compute. reflexivity. Qed.

(** [test_txbuild_awaits]: each method is awaited before the next is called. *)
Definition awaits (b : GatewayTXBuilder) (w : World) : list (res pystr) :=
  let s1 := run_operations (propose true b, w) in
  let s2 := run_operations (submit s1.2.1, s1.2.2) in
  let s3 := run_operations (wait_for_commit true 30 s2.2.1, s2.2.2) in
  (λ r : res EndorsedTX, EndorsedTX_tx_id <$> r) <$> [s1.1; s2.1; s3.1].

Example test_txbuild_awaits :
  awaits tx_builder w0 = replicate 3 (Ok (GeneratedTX_tx_id gtx1)).
Proof. vm_compute. reflexivity. Qed.

Example test_txbuild_wait_error_false :
  let b := wait_for_commit false 30 (submit (propose true tx_builder)) in
  (EndorsedTX_tx_id <$> awaited b) = Ok (GeneratedTX_tx_id gtx1).
Proof. vm_compute. reflexivity. Qed.

Definition starts_with (prefix : string) (e : res EndorsedTX) : option (pyclass * bool) :=
  match e with
  | Raise e => Some (class_of e, bool_decide (take (length (u prefix)) (message e) = u prefix))
  | _ => None
  end.

Example test_txbuild_bad_chains :
  starts_with "Must propose" (awaited (wait_for_commit true 30 (propose true (submit tx_builder))))
    = Some (CValueError, true)
  ∧ starts_with "Must commit" (awaited (wait_for_commit true 30 tx_builder)) = Some (CValueError, true)
  ∧ starts_with "Transaction never proposed" (awaited tx_builder) = Some (CBlockchainError, true).
Proof. split_and!; vm_compute; reflexivity. Qed.

(** A network whose peers fail to deliver events the first [n] times one is
    asked. *)
Definition deliveries (w : World) : nat :=
  length (List.filter (λ a, if a is ADeliverFiltered _ _ then true else false) (w_trace w)).
Definition failing_deliveries (n : nat) : Network := {|
  ProcessProposal := @ProcessProposal toy_network;
  Broadcast := @Broadcast toy_network;
  Deliver := @Deliver toy_network;
  DeliverFiltered w p env :=
    if deliveries w <=? n then mkStream [] (Broken 1 (u "UNAVAILABLE") (u "Peer not found"))
    else @DeliverFiltered toy_network w p env;
  OrdererDeliver := @OrdererDeliver toy_network;
|}.

Definition chain (g : Gateway) : GatewayTXBuilder :=
  wait_for_commit true 30 (submit (propose true (new_GatewayTXBuilder g gtx1))).
Definition peer_twice : Gateway :=
  mkGateway (gw_endorsing_peers gateway ++ gw_endorsing_peers gateway) (gw_orderers gateway)
    (gw_channel gateway) (gw_requestor gateway) (gw_chaincode gateway).

Example test_txbuild_fail :
  raised (@await_builder _ _ (failing_deliveries 1) (chain gateway) w0).1
  = Some CBlockchainConnectionError.
Proof. vm_compute. reflexivity. Qed.

Example test_txbuild_retry_wait :
  raised (@await_builder _ _ (failing_deliveries 1) (chain peer_twice) w0).1 = None.
Proof. vm_compute. reflexivity. Qed.
End models_gateway_test.
